(* ===== verification/_CoqProject ===== *)
-Q . S2P
Prelude.v
MemLayout.v
Stdint.v
Errno.v
Bitmap.v
Pmm.v
Buddy.v
BuddyLists.v
BuddyInv.v
BuddyThms.v
CString.v
Slab.v
SlabInv.v
SlabThms.v
Kmalloc.v
Task.v
TaskInv.v
TaskThms.v
Tty.v
Driver.v
Block.v
Vmm.v
Ramfs.v
Vfs.v
Console.v
Vga.v
Ports.v
Serial.v
Idt.v
Ata.v
AtaThms.v
Legacy.v
Reports.v
VfsShape.v
Shell.v
ShellSys.v
ShellCmds.v
ShellRun.v
BlockStore.v
ShellThms.v
ShellDisk.v
ShellHex.v
ShellEdit.v
Nvme.v
NvmeThms.v
NvmePci.v
Panic.v
Traps.v
Boot.v
BootDrivers.v
BootThms.v
BootMain.v
