(* ===== verification/Prelude.v ===== *)
(** * IGNIS OS: a verified model of the kernel

    IGNIS OS is a small 64-bit kernel in C.  This library models its code as
    Rocq functions, one definition per C function, and proves what makes each
    part correct, or shows precisely where it is not.

    ** The program and its parts

    Memory comes in layers.  [mm/pmm.c] keeps a bitmap of page frames;
    [mm/allocators/buddy.c] manages one region of them in blocks of a power of
    two pages; [mm/allocators/slab.c] cuts those blocks into objects; and
    [mm/allocators/kmalloc.c] is the general heap on top.  [mm/vmm.c] edits the
    page tables.  [scheduler/task.c] runs tasks round robin, driven by the
    timer interrupt of [drivers/pit.c]; [drivers/keyboard.c] feeds characters
    to [tty/tty.c], on which the shell blocks.  [drivers/driver.c] starts
    drivers in order of priority and dependency.  [drivers/block.c] passes
    block requests to a disk driver, [drivers/disks/ata.c] or
    [drivers/disks/nvme.c].  [fs/vfs.c] resolves paths and passes requests to [fs/filesystems/ramfs.c].
    [console/console.c] passes text to [io/vga.c]; [io/serial.c] is the debug
    port.  [shell/shell.c] reads lines and calls all of the above;
    [error_handling/kernel_panic.c] reports a fatal error and halts.
    [kernel.c] brings all parts up in order and becomes the idle loop.

    ** Files

    - [Prelude]: machine integers with their wrap-around, arrays, byte maps,
      counted loops, and the tactics every file uses.
    - [MemLayout], [Stdint], [Errno], [CString]: mm/memory_layout.h, the integer
      types, errno.h, libc.
    - [Bitmap], [Pmm]: the frame bitmap and the physical memory manager.
    - [Buddy], [BuddyLists], [BuddyInv], [BuddyThms]: the buddy allocator, its
      doubly linked free lists, its invariant, its theorems.
    - [Slab], [SlabInv], [SlabThms]: caches, slabs and objects, over any page
      allocator (class [PageAllocator], of which the buddy allocator is the
      instance).
    - [Kmalloc]: the heap with its headers in memory.  [Legacy]: mm/memory.c.
    - [Task], [TaskInv], [TaskThms]: tasks, queues, the scheduler and the timer
      interrupt, over any heap (class [KHeap], instance [kmalloc_heap]).
    - [Tty]: the terminal and the keyboard, with the blocking reader step by
      step against interrupts.
    - [Driver], [Block], [Vmm], [Ramfs], [Vfs], [VfsShape]: driver registry,
      block layer, page tables, file systems, and the equivalence of file trees
      that path resolution respects.
    - [Console], [Vga]: the console layer and the text screen.
    - [Ports], [Serial], [Idt], [Ata], [AtaThms]: port input and output as a
      state monad with weakest preconditions, the serial port, the interrupt
      table and the timer chip, the ATA driver.
    - [Nvme], [NvmeThms], [NvmePci]: the NVMe driver; its queues as a channel
      to the controller; the bus scan and the creation of queues.
    - [Panic]: the panic screen and its serial log.  [Traps]: the page-fault
      handler and the timer's interface.
    - [Boot], [BootDrivers], [BootThms], [BootMain]: the driver records and
      [kernel_main] on the parts side by side, with one heap and the interrupt
      flag; the order in which the drivers start; what the early parts leave;
      the whole sequence with timer interrupts between its calls.
    - [Reports]: the functions that print a component's state.
    - [Shell], [ShellSys], [ShellCmds], [ShellRun], [ShellEdit]: splitting of
      lines, the system a command works on, the 37 commands, dispatch and the
      main loop, the line editor.
    - [BlockStore]: what clients of a disk rely on, discharged by the ATA
      driver.  [ShellThms], [ShellDisk], [ShellHex]: commands followed end to
      end.

    ** How the model corresponds to the code

    A C struct is a record with the same fields; a global variable is a field
    of the component's state, which every function takes and returns.  A
    structure reached through a pointer lives in a finite map keyed by address,
    with 0 for the null pointer, so aliasing and freed memory are visible.
    Integers are [Z] with the wrap-around of their C type written where it can
    matter.  Error codes are the values of [kerr_t].  Undefined behaviour that
    the code can reach is an explicit outcome or parameter: an uninitialised
    variable is an argument, a buffer overflow gives no result.  Hardware is a
    parameter too: a bus of ports ([PortBus]) with any behaviour, and classes
    such as [Uart], [AtaDrive], [NvmeQueue] and [PciConfig] that state the documented protocol of a
    device; concrete devices show that the protocols can be met.

    ** What the theorems show

    - Allocators: live blocks and objects are disjoint, inside their region and
      counted exactly, through every sequence of allocations and of frees of
      what was allocated (frees of other addresses are covered where the code
      ignores them); an allocation succeeds exactly when there is room; freeing
      merges; large requests round trip; the sizes [buddy_init] accepts.  The
      defects found are theorems as well: frames are never freed, a slab cache
      is shrunk for ever, a truncated large request, and the overlap that
      freeing a page inside a buddy block causes.
    - Scheduler: the linked queues refine a round robin queue; every ready task
      runs within a bounded number of ticks; creation and the operations that
      give up the processor are correct on every branch.
    - Terminal: input refines a queue; a blocked reader gets its line; the
      window in which a wake-up is lost.
    - Drivers: initialisation runs every driver whose dependencies can be met,
      once, after them, in priority order.  An ATA block written is the block
      read, on any drive that follows the protocol; on any drive that is
      not busy for ever a transfer ends, with [E_OK] exactly when the drive asks
      for the data, and an error leaves memory alone.  The NVMe queues are a first-in first-out channel for any number of
      commands; a queue pair is created ready or without a leak; the scan finds the
      first controller, and leaves interrupts on.
    - Panic: both outputs carry the whole report, a panic inside a panic stops at
      one line, and a write is at most one cell past the screen, which it can be.
    - Page tables: mapping and unmapping change one page and no other, and say so
      in their result.  The integer types have the width and sign of their names
      and the limits are their ranges.
    - Boot: the drivers start one by one in a fixed order; on any machine whose
      disk driver answers, without an NVMe controller, [kernel_main] reaches the idle
      loop with interrupts on, handlers in place, the root mounted and the
      shell ready to run.  Interrupts come on inside [driver_init_all], from the
      bus scan of the NVMe driver, when there is no task yet; timer interrupts
      may then fall between any two calls, any number before [scheduler_init]
      and fewer than a time slice after it.  Two allocators own the same 64 MB.
    - Files: what is written is read; creating and deleting change one entry;
      a path resolves along the directories.
    - Screen: the driver and the console layer refine a scrolling text tape.
    - Shell: splitting equals the words of the line; every line runs exactly
      the command it names; [write] then [cat] shows the text; [blktest]
      passes on every device that keeps its blocks; [hexdump] draws the rows;
      the line editor refines a list.

    ** Fuel

    Recursion that is not structural takes fuel, and the theorems show that the
    fuel given is enough.  [BUDDY_FUEL] exceeds the number of orders;
    [list_fuel], [queue_fuel], [ram_fuel] and [mb_fuel] are one more than the
    number of stored nodes, which bounds a list without repetition;
    [UITOA_FUEL] is the 20 digits of a 64-bit number; string loops need one
    step more than the length; each pass of [driver_init_all] starts a driver
    or is the last.  Polling loops that the source does not bound take fuel
    that must exceed the latency of the device; those that it bounds use its
    bound (1000000 polls for the ATA data request, 5000000 for an NVMe
    completion).  A computation whose fuel
    runs out gives no result, so that a theorem with a result is a theorem of
    termination.

    ** Not modelled

    The assembly files (boot, context switch, interrupt stubs) and the linker
    script; the register reads of the panic functions, which are inline
    assembly; debug output on the serial port inside components,
    which does not change their state; what the drivers print while they start;
    during boot, interrupts inside a call and keyboard interrupts; declarations and constants of the headers that no code uses. *)

From Stdlib Require Export ZArith Lia.
From stdpp Require Export base numbers option list gmap fin_maps strings tactics decidable.
From stdpp Require Export list_basics list_relations list_monad list_misc list_tactics list_numbers.
#[global] Open Scope Z_scope.

(** ** Machine integers

    Unsigned C integers are kept as [Z]; every C operation that can leave the
    range of its type is followed by the wrap-around of that type. *)

Definition u8 (x : Z) : Z := x mod 256.
Definition u16 (x : Z) : Z := x mod 65536.
Definition u32 (x : Z) : Z := x mod 4294967296.
Definition u64 (x : Z) : Z := x mod 18446744073709551616.

(** Two's complement reading of the low 32 bits, the C type [int]. *)
Definition i32 (x : Z) : Z := (x + 2147483648) mod 4294967296 - 2147483648.

Lemma u8_small x : 0 <= x < 256 -> u8 x = x.
Proof. intros. by apply Z.mod_small. Qed.
Lemma u16_small x : 0 <= x < 65536 -> u16 x = x.
Proof. intros. by apply Z.mod_small. Qed.
Lemma u32_small x : 0 <= x < 4294967296 -> u32 x = x.
Proof. intros. by apply Z.mod_small. Qed.
Lemma u64_small x : 0 <= x < 18446744073709551616 -> u64 x = x.
Proof. intros. by apply Z.mod_small. Qed.
Lemma i32_small x : -2147483648 <= x < 2147483648 -> i32 x = x.
Proof. intros. unfold i32. rewrite Z.mod_small; lia. Qed.

Lemma u8_range x : 0 <= u8 x < 256.
Proof. by apply Z.mod_pos_bound. Qed.
Lemma u16_range x : 0 <= u16 x < 65536.
Proof. by apply Z.mod_pos_bound. Qed.
Lemma u32_range x : 0 <= u32 x < 4294967296.
Proof. by apply Z.mod_pos_bound. Qed.
Lemma u64_range x : 0 <= u64 x < 18446744073709551616.
Proof. by apply Z.mod_pos_bound. Qed.

(** [wrap_small] removes every wrap-around whose argument [lia] bounds. *)
Ltac wrap_small :=
  repeat match goal with
  | |- context [u64 ?x] => rewrite (u64_small x) by lia
  | |- context [u32 ?x] => rewrite (u32_small x) by lia
  | |- context [u16 ?x] => rewrite (u16_small x) by lia
  | |- context [u8 ?x] => rewrite (u8_small x) by lia
  end.

(** [dlia]: [lia] after turning division and modulo into their defining equations. *)
Ltac dlia := Z.div_mod_to_equations; lia.

(** Reflect the boolean comparisons of the code into propositions. *)
Ltac zbool :=
  repeat match goal with
  | H : context [Z.ltb ?a ?b] |- _ => destruct (Z.ltb_spec a b)
  | H : context [Z.leb ?a ?b] |- _ => destruct (Z.leb_spec a b)
  | H : context [Z.eqb ?a ?b] |- _ => destruct (Z.eqb_spec a b)
  | |- context [Z.ltb ?a ?b] => destruct (Z.ltb_spec a b)
  | |- context [Z.leb ?a ?b] => destruct (Z.leb_spec a b)
  | |- context [Z.eqb ?a ?b] => destruct (Z.eqb_spec a b)
  end.

(** Decide an equation between boolean combinations of comparisons. *)
Ltac zdecide := zbool; first [reflexivity | exfalso; lia].

(** Destruct all existentials and conjunctions in the context. *)
Ltac deex :=
  repeat match goal with
  | H : ex _ |- _ => destruct H
  | H : _ /\ _ |- _ => destruct H
  end.

(** ** Arrays of machine integers

    A C array of fixed size is a list of [Z]; [nthz] and [updz] index it with a
    [Z].  Out of range, [nthz] gives 0 and [updz] changes nothing: the
    components prove that their indices are in range. *)

Definition nthz (l : list Z) (i : Z) : Z := default 0 (l !! Z.to_nat i).
Definition updz {A} (l : list A) (i : Z) (v : A) : list A := <[Z.to_nat i := v]> l.

Lemma length_updz {A} (l : list A) i v : length (updz l i v) = length l.
Proof. apply length_insert. Qed.

Lemma nthz_updz_eq l i v : 0 <= i < Z.of_nat (length l) -> nthz (updz l i v) i = v.
Proof. intros. unfold nthz, updz. rewrite list_lookup_insert_eq; [done|lia]. Qed.

Lemma nthz_updz_ne l i j v : 0 <= i -> 0 <= j -> i <> j -> nthz (updz l i v) j = nthz l j.
Proof. intros. unfold nthz, updz. rewrite list_lookup_insert_ne; [done|lia]. Qed.

(** ** Byte maps

    A byte array reached through a pointer is a finite map from index to byte;
    absent entries are 0, the value [memset(p, 0, n)] leaves. *)

Definition rd (m : gmap Z Z) (a : Z) : Z := default 0 (m !! a).
Definition wr (m : gmap Z Z) (a v : Z) : gmap Z Z := <[a := v]> m.

Lemma rd_wr_eq m a v : rd (wr m a v) a = v.
Proof. unfold rd, wr. by rewrite lookup_insert_eq. Qed.
Lemma rd_wr_ne m a b v : a <> b -> rd (wr m a v) b = rd m b.
Proof. intros. unfold rd, wr. by rewrite lookup_insert_ne. Qed.
Lemma rd_empty a : rd ∅ a = 0.
Proof. done. Qed.

(** The bytes of a string literal of the source, without the terminator. *)
Definition str (s : string) : list Z :=
  map (fun c => Z.of_N (Ascii.N_of_ascii c)) (String.list_ascii_of_string s).

(** ** Counted loops *)

(** [for (i = a; i < b; i++) s = f i s]. *)
Fixpoint iter_up {S} (n : nat) (i : Z) (f : Z -> S -> S) (s : S) : S :=
  match n with
  | O => s
  | Datatypes.S n' => iter_up n' (i + 1) f (f i s)
  end.

Definition for_range {S} (a b : Z) (f : Z -> S -> S) (s : S) : S :=
  iter_up (Z.to_nat (b - a)) a f s.

(** The loop rule: an invariant indexed by the loop variable. *)
Lemma for_range_ind {S} (P : Z -> S -> Prop) a b f s :
  a <= b ->
  (forall i s, a <= i < b -> P i s -> P (i + 1) (f i s)) ->
  P a s -> P b (for_range a b f s).
Proof.
  unfold for_range. intros Hab Hstep.
  remember (Z.to_nat (b - a)) as n eqn:Hn.
  revert a s Hab Hstep Hn. induction n as [|n IH]; intros a s Hab Hstep Hn HP; simpl.
  - by replace b with a by lia.
  - apply IH; [lia| |lia|apply Hstep; [lia|done]].
    intros i s' Hi. apply Hstep. lia.
Qed.

Lemma for_range_empty {S} a b f (s : S) : b <= a -> for_range a b f s = s.
Proof. intros. unfold for_range. by replace (Z.to_nat (b - a)) with O by lia. Qed.

Lemma for_range_step {S} a b f (s : S) :
  a < b -> for_range a b f s = for_range (a + 1) b f (f a s).
Proof.
  intros. unfold for_range.
  replace (Z.to_nat (b - a)) with (Datatypes.S (Z.to_nat (b - (a + 1)))) by lia. done.
Qed.

(** A loop that stores [f i] at [k + i]. *)
Lemma rd_for_range_wr a b k f m j :
  rd (for_range a b (fun i m => wr m (k + i) (f i)) m) j =
  if (a <=? j - k) && (j - k <? b) then f (j - k) else rd m j.
Proof.
  destruct (decide (a <= b)) as [Hab|Hab];
    [|rewrite for_range_empty by lia; zdecide].
  apply (for_range_ind (fun i m' =>
    rd m' j = if (a <=? j - k) && (j - k <? i) then f (j - k) else rd m j)); [done| |zdecide].
  intros i m' Hi IH. destruct (decide (j = k + i)) as [->|Hne].
  - rewrite rd_wr_eq. replace (k + i - k) with i by lia. zdecide.
  - rewrite rd_wr_ne by lia. rewrite IH. zbool; simpl; try done; lia.
Qed.

(** [for (i = a; i < b; i++) if (p i) return i;] *)
Fixpoint find_up (n : nat) (i : Z) (p : Z -> bool) : option Z :=
  match n with
  | O => None
  | Datatypes.S n' => if p i then Some i else find_up n' (i + 1) p
  end.

Definition find_range (a b : Z) (p : Z -> bool) : option Z :=
  find_up (Z.to_nat (b - a)) a p.

Lemma find_range_Some a b p i :
  find_range a b p = Some i ->
  a <= i < b /\ p i = true /\ (forall j, a <= j < i -> p j = false).
Proof.
  unfold find_range. remember (Z.to_nat (b - a)) as n eqn:Hn.
  revert a Hn. induction n as [|n IH]; intros a Hn; simpl; [done|].
  destruct (p a) eqn:Hp.
  - intros [= <-]. split; [lia|]. split; [done|]. intros; lia.
  - intros H. apply IH in H as (H1 & H2 & H3); [|lia].
    split; [lia|]. split; [done|].
    intros j Hj. destruct (decide (j = a)) as [->|]; [done|]. apply H3; lia.
Qed.

Lemma find_range_None a b p :
  find_range a b p = None <-> (forall j, a <= j < b -> p j = false).
Proof.
  unfold find_range. remember (Z.to_nat (b - a)) as n eqn:Hn.
  revert a Hn. induction n as [|n IH]; intros a Hn; simpl.
  - split; [|done]. intros _ j Hj; lia.
  - destruct (p a) eqn:Hp.
    + split; [done|]. intros H. rewrite H in Hp; [done|lia].
    + rewrite IH by lia. split; intros H j Hj.
      * destruct (decide (j = a)) as [->|]; [done|]. apply H; lia.
      * apply H; lia.
Qed.

(** ** Counting *)

(** The number of [i < n] on which [p] holds. *)
Fixpoint countb (n : nat) (p : Z -> bool) : Z :=
  match n with
  | O => 0
  | Datatypes.S n' => countb n' p + (if p (Z.of_nat n') then 1 else 0)
  end.

Lemma countb_bounds n p : 0 <= countb n p <= Z.of_nat n.
Proof. induction n as [|n IH]; simpl; [lia|]. case_match; lia. Qed.

Lemma countb_ext n p q :
  (forall i, 0 <= i < Z.of_nat n -> p i = q i) -> countb n p = countb n q.
Proof.
  induction n as [|n IH]; intros H; simpl; [done|].
  rewrite IH by (intros; apply H; lia). by rewrite H by lia.
Qed.

Lemma countb_flip n p q k :
  0 <= k < Z.of_nat n -> p k = false -> q k = true ->
  (forall i, 0 <= i < Z.of_nat n -> i <> k -> p i = q i) ->
  countb n q = countb n p + 1.
Proof.
  induction n as [|n IH]; intros Hk Hp Hq Hext; simpl; [lia|].
  destruct (decide (k = Z.of_nat n)) as [->|Hne].
  - rewrite Hp, Hq. rewrite (countb_ext n q p); [lia|].
    intros i Hi. symmetry. apply Hext; lia.
  - rewrite IH by (try lia; try done; intros; apply Hext; lia).
    rewrite (Hext (Z.of_nat n)) by lia. lia.
Qed.

Lemma countb_pos n p k : 0 <= k < Z.of_nat n -> p k = true -> 0 < countb n p.
Proof.
  induction n as [|n IH]; intros Hk Hp; simpl; [lia|].
  pose proof (countb_bounds n p).
  destruct (decide (k = Z.of_nat n)) as [->|].
  - rewrite Hp. lia.
  - assert (0 < countb n p) by (apply IH; [lia|done]). case_match; lia.
Qed.

Lemma countb_full n p :
  countb n p = Z.of_nat n <-> (forall i, 0 <= i < Z.of_nat n -> p i = true).
Proof.
  induction n as [|n IH]; simpl.
  - split; [|lia]. intros; lia.
  - pose proof (countb_bounds n p). split.
    + intros Hc i Hi. destruct (p (Z.of_nat n)) eqn:Hp; [|lia].
      destruct (decide (i = Z.of_nat n)) as [->|]; [done|].
      apply IH; lia.
    + intros Hall. rewrite Hall by lia.
      rewrite (proj2 IH); [lia|]. intros. apply Hall; lia.
Qed.

Create HintDb ignis.
Create Rewrite HintDb ignis_rw.
#[export] Hint Rewrite @length_updz rd_wr_eq rd_empty : ignis_rw.
