(* ===== verification/MemLayout.v ===== *)
(** * Memory layout: mm/memory_layout.h

    The physical and virtual address map, the page alignment macros and the
    page table entry helpers.  [PAGE_MASK] is the C [int] [~(PAGE_SIZE - 1)],
    which the usual conversions sign-extend to 64 bits; [Z.land] with the
    negative number is the same operation. *)

From S2P Require Import Prelude.

Definition PHYS_LOW_MEM_START : Z := 0x00000000.
Definition PHYS_LOW_MEM_END : Z := 0x00100000.
Definition PHYS_KERNEL_START : Z := 0x00100000.
Definition PHYS_KERNEL_END : Z := 0x00200000.
Definition PHYS_HEAP_START : Z := 0x00200000.
Definition PHYS_HEAP_END : Z := 0x00300000.
Definition PHYS_HEAP_SIZE : Z := PHYS_HEAP_END - PHYS_HEAP_START.
Definition PHYS_BITMAP_START : Z := 0x00300000.
Definition PHYS_BITMAP_END : Z := 0x00400000.
Definition PHYS_BITMAP_SIZE : Z := PHYS_BITMAP_END - PHYS_BITMAP_START.
Definition PHYS_FREE_START : Z := 0x00400000.
Definition PHYS_MEMORY_END : Z := 0x08000000.

Definition VIRT_PHYS_MAP_BASE : Z := 0xFFFF800000000000.
Definition VIRT_PHYS_MAP_SIZE : Z := 0x0000008000000000.
Definition VIRT_KERNEL_BASE : Z := 0xFFFFFFFF80000000.
Definition VIRT_KERNEL_SIZE : Z := 0x0000000020000000.
Definition VIRT_USER_START : Z := 0x0000000000000000.
Definition VIRT_USER_END : Z := 0x00007FFFFFFFFFFF.
Definition VIRT_HEAP_BASE : Z := 0xFFFFFFFFA0000000.
Definition VIRT_HEAP_SIZE : Z := 0x0000000020000000.
Definition VIRT_STACK_BASE : Z := 0xFFFFFFFFC0000000.
Definition VIRT_STACK_SIZE : Z := 0x0000000020000000.
Definition VIRT_RESERVED_BASE : Z := 0xFFFFFFFFE0000000.
Definition VIRT_RESERVED_SIZE : Z := 0x0000000020000000.

Definition PAGE_SIZE : Z := 4096.
Definition PAGE_SHIFT : Z := 12.
Definition PAGE_MASK : Z := Z.lnot (PAGE_SIZE - 1).
Definition TOTAL_PAGES : Z := (PHYS_MEMORY_END - PHYS_FREE_START) / PAGE_SIZE.

Definition PAGE_ALIGN_DOWN (addr : Z) : Z := Z.land addr PAGE_MASK.
Definition PAGE_ALIGN_UP (addr : Z) : Z := Z.land (u64 (u64 (addr + PAGE_SIZE) - 1)) PAGE_MASK.
Definition IS_PAGE_ALIGNED (addr : Z) : bool := Z.land addr (PAGE_SIZE - 1) =? 0.

Definition PHYS_TO_VIRT (phys : Z) : Z := u64 (phys + VIRT_PHYS_MAP_BASE).
Definition VIRT_TO_PHYS (virt : Z) : Z := u64 (virt - VIRT_PHYS_MAP_BASE).
Definition IS_DIRECT_MAP (virt : Z) : bool :=
  (VIRT_PHYS_MAP_BASE <=? virt) && (virt <? u64 (VIRT_PHYS_MAP_BASE + VIRT_PHYS_MAP_SIZE)).
Definition IS_KERNEL_ADDR (virt : Z) : bool := VIRT_KERNEL_BASE <=? virt.

Definition PAGE_PRESENT : Z := Z.shiftl 1 0.
Definition PAGE_WRITE : Z := Z.shiftl 1 1.
Definition PAGE_USER : Z := Z.shiftl 1 2.
Definition PAGE_WRITE_THROUGH : Z := Z.shiftl 1 3.
Definition PAGE_CACHE_DISABLE : Z := Z.shiftl 1 4.
Definition PAGE_ACCESSED : Z := Z.shiftl 1 5.
Definition PAGE_DIRTY : Z := Z.shiftl 1 6.
Definition PAGE_HUGE : Z := Z.shiftl 1 7.
Definition PAGE_GLOBAL : Z := Z.shiftl 1 8.
Definition PAGE_NO_EXECUTE : Z := Z.shiftl 1 63.
Definition PAGE_KERNEL_RO : Z := PAGE_PRESENT.
Definition PAGE_KERNEL_RW : Z := Z.lor PAGE_PRESENT PAGE_WRITE.
Definition PAGE_USER_RO : Z := Z.lor PAGE_PRESENT PAGE_USER.
Definition PAGE_USER_RW : Z := Z.lor (Z.lor PAGE_PRESENT PAGE_WRITE) PAGE_USER.

Definition PTE_ADDR_MASK : Z := 0x000FFFFFFFFFF000.
Definition pte_get_address (pte : Z) : Z := Z.land pte PTE_ADDR_MASK.
Definition pte_create (phys_addr flags : Z) : Z :=
  Z.lor (Z.land phys_addr PTE_ADDR_MASK) (Z.land flags 0xFFF).
Definition pte_has_flag (pte flag : Z) : bool := negb (Z.land pte flag =? 0).

(** ** Arithmetic reading of the macros *)

Lemma IS_PAGE_ALIGNED_spec a : IS_PAGE_ALIGNED a = true <-> a mod PAGE_SIZE = 0.
Proof.
  unfold IS_PAGE_ALIGNED. change (PAGE_SIZE - 1) with (Z.ones 12).
  rewrite Z.land_ones by lia. change (2 ^ 12) with PAGE_SIZE. apply Z.eqb_eq.
Qed.

Lemma PAGE_ALIGN_DOWN_spec a : PAGE_ALIGN_DOWN a = a - a mod PAGE_SIZE.
Proof.
  unfold PAGE_ALIGN_DOWN, PAGE_MASK. change (PAGE_SIZE - 1) with (Z.ones 12).
  rewrite <- Z.ldiff_land, Z.ldiff_ones_r by lia.
  rewrite Z.shiftr_div_pow2, Z.shiftl_mul_pow2 by lia.
  change (2 ^ 12) with PAGE_SIZE. pose proof (Z.div_mod a PAGE_SIZE). unfold PAGE_SIZE in *. lia.
Qed.

Lemma PAGE_ALIGN_UP_spec a :
  0 <= a -> a + PAGE_SIZE <= 18446744073709551616 ->
  PAGE_ALIGN_UP a = (a + (PAGE_SIZE - 1)) - (a + (PAGE_SIZE - 1)) mod PAGE_SIZE.
Proof.
  intros H1 H2. unfold PAGE_ALIGN_UP.
  assert (u64 (u64 (a + PAGE_SIZE) - 1) = a + (PAGE_SIZE - 1)) as ->.
  { unfold u64, PAGE_SIZE in *. dlia. }
  fold (PAGE_ALIGN_DOWN (a + (PAGE_SIZE - 1))). apply PAGE_ALIGN_DOWN_spec.
Qed.

(** The direct map is a bijection between low physical addresses and their
    virtual images. *)
Lemma VIRT_PHYS_inv p : 0 <= p < 2 ^ 47 -> VIRT_TO_PHYS (PHYS_TO_VIRT p) = p.
Proof.
  change (2 ^ 47) with 140737488355328. intros.
  unfold VIRT_TO_PHYS, PHYS_TO_VIRT, VIRT_PHYS_MAP_BASE. wrap_small. lia.
Qed.

Lemma PHYS_TO_VIRT_eq p :
  0 <= p < 2 ^ 47 -> PHYS_TO_VIRT p = p + VIRT_PHYS_MAP_BASE.
Proof.
  change (2 ^ 47) with 140737488355328. intros.
  unfold PHYS_TO_VIRT, VIRT_PHYS_MAP_BASE. wrap_small. lia.
Qed.

(** ** The address space *)

(** First and last address of each region. *)
Definition virtual_regions : list (Z * Z) := [
  (VIRT_USER_START, VIRT_USER_END);
  (VIRT_PHYS_MAP_BASE, VIRT_PHYS_MAP_BASE + VIRT_PHYS_MAP_SIZE - 1);
  (VIRT_KERNEL_BASE, VIRT_KERNEL_BASE + VIRT_KERNEL_SIZE - 1);
  (VIRT_HEAP_BASE, VIRT_HEAP_BASE + VIRT_HEAP_SIZE - 1);
  (VIRT_STACK_BASE, VIRT_STACK_BASE + VIRT_STACK_SIZE - 1);
  (VIRT_RESERVED_BASE, VIRT_RESERVED_BASE + VIRT_RESERVED_SIZE - 1)].

(** A canonical address: bits 48 to 63 repeat bit 47. *)
Definition canonical (a : Z) : bool := (a <? 2 ^ 47) || (2 ^ 64 - 2 ^ 47 <=? a).

Lemma virtual_regions_disjoint i j ri rj a :
  virtual_regions !! i = Some ri -> virtual_regions !! j = Some rj ->
  fst ri <= a <= snd ri -> fst rj <= a <= snd rj -> i = j /\ 0 <= a < 2 ^ 64 /\ canonical a = true.
Proof.
  intros Hi Hj Ha Hb. unfold canonical.
  destruct i as [|[|[|[|[|[|i]]]]]], j as [|[|[|[|[|[|j]]]]]]; cbn in Hi, Hj; simplify_eq; cbn [fst snd] in Ha, Hb;
    unfold VIRT_USER_START, VIRT_USER_END, VIRT_PHYS_MAP_BASE, VIRT_PHYS_MAP_SIZE, VIRT_KERNEL_BASE, VIRT_KERNEL_SIZE, VIRT_HEAP_BASE,
      VIRT_HEAP_SIZE, VIRT_STACK_BASE, VIRT_STACK_SIZE, VIRT_RESERVED_BASE, VIRT_RESERVED_SIZE in Ha, Hb;
    first [exfalso; lia | split; [reflexivity|]; split; [lia|]; apply orb_true_iff; rewrite Z.ltb_lt, Z.leb_le; lia].
Qed.
