(* ===== verification/Stdint.v ===== *)
(** * Integer types: libc/stdint.h, libc/stddef.h

    The type definitions as data: each name leads to the C type of its
    [typedef] and to the limits that the macros give.  [lp64] is the compiler's
    [__LP64__]; it decides the width of [long] and, in the header, the pointer types. *)

From S2P Require Import Prelude.

(** ** C types *)

Inductive c_type := signed_char | unsigned_char | signed_short | unsigned_short | signed_int | unsigned_int
  | signed_long | unsigned_long | signed_long_long | unsigned_long_long.
#[export] Instance c_type_eq_dec : EqDecision c_type.
Proof. solve_decision. Defined.

Definition width (lp64 : bool) (t : c_type) : Z :=
  match t with
  | signed_char | unsigned_char => 8
  | signed_short | unsigned_short => 16
  | signed_int | unsigned_int => 32
  | signed_long | unsigned_long => if lp64 then 64 else 32
  | signed_long_long | unsigned_long_long => 64
  end.
Definition is_signed (t : c_type) : bool :=
  match t with signed_char | signed_short | signed_int | signed_long | signed_long_long => true | _ => false end.

(** Conversion to a type: two's complement for the signed ones. *)
Definition convert (lp64 : bool) (t : c_type) (x : Z) : Z :=
  let w := width lp64 t in
  if is_signed t then (x + 2 ^ (w - 1)) mod 2 ^ w - 2 ^ (w - 1) else x mod 2 ^ w.

(** ** The header *)

Inductive stdint_type :=
  | int8_t | uint8_t | int16_t | uint16_t | int32_t | uint32_t | int64_t | uint64_t
  | int_least8_t | uint_least8_t | int_least16_t | uint_least16_t
  | int_least32_t | uint_least32_t | int_least64_t | uint_least64_t
  | int_fast8_t | uint_fast8_t | int_fast16_t | uint_fast16_t
  | int_fast32_t | uint_fast32_t | int_fast64_t | uint_fast64_t
  | intptr_t | uintptr_t | intmax_t | uintmax_t.

Definition exact_width (t : stdint_type) : option c_type :=
  match t with
  | int8_t => Some signed_char
  | uint8_t => Some unsigned_char
  | int16_t => Some signed_short
  | uint16_t => Some unsigned_short
  | int32_t => Some signed_int
  | uint32_t => Some unsigned_int
  | int64_t => Some signed_long_long
  | uint64_t => Some unsigned_long_long
  | _ => None
  end.
Definition minimum_width (t : stdint_type) : option c_type :=
  match t with
  | int_least8_t => Some signed_char
  | uint_least8_t => Some unsigned_char
  | int_least16_t => Some signed_short
  | uint_least16_t => Some unsigned_short
  | int_least32_t => Some signed_int
  | uint_least32_t => Some unsigned_int
  | int_least64_t => Some signed_long_long
  | uint_least64_t => Some unsigned_long_long
  | _ => None
  end.
Definition fastest_width (t : stdint_type) : option c_type :=
  match t with
  | int_fast8_t | int_fast16_t | int_fast32_t => Some signed_int
  | uint_fast8_t | uint_fast16_t | uint_fast32_t => Some unsigned_int
  | int_fast64_t => Some signed_long_long
  | uint_fast64_t => Some unsigned_long_long
  | _ => None
  end.
Definition pointer_width (lp64 : bool) (t : stdint_type) : option c_type :=
  match t with
  | intptr_t => Some (if lp64 then signed_long else signed_int)
  | uintptr_t => Some (if lp64 then unsigned_long else unsigned_int)
  | _ => None
  end.
Definition greatest_width (t : stdint_type) : option c_type :=
  match t with
  | intmax_t => Some signed_long_long
  | uintmax_t => Some unsigned_long_long
  | _ => None
  end.

(** The one [typedef] of each name. *)
Definition typedef (lp64 : bool) (t : stdint_type) : c_type :=
  match exact_width t, minimum_width t, fastest_width t, pointer_width lp64 t, greatest_width t with
  | Some c, _, _, _, _ | _, Some c, _, _, _ | _, _, Some c, _, _ | _, _, _, Some c, _ | _, _, _, _, Some c => c
  | _, _, _, _, _ => signed_int
  end.

Definition INT8_MIN : Z := -128.
Definition INT8_MAX : Z := 127.
Definition UINT8_MAX : Z := 255.
Definition INT16_MIN : Z := -32768.
Definition INT16_MAX : Z := 32767.
Definition UINT16_MAX : Z := 65535.
Definition INT32_MIN : Z := -2147483647 - 1.
Definition INT32_MAX : Z := 2147483647.
Definition UINT32_MAX : Z := 4294967295.
Definition INT64_MIN : Z := -9223372036854775807 - 1.
Definition INT64_MAX : Z := 9223372036854775807.
Definition UINT64_MAX : Z := 18446744073709551615.

(** The limits as (minimum, maximum); an unsigned type has no minimum macro, and 0. *)
Definition least_limits (t : stdint_type) : option (Z * Z) :=
  match t with
  | int_least8_t => Some (INT8_MIN, INT8_MAX)
  | uint_least8_t => Some (0, UINT8_MAX)
  | int_least16_t => Some (INT16_MIN, INT16_MAX)
  | uint_least16_t => Some (0, UINT16_MAX)
  | int_least32_t => Some (INT32_MIN, INT32_MAX)
  | uint_least32_t => Some (0, UINT32_MAX)
  | int_least64_t => Some (INT64_MIN, INT64_MAX)
  | uint_least64_t => Some (0, UINT64_MAX)
  | _ => None
  end.
Definition fast_limits (t : stdint_type) : option (Z * Z) :=
  match t with
  | int_fast8_t | int_fast16_t | int_fast32_t => Some (INT32_MIN, INT32_MAX)
  | uint_fast8_t | uint_fast16_t | uint_fast32_t => Some (0, UINT32_MAX)
  | int_fast64_t => Some (INT64_MIN, INT64_MAX)
  | uint_fast64_t => Some (0, UINT64_MAX)
  | _ => None
  end.
Definition INTPTR_MIN (lp64 : bool) : Z := if lp64 then INT64_MIN else INT32_MIN.
Definition INTPTR_MAX (lp64 : bool) : Z := if lp64 then INT64_MAX else INT32_MAX.
Definition UINTPTR_MAX (lp64 : bool) : Z := if lp64 then UINT64_MAX else UINT32_MAX.
Definition INTMAX_MIN : Z := INT64_MIN.
Definition INTMAX_MAX : Z := INT64_MAX.
Definition UINTMAX_MAX : Z := UINT64_MAX.
Definition SIZE_MAX (lp64 : bool) : Z := UINTPTR_MAX lp64.
Definition PTRDIFF_MIN (lp64 : bool) : Z := INTPTR_MIN lp64.
Definition PTRDIFF_MAX (lp64 : bool) : Z := INTPTR_MAX lp64.

Definition limits (lp64 : bool) (t : stdint_type) : Z * Z :=
  match t with
  | int8_t => (INT8_MIN, INT8_MAX)
  | uint8_t => (0, UINT8_MAX)
  | int16_t => (INT16_MIN, INT16_MAX)
  | uint16_t => (0, UINT16_MAX)
  | int32_t => (INT32_MIN, INT32_MAX)
  | uint32_t => (0, UINT32_MAX)
  | int64_t => (INT64_MIN, INT64_MAX)
  | uint64_t => (0, UINT64_MAX)
  | intptr_t => (INTPTR_MIN lp64, INTPTR_MAX lp64)
  | uintptr_t => (0, UINTPTR_MAX lp64)
  | intmax_t => (INTMAX_MIN, INTMAX_MAX)
  | uintmax_t => (0, UINTMAX_MAX)
  | _ => default (0, 0) (match least_limits t with Some l => Some l | None => fast_limits t end)
  end.

(** ** The limits are the ranges *)

Lemma typedef_total lp64 t :
  exists c, typedef lp64 t = c /\
    (exact_width t = Some c \/ minimum_width t = Some c \/ fastest_width t = Some c \/
     pointer_width lp64 t = Some c \/ greatest_width t = Some c).
Proof. exists (typedef lp64 t). split; [done|]. destruct t; cbn; auto 10. Qed.

(** The range of a conversion, and its fixed points. *)
Lemma convert_range lp64 c x :
  let w := width lp64 c in
  let lo := if is_signed c then - 2 ^ (w - 1) else 0 in
  lo <= convert lp64 c x <= lo + 2 ^ w - 1 /\
  (convert lp64 c x = x <-> lo <= x <= lo + 2 ^ w - 1) /\
  (convert lp64 c x - x) mod 2 ^ w = 0.
Proof.
  cbv zeta. unfold convert. set (w := width lp64 c).
  assert (Hw : 0 < 2 ^ w /\ 2 ^ w = 2 * 2 ^ (w - 1)).
  { assert (8 <= w) by (unfold w; destruct c, lp64; cbn; lia). split; [lia|].
    rewrite <- Z.pow_succ_r by lia. f_equal. lia. }
  destruct Hw as [Hw0 Hw]. revert Hw0 Hw. generalize (2 ^ w) (2 ^ (w - 1)). intros m h Hm ->.
  destruct (is_signed c).
  - pose proof (Z.mod_pos_bound (x + h) (2 * h) Hm). split; [lia|]. split.
    + split; [lia|]. intros Hx. rewrite Z.mod_small by lia. lia.
    + rewrite (Z.mod_eq (x + h)) by lia.
      replace (x + h - 2 * h * ((x + h) / (2 * h)) - h - x) with (- ((x + h) / (2 * h)) * (2 * h)) by ring.
      apply Z.mod_mul. lia.
  - pose proof (Z.mod_pos_bound x (2 * h) Hm). split; [lia|]. split.
    + split; [lia|]. intros Hx. rewrite Z.mod_small by lia. lia.
    + rewrite (Z.mod_eq x) by lia. replace (x - 2 * h * (x / (2 * h)) - x) with (- (x / (2 * h)) * (2 * h)) by ring.
      apply Z.mod_mul. lia.
Qed.

(** *** What the names promise *)

(** The number of bits in the name; pointers have the width of an address, and the greatest
    types the 64 bits of the widest C type. *)
Definition name_bits (lp64 : bool) (t : stdint_type) : Z :=
  match t with
  | int8_t | uint8_t | int_least8_t | uint_least8_t | int_fast8_t | uint_fast8_t => 8
  | int16_t | uint16_t | int_least16_t | uint_least16_t | int_fast16_t | uint_fast16_t => 16
  | int32_t | uint32_t | int_least32_t | uint_least32_t | int_fast32_t | uint_fast32_t => 32
  | int64_t | uint64_t | int_least64_t | uint_least64_t | int_fast64_t | uint_fast64_t => 64
  | intptr_t | uintptr_t => if lp64 then 64 else 32
  | intmax_t | uintmax_t => 64
  end.
(** For the "fast" names the number is a lower bound; the "least" ones must be the smallest type that has it. *)
Definition name_exact (t : stdint_type) : bool :=
  match t with
  | int_fast8_t | uint_fast8_t | int_fast16_t | uint_fast16_t | int_fast32_t | uint_fast32_t | int_fast64_t | uint_fast64_t => false
  | _ => true
  end.
Definition name_signed (t : stdint_type) : bool :=
  match t with
  | int8_t | int16_t | int32_t | int64_t | int_least8_t | int_least16_t | int_least32_t | int_least64_t
  | int_fast8_t | int_fast16_t | int_fast32_t | int_fast64_t | intptr_t | intmax_t => true
  | _ => false
  end.

(** C39. For every type name of stdint.h, with 32-bit and with 64-bit pointers: the type behind the name has
    the sign and the number of bits that the name states, or at least that many for the fast types, and the limit
    macros are exactly its range.  A conversion to the type
    lands between them, keeps the number modulo the type's width, and leaves a number alone just when
    it is between them. *)
Theorem stdint_limits_exact (lp64 : bool) (t : stdint_type) (x : Z) :
  let '(lo, hi) := limits lp64 t in
  let w := width lp64 (typedef lp64 t) in
  let y := convert lp64 (typedef lp64 t) x in
  is_signed (typedef lp64 t) = name_signed t /\ name_bits lp64 t <= w /\ (name_exact t = true -> w = name_bits lp64 t) /\
  lo = (if name_signed t then - 2 ^ (w - 1) else 0) /\ hi = lo + 2 ^ w - 1 /\
  lo <= y <= hi /\ (y = x <-> lo <= x <= hi) /\ (y - x) mod 2 ^ w = 0.
Proof.
  pose proof (convert_range lp64 (typedef lp64 t) x) as H. cbv zeta in H.
  assert (Hs : is_signed (typedef lp64 t) = name_signed t) by (destruct t, lp64; reflexivity).
  assert (Hb : name_bits lp64 t <= width lp64 (typedef lp64 t) /\ (name_exact t = true -> width lp64 (typedef lp64 t) = name_bits lp64 t)).
  { destruct t, lp64; cbn; (split; [lia|intros; try done]). }
  destruct (limits lp64 t) as [lo hi] eqn:El. cbv zeta.
  assert (E : lo = (if is_signed (typedef lp64 t) then - 2 ^ (width lp64 (typedef lp64 t) - 1) else 0) /\
    hi = lo + 2 ^ width lp64 (typedef lp64 t) - 1).
  { destruct t, lp64; cbn in El; injection El as <- <-; split; reflexivity. }
  destruct E as [E1 E2], Hb as [Hb1 Hb2], H as (H1 & H2 & H3). rewrite <- E1, <- E2 in *. rewrite <- Hs. split_and!; try done; apply H1.
Qed.

(** The wrap-around functions of the models are the conversions to the types of the source. *)
Lemma convert_models lp64 x :
  convert lp64 (typedef lp64 uint8_t) x = u8 x /\ convert lp64 (typedef lp64 uint16_t) x = u16 x /\
  convert lp64 (typedef lp64 uint32_t) x = u32 x /\ convert lp64 (typedef lp64 uint64_t) x = u64 x /\
  convert lp64 (typedef lp64 int32_t) x = i32 x.
Proof. done. Qed.
