(* ===== verification/Errno.v ===== *)
(** * Error codes: error_handling/errno.h, error_handling/errno.c *)

From S2P Require Import Prelude.

Inductive kerr_t : Set :=
| E_OK | E_NOMEM | E_INVALID | E_NOTFOUND | E_EXISTS
| E_NOTDIR | E_ISDIR | E_TIMEOUT | E_PERM | E_HARDWARE.

#[export] Instance kerr_t_eq_dec : EqDecision kerr_t.
Proof. solve_decision. Defined.

(** The enumerators' integer values. *)
Definition kerr_value (e : kerr_t) : Z :=
  match e with
  | E_OK => 0 | E_NOMEM => -1 | E_INVALID => -2 | E_NOTFOUND => -3 | E_EXISTS => -4
  | E_NOTDIR => -5 | E_ISDIR => -6 | E_TIMEOUT => -7 | E_PERM => -8 | E_HARDWARE => -9
  end.

(** [k_strerror] takes the integer the enumerator is passed as; anything else
    falls in the [default] case. *)
Definition k_strerror (err : Z) : string :=
  match err with
  | 0 => "Success"
  | -1 => "Out of Memory"
  | -2 => "Invalid argument"
  | -3 => "Not found"
  | -4 => "Already exists"
  | -5 => "Not a directory"
  | -6 => "Is a directory"
  | -7 => "Operation Timed Out"
  | -8 => "Permission denied"
  | -9 => "Hardware fault"
  | _ => "Unknown"
  end.

Definition is_ok (e : kerr_t) : bool := match e with E_OK => true | _ => false end.

Lemma kerr_value_inj e1 e2 : kerr_value e1 = kerr_value e2 -> e1 = e2.
Proof. destruct e1, e2; done. Qed.

Lemma k_strerror_inj e1 e2 :
  k_strerror (kerr_value e1) = k_strerror (kerr_value e2) -> e1 = e2.
Proof. destruct e1, e2; done. Qed.
