(* ===== verification/Bitmap.v ===== *)
(** * Bit arrays stored in bytes

    mm/pmm.c (lines 14-26) and mm/allocators/buddy.c (lines 27-39) each define
    [bitmap_set], [bitmap_clear] and [bitmap_test] over a [uint8_t*]; the two
    copies are the same code.  They are defined once here, on a byte map. *)

From S2P Require Import Prelude.

Definition bitmap_set (bm : gmap Z Z) (bit : Z) : gmap Z Z :=
  wr bm (bit / 8) (u8 (Z.lor (rd bm (bit / 8)) (Z.shiftl 1 (bit mod 8)))).

Definition bitmap_clear (bm : gmap Z Z) (bit : Z) : gmap Z Z :=
  wr bm (bit / 8) (u8 (Z.land (rd bm (bit / 8)) (Z.lnot (Z.shiftl 1 (bit mod 8))))).

(** The C function returns the masked byte; its callers only test it against 0. *)
Definition bitmap_test (bm : gmap Z Z) (bit : Z) : bool :=
  negb (Z.land (rd bm (bit / 8)) (Z.shiftl 1 (bit mod 8)) =? 0).

(** A bit of the array, as a proposition-free reading of [bitmap_test]. *)
Lemma bitmap_test_testbit bm bit :
  0 <= bit -> bitmap_test bm bit = Z.testbit (rd bm (bit / 8)) (bit mod 8).
Proof.
  intros Hb. unfold bitmap_test.
  pose proof (Z.mod_pos_bound bit 8 ltac:(lia)).
  destruct (Z.testbit (rd bm (bit / 8)) (bit mod 8)) eqn:Ht.
  - destruct (Z.eqb_spec (Z.land (rd bm (bit / 8)) (Z.shiftl 1 (bit mod 8))) 0) as [E|]; [|done].
    apply (f_equal (fun z => Z.testbit z (bit mod 8))) in E.
    rewrite Z.land_spec, Z.shiftl_spec, Ht, Z.sub_diag, Z.bits_0 in E by lia. done.
  - apply negb_false_iff, Z.eqb_eq. apply Z.bits_inj'. intros n Hn.
    rewrite Z.land_spec, Z.shiftl_spec, Z.bits_0 by lia.
    destruct (decide (n = bit mod 8)) as [->|]; [by rewrite Ht|].
    destruct (decide (n < bit mod 8)).
    + rewrite (Z.testbit_neg_r 1) by lia. apply andb_false_r.
    + rewrite (Z.bits_above_log2 1) by (simpl; lia). apply andb_false_r.
Qed.

Lemma testbit_u8 x i : 0 <= i < 8 -> Z.testbit (u8 x) i = Z.testbit x i.
Proof.
  intros. unfold u8. change 256 with (2 ^ 8). rewrite <- Z.land_ones by lia.
  rewrite Z.land_spec, Z.ones_spec_low by lia. apply andb_true_r.
Qed.

Lemma testbit_shiftl1 k i : 0 <= k -> 0 <= i -> Z.testbit (Z.shiftl 1 k) i = (i =? k).
Proof.
  intros. rewrite Z.shiftl_spec by lia. destruct (Z.eqb_spec i k) as [->|].
  - by rewrite Z.sub_diag.
  - destruct (decide (i < k)); [by rewrite Z.testbit_neg_r by lia|].
    rewrite Z.bits_above_log2; [done|lia|simpl; lia].
Qed.

Lemma bit_split i j : i / 8 = j / 8 -> i mod 8 = j mod 8 -> i = j.
Proof. intros. rewrite (Z.div_mod i 8), (Z.div_mod j 8) by lia. congruence. Qed.

Lemma bitmap_test_set bm i j :
  0 <= i -> 0 <= j -> bitmap_test (bitmap_set bm i) j = (i =? j) || bitmap_test bm j.
Proof.
  intros Hi Hj. rewrite !bitmap_test_testbit by lia. unfold bitmap_set.
  pose proof (Z.mod_pos_bound j 8 ltac:(lia)). pose proof (Z.mod_pos_bound i 8 ltac:(lia)).
  destruct (decide (i / 8 = j / 8)) as [E|E].
  - rewrite E, rd_wr_eq, testbit_u8, Z.lor_spec, testbit_shiftl1 by lia.
    rewrite orb_comm. f_equal.
    destruct (Z.eqb_spec i j) as [->|]; [apply Z.eqb_refl|].
    apply Z.eqb_neq. intros F. by pose proof (bit_split _ _ E (eq_sym F)).
  - rewrite rd_wr_ne by done. destruct (Z.eqb_spec i j) as [->|]; done.
Qed.

Lemma bitmap_test_clear bm i j :
  0 <= i -> 0 <= j -> bitmap_test (bitmap_clear bm i) j = negb (i =? j) && bitmap_test bm j.
Proof.
  intros Hi Hj. rewrite !bitmap_test_testbit by lia. unfold bitmap_clear.
  pose proof (Z.mod_pos_bound j 8 ltac:(lia)). pose proof (Z.mod_pos_bound i 8 ltac:(lia)).
  destruct (decide (i / 8 = j / 8)) as [E|E].
  - rewrite E, rd_wr_eq, testbit_u8, Z.land_spec, Z.lnot_spec, testbit_shiftl1 by lia.
    rewrite andb_comm. f_equal. f_equal.
    destruct (Z.eqb_spec i j) as [->|]; [apply Z.eqb_refl|].
    apply Z.eqb_neq. intros F. by pose proof (bit_split _ _ E (eq_sym F)).
  - rewrite rd_wr_ne by done. destruct (Z.eqb_spec i j) as [->|]; done.
Qed.

Lemma bitmap_test_empty i : 0 <= i -> bitmap_test ∅ i = false.
Proof. intros. rewrite bitmap_test_testbit by lia. rewrite rd_empty. apply Z.bits_0. Qed.

#[export] Hint Rewrite bitmap_test_set bitmap_test_clear using lia : ignis_rw.
