(* ===== verification/Pmm.v ===== *)
(** * Physical memory manager: mm/pmm.c

    The state of the component is its three static variables.  [page_bitmap]
    is the byte array at [PHYS_BITMAP_START]; a set bit is a used page.  The
    serial and console output of [pmm_init] and [pmm_print_stats] is not
    modelled. *)

From S2P Require Import Prelude MemLayout Errno Bitmap.

Record pmm := mkPmm {
  page_bitmap : gmap Z Z;
  total_pages : Z;
  used_pages : Z;
}.

Definition set_page_used (s : pmm) (i : Z) : pmm :=
  mkPmm (bitmap_set (page_bitmap s) i) (total_pages s) (u32 (used_pages s + 1)).

Definition set_page_free (s : pmm) (i : Z) : pmm :=
  mkPmm (bitmap_clear (page_bitmap s) i) (total_pages s) (u32 (used_pages s - 1)).

Definition addr_to_page (addr : Z) : Z := u32 (u64 (addr - PHYS_FREE_START) / PAGE_SIZE).

(** [page * PAGE_SIZE] is a 32-bit product. *)
Definition page_to_addr (page : Z) : Z := u64 (PHYS_FREE_START + u32 (page * PAGE_SIZE)).

(** ** Operations *)

Definition mark_used_step (i : Z) (s : pmm) : pmm :=
  if bitmap_test (page_bitmap s) i then s else set_page_used s i.

Definition mark_free_step (i : Z) (s : pmm) : pmm :=
  if bitmap_test (page_bitmap s) i then set_page_free s i else s.

Definition pmm_mark_region_used (s : pmm) (start0 end0 : Z) : pmm :=
  let start := PAGE_ALIGN_DOWN start0 in
  let end1 := PAGE_ALIGN_UP end0 in
  let '(start, end1) :=
    if start <? PHYS_FREE_START then (PHYS_FREE_START, u64 (end1 + PHYS_FREE_START))
    else (start, end1) in
  let end1 := if PHYS_MEMORY_END <? end1 then PHYS_MEMORY_END else end1 in
  if end1 <=? start then s
  else
    let start_page := addr_to_page start in
    let end_page := addr_to_page end1 in
    for_range start_page (Z.min end_page (total_pages s)) mark_used_step s.

Definition pmm_mark_region_free (s : pmm) (start0 end0 : Z) : pmm :=
  let start := PAGE_ALIGN_DOWN start0 in
  let end1 := PAGE_ALIGN_UP end0 in
  let start := if start <? PHYS_FREE_START then PHYS_FREE_START else start in
  let end1 := if PHYS_MEMORY_END <? end1 then PHYS_MEMORY_END else end1 in
  if end1 <=? start then s
  else
    let start_page := addr_to_page start in
    let end_page := addr_to_page end1 in
    for_range start_page (Z.min end_page (total_pages s)) mark_free_step s.

(** [pmm_init] overwrites all three variables, whatever they held. *)
Definition pmm_init : kerr_t * pmm :=
  let s := mkPmm ∅ (u32 ((PHYS_MEMORY_END - PHYS_FREE_START) / PAGE_SIZE)) 0 in
  let s := pmm_mark_region_used s PHYS_LOW_MEM_START PHYS_LOW_MEM_END in
  let s := pmm_mark_region_used s PHYS_KERNEL_START PHYS_KERNEL_END in
  let s := pmm_mark_region_used s PHYS_HEAP_START PHYS_HEAP_END in
  let s := pmm_mark_region_used s PHYS_BITMAP_START PHYS_BITMAP_END in
  (E_OK, s).

Definition pmm_alloc_page (s : pmm) : Z * pmm :=
  match find_range 0 (total_pages s) (fun i => negb (bitmap_test (page_bitmap s) i)) with
  | Some i => (page_to_addr i, set_page_used s i)
  | None => (0, s)
  end.

Definition pmm_free_page (s : pmm) (phys_addr : Z) : pmm :=
  if (phys_addr <? PHYS_LOW_MEM_START) || (PHYS_HEAP_END <=? phys_addr) then s
  else if negb (IS_PAGE_ALIGNED phys_addr) then s
  else
    let page := addr_to_page phys_addr in
    if total_pages s <=? page then s
    else if bitmap_test (page_bitmap s) page then set_page_free s page
    else s.

(** The scan of [pmm_alloc_pages]: [n] pages left, from page [i]. *)
Fixpoint scan_contiguous (bm : gmap Z Z) (count : Z) (n : nat) (i contiguous start : Z)
  : option Z :=
  match n with
  | O => None
  | S n' =>
      if bitmap_test bm i then scan_contiguous bm count n' (i + 1) 0 start
      else
        let start := if contiguous =? 0 then i else start in
        let contiguous := u32 (contiguous + 1) in
        if contiguous =? count then Some start
        else scan_contiguous bm count n' (i + 1) contiguous start
  end.

Definition pmm_alloc_pages (s : pmm) (count : Z) : Z * pmm :=
  if count =? 0 then (0, s)
  else if count =? 1 then pmm_alloc_page s
  else
    match scan_contiguous (page_bitmap s) count (Z.to_nat (total_pages s)) 0 0 0 with
    | Some start =>
        (page_to_addr start,
         mkPmm (for_range start (start + count) (fun j bm => bitmap_set bm j) (page_bitmap s))
               (total_pages s) (u32 (used_pages s + count)))
    | None => (0, s)
    end.

Definition pmm_free_pages (s : pmm) (phys_addr count : Z) : pmm :=
  for_range 0 count (fun i s => pmm_free_page s (u64 (phys_addr + u64 (i * PAGE_SIZE)))) s.

Definition pmm_get_total_pages (s : pmm) : Z := total_pages s.
Definition pmm_get_used_pages (s : pmm) : Z := used_pages s.
Definition pmm_get_free_pages (s : pmm) : Z := u32 (total_pages s - used_pages s).
Definition pmm_get_total_memory (s : pmm) : Z := u64 (total_pages s * PAGE_SIZE).
Definition pmm_get_used_memory (s : pmm) : Z := u64 (used_pages s * PAGE_SIZE).
Definition pmm_get_free_memory (s : pmm) : Z := u64 (pmm_get_free_pages s * PAGE_SIZE).

(** ** The invariant *)

Definition page_used (s : pmm) (i : Z) : bool := bitmap_test (page_bitmap s) i.

(** The counter equals the number of set bits over all managed pages. *)
Definition N_PAGES : nat := Z.to_nat TOTAL_PAGES.

Record pmm_inv (s : pmm) : Prop := {
  inv_total : total_pages s = TOTAL_PAGES;
  inv_used : used_pages s = countb N_PAGES (page_used s);
}.

Lemma TOTAL_PAGES_val : TOTAL_PAGES = 31744.
Proof. done. Qed.
Lemma N_PAGES_val : Z.of_nat N_PAGES = 31744.
Proof. unfold N_PAGES. rewrite Z2Nat.id; done. Qed.

Lemma N_PAGES_eq : Z.to_nat TOTAL_PAGES = N_PAGES.
Proof. reflexivity. Qed.
#[global] Opaque N_PAGES.

Ltac pages := pose proof TOTAL_PAGES_val; pose proof N_PAGES_val.

Lemma used_pages_range s : pmm_inv s -> 0 <= used_pages s <= 31744.
Proof. intros [_ ->]. pages. pose proof (countb_bounds N_PAGES (page_used s)). lia. Qed.

(** ** Single pages *)

Lemma page_used_set s i j :
  0 <= i -> 0 <= j -> page_used (set_page_used s i) j = (i =? j) || page_used s j.
Proof. intros. by apply bitmap_test_set. Qed.

Lemma page_used_clear s i j :
  0 <= i -> 0 <= j -> page_used (set_page_free s i) j = negb (i =? j) && page_used s j.
Proof. intros. by apply bitmap_test_clear. Qed.

Lemma set_page_used_inv s i :
  pmm_inv s -> 0 <= i < TOTAL_PAGES -> page_used s i = false ->
  pmm_inv (set_page_used s i) /\ used_pages (set_page_used s i) = used_pages s + 1.
Proof.
  intros Hinv Hi Hfree. pages. pose proof (used_pages_range s Hinv). destruct Hinv as [Ht Hu].
  assert (u32 (used_pages s + 1) = used_pages s + 1) as Hw by (apply u32_small; lia).
  split; [split|]; simpl; [done| |done].
  rewrite Hw, Hu. symmetry. apply countb_flip with i; [lia|done| |].
  - rewrite page_used_set, Z.eqb_refl by lia. done.
  - intros j Hj Hne. rewrite page_used_set by lia. by rewrite (proj2 (Z.eqb_neq i j)).
Qed.

Lemma set_page_free_inv s i :
  pmm_inv s -> 0 <= i < TOTAL_PAGES -> page_used s i = true ->
  pmm_inv (set_page_free s i) /\ used_pages (set_page_free s i) = used_pages s - 1.
Proof.
  intros Hinv Hi Husd. pages. pose proof (used_pages_range s Hinv). destruct Hinv as [Ht Hu].
  assert (0 < countb N_PAGES (page_used s)) by (apply countb_pos with i; [lia|done]).
  assert (u32 (used_pages s - 1) = used_pages s - 1) as Hw by (apply u32_small; lia).
  assert (countb N_PAGES (page_used s) = countb N_PAGES (page_used (set_page_free s i)) + 1).
  { apply countb_flip with i; [lia| |done|].
    - rewrite page_used_clear, Z.eqb_refl by lia. done.
    - intros j Hj Hne. rewrite page_used_clear by lia. by rewrite (proj2 (Z.eqb_neq i j)). }
  split; [split|]; simpl; [done| |done]. lia.
Qed.

Lemma page_to_addr_eq i :
  0 <= i < TOTAL_PAGES -> page_to_addr i = PHYS_FREE_START + i * PAGE_SIZE.
Proof. pages. intros. unfold page_to_addr, PHYS_FREE_START, PAGE_SIZE. wrap_small. done. Qed.

Lemma addr_to_page_eq a :
  PHYS_FREE_START <= a <= PHYS_MEMORY_END -> addr_to_page a = (a - PHYS_FREE_START) / PAGE_SIZE.
Proof.
  intros. unfold addr_to_page, PHYS_FREE_START, PHYS_MEMORY_END, PAGE_SIZE in *.
  rewrite (u64_small (a - _)) by lia. apply u32_small. dlia.
Qed.

(** ** Marking regions *)

Lemma mark_used_range_spec s a b :
  pmm_inv s -> 0 <= a -> b <= TOTAL_PAGES ->
  pmm_inv (for_range a b mark_used_step s) /\
  forall j, 0 <= j -> page_used (for_range a b mark_used_step s) j
                      = page_used s j || ((a <=? j) && (j <? b)).
Proof.
  intros Hinv Ha Hb. destruct (decide (a <= b)).
  2: { rewrite for_range_empty by lia. split; [done|]. intros j Hj.
       destruct (page_used s j); [done|]. zdecide. }
  apply (for_range_ind (fun i s' => pmm_inv s' /\ forall j, 0 <= j ->
    page_used s' j = page_used s j || ((a <=? j) && (j <? i)))); [done| |].
  - intros i s' Hi [Hinv' Hspec]. unfold mark_used_step.
    destruct (bitmap_test (page_bitmap s') i) eqn:Ht; fold (page_used s' i) in Ht.
    + split; [done|]. intros j Hj. rewrite Hspec by done.
      rewrite Hspec in Ht by lia.
      destruct (decide (j = i)) as [->|]; [|destruct (page_used s j); zdecide].
      destruct (page_used s i); [done|]. zdecide.
    + destruct (set_page_used_inv s' i) as [Hi' _]; [done|lia|done|]. split; [done|].
      intros j Hj. rewrite page_used_set, Hspec by lia.
      destruct (page_used s j); zdecide.
  - split; [done|]. intros j Hj. destruct (page_used s j); zdecide.
Qed.

Lemma mark_free_range_spec s a b :
  pmm_inv s -> 0 <= a -> b <= TOTAL_PAGES ->
  pmm_inv (for_range a b mark_free_step s) /\
  forall j, 0 <= j -> page_used (for_range a b mark_free_step s) j
                      = page_used s j && negb ((a <=? j) && (j <? b)).
Proof.
  intros Hinv Ha Hb. destruct (decide (a <= b)).
  2: { rewrite for_range_empty by lia. split; [done|]. intros j Hj.
       destruct (page_used s j); [|done]. zdecide. }
  apply (for_range_ind (fun i s' => pmm_inv s' /\ forall j, 0 <= j ->
    page_used s' j = page_used s j && negb ((a <=? j) && (j <? i)))); [done| |].
  - intros i s' Hi [Hinv' Hspec]. unfold mark_free_step.
    destruct (bitmap_test (page_bitmap s') i) eqn:Ht; fold (page_used s' i) in Ht.
    + destruct (set_page_free_inv s' i) as [Hi' _]; [done|lia|done|]. split; [done|].
      intros j Hj. rewrite page_used_clear, Hspec by lia.
      destruct (page_used s j); zdecide.
    + split; [done|]. intros j Hj. rewrite Hspec by done.
      rewrite Hspec in Ht by lia.
      destruct (decide (j = i)) as [->|]; [|destruct (page_used s j); zdecide].
      destruct (page_used s i); zdecide.
  - split; [done|]. intros j Hj. destruct (page_used s j); zdecide.
Qed.

(** The pages a call of [pmm_mark_region_used] marks, from its arguments. *)
Definition used_span (start0 end0 : Z) : Z * Z :=
  let start := PAGE_ALIGN_DOWN start0 in
  let '(start, end1) :=
    if start <? PHYS_FREE_START
    then (PHYS_FREE_START, PAGE_ALIGN_UP end0 + PHYS_FREE_START)
    else (start, PAGE_ALIGN_UP end0) in
  ((start - PHYS_FREE_START) / PAGE_SIZE,
   (Z.min end1 PHYS_MEMORY_END - PHYS_FREE_START) / PAGE_SIZE).

Definition in_span (sp : Z * Z) (j : Z) : bool := (fst sp <=? j) && (j <? snd sp).

Lemma PAGE_ALIGN_UP_range a :
  0 <= a < 2 ^ 63 -> a <= PAGE_ALIGN_UP a <= a + 4095.
Proof.
  change (2 ^ 63) with 9223372036854775808. intros.
  rewrite PAGE_ALIGN_UP_spec by (unfold PAGE_SIZE; lia). unfold PAGE_SIZE. dlia.
Qed.

Lemma PAGE_ALIGN_DOWN_range a : a - 4095 <= PAGE_ALIGN_DOWN a <= a.
Proof. rewrite PAGE_ALIGN_DOWN_spec. unfold PAGE_SIZE. dlia. Qed.

Lemma mark_region_used_spec s start end0 :
  pmm_inv s -> 0 <= start -> 0 <= end0 < 2 ^ 63 ->
  pmm_inv (pmm_mark_region_used s start end0) /\
  forall j, 0 <= j -> page_used (pmm_mark_region_used s start end0) j
                      = page_used s j || in_span (used_span start end0) j.
Proof.
  intros Hinv Hs He. unfold pmm_mark_region_used, used_span, in_span.
  pose proof (PAGE_ALIGN_UP_range end0 He). pose proof (PAGE_ALIGN_DOWN_range start).
  pose proof (inv_total s Hinv) as Ht. pages.
  change (2 ^ 63) with 9223372036854775808 in He.
  remember (PAGE_ALIGN_DOWN start) as st eqn:Est. remember (PAGE_ALIGN_UP end0) as en eqn:Een.
  unfold PHYS_FREE_START, PHYS_MEMORY_END in *.
  assert (forall a b, 0x00400000 <= a -> a < b -> b <= 0x08000000 ->
    pmm_inv (for_range (addr_to_page a) (Z.min (addr_to_page b) (total_pages s)) mark_used_step s) /\
    forall j, 0 <= j ->
      page_used (for_range (addr_to_page a) (Z.min (addr_to_page b) (total_pages s)) mark_used_step s) j
      = page_used s j || (((a - 0x00400000) / PAGE_SIZE <=? j) && (j <? (b - 0x00400000) / PAGE_SIZE)))
    as Hloop.
  { intros a b Ha Hab Hb.
    rewrite !addr_to_page_eq by (unfold PHYS_FREE_START, PHYS_MEMORY_END; lia).
    unfold PHYS_FREE_START, PAGE_SIZE. rewrite Ht, TOTAL_PAGES_val.
    rewrite Z.min_l by dlia. apply mark_used_range_spec; [done|dlia|]. pages. dlia. }
  assert (forall a b, b <= a -> forall j,
    page_used s j || (((a - 0x00400000) / PAGE_SIZE <=? j) && (j <? (b - 0x00400000) / PAGE_SIZE))
    = page_used s j) as Hempty.
  { intros a b Hab j. destruct (page_used s j); [done|].
    pose proof (Z.div_le_mono (b - 0x00400000) (a - 0x00400000) PAGE_SIZE ltac:(done) ltac:(lia)).
    zdecide. }
  destruct (Z.ltb_spec st 0x00400000); cbn [fst snd].
  - rewrite (u64_small (en + _)) by lia.
    replace (if 0x08000000 <? en + 0x00400000 then 0x08000000 else en + 0x00400000)
      with (Z.min (en + 0x00400000) 0x08000000) by (zbool; lia).
    destruct (Z.leb_spec (Z.min (en + 0x00400000) 0x08000000) 0x00400000).
    + split; [done|]. intros j Hj. symmetry. by apply Hempty.
    + apply Hloop; lia.
  - replace (if 0x08000000 <? en then 0x08000000 else en) with (Z.min en 0x08000000) by (zbool; lia).
    destruct (Z.leb_spec (Z.min en 0x08000000) st).
    + split; [done|]. intros j Hj. symmetry. by apply Hempty.
    + apply Hloop; lia.
Qed.

Lemma pmm_empty_inv : pmm_inv (mkPmm ∅ (u32 ((PHYS_MEMORY_END - PHYS_FREE_START) / PAGE_SIZE)) 0).
Proof.
  split; [done|]. simpl. rewrite (countb_ext _ _ (fun _ => false)).
  - generalize N_PAGES. intros n. induction n; simpl; lia.
  - intros i Hi. apply bitmap_test_empty. lia.
Qed.

(** ** Contiguous allocation *)

(** [run_free s a c]: the [c] pages from [a] are managed and free. *)
Definition run_free (bm : gmap Z Z) (a c : Z) : Prop :=
  forall k, a <= k < a + c -> bitmap_test bm k = false.

(** What the scan has established when it reaches page [i]: the last
    [contiguous] pages are free, and no run of [count] pages ends before [i]. *)
Record scan_inv (bm : gmap Z Z) (count i contiguous start : Z) : Prop := {
  si_run : run_free bm (i - contiguous) contiguous;
  si_start : contiguous <> 0 -> start = i - contiguous;
  si_range : 0 <= contiguous < count /\ contiguous <= i;
  si_maximal : contiguous < i -> bitmap_test bm (i - contiguous - 1) = true;
  si_none : forall a, 0 <= a -> a + count <= i -> ~ run_free bm a count;
}.

Lemma scan_inv_used bm count i c st :
  scan_inv bm count i c st -> 0 < count -> bitmap_test bm i = true ->
  scan_inv bm count (i + 1) 0 st.
Proof.
  intros [H1 H2 H3 H4 H5] Hc Ht. split.
  - intros k; lia.
  - done.
  - lia.
  - intros _. by replace (i + 1 - 0 - 1) with i by lia.
  - intros a Ha Hb Hrun. destruct (decide (a + count <= i)); [by apply (H5 a)|].
    rewrite Hrun in Ht; [done|lia].
Qed.

Lemma scan_inv_free bm count i c st :
  scan_inv bm count i c st -> bitmap_test bm i = false -> c + 1 <> count ->
  scan_inv bm count (i + 1) (c + 1) (if c =? 0 then i else st).
Proof.
  intros [H1 H2 H3 H4 H5] Ht Hne. split.
  - intros k Hk. destruct (decide (k = i)) as [->|]; [done|]. apply H1; lia.
  - intros _. destruct (Z.eqb_spec c 0); [lia|]. rewrite H2 by done. lia.
  - lia.
  - intros Hlt. replace (i + 1 - (c + 1) - 1) with (i - c - 1) by lia. apply H4; lia.
  - intros a Ha Hb Hrun. destruct (decide (a + count <= i)); [by apply (H5 a)|].
    assert (c < i) by lia. rewrite Hrun in H4; [|lia]. specialize (H4 ltac:(lia)). done.
Qed.

Lemma scan_contiguous_spec bm count n i c st :
  scan_inv bm count i c st -> i + Z.of_nat n < 2 ^ 32 ->
  match scan_contiguous bm count n i c st with
  | Some a => 0 <= a /\ a + count <= i + Z.of_nat n /\ run_free bm a count /\
              (forall b, 0 <= b < a -> ~ run_free bm b count)
  | None => forall b, 0 <= b -> b + count <= i + Z.of_nat n -> ~ run_free bm b count
  end.
Proof.
  change (2 ^ 32) with 4294967296.
  revert i c st. induction n as [|n IH]; intros i c st Hinv Hb; cbn [scan_contiguous].
  { intros b Hb1 Hb2. apply (si_none _ _ _ _ _ Hinv); lia. }
  pose proof (si_range _ _ _ _ _ Hinv) as Hr.
  replace (i + Z.of_nat (S n)) with (i + 1 + Z.of_nat n) by lia.
  destruct (bitmap_test bm i) eqn:Ht.
  { apply IH; [|lia]. apply scan_inv_used with c; [done|lia|done]. }
  rewrite (u32_small (c + 1)) by lia. destruct (Z.eqb_spec (c + 1) count) as [E|E].
  - destruct Hinv as [H1 H2 H3 H4 H5].
    assert ((if c =? 0 then i else st) = i + 1 - count) as ->.
    { destruct (Z.eqb_spec c 0); [lia|]. rewrite H2 by done. lia. }
    split; [lia|]. split; [lia|]. split.
    + intros k Hk. destruct (decide (k = i)) as [->|]; [done|]. apply H1; lia.
    + intros b Hb'. apply H5; lia.
  - apply IH; [|lia]. by apply scan_inv_free.
Qed.

Lemma scan_inv_start bm count : 0 < count -> scan_inv bm count 0 0 0.
Proof. intros. split; [intros k; lia|done|lia|lia|intros a; lia]. Qed.

Lemma countb_set_range (p q : Z -> bool) a c n :
  0 <= a -> 0 <= c -> a + c <= Z.of_nat n ->
  (forall j, a <= j < a + c -> p j = false) ->
  (forall j, 0 <= j < Z.of_nat n -> q j = p j || ((a <=? j) && (j <? a + c))) ->
  countb n q = countb n p + c.
Proof.
  intros Ha Hc Hn Hp Hq. revert Hp Hq. generalize q. clear q.
  replace c with (Z.of_nat (Z.to_nat c)) in * by lia. clear Hc.
  induction (Z.to_nat c) as [|k IH]; intros q Hp Hq.
  - rewrite (countb_ext n q p); [lia|]. intros i Hi. rewrite Hq by lia.
    destruct (p i); [done|]. zdecide.
  - set (q' := fun j => p j || ((a <=? j) && (j <? a + Z.of_nat k))).
    assert (countb n q' = countb n p + Z.of_nat k) as E.
    { apply IH; [lia| |done]. intros j Hj. apply Hp; lia. }
    rewrite (countb_flip n q' q (a + Z.of_nat k)); [lia|lia| | |].
    + unfold q'. rewrite Hp by lia. zdecide.
    + rewrite Hq by lia. rewrite Hp by lia. zdecide.
    + intros i Hi Hne. unfold q'. rewrite Hq by lia. destruct (p i); [done|]. zdecide.
Qed.

Lemma bitmap_set_range_spec bm a b j :
  0 <= a <= b -> 0 <= j ->
  bitmap_test (for_range a b (fun j bm => bitmap_set bm j) bm) j
  = bitmap_test bm j || ((a <=? j) && (j <? b)).
Proof.
  intros Hab Hj.
  apply (for_range_ind (fun i bm' => bitmap_test bm' j = bitmap_test bm j || ((a <=? j) && (j <? i)))).
  - lia.
  - intros i bm' Hi E. rewrite bitmap_test_set, E by lia.
    destruct (bitmap_test bm j); zdecide.
  - destruct (bitmap_test bm j); zdecide.
Qed.

(** The state [pmm_init] leaves. *)
Definition pmm_boot : pmm := snd pmm_init.

Lemma pmm_boot_facts :
  pmm_inv pmm_boot /\ used_pages pmm_boot = 1024 /\
  forall j, 0 <= j < TOTAL_PAGES -> page_used pmm_boot j = (j <? 1024).
Proof.
  unfold pmm_boot, pmm_init. cbv zeta. cbn [snd].
  pose proof pmm_empty_inv as H0.
  set (s0 := mkPmm ∅ _ 0) in *.
  destruct (mark_region_used_spec s0 PHYS_LOW_MEM_START PHYS_LOW_MEM_END H0) as [H1 E1]; [done..|].
  set (s1 := pmm_mark_region_used s0 _ _) in *.
  destruct (mark_region_used_spec s1 PHYS_KERNEL_START PHYS_KERNEL_END H1) as [H2 E2]; [done..|].
  set (s2 := pmm_mark_region_used s1 _ _) in *.
  destruct (mark_region_used_spec s2 PHYS_HEAP_START PHYS_HEAP_END H2) as [H3 E3]; [done..|].
  set (s3 := pmm_mark_region_used s2 _ _) in *.
  destruct (mark_region_used_spec s3 PHYS_BITMAP_START PHYS_BITMAP_END H3) as [H4 E4]; [done..|].
  set (s4 := pmm_mark_region_used s3 _ _) in *.
  assert (forall j, 0 <= j < TOTAL_PAGES -> page_used s4 j = (j <? 1024)) as Hj.
  { intros j Hj. rewrite E4, E3, E2, E1 by lia.
    replace (page_used s0 j) with false by (symmetry; apply bitmap_test_empty; lia).
    change (used_span PHYS_LOW_MEM_START PHYS_LOW_MEM_END) with (0, 256).
    change (used_span PHYS_KERNEL_START PHYS_KERNEL_END) with (0, 512).
    change (used_span PHYS_HEAP_START PHYS_HEAP_END) with (0, 768).
    change (used_span PHYS_BITMAP_START PHYS_BITMAP_END) with (0, 1024).
    unfold in_span. cbn [fst snd]. clear -Hj. zdecide. }
  split; [done|]. split; [|done].
  rewrite (inv_used s4 H4). pages.
  rewrite (countb_set_range (fun _ => false) (page_used s4) 0 1024).
  - generalize N_PAGES. intros n. induction n; simpl; lia.
  - lia.
  - lia.
  - lia.
  - done.
  - intros j Hj'. rewrite Hj by lia. zdecide.
Qed.

(** ** Every operation preserves the invariant *)

Lemma alloc_page_inv s : pmm_inv s -> pmm_inv (snd (pmm_alloc_page s)).
Proof.
  intros Hinv. unfold pmm_alloc_page. rewrite (inv_total s Hinv).
  destruct (find_range 0 TOTAL_PAGES _) as [i|] eqn:Hf; [|done].
  apply find_range_Some in Hf as (Hi & Hfree & _). apply negb_true_iff in Hfree.
  by apply set_page_used_inv.
Qed.

(** [pmm_alloc_pages] in full, on every branch. *)
Lemma alloc_pages_spec (s : pmm) (count : Z) :
  pmm_inv s -> 2 <= count ->
  let '(addr, s') := pmm_alloc_pages s count in
  pmm_inv s' /\
  ((addr = 0 /\ s' = s /\
    forall a, 0 <= a -> a + count <= TOTAL_PAGES -> ~ run_free (page_bitmap s) a count) \/
   (exists a, 0 <= a /\ a + count <= TOTAL_PAGES /\ addr = PHYS_FREE_START + a * PAGE_SIZE /\
      run_free (page_bitmap s) a count /\
      (forall b, 0 <= b < a -> ~ run_free (page_bitmap s) b count) /\
      used_pages s' = used_pages s + count /\
      forall j, 0 <= j -> page_used s' j = page_used s j || ((a <=? j) && (j <? a + count)))).
Proof.
  intros Hinv Hcount.
  unfold pmm_alloc_pages. pages.
  rewrite (proj2 (Z.eqb_neq count 0)), (proj2 (Z.eqb_neq count 1)) by lia.
  pose proof (inv_total s Hinv) as Ht. rewrite Ht, N_PAGES_eq.
  pose proof (scan_contiguous_spec (page_bitmap s) count N_PAGES 0 0 0
    (scan_inv_start (page_bitmap s) count ltac:(lia)) ltac:(lia)) as Hscan.
  rewrite N_PAGES_val in Hscan.
  destruct (scan_contiguous _ _ _ _ _ _) as [a|]; [|split; [done|left]; split; [done|]; split; [done|]].
  2: { intros a Ha Hb. apply Hscan; lia. }
  destruct Hscan as (Ha & Hac & Hrun & Hmin).
  assert (forall j, 0 <= j -> bitmap_test (for_range a (a + count)
      (fun j bm => bitmap_set bm j) (page_bitmap s)) j
      = page_used s j || ((a <=? j) && (j <? a + count))) as Hset.
  { intros j Hj. apply bitmap_set_range_spec; lia. }
  assert (countb N_PAGES (bitmap_test (for_range a (a + count)
      (fun j bm => bitmap_set bm j) (page_bitmap s))) = used_pages s + count) as Hcnt.
  { rewrite (inv_used s Hinv). apply countb_set_range with a; [lia|lia|lia| |].
    - intros j Hj. by apply Hrun.
    - intros j Hj. apply Hset. lia. }
  pose proof (countb_bounds N_PAGES (bitmap_test (for_range a (a + count)
      (fun j bm => bitmap_set bm j) (page_bitmap s)))).
  assert (u32 (used_pages s + count) = used_pages s + count) as Hw by (apply u32_small; lia).
  split; [split; simpl; [done|rewrite Hw; by symmetry]|].
  right. exists a. rewrite page_to_addr_eq by lia. repeat split; [done|lia|done|done|done|done].
Qed.

Lemma free_page_id s addr : total_pages s = TOTAL_PAGES -> pmm_free_page s addr = s.
Proof.
  intros Ht. unfold pmm_free_page. rewrite Ht.
  destruct (Z.ltb_spec addr PHYS_LOW_MEM_START); [done|].
  destruct (Z.leb_spec PHYS_HEAP_END addr); [done|]. cbn [orb].
  destruct (IS_PAGE_ALIGNED addr); [|done]. cbn [negb].
  destruct (Z.leb_spec TOTAL_PAGES (addr_to_page addr)) as [|Hlt]; [done|].
  exfalso. revert Hlt. apply Z.le_ngt. rewrite TOTAL_PAGES_val.
  unfold addr_to_page, PHYS_LOW_MEM_START, PHYS_HEAP_END, PHYS_FREE_START, PAGE_SIZE, u32, u64 in *.
  dlia.
Qed.

(** ** Properties *)

(** First-fit allocation of one page.  The result is the lowest free page of
    the managed region as a page-aligned physical address inside
    [PHYS_FREE_START, PHYS_MEMORY_END), that page and no other becomes used, and
    the counter stays exact; 0 is returned, with the state unchanged, exactly
    when every managed page is used. *)
Theorem pmm_alloc_page_first_fit (s : pmm) (Hinv : pmm_inv s) :
  let '(addr, s') := pmm_alloc_page s in
  pmm_inv s' /\
  ((addr = 0 /\ s' = s /\ used_pages s = TOTAL_PAGES /\
    forall j, 0 <= j < TOTAL_PAGES -> page_used s j = true) \/
   (exists i, 0 <= i < TOTAL_PAGES /\ addr = PHYS_FREE_START + i * PAGE_SIZE /\
      PHYS_FREE_START <= addr < PHYS_MEMORY_END /\ IS_PAGE_ALIGNED addr = true /\
      page_used s i = false /\ (forall j, 0 <= j < i -> page_used s j = true) /\
      used_pages s' = used_pages s + 1 /\
      forall j, 0 <= j -> page_used s' j = (i =? j) || page_used s j)).
Proof.
  unfold pmm_alloc_page. pose proof (inv_total s Hinv) as Ht. rewrite Ht. pages.
  destruct (find_range 0 TOTAL_PAGES _) as [i|] eqn:Hf.
  - apply find_range_Some in Hf as (Hi & Hfree & Hmin). apply negb_true_iff in Hfree.
    destruct (set_page_used_inv s i Hinv Hi Hfree) as [Hinv' Hu]. split; [done|].
    right. exists i. rewrite page_to_addr_eq by done.
    repeat split; [lia|lia|unfold PAGE_SIZE, PHYS_FREE_START; lia
      |unfold PAGE_SIZE, PHYS_FREE_START, PHYS_MEMORY_END; lia| |done| |done|].
    + apply IS_PAGE_ALIGNED_spec. unfold PHYS_FREE_START, PAGE_SIZE. dlia.
    + intros j Hj. specialize (Hmin j Hj). apply negb_false_iff in Hmin. done.
    + intros j Hj. apply page_used_set; lia.
  - rewrite find_range_None in Hf. split; [done|]. left.
    assert (forall j, 0 <= j < TOTAL_PAGES -> page_used s j = true) as Hall.
    { intros j Hj. apply negb_false_iff. by apply Hf. }
    repeat split; [|done]. rewrite (inv_used s Hinv).
    rewrite (proj2 (countb_full _ _)); [lia|]. intros j Hj. apply Hall. lia.
Qed.

(** First-fit allocation of a run of at least two pages. *)
Theorem pmm_alloc_pages_contiguous (s : pmm) (count : Z)
    (Hinv : pmm_inv s) (Hcount : 2 <= count < 2 ^ 64) :
  let '(addr, s') := pmm_alloc_pages s count in
  pmm_inv s' /\
  ((addr = 0 /\ s' = s /\
    forall a, 0 <= a -> a + count <= TOTAL_PAGES -> ~ run_free (page_bitmap s) a count) \/
   (exists a, 0 <= a /\ a + count <= TOTAL_PAGES /\ addr = PHYS_FREE_START + a * PAGE_SIZE /\
      run_free (page_bitmap s) a count /\
      (forall b, 0 <= b < a -> ~ run_free (page_bitmap s) b count) /\
      used_pages s' = used_pages s + count /\
      forall j, 0 <= j -> page_used s' j = page_used s j || ((a <=? j) && (j <? a + count)))).
Proof. by apply alloc_pages_spec; [|lia]. Qed.

(** [pmm_free_page] frees nothing: every address it accepts lies below
    [PHYS_HEAP_END], where the page index wraps to a number past the managed
    pages, and every address the allocator hands out is rejected by the range
    check. *)
Theorem pmm_free_page_never_frees (s : pmm) (addr : Z)
    (Ht : total_pages s = TOTAL_PAGES) : pmm_free_page s addr = s.
Proof. by apply free_page_id. Qed.


(** After [pmm_init] exactly the first 1024 managed pages, the frames from 4 MB
    to 8 MB, are used, and every later frame is free. *)
Theorem pmm_init_layout :
  fst pmm_init = E_OK /\ pmm_inv pmm_boot /\ used_pages pmm_boot = 1024 /\
  forall j, 0 <= j < TOTAL_PAGES -> page_used pmm_boot j = (j <? 1024).
Proof. split; [reflexivity|]. exact pmm_boot_facts. Qed.

(** ** The component as a transition system *)

Lemma mark_region_free_inv s start end0 :
  pmm_inv s -> 0 <= end0 < 2 ^ 63 -> pmm_inv (pmm_mark_region_free s start end0).
Proof.
  intros Hinv He. unfold pmm_mark_region_free. cbv zeta.
  pose proof (PAGE_ALIGN_UP_range end0 He). pose proof (PAGE_ALIGN_DOWN_range start).
  case_match; [done|].
  apply mark_free_range_spec; [done|apply u32_range|].
  rewrite (inv_total s Hinv). lia.
Qed.

(** The calls a client can make, with arguments in the range the kernel's
    address map allows. *)
Inductive pmm_step : pmm -> pmm -> Prop :=
| step_alloc_page s : pmm_step s (snd (pmm_alloc_page s))
| step_alloc_pages s count : 0 <= count < 2 ^ 64 -> pmm_step s (snd (pmm_alloc_pages s count))
| step_free_page s addr : pmm_step s (pmm_free_page s addr)
| step_free_pages s addr count : pmm_step s (pmm_free_pages s addr count)
| step_mark_used s start end0 :
    0 <= start -> 0 <= end0 < 2 ^ 63 -> pmm_step s (pmm_mark_region_used s start end0)
| step_mark_free s start end0 :
    0 <= end0 < 2 ^ 63 -> pmm_step s (pmm_mark_region_free s start end0).

Inductive pmm_reachable : pmm -> Prop :=
| reach_init : pmm_reachable pmm_boot
| reach_step s s' : pmm_reachable s -> pmm_step s s' -> pmm_reachable s'.

Lemma free_pages_id s addr count : pmm_inv s -> pmm_free_pages s addr count = s.
Proof.
  intros Hinv. unfold pmm_free_pages.
  destruct (decide (0 <= count)); [|by rewrite for_range_empty by lia].
  apply (for_range_ind (fun _ s' => s' = s)); [done| |done].
  intros i s' _ ->. by apply free_page_id, inv_total.
Qed.

Lemma pmm_step_inv s s' : pmm_step s s' -> pmm_inv s -> pmm_inv s'.
Proof.
  intros Hstep Hinv. destruct Hstep.
  - by apply alloc_page_inv.
  - destruct (Z.eqb_spec count 0) as [->|]; [done|].
    destruct (Z.eqb_spec count 1) as [->|]; [by apply alloc_page_inv|].
    pose proof (alloc_pages_spec s count Hinv ltac:(lia)) as Hs.
    by destruct (pmm_alloc_pages s count), Hs.
  - by rewrite free_page_id by by apply inv_total.
  - by rewrite free_pages_id.
  - by apply mark_region_used_spec.
  - by apply mark_region_free_inv.
Qed.

(** C24. C: in every state reachable from [pmm_init] the counter is the number of
    set bits, and the reported used and free page counts add up to the total. *)
Theorem pmm_reachable_accounting (s : pmm) (Hr : pmm_reachable s) :
  pmm_inv s /\ pmm_get_used_pages s + pmm_get_free_pages s = pmm_get_total_pages s /\
  pmm_get_used_memory s + pmm_get_free_memory s = pmm_get_total_memory s /\
  pmm_get_total_memory s = PHYS_MEMORY_END - PHYS_FREE_START.
Proof.
  assert (pmm_inv s) as Hinv.
  { induction Hr; [apply pmm_boot_facts|]. by eapply pmm_step_inv. }
  split; [done|]. pose proof (used_pages_range s Hinv) as Hu. pages.
  unfold pmm_get_used_pages, pmm_get_used_memory, pmm_get_free_memory, pmm_get_free_pages,
    pmm_get_total_pages, pmm_get_total_memory. rewrite (inv_total s Hinv), TOTAL_PAGES_val.
  unfold PAGE_SIZE, PHYS_MEMORY_END, PHYS_FREE_START. wrap_small. lia.
Qed.

(** ** Witnesses *)

Lemma pmm_alloc_page_first_fit_witness :
  pmm_inv pmm_boot /\ fst (pmm_alloc_page pmm_boot) = 0x800000 /\
  pmm_inv (snd (pmm_alloc_page pmm_boot)).
Proof.
  assert (pmm_inv pmm_boot) as Hinv by apply pmm_boot_facts.
  split; [done|]. split; [vm_compute; reflexivity|].
  pose proof (pmm_alloc_page_first_fit pmm_boot Hinv) as H.
  destruct (pmm_alloc_page pmm_boot). apply H.
Defined.

Lemma pmm_alloc_pages_contiguous_witness :
  pmm_inv pmm_boot /\ fst (pmm_alloc_pages pmm_boot 3) = 0x800000 /\
  pmm_inv (snd (pmm_alloc_pages pmm_boot 3)).
Proof.
  assert (pmm_inv pmm_boot) as Hinv by apply pmm_boot_facts.
  split; [done|]. split; [vm_compute; reflexivity|].
  pose proof (pmm_alloc_pages_contiguous pmm_boot 3 Hinv ltac:(lia)) as H.
  destruct (pmm_alloc_pages pmm_boot 3). apply H.
Defined.

Lemma pmm_free_page_never_frees_witness :
  let '(addr, s) := pmm_alloc_page pmm_boot in
  total_pages s = TOTAL_PAGES /\ pmm_free_page s addr = s.
Proof.
  destruct (pmm_alloc_page pmm_boot) as [addr s] eqn:E.
  assert (total_pages s = TOTAL_PAGES) as Ht.
  { change s with (snd (addr, s)). rewrite <- E. apply inv_total, alloc_page_inv, pmm_boot_facts. }
  split; [done|]. apply (pmm_free_page_never_frees s addr Ht).
Defined.

Lemma pmm_reachable_accounting_witness :
  pmm_reachable (snd (pmm_alloc_page pmm_boot)) /\ pmm_inv (snd (pmm_alloc_page pmm_boot)).
Proof.
  assert (pmm_reachable (snd (pmm_alloc_page pmm_boot))) as Hr
    by (eapply reach_step; [apply reach_init | constructor]).
  split; [done|]. apply (pmm_reachable_accounting _ Hr).
Defined.
