(* ===== verification/Buddy.v ===== *)
(** * Buddy allocator: mm/allocators/buddy.h, mm/allocators/buddy.c (definitions)

    [buddy] holds the fields of [buddy_allocator_t] and, in [blocks], the
    [buddy_block_t] headers the allocator writes at the start of free blocks,
    keyed by their virtual address; 0 is the null pointer.  The two bitmaps at
    the start of the managed region are byte maps.  [Buddy.v] translates the
    code; [BuddyLists.v] relates the headers to abstract free lists and
    [BuddyInv.v] and [BuddyThms.v] prove the allocator correct.  Serial and console output is not
    modelled. *)

From S2P Require Import Prelude MemLayout Errno Bitmap.

Definition BUDDY_MAX_ORDER : Z := 11.
Definition BUDDY_PAGES_PER_ORDER (order : Z) : Z := Z.shiftl 1 order.
Definition BUDDY_SIZE_FOR_ORDER (order : Z) : Z := PAGE_SIZE * BUDDY_PAGES_PER_ORDER order.

Record buddy_block := mkBlock { bb_next : Z; bb_prev : Z }.

Record buddy := mkBuddy {
  base_addr : Z;
  total_size : Z;
  total_pages : Z;
  free_lists : list Z;
  allocations : list Z;
  deallocations : list Z;
  splits : Z;
  merges : Z;
  allocation_bitmap : gmap Z Z;
  order_bitmap : gmap Z Z;
  blocks : gmap Z buddy_block;
}.

(** ** Field access *)

Definition block_at (m : gmap Z buddy_block) (p : Z) : buddy_block := default (mkBlock 0 0) (m !! p).
Definition set_next (m : gmap Z buddy_block) (p v : Z) : gmap Z buddy_block :=
  <[p := mkBlock v (bb_prev (block_at m p))]> m.
Definition set_prev (m : gmap Z buddy_block) (p v : Z) : gmap Z buddy_block :=
  <[p := mkBlock (bb_next (block_at m p)) v]> m.

Definition with_blocks (a : buddy) (m : gmap Z buddy_block) : buddy :=
  mkBuddy (base_addr a) (total_size a) (total_pages a) (free_lists a) (allocations a)
    (deallocations a) (splits a) (merges a) (allocation_bitmap a) (order_bitmap a) m.
Definition with_head (a : buddy) (order p : Z) : buddy :=
  mkBuddy (base_addr a) (total_size a) (total_pages a) (updz (free_lists a) order p) (allocations a)
    (deallocations a) (splits a) (merges a) (allocation_bitmap a) (order_bitmap a) (blocks a).
Definition with_splits (a : buddy) (n : Z) : buddy :=
  mkBuddy (base_addr a) (total_size a) (total_pages a) (free_lists a) (allocations a)
    (deallocations a) n (merges a) (allocation_bitmap a) (order_bitmap a) (blocks a).
Definition with_merges (a : buddy) (n : Z) : buddy :=
  mkBuddy (base_addr a) (total_size a) (total_pages a) (free_lists a) (allocations a)
    (deallocations a) (splits a) n (allocation_bitmap a) (order_bitmap a) (blocks a).
Definition with_bitmaps (a : buddy) (ab ob : gmap Z Z) : buddy :=
  mkBuddy (base_addr a) (total_size a) (total_pages a) (free_lists a) (allocations a)
    (deallocations a) (splits a) (merges a) ab ob (blocks a).
Definition with_counts (a : buddy) (al de : list Z) : buddy :=
  mkBuddy (base_addr a) (total_size a) (total_pages a) (free_lists a) al
    de (splits a) (merges a) (allocation_bitmap a) (order_bitmap a) (blocks a).

Definition free_head (a : buddy) (order : Z) : Z := nthz (free_lists a) order.

(** ** Addresses *)

Definition addr_to_block_index (a : buddy) (addr : Z) : Z := u64 (addr - base_addr a) / PAGE_SIZE.
Definition index_to_addr (a : buddy) (index : Z) : Z := u64 (base_addr a + u64 (index * PAGE_SIZE)).
Definition get_buddy_addr (a : buddy) (addr order : Z) : Z :=
  let block_index := addr_to_block_index a addr in
  let buddy_index := Z.lxor block_index (BUDDY_PAGES_PER_ORDER order) in
  index_to_addr a buddy_index.

(** ** Free lists *)

Definition remove_from_free_list (a : buddy) (block order : Z) : buddy :=
  let prev := bb_prev (block_at (blocks a) block) in
  let a :=
    if prev =? 0 then with_head a order (bb_next (block_at (blocks a) block))
    else with_blocks a (set_next (blocks a) prev (bb_next (block_at (blocks a) block))) in
  let next := bb_next (block_at (blocks a) block) in
  let a :=
    if next =? 0 then a
    else with_blocks a (set_prev (blocks a) next (bb_prev (block_at (blocks a) block))) in
  let a := with_blocks a (set_next (blocks a) block 0) in
  with_blocks a (set_prev (blocks a) block 0).

Definition add_to_free_list (a : buddy) (addr order : Z) : buddy :=
  let block := PHYS_TO_VIRT addr in
  let a := with_blocks a (set_next (blocks a) block (free_head a order)) in
  let a := with_blocks a (set_prev (blocks a) block 0) in
  let a :=
    if free_head a order =? 0 then a
    else with_blocks a (set_prev (blocks a) (free_head a order) block) in
  with_head a order block.

(** ** Splitting and merging

    [split_block] and [try_merge] recurse on [order + 1] and stop at
    [BUDDY_MAX_ORDER]; [BUDDY_FUEL] levels are enough for every order
    ([split_spec] and [merge_spec] in BuddyInv.v). *)

Definition BUDDY_FUEL : nat := 12.

Fixpoint split_block_fuel (fuel : nat) (a : buddy) (order : Z) : kerr_t * buddy :=
  match fuel with
  | O => (E_INVALID, a)
  | S fuel' =>
      if BUDDY_MAX_ORDER <=? order then (E_INVALID, a)
      else
        let '(err, a) :=
          if free_head a (order + 1) =? 0 then split_block_fuel fuel' a (order + 1)
          else (E_OK, a) in
        if negb (is_ok err) then (err, a)
        else
          let block := free_head a (order + 1) in
          let block_addr := VIRT_TO_PHYS block in
          let a := remove_from_free_list a block (order + 1) in
          let buddy1_addr := block_addr in
          let buddy2_addr := u64 (block_addr + BUDDY_SIZE_FOR_ORDER order) in
          let a := add_to_free_list a buddy1_addr order in
          let a := add_to_free_list a buddy2_addr order in
          (E_OK, with_splits a (u64 (splits a + 1)))
  end.

Definition split_block (a : buddy) (order : Z) : kerr_t * buddy :=
  split_block_fuel BUDDY_FUEL a order.

(** The [while (buddy)] search of [try_merge]: does the list starting at [p]
    reach [target]?  A list has at most one node per managed page. *)
Fixpoint list_reaches (fuel : nat) (m : gmap Z buddy_block) (p target : Z) : bool :=
  match fuel with
  | O => false
  | S fuel' =>
      if p =? 0 then false
      else if p =? target then true
      else list_reaches fuel' m (bb_next (block_at m p)) target
  end.

Definition list_fuel (a : buddy) : nat := S (Z.to_nat (total_pages a)).

Fixpoint try_merge_fuel (fuel : nat) (a : buddy) (addr order : Z) : buddy :=
  match fuel with
  | O => a
  | S fuel' =>
      if BUDDY_MAX_ORDER <=? order then a
      else
        let buddy_addr := get_buddy_addr a addr order in
        if (buddy_addr <? base_addr a) || (u64 (base_addr a + total_size a) <=? buddy_addr) then a
        else
          let buddy_index := addr_to_block_index a buddy_addr in
          if bitmap_test (allocation_bitmap a) buddy_index then a
          else
            let buddy_virt := PHYS_TO_VIRT buddy_addr in
            if list_reaches (list_fuel a) (blocks a) (free_head a order) buddy_virt then
              let a := remove_from_free_list a buddy_virt order in
              let current := PHYS_TO_VIRT addr in
              let a := remove_from_free_list a current order in
              let merged_addr := if addr <? buddy_addr then addr else buddy_addr in
              let a := add_to_free_list a merged_addr (order + 1) in
              let a := with_merges a (u64 (merges a + 1)) in
              try_merge_fuel fuel' a merged_addr (order + 1)
            else a
  end.

Definition try_merge (a : buddy) (addr order : Z) : buddy := try_merge_fuel BUDDY_FUEL a addr order.

(** ** Initialisation *)

(** [while (remaining_size >= block_size)] at one order. *)
Fixpoint fill_order (fuel : nat) (a : buddy) (order current_addr remaining : Z) : buddy * Z * Z :=
  match fuel with
  | O => (a, current_addr, remaining)
  | S fuel' =>
      let block_size := BUDDY_SIZE_FOR_ORDER order in
      if block_size <=? remaining then
        fill_order fuel' (add_to_free_list a current_addr order) order
          (u64 (current_addr + block_size)) (remaining - block_size)
      else (a, current_addr, remaining)
  end.

Definition fill_fuel (order remaining : Z) : nat :=
  S (Z.to_nat (remaining / BUDDY_SIZE_FOR_ORDER order)).

(** [for (int order = BUDDY_MAX_ORDER; order >= 0; order--)], from [order = n - 1]. *)
Fixpoint fill_orders (n : nat) (a : buddy) (current_addr remaining : Z) : buddy * Z * Z :=
  match n with
  | O => (a, current_addr, remaining)
  | S n' =>
      let order := Z.of_nat n' in
      let '(a, current_addr, remaining) :=
        fill_order (fill_fuel order remaining) a order current_addr remaining in
      fill_orders n' a current_addr remaining
  end.

Definition alloc_bitmap_size (pages : Z) : Z := (pages + 7) / 8.
Definition bitmap_pages (pages : Z) : Z :=
  (alloc_bitmap_size pages + pages + PAGE_SIZE - 1) / PAGE_SIZE.

(** The allocator before any block is added: all lists empty, counters and
    bitmaps zero.  [m] is what the headers of the region's memory held. *)
Definition buddy_empty (m : gmap Z buddy_block) (base size : Z) : buddy :=
  mkBuddy base size (size / PAGE_SIZE) (replicate 12 0) (replicate 12 0) (replicate 12 0)
    0 0 ∅ ∅ m.

(** [buddy_init] on a non-null allocator; [None] stands for the error returns,
    which leave the allocator as it was. *)
Definition buddy_init (m : gmap Z buddy_block) (base size : Z) : kerr_t * option buddy :=
  if negb (IS_PAGE_ALIGNED base) || negb (IS_PAGE_ALIGNED size) then (E_NOMEM, None)
  else if negb (Z.land size (u64 (size - 1)) =? 0) then (E_INVALID, None)
  else
    let a := buddy_empty m base size in
    let bp := bitmap_pages (total_pages a) in
    let current_addr := u64 (base + u64 (bp * PAGE_SIZE)) in
    let remaining_size := u64 (size - u64 (bp * PAGE_SIZE)) in
    let '(a, _, _) := fill_orders (Z.to_nat (BUDDY_MAX_ORDER + 1)) a current_addr remaining_size in
    (E_OK, Some a).

(** ** Sizes *)

(** [while (BUDDY_PAGES_PER_ORDER(order) < pages && order < BUDDY_MAX_ORDER) order++] *)
Fixpoint order_loop (fuel : nat) (pages order : Z) : Z :=
  match fuel with
  | O => order
  | S fuel' =>
      if (BUDDY_PAGES_PER_ORDER order <? pages) && (order <? BUDDY_MAX_ORDER)
      then order_loop fuel' pages (order + 1) else order
  end.

Definition buddy_get_order_for_size (size : Z) : Z :=
  let pages := u64 (u64 (size + PAGE_SIZE) - 1) / PAGE_SIZE in
  order_loop BUDDY_FUEL pages 0.

Definition buddy_get_actual_size (size : Z) : Z :=
  BUDDY_SIZE_FOR_ORDER (buddy_get_order_for_size size).

(** ** Allocation and release *)

Definition mark_block (block_index num_pages order : Z) (bm : gmap Z Z * gmap Z Z)
  : gmap Z Z * gmap Z Z :=
  for_range 0 num_pages
    (fun i bm => (bitmap_set (fst bm) (block_index + i), wr (snd bm) (block_index + i) order)) bm.

Definition unmark_block (block_index num_pages : Z) (bm : gmap Z Z * gmap Z Z)
  : gmap Z Z * gmap Z Z :=
  for_range 0 num_pages
    (fun i bm => (bitmap_clear (fst bm) (block_index + i), wr (snd bm) (block_index + i) 0)) bm.

Definition buddy_alloc_order (a : buddy) (order : Z) : Z * buddy :=
  if BUDDY_MAX_ORDER <? order then (0, a)
  else
    let '(err, a) :=
      if free_head a order =? 0 then split_block a order else (E_OK, a) in
    if negb (is_ok err) then (0, a)
    else
      let block := free_head a order in
      if block =? 0 then (0, a)
      else
        let addr := VIRT_TO_PHYS block in
        let a := remove_from_free_list a block order in
        let block_index := addr_to_block_index a addr in
        let num_pages := BUDDY_PAGES_PER_ORDER order in
        let '(ab, ob) :=
          mark_block block_index num_pages order (allocation_bitmap a, order_bitmap a) in
        let a := with_bitmaps a ab ob in
        let a := with_counts a
          (updz (allocations a) order (u64 (nthz (allocations a) order + 1))) (deallocations a) in
        (addr, a).

Definition buddy_alloc (a : buddy) (size : Z) : Z * buddy :=
  buddy_alloc_order a (buddy_get_order_for_size size).

Definition buddy_free (a : buddy) (phys_addr : Z) : buddy :=
  if (phys_addr <? base_addr a) || (u64 (base_addr a + total_size a) <=? phys_addr) then a
  else if negb (IS_PAGE_ALIGNED phys_addr) then a
  else
    let block_index := addr_to_block_index a phys_addr in
    if negb (bitmap_test (allocation_bitmap a) block_index) then a
    else
      let order := rd (order_bitmap a) block_index in
      let num_pages := BUDDY_PAGES_PER_ORDER order in
      let '(ab, ob) :=
        unmark_block block_index num_pages (allocation_bitmap a, order_bitmap a) in
      let a := with_bitmaps a ab ob in
      let a := with_counts a (allocations a)
        (updz (deallocations a) order (u64 (nthz (deallocations a) order + 1))) in
      let a := add_to_free_list a phys_addr order in
      try_merge a phys_addr order.

Definition buddy_is_allocated (a : buddy) (phys_addr : Z) : bool :=
  if (phys_addr <? base_addr a) || (u64 (base_addr a + total_size a) <=? phys_addr) then false
  else bitmap_test (allocation_bitmap a) (addr_to_block_index a phys_addr).

(** ** Statistics *)

(** The counting [while (block)] loop; [count] is a C [int]. *)
Fixpoint count_list (fuel : nat) (m : gmap Z buddy_block) (p count : Z) : Z :=
  match fuel with
  | O => count
  | S fuel' =>
      if p =? 0 then count else count_list fuel' m (bb_next (block_at m p)) (i32 (count + 1))
  end.

Definition buddy_get_free_memory (a : buddy) : Z :=
  for_range 0 (BUDDY_MAX_ORDER + 1)
    (fun order free_mem =>
       let count := count_list (list_fuel a) (blocks a) (free_head a order) 0 in
       u64 (free_mem + u64 (count * BUDDY_SIZE_FOR_ORDER order))) 0.

Definition buddy_get_used_memory (a : buddy) : Z :=
  u64 (total_size a - buddy_get_free_memory a).
