(* ===== verification/BuddyLists.v ===== *)
(** * Buddy allocator: the intrusive free lists as abstract lists

    [dseg] reads a doubly linked segment of block headers as the list of its
    nodes.  [lists_ok a fl] says that the heads and headers of [a] represent
    the abstract list [fl] of free blocks (page index, order); the two list
    primitives of buddy.c are shown to be cons and removal on [fl]. *)

From S2P Require Import Prelude MemLayout Errno Bitmap Buddy.

(** ** Doubly linked segments *)

Definition hdz (d : Z) (l : list Z) : Z := default d (head l).
Definition lastz (d : Z) (l : list Z) : Z := default d (last l).

Fixpoint dseg (m : gmap Z buddy_block) (pv : Z) (l : list Z) (nx : Z) : Prop :=
  match l with
  | [] => True
  | p :: l' => m !! p = Some (mkBlock (hdz nx l') pv) /\ dseg m p l' nx
  end.

Lemma lastz_snoc d l x : lastz d (l ++ [x]) = x.
Proof. unfold lastz. by rewrite last_snoc. Qed.

Lemma lastz_cons d x l : lastz d (x :: l) = lastz x l.
Proof. unfold lastz. rewrite last_cons. by destruct (last l). Qed.

Lemma hdz_app d l1 l2 : hdz d (l1 ++ l2) = hdz (hdz d l2) l1.
Proof. by destruct l1. Qed.

Lemma dseg_app m pv l1 l2 nx :
  dseg m pv (l1 ++ l2) nx <-> dseg m pv l1 (hdz nx l2) /\ dseg m (lastz pv l1) l2 nx.
Proof.
  revert pv. induction l1 as [|p l1 IH]; intros pv; simpl; [by intuition|].
  rewrite IH, lastz_cons, hdz_app. tauto.
Qed.

(** Frame: headers outside the segment do not matter. *)
Lemma dseg_frame m m' pv l nx :
  (forall p, p ∈ l -> m' !! p = m !! p) -> dseg m pv l nx -> dseg m' pv l nx.
Proof.
  revert pv. induction l as [|p l IH]; intros pv Heq; simpl; [done|].
  intros [H1 H2]. rewrite Heq by set_solver. split; [done|]. apply IH; [set_solver|done].
Qed.

Lemma dseg_insert_ne m p b pv l nx : p ∉ l -> dseg m pv l nx -> dseg (<[p := b]> m) pv l nx.
Proof.
  intros Hp. apply dseg_frame. intros q Hq. apply lookup_insert_ne. set_solver.
Qed.

(** Redirecting the next pointer of the last node. *)
Lemma dseg_set_last m pv l q nx nx' :
  NoDup (l ++ [q]) -> dseg m pv (l ++ [q]) nx ->
  dseg (<[q := mkBlock nx' (lastz pv l)]> m) pv (l ++ [q]) nx'.
Proof.
  intros Hnd. rewrite !dseg_app. cbn [dseg hdz head hd_error default]. intros [H1 [H2 _]].
  split; [|by rewrite lookup_insert_eq]. apply dseg_insert_ne; [|done].
  apply NoDup_app in Hnd as (_ & Hnd & _). set_solver.
Qed.

(** Redirecting the previous pointer of the first node. *)
Lemma dseg_set_first m pv pv' q l nx :
  NoDup (q :: l) -> dseg m pv (q :: l) nx ->
  dseg (<[q := mkBlock (hdz nx l) pv']> m) pv' (q :: l) nx.
Proof.
  intros Hnd [H1 H2]. split; [by rewrite lookup_insert_eq|].
  apply dseg_insert_ne; [|done]. by inversion Hnd.
Qed.

Lemma dseg_lookup m pv l1 p l2 nx :
  dseg m pv (l1 ++ p :: l2) nx -> m !! p = Some (mkBlock (hdz nx l2) (lastz pv l1)).
Proof. rewrite dseg_app. by intros [_ [H _]]. Qed.

(** ** Unlinking a node *)

(** The header map [remove_from_free_list] leaves. *)
Definition unlink (m : gmap Z buddy_block) (p : Z) : gmap Z buddy_block :=
  let b := block_at m p in
  let m1 := if bb_prev b =? 0 then m else set_next m (bb_prev b) (bb_next b) in
  let m2 := if bb_next b =? 0 then m1 else set_prev m1 (bb_next b) (bb_prev b) in
  <[p := mkBlock 0 0]> m2.

Lemma block_at_Some m p b : m !! p = Some b -> block_at m p = b.
Proof. unfold block_at. by intros ->. Qed.

Lemma hdz_0 l : 0 ∉ l -> hdz 0 l = 0 -> l = [].
Proof. destruct l as [|x l]; [done|]. unfold hdz; simpl. set_solver. Qed.

Lemma lastz_0 l : 0 ∉ l -> lastz 0 l = 0 -> l = [].
Proof.
  destruct l as [|x l _] using rev_ind; [done|]. rewrite lastz_snoc. set_solver.
Qed.

Lemma unlink_spec m l1 p l2 :
  NoDup (l1 ++ p :: l2) -> 0 ∉ l1 ++ p :: l2 -> dseg m 0 (l1 ++ p :: l2) 0 ->
  dseg (unlink m p) 0 (l1 ++ l2) 0.
Proof.
  intros Hnd H0 Hd. unfold unlink. pose proof (dseg_lookup _ _ _ _ _ _ Hd) as Hp.
  rewrite (block_at_Some _ _ _ Hp). cbn [bb_prev bb_next].
  apply dseg_app in Hd as [Hd1 Hd2]. cbn [dseg] in Hd2. destruct Hd2 as [_ Hd2].
  apply NoDup_app in Hnd as (Hn1 & Hn12 & Hn2). apply NoDup_cons in Hn2 as [Hn2p Hn2].
  apply dseg_app. split.
  - apply dseg_insert_ne; [clear -Hn12; set_solver|].
    assert (dseg (if lastz 0 l1 =? 0 then m else set_next m (lastz 0 l1) (hdz 0 l2)) 0 l1 (hdz 0 l2)) as H1.
    { destruct l1 as [|q l1 _] using rev_ind; [done|]. rewrite lastz_snoc.
      rewrite (proj2 (Z.eqb_neq q 0)) by set_solver. unfold set_next.
      rewrite (block_at_Some m q (mkBlock (hdz 0 (p :: l2)) (lastz 0 l1))).
      - by apply dseg_set_last with (hdz 0 (p :: l2)).
      - exact (dseg_lookup m 0 l1 q [] _ Hd1). }
    destruct (Z.eqb_spec (hdz 0 l2) 0) as [|Hne]; [done|]. apply dseg_insert_ne; [|done].
    destruct l2; [done|]. unfold hdz; simpl. set_solver.
  - apply dseg_insert_ne; [done|]. destruct l2 as [|q l2]; [done|]. cbn [hdz head default].
    unfold hdz; simpl. rewrite (proj2 (Z.eqb_neq q 0)) by set_solver.
    set (m1 := if lastz 0 l1 =? 0 then m else _).
    assert (dseg m1 p (q :: l2) 0) as H1.
    { unfold m1. destruct (Z.eqb_spec (lastz 0 l1) 0) as [|Hne]; [done|].
      apply dseg_insert_ne; [|done].
      destruct l1 as [|r l1 _] using rev_ind; [done|]. rewrite lastz_snoc. set_solver. }
    unfold set_prev. rewrite (block_at_Some m1 q (mkBlock (hdz 0 l2) p)) by apply H1.
    apply dseg_set_first with p; [done|done].
Qed.

Lemma unlink_frame m l1 p l2 q :
  0 ∉ l1 ++ p :: l2 -> dseg m 0 (l1 ++ p :: l2) 0 -> q ∉ l1 ++ p :: l2 ->
  unlink m p !! q = m !! q.
Proof.
  intros H0 Hd Hq. unfold unlink. rewrite (block_at_Some _ _ _ (dseg_lookup _ _ _ _ _ _ Hd)).
  cbn [bb_prev bb_next]. rewrite lookup_insert_ne by set_solver.
  assert (hdz 0 l2 <> 0 -> q <> hdz 0 l2) as Hh.
  { destruct l2; unfold hdz; simpl; [done|]. set_solver. }
  assert (lastz 0 l1 <> 0 -> q <> lastz 0 l1) as Hl.
  { destruct l1 as [|r l1 _] using rev_ind; [done|]. rewrite lastz_snoc. set_solver. }
  unfold set_prev, set_next. zbool; rewrite ?lookup_insert_ne by naive_solver; done.
Qed.

(** ** Pushing a node *)

(** The header map [add_to_free_list] leaves when the list starts at [h]. *)
Definition push (m : gmap Z buddy_block) (p h : Z) : gmap Z buddy_block :=
  let m1 := set_prev (set_next m p h) p 0 in
  if h =? 0 then m1 else set_prev m1 h p.

Lemma push_eq m p l :
  p ∉ l -> 0 ∉ l -> dseg m 0 l 0 ->
  push m p (hdz 0 l) =
  match l with
  | [] => <[p := mkBlock 0 0]> m
  | x :: l' => <[x := mkBlock (hdz 0 l') p]> (<[p := mkBlock x 0]> m)
  end.
Proof.
  intros Hp H0 Hd. unfold push, set_prev, set_next.
  rewrite insert_insert_eq. unfold block_at at 1. rewrite lookup_insert_eq.
  destruct l as [|x l]; unfold hdz; cbn; [done|].
  apply not_elem_of_cons in Hp as [Hp _]. apply not_elem_of_cons in H0 as [H0 _].
  rewrite (proj2 (Z.eqb_neq x 0)) by done. destruct Hd as [Hd _].
  unfold block_at. rewrite (lookup_insert_ne _ p x), Hd by done. by rewrite lookup_insert_eq.
Qed.

Lemma push_frame m p l q :
  p ∉ l -> 0 ∉ l -> dseg m 0 l 0 -> q ∉ p :: l -> push m p (hdz 0 l) !! q = m !! q.
Proof.
  intros Hp H0 Hd Hq. rewrite push_eq by done. apply not_elem_of_cons in Hq as [Hqp Hq].
  destruct l as [|x l]; rewrite ?lookup_insert_ne by set_solver; done.
Qed.

Lemma push_spec m p l :
  p ∉ l -> 0 ∉ l -> NoDup l -> dseg m 0 l 0 -> dseg (push m p (hdz 0 l)) 0 (p :: l) 0.
Proof.
  intros Hp H0 Hnd Hd. rewrite push_eq by done. destruct l as [|x l].
  - split; [by rewrite lookup_insert_eq|done].
  - destruct Hd as [Hd1 Hd2]. apply not_elem_of_cons in Hp as [Hpx Hp].
    apply NoDup_cons in Hnd as [Hx Hnd]. split.
    + rewrite lookup_insert_ne by congruence. by rewrite lookup_insert_eq.
    + split; [by rewrite lookup_insert_eq|]. by do 2 (apply dseg_insert_ne; [done|]).
Qed.

(** ** Walking a list *)

Lemma list_reaches_spec m l fuel pv target :
  dseg m pv l 0 -> 0 ∉ l -> (length l < fuel)%nat ->
  list_reaches fuel m (hdz 0 l) target = bool_decide (target ∈ l).
Proof.
  revert pv fuel. induction l as [|p l IH]; intros pv fuel Hd H0 Hf; (destruct fuel; [simpl in Hf; lia|]).
  - done.
  - cbn [list_reaches]. change (hdz 0 (p :: l)) with p. rewrite (proj2 (Z.eqb_neq p 0)) by set_solver.
    destruct Hd as [H1 H2]. destruct (Z.eqb_spec p target) as [->|Hne].
    + symmetry. apply bool_decide_eq_true. set_solver.
    + rewrite (block_at_Some _ _ _ H1). cbn [bb_next]. rewrite (IH p); [|done|set_solver|simpl in Hf; lia].
      apply bool_decide_ext. set_solver.
Qed.

Lemma count_list_spec m l fuel pv c :
  dseg m pv l 0 -> 0 ∉ l -> (length l < fuel)%nat -> 0 <= c -> c + Z.of_nat (length l) < 2 ^ 31 ->
  count_list fuel m (hdz 0 l) c = c + Z.of_nat (length l).
Proof.
  change (2 ^ 31) with 2147483648.
  revert pv fuel c. induction l as [|p l IH]; intros pv fuel c Hd H0 Hf Hc Hb;
    (destruct fuel; [simpl in Hf; lia|]).
  - simpl. lia.
  - cbn [count_list]. change (hdz 0 (p :: l)) with p. rewrite (proj2 (Z.eqb_neq p 0)) by set_solver.
    destruct Hd as [H1 H2]. rewrite (block_at_Some _ _ _ H1). cbn [bb_next length] in *.
    rewrite i32_small by lia. rewrite (IH p); [lia|done|set_solver|lia|lia|lia].
Qed.

(** ** Abstract free lists *)

(** A block is a page index and an order. *)
Definition of_order (o : Z) (fl : list (Z * Z)) : list Z := fst <$> filter (fun b => snd b = o) fl.

Definition blk_ok (tp : Z) (b : Z * Z) : Prop :=
  0 <= fst b /\ 0 <= snd b <= BUDDY_MAX_ORDER /\ fst b + 2 ^ snd b <= tp.

(** Virtual address of the header of the block that starts at page [i]. *)
Definition node (base i : Z) : Z := base + i * PAGE_SIZE + VIRT_PHYS_MAP_BASE.

(** The managed region fits far below the top of the direct map. *)
Record cfg_ok (a : buddy) : Prop := {
  cfg_base : 0 <= base_addr a;
  cfg_aligned : base_addr a mod PAGE_SIZE = 0;
  cfg_pages : 0 <= total_pages a;
  cfg_size : total_size a = total_pages a * PAGE_SIZE;
  cfg_fits : base_addr a + total_size a <= 2 ^ 42;
}.

Record lists_ok (a : buddy) (fl : list (Z * Z)) : Prop := {
  lo_len : length (free_lists a) = 12%nat;
  lo_blk : Forall (blk_ok (total_pages a)) fl;
  lo_nodup : NoDup (fst <$> fl);
  lo_list : forall o, 0 <= o <= BUDDY_MAX_ORDER ->
    free_head a o = hdz 0 (node (base_addr a) <$> of_order o fl) /\
    dseg (blocks a) 0 (node (base_addr a) <$> of_order o fl) 0;
}.

Lemma of_order_app o f1 f2 : of_order o (f1 ++ f2) = of_order o f1 ++ of_order o f2.
Proof. unfold of_order. by rewrite filter_app, fmap_app. Qed.

Lemma of_order_cons_eq i o fl : of_order o ((i, o) :: fl) = i :: of_order o fl.
Proof. unfold of_order. by rewrite filter_cons_True. Qed.

Lemma of_order_cons_ne i o o' fl : o <> o' -> of_order o' ((i, o) :: fl) = of_order o' fl.
Proof. intros. unfold of_order. by rewrite filter_cons_False. Qed.

Lemma elem_of_of_order i o fl : i ∈ of_order o fl <-> (i, o) ∈ fl.
Proof.
  unfold of_order. rewrite list_elem_of_fmap. split.
  - intros ([i' o'] & -> & H). apply list_elem_of_filter in H as [H1 H2]. simpl in *. by subst.
  - intros H. exists (i, o). split; [done|]. by apply list_elem_of_filter.
Qed.

Lemma NoDup_fst_fun {A B} (l : list (A * B)) i x y :
  NoDup (fst <$> l) -> (i, x) ∈ l -> (i, y) ∈ l -> x = y.
Proof.
  induction l as [|[j z] l IH]; intros Hnd Hx Hy; [set_solver|].
  apply NoDup_cons in Hnd as [Hj Hnd].
  assert (forall w, (j, w) ∈ l -> False) as Hno.
  { intros w Hw. apply Hj. apply list_elem_of_fmap. by exists (j, w). }
  apply elem_of_cons in Hx as [Hx|Hx], Hy as [Hy|Hy]; try simplify_eq; [done|..].
  - by destruct (Hno y).
  - by destruct (Hno x).
  - by apply IH.
Qed.

Lemma NoDup_of_order o fl : NoDup (fst <$> fl) -> NoDup (of_order o fl).
Proof.
  intros H. unfold of_order. eapply sublist_NoDup; [exact H|].
  apply fmap_sublist, sublist_filter.
Qed.

Lemma node_inj base : Inj (=) (=) (node base).
Proof. intros i j. unfold node, PAGE_SIZE. lia. Qed.

Lemma node_nonzero base i : 0 <= base -> 0 <= i -> node base i <> 0.
Proof. unfold node, PAGE_SIZE, VIRT_PHYS_MAP_BASE. lia. Qed.

Lemma elem_of_nodes base i (l : list Z) : node base i ∈ (node base <$> l) <-> i ∈ l.
Proof.
  rewrite list_elem_of_fmap. split; [|by exists i].
  intros (j & Hj & Hin). by apply node_inj in Hj as ->.
Qed.

Section lists.
Context (a : buddy) (Hcfg : cfg_ok a).

Lemma blk_index_nonneg fl i o :
  Forall (blk_ok (total_pages a)) fl -> (i, o) ∈ fl -> 0 <= i.
Proof. intros HF Hin. rewrite Forall_forall in HF. by destruct (HF _ Hin). Qed.

Lemma nodes_nonzero fl o :
  Forall (blk_ok (total_pages a)) fl -> 0 ∉ (node (base_addr a) <$> of_order o fl).
Proof.
  intros HF Hin. apply list_elem_of_fmap in Hin as (i & Hi & Hin).
  apply elem_of_of_order in Hin.
  apply (node_nonzero (base_addr a) i); [apply Hcfg|by eapply blk_index_nonneg|done].
Qed.

Lemma nodes_nodup fl o : NoDup (fst <$> fl) -> NoDup (node (base_addr a) <$> of_order o fl).
Proof.
  intros H. apply NoDup_fmap; [apply node_inj|]. by apply NoDup_of_order.
Qed.
End lists.

Lemma PHYS_TO_VIRT_node a i :
  cfg_ok a -> 0 <= i < total_pages a ->
  PHYS_TO_VIRT (base_addr a + i * PAGE_SIZE) = node (base_addr a) i.
Proof.
  intros [H1 H2 H3 H4 H5] Hi. change (2 ^ 42) with 4398046511104 in H5. unfold PAGE_SIZE in *.
  rewrite PHYS_TO_VIRT_eq by (change (2 ^ 47) with 140737488355328; unfold PAGE_SIZE; lia). done.
Qed.

Lemma VIRT_TO_PHYS_node a i :
  cfg_ok a -> 0 <= i < total_pages a ->
  VIRT_TO_PHYS (node (base_addr a) i) = base_addr a + i * PAGE_SIZE.
Proof.
  intros [H1 H2 H3 H4 H5] Hi. change (2 ^ 42) with 4398046511104 in H5. unfold PAGE_SIZE in *.
  unfold VIRT_TO_PHYS, node, VIRT_PHYS_MAP_BASE, PAGE_SIZE. wrap_small. lia.
Qed.

(** ** The list primitives on abstract lists *)

(** What the list primitives leave alone. *)
Record same_meta (a a' : buddy) : Prop := {
  sm_base : base_addr a' = base_addr a;
  sm_size : total_size a' = total_size a;
  sm_pages : total_pages a' = total_pages a;
  sm_abm : allocation_bitmap a' = allocation_bitmap a;
  sm_obm : order_bitmap a' = order_bitmap a;
  sm_al : allocations a' = allocations a;
  sm_de : deallocations a' = deallocations a;
}.

#[export] Instance same_meta_refl : Reflexive same_meta.
Proof. by intros a. Qed.
#[export] Instance same_meta_trans : Transitive same_meta.
Proof. intros a b c [] []. split; congruence. Qed.

Lemma cfg_ok_meta a a' : same_meta a a' -> cfg_ok a -> cfg_ok a'.
Proof. intros [] []. split; congruence. Qed.

Lemma remove_eq a p o :
  bb_prev (block_at (blocks a) p) <> p \/ p = 0 ->
  p <> 0 ->
  let b := block_at (blocks a) p in
  remove_from_free_list a p o =
  with_blocks (if bb_prev b =? 0 then with_head a o (bb_next b) else a) (unlink (blocks a) p).
Proof.
  intros [Hp|?] H0; [|done]. cbv zeta. unfold remove_from_free_list, unlink.
  set (b := block_at (blocks a) p) in *.
  assert (forall m q v w, block_at m p = b -> set_prev (set_next (<[q := w]> m) p 0) p v
            = <[p := mkBlock 0 v]> (<[q := w]> m)) as Hset.
  { intros m q v w _. unfold set_prev, set_next, block_at.
    by rewrite lookup_insert_eq, insert_insert_eq. }
  assert (forall m v, set_prev (set_next m p 0) p v = <[p := mkBlock 0 v]> m) as Hset'.
  { intros m v. unfold set_prev, set_next, block_at.
    by rewrite lookup_insert_eq, insert_insert_eq. }
  destruct (Z.eqb_spec (bb_prev b) 0) as [E|E]; cbn [blocks with_head with_blocks].
  - fold b. destruct (Z.eqb_spec (bb_next b) 0); cbn [blocks with_head with_blocks]; by rewrite Hset'.
  - assert (block_at (set_next (blocks a) (bb_prev b) (bb_next b)) p = b) as ->.
    { unfold set_next, block_at. by rewrite lookup_insert_ne. }
    destruct (Z.eqb_spec (bb_next b) 0); cbn [blocks with_head with_blocks]; by rewrite Hset'.
Qed.

Lemma add_eq a addr o :
  0 <= o <= BUDDY_MAX_ORDER ->
  add_to_free_list a addr o =
  with_head (with_blocks a (push (blocks a) (PHYS_TO_VIRT addr) (free_head a o))) o (PHYS_TO_VIRT addr).
Proof.
  intros Ho. unfold add_to_free_list, push, free_head. cbn [blocks with_blocks free_lists].
  by destruct (_ =? 0).
Qed.

Lemma free_head_with_head a o p o' :
  length (free_lists a) = 12%nat -> 0 <= o <= BUDDY_MAX_ORDER -> 0 <= o' ->
  free_head (with_head a o p) o' = if o =? o' then p else free_head a o'.
Proof.
  unfold BUDDY_MAX_ORDER. intros Hl Ho Ho'. unfold free_head, with_head. cbn [free_lists].
  destruct (Z.eqb_spec o o') as [->|].
  - apply nthz_updz_eq. rewrite Hl. lia.
  - apply nthz_updz_ne; lia.
Qed.

Lemma add_spec a fl i o :
  cfg_ok a -> lists_ok a fl -> blk_ok (total_pages a) (i, o) -> i ∉ (fst <$> fl) ->
  let a' := add_to_free_list a (base_addr a + i * PAGE_SIZE) o in
  lists_ok a' ((i, o) :: fl) /\ same_meta a a' /\ splits a' = splits a /\ merges a' = merges a.
Proof.
  intros Hcfg Hl Hb Hi. destruct Hb as (Hb1 & Hb2 & Hb3). cbn [fst snd] in Hb1, Hb2, Hb3.
  cbv zeta. rewrite add_eq by done.
  rewrite PHYS_TO_VIRT_node by (try done; pose proof (Z.pow_pos_nonneg 2 o); lia).
  split; [|split; [constructor; reflexivity|split; reflexivity]]. set (p := node (base_addr a) i).
  destruct (lo_list _ _ Hl o Hb2) as [Hhead Hd]. rewrite Hhead.
  set (l := node (base_addr a) <$> of_order o fl) in *.
  assert (forall o', p ∉ (node (base_addr a) <$> of_order o' fl)) as Hpn.
  { intros o' Hin. apply elem_of_nodes in Hin. apply elem_of_of_order in Hin.
    apply Hi. apply list_elem_of_fmap. by exists (i, o'). }
  assert (0 ∉ l) as H0 by (apply nodes_nonzero; [done|apply Hl]).
  split.
  - cbn. rewrite length_updz. apply Hl.
  - constructor; [done|apply Hl].
  - cbn. constructor; [done|apply Hl].
  - intros o' Ho'. rewrite free_head_with_head by (try apply Hl; try done; lia).
    cbn [base_addr with_head with_blocks blocks].
    destruct (Z.eqb_spec o o') as [<-|Hne].
    + rewrite of_order_cons_eq. split; [done|]. change (node _ <$> i :: _) with (p :: l).
      apply push_spec; [apply Hpn|done|apply nodes_nodup, Hl|done].
    + rewrite of_order_cons_ne by done. destruct (lo_list _ _ Hl o' Ho') as [Hh' Hd'].
      split; [done|]. eapply dseg_frame; [|exact Hd']. intros q Hq.
      apply push_frame; [apply Hpn|done|done|]. apply not_elem_of_cons. split.
      * intros ->. by apply (Hpn o').
      * intros Hql. apply list_elem_of_fmap in Hq as (j & -> & Hj).
        apply elem_of_nodes in Hql. apply elem_of_of_order in Hj, Hql. apply Hne.
        eapply NoDup_fst_fun; [apply Hl|done|done].
Qed.

Lemma remove_spec a f1 i o f2 :
  cfg_ok a -> lists_ok a (f1 ++ (i, o) :: f2) ->
  let a' := remove_from_free_list a (node (base_addr a) i) o in
  lists_ok a' (f1 ++ f2) /\ same_meta a a' /\ splits a' = splits a /\ merges a' = merges a.
Proof.
  intros Hcfg Hl. cbv zeta. set (fl := f1 ++ (i, o) :: f2) in *. set (p := node (base_addr a) i).
  assert ((i, o) ∈ fl) as Hin by (unfold fl; set_solver).
  assert (blk_ok (total_pages a) (i, o)) as (_ & Ho & _).
  { pose proof (lo_blk _ _ Hl) as HF. rewrite Forall_forall in HF. by apply HF. }
  simpl in Ho. destruct (lo_list _ _ Hl o Ho) as [Hhead Hd].
  assert (node (base_addr a) <$> of_order o fl
          = (node (base_addr a) <$> of_order o f1) ++ p :: (node (base_addr a) <$> of_order o f2)) as El.
  { unfold fl. by rewrite of_order_app, of_order_cons_eq, fmap_app. }
  pose proof (nodes_nodup a fl o (lo_nodup _ _ Hl)) as Hnd.
  pose proof (nodes_nonzero a Hcfg fl o (lo_blk _ _ Hl)) as H0.
  rewrite El in *. set (l1 := node _ <$> of_order o f1) in *. set (l2 := node _ <$> of_order o f2) in *.
  pose proof (block_at_Some _ _ _ (dseg_lookup _ _ _ _ _ _ Hd)) as Hblk.
  assert (p <> 0) as Hp0 by (clear -H0; set_solver).
  assert (lastz 0 l1 = 0 -> l1 = []) as Hl0 by (apply lastz_0; clear -H0; set_solver).
  assert (lastz 0 l1 <> p) as Hlp.
  { clear -Hnd Hp0. destruct l1 as [|q l1 _] using rev_ind; [done|]. rewrite lastz_snoc.
    apply NoDup_app in Hnd as (_ & Hnd & _). set_solver. }
  rewrite remove_eq; [|rewrite Hblk; by left|done]. rewrite Hblk. cbn [bb_prev bb_next].
  split; [|destruct (lastz 0 l1 =? 0); split; [constructor; reflexivity|split; reflexivity
                                            |constructor; reflexivity|split; reflexivity]].
  assert (forall o' q, o' <> o -> 0 <= o' <= BUDDY_MAX_ORDER ->
    q ∈ (node (base_addr a) <$> of_order o' fl) -> unlink (blocks a) p !! q = blocks a !! q) as Hframe.
  { intros o' q Hne Ho' Hq. apply unlink_frame with l1 l2; [done|done|]. rewrite <- El.
    intros Hq'. apply list_elem_of_fmap in Hq as (j & -> & Hj). apply elem_of_nodes in Hq'.
    apply elem_of_of_order in Hj, Hq'. apply Hne. eapply NoDup_fst_fun; [apply Hl|done|done]. }
  assert (forall o', o' <> o -> of_order o' fl = of_order o' (f1 ++ f2)) as Eother.
  { intros o' Hne. unfold fl. by rewrite !of_order_app, of_order_cons_ne by done. }
  set (a1 := if lastz 0 l1 =? 0 then with_head a o (hdz 0 l2) else a).
  assert (length (free_lists a1) = 12%nat /\ base_addr a1 = base_addr a /\ total_pages a1 = total_pages a)
    as (Hlen & Hbase & Htp).
  { unfold a1. destruct (_ =? 0); cbn; rewrite ?length_updz; repeat split; apply Hl. }
  pose proof (lo_blk _ _ Hl) as HF. pose proof (lo_nodup _ _ Hl) as Hnd'.
  unfold fl in HF, Hnd'. apply Forall_app in HF as [HF1 HF2]. apply Forall_cons in HF2 as [_ HF2].
  split.
  - exact Hlen.
  - cbn [total_pages with_blocks]. rewrite Htp. by apply Forall_app.
  - rewrite fmap_app in *. cbn in Hnd'. apply NoDup_app in Hnd' as (N1 & N2 & N3).
    apply NoDup_cons in N3 as [N3 N4]. apply NoDup_app. split; [done|]. split; [|done]. set_solver.
  - intros o' Ho'. cbn [base_addr with_blocks blocks]. rewrite Hbase.
    change (free_head (with_blocks a1 ?m) o') with (free_head a1 o').
    destruct (decide (o' = o)) as [->|Hne].
    + rewrite of_order_app, fmap_app. fold l1 l2. split; [|by apply unlink_spec].
      unfold a1. destruct (Z.eqb_spec (lastz 0 l1) 0) as [E|E].
      * rewrite free_head_with_head, Z.eqb_refl by (try apply Hl; try done; lia).
        by rewrite (Hl0 E).
      * rewrite Hhead, hdz_app, (hdz_app _ l1 l2). destruct l1; done.
    + rewrite <- Eother by done. destruct (lo_list _ _ Hl o' Ho') as [Hh' Hd']. split.
      * unfold a1. destruct (_ =? 0); [|done].
        rewrite free_head_with_head by (try apply Hl; try done; lia).
        by rewrite (proj2 (Z.eqb_neq o o')).
      * eapply dseg_frame; [|exact Hd']. intros q Hq. by apply Hframe with o'.
Qed.
