(* ===== verification/BuddyInv.v ===== *)
(** * Buddy allocator: invariant and correctness

    [buddy_inv a fl live] is the allocator's invariant: [fl] are the free
    blocks its lists hold, [live] the blocks handed out and not yet returned.
    Together they partition the pages behind the bitmaps; the allocation bitmap
    marks exactly the pages of live blocks, and the order bitmap remembers each
    live block's order. *)

From S2P Require Import Prelude MemLayout Errno Bitmap Buddy BuddyLists.

(** ** Pages of blocks *)

Definition pages_of (b : Z * Z) : list Z := seqZ (fst b) (2 ^ snd b).
Definition all_pages (fl : list (Z * Z)) : list Z := concat (pages_of <$> fl).

Lemma all_pages_app f1 f2 : all_pages (f1 ++ f2) = all_pages f1 ++ all_pages f2.
Proof. unfold all_pages. by rewrite fmap_app, concat_app. Qed.

Lemma all_pages_cons b f : all_pages (b :: f) = pages_of b ++ all_pages f.
Proof. done. Qed.

Lemma all_pages_middle f1 b f2 :
  all_pages (f1 ++ b :: f2) ≡ₚ pages_of b ++ all_pages (f1 ++ f2).
Proof. rewrite !all_pages_app, all_pages_cons. by rewrite Permutation_app_swap_app. Qed.

Lemma elem_of_pages_of j i o : j ∈ pages_of (i, o) <-> i <= j < i + 2 ^ o.
Proof. unfold pages_of. rewrite elem_of_seqZ. simpl. lia. Qed.

Lemma elem_of_all_pages j fl :
  j ∈ all_pages fl <-> exists i o, (i, o) ∈ fl /\ i <= j < i + 2 ^ o.
Proof.
  induction fl as [|[i o] fl IH]; [set_solver|].
  rewrite all_pages_cons, elem_of_app, elem_of_pages_of, IH. split.
  - intros [H|(i' & o' & H & H')]; [exists i, o|exists i', o']; set_solver.
  - intros (i' & o' & Hin & Hr). apply elem_of_cons in Hin as [[= -> ->]|Hin]; [by left|].
    right. by exists i', o'.
Qed.

Lemma pow2_pos o : 0 <= o -> 0 < 2 ^ o.
Proof. intros. by apply Z.pow_pos_nonneg. Qed.

Lemma PAGES_PER_ORDER_pow o : 0 <= o -> BUDDY_PAGES_PER_ORDER o = 2 ^ o.
Proof. intros. unfold BUDDY_PAGES_PER_ORDER. rewrite Z.shiftl_mul_pow2 by done. lia. Qed.

Lemma pages_of_split i o :
  0 <= o -> pages_of (i, o + 1) = pages_of (i, o) ++ pages_of (i + 2 ^ o, o).
Proof.
  intros Ho. unfold pages_of. simpl. pose proof (pow2_pos o Ho).
  rewrite Z.pow_add_r by lia. change (2 ^ 1) with 2. replace (2 ^ o * 2) with (2 ^ o + 2 ^ o) by lia.
  by rewrite seqZ_app by lia.
Qed.

(** A block that starts inside another, disjoint, block does not exist. *)
Lemma start_fresh tp b f j :
  Forall (blk_ok tp) f -> NoDup (pages_of b ++ all_pages f) -> j ∈ pages_of b -> j ∉ (fst <$> f).
Proof.
  intros HF Hnd Hj Hin. apply list_elem_of_fmap in Hin as ([i o] & -> & Hin).
  apply NoDup_app in Hnd as (_ & Hnd & _). apply (Hnd _ Hj). apply elem_of_all_pages.
  exists i, o. split; [done|]. rewrite Forall_forall in HF.
  destruct (HF _ Hin) as (_ & Ho & _). simpl in *. pose proof (pow2_pos o ltac:(lia)). lia.
Qed.

Lemma length_bounded (l : list Z) n :
  NoDup l -> (forall j, j ∈ l -> 0 <= j < n) -> (length l <= Z.to_nat n)%nat.
Proof.
  intros Hnd Hb. assert (l ⊆+ seqZ 0 n) as Hs.
  { apply NoDup_submseteq; [done|]. intros j Hj. apply elem_of_seqZ. specialize (Hb j Hj). lia. }
  apply submseteq_length in Hs. by rewrite length_seqZ in Hs.
Qed.

Lemma list_length_fuel a fl o :
  lists_ok a fl -> (length (node (base_addr a) <$> of_order o fl) < list_fuel a)%nat.
Proof.
  intros Hl. rewrite length_fmap. unfold list_fuel.
  assert (length (of_order o fl) <= Z.to_nat (total_pages a))%nat; [|lia].
  apply length_bounded; [apply NoDup_of_order, Hl|].
  intros j Hj. apply elem_of_of_order in Hj. pose proof (lo_blk _ _ Hl) as HF.
  rewrite Forall_forall in HF. destruct (HF _ Hj) as (H1 & H2 & H3). simpl in *.
  pose proof (pow2_pos o ltac:(lia)). lia.
Qed.

(** ** Page indices and addresses *)

Section addresses.
Context (a : buddy) (Hcfg : cfg_ok a).

Lemma index_of_addr i :
  0 <= i < total_pages a -> addr_to_block_index a (base_addr a + i * PAGE_SIZE) = i.
Proof.
  destruct Hcfg as [H1 H2 H3 H4 H5]. change (2 ^ 42) with 4398046511104 in H5. intros Hi.
  unfold addr_to_block_index, PAGE_SIZE in *.
  replace (base_addr a + i * 4096 - base_addr a) with (i * 4096) by lia.
  wrap_small. by rewrite Z.div_mul.
Qed.

Lemma addr_of_index i :
  0 <= i < 2 ^ 40 -> index_to_addr a i = base_addr a + i * PAGE_SIZE.
Proof.
  destruct Hcfg as [H1 H2 H3 H4 H5]. change (2 ^ 42) with 4398046511104 in H5.
  change (2 ^ 40) with 1099511627776. intros Hi.
  unfold index_to_addr, PAGE_SIZE in *. wrap_small. done.
Qed.

Lemma total_pages_bound : total_pages a <= 2 ^ 30.
Proof.
  destruct Hcfg as [H1 H2 H3 H4 H5]. change (2 ^ 42) with (2 ^ 30 * 4096) in H5.
  unfold PAGE_SIZE in *. lia.
Qed.

Lemma region_end : u64 (base_addr a + total_size a) = base_addr a + total_size a.
Proof.
  destruct Hcfg as [H1 H2 H3 H4 H5]. change (2 ^ 42) with 4398046511104 in H5.
  unfold PAGE_SIZE in *. apply u64_small. lia.
Qed.

Lemma addr_aligned i : IS_PAGE_ALIGNED (base_addr a + i * PAGE_SIZE) = true.
Proof.
  apply IS_PAGE_ALIGNED_spec. rewrite Z.mod_add by done. apply Hcfg.
Qed.
End addresses.

(** ** The exclusive-or of buddies *)

Lemma lxor_pow2 i o :
  0 <= i -> 0 <= o -> Z.lxor i (2 ^ o) = if Z.testbit i o then i - 2 ^ o else i + 2 ^ o.
Proof.
  intros Hi Ho. destruct (Z.testbit i o) eqn:Ht.
  - rewrite Z.sub_nocarry_ldiff.
    + apply Z.bits_inj'. intros n Hn. rewrite Z.ldiff_spec, Z.lxor_spec, Z.pow2_bits_eqb by lia.
      destruct (Z.eqb_spec o n) as [<-|]; [by rewrite Ht|].
      by rewrite andb_true_r, xorb_false_r.
    + apply Z.bits_inj'. intros n Hn. rewrite Z.ldiff_spec, Z.pow2_bits_eqb, Z.bits_0 by lia.
      destruct (Z.eqb_spec o n) as [<-|]; [by rewrite Ht|done].
  - rewrite <- Z.add_nocarry_lxor; [done|].
    apply Z.bits_inj'. intros n Hn. rewrite Z.land_spec, Z.pow2_bits_eqb, Z.bits_0 by lia.
    destruct (Z.eqb_spec o n) as [<-|]; [by rewrite Ht|apply andb_false_r].
Qed.

(** The page index [get_buddy_addr] computes. *)
Definition buddy_index (i o : Z) : Z := Z.lxor i (2 ^ o).

Lemma buddy_index_cases i o :
  0 <= i -> 0 <= o ->
  (Z.testbit i o = true /\ buddy_index i o = i - 2 ^ o /\ 2 ^ o <= i) \/
  (Z.testbit i o = false /\ buddy_index i o = i + 2 ^ o).
Proof.
  intros Hi Ho. unfold buddy_index.
  assert (0 <= Z.lxor i (2 ^ o)) as Hnn
    by (apply Z.lxor_nonneg; pose proof (pow2_pos o Ho); lia).
  rewrite lxor_pow2 in * by done. destruct (Z.testbit i o); [left|right]; repeat split; lia.
Qed.

(** A block and its buddy are adjacent, whatever the alignment of the region. *)
Lemma merge_pages i o :
  0 <= i -> 0 <= o ->
  pages_of (i, o) ++ pages_of (buddy_index i o, o) ≡ₚ pages_of (Z.min i (buddy_index i o), o + 1).
Proof.
  intros Hi Ho. pose proof (pow2_pos o Ho).
  destruct (buddy_index_cases i o Hi Ho) as [(_ & -> & ?)|(_ & ->)].
  - rewrite Z.min_r by lia. rewrite pages_of_split by done.
    replace (i - 2 ^ o + 2 ^ o) with i by lia. apply Permutation_app_comm.
  - rewrite Z.min_l by lia. by rewrite pages_of_split.
Qed.

Lemma get_buddy_addr_spec a i o :
  cfg_ok a -> 0 <= i < total_pages a -> 0 <= o <= BUDDY_MAX_ORDER ->
  0 <= buddy_index i o < 2 ^ 40 /\
  get_buddy_addr a (base_addr a + i * PAGE_SIZE) o = base_addr a + buddy_index i o * PAGE_SIZE.
Proof.
  intros Hcfg Hi Ho. unfold get_buddy_addr. cbv zeta.
  rewrite index_of_addr, PAGES_PER_ORDER_pow by (done || lia). fold (buddy_index i o).
  assert (0 <= buddy_index i o < 2 ^ 40) as Hb; [|split; [done|by apply addr_of_index]].
  pose proof (total_pages_bound a Hcfg) as Htp.
  assert (2 ^ o <= 2 ^ 11) by (apply Z.pow_le_mono_r; unfold BUDDY_MAX_ORDER in *; lia).
  pose proof (pow2_pos o ltac:(lia)).
  change (2 ^ 30) with 1073741824 in Htp. change (2 ^ 11) with 2048 in *.
  change (2 ^ 40) with 1099511627776.
  destruct (buddy_index_cases i o) as [(_ & -> & ?)|(_ & ->)]; lia.
Qed.

(** ** Splitting *)

Lemma free_head_cases a fl o :
  cfg_ok a -> lists_ok a fl -> 0 <= o <= BUDDY_MAX_ORDER ->
  (free_head a o = 0 /\ of_order o fl = []) \/
  (exists f1 i f2, fl = f1 ++ (i, o) :: f2 /\ free_head a o = node (base_addr a) i /\
     blk_ok (total_pages a) (i, o) /\ free_head a o <> 0).
Proof.
  intros Hcfg Hl Ho. destruct (lo_list _ _ Hl o Ho) as [Hh _].
  destruct (of_order o fl) as [|i l] eqn:E; [by left|]. right.
  assert ((i, o) ∈ fl) as Hin by (apply elem_of_of_order; rewrite E; set_solver).
  pose proof (lo_blk _ _ Hl) as HF. rewrite Forall_forall in HF. pose proof (HF _ Hin) as Hb.
  apply list_elem_of_split in Hin as (f1 & f2 & ->). exists f1, i, f2.
  repeat split; try done; try apply Hb. rewrite Hh. apply node_nonzero; [apply Hcfg|apply Hb].
Qed.

Lemma same_meta_splits a n : same_meta a (with_splits a n).
Proof. constructor; reflexivity. Qed.
Lemma same_meta_merges a n : same_meta a (with_merges a n).
Proof. constructor; reflexivity. Qed.

Lemma lists_ok_ext a a' fl :
  base_addr a' = base_addr a -> total_pages a' = total_pages a ->
  free_lists a' = free_lists a -> blocks a' = blocks a -> lists_ok a fl -> lists_ok a' fl.
Proof.
  intros E1 E2 E3 E4 [H1 H2 H3 H4]. split; [congruence|congruence|done|].
  intros o Ho. unfold free_head in *. rewrite E1, E3, E4. by apply H4.
Qed.

Lemma lists_ok_splits a fl n : lists_ok a fl -> lists_ok (with_splits a n) fl.
Proof. by apply lists_ok_ext. Qed.
Lemma lists_ok_merges a fl n : lists_ok a fl -> lists_ok (with_merges a n) fl.
Proof. by apply lists_ok_ext. Qed.

(** One level of splitting: a free block of order [o + 1] becomes two of order [o]. *)
Lemma split_step a f1 i f2 o :
  cfg_ok a -> 0 <= o < BUDDY_MAX_ORDER -> lists_ok a (f1 ++ (i, o + 1) :: f2) ->
  NoDup (all_pages (f1 ++ (i, o + 1) :: f2)) ->
  let a1 := remove_from_free_list a (node (base_addr a) i) (o + 1) in
  let a2 := add_to_free_list a1 (base_addr a + i * PAGE_SIZE) o in
  let a3 := add_to_free_list a2 (base_addr a + (i + 2 ^ o) * PAGE_SIZE) o in
  lists_ok a3 ((i + 2 ^ o, o) :: (i, o) :: f1 ++ f2) /\ same_meta a a3 /\
  all_pages ((i + 2 ^ o, o) :: (i, o) :: f1 ++ f2) ≡ₚ all_pages (f1 ++ (i, o + 1) :: f2).
Proof.
  intros Hcfg Ho Hl Hnd. cbv zeta. pose proof (pow2_pos o ltac:(lia)) as Hpos.
  assert (2 ^ (o + 1) = 2 ^ o + 2 ^ o) as Hdbl by (rewrite Z.pow_add_r by lia; lia).
  pose proof (lo_blk _ _ Hl) as HF. apply Forall_app in HF as [HF1 HF2].
  apply Forall_cons in HF2 as [Hb HF2]. destruct Hb as (Hb1 & Hb2 & Hb3). cbn [fst snd] in *.
  assert (Forall (blk_ok (total_pages a)) (f1 ++ f2)) as HF by (by apply Forall_app).
  rewrite all_pages_middle in Hnd. rewrite pages_of_split in Hnd by lia.
  pose proof (remove_spec a f1 i (o + 1) f2 Hcfg Hl) as (Hl1 & Hm1 & _). cbv zeta in Hl1, Hm1.
  set (a1 := remove_from_free_list _ _ _) in *.
  assert (i ∉ (fst <$> f1 ++ f2)) as Hfr1.
  { eapply (start_fresh _ (i, o + 1)); [done| |apply elem_of_pages_of; lia].
    by rewrite pages_of_split by lia. }
  assert (i + 2 ^ o ∉ (fst <$> f1 ++ f2)) as Hfr2.
  { eapply (start_fresh _ (i, o + 1)); [done| |apply elem_of_pages_of; lia].
    by rewrite pages_of_split by lia. }
  pose proof (cfg_ok_meta _ _ Hm1 Hcfg) as Hcfg1.
  pose proof (add_spec a1 (f1 ++ f2) i o Hcfg1 Hl1) as Ha2. cbv zeta in Ha2.
  rewrite (sm_base _ _ Hm1), (sm_pages _ _ Hm1) in Ha2.
  destruct Ha2 as (Hl2 & Hm2 & _); [split; [done|split]; cbn [fst snd]; lia|done|].
  set (a2 := add_to_free_list a1 _ _) in *.
  pose proof (same_meta_trans _ _ _ Hm1 Hm2) as Hm12.
  pose proof (add_spec a2 _ (i + 2 ^ o) o (cfg_ok_meta _ _ Hm12 Hcfg) Hl2) as Ha3. cbv zeta in Ha3.
  rewrite (sm_base _ _ Hm12), (sm_pages _ _ Hm12) in Ha3.
  destruct Ha3 as (Hl3 & Hm3 & _); [split; [|split]; cbn [fst snd]; lia| |].
  { cbn. apply not_elem_of_cons. split; [lia|done]. }
  split; [done|]. split; [by etrans|].
  rewrite all_pages_middle, pages_of_split, !all_pages_cons by lia.
  rewrite !(assoc_L (++)). f_equiv. apply Permutation_app_comm.
Qed.

Lemma split_spec fuel a fl o :
  cfg_ok a -> lists_ok a fl -> NoDup (all_pages fl) -> 0 <= o <= BUDDY_MAX_ORDER ->
  BUDDY_MAX_ORDER - o < Z.of_nat fuel ->
  let '(err, a') := split_block_fuel fuel a o in
  (err = E_INVALID /\ a' = a /\ (forall b, b ∈ fl -> snd b <= o)) \/
  (err = E_OK /\ same_meta a a' /\ (exists b, b ∈ fl /\ o < snd b) /\
   exists fl', lists_ok a' fl' /\ all_pages fl' ≡ₚ all_pages fl /\ of_order o fl' <> []).
Proof.
  revert o. induction fuel as [|fuel IH]; intros o Hcfg Hl Hnd Ho Hfuel; [lia|].
  cbn [split_block_fuel]. destruct (Z.leb_spec BUDDY_MAX_ORDER o) as [Hge|Hlt].
  { left. split; [done|]. split; [done|]. intros b Hb. pose proof (lo_blk _ _ Hl) as HF.
    rewrite Forall_forall in HF. destruct (HF _ Hb) as (_ & ? & _). lia. }
  set (r := if free_head a (o + 1) =? 0 then split_block_fuel fuel a (o + 1) else (E_OK, a)).
  assert (let '(err, a') := r in
    (err = E_INVALID /\ a' = a /\ (forall b, b ∈ fl -> snd b <= o)) \/
    (err = E_OK /\ same_meta a a' /\ (exists b, b ∈ fl /\ o < snd b) /\
     exists fl', lists_ok a' fl' /\ all_pages fl' ≡ₚ all_pages fl /\ of_order (o + 1) fl' <> [])) as Hr.
  { unfold r. destruct (free_head_cases a fl (o + 1)) as [[Hh He]|(f1 & i & f2 & -> & Hh & Hb & Hn0)];
      [done|done|lia|..].
    - rewrite Hh. cbn [Z.eqb]. specialize (IH (o + 1) Hcfg Hl Hnd ltac:(lia) ltac:(lia)).
      destruct (split_block_fuel fuel a (o + 1)) as [err a'].
      destruct IH as [(-> & -> & Hall)|(-> & Hm & (b & Hb & Hbo) & fl' & H1 & H2 & H3)].
      + left. split; [done|]. split; [done|]. intros [i x] Hb. pose proof (Hall _ Hb) as Hx.
        cbn [snd] in *. destruct (decide (x = o + 1)) as [->|]; [|lia].
        apply elem_of_of_order in Hb. rewrite He in Hb. set_solver.
      + right. split; [done|]. split; [done|]. split; [exists b; split; [done|lia]|]. by exists fl'.
    - rewrite (proj2 (Z.eqb_neq _ _) Hn0). right. split; [done|]. split; [done|].
      split; [exists (i, o + 1); split; [set_solver|simpl; lia]|].
      exists (f1 ++ (i, o + 1) :: f2). split; [done|]. split; [done|].
      rewrite of_order_app, of_order_cons_eq. by destruct (of_order (o + 1) f1). }
  destruct r as [err a1]. destruct Hr as [(-> & -> & Hall)|(-> & Hm & Hex & fl1 & Hl1 & Hp1 & Hne)].
  { by left. }
  right. cbn [is_ok negb]. pose proof (cfg_ok_meta _ _ Hm Hcfg) as Hcfg1.
  destruct (free_head_cases a1 fl1 (o + 1)) as [[_ He]|(f1 & i & f2 & -> & Hh & Hb & Hn0)];
    [done|done|lia|done|].
  destruct Hb as (Hb1 & Hb2 & Hb3). cbn [fst snd] in *.
  pose proof (pow2_pos (o + 1) ltac:(lia)). pose proof (pow2_pos o ltac:(lia)).
  assert (2 ^ (o + 1) = 2 ^ o + 2 ^ o) as Hdbl by (rewrite Z.pow_add_r by lia; lia).
  rewrite Hh, VIRT_TO_PHYS_node by (done || lia).
  assert (u64 (base_addr a1 + i * PAGE_SIZE + BUDDY_SIZE_FOR_ORDER o)
          = base_addr a1 + (i + 2 ^ o) * PAGE_SIZE) as ->.
  { unfold BUDDY_SIZE_FOR_ORDER. rewrite PAGES_PER_ORDER_pow by lia.
    destruct Hcfg1 as [? ? ? ? H5]. change (2 ^ 42) with 4398046511104 in H5. unfold PAGE_SIZE in *.
    rewrite u64_small; lia. }
  pose proof (split_step a1 f1 i f2 o Hcfg1 ltac:(lia) Hl1) as Hs. cbv zeta in Hs.
  destruct Hs as (Hl3 & Hm3 & Hp3); [by rewrite Hp1|].
  split; [done|]. split; [do 2 (etrans; [eassumption|]); apply same_meta_splits|]. split; [done|].
  eexists. split; [apply lists_ok_splits, Hl3|].
  split; [by rewrite Hp3|]. by rewrite of_order_cons_eq.
Qed.

(** ** The bitmaps *)

Definition in_block (bi n j : Z) : bool := (bi <=? j) && (j <? bi + n).

Lemma in_block_spec bi n j : reflect (bi <= j < bi + n) (in_block bi n j).
Proof. apply iff_reflect. unfold in_block. rewrite andb_true_iff. lia. Qed.

Lemma mark_block_spec bi n o bm j :
  0 <= bi -> 0 <= n -> 0 <= j ->
  bitmap_test (fst (mark_block bi n o bm)) j
    = in_block bi n j || bitmap_test (fst bm) j /\
  rd (snd (mark_block bi n o bm)) j
    = if in_block bi n j then o else rd (snd bm) j.
Proof.
  intros Hbi Hn Hj. unfold mark_block.
  apply (for_range_ind (fun k bm' =>
    bitmap_test (fst bm') j = in_block bi k j || bitmap_test (fst bm) j /\
    rd (snd bm') j = if in_block bi k j then o else rd (snd bm) j)); [lia| |].
  - intros i bm' Hi [IH1 IH2]. cbn [fst snd]. rewrite bitmap_test_set by lia. rewrite IH1. split.
    + rewrite orb_assoc. f_equal. unfold in_block. zdecide.
    + destruct (decide (j = bi + i)) as [->|].
      * rewrite rd_wr_eq. by destruct (in_block_spec bi (i + 1) (bi + i)); [|lia].
      * rewrite rd_wr_ne, IH2 by lia.
        destruct (in_block_spec bi i j), (in_block_spec bi (i + 1) j); done || lia.
  - by destruct (in_block_spec bi 0 j); [lia|].
Qed.

Lemma unmark_block_spec bi n bm j :
  0 <= bi -> 0 <= n -> 0 <= j ->
  bitmap_test (fst (unmark_block bi n bm)) j
    = negb (in_block bi n j) && bitmap_test (fst bm) j /\
  rd (snd (unmark_block bi n bm)) j
    = if in_block bi n j then 0 else rd (snd bm) j.
Proof.
  intros Hbi Hn Hj. unfold unmark_block.
  apply (for_range_ind (fun k bm' =>
    bitmap_test (fst bm') j = negb (in_block bi k j) && bitmap_test (fst bm) j /\
    rd (snd bm') j = if in_block bi k j then 0 else rd (snd bm) j)); [lia| |].
  - intros i bm' Hi [IH1 IH2]. cbn [fst snd]. rewrite bitmap_test_clear by lia. rewrite IH1. split.
    + rewrite andb_assoc. f_equal. unfold in_block. zdecide.
    + destruct (decide (j = bi + i)) as [->|].
      * rewrite rd_wr_eq. by destruct (in_block_spec bi (i + 1) (bi + i)); [|lia].
      * rewrite rd_wr_ne, IH2 by lia.
        destruct (in_block_spec bi i j), (in_block_spec bi (i + 1) j); done || lia.
  - by destruct (in_block_spec bi 0 j); [lia|].
Qed.

(** ** The invariant *)

Definition managed (tp : Z) : list Z := seqZ (bitmap_pages tp) (tp - bitmap_pages tp).

Lemma in_block_decide i o j : in_block i (2 ^ o) j = bool_decide (j ∈ pages_of (i, o)).
Proof.
  destruct (in_block_spec i (2 ^ o) j) as [H|H]; symmetry;
    [apply bool_decide_eq_true|apply bool_decide_eq_false]; by rewrite elem_of_pages_of.
Qed.

Record buddy_inv (a : buddy) (fl live : list (Z * Z)) : Prop := {
  bi_cfg : cfg_ok a;
  bi_lists : lists_ok a fl;
  bi_live : Forall (blk_ok (total_pages a)) live;
  bi_pages : all_pages fl ++ all_pages live ≡ₚ managed (total_pages a);
  bi_bits : forall j, 0 <= j < total_pages a ->
    bitmap_test (allocation_bitmap a) j = bool_decide (j ∈ all_pages live);
  bi_orders : forall i o j, (i, o) ∈ live -> i <= j < i + 2 ^ o -> rd (order_bitmap a) j = o;
}.

Lemma inv_nodup a fl live : buddy_inv a fl live -> NoDup (all_pages fl ++ all_pages live).
Proof. intros H. rewrite (bi_pages _ _ _ H). apply NoDup_seqZ. Qed.

Lemma inv_nodup_free a fl live : buddy_inv a fl live -> NoDup (all_pages fl).
Proof. intros H. apply inv_nodup in H. by apply NoDup_app in H as (? & _ & _). Qed.

Lemma bitmap_pages_pos tp : 0 < tp -> 0 < bitmap_pages tp.
Proof.
  intros. unfold bitmap_pages, alloc_bitmap_size, PAGE_SIZE.
  assert (0 <= (tp + 7) / 8) by dlia. dlia.
Qed.

Lemma inv_page_range a fl live j :
  buddy_inv a fl live -> j ∈ all_pages fl \/ j ∈ all_pages live ->
  0 < j < total_pages a.
Proof.
  intros H Hj. assert (j ∈ managed (total_pages a)) as Hm.
  { rewrite <- (bi_pages _ _ _ H). by apply elem_of_app. }
  unfold managed in Hm. apply elem_of_seqZ in Hm.
  pose proof (cfg_pages _ (bi_cfg _ _ _ H)).
  destruct (decide (total_pages a = 0)) as [E|]; [|pose proof (bitmap_pages_pos (total_pages a)); lia].
  rewrite E in Hm. change (bitmap_pages 0) with 0 in Hm. lia.
Qed.

Lemma cfg_ok_bitmaps a ab ob : cfg_ok a -> cfg_ok (with_bitmaps a ab ob).
Proof. intros []. by split. Qed.

(** Taking block [(i, o)] out of the free list and marking it. *)
Lemma take_spec a f1 i o f2 live :
  buddy_inv a (f1 ++ (i, o) :: f2) live ->
  let a1 := remove_from_free_list a (node (base_addr a) i) o in
  let bm := mark_block i (2 ^ o) o (allocation_bitmap a1, order_bitmap a1) in
  forall al de, buddy_inv (with_counts (with_bitmaps a1 (fst bm) (snd bm)) al de) (f1 ++ f2) ((i, o) :: live).
Proof.
  intros Hinv. cbv zeta. intros al de. destruct Hinv as [Hcfg Hl Hlive Hp Hbits Hord].
  pose proof (lo_blk _ _ Hl) as HF. apply Forall_app in HF as [_ HF].
  apply Forall_cons in HF as [Hb _]. destruct (Hb) as (Hb1 & Hb2 & Hb3). cbn [fst snd] in *.
  pose proof (pow2_pos o ltac:(lia)) as Hpos.
  assert (NoDup (all_pages (f1 ++ (i, o) :: f2) ++ all_pages live)) as Hnd
    by (rewrite Hp; apply NoDup_seqZ).
  pose proof (remove_spec a f1 i o f2 Hcfg Hl) as (Hl1 & Hm1 & _).
  cbv zeta in Hl1, Hm1. set (a1 := remove_from_free_list _ _ _) in *. destruct (Hm1) as [E1 E2 E3 E4 E5 _ _].
  split; cbn [with_counts with_bitmaps total_pages allocation_bitmap order_bitmap].
  - pose proof (cfg_ok_meta _ _ Hm1 Hcfg) as []. by split.
  - by eapply lists_ok_ext; [..|exact Hl1].
  - rewrite E3. by constructor.
  - rewrite E3, <- Hp, all_pages_middle, all_pages_cons.
    rewrite Permutation_app_swap_app. by rewrite <- (assoc_L (++)).
  - intros j Hj. destruct (mark_block_spec i (2 ^ o) o (allocation_bitmap a1, order_bitmap a1) j)
      as [-> _]; [lia..|]. cbn [fst]. rewrite E4, Hbits by lia.
    rewrite (bool_decide_ext (j ∈ all_pages ((i, o) :: live)) (j ∈ pages_of (i, o) \/ j ∈ all_pages live))
      by (by rewrite all_pages_cons, elem_of_app).
    rewrite bool_decide_or. f_equal. apply in_block_decide.
  - intros i' o' j Hin Hj. destruct (mark_block_spec i (2 ^ o) o (allocation_bitmap a1, order_bitmap a1) j)
      as [_ ->]; [lia|lia| |].
    { apply elem_of_cons in Hin as [[= -> ->]|Hin]; [lia|].
      rewrite Forall_forall in Hlive. destruct (Hlive _ Hin) as [? _]. simpl in *. lia. }
    destruct (in_block_spec i (2 ^ o) j); apply elem_of_cons in Hin as [[= -> ->]|Hin]; try done.
    + exfalso. rewrite all_pages_middle in Hnd. rewrite <- (assoc_L (++)) in Hnd.
      apply NoDup_app in Hnd as (_ & Hnd & _). apply (Hnd j); [by apply elem_of_pages_of|].
      apply elem_of_app. right. apply elem_of_all_pages. by exists i', o'.
    + cbn [snd]. rewrite E5. by eapply Hord.
Qed.

(** What a call of [buddy_alloc_order] does, on every branch. *)
Lemma alloc_order_spec a fl live o :
  buddy_inv a fl live -> 0 <= o ->
  let '(addr, a') := buddy_alloc_order a o in
  (addr = 0 /\ a' = a /\ (forall b, b ∈ fl -> snd b < o)) \/
  (exists i fl', addr = base_addr a + i * PAGE_SIZE /\ 0 < addr /\ o <= BUDDY_MAX_ORDER /\
     (exists b, b ∈ fl /\ o <= snd b) /\ buddy_inv a' fl' ((i, o) :: live) /\
     base_addr a' = base_addr a /\ total_pages a' = total_pages a).
Proof.
  intros Hinv Ho. unfold buddy_alloc_order.
  destruct (Z.ltb_spec BUDDY_MAX_ORDER o) as [Hgt|Hle].
  { left. split; [done|]. split; [done|]. intros b Hb. pose proof (lo_blk _ _ (bi_lists _ _ _ Hinv)) as HF.
    rewrite Forall_forall in HF. destruct (HF _ Hb) as (_ & ? & _). lia. }
  set (r := if free_head a o =? 0 then split_block a o else (E_OK, a)).
  assert (let '(err, a') := r in
    (err = E_INVALID /\ a' = a /\ (forall b, b ∈ fl -> snd b < o)) \/
    (err = E_OK /\ same_meta a a' /\ (exists b, b ∈ fl /\ o <= snd b) /\
     exists fl', buddy_inv a' fl' live /\ of_order o fl' <> [])) as Hr.
  { unfold r. pose proof (bi_cfg _ _ _ Hinv) as Hcfg. pose proof (bi_lists _ _ _ Hinv) as Hl.
    destruct (free_head_cases a fl o) as [[-> He]|(f1 & i & f2 & -> & Hh & Hb & Hn0)]; [done|done|lia|..].
    - cbn [Z.eqb]. unfold split_block.
      pose proof (split_spec BUDDY_FUEL a fl o Hcfg Hl) as Hs.
      specialize (Hs (inv_nodup_free _ _ _ Hinv) ltac:(lia) ltac:(unfold BUDDY_MAX_ORDER, BUDDY_FUEL; lia)).
      destruct (split_block_fuel BUDDY_FUEL a o) as [err a'].
      destruct Hs as [(-> & -> & Hall)|(-> & Hm & (b & Hb & Hbo) & fl' & H1 & H2 & H3)].
      + left. split; [done|]. split; [done|]. intros [i x] Hb. pose proof (Hall _ Hb) as Hx.
        cbn [snd] in *. destruct (decide (x = o)) as [->|]; [|lia].
        apply elem_of_of_order in Hb. rewrite He in Hb. set_solver.
      + right. split; [done|]. split; [done|]. split; [exists b; split; [done|lia]|].
        exists fl'. split; [|done]. destruct Hinv as [? ? Hlive Hp Hbits Hord]. destruct (Hm) as [M1 M2 M3 M4 M5 _ _].
        split; [by eapply cfg_ok_meta|done|by rewrite M3|by rewrite M3, H2|by rewrite M3, M4|by rewrite M5].
    - rewrite (proj2 (Z.eqb_neq _ _) Hn0). right. split; [done|]. split; [done|].
      split; [exists (i, o); split; [set_solver|simpl; lia]|].
      exists (f1 ++ (i, o) :: f2). split; [done|].
      rewrite of_order_app, of_order_cons_eq. by destruct (of_order o f1). }
  destruct r as [err a1]. destruct Hr as [(-> & -> & Hall)|(-> & Hm & Hex & fl1 & Hinv1 & Hne)].
  { by left. }
  cbn [is_ok negb]. pose proof (bi_cfg _ _ _ Hinv1) as Hcfg1.
  destruct (free_head_cases a1 fl1 o) as [[_ He]|(f1 & i & f2 & -> & Hh & Hb & Hn0)];
    [done|apply Hinv1|lia|done|].
  rewrite (proj2 (Z.eqb_neq _ _) Hn0). destruct Hb as (Hb1 & Hb2 & Hb3). cbn [fst snd] in *.
  pose proof (pow2_pos o ltac:(lia)) as Hpos.
  rewrite Hh, VIRT_TO_PHYS_node by (done || lia).
  pose proof (take_spec a1 f1 i o f2 live Hinv1) as Ht. cbv zeta in Ht.
  pose proof (remove_spec a1 f1 i o f2 Hcfg1 (bi_lists _ _ _ Hinv1)) as (_ & Hm2 & _). cbv zeta in Hm2.
  set (a2 := remove_from_free_list _ _ _) in *.
  assert (addr_to_block_index a2 (base_addr a1 + i * PAGE_SIZE) = i) as ->.
  { rewrite <- (sm_base _ _ Hm2). apply index_of_addr; [by eapply cfg_ok_meta|rewrite (sm_pages _ _ Hm2); lia]. }
  rewrite PAGES_PER_ORDER_pow by lia.
  destruct (mark_block i (2 ^ o) o (allocation_bitmap a2, order_bitmap a2)) as [ab ob]. cbn [fst snd] in Ht.
  assert (0 < i < total_pages a1) as Hi.
  { eapply inv_page_range; [exact Hinv1|]. left. apply elem_of_all_pages. exists i, o.
    split; [set_solver|lia]. }
  right. exists i, (f1 ++ f2). rewrite (sm_base _ _ Hm).
  split; [done|]. split; [pose proof (cfg_base _ (bi_cfg _ _ _ Hinv)); unfold PAGE_SIZE; lia|].
  split; [done|]. split; [done|]. split; [apply Ht|].
  cbn [with_counts with_bitmaps base_addr total_pages].
  by rewrite (sm_base _ _ Hm2), (sm_pages _ _ Hm2), (sm_base _ _ Hm), (sm_pages _ _ Hm).
Qed.

(** ** Merging *)

Lemma buddy_index_ne i o : 0 <= i -> 0 <= o -> buddy_index i o <> i.
Proof.
  intros Hi Ho. pose proof (pow2_pos o Ho).
  destruct (buddy_index_cases i o Hi Ho) as [(_ & -> & ?)|(_ & ->)]; lia.
Qed.

(** One level of merging: two free buddies of order [o] become one block. *)
Lemma merge_step a fl i o :
  cfg_ok a -> lists_ok a fl -> NoDup (all_pages fl) -> 0 <= o < BUDDY_MAX_ORDER ->
  (i, o) ∈ fl -> (buddy_index i o, o) ∈ fl ->
  let b := buddy_index i o in
  let a1 := remove_from_free_list a (node (base_addr a) b) o in
  let a2 := remove_from_free_list a1 (node (base_addr a) i) o in
  let a3 := add_to_free_list a2 (base_addr a + Z.min i b * PAGE_SIZE) (o + 1) in
  exists f, lists_ok a3 ((Z.min i b, o + 1) :: f) /\ same_meta a a3 /\
    all_pages ((Z.min i b, o + 1) :: f) ≡ₚ all_pages fl.
Proof.
  intros Hcfg Hl Hnd Ho Hi Hb. cbv zeta. set (b := buddy_index i o) in *.
  pose proof (lo_blk _ _ Hl) as HF. pose proof HF as HF'. rewrite Forall_forall in HF'.
  destruct (HF' _ Hi) as (Hi1 & Hi2 & Hi3), (HF' _ Hb) as (Hb1 & Hb2 & Hb3). cbn [fst snd] in *.
  assert (b <> i) as Hne by (apply buddy_index_ne; lia).
  apply list_elem_of_split in Hb as (f1 & f2 & ->).
  assert ((i, o) ∈ f1 ++ f2) as Hi' by set_solver.
  apply list_elem_of_split in Hi' as (g1 & g2 & Eg).
  assert (pages_of (Z.min i b, o + 1) ++ all_pages (g1 ++ g2) ≡ₚ all_pages (f1 ++ (b, o) :: f2)) as Hp.
  { unfold b at 1. rewrite <- merge_pages by lia. fold b. rewrite all_pages_middle, Eg, all_pages_middle.
    rewrite <- (assoc_L (++)). apply Permutation_app_swap_app. }
  pose proof (remove_spec a f1 b o f2 Hcfg Hl) as (Hl1 & Hm1 & _). cbv zeta in Hl1, Hm1.
  set (a1 := remove_from_free_list a _ _) in *. rewrite Eg in Hl1.
  pose proof (remove_spec a1 g1 i o g2 (cfg_ok_meta _ _ Hm1 Hcfg) Hl1) as (Hl2 & Hm2 & _). cbv zeta in Hl2, Hm2.
  rewrite (sm_base _ _ Hm1) in Hl2, Hm2. set (a2 := remove_from_free_list a1 _ _) in *.
  pose proof (same_meta_trans _ _ _ Hm1 Hm2) as Hm12.
  pose proof (add_spec a2 (g1 ++ g2) (Z.min i b) (o + 1) (cfg_ok_meta _ _ Hm12 Hcfg) Hl2) as Ha.
  cbv zeta in Ha. rewrite (sm_base _ _ Hm12), (sm_pages _ _ Hm12) in Ha.
  assert (2 ^ (o + 1) = 2 ^ o + 2 ^ o) as Hdbl by (rewrite Z.pow_add_r by lia; lia).
  destruct Ha as (Hl3 & Hm3 & _).
  { split; [|split]; cbn [fst snd]; [lia|lia|]. unfold b in *.
    destruct (buddy_index_cases i o) as [(_ & E & ?)|(_ & E)]; lia. }
  { rewrite <- Hp in Hnd. eapply (start_fresh (total_pages a)); [|exact Hnd|].
    - rewrite <- (sm_pages _ _ Hm12). apply Hl2.
    - apply elem_of_pages_of. pose proof (pow2_pos (o + 1) ltac:(lia)). lia. }
  exists (g1 ++ g2). split; [done|]. split; [by etrans|]. by rewrite all_pages_cons.
Qed.

Lemma merge_spec fuel a fl i o :
  cfg_ok a -> lists_ok a fl -> NoDup (all_pages fl) ->
  (forall j, j ∈ all_pages fl -> bitmap_test (allocation_bitmap a) j = false) ->
  (i, o) ∈ fl -> BUDDY_MAX_ORDER - o < Z.of_nat fuel ->
  let a' := try_merge_fuel fuel a (base_addr a + i * PAGE_SIZE) o in
  same_meta a a' /\
  exists fl' i' o', lists_ok a' fl' /\ all_pages fl' ≡ₚ all_pages fl /\
    (i', o') ∈ fl' /\ o <= o' /\ i' <= i /\ i + 2 ^ o <= i' + 2 ^ o' /\
    (o' < BUDDY_MAX_ORDER -> (buddy_index i' o', o') ∉ fl').
Proof.
  revert a fl i o. induction fuel as [|fuel IH]; intros a fl i o Hcfg Hl Hnd Hbits Hin Hfuel; cbv zeta.
  { pose proof (lo_blk _ _ Hl) as HF. rewrite Forall_forall in HF. destruct (HF _ Hin) as (? & ? & ?).
    simpl in *. lia. }
  cbn [try_merge_fuel]. pose proof (lo_blk _ _ Hl) as HF. rewrite Forall_forall in HF.
  destruct (HF _ Hin) as (Hi1 & Ho & Hi3). cbn [fst snd] in *.
  pose proof (pow2_pos o ltac:(lia)) as Hpos.
  destruct (Z.leb_spec BUDDY_MAX_ORDER o) as [Hge|Hlt].
  { split; [done|]. exists fl, i, o. split_and!; try done; try lia; intros; exfalso; lia. }
  destruct (get_buddy_addr_spec a i o Hcfg) as [Hb ->]; [lia|lia|]. set (b := buddy_index i o) in *.
  assert ((b, o) ∉ fl ->
    same_meta a a /\ exists fl' i' o', lists_ok a fl' /\ all_pages fl' ≡ₚ all_pages fl /\
      (i', o') ∈ fl' /\ o <= o' /\ i' <= i /\ i + 2 ^ o <= i' + 2 ^ o' /\
      (o' < BUDDY_MAX_ORDER -> (buddy_index i' o', o') ∉ fl')) as Hstop.
  { intros Hn. split; [done|]. exists fl, i, o. split_and!; try done; lia. }
  rewrite region_end by done.
  destruct (_ || _) eqn:Hrange.
  { apply Hstop. intros Hbin. destruct (HF _ Hbin) as (? & ? & ?). cbn [fst snd] in *.
    destruct Hcfg as [? ? ? Hsz ?]. unfold PAGE_SIZE in *.
    apply orb_true_iff in Hrange as [?%Z.ltb_lt|?%Z.leb_le]; lia. }
  apply orb_false_iff in Hrange as [_ Hrange%Z.leb_gt].
  assert (0 <= b < total_pages a) as Hbr.
  { destruct Hcfg as [? ? ? Hsz ?]. unfold PAGE_SIZE in *. lia. }
  rewrite index_of_addr by done. destruct (bitmap_test (allocation_bitmap a) b) eqn:Hbit.
  { apply Hstop. intros Hbin. rewrite Hbits in Hbit; [done|]. apply elem_of_all_pages.
    exists b, o. split; [done|lia]. }
  rewrite !PHYS_TO_VIRT_node by (done || lia).
  destruct (lo_list _ _ Hl o Ho) as [Hh Hd]. rewrite Hh.
  rewrite (list_reaches_spec _ _ _ 0); [|done|apply nodes_nonzero; [done|apply Hl]|by apply list_length_fuel].
  case_bool_decide as Hbin.
  2: { apply Hstop. intros Hbin'. apply Hbin. apply elem_of_nodes. by apply elem_of_of_order. }
  apply elem_of_nodes, elem_of_of_order in Hbin.
  pose proof (merge_step a fl i o Hcfg Hl Hnd ltac:(lia) Hin Hbin) as Hs. cbv zeta in Hs. fold b in Hs.
  assert ((if base_addr a + i * PAGE_SIZE <? base_addr a + b * PAGE_SIZE
           then base_addr a + i * PAGE_SIZE else base_addr a + b * PAGE_SIZE)
          = base_addr a + Z.min i b * PAGE_SIZE) as ->.
  { unfold PAGE_SIZE. destruct (Z.ltb_spec (base_addr a + i * 4096) (base_addr a + b * 4096)); lia. }
  destruct Hs as (f & Hl3 & Hm3 & Hp3). set (a3 := add_to_free_list _ _ _) in *.
  set (a4 := with_merges a3 (u64 (merges a3 + 1))).
  assert (same_meta a a4) as Hm4 by (etrans; [exact Hm3|apply same_meta_merges]).
  assert (lists_ok a4 ((Z.min i b, o + 1) :: f)) as Hl4 by (apply lists_ok_merges, Hl3).
  specialize (IH a4 _ (Z.min i b) (o + 1) (cfg_ok_meta _ _ Hm4 Hcfg) Hl4). cbv zeta in IH.
  rewrite (sm_base _ _ Hm4), (sm_abm _ _ Hm4) in IH.
  destruct IH as (Hm5 & fl' & i' & o' & L1 & L2 & L3 & L4 & L5 & L6 & L7).
  { by rewrite Hp3. }
  { intros j Hj. apply Hbits. by rewrite <- Hp3. }
  { apply list_elem_of_here. }
  { lia. }
  split; [by etrans|]. exists fl', i', o'. split_and!; try done; try lia.
  - by rewrite L2.
  - assert (2 ^ (o + 1) = 2 ^ o + 2 ^ o) as Hdbl by (rewrite Z.pow_add_r by lia; lia).
    unfold b in *. destruct (buddy_index_cases i o) as [(_ & E & ?)|(_ & E)]; lia.
Qed.

(** ** Release *)

(** Clearing the bits of live block [(i, o)] and pushing it on its free list. *)
Lemma give_back_spec a fl l1 i o l2 al de :
  buddy_inv a fl (l1 ++ (i, o) :: l2) ->
  let bm := unmark_block i (2 ^ o) (allocation_bitmap a, order_bitmap a) in
  let a1 := with_counts (with_bitmaps a (fst bm) (snd bm)) al de in
  let a2 := add_to_free_list a1 (base_addr a + i * PAGE_SIZE) o in
  buddy_inv a2 ((i, o) :: fl) (l1 ++ l2) /\ base_addr a2 = base_addr a /\ total_pages a2 = total_pages a.
Proof.
  intros Hinv. cbv zeta. pose proof (inv_nodup _ _ _ Hinv) as Hnd.
  destruct Hinv as [Hcfg Hl Hlive Hp Hbits Hord]. set (bm := unmark_block _ _ _).
  set (a1 := with_counts _ _ _). assert (cfg_ok a1) as Hcfg1 by (destruct Hcfg; by split).
  assert (lists_ok a1 fl) as Hl1 by (by eapply lists_ok_ext; [..|exact Hl]).
  pose proof Hlive as HF. apply Forall_app in HF as [HF1 HF2]. apply Forall_cons in HF2 as [Hb HF2].
  rewrite all_pages_middle in Hnd. rewrite Permutation_app_swap_app in Hnd.
  assert (i ∉ (fst <$> fl)) as Hfr.
  { rewrite (assoc_L (++)) in Hnd. apply NoDup_app in Hnd as (Hnd & _ & _).
    eapply (start_fresh (total_pages a)); [apply Hl|exact Hnd|].
    destruct Hb as (_ & Ho & _). apply elem_of_pages_of. pose proof (pow2_pos o). simpl in *. lia. }
  destruct (add_spec a1 fl i o Hcfg1 Hl1 Hb Hfr) as (Hl2 & Hm2 & _). cbv zeta in Hl2, Hm2.
  change (base_addr a1) with (base_addr a) in *. set (a2 := add_to_free_list a1 _ _) in *.
  destruct (Hm2) as [E1 E2 E3 E4 E5 _ _]. destruct Hb as (Hb1 & Hb2 & Hb3). cbn [fst snd] in *.
  pose proof (pow2_pos o ltac:(lia)) as Hpos.
  assert (forall j, j ∈ pages_of (i, o) -> j ∉ all_pages (l1 ++ l2)) as Hdisj.
  { intros j Hj Hj'. apply NoDup_app in Hnd as (_ & Hnd & _). apply (Hnd j); [done|].
    apply elem_of_app. by right. }
  split; [|done]. split.
  - by eapply cfg_ok_meta.
  - done.
  - rewrite E3. by apply Forall_app.
  - rewrite E3. change (total_pages a1) with (total_pages a).
    rewrite <- Hp, all_pages_cons, all_pages_middle. rewrite <- (assoc_L (++)).
    apply Permutation_app_swap_app.
  - rewrite E3, E4. change (total_pages a1) with (total_pages a).
    change (allocation_bitmap a1) with (fst bm). intros j Hj.
    destruct (unmark_block_spec i (2 ^ o) (allocation_bitmap a, order_bitmap a) j) as [Hu _]; [lia..|].
    fold bm in Hu. rewrite Hu. cbn [fst]. rewrite Hbits by done. rewrite in_block_decide.
    case_bool_decide as H1.
    + cbn. symmetry. apply bool_decide_eq_false. by apply Hdisj.
    + cbn. apply bool_decide_ext. rewrite all_pages_middle, elem_of_app. tauto.
  - rewrite E5. change (order_bitmap a1) with (snd bm). intros i' o' j Hin Hj.
    assert (j ∈ all_pages (l1 ++ l2)) as Hj' by (apply elem_of_all_pages; by exists i', o').
    assert (0 <= j).
    { assert (Forall (blk_ok (total_pages a)) (l1 ++ l2)) as HF by (by apply Forall_app).
      rewrite Forall_forall in HF. destruct (HF _ Hin) as (? & _). simpl in *. lia. }
    destruct (unmark_block_spec i (2 ^ o) (allocation_bitmap a, order_bitmap a) j) as [_ Hu]; [lia..|].
    fold bm in Hu. rewrite Hu. rewrite in_block_decide, bool_decide_eq_false_2.
    + cbn [snd]. eapply Hord; [|exact Hj]. set_solver.
    + intros Hc. by apply (Hdisj j).
Qed.

(** Two bookkeeping facts used by [buddy_free] and the queries. *)
Lemma live_block_facts a fl live i o :
  buddy_inv a fl live -> (i, o) ∈ live ->
  0 < i < total_pages a /\ 0 <= o <= BUDDY_MAX_ORDER /\
  bitmap_test (allocation_bitmap a) i = true /\ rd (order_bitmap a) i = o.
Proof.
  intros Hinv Hin. pose proof (bi_live _ _ _ Hinv) as HF. rewrite Forall_forall in HF.
  destruct (HF _ Hin) as (H1 & H2 & H3). simpl in *. pose proof (pow2_pos o ltac:(lia)).
  assert (i ∈ all_pages live) as Hi by (apply elem_of_all_pages; exists i, o; split; [done|lia]).
  assert (0 < i < total_pages a) by (eapply inv_page_range; [done|by right]).
  split_and!; try lia.
  - rewrite (bi_bits _ _ _ Hinv) by lia. by apply bool_decide_eq_true.
  - eapply (bi_orders _ _ _ Hinv); [done|lia].
Qed.

Lemma region_check a i :
  cfg_ok a -> 0 <= i < total_pages a ->
  (base_addr a + i * PAGE_SIZE <? base_addr a)
    || (u64 (base_addr a + total_size a) <=? base_addr a + i * PAGE_SIZE) = false.
Proof.
  intros Hcfg Hi. rewrite region_end by done. destruct Hcfg as [? ? ? Hsz ?]. rewrite Hsz.
  unfold PAGE_SIZE. zdecide.
Qed.

Lemma buddy_free_spec a fl l1 i o l2 :
  buddy_inv a fl (l1 ++ (i, o) :: l2) ->
  let a' := buddy_free a (base_addr a + i * PAGE_SIZE) in
  base_addr a' = base_addr a /\ total_pages a' = total_pages a /\
  exists fl' i' o', buddy_inv a' fl' (l1 ++ l2) /\
    (i', o') ∈ fl' /\ i' <= i /\ i + 2 ^ o <= i' + 2 ^ o' /\
    (o' < BUDDY_MAX_ORDER -> (buddy_index i' o', o') ∉ fl').
Proof.
  intros Hinv. cbv zeta. destruct (live_block_facts a fl _ i o Hinv) as (Hi & Ho & Hbit & Hord); [set_solver|].
  pose proof (bi_cfg _ _ _ Hinv) as Hcfg. unfold buddy_free.
  rewrite region_check, addr_aligned, index_of_addr, Hbit, Hord, PAGES_PER_ORDER_pow by (done || lia).
  cbn [negb]. pose proof (give_back_spec a fl l1 i o l2) as Hg. specialize (Hg) with (1 := Hinv). cbv zeta in Hg.
  destruct (unmark_block i (2 ^ o) (allocation_bitmap a, order_bitmap a)) as [ab ob]. cbn [fst snd] in Hg.
  change (allocations (with_bitmaps a ab ob)) with (allocations a).
  change (deallocations (with_bitmaps a ab ob)) with (deallocations a).
  set (al := allocations a). set (de := updz _ _ _). destruct (Hg al de) as (Hinv2 & Eb & Et).
  set (a2 := add_to_free_list _ _ _) in *. pose proof (inv_nodup _ _ _ Hinv2) as Hnd.
  destruct Hinv2 as [Hcfg2 Hl2 Hlive2 Hp2 Hbits2 Hord2].
  unfold try_merge. pose proof (merge_spec BUDDY_FUEL a2 ((i, o) :: fl) i o Hcfg2 Hl2) as Hms.
  cbv zeta in Hms. rewrite Eb in Hms. apply NoDup_app in Hnd as (Hnd & Hdisj & _).
  destruct Hms as (Hm & fl' & i' & o' & L1 & L2 & L3 & _ & L5 & L6 & L7).
  - done.
  - intros j Hj. assert (0 <= j < total_pages a2).
    { rewrite elem_of_all_pages in Hj. destruct Hj as (i' & o' & Hin & Hj).
      pose proof (lo_blk _ _ Hl2) as HF. rewrite Forall_forall in HF. destruct (HF _ Hin) as (? & ? & ?).
      simpl in *. lia. }
    rewrite Hbits2 by done. apply bool_decide_eq_false. by apply Hdisj.
  - apply list_elem_of_here.
  - unfold BUDDY_MAX_ORDER, BUDDY_FUEL in *. lia.
  - destruct (Hm) as [M1 M2 M3 M4 M5 _ _]. rewrite M1, M3. split; [done|]. split; [done|].
    exists fl', i', o'. split; [|done].
    split; [by eapply cfg_ok_meta|done|by rewrite M3|by rewrite M3, L2|by rewrite M3, M4|by rewrite M5].
Qed.

(** Pages that are not allocated, addresses outside the region and unaligned
    addresses are ignored. *)
Lemma buddy_free_noop_spec a addr :
  buddy_is_allocated a addr = false \/ IS_PAGE_ALIGNED addr = false -> buddy_free a addr = a.
Proof.
  unfold buddy_is_allocated, buddy_free. destruct (_ || _); [done|].
  intros [->| ->]; cbn [negb]; [by destruct (negb _)|done].
Qed.
