(* ===== verification/BuddyThms.v ===== *)
(** * Buddy allocator: initialisation, sizes, statistics and the theorems

    [buddy_init] establishes the invariant of [BuddyInv.v]; the operations
    preserve it, so every state reached by allocating and by returning live
    blocks hands out disjoint, page-aligned blocks inside the region.  The last
    section records two behaviours that fall short of the allocator's intent. *)

From S2P Require Import Prelude MemLayout Errno Bitmap Buddy BuddyLists BuddyInv.

(** ** Initialisation *)

(** Progress of the filling loops: pages [bitmap_pages .. c - 1] are free,
    [r] pages from [c] remain. *)
Record fill_inv (base tp : Z) (a : buddy) (fl : list (Z * Z)) (c r : Z) : Prop := {
  fi_cfg : cfg_ok a;
  fi_lists : lists_ok a fl;
  fi_base : base_addr a = base;
  fi_tp : total_pages a = tp;
  fi_left : 0 <= r /\ c + r = tp /\ bitmap_pages tp <= c;
  fi_bitmaps : allocation_bitmap a = ∅ /\ order_bitmap a = ∅;
  fi_pages : all_pages fl ≡ₚ seqZ (bitmap_pages tp) (c - bitmap_pages tp);
}.

Lemma bitmap_pages_nonneg tp : 0 <= tp -> 0 <= bitmap_pages tp.
Proof.
  intros. unfold bitmap_pages, alloc_bitmap_size, PAGE_SIZE.
  assert (0 <= (tp + 7) / 8) by dlia. dlia.
Qed.

Lemma fill_step base tp a fl c r o :
  fill_inv base tp a fl c r -> 0 <= o <= BUDDY_MAX_ORDER -> 2 ^ o <= r ->
  fill_inv base tp (add_to_free_list a (base + c * PAGE_SIZE) o) ((c, o) :: fl) (c + 2 ^ o) (r - 2 ^ o).
Proof.
  intros [Hcfg Hl Eb Et (Hr & Hc & Hbp) [B1 B2] Hp] Ho Hle.
  pose proof (pow2_pos o ltac:(lia)). pose proof (cfg_pages _ Hcfg).
  pose proof (bitmap_pages_nonneg tp ltac:(lia)) as Hnn.
  destruct (add_spec a fl c o Hcfg Hl) as (Hl' & Hm & _).
  { split; [|split]; cbn [fst snd]; lia. }
  { intros Hin. apply list_elem_of_fmap in Hin as ([i x] & -> & Hin). cbn [fst] in *.
    pose proof (lo_blk _ _ Hl) as HF. rewrite Forall_forall in HF. destruct (HF _ Hin) as (_ & Hx & _).
    cbn [snd] in Hx. pose proof (pow2_pos x ltac:(lia)).
    assert (i ∈ all_pages fl) as Hi by (apply elem_of_all_pages; exists i, x; split; [done|lia]).
    rewrite Hp in Hi. apply elem_of_seqZ in Hi. lia. }
  cbv zeta in Hl', Hm. rewrite Eb in *. destruct (Hm) as [E1 E2 E3 E4 E5 _ _].
  split; [by eapply cfg_ok_meta|done|congruence|congruence|lia|split; congruence|].
  rewrite all_pages_cons, Hp. unfold pages_of. cbn [fst snd].
  replace (c + 2 ^ o - bitmap_pages tp) with (c - bitmap_pages tp + 2 ^ o) by lia.
  rewrite seqZ_app by lia. replace (bitmap_pages tp + (c - bitmap_pages tp)) with c by lia.
  apply Permutation_app_comm.
Qed.

Lemma fill_order_spec base tp o fuel :
  0 <= o <= BUDDY_MAX_ORDER -> forall a fl c r,
  fill_inv base tp a fl c r -> r / 2 ^ o < Z.of_nat fuel ->
  exists a' fl' c' r', fill_order fuel a o (base + c * PAGE_SIZE) (r * PAGE_SIZE)
    = (a', base + c' * PAGE_SIZE, r' * PAGE_SIZE) /\ fill_inv base tp a' fl' c' r' /\ r' < 2 ^ o.
Proof.
  intros Ho. pose proof (pow2_pos o ltac:(lia)) as Hpos.
  assert (BUDDY_SIZE_FOR_ORDER o = 2 ^ o * PAGE_SIZE) as Hbs.
  { unfold BUDDY_SIZE_FOR_ORDER. rewrite PAGES_PER_ORDER_pow by lia. lia. }
  induction fuel as [|fuel IH]; intros a fl c r Hf Hfuel.
  { pose proof (Z.div_pos r (2 ^ o) ltac:(apply Hf) Hpos). lia. }
  cbn [fill_order]. rewrite Hbs. destruct (Z.leb_spec (2 ^ o * PAGE_SIZE) (r * PAGE_SIZE)) as [Hle|Hgt].
  - assert (2 ^ o <= r) as Hle' by (unfold PAGE_SIZE in *; lia).
    pose proof (fill_step _ _ _ _ _ _ o Hf Ho Hle') as Hf'.
    assert (u64 (base + c * PAGE_SIZE + 2 ^ o * PAGE_SIZE) = base + (c + 2 ^ o) * PAGE_SIZE) as ->.
    { destruct Hf as [[C1 C2 C3 C4 C5] _ Eb Et (Hr & Hc & Hbp) _ _]. change (2 ^ 42) with 4398046511104 in C5.
      pose proof (bitmap_pages_nonneg tp ltac:(lia)). unfold PAGE_SIZE in *. rewrite u64_small; lia. }
    replace (r * PAGE_SIZE - 2 ^ o * PAGE_SIZE) with ((r - 2 ^ o) * PAGE_SIZE) by lia.
    apply (IH _ _ _ _ Hf'). replace (r - 2 ^ o) with (r + (-1) * 2 ^ o) by lia.
    rewrite Z.div_add by lia. lia.
  - exists a, fl, c, r. split; [done|]. split; [done|]. unfold PAGE_SIZE in *. lia.
Qed.

Lemma fill_fuel_enough o r : 0 <= o -> r / 2 ^ o < Z.of_nat (fill_fuel o (r * PAGE_SIZE)).
Proof.
  intros Ho. unfold fill_fuel, BUDDY_SIZE_FOR_ORDER. rewrite PAGES_PER_ORDER_pow by done.
  rewrite (Z.mul_comm PAGE_SIZE), Z.div_mul_cancel_r; [lia|pose proof (pow2_pos o); lia|done].
Qed.

Lemma fill_orders_spec base tp n a fl c r :
  (Z.of_nat n <= BUDDY_MAX_ORDER + 1) -> fill_inv base tp a fl c r ->
  exists a' fl' c' r', fill_orders n a (base + c * PAGE_SIZE) (r * PAGE_SIZE)
    = (a', base + c' * PAGE_SIZE, r' * PAGE_SIZE) /\ fill_inv base tp a' fl' c' r' /\
    ((0 < n)%nat -> r' = 0).
Proof.
  revert a fl c r. induction n as [|n IH]; intros a fl c r Hn Hf.
  { exists a, fl, c, r. split; [done|]. split; [done|lia]. }
  cbn [fill_orders].
  destruct (fill_order_spec base tp (Z.of_nat n) (fill_fuel (Z.of_nat n) (r * PAGE_SIZE)) ltac:(lia) a fl c r Hf)
    as (a1 & fl1 & c1 & r1 & -> & Hf1 & Hlt); [apply fill_fuel_enough; lia|].
  destruct n as [|n].
  - cbn [fill_orders]. exists a1, fl1, c1, r1. split; [done|]. split; [done|]. intros _.
    change (2 ^ Z.of_nat 0) with 1 in Hlt. pose proof (fi_left _ _ _ _ _ _ Hf1). lia.
  - destruct (IH a1 fl1 c1 r1 ltac:(lia) Hf1) as (a2 & fl2 & c2 & r2 & E & Hf2 & H0).
    exists a2, fl2, c2, r2. split; [done|]. split; [done|]. intros _. apply H0. lia.
Qed.

(** A region [buddy_init] is meant for: page aligned, a power of two in size,
    below 4 TB, and large enough for its own bitmaps. *)
Record region_ok (base size : Z) : Prop := {
  ro_base : 0 <= base /\ base mod PAGE_SIZE = 0;
  ro_size : 0 < size /\ size mod PAGE_SIZE = 0;
  ro_pow2 : Z.land size (size - 1) = 0;
  ro_fits : base + size <= 2 ^ 42;
  ro_bitmaps : bitmap_pages (size / PAGE_SIZE) <= size / PAGE_SIZE;
}.

Lemma lists_ok_empty m base size : lists_ok (buddy_empty m base size) [].
Proof.
  split; [done|constructor|constructor|]. intros o Ho. split; [|done].
  unfold free_head, buddy_empty. cbn [free_lists]. unfold BUDDY_MAX_ORDER in Ho.
  change (hdz 0 _) with 0. unfold nthz. destruct (replicate 12 0 !! Z.to_nat o) eqn:E; [|done].
  by apply lookup_replicate in E as [-> _].
Qed.

Lemma fill_inv_empty m base size :
  region_ok base size ->
  let tp := size / PAGE_SIZE in
  fill_inv base tp (buddy_empty m base size) [] (bitmap_pages tp) (tp - bitmap_pages tp).
Proof.
  intros [[H1 H2] [H3 H4] _ H5 H6]. cbv zeta.
  assert (size / PAGE_SIZE * PAGE_SIZE = size) as Hsz by (unfold PAGE_SIZE in *; dlia).
  assert (0 <= size / PAGE_SIZE) by (unfold PAGE_SIZE in *; dlia).
  split; [|apply lists_ok_empty|done|done|lia|done|].
  - split; cbn [buddy_empty base_addr total_size total_pages]; done || lia.
  - rewrite Z.sub_diag. done.
Qed.

Lemma buddy_init_spec m base size :
  region_ok base size ->
  exists a fl, buddy_init m base size = (E_OK, Some a) /\ buddy_inv a fl [] /\
    base_addr a = base /\ total_pages a = size / PAGE_SIZE.
Proof.
  intros Hr. pose proof (fill_inv_empty m base size Hr) as Hf. cbv zeta in Hf.
  destruct (Hr) as [[H1 H2] [H3 H4] H5 H6 H7]. change (2 ^ 42) with 4398046511104 in H6.
  set (tp := size / PAGE_SIZE) in *.
  assert (tp * PAGE_SIZE = size) as Hsz by (unfold tp, PAGE_SIZE in *; dlia).
  assert (0 <= bitmap_pages tp) as Hbp by (apply bitmap_pages_nonneg; unfold tp, PAGE_SIZE in *; dlia).
  unfold buddy_init. rewrite (proj2 (IS_PAGE_ALIGNED_spec base) H2), (proj2 (IS_PAGE_ALIGNED_spec size) H4).
  cbn [negb orb]. rewrite (u64_small (size - 1)), H5 by lia. cbn [Z.eqb negb].
  change (total_pages (buddy_empty m base size)) with tp.
  replace (u64 (base + u64 (bitmap_pages tp * PAGE_SIZE))) with (base + bitmap_pages tp * PAGE_SIZE)
    by (unfold PAGE_SIZE in *; wrap_small; lia).
  replace (u64 (size - u64 (bitmap_pages tp * PAGE_SIZE))) with ((tp - bitmap_pages tp) * PAGE_SIZE)
    by (unfold PAGE_SIZE in *; wrap_small; lia).
  destruct (fill_orders_spec base tp (Z.to_nat (BUDDY_MAX_ORDER + 1)) _ _ _ _ ltac:(done) Hf)
    as (a & fl & c & r & E & [Hcfg Hl Eb Et (Hr0 & Hc & Hb) [B1 B2] Hp] & H0).
  rewrite E. exists a, fl. split; [done|]. split; [|done].
  rewrite H0 in Hc by (vm_compute; lia). split; [done|done|constructor|..].
  - rewrite app_nil_r, Hp, Et. unfold managed. by replace c with tp by lia.
  - intros j Hj. rewrite B1, bitmap_test_empty by lia. done.
  - intros i o j Hin. by apply elem_of_nil in Hin.
Qed.

(** ** Request sizes *)

Lemma order_loop_spec fuel pages o :
  0 <= o <= BUDDY_MAX_ORDER -> BUDDY_MAX_ORDER - o < Z.of_nat fuel ->
  (0 < o -> 2 ^ (o - 1) < pages) ->
  let r := order_loop fuel pages o in
  0 <= r <= BUDDY_MAX_ORDER /\ (pages <= 2 ^ r \/ r = BUDDY_MAX_ORDER) /\ (0 < r -> 2 ^ (r - 1) < pages).
Proof.
  revert o. induction fuel as [|fuel IH]; intros o Ho Hf Hlow; [lia|]. cbn [order_loop]. cbv zeta.
  rewrite PAGES_PER_ORDER_pow by lia.
  destruct (Z.ltb_spec (2 ^ o) pages); destruct (Z.ltb_spec o BUDDY_MAX_ORDER); cbn [andb].
  - apply IH; [lia|lia|]. by replace (o + 1 - 1) with o by lia.
  - split; [lia|]. split; [right; lia|done].
  - split; [lia|]. split; [by left|done].
  - split; [lia|]. split; [by left|done].
Qed.

(** [size] in pages, rounded up, as [buddy_get_order_for_size] computes it. *)
Lemma order_for_size_spec size :
  0 <= size <= 2 ^ 64 - PAGE_SIZE - 1 ->
  let o := buddy_get_order_for_size size in
  let pages := (size + PAGE_SIZE - 1) / PAGE_SIZE in
  0 <= o <= BUDDY_MAX_ORDER /\ (pages <= 2 ^ o \/ o = BUDDY_MAX_ORDER) /\ (0 < o -> 2 ^ (o - 1) < pages).
Proof.
  change (2 ^ 64) with 18446744073709551616. unfold PAGE_SIZE. intros Hs.
  unfold buddy_get_order_for_size, PAGE_SIZE. cbv zeta.
  rewrite (u64_small (size + 4096)), u64_small by lia.
  apply order_loop_spec; unfold BUDDY_MAX_ORDER, BUDDY_FUEL; lia.
Qed.

(** ** Statistics *)

Definition blocks_bytes (l : list (Z * Z)) : Z := PAGE_SIZE * Z.of_nat (length (all_pages l)).

Lemma length_pages_of i o : length (pages_of (i, o)) = Z.to_nat (2 ^ o).
Proof. unfold pages_of. by rewrite length_seqZ. Qed.

Lemma blocks_bytes_cons i o l :
  0 <= o -> blocks_bytes ((i, o) :: l) = PAGE_SIZE * 2 ^ o + blocks_bytes l.
Proof.
  intros Ho. unfold blocks_bytes. rewrite all_pages_cons, length_app, length_pages_of.
  pose proof (pow2_pos o Ho). lia.
Qed.

Definition below (k : Z) (l : list (Z * Z)) : list (Z * Z) := filter (fun b => snd b < k) l.

(** The blocks of order below [k], one order at a time. *)
Lemma blocks_bytes_filter_step tp fl k :
  Forall (blk_ok tp) fl -> 0 <= k ->
  blocks_bytes (below (k + 1) fl)
  = blocks_bytes (below k fl) + Z.of_nat (length (of_order k fl)) * (PAGE_SIZE * 2 ^ k).
Proof.
  intros HF Hk. unfold below in *. induction fl as [|[i o] fl IH]; [done|].
  apply Forall_cons in HF as [(_ & Ho & _) HF]. specialize (IH HF). cbn [snd] in Ho.
  destruct (decide (o = k)) as [->|Hne].
  - rewrite of_order_cons_eq, filter_cons_True by (simpl; lia). rewrite filter_cons_False by (simpl; lia).
    rewrite blocks_bytes_cons, IH by lia. cbn [length]. lia.
  - rewrite of_order_cons_ne by done. destruct (decide (o < k)).
    + rewrite !filter_cons_True by (simpl; lia). rewrite !blocks_bytes_cons, IH by lia. lia.
    + by rewrite !filter_cons_False by (simpl; lia).
Qed.

Lemma length_fl_bound a fl :
  lists_ok a fl -> forall o, Z.of_nat (length (of_order o fl)) <= total_pages a \/ of_order o fl = [].
Proof.
  intros Hl o. pose proof (list_length_fuel a fl o Hl) as Hf. rewrite length_fmap in Hf.
  unfold list_fuel in Hf. destruct (of_order o fl) eqn:E; [by right|left]. simpl in *. lia.
Qed.

Lemma all_pages_filter_sublist P `{!forall x, Decision (P x)} fl :
  (length (all_pages (filter P fl)) <= length (all_pages fl))%nat.
Proof.
  induction fl as [|b fl IH]; [done|]. rewrite all_pages_cons, length_app.
  destruct (decide (P b)).
  - rewrite filter_cons_True, all_pages_cons, length_app by done. lia.
  - rewrite filter_cons_False by done. lia.
Qed.

Lemma free_memory_spec a fl live :
  buddy_inv a fl live -> buddy_get_free_memory a = blocks_bytes fl.
Proof.
  intros Hinv. pose proof (bi_lists _ _ _ Hinv) as Hl. pose proof (bi_cfg _ _ _ Hinv) as Hcfg.
  pose proof (lo_blk _ _ Hl) as HF. pose proof (total_pages_bound a Hcfg) as Htp.
  change (2 ^ 30) with 1073741824 in Htp. unfold buddy_get_free_memory.
  assert (forall k, 0 <= blocks_bytes (below k fl) <= 1073741824 * 4096) as Hbound.
  { intros k. unfold blocks_bytes. pose proof (all_pages_filter_sublist (fun b => snd b < k) fl) as Hle.
    assert (length (all_pages fl) <= Z.to_nat (total_pages a))%nat.
    { apply length_bounded; [by eapply inv_nodup_free|].
      intros j Hj. assert (0 < j < total_pages a) by (eapply inv_page_range; [exact Hinv|by left]). lia. }
    fold (below k fl) in Hle. unfold PAGE_SIZE. lia. }
  assert (blocks_bytes fl = blocks_bytes (below (BUDDY_MAX_ORDER + 1) fl)) as ->.
  { f_equal. clear -HF. unfold below. induction fl as [|b fl IH]; [done|]. apply Forall_cons in HF as [(_ & ? & _) HF].
    rewrite filter_cons_True by lia. by rewrite <- IH. }
  apply (for_range_ind (fun k mem => mem = blocks_bytes (below k fl))); [done| |].
  - intros k mem Hk ->. destruct (lo_list _ _ Hl k ltac:(lia)) as [-> Hd].
    rewrite (blocks_bytes_filter_step (total_pages a)) by (done || lia).
    pose proof (list_length_fuel a fl k Hl) as Hlen. unfold list_fuel in Hlen.
    rewrite (count_list_spec _ _ _ 0);
      [|done|by apply nodes_nonzero|done|done|change (2 ^ 31) with 2147483648; lia].
    rewrite length_fmap, Z.add_0_l in *. unfold BUDDY_SIZE_FOR_ORDER. rewrite PAGES_PER_ORDER_pow by lia.
    pose proof (blocks_bytes_filter_step (total_pages a) fl k HF ltac:(lia)) as Hst.
    pose proof (Hbound (k + 1)). pose proof (Hbound k).
    assert (0 <= Z.of_nat (length (of_order k fl)) * (PAGE_SIZE * 2 ^ k)).
    { pose proof (pow2_pos k ltac:(lia)). unfold PAGE_SIZE. lia. }
    rewrite (u64_small (_ * (_ * _))) by lia. rewrite u64_small by lia. done.
  - symmetry. unfold blocks_bytes. replace (below 0 fl) with (@nil (Z * Z)); [done|]. symmetry.
    clear -HF. unfold below. induction fl as [|b fl IH]; [done|]. apply Forall_cons in HF as [(_ & ? & _) HF].
    rewrite filter_cons_False by lia. by apply IH.
Qed.

(** ** The client's view

    [live] lists what a client holds: the physical address returned and the
    order asked for.  A client may free the start of a block it holds, and may
    also pass an address that is not allocated or not page aligned, which
    [buddy_free] ignores.  It may not pass a page-aligned address inside a block
    it holds, other than the block's start: [buddy_free] does not recognise
    such an address and takes it for a block of its own
    ([buddy_free_interior_overlaps] below). *)

Inductive buddy_reachable (base size : Z) : buddy -> list (Z * Z) -> Prop :=
  | br_init m a : buddy_init m base size = (E_OK, Some a) -> buddy_reachable base size a []
  | br_alloc a live order addr a' :
      buddy_reachable base size a live -> 0 <= order ->
      buddy_alloc_order a order = (addr, a') ->
      buddy_reachable base size a' (if addr =? 0 then live else (addr, order) :: live)
  | br_free a l1 addr order l2 :
      buddy_reachable base size a (l1 ++ (addr, order) :: l2) ->
      buddy_reachable base size (buddy_free a addr) (l1 ++ l2)
  | br_free_ignored a live addr :
      buddy_reachable base size a live ->
      buddy_is_allocated a addr = false \/ IS_PAGE_ALIGNED addr = false ->
      buddy_reachable base size (buddy_free a addr) live.

(** Page indices as the addresses the client sees. *)
Definition client_block (base : Z) (b : Z * Z) : Z * Z := (base + fst b * PAGE_SIZE, snd b).

Lemma reachable_inv base size a live :
  region_ok base size -> buddy_reachable base size a live ->
  exists fl bl, buddy_inv a fl bl /\ live = client_block base <$> bl /\
    base_addr a = base /\ total_pages a = size / PAGE_SIZE.
Proof.
  intros Hr Hreach. induction Hreach as [m a Hinit|a live o addr a' _ IH Ho Hal|a l1 addr o l2 _ IH|a live addr _ IH Hno].
  - destruct (buddy_init_spec m base size Hr) as (a0 & fl & E & Hinv & Eb & Et).
    rewrite E in Hinit. simplify_eq. by exists fl, [].
  - destruct IH as (fl & bl & Hinv & -> & Eb & Et).
    pose proof (alloc_order_spec a fl bl o Hinv Ho) as Hs. rewrite Hal in Hs.
    destruct Hs as [(-> & -> & _)|(i & fl' & -> & Hpos & _ & _ & Hinv' & Eb' & Et')].
    + by exists fl, bl.
    + rewrite (proj2 (Z.eqb_neq _ 0)) by lia. exists fl', ((i, o) :: bl). split; [done|].
      split; [|by rewrite Eb', Et']. by rewrite Eb.
  - destruct IH as (fl & bl & Hinv & Elive & Eb & Et).
    symmetry in Elive. apply fmap_app_inv in Elive as (b1 & b2' & -> & E2 & ->).
    destruct b2' as [|[i o'] b2]; [done|]. cbn in E2. injection E2 as -> -> ->.
    destruct (buddy_free_spec a fl b1 i o' b2 Hinv) as (Eb' & Et' & fl' & _ & _ & Hinv' & _).
    cbv zeta in *. rewrite Eb in *. exists fl', (b1 ++ b2). split; [done|].
    split; [by rewrite fmap_app|]. by rewrite Eb', Et'.
  - destruct IH as (fl & bl & Hinv & -> & Eb & Et). rewrite buddy_free_noop_spec by done.
    by exists fl, bl.
Qed.

Lemma NoDup_concat_disjoint {A} (L : list (list A)) k1 k2 l1 l2 x :
  NoDup (concat L) -> L !! k1 = Some l1 -> L !! k2 = Some l2 -> k1 <> k2 -> x ∈ l1 -> x ∈ l2 -> False.
Proof.
  revert k1 k2. induction L as [|l L IH]; intros k1 k2 Hnd H1 H2 Hne Hx1 Hx2; [done|].
  cbn in Hnd. apply NoDup_app in Hnd as (_ & Hd & Hnd).
  assert (forall k l', L !! k = Some l' -> x ∈ l' -> x ∈ concat L) as Hin.
  { intros k l' Hk Hx. apply list_elem_of_In, in_concat. exists l'.
    split; apply list_elem_of_In; [by eapply list_elem_of_lookup_2|done]. }
  destruct k1 as [|k1], k2 as [|k2]; simplify_eq/=; [by eapply (Hd x); eauto..|].
  eapply (IH k1 k2); eauto.
Qed.

Lemma live_disjoint a fl bl k1 k2 b1 b2 j :
  buddy_inv a fl bl -> bl !! k1 = Some b1 -> bl !! k2 = Some b2 -> k1 <> k2 ->
  j ∈ pages_of b1 -> j ∈ pages_of b2 -> False.
Proof.
  intros Hinv H1 H2 Hne. apply inv_nodup in Hinv. apply NoDup_app in Hinv as (_ & _ & Hnd).
  eapply NoDup_concat_disjoint; [exact Hnd|..]; [by rewrite list_lookup_fmap, H1|by rewrite list_lookup_fmap, H2|done].
Qed.

Definition client_bytes (live : list (Z * Z)) : Z :=
  foldr (fun b s => BUDDY_SIZE_FOR_ORDER (snd b) + s) 0 live.

Lemma client_bytes_spec base tp bl :
  Forall (blk_ok tp) bl -> client_bytes (client_block base <$> bl) = blocks_bytes bl.
Proof.
  induction bl as [|[i o] bl IH]; intros HF; [done|]. apply Forall_cons in HF as [(_ & Ho & _) HF].
  cbn [snd] in Ho. rewrite blocks_bytes_cons, <- IH by (done || lia). cbn. unfold BUDDY_SIZE_FOR_ORDER.
  by rewrite PAGES_PER_ORDER_pow by lia.
Qed.

Lemma is_allocated_spec a fl bl j :
  buddy_inv a fl bl -> 0 <= j < total_pages a ->
  buddy_is_allocated a (base_addr a + j * PAGE_SIZE) = bool_decide (j ∈ all_pages bl).
Proof.
  intros Hinv Hj. pose proof (bi_cfg _ _ _ Hinv) as Hcfg. unfold buddy_is_allocated.
  rewrite region_check, index_of_addr by done. by apply (bi_bits _ _ _ Hinv).
Qed.

Lemma total_bytes a fl bl :
  buddy_inv a fl bl -> bitmap_pages (total_pages a) <= total_pages a ->
  blocks_bytes fl + blocks_bytes bl + bitmap_pages (total_pages a) * PAGE_SIZE = total_pages a * PAGE_SIZE.
Proof.
  intros Hinv Hle. pose proof (bi_pages _ _ _ Hinv) as Hp. apply Permutation_length in Hp.
  unfold managed in Hp. rewrite length_app, length_seqZ in Hp. unfold blocks_bytes, PAGE_SIZE. lia.
Qed.

(** The kernel's configuration: [buddy_init(&allocator, 0x04000000, 0x04000000)]. *)
Definition KERNEL_BUDDY_BASE : Z := 0x04000000.
Definition KERNEL_BUDDY_SIZE : Z := 0x04000000.

Lemma kernel_region_ok : region_ok KERNEL_BUDDY_BASE KERNEL_BUDDY_SIZE.
Proof. split; vm_compute; intuition discriminate. Qed.

Definition kernel_buddy : buddy :=
  default (buddy_empty ∅ 0 0) (snd (buddy_init ∅ KERNEL_BUDDY_BASE KERNEL_BUDDY_SIZE)).

Lemma kernel_reachable : buddy_reachable KERNEL_BUDDY_BASE KERNEL_BUDDY_SIZE kernel_buddy [].
Proof.
  apply br_init with ∅. unfold kernel_buddy.
  destruct (buddy_init_spec ∅ _ _ kernel_region_ok) as (a & _ & E & _). by rewrite E.
Qed.

(** Run a client: [n] allocations of [order], collecting the addresses. *)
Fixpoint alloc_many (n : nat) (order : Z) (a : buddy) : list Z * buddy :=
  match n with
  | O => ([], a)
  | S n' =>
      let '(addr, a) := buddy_alloc_order a order in
      let '(l, a) := alloc_many n' order a in (addr :: l, a)
  end.

(** The kernel's allocator after one page was allocated. *)
Definition kernel_one : buddy := snd (buddy_alloc_order kernel_buddy 0).
Definition kernel_one_addr : Z := fst (buddy_alloc_order kernel_buddy 0).

Lemma kernel_one_reachable :
  buddy_reachable KERNEL_BUDDY_BASE KERNEL_BUDDY_SIZE kernel_one [(kernel_one_addr, 0)].
Proof.
  unfold kernel_one, kernel_one_addr. destruct (buddy_alloc_order kernel_buddy 0) as [p a] eqn:E.
  assert ((p =? 0) = false) as N by (revert E; vm_compute; intros [= <- _]; reflexivity).
  pose proof (br_alloc _ _ _ _ _ _ _ kernel_reachable (Z.le_refl 0) E) as R. by rewrite N in R.
Qed.

(** ** Theorems *)

(** C1. Memory safety of the buddy allocator for a client that frees only what
    it was given.  In every state reached from [buddy_init] on a well-formed
    region by allocations of any order, by freeing the start address of a block
    the client holds, and by freeing addresses that are unallocated or not page
    aligned (a double free, say, which is ignored), each live block is page
    aligned and lies inside the region behind the bitmaps, and two live blocks
    never overlap.  Freeing a page-aligned address in the interior of a live
    block is outside the statement: the code accepts it and the blocks do then
    overlap ([buddy_free_interior_overlaps]). *)
Theorem buddy_live_blocks_safe (base size : Z) (a : buddy) (live : list (Z * Z))
    (Hr : region_ok base size) (Hreach : buddy_reachable base size a live) :
  (forall k p o, live !! k = Some (p, o) ->
     p mod PAGE_SIZE = 0 /\ base + bitmap_pages (size / PAGE_SIZE) * PAGE_SIZE <= p /\
     p + BUDDY_SIZE_FOR_ORDER o <= base + size) /\
  (forall k1 k2 p o q o', live !! k1 = Some (p, o) -> live !! k2 = Some (q, o') -> k1 <> k2 ->
     p + BUDDY_SIZE_FOR_ORDER o <= q \/ q + BUDDY_SIZE_FOR_ORDER o' <= p).
Proof.
  destruct (reachable_inv _ _ _ _ Hr Hreach) as (fl & bl & Hinv & -> & Eb & Et).
  pose proof (bi_live _ _ _ Hinv) as HF. rewrite Forall_forall in HF. destruct (bi_cfg _ _ _ Hinv) as [_ Hal _ _ _].
  assert (size / PAGE_SIZE * PAGE_SIZE = size) as Hsz
    by (destruct Hr as [_ [? ?] _ _ _]; unfold PAGE_SIZE in *; dlia).
  assert (forall i o, (i, o) ∈ bl -> 0 <= o /\ 0 < 2 ^ o /\ bitmap_pages (total_pages a) <= i /\
    i + 2 ^ o <= total_pages a /\ BUDDY_SIZE_FOR_ORDER o = 2 ^ o * PAGE_SIZE) as Hfacts.
  { intros i o Hin. destruct (HF _ Hin) as (_ & Ho & Hle). cbn [fst snd] in *. pose proof (pow2_pos o ltac:(lia)).
    assert (i ∈ managed (total_pages a)) as Hm.
    { rewrite <- (bi_pages _ _ _ Hinv). apply elem_of_app. right. apply elem_of_all_pages.
      exists i, o. split; [done|lia]. }
    apply elem_of_seqZ in Hm. unfold BUDDY_SIZE_FOR_ORDER. rewrite PAGES_PER_ORDER_pow by lia. lia. }
  rewrite <- Et in *. split.
  - intros k p o Hk. rewrite list_lookup_fmap in Hk. apply fmap_Some in Hk as ([i o'] & Hk & [= -> ->]).
    apply list_elem_of_lookup_2, Hfacts in Hk as (? & ? & ? & ? & ->). cbn [fst] in *.
    split; [|unfold PAGE_SIZE in *; lia]. rewrite Z.mod_add by done. by rewrite <- Eb.
  - intros k1 k2 p o q o' H1 H2 Hne. rewrite list_lookup_fmap in H1, H2.
    apply fmap_Some in H1 as ([i x] & H1 & [= -> ->]). apply fmap_Some in H2 as ([i' x'] & H2 & [= -> ->]).
    destruct (Hfacts i x) as (? & ? & _ & _ & ->); [by eapply list_elem_of_lookup_2|].
    destruct (Hfacts i' x') as (? & ? & _ & _ & ->); [by eapply list_elem_of_lookup_2|]. cbn [fst].
    destruct (decide (i + 2 ^ x <= i' \/ i' + 2 ^ x' <= i)); [unfold PAGE_SIZE; lia|]. exfalso.
    apply (live_disjoint a fl bl k1 k2 (i, x) (i', x') (Z.max i i')); try done; apply elem_of_pages_of; lia.
Qed.

Lemma buddy_live_blocks_safe_witness :
  let '(l, a) := alloc_many 2 0 kernel_buddy in
  exists p q, l = [p; q] /\ p <> q /\ p mod PAGE_SIZE = 0.
Proof.
  destruct (buddy_alloc_order kernel_buddy 0) as [p a1] eqn:E1.
  destruct (buddy_alloc_order a1 0) as [q a2] eqn:E2. cbn [alloc_many]. rewrite E1, E2. exists p, q.
  assert ((p =? 0) = false) as Np by (revert E1; vm_compute; intros [= <- _]; reflexivity).
  assert ((q =? 0) = false) as Nq.
  { revert E2. replace a1 with (snd (buddy_alloc_order kernel_buddy 0)) by (by rewrite E1).
    vm_compute. intros [= <- _]; reflexivity. }
  pose proof (br_alloc _ _ _ _ _ _ _ kernel_reachable (Z.le_refl 0) E1) as R1. rewrite Np in R1.
  pose proof (br_alloc _ _ _ _ _ _ _ R1 (Z.le_refl 0) E2) as R2. rewrite Nq in R2.
  destruct (buddy_live_blocks_safe _ _ _ _ kernel_region_ok R2) as [Ha Hd].
  split; [reflexivity|]. split.
  - intros ->. specialize (Hd 0%nat 1%nat q 0 q 0 eq_refl eq_refl ltac:(discriminate)).
    change (BUDDY_SIZE_FOR_ORDER 0) with 4096 in Hd. lia.
  - apply (Ha 1%nat p 0). reflexivity.
Defined.

(** C25. Conservation of memory.  In every reachable state the free memory
    [buddy_get_free_memory] reports, the live blocks and the bitmaps add up to
    the region, and [buddy_get_used_memory] is the rest: nothing leaks. *)
Theorem buddy_memory_accounting (base size : Z) (a : buddy) (live : list (Z * Z))
    (Hr : region_ok base size) (Hreach : buddy_reachable base size a live) :
  let bitmaps := bitmap_pages (size / PAGE_SIZE) * PAGE_SIZE in
  buddy_get_free_memory a = size - bitmaps - client_bytes live /\
  buddy_get_used_memory a = bitmaps + client_bytes live.
Proof.
  cbv zeta. destruct (reachable_inv _ _ _ _ Hr Hreach) as (fl & bl & Hinv & -> & Eb & Et).
  pose proof (bi_cfg _ _ _ Hinv) as [_ _ _ Hts Hfit].
  rewrite (client_bytes_spec _ _ _ (bi_live _ _ _ Hinv)). unfold buddy_get_used_memory.
  rewrite (free_memory_spec _ _ _ Hinv), <- Et.
  pose proof (total_bytes _ _ _ Hinv) as Hsum. destruct Hr as [? [? ?] _ Hf Hbp]. rewrite Et in Hsum at 1 2.
  specialize (Hsum Hbp).
  assert (size = total_pages a * PAGE_SIZE) as Hsz by (rewrite Et; unfold PAGE_SIZE in *; dlia).
  assert (0 <= blocks_bytes fl /\ 0 <= blocks_bytes bl) as [? ?] by (unfold blocks_bytes, PAGE_SIZE; lia).
  pose proof (bitmap_pages_nonneg (total_pages a) ltac:(unfold PAGE_SIZE in *; lia)).
  change (2 ^ 42) with 4398046511104 in *. split; [lia|]. rewrite Hts. rewrite u64_small; [lia|].
  unfold PAGE_SIZE in *. lia.
Qed.

Lemma buddy_memory_accounting_witness :
  buddy_get_used_memory kernel_one = 5 * PAGE_SIZE + PAGE_SIZE.
Proof.
  rewrite (proj2 (buddy_memory_accounting _ _ _ _ kernel_region_ok kernel_one_reachable)).
  vm_compute. reflexivity.
Defined.

(** C15. Allocation succeeds exactly when a large enough block is free.  A
    request of [order] returns null, and then changes nothing, if and only if
    all free lists from [order] up are empty. *)
Theorem buddy_alloc_order_complete (base size : Z) (a : buddy) (live : list (Z * Z)) (order : Z)
    (Hr : region_ok base size) (Hreach : buddy_reachable base size a live) (Ho : 0 <= order) :
  let '(addr, a') := buddy_alloc_order a order in
  (addr = 0 -> a' = a) /\
  (addr = 0 <-> forall o, order <= o <= BUDDY_MAX_ORDER -> free_head a o = 0).
Proof.
  destruct (reachable_inv _ _ _ _ Hr Hreach) as (fl & bl & Hinv & -> & Eb & Et).
  pose proof (alloc_order_spec a fl bl order Hinv Ho) as Hs.
  destruct (buddy_alloc_order a order) as [addr a'].
  pose proof (bi_cfg _ _ _ Hinv) as Hcfg. pose proof (bi_lists _ _ _ Hinv) as Hl.
  destruct Hs as [(-> & -> & Hall)|(i & fl' & -> & Hpos & Hle & ([j x] & Hb & Hbo) & _)].
  - split; [done|]. split; [|done]. intros _ o Ho'.
    destruct (free_head_cases a fl o Hcfg Hl) as [[-> _]|(f1 & i & f2 & -> & _)]; [lia|done|].
    specialize (Hall (i, o) ltac:(set_solver)). cbn [snd] in Hall. lia.
  - split; [lia|]. split; [lia|]. intros Hempty. exfalso. cbn [snd] in Hbo.
    pose proof (lo_blk _ _ Hl) as HF. rewrite Forall_forall in HF. destruct (HF _ Hb) as (? & ? & ?). cbn [fst snd] in *.
    destruct (free_head_cases a fl x Hcfg Hl) as [[_ He]|(f1 & i' & f2 & -> & _ & _ & Hn)]; [lia| |].
    + apply elem_of_of_order in Hb. rewrite He in Hb. set_solver.
    + apply Hn, Hempty. lia.
Qed.

Lemma buddy_alloc_order_complete_witness :
  fst (buddy_alloc_order kernel_buddy 11) <> 0 /\ free_head kernel_buddy 11 <> 0.
Proof.
  pose proof (buddy_alloc_order_complete _ _ _ _ 11 kernel_region_ok kernel_reachable ltac:(lia)) as H.
  destruct (buddy_alloc_order kernel_buddy 11) as [p a]. destruct H as [_ H].
  assert (free_head kernel_buddy 11 <> 0) as Hn by (vm_compute; discriminate).
  split; [|exact Hn]. intros E. cbn [fst] in E. apply Hn. apply (proj1 H E). unfold BUDDY_MAX_ORDER. lia.
Defined.

(** Freeing a live block.  The block's pages read as free afterwards, the
    other live blocks stay allocated, the free memory grows by the block's
    size, and freeing the same address again changes nothing. *)
Theorem buddy_free_live_block (base size : Z) (a : buddy) (l1 l2 : list (Z * Z)) (p o : Z)
    (Hr : region_ok base size) (Hreach : buddy_reachable base size a (l1 ++ (p, o) :: l2)) :
  let a' := buddy_free a p in
  (forall q, p <= q < p + BUDDY_SIZE_FOR_ORDER o -> q mod PAGE_SIZE = 0 -> buddy_is_allocated a' q = false) /\
  (forall q o', (q, o') ∈ l1 ++ l2 -> buddy_is_allocated a' q = true) /\
  buddy_get_free_memory a' = buddy_get_free_memory a + BUDDY_SIZE_FOR_ORDER o /\
  buddy_free a' p = a'.
Proof.
  cbv zeta. destruct (reachable_inv _ _ _ _ Hr Hreach) as (fl & bl & Hinv & Elive & Eb & Et).
  symmetry in Elive. apply fmap_app_inv in Elive as (b1 & b2' & -> & E2 & ->).
  destruct b2' as [|[i o'] b2]; [done|]. cbn in E2. injection E2 as -> -> ->.
  destruct (buddy_free_spec a fl b1 i o' b2 Hinv) as (Eb' & Et' & fl' & _ & _ & Hinv' & _).
  cbv zeta in *. rewrite Eb in *. set (a' := buddy_free a _) in *.
  destruct (live_block_facts a fl _ i o' Hinv) as (Hi & Ho & _ & _); [set_solver|].
  pose proof (pow2_pos o' ltac:(lia)) as Hpos.
  pose proof (bi_live _ _ _ Hinv) as HF. rewrite Forall_forall in HF.
  destruct (HF (i, o') ltac:(set_solver)) as (_ & _ & Hend). cbn [fst snd] in Hend.
  assert (forall j, i <= j < i + 2 ^ o' -> buddy_is_allocated a' (base + j * PAGE_SIZE) = false) as Hfree.
  { intros j Hj. rewrite <- Eb' at 1. rewrite (is_allocated_spec _ _ _ _ Hinv') by lia.
    apply bool_decide_eq_false. intros Hin. apply inv_nodup in Hinv. rewrite all_pages_middle in Hinv.
    apply NoDup_app in Hinv as (_ & _ & Hinv). apply NoDup_app in Hinv as (_ & Hd & _).
    apply (Hd j); [by apply elem_of_pages_of|done]. }
  assert (BUDDY_SIZE_FOR_ORDER o' = PAGE_SIZE * 2 ^ o') as Hbs.
  { unfold BUDDY_SIZE_FOR_ORDER. by rewrite PAGES_PER_ORDER_pow by lia. }
  rewrite Hbs. split_and!.
  - intros q Hq Hmod. pose proof (cfg_aligned _ (bi_cfg _ _ _ Hinv)) as Hal. rewrite Eb in Hal.
    replace q with (base + ((q - base) / PAGE_SIZE) * PAGE_SIZE) by (unfold PAGE_SIZE in *; dlia).
    apply Hfree. unfold PAGE_SIZE in *. dlia.
  - intros q x Hin. rewrite <- fmap_app in Hin. apply list_elem_of_fmap in Hin as ([j y] & [= -> ->] & Hin).
    destruct (live_block_facts _ _ _ j y Hinv' Hin) as (Hj & Hy & _ & _). cbn [fst]. rewrite <- Eb' at 1.
    rewrite (is_allocated_spec _ _ _ _ Hinv') by lia. apply bool_decide_eq_true, elem_of_all_pages.
    exists j, y. split; [done|]. pose proof (pow2_pos y ltac:(lia)). lia.
  - rewrite (free_memory_spec _ _ _ Hinv), (free_memory_spec _ _ _ Hinv').
    pose proof (Permutation_length (bi_pages _ _ _ Hinv)) as P1.
    pose proof (Permutation_length (bi_pages _ _ _ Hinv')) as P2. rewrite Et', <- P1 in P2.
    rewrite all_pages_middle, !length_app, length_pages_of in P2. unfold blocks_bytes, PAGE_SIZE. lia.
  - apply buddy_free_noop_spec. left. by apply Hfree; lia.
Qed.

Lemma buddy_free_live_block_witness :
  buddy_is_allocated (buddy_free kernel_one kernel_one_addr) kernel_one_addr = false /\
  buddy_free (buddy_free kernel_one kernel_one_addr) kernel_one_addr
    = buddy_free kernel_one kernel_one_addr.
Proof.
  destruct (buddy_free_live_block _ _ _ [] [] _ _ kernel_region_ok kernel_one_reachable) as (H1 & _ & _ & H4).
  split; [|exact H4]. apply H1; [|reflexivity]. change (BUDDY_SIZE_FOR_ORDER 0) with 4096. lia.
Defined.

(** The block at index [i] of order [o] has no free buddy of its order. *)
Definition unmergeable (a : buddy) (fl : list (Z * Z)) (i o : Z) : Prop :=
  o < BUDDY_MAX_ORDER -> (addr_to_block_index a (get_buddy_addr a (base_addr a + i * PAGE_SIZE) o), o) ∉ fl.

(** Coalescing.  Freeing a live block [(i, o)] leaves a free block that
    contains it and that cannot be merged further: either it has the largest
    order or the block [get_buddy_addr] pairs it with is not free at that
    order; the invariant holds again with the block no longer live. *)
Theorem buddy_free_coalesces (a : buddy) (fl l1 l2 : list (Z * Z)) (i o : Z)
    (Hinv : buddy_inv a fl (l1 ++ (i, o) :: l2)) :
  let a' := buddy_free a (base_addr a + i * PAGE_SIZE) in
  exists fl' i' o', buddy_inv a' fl' (l1 ++ l2) /\
    (i', o') ∈ fl' /\ i' <= i /\ i + 2 ^ o <= i' + 2 ^ o' /\
    unmergeable a' fl' i' o'.
Proof.
  destruct (buddy_free_spec a fl l1 i o l2 Hinv) as (Eb & Et & fl' & i' & o' & H1 & H2 & H3 & H4 & H5).
  cbv zeta in *. exists fl', i', o'. split_and!; try done. unfold unmergeable. intros Hlt.
  pose proof (bi_cfg _ _ _ H1) as Hcfg. pose proof (lo_blk _ _ (bi_lists _ _ _ H1)) as HF.
  rewrite Forall_forall in HF. destruct (HF _ H2) as (G1 & G2 & G3). cbn [fst snd] in *.
  pose proof (pow2_pos o' ltac:(lia)).
  destruct (get_buddy_addr_spec _ i' o' Hcfg) as [Hb ->]; [lia|lia|].
  destruct (decide (buddy_index i' o' < total_pages (buddy_free a (base_addr a + i * PAGE_SIZE)))).
  - rewrite index_of_addr by (done || lia). auto.
  - intros Hin. destruct (HF _ Hin) as (F1 & F2 & F3). cbn [fst snd] in *. revert F3.
    unfold addr_to_block_index. destruct Hcfg as [C1 C2 C3 C4 C5].
    change (2 ^ 42) with 4398046511104 in C5. change (2 ^ 40) with 1099511627776 in Hb.
    set (b := base_addr _) in *. replace (b + buddy_index i' o' * PAGE_SIZE - b)
      with (buddy_index i' o' * PAGE_SIZE) by lia.
    unfold PAGE_SIZE in *. rewrite u64_small, Z.div_mul by lia. lia.
Qed.

Lemma client_single base p o bl :
  [(p, o)] = client_block base <$> bl -> exists i, bl = [(i, o)] /\ p = base + i * PAGE_SIZE.
Proof.
  destruct bl as [|[i o'] [|? ?]]; try done. intros [= -> ->]. by exists i.
Qed.

Lemma buddy_free_coalesces_witness :
  exists (fl : list (Z * Z)) i' o', buddy_inv (buddy_free kernel_one kernel_one_addr) fl [] /\
    (i', o') ∈ fl /\ i' <= (kernel_one_addr - KERNEL_BUDDY_BASE) / PAGE_SIZE.
Proof.
  destruct (reachable_inv _ _ _ _ kernel_region_ok kernel_one_reachable) as (fl & bl & Hinv & E & Eb & _).
  apply client_single in E as (i & -> & E1).
  destruct (buddy_free_coalesces kernel_one fl [] [] i 0 Hinv) as (fl' & i' & o' & H1 & H2 & H3 & _).
  rewrite Eb, <- E1 in H1. exists fl', i', o'. split; [exact H1|]. split; [exact H2|].
  rewrite E1. unfold PAGE_SIZE.
  replace (KERNEL_BUDDY_BASE + i * 4096 - KERNEL_BUDDY_BASE) with (i * 4096) by lia.
  rewrite Z.div_mul by discriminate. exact H3.
Defined.

(** [o] is the smallest order whose block holds [size] bytes. *)
Definition least_order (size o : Z) : Prop :=
  0 <= o <= BUDDY_MAX_ORDER /\ size <= BUDDY_SIZE_FOR_ORDER o /\
  (forall o', 0 <= o' < o -> BUDDY_SIZE_FOR_ORDER o' < size).

(** The order chosen for a request that fits the largest block is the
    smallest whose block holds the request. *)
Theorem buddy_order_for_size_minimal (size : Z) (Hs : 0 < size <= BUDDY_SIZE_FOR_ORDER BUDDY_MAX_ORDER) :
  least_order size (buddy_get_order_for_size size) /\
  buddy_get_actual_size size = BUDDY_SIZE_FOR_ORDER (buddy_get_order_for_size size).
Proof.
  change (BUDDY_SIZE_FOR_ORDER BUDDY_MAX_ORDER) with 8388608 in Hs. split; [|reflexivity].
  destruct (order_for_size_spec size) as (H1 & H2 & H3); [change (2 ^ 64) with 18446744073709551616; unfold PAGE_SIZE; lia|].
  cbv zeta in *. set (o := buddy_get_order_for_size size) in *.
  unfold least_order, BUDDY_SIZE_FOR_ORDER, PAGE_SIZE in *. rewrite PAGES_PER_ORDER_pow by lia. split; [done|]. split.
  - destruct H2 as [H2|H2]; [dlia|]. rewrite H2. change (2 ^ BUDDY_MAX_ORDER) with 2048. lia.
  - intros o' Ho'. rewrite PAGES_PER_ORDER_pow by lia. specialize (H3 ltac:(lia)).
    assert (2 ^ o' <= 2 ^ (o - 1)) by (apply Z.pow_le_mono_r; lia). dlia.
Qed.

Lemma buddy_order_for_size_minimal_witness :
  5000 <= BUDDY_SIZE_FOR_ORDER (buddy_get_order_for_size 5000) /\ BUDDY_SIZE_FOR_ORDER 0 < 5000.
Proof.
  destruct (buddy_order_for_size_minimal 5000) as ((_ & H2 & H3) & _); [vm_compute; split; congruence|].
  split; [exact H2|]. apply H3. vm_compute. split; congruence.
Defined.

(** A request beyond 8 MB is not refused: the order is capped at
    [BUDDY_MAX_ORDER], so the block handed out is smaller than the request. *)
Theorem buddy_oversized_request_truncated (size : Z)
    (Hs : BUDDY_SIZE_FOR_ORDER BUDDY_MAX_ORDER < size <= 2 ^ 64 - PAGE_SIZE - 1) :
  (forall a, buddy_alloc a size = buddy_alloc_order a BUDDY_MAX_ORDER) /\ buddy_get_actual_size size < size.
Proof.
  change (BUDDY_SIZE_FOR_ORDER BUDDY_MAX_ORDER) with 8388608 in Hs.
  destruct (order_for_size_spec size) as (H1 & H2 & H3); [lia|]. cbv zeta in *.
  assert (buddy_get_order_for_size size = BUDDY_MAX_ORDER) as E.
  { destruct H2 as [H2|]; [|done]. unfold BUDDY_MAX_ORDER in *.
    assert (2 ^ buddy_get_order_for_size size <= 2 ^ 11) as Hp by (apply Z.pow_le_mono_r; lia).
    change (2 ^ 11) with 2048 in Hp. unfold PAGE_SIZE in *. exfalso. dlia. }
  unfold buddy_get_actual_size, buddy_alloc. rewrite E. split; [done|].
  change (BUDDY_SIZE_FOR_ORDER BUDDY_MAX_ORDER) with 8388608. lia.
Qed.

Lemma buddy_oversized_request_truncated_witness :
  fst (buddy_alloc kernel_buddy 0x1000000) <> 0 /\ buddy_get_actual_size 0x1000000 = 0x800000.
Proof.
  destruct (buddy_oversized_request_truncated 0x1000000) as [H1 H2]; [vm_compute; split; congruence|].
  rewrite H1. split; [vm_compute; discriminate|]. clear H1 H2. vm_compute. reflexivity.
Defined.

(** Fragmentation.  The first block starts at the odd page index 5, behind
    the bitmaps, so the halves of a split block are not each other's
    [get_buddy_addr] partners: after 2044 single pages were allocated from the
    kernel's fresh allocator and all freed again, all its memory is free but
    the seventh 8 MB block, which the fresh allocator had, cannot be had. *)
Theorem buddy_split_blocks_do_not_recombine :
  let fresh := kernel_buddy in
  let '(pages, a) := alloc_many 2044 0 fresh in
  let a' := foldl buddy_free a pages in
  buddy_get_free_memory a' = buddy_get_free_memory fresh /\
  forallb (fun p => negb (p =? 0)) (fst (alloc_many 7 BUDDY_MAX_ORDER fresh)) = true /\
  last (fst (alloc_many 7 BUDDY_MAX_ORDER a')) = Some 0.
Proof. vm_compute. split; [reflexivity|split; reflexivity]. Qed.

(** The test [(size & (size - 1)) == 0] in 64 bits: it accepts the powers of
    two, and zero. *)
Lemma land_pred_pow2 k : 0 <= k -> Z.land (2 ^ k) (2 ^ k - 1) = 0.
Proof.
  intros Hk. rewrite Z.sub_1_r, <- Z.ones_equiv, Z.land_ones by done. by apply Z.mod_same, Z.pow_nonzero.
Qed.

Lemma land_pred_not_pow2 n : 0 < n -> n <> 2 ^ Z.log2 n -> Z.testbit (Z.land n (n - 1)) (Z.log2 n) = true.
Proof.
  intros Hn Hne. pose proof (Z.log2_spec n Hn) as [H1 H2].
  rewrite Z.land_spec, Z.bit_log2 by done. replace (Z.log2 n) with (Z.log2 (n - 1)).
  - apply Z.bit_log2. pose proof (pow2_pos (Z.log2 n) (Z.log2_nonneg n)). lia.
  - apply Z.log2_unique; [apply Z.log2_nonneg|lia].
Qed.

Definition pow2_or_zero (size : Z) : Prop := size = 0 \/ exists k, 0 <= k /\ size = 2 ^ k.

Lemma size_test_spec size : 0 <= size < 2 ^ 64 ->
  Z.land size (u64 (size - 1)) = 0 <-> pow2_or_zero size.
Proof.
  intros Hs. unfold pow2_or_zero. destruct (decide (size = 0)) as [->|Hne]; [by split; [left|]|].
  rewrite u64_small by lia. split.
  - intros E. right. exists (Z.log2 size). split; [apply Z.log2_nonneg|].
    destruct (decide (size = 2 ^ Z.log2 size)) as [|Hp]; [done|].
    pose proof (land_pred_not_pow2 size ltac:(lia) Hp) as Ht. by rewrite E, Z.bits_0 in Ht.
  - intros [?|(k & Hk & ->)]; [done|by apply land_pred_pow2].
Qed.

Lemma region_ok_pow2 base k :
  12 <= k -> 0 <= base -> base mod PAGE_SIZE = 0 -> base + 2 ^ k <= 2 ^ 42 -> region_ok base (2 ^ k).
Proof.
  intros Hk Hb Ha Hf.
  assert (2 ^ k = 2 ^ (k - 12) * PAGE_SIZE) as E.
  { change PAGE_SIZE with (2 ^ 12). rewrite <- Z.pow_add_r by lia. f_equal. lia. }
  pose proof (pow2_pos (k - 12) ltac:(lia)) as Hp. split; try done.
  - rewrite E, Z.mod_mul by done. unfold PAGE_SIZE. lia.
  - apply land_pred_pow2. lia.
  - rewrite E, Z.div_mul by done. unfold bitmap_pages, alloc_bitmap_size, PAGE_SIZE in *. dlia.
Qed.

Lemma not_pow2_or_zero size :
  ~ pow2_or_zero size <-> size <> 0 /\ forall k, 0 <= k -> size <> 2 ^ k.
Proof. unfold pow2_or_zero. naive_solver. Qed.

(** The allocator [buddy_init] makes of a well-formed region. *)
Lemma buddy_init_fresh m base size :
  region_ok base size ->
  exists a fl, buddy_init m base size = (E_OK, Some a) /\ buddy_inv a fl [] /\
    (forall j, 0 <= j < size / PAGE_SIZE -> buddy_is_allocated a (base + j * PAGE_SIZE) = false) /\
    buddy_get_free_memory a = size - bitmap_pages (size / PAGE_SIZE) * PAGE_SIZE.
Proof.
  intros Hr. destruct (buddy_init_spec m base _ Hr) as (a & fl & E & Hinv & Eb & Et).
  exists a, fl. split_and!; try done.
  - intros j Hj. rewrite <- Eb. rewrite (is_allocated_spec _ _ _ _ Hinv) by lia. done.
  - rewrite (free_memory_spec _ _ _ Hinv). pose proof (total_bytes _ _ _ Hinv) as Hsum.
    change (blocks_bytes []) with 0 in Hsum. rewrite Et in Hsum. destruct Hr as [_ [? ?] _ _ Hbp].
    specialize (Hsum Hbp). unfold PAGE_SIZE in *. dlia.
Qed.

(** The result code of [buddy_init] as its two guards decide it. *)
Lemma buddy_init_code m base size : 0 <= size < 2 ^ 64 ->
  let aligned := base mod PAGE_SIZE = 0 /\ size mod PAGE_SIZE = 0 in
  (~ aligned /\ buddy_init m base size = (E_NOMEM, None)) \/
  (aligned /\ ~ pow2_or_zero size /\ buddy_init m base size = (E_INVALID, None)) \/
  (aligned /\ pow2_or_zero size /\ exists a, buddy_init m base size = (E_OK, Some a)).
Proof.
  intros Hs aligned. unfold aligned, buddy_init. rewrite <- (size_test_spec size Hs).
  pose proof (IS_PAGE_ALIGNED_spec base) as Hb. pose proof (IS_PAGE_ALIGNED_spec size) as Hz.
  destruct (IS_PAGE_ALIGNED base), (IS_PAGE_ALIGNED size); cbn [negb orb];
    [|left; split; [intuition congruence|done]..].
  right. destruct (Z.eqb_spec (Z.land size (u64 (size - 1))) 0) as [E|E]; cbn [negb].
  - right. split_and!; [by apply Hb|by apply Hz|done|]. destruct (fill_orders _ _ _ _) as [[a c] r]. by exists a.
  - left. split_and!; [by apply Hb|by apply Hz|done|done].
Qed.

(** C40. [buddy_init] over every 64-bit size.  It returns [E_NOMEM] exactly when
    the base or the size is not page aligned, [E_INVALID] exactly when both are
    aligned and the size is neither zero nor a power of two, and succeeds on
    the rest, so on a page-aligned power of two and also on the empty region of
    size 0, which the test [size & (size - 1)] lets through.  On a region of
    [2 ^ k] bytes, [k >= 12], that ends below 4 TB, it yields an allocator that
    satisfies the invariant with nothing live, reports every page unallocated
    and all memory behind the bitmaps as free, whatever the memory held. *)
Theorem buddy_init_correct (m : gmap Z buddy_block) (base size : Z) (Hs : 0 <= size < 2 ^ 64) :
  (fst (buddy_init m base size) = E_NOMEM <-> base mod PAGE_SIZE <> 0 \/ size mod PAGE_SIZE <> 0) /\
  (fst (buddy_init m base size) = E_INVALID <->
     base mod PAGE_SIZE = 0 /\ size mod PAGE_SIZE = 0 /\ size <> 0 /\
     forall k, 0 <= k -> size <> 2 ^ k) /\
  (fst (buddy_init m base size) = E_OK <->
     base mod PAGE_SIZE = 0 /\ size mod PAGE_SIZE = 0 /\ (size = 0 \/ exists k, 0 <= k /\ size = 2 ^ k)) /\
  (forall k, 12 <= k -> size = 2 ^ k -> 0 <= base -> base mod PAGE_SIZE = 0 -> base + size <= 2 ^ 42 ->
     exists a fl, buddy_init m base size = (E_OK, Some a) /\ buddy_inv a fl [] /\
       (forall j, 0 <= j < size / PAGE_SIZE -> buddy_is_allocated a (base + j * PAGE_SIZE) = false) /\
       buddy_get_free_memory a = size - bitmap_pages (size / PAGE_SIZE) * PAGE_SIZE).
Proof.
  pose proof (buddy_init_code m base size Hs) as Hc. cbv zeta in Hc. rewrite not_pow2_or_zero in Hc.
  fold (pow2_or_zero size). split_and!.
  - destruct Hc as [(Hn & ->)|[(Ha & Hp & ->)|(Ha & Hp & a & ->)]]; cbn [fst]; split; try done; try tauto.
    intros _. destruct (decide (base mod PAGE_SIZE = 0)); tauto.
  - destruct Hc as [(Hn & ->)|[(Ha & Hp & ->)|(Ha & Hp & a & ->)]]; cbn [fst]; split; try done; try tauto.
    intros (_ & _ & Hn). by apply not_pow2_or_zero in Hn.
  - destruct Hc as [(Hn & ->)|[(Ha & Hp & ->)|(Ha & Hp & a & ->)]]; cbn [fst]; split; try done; try tauto.
    intros (_ & _ & Hn). by apply not_pow2_or_zero in Hp.
  - intros k Hk -> Hb Ha Hf. by apply buddy_init_fresh, region_ok_pow2.
Qed.

Lemma buddy_init_correct_witness :
  fst (buddy_init ∅ KERNEL_BUDDY_BASE (3 * PAGE_SIZE)) = E_INVALID /\
  fst (buddy_init ∅ KERNEL_BUDDY_BASE 0) = E_OK /\
  exists a, buddy_init ∅ KERNEL_BUDDY_BASE KERNEL_BUDDY_SIZE = (E_OK, Some a) /\
    buddy_get_free_memory a = KERNEL_BUDDY_SIZE - 5 * PAGE_SIZE.
Proof.
  split; [vm_compute; reflexivity|]. split.
  - destruct (buddy_init_correct ∅ KERNEL_BUDDY_BASE 0 ltac:(lia)) as (_ & _ & [_ H] & _).
    apply H. split; [reflexivity|]. split; [reflexivity|]. left. reflexivity.
  - destruct (buddy_init_correct ∅ KERNEL_BUDDY_BASE KERNEL_BUDDY_SIZE
      ltac:(unfold KERNEL_BUDDY_SIZE; lia)) as (_ & _ & _ & H).
    destruct (H 26 ltac:(lia) eq_refl ltac:(unfold KERNEL_BUDDY_BASE; lia) eq_refl
      ltac:(unfold KERNEL_BUDDY_BASE, KERNEL_BUDDY_SIZE; lia)) as (a & fl & E & _ & _ & Hf).
    exists a. split; [exact E|]. rewrite Hf. reflexivity.
Defined.

(** What C1 leaves out does go wrong: after one two-page block at [p] is
    allocated from the kernel's fresh allocator, freeing its second page
    [p + 4096], which is not the start of any block the client holds, puts that
    page at the head of the order-1 list, and the next two-page allocation
    returns [p + 4096], inside the block at [p] that is still held. *)
Example buddy_free_interior_overlaps :
  let '(p, a) := buddy_alloc_order kernel_buddy 1 in
  let a' := buddy_free a (p + PAGE_SIZE) in
  p <> 0 /\ fst (buddy_alloc_order a' 1) = p + PAGE_SIZE.
Proof. vm_compute. split; [discriminate|reflexivity]. Qed.
