(* ===== verification/CString.v ===== *)
(** * C strings and memory blocks: libc/string.c, libc/stdlib.c

    Memory is a byte map; a pointer is an address.  Loops that run to the
    terminating zero take fuel and return [None] when it runs out: the theorems
    show that [length s + 1] steps are enough for a string [s], so the loops
    terminate on every terminated string.  [cstr m p s] says that the bytes of
    [s] followed by a zero lie at [p]. *)

From S2P Require Import Prelude.

Definition mem := gmap Z Z.

Fixpoint strlen (fuel : nat) (m : mem) (str len : Z) : option Z :=
  match fuel with
  | O => None
  | S fuel' => if rd m (str + len) =? 0 then Some len else strlen fuel' m str (len + 1)
  end.

Fixpoint strcmp (fuel : nat) (m : mem) (s1 s2 : Z) : option Z :=
  match fuel with
  | O => None
  | S fuel' =>
      if negb (rd m s1 =? 0) && (rd m s1 =? rd m s2) then strcmp fuel' m (s1 + 1) (s2 + 1)
      else Some (rd m s1 - rd m s2)
  end.

(** [n] bounds the loop, so no fuel is needed. *)
Fixpoint strncmp (m : mem) (s1 s2 : Z) (n : nat) : Z :=
  match n with
  | O => 0
  | S n' =>
      if negb (rd m s1 =? 0) && (rd m s1 =? rd m s2) then strncmp m (s1 + 1) (s2 + 1) n'
      else rd m s1 - rd m s2
  end.

Fixpoint strcpy (fuel : nat) (m : mem) (dest src : Z) : option mem :=
  match fuel with
  | O => None
  | S fuel' =>
      if rd m src =? 0 then Some (wr m dest 0)
      else strcpy fuel' (wr m dest (rd m src)) (dest + 1) (src + 1)
  end.

Fixpoint memset (m : mem) (s c : Z) (n : nat) : mem :=
  match n with
  | O => m
  | S n' => memset (wr m s (u8 c)) (s + 1) c n'
  end.

Fixpoint strncpy (m : mem) (dest src : Z) (n : nat) : mem :=
  match n with
  | O => m
  | S n' =>
      if rd m src =? 0 then memset m dest 0 n
      else strncpy (wr m dest (rd m src)) (dest + 1) (src + 1) n'
  end.

(** The end of [dest] is found first, then [src] is copied as by [strcpy]. *)
Definition strcat (fuel : nat) (m : mem) (dest src : Z) : option mem :=
  match strlen fuel m dest 0 with
  | None => None
  | Some len => strcpy fuel m (dest + len) src
  end.

Fixpoint memcpy (m : mem) (dest src : Z) (n : nat) : mem :=
  match n with
  | O => m
  | S n' => memcpy (wr m dest (rd m src)) (dest + 1) (src + 1) n'
  end.

(** ** uitoa and atoi *)

(** [temp[i++] = '0' + value % 10; value /= 10]: the digits, least significant
    first.  A 64-bit value has at most 20. *)
Fixpoint uitoa_digits (fuel : nat) (value : Z) : list Z :=
  match fuel with
  | O => []
  | S fuel' => if value =? 0 then [] else (48 + value mod 10) :: uitoa_digits fuel' (value / 10)
  end.

Definition UITOA_FUEL : nat := 20.

(** The bytes [uitoa] stores before the terminator. *)
Definition uitoa_chars (value : Z) : list Z :=
  if value =? 0 then [48] else reverse (uitoa_digits UITOA_FUEL value).

Fixpoint wr_list (m : mem) (p : Z) (l : list Z) : mem :=
  match l with
  | [] => m
  | b :: l' => wr_list (wr m p b) (p + 1) l'
  end.

Definition uitoa (m : mem) (value str : Z) : mem :=
  wr_list m str (uitoa_chars value ++ [0]).

Definition is_space (c : Z) : bool := (c =? 32) || ((9 <=? c) && (c <=? 13)).
Definition is_digit (c : Z) : bool := (48 <=? c) && (c <=? 57).

Fixpoint skip_space (fuel : nat) (m : mem) (str : Z) : option Z :=
  match fuel with
  | O => None
  | S fuel' => if is_space (rd m str) then skip_space fuel' m (str + 1) else Some str
  end.

(** [result] is an [int]; the flag is [found]. *)
Fixpoint atoi_loop (fuel : nat) (m : mem) (str result : Z) (found : bool) : option (Z * bool) :=
  match fuel with
  | O => None
  | S fuel' =>
      if is_digit (rd m str)
      then atoi_loop fuel' m (str + 1) (i32 (result * 10 + (rd m str - 48))) true
      else Some (result, found)
  end.

Definition atoi (fuel : nat) (m : mem) (str : Z) : option Z :=
  match skip_space fuel m str with
  | None => None
  | Some str =>
      let '(sign, str) :=
        if rd m str =? 45 then (-1, str + 1)
        else if rd m str =? 43 then (1, str + 1)
        else (1, str) in
      match atoi_loop fuel m str 0 false with
      | None => None
      | Some (result, found) => Some (if found then i32 (sign * result) else -1)
      end
  end.

(** ** Strings in memory *)

Definition char_ok (c : Z) : Prop := 0 < c < 256.

Fixpoint bytes_at (m : mem) (p : Z) (l : list Z) : Prop :=
  match l with
  | [] => True
  | b :: l' => rd m p = b /\ bytes_at m (p + 1) l'
  end.

Definition cstr (m : mem) (p : Z) (s : list Z) : Prop := Forall char_ok s /\ bytes_at m p (s ++ [0]).

(** Bytes outside [p .. p + n - 1] are the same. *)
Definition same_outside (m m' : mem) (p n : Z) : Prop :=
  forall q, ~ (p <= q < p + n) -> rd m' q = rd m q.

(** The list versions of the comparisons, what the memory versions compute. *)
Fixpoint str_diff (s1 s2 : list Z) : Z :=
  match s1, s2 with
  | [], [] => 0
  | [], c :: _ => - c
  | c :: _, [] => c
  | c1 :: t1, c2 :: t2 => if c1 =? c2 then str_diff t1 t2 else c1 - c2
  end.

Lemma bytes_at_app m p l1 l2 :
  bytes_at m p (l1 ++ l2) <-> bytes_at m p l1 /\ bytes_at m (p + Z.of_nat (length l1)) l2.
Proof.
  revert p. induction l1 as [|b l1 IH]; intros p; cbn [bytes_at app length].
  - rewrite Z.add_0_r. tauto.
  - rewrite IH. replace (p + 1 + Z.of_nat (length l1)) with (p + Z.of_nat (S (length l1))) by lia. tauto.
Qed.

Lemma bytes_at_ext m m' p l :
  (forall q, p <= q < p + Z.of_nat (length l) -> rd m' q = rd m q) -> bytes_at m p l -> bytes_at m' p l.
Proof.
  revert p. induction l as [|b l IH]; intros p Hext; [done|]. cbn [bytes_at length] in *.
  intros [H1 H2]. rewrite Hext by lia. split; [done|]. apply IH; [|done]. intros q Hq. apply Hext. lia.
Qed.

Lemma bytes_at_lookup m p l i b : bytes_at m p l -> l !! i = Some b -> rd m (p + Z.of_nat i) = b.
Proof.
  revert p i. induction l as [|c l IH]; intros p i Hb Hi; [done|]. destruct Hb as [Hc Hb].
  destruct i as [|i]; cbn in Hi; [injection Hi as <-; by rewrite Z.add_0_r|].
  rewrite <- (IH (p + 1) i Hb Hi). f_equal. lia.
Qed.

Lemma bytes_at_seqZ m p l : bytes_at m p l -> (fun i => rd m (p + i)) <$> seqZ 0 (Z.of_nat (length l)) = l.
Proof.
  intros Hb. apply list_eq. intros i. rewrite list_lookup_fmap. destruct (l !! i) as [b|] eqn:Ei.
  - pose proof (lookup_lt_Some _ _ _ Ei). rewrite lookup_seqZ_lt by lia. cbn. f_equal. by apply (bytes_at_lookup m p l).
  - apply lookup_ge_None in Ei. by rewrite lookup_seqZ_ge by lia.
Qed.

Lemma bytes_at_outside m m' p n q l :
  same_outside m m' p n -> (q + Z.of_nat (length l) <= p \/ p + n <= q) ->
  bytes_at m q l -> bytes_at m' q l.
Proof. intros Hs Hd. apply bytes_at_ext. intros r Hr. apply Hs. lia. Qed.

Lemma same_outside_wr m p v n k : 0 <= k < n -> same_outside m (wr m (p + k) v) p n.
Proof. intros Hk q Hq. apply rd_wr_ne. lia. Qed.

Lemma same_outside_trans m m' m'' p n :
  same_outside m m' p n -> same_outside m' m'' p n -> same_outside m m'' p n.
Proof. intros H1 H2 q Hq. rewrite H2, H1; done. Qed.

Lemma same_outside_sub m m' p n p' n' :
  same_outside m m' p' n' -> p <= p' -> p' + n' <= p + n -> same_outside m m' p n.
Proof. intros H H1 H2 q Hq. apply H. lia. Qed.

Lemma cstr_cons m p c s : cstr m p (c :: s) <-> char_ok c /\ rd m p = c /\ cstr m (p + 1) s.
Proof. unfold cstr. rewrite Forall_cons. cbn [app bytes_at]. tauto. Qed.

Lemma cstr_nil m p : cstr m p [] <-> rd m p = 0.
Proof. unfold cstr. cbn. intuition. Qed.

(** ** Reading loops *)

Lemma strlen_spec fuel m str len s :
  cstr m (str + len) s -> (length s < fuel)%nat -> strlen fuel m str len = Some (len + Z.of_nat (length s)).
Proof.
  revert fuel len. induction s as [|c s IH]; intros fuel len Hs Hf; (destruct fuel; [simpl in Hf; lia|]).
  - apply cstr_nil in Hs. cbn [strlen]. rewrite Hs. cbn. f_equal. lia.
  - apply cstr_cons in Hs as (Hc & Hr & Hs). cbn [strlen]. unfold char_ok in Hc.
    rewrite Hr, (proj2 (Z.eqb_neq c 0)) by lia. rewrite IH; [|by rewrite Z.add_assoc|simpl in Hf; lia].
    f_equal. cbn [length]. lia.
Qed.

Lemma strcmp_spec fuel m p1 p2 s1 s2 :
  cstr m p1 s1 -> cstr m p2 s2 -> (length s1 < fuel)%nat -> strcmp fuel m p1 p2 = Some (str_diff s1 s2).
Proof.
  revert fuel p1 p2 s2. induction s1 as [|c1 s1 IH]; intros fuel p1 p2 s2 H1 H2 Hf;
    (destruct fuel; [simpl in Hf; lia|]); cbn [strcmp].
  - apply cstr_nil in H1. rewrite H1. cbn. destruct s2 as [|c2 s2].
    + apply cstr_nil in H2. by rewrite H2.
    + apply cstr_cons in H2 as (_ & -> & _). done.
  - apply cstr_cons in H1 as (Hc1 & -> & H1). unfold char_ok in Hc1.
    rewrite (proj2 (Z.eqb_neq c1 0)) by lia. cbn [negb andb]. destruct s2 as [|c2 s2]; cbn [str_diff].
    + apply cstr_nil in H2. rewrite H2. rewrite (proj2 (Z.eqb_neq c1 0)) by lia. f_equal. lia.
    + apply cstr_cons in H2 as (Hc2 & -> & H2). destruct (Z.eqb_spec c1 c2); [|done].
      apply IH; [done|done|simpl in Hf; lia].
Qed.

Lemma strncmp_spec n m p1 p2 s1 s2 :
  cstr m p1 s1 -> cstr m p2 s2 -> strncmp m p1 p2 n = str_diff (take n s1) (take n s2).
Proof.
  revert p1 p2 s1 s2. induction n as [|n IH]; intros p1 p2 s1 s2 H1 H2; cbn [strncmp]; [done|].
  destruct s1 as [|c1 s1].
  - apply cstr_nil in H1. rewrite H1. cbn. destruct s2 as [|c2 s2].
    + apply cstr_nil in H2. by rewrite H2.
    + apply cstr_cons in H2 as (_ & -> & _). done.
  - apply cstr_cons in H1 as (Hc1 & -> & H1). unfold char_ok in Hc1.
    rewrite (proj2 (Z.eqb_neq c1 0)) by lia. cbn [negb andb]. destruct s2 as [|c2 s2]; cbn [take str_diff].
    + apply cstr_nil in H2. rewrite H2. rewrite (proj2 (Z.eqb_neq c1 0)) by lia. lia.
    + apply cstr_cons in H2 as (Hc2 & -> & H2). destruct (Z.eqb_spec c1 c2); [by apply IH|done].
Qed.

Lemma str_diff_0 s1 s2 : Forall char_ok s1 -> Forall char_ok s2 -> str_diff s1 s2 = 0 <-> s1 = s2.
Proof.
  revert s2. induction s1 as [|c1 s1 IH]; intros s2 H1 H2; destruct s2 as [|c2 s2]; cbn [str_diff].
  - done.
  - apply Forall_cons in H2 as [H2 _]. unfold char_ok in H2. split; [lia|done].
  - apply Forall_cons in H1 as [H1 _]. unfold char_ok in H1. split; [lia|done].
  - apply Forall_cons in H1 as [_ H1]. apply Forall_cons in H2 as [_ H2].
    destruct (Z.eqb_spec c1 c2) as [->|].
    + rewrite IH by done. split; [by intros ->|by intros [= ->]].
    + split; [lia|congruence].
Qed.

(** The sign of the result is the lexicographic order. *)
Fixpoint str_lt (s1 s2 : list Z) : Prop :=
  match s1, s2 with
  | _, [] => False
  | [], _ :: _ => True
  | c1 :: t1, c2 :: t2 => c1 < c2 \/ (c1 = c2 /\ str_lt t1 t2)
  end.

Lemma str_diff_lt s1 s2 : Forall char_ok s1 -> Forall char_ok s2 -> str_diff s1 s2 < 0 <-> str_lt s1 s2.
Proof.
  revert s2. induction s1 as [|c1 s1 IH]; intros s2 H1 H2; destruct s2 as [|c2 s2]; cbn [str_diff str_lt].
  - lia.
  - apply Forall_cons in H2 as [H2 _]. unfold char_ok in H2. split; [done|lia].
  - apply Forall_cons in H1 as [H1 _]. unfold char_ok in H1. lia.
  - apply Forall_cons in H1 as [_ H1]. apply Forall_cons in H2 as [_ H2].
    destruct (Z.eqb_spec c1 c2) as [->|].
    + rewrite IH by done. split; [by right|intros [?|[_ ?]]; [lia|done]].
    + split; [left; lia|intros [?|[? _]]; lia].
Qed.

(** ** Writing loops *)

Lemma memset_spec n m s c :
  bytes_at (memset m s c n) s (replicate n (u8 c)) /\ same_outside m (memset m s c n) s (Z.of_nat n).
Proof.
  revert m s. induction n as [|n IH]; intros m s; cbn [memset replicate]; [by split|].
  destruct (IH (wr m s (u8 c)) (s + 1)) as [H1 H2]. split.
  - cbn [bytes_at]. split; [|done]. rewrite H2 by lia. apply rd_wr_eq.
  - intros q Hq. rewrite H2 by lia. apply rd_wr_ne. lia.
Qed.

Lemma strcpy_spec fuel m dest src s :
  cstr m src s -> (length s < fuel)%nat ->
  (dest + Z.of_nat (length s) < src \/ src + Z.of_nat (length s) < dest) ->
  exists m', strcpy fuel m dest src = Some m' /\ cstr m' dest s /\
    same_outside m m' dest (Z.of_nat (length s) + 1).
Proof.
  revert fuel m dest src. induction s as [|c s IH]; intros fuel m dest src Hs Hf Hd;
    (destruct fuel; [simpl in Hf; lia|]); cbn [strcpy].
  - apply cstr_nil in Hs. rewrite Hs. cbn. eexists. split; [done|]. split; [apply cstr_nil, rd_wr_eq|].
    intros q Hq. apply rd_wr_ne. lia.
  - destruct (proj1 (cstr_cons _ _ _ _) Hs) as (Hc & Hr & Hs'). unfold char_ok in Hc.
    rewrite Hr, (proj2 (Z.eqb_neq c 0)) by lia. cbn [length] in *.
    destruct (IH fuel (wr m dest c) (dest + 1) (src + 1)) as (m' & E & H1 & H2).
    + destruct Hs' as [HF Hb]. split; [done|].
      eapply (bytes_at_outside m _ dest 1); [| |exact Hb].
      * intros q Hq. apply rd_wr_ne. lia.
      * rewrite length_app. cbn [length]. lia.
    + lia.
    + lia.
    + exists m'. split; [done|]. split.
      * apply cstr_cons. split; [done|]. split; [|done]. rewrite H2 by lia. apply rd_wr_eq.
      * intros q Hq. rewrite H2 by lia. apply rd_wr_ne. lia.
Qed.

Lemma strncpy_spec n m dest src s :
  cstr m src s ->
  (dest + Z.of_nat n <= src \/ src + Z.of_nat (length s) < dest) ->
  bytes_at (strncpy m dest src n) dest (take n s ++ replicate (n - length s) 0) /\
  same_outside m (strncpy m dest src n) dest (Z.of_nat n).
Proof.
  revert m dest src s. induction n as [|n IH]; intros m dest src s Hs Hd; cbn [strncpy]; [by split|].
  destruct s as [|c s].
  - apply cstr_nil in Hs. rewrite Hs. cbn [Z.eqb]. exact (memset_spec (S n) m dest 0).
  - destruct (proj1 (cstr_cons _ _ _ _) Hs) as (Hc & Hr & Hs'). unfold char_ok in Hc.
    rewrite Hr, (proj2 (Z.eqb_neq c 0)) by lia. cbn [length take app Nat.sub] in *.
    destruct (IH (wr m dest c) (dest + 1) (src + 1) s) as [H1 H2].
    + destruct Hs' as [HF Hb]. split; [done|].
      eapply (bytes_at_outside m _ dest 1); [| |exact Hb].
      * intros q Hq. apply rd_wr_ne. lia.
      * rewrite length_app. cbn [length]. lia.
    + lia.
    + split.
      * cbn [bytes_at]. split; [|done]. rewrite H2 by lia. apply rd_wr_eq.
      * intros q Hq. rewrite H2 by lia. apply rd_wr_ne. lia.
Qed.

Lemma memcpy_spec n m dest src l :
  bytes_at m src l -> length l = n ->
  (dest + Z.of_nat n <= src \/ src + Z.of_nat n <= dest) ->
  bytes_at (memcpy m dest src n) dest l /\ same_outside m (memcpy m dest src n) dest (Z.of_nat n).
Proof.
  revert m dest src l. induction n as [|n IH]; intros m dest src l Hl Hlen Hd; cbn [memcpy].
  { destruct l; [by split|done]. }
  destruct l as [|b l]; [done|]. cbn [length bytes_at] in *. destruct Hl as [-> Hl].
  destruct (IH (wr m dest b) (dest + 1) (src + 1) l) as [H1 H2]; [|lia|lia|].
  - eapply (bytes_at_outside m _ dest 1); [|lia|exact Hl]. intros q Hq. apply rd_wr_ne. lia.
  - split.
    + split; [|done]. rewrite H2 by lia. apply rd_wr_eq.
    + intros q Hq. rewrite H2 by lia. apply rd_wr_ne. lia.
Qed.

Lemma strcat_spec fuel m dest src d s :
  cstr m dest d -> cstr m src s -> (length d < fuel)%nat -> (length s < fuel)%nat ->
  (dest + Z.of_nat (length d) + Z.of_nat (length s) < src \/ src + Z.of_nat (length s) < dest) ->
  exists m', strcat fuel m dest src = Some m' /\ cstr m' dest (d ++ s) /\
    same_outside m m' (dest + Z.of_nat (length d)) (Z.of_nat (length s) + 1).
Proof.
  intros Hd Hs Hf1 Hf2 Hdis. unfold strcat.
  rewrite (strlen_spec fuel m dest 0 d) by (by rewrite ?Z.add_0_r). rewrite Z.add_0_l.
  destruct (strcpy_spec fuel m (dest + Z.of_nat (length d)) src s Hs Hf2) as (m' & E & [HF H1] & H2); [lia|].
  exists m'. split; [done|]. split; [|done]. destruct Hd as [HFd Hbd]. split; [by apply Forall_app|].
  rewrite <- (assoc_L (++)). apply bytes_at_app. split; [|done].
  apply bytes_at_app in Hbd as [Hbd _]. eapply bytes_at_outside; [exact H2| |exact Hbd]. lia.
Qed.

Lemma wr_list_spec m p l :
  bytes_at (wr_list m p l) p l /\ same_outside m (wr_list m p l) p (Z.of_nat (length l)).
Proof.
  revert m p. induction l as [|b l IH]; intros m p; cbn [wr_list length bytes_at]; [by split|].
  destruct (IH (wr m p b) (p + 1)) as [H1 H2]. split.
  - split; [|done]. rewrite H2 by lia. apply rd_wr_eq.
  - intros q Hq. rewrite H2 by lia. apply rd_wr_ne. lia.
Qed.

(** ** Decimal numbers *)

Definition dec_value (acc : Z) (l : list Z) : Z := foldl (fun a c => a * 10 + (c - 48)) acc l.

Lemma dec_value_app acc l1 l2 : dec_value acc (l1 ++ l2) = dec_value (dec_value acc l1) l2.
Proof. apply foldl_app. Qed.

Lemma dec_value_mono acc l :
  0 <= acc -> Forall (fun c => is_digit c = true) l -> acc <= dec_value acc l.
Proof.
  revert acc. induction l as [|c l IH]; intros acc Ha HF; [done|]. apply Forall_cons in HF as [Hc HF].
  unfold is_digit in Hc. apply andb_true_iff in Hc as [?%Z.leb_le ?%Z.leb_le].
  change (dec_value acc (c :: l)) with (dec_value (acc * 10 + (c - 48)) l).
  pose proof (IH (acc * 10 + (c - 48)) ltac:(lia) HF). lia.
Qed.

Lemma uitoa_digits_spec fuel v :
  0 <= v < 10 ^ Z.of_nat fuel ->
  Forall (fun c => is_digit c = true) (uitoa_digits fuel v) /\
  dec_value 0 (reverse (uitoa_digits fuel v)) = v /\ (v <> 0 -> uitoa_digits fuel v <> []).
Proof.
  revert v. induction fuel as [|fuel IH]; intros v Hv.
  { change (10 ^ Z.of_nat 0) with 1 in Hv. assert (v = 0) as -> by lia. done. }
  cbn [uitoa_digits]. destruct (Z.eqb_spec v 0) as [->|Hne]; [done|].
  rewrite Nat2Z.inj_succ, Z.pow_succ_r in Hv by lia.
  destruct (IH (v / 10)) as (H1 & H2 & _).
  { split; [dlia|]. apply Z.div_lt_upper_bound; lia. }
  split; [|split; [|done]].
  - constructor; [|done]. unfold is_digit. pose proof (Z.mod_pos_bound v 10). zdecide.
  - rewrite reverse_cons, dec_value_app, H2. unfold dec_value. cbn. dlia.
Qed.

Lemma uitoa_chars_spec v :
  0 <= v < 2 ^ 64 ->
  Forall (fun c => is_digit c = true) (uitoa_chars v) /\ dec_value 0 (uitoa_chars v) = v /\
  uitoa_chars v <> [].
Proof.
  change (2 ^ 64) with 18446744073709551616. intros Hv. unfold uitoa_chars.
  destruct (Z.eqb_spec v 0) as [->|Hne]; [split_and!; try done; by repeat constructor|].
  destruct (uitoa_digits_spec UITOA_FUEL v) as (H1 & H2 & H3).
  { change (10 ^ Z.of_nat UITOA_FUEL) with 100000000000000000000. lia. }
  split; [by apply Forall_reverse|]. split; [done|].
  intros E. apply (H3 Hne). rewrite <- (reverse_involutive (uitoa_digits _ _)), E. done.
Qed.

Lemma uitoa_digits_length fuel v : (length (uitoa_digits fuel v) <= fuel)%nat.
Proof. revert v. induction fuel as [|fuel IH]; intros v; cbn; [lia|]. case_match; cbn; [lia|]. specialize (IH (v / 10)). lia. Qed.

Lemma uitoa_chars_length v : (length (uitoa_chars v) <= 20)%nat.
Proof.
  unfold uitoa_chars. case_match; [cbn; lia|]. rewrite length_reverse. apply uitoa_digits_length.
Qed.

Lemma digit_char c : is_digit c = true -> 48 <= c <= 57.
Proof. unfold is_digit. intros [?%Z.leb_le ?%Z.leb_le]%andb_true_iff. lia. Qed.

Lemma atoi_loop_spec fuel m str ds acc found :
  bytes_at m str ds -> Forall (fun c => is_digit c = true) ds ->
  is_digit (rd m (str + Z.of_nat (length ds))) = false ->
  (length ds < fuel)%nat -> 0 <= acc -> dec_value acc ds < 2 ^ 31 ->
  atoi_loop fuel m str acc found = Some (dec_value acc ds, match ds with [] => found | _ => true end).
Proof.
  change (2 ^ 31) with 2147483648.
  revert fuel str acc found. induction ds as [|c ds IH]; intros fuel str acc found Hb HF Hend Hf Ha Hv;
    (destruct fuel; [simpl in Hf; lia|]); cbn [atoi_loop].
  - cbn in Hend. rewrite Z.add_0_r in Hend. by rewrite Hend.
  - cbn [bytes_at] in Hb. destruct Hb as [-> Hb]. apply Forall_cons in HF as [Hc HF]. rewrite Hc.
    pose proof (digit_char _ Hc). change (dec_value acc (c :: ds)) with (dec_value (acc * 10 + (c - 48)) ds) in *.
    pose proof (dec_value_mono (acc * 10 + (c - 48)) ds ltac:(lia) HF).
    rewrite i32_small by lia. cbn [length] in *. rewrite IH; [|done|done| |lia|lia|done].
    + destruct ds; done.
    + by replace (str + 1 + Z.of_nat (length ds)) with (str + Z.of_nat (S (length ds))) by lia.
Qed.

Lemma skip_space_spec fuel m str ws :
  bytes_at m str ws -> Forall (fun c => is_space c = true) ws ->
  is_space (rd m (str + Z.of_nat (length ws))) = false -> (length ws < fuel)%nat ->
  skip_space fuel m str = Some (str + Z.of_nat (length ws)).
Proof.
  revert fuel str. induction ws as [|c ws IH]; intros fuel str Hb HF Hend Hf;
    (destruct fuel; [simpl in Hf; lia|]); cbn [skip_space].
  - cbn in *. rewrite Z.add_0_r in *. by rewrite Hend.
  - cbn [bytes_at length] in *. destruct Hb as [-> Hb]. apply Forall_cons in HF as [-> HF].
    replace (str + Z.of_nat (S (length ws))) with (str + 1 + Z.of_nat (length ws)) in * by lia.
    apply IH; [done|done|done|lia].
Qed.

(** A number as [atoi] reads it: white space, an optional sign, digits, then
    anything that is not a digit. *)
Lemma atoi_spec fuel m str ws (sg : list Z) ds t :
  bytes_at m str (ws ++ sg ++ ds ++ [t]) ->
  Forall (fun c => is_space c = true) ws -> sg = [] \/ sg = [45] \/ sg = [43] ->
  Forall (fun c => is_digit c = true) ds -> ds <> [] -> is_digit t = false ->
  dec_value 0 ds < 2 ^ 31 -> (length ws < fuel)%nat -> (length ds < fuel)%nat ->
  atoi fuel m str = Some (if decide (sg = [45]) then - dec_value 0 ds else dec_value 0 ds).
Proof.
  intros Hb Hws Hsg Hds Hne Ht Hv Hf1 Hf2. unfold atoi.
  apply bytes_at_app in Hb as [Hbw Hb]. apply bytes_at_app in Hb as [Hbs Hb].
  apply bytes_at_app in Hb as [Hbd [Hbt _]]. set (p := str + Z.of_nat (length ws)) in *.
  assert (is_digit (hd 0 ds) = true /\ rd m (p + Z.of_nat (length sg)) = hd 0 ds) as [Hhd Hrd].
  { destruct ds as [|d ds]; [done|]. apply Forall_cons in Hds as [? _]. by destruct Hbd. }
  pose proof (digit_char _ Hhd) as Hd. pose proof (dec_value_mono 0 ds ltac:(lia) Hds) as Hpos.
  change (2 ^ 31) with 2147483648 in Hv.
  assert (forall q, q = p + Z.of_nat (length sg) -> atoi_loop fuel m q 0 false = Some (dec_value 0 ds, true)) as Hl.
  { intros q ->. rewrite (atoi_loop_spec _ _ _ ds); [by destruct ds|done|done|by rewrite Hbt|done|lia|done]. }
  rewrite (skip_space_spec fuel m str ws); [|done|done| |done].
  2: { fold p. destruct Hsg as [->|[->| ->]].
       - cbn in Hrd. rewrite Z.add_0_r in Hrd. rewrite Hrd. unfold is_space. zdecide.
       - by destruct Hbs as [-> _].
       - by destruct Hbs as [-> _]. }
  fold p. destruct Hsg as [->|[->| ->]].
  - cbn in Hrd. rewrite Z.add_0_r in Hrd. rewrite Hrd, !(proj2 (Z.eqb_neq (hd 0 ds) _)) by lia.
    rewrite Hl by (cbn; lia). rewrite i32_small by lia. case_decide; f_equal; congruence || lia.
  - destruct Hbs as [-> _]. cbn [Z.eqb Pos.eqb]. rewrite Hl by (cbn; lia). rewrite i32_small by lia. case_decide; f_equal; congruence || lia.
  - destruct Hbs as [-> _]. cbn [Z.eqb Pos.eqb]. rewrite Hl by (cbn; lia). rewrite i32_small by lia. case_decide; f_equal; congruence || lia.
Qed.

(** ** Theorems *)

(** The comparison functions decide equality and order of strings: on
    terminated strings [strcmp] terminates, returns 0 exactly on equal strings
    and a negative number exactly when the first is lexicographically smaller;
    [strncmp] does the same on the first [n] characters. *)
Theorem strcmp_correct (m : mem) (p1 p2 : Z) (s1 s2 : list Z) (n : nat)
    (H1 : cstr m p1 s1) (H2 : cstr m p2 s2) :
  (exists r, (forall fuel, (length s1 < fuel)%nat -> strcmp fuel m p1 p2 = Some r) /\
     (r = 0 <-> s1 = s2) /\ (r < 0 <-> str_lt s1 s2)) /\
  (strncmp m p1 p2 n = 0 <-> take n s1 = take n s2) /\
  (strncmp m p1 p2 n < 0 <-> str_lt (take n s1) (take n s2)).
Proof.
  destruct (H1) as [F1 _], (H2) as [F2 _]. split.
  - exists (str_diff s1 s2). split; [intros; by apply strcmp_spec|].
    split; [by apply str_diff_0|by apply str_diff_lt].
  - rewrite (strncmp_spec n m p1 p2 s1 s2) by done.
    split; [apply str_diff_0|apply str_diff_lt]; by apply Forall_take.
Qed.

(** The strings "cd" at 16 and "cat" at 32. *)
Definition demo_mem : mem := wr_list (wr_list ∅ 16 [99; 100; 0]) 32 [99; 97; 116; 0].
Lemma demo_cd : cstr demo_mem 16 [99; 100].
Proof. split; [repeat constructor|vm_compute; repeat split]. Qed.
Lemma demo_cat : cstr demo_mem 32 [99; 97; 116].
Proof. split; [repeat constructor|vm_compute; repeat split]. Qed.

Lemma strcmp_correct_witness : strncmp demo_mem 16 32 1 = 0 /\ strcmp 8 demo_mem 16 32 = Some 3.
Proof.
  destruct (strcmp_correct demo_mem 16 32 _ _ 1 demo_cd demo_cat) as [_ [H _]].
  split; [apply H; reflexivity|reflexivity].
Defined.

(** The copying functions: on non-overlapping buffers [strcpy] and [strcat]
    terminate and leave the copied, respectively concatenated, string at the
    destination; [strncpy] fills exactly [n] bytes, padding with zeros and
    leaving the copy unterminated when the source is longer; nothing outside
    the destination changes. *)
Theorem string_copy_correct (m : mem) (dest src : Z) (d s : list Z) (n fuel : nat)
    (Hd : cstr m dest d) (Hs : cstr m src s) (Hf : (length d + length s < fuel)%nat)
    (Hsep : dest + Z.of_nat (length d) + Z.of_nat (length s) + Z.of_nat n < src) :
  (exists m', strcpy fuel m dest src = Some m' /\
     cstr m' dest s /\ same_outside m m' dest (Z.of_nat (length s) + 1)) /\
  (exists m', strcat fuel m dest src = Some m' /\
     cstr m' dest (d ++ s) /\ same_outside m m' (dest + Z.of_nat (length d)) (Z.of_nat (length s) + 1)) /\
  bytes_at (strncpy m dest src n) dest (take n s ++ replicate (n - length s) 0) /\
  same_outside m (strncpy m dest src n) dest (Z.of_nat n).
Proof.
  split; [|split].
  - apply strcpy_spec; [done|lia|lia].
  - apply strcat_spec; [done|done|lia..].
  - apply strncpy_spec; [done|lia].
Qed.

Lemma string_copy_correct_witness :
  exists m', strcat 16 demo_mem 16 32 = Some m' /\ cstr m' 16 [99; 100; 99; 97; 116].
Proof.
  destruct (string_copy_correct demo_mem 16 32 _ _ 4 16 demo_cd demo_cat) as (_ & (m' & H1 & H2 & _) & _);
    [simpl; lia|simpl; lia|].
  exists m'. split; [exact H1|exact H2].
Defined.

(** Printing and parsing numbers are inverse: after [uitoa(v, str)] the
    buffer holds a terminated string of at most 20 digits, and [atoi] reads [v]
    back, for every [v] that an [int] can hold. *)
Theorem atoi_uitoa_roundtrip (m : mem) (v str : Z) (fuel : nat)
    (Hv : 0 <= v < 2 ^ 31) (Hf : (20 < fuel)%nat) :
  cstr (uitoa m v str) str (uitoa_chars v) /\ (length (uitoa_chars v) <= 20)%nat /\
  atoi fuel (uitoa m v str) str = Some v.
Proof.
  destruct (uitoa_chars_spec v) as (H1 & H2 & H3).
  { change (2 ^ 31) with 2147483648 in Hv. change (2 ^ 64) with 18446744073709551616. lia. }
  pose proof (uitoa_chars_length v) as Hlen.
  destruct (wr_list_spec m str (uitoa_chars v ++ [0])) as [Hb _].
  split; [|split; [done|]].
  - split; [|done]. eapply Forall_impl; [exact H1|]. intros c Hc. apply digit_char in Hc. unfold char_ok. lia.
  - rewrite (atoi_spec fuel _ _ [] [] (uitoa_chars v) 0); [by rewrite H2|done|done|by left|done|done|done|lia|cbn; lia|lia].
Qed.

Lemma atoi_uitoa_roundtrip_witness : atoi 21 (uitoa ∅ 40960 100) 100 = Some 40960.
Proof. apply (atoi_uitoa_roundtrip ∅ 40960 100 21); lia. Defined.
