(* ===== verification/Slab.v ===== *)
(** * Slab allocator: mm/allocators/slab.h, mm/allocators/slab.c (definitions)

    The slab allocator is written against [PageAllocator], the part of the
    buddy allocator it calls.  Slabs, caches and the [next] words of free
    objects are kept in typed stores keyed by virtual address; the first two
    words of a slab, its list pointers, are the same memory as the header the
    page allocator keeps in a free block, so they are read and written through
    [pa_words].  0 is the null pointer.  Constructor and destructor calls are
    recorded in [calls]; console and serial output is not modelled. *)

From S2P Require Import Prelude MemLayout Errno Buddy.

(** ** The interface to the page allocator *)

Class PageAllocator (B : Type) := {
  pa_alloc_order : B -> Z -> Z * B;
  pa_free : B -> Z -> B;
  pa_words : B -> Z -> Z * Z;
  pa_set_words : B -> Z -> Z * Z -> B;
}.

(** [buddy_alloc]: the order is computed from the size. *)
Definition pa_alloc {B} `{PageAllocator B} (b : B) (size : Z) : Z * B :=
  pa_alloc_order b (buddy_get_order_for_size size).

(** ** Data *)

Inductive slab_state := SLAB_EMPTY | SLAB_PARTIAL | SLAB_FULL.
#[export] Instance slab_state_eq_dec : EqDecision slab_state.
Proof. solve_decision. Defined.

Record slab := mkSlab {
  sl_cache : Z;
  sl_objects : Z;
  sl_free_list : Z;
  sl_num_objects : Z;
  sl_free_objects : Z;
  sl_state : slab_state;
}.

Record slab_cache := mkCache {
  c_name : list Z;
  object_size : Z;
  aligned_size : Z;
  objects_per_slab : Z;
  slab_order : Z;
  slabs_full : Z;
  slabs_partial : Z;
  slabs_empty : Z;
  num_allocations : Z;
  num_frees : Z;
  num_slabs : Z;
  num_active_objects : Z;
  c_ctor : Z;
  c_dtor : Z;
}.

Definition SLAB_NAME_MAX : nat := 32.
Definition SLAB_MAX_CACHES : Z := 32.
Definition SLAB_ALIGN : Z := 8.
Definition sizeof_slab_t : Z := 56.
Definition sizeof_slab_cache_t : Z := 128.

Definition null_slab : slab := mkSlab 0 0 0 0 0 SLAB_EMPTY.
Definition null_cache : slab_cache := mkCache [] 0 0 0 0 0 0 0 0 0 0 0 0 0.

(** Setters of the fields the code assigns. *)
Definition set_state (v : slab_state) (x : slab) : slab :=
  mkSlab (sl_cache x) (sl_objects x) (sl_free_list x) (sl_num_objects x) (sl_free_objects x) v.
Definition set_free (p n : Z) (x : slab) : slab :=
  mkSlab (sl_cache x) (sl_objects x) p (sl_num_objects x) n (sl_state x).
Definition set_lists (f p e : Z) (c : slab_cache) : slab_cache :=
  mkCache (c_name c) (object_size c) (aligned_size c) (objects_per_slab c) (slab_order c) f p e
    (num_allocations c) (num_frees c) (num_slabs c) (num_active_objects c) (c_ctor c) (c_dtor c).
Definition set_counts (a f s o : Z) (c : slab_cache) : slab_cache :=
  mkCache (c_name c) (object_size c) (aligned_size c) (objects_per_slab c) (slab_order c)
    (slabs_full c) (slabs_partial c) (slabs_empty c) a f s o (c_ctor c) (c_dtor c).

(** The list head a state selects. *)
Definition get_head (st : slab_state) (c : slab_cache) : Z :=
  match st with
  | SLAB_EMPTY => slabs_empty c
  | SLAB_PARTIAL => slabs_partial c
  | SLAB_FULL => slabs_full c
  end.
Definition set_head (st : slab_state) (v : Z) (c : slab_cache) : slab_cache :=
  match st with
  | SLAB_EMPTY => set_lists (slabs_full c) (slabs_partial c) v c
  | SLAB_PARTIAL => set_lists (slabs_full c) v (slabs_empty c) c
  | SLAB_FULL => set_lists v (slabs_partial c) (slabs_empty c) c
  end.

Record slab_sys (B : Type) := mkSys {
  sy_pages : option B;
  sy_slabs : gmap Z slab;
  sy_caches : gmap Z slab_cache;
  sy_objs : gmap Z Z;
  cache_registry : list Z;
  num_caches : Z;
  kmalloc_caches : list Z;
  calls : list (Z * Z);
}.
Arguments mkSys {B}.
Arguments sy_pages {B}. Arguments sy_slabs {B}. Arguments sy_caches {B}. Arguments sy_objs {B}.
Arguments cache_registry {B}. Arguments num_caches {B}. Arguments kmalloc_caches {B}. Arguments calls {B}.

(** ** Sizes *)

(** [(size + align - 1) & ~(align - 1)] *)
Definition align_size (size align : Z) : Z :=
  Z.land (u64 (size + align - 1)) (u64 (Z.lnot (align - 1))).

Definition calculate_slab_order (size : Z) : Z :=
  let min_slab_size := u64 (size * 8) in
  match find_range 0 4 (fun order => min_slab_size <=? BUDDY_SIZE_FOR_ORDER order) with
  | Some order => order
  | None => 2
  end.

Section slab.
Context {B : Type} `{PageAllocator B}.

Definition with_pages (s : slab_sys B) (b : option B) : slab_sys B :=
  mkSys b (sy_slabs s) (sy_caches s) (sy_objs s) (cache_registry s) (num_caches s) (kmalloc_caches s) (calls s).
Definition with_slabs (s : slab_sys B) (m : gmap Z slab) : slab_sys B :=
  mkSys (sy_pages s) m (sy_caches s) (sy_objs s) (cache_registry s) (num_caches s) (kmalloc_caches s) (calls s).
Definition with_caches (s : slab_sys B) (m : gmap Z slab_cache) : slab_sys B :=
  mkSys (sy_pages s) (sy_slabs s) m (sy_objs s) (cache_registry s) (num_caches s) (kmalloc_caches s) (calls s).
Definition with_objs (s : slab_sys B) (m : gmap Z Z) : slab_sys B :=
  mkSys (sy_pages s) (sy_slabs s) (sy_caches s) m (cache_registry s) (num_caches s) (kmalloc_caches s) (calls s).
Definition with_registry (s : slab_sys B) (r : list Z) (n : Z) : slab_sys B :=
  mkSys (sy_pages s) (sy_slabs s) (sy_caches s) (sy_objs s) r n (kmalloc_caches s) (calls s).
Definition with_kcaches (s : slab_sys B) (l : list Z) : slab_sys B :=
  mkSys (sy_pages s) (sy_slabs s) (sy_caches s) (sy_objs s) (cache_registry s) (num_caches s) l (calls s).
Definition log_call (s : slab_sys B) (fn obj : Z) : slab_sys B :=
  mkSys (sy_pages s) (sy_slabs s) (sy_caches s) (sy_objs s) (cache_registry s) (num_caches s)
    (kmalloc_caches s) (calls s ++ [(fn, obj)]).

Definition slab_at (s : slab_sys B) (p : Z) : slab := default null_slab (sy_slabs s !! p).
Definition cache_at (s : slab_sys B) (p : Z) : slab_cache := default null_cache (sy_caches s !! p).
Definition upd_slab (s : slab_sys B) (p : Z) (f : slab -> slab) : slab_sys B :=
  with_slabs s (<[p := f (slab_at s p)]> (sy_slabs s)).
Definition upd_cache (s : slab_sys B) (p : Z) (f : slab_cache -> slab_cache) : slab_sys B :=
  with_caches s (<[p := f (cache_at s p)]> (sy_caches s)).

(** [slab->next] and [slab->prev]. *)
Definition words (s : slab_sys B) (p : Z) : Z * Z :=
  match sy_pages s with Some b => pa_words b p | None => (0, 0) end.
Definition slab_next (s : slab_sys B) (p : Z) : Z := fst (words s p).
Definition slab_prev (s : slab_sys B) (p : Z) : Z := snd (words s p).
Definition set_words (s : slab_sys B) (p : Z) (w : Z * Z) : slab_sys B :=
  with_pages s (match sy_pages s with Some b => Some (pa_set_words b p w) | None => None end).
Definition set_slab_next (s : slab_sys B) (p v : Z) : slab_sys B := set_words s p (v, slab_prev s p).
Definition set_slab_prev (s : slab_sys B) (p v : Z) : slab_sys B := set_words s p (slab_next s p, v).

(** ** Slab lists *)

Definition remove_slab_from_list (s : slab_sys B) (p : Z) : slab_sys B :=
  let s :=
    if slab_prev s p =? 0
    then upd_cache s (sl_cache (slab_at s p)) (set_head (sl_state (slab_at s p)) (slab_next s p))
    else set_slab_next s (slab_prev s p) (slab_next s p) in
  let s :=
    if slab_next s p =? 0 then s else set_slab_prev s (slab_next s p) (slab_prev s p) in
  let s := set_slab_next s p 0 in
  set_slab_prev s p 0.

Definition add_slab_to_list (s : slab_sys B) (cache p : Z) : slab_sys B :=
  let st := sl_state (slab_at s p) in
  let s := set_slab_next s p (get_head st (cache_at s cache)) in
  let s := set_slab_prev s p 0 in
  let head := get_head st (cache_at s cache) in
  let s := if head =? 0 then s else set_slab_prev s head p in
  upd_cache s cache (set_head st p).

(** ** Slabs *)

(** The loop that threads the free list through the objects. *)
Fixpoint build_free_list (n : nat) (aligned obj : Z) (objs : gmap Z Z) (free_list : Z) : gmap Z Z * Z :=
  match n with
  | O => (objs, free_list)
  | S n' => build_free_list n' aligned (u64 (obj + aligned)) (<[obj := free_list]> objs) obj
  end.

Definition allocate_slab (s : slab_sys B) (cache : Z) : Z * slab_sys B :=
  match sy_pages s with
  | None => (0, s)
  | Some b =>
      let '(phys_addr, b) := pa_alloc_order b (slab_order (cache_at s cache)) in
      let s := with_pages s (Some b) in
      if phys_addr =? 0 then (0, s)
      else
        let slab_mem := PHYS_TO_VIRT phys_addr in
        let s := set_slab_next s slab_mem 0 in
        let s := set_slab_prev s slab_mem 0 in
        let c := cache_at s cache in
        let header_size := align_size sizeof_slab_t SLAB_ALIGN in
        let objects := u64 (slab_mem + header_size) in
        let '(objs, free_list) :=
          build_free_list (Z.to_nat (objects_per_slab c)) (aligned_size c) objects (sy_objs s) 0 in
        let s := with_objs s objs in
        let s := upd_slab s slab_mem (fun _ =>
          mkSlab cache objects free_list (objects_per_slab c) (objects_per_slab c) SLAB_EMPTY) in
        let s := upd_cache s cache (fun c =>
          set_counts (num_allocations c) (num_frees c) (u64 (num_slabs c + 1)) (num_active_objects c) c) in
        (slab_mem, s)
  end.

(** Destructor calls on all objects of a slab. *)
Fixpoint run_dtors (n : nat) (fn aligned obj : Z) (s : slab_sys B) : slab_sys B :=
  match n with
  | O => s
  | S n' => run_dtors n' fn aligned (u64 (obj + aligned)) (log_call s fn obj)
  end.

Definition free_slab (s : slab_sys B) (p : Z) : slab_sys B :=
  match sy_pages s with
  | None => s
  | Some _ =>
      let cache := sl_cache (slab_at s p) in
      let c := cache_at s cache in
      let s :=
        if c_dtor c =? 0 then s
        else run_dtors (Z.to_nat (objects_per_slab c)) (c_dtor c) (aligned_size c) (sl_objects (slab_at s p)) s in
      let phys_addr := VIRT_TO_PHYS p in
      let s := with_pages s (match sy_pages s with Some b => Some (pa_free b phys_addr) | None => None end) in
      upd_cache s cache (fun c =>
        set_counts (num_allocations c) (num_frees c) (u64 (num_slabs c - 1)) (num_active_objects c) c)
  end.

(** ** Caches *)

Definition slab_cache_create (s : slab_sys B) (name : list Z) (size ctor dtor : Z) : Z * slab_sys B :=
  if (size =? 0) || (SLAB_MAX_CACHES <=? num_caches s) then (0, s)
  else
    match sy_pages s with
    | None => (0, s)
    | Some b =>
        let '(cache_phys, b) := pa_alloc b sizeof_slab_cache_t in
        let s := with_pages s (Some b) in
        if cache_phys =? 0 then (0, s)
        else
          let cache := PHYS_TO_VIRT cache_phys in
          let aligned := align_size size SLAB_ALIGN in
          let order := calculate_slab_order aligned in
          let slab_size := BUDDY_SIZE_FOR_ORDER order in
          let header_size := align_size sizeof_slab_t SLAB_ALIGN in
          let usable_size := u64 (slab_size - header_size) in
          let per_slab := u32 (usable_size / aligned) in
          let s := upd_cache s cache (fun _ =>
            mkCache (take (SLAB_NAME_MAX - 1) name) size aligned per_slab order 0 0 0 0 0 0 0 ctor dtor) in
          let s := with_registry s (updz (cache_registry s) (num_caches s) cache) (num_caches s + 1) in
          (cache, s)
    end.

(** [while (cache->slabs_X) { remove; free; }]; [None] when the fuel runs out. *)
Fixpoint drain_list (fuel : nat) (st : slab_state) (s : slab_sys B) (cache freed : Z)
  : option (Z * slab_sys B) :=
  match fuel with
  | O => None
  | S fuel' =>
      let p := get_head st (cache_at s cache) in
      if p =? 0 then Some (freed, s)
      else drain_list fuel' st (free_slab (remove_slab_from_list s p) p) cache (u32 (freed + 1))
  end.

(** The registry scan of [slab_cache_destroy]: drop the first entry equal to [cache]. *)
Fixpoint registry_remove (reg : list Z) (n : nat) (cache : Z) : list Z * bool :=
  match n, reg with
  | S n', x :: reg' =>
      if x =? cache
      then (take n' reg' ++ 0 :: drop n' reg', true)
      else let '(r, found) := registry_remove reg' n' cache in (x :: r, found)
  | _, _ => (reg, false)
  end.

Definition slab_cache_destroy (fuel : nat) (s : slab_sys B) (cache : Z) : option (slab_sys B) :=
  if cache =? 0 then Some s
  else
    match drain_list fuel SLAB_FULL s cache 0 with
    | None => None
    | Some (_, s) =>
        match drain_list fuel SLAB_PARTIAL s cache 0 with
        | None => None
        | Some (_, s) =>
            match drain_list fuel SLAB_EMPTY s cache 0 with
            | None => None
            | Some (_, s) =>
                let '(reg, found) :=
                  registry_remove (cache_registry s) (Z.to_nat (num_caches s)) cache in
                let s := with_registry s reg (if found then num_caches s - 1 else num_caches s) in
                Some (with_pages s (match sy_pages s with
                                    | Some b => Some (pa_free b (VIRT_TO_PHYS cache))
                                    | None => None end))
            end
        end
    end.

Definition slab_cache_shrink (fuel : nat) (s : slab_sys B) (cache : Z) : option (Z * slab_sys B) :=
  if cache =? 0 then Some (0, s) else drain_list fuel SLAB_EMPTY s cache 0.

(** ** Objects *)

(** Move the slab to the list of its new state. *)
Definition restate (s : slab_sys B) (cache p : Z) (old st : slab_state) : slab_sys B :=
  let s := upd_slab s p (set_state st) in
  if decide (old = st) then s
  else add_slab_to_list (remove_slab_from_list s p) cache p.

Definition slab_alloc (s : slab_sys B) (cache : Z) : Z * slab_sys B :=
  if cache =? 0 then (0, s)
  else
    let c := cache_at s cache in
    let '(p, s) :=
      if negb (slabs_partial c =? 0) then (slabs_partial c, s)
      else if negb (slabs_empty c =? 0) then (slabs_empty c, s)
      else
        let '(p, s) := allocate_slab s cache in
        if p =? 0 then (0, s) else (p, add_slab_to_list s cache p) in
    if p =? 0 then (0, s)
    else
      let obj := sl_free_list (slab_at s p) in
      if obj =? 0 then (0, s)
      else
        let s := upd_slab s p (fun x =>
          set_free (rd (sy_objs s) obj) (u32 (sl_free_objects x - 1)) x) in
        let old := sl_state (slab_at s p) in
        let st := if sl_free_objects (slab_at s p) =? 0 then SLAB_FULL else SLAB_PARTIAL in
        let s := restate s cache p old st in
        let s := if c_ctor (cache_at s cache) =? 0 then s else log_call s (c_ctor (cache_at s cache)) obj in
        let s := upd_cache s cache (fun c =>
          set_counts (u64 (num_allocations c + 1)) (num_frees c) (num_slabs c)
            (u64 (num_active_objects c + 1)) c) in
        (obj, s).

(** Does the slab at [p] hold [obj]?  [cache->objects_per_slab * cache->aligned_size]
    is computed in 64 bits. *)
Definition holds (s : slab_sys B) (cache p obj : Z) : bool :=
  let c := cache_at s cache in
  let slab_start := sl_objects (slab_at s p) in
  let slab_end := u64 (slab_start + u64 (objects_per_slab c * aligned_size c)) in
  (slab_start <=? obj) && (obj <? slab_end).

(** The [while (current)] search of one list; a list has at most as many
    nodes as there are slabs. *)
Fixpoint walk (fuel : nat) (s : slab_sys B) (cache p obj : Z) : Z :=
  match fuel with
  | O => 0
  | S fuel' =>
      if p =? 0 then 0
      else if holds s cache p obj then p
      else walk fuel' s cache (slab_next s p) obj
  end.

Definition walk_fuel (s : slab_sys B) : nat := S (size (sy_slabs s)).

(** The lists are searched in the order full, partial, empty. *)
Definition find_slab (s : slab_sys B) (cache obj : Z) : Z :=
  let c := cache_at s cache in
  let p := walk (walk_fuel s) s cache (slabs_full c) obj in
  if negb (p =? 0) then p
  else
    let p := walk (walk_fuel s) s cache (slabs_partial c) obj in
    if negb (p =? 0) then p
    else walk (walk_fuel s) s cache (slabs_empty c) obj.

Definition slab_free (s : slab_sys B) (cache obj : Z) : slab_sys B :=
  if (cache =? 0) || (obj =? 0) then s
  else
    let p := find_slab s cache obj in
    if p =? 0 then s
    else
      let s := with_objs s (wr (sy_objs s) obj (sl_free_list (slab_at s p))) in
      let s := upd_slab s p (fun x => set_free obj (u32 (sl_free_objects x + 1)) x) in
      let old := sl_state (slab_at s p) in
      let st :=
        if sl_free_objects (slab_at s p) =? sl_num_objects (slab_at s p)
        then SLAB_EMPTY else SLAB_PARTIAL in
      let s := restate s cache p old st in
      upd_cache s cache (fun c =>
        set_counts (num_allocations c) (u64 (num_frees c + 1)) (num_slabs c)
          (u64 (num_active_objects c - 1)) c).

(** ** The kmalloc caches *)

Definition kmalloc_sizes : list (string * Z) :=
  [("kmalloc-32"%string, 32); ("kmalloc-64"%string, 64); ("kmalloc-128"%string, 128);
   ("kmalloc-256"%string, 256); ("kmalloc-512"%string, 512); ("kmalloc-1024"%string, 1024);
   ("kmalloc-2048"%string, 2048); ("kmalloc-4096"%string, 4096)].

Definition slab_init (s : slab_sys B) : kerr_t * slab_sys B :=
  let s := with_registry s (replicate 32 0) 0 in
  let '(l, s) :=
    foldl (fun '(l, s) '(name, sz) =>
             let '(c, s) := slab_cache_create s (str name) sz 0 0 in (l ++ [c], s))
      ([], s) kmalloc_sizes in
  let s := with_kcaches s l in
  if existsb (Z.eqb 0) l then (E_NOMEM, s) else (E_OK, s).

(** Index of the cache [slab_kmalloc] picks for a size. *)
Definition size_class (size : Z) : option nat :=
  if size <=? 32 then Some 0%nat
  else if size <=? 64 then Some 1%nat
  else if size <=? 128 then Some 2%nat
  else if size <=? 256 then Some 3%nat
  else if size <=? 512 then Some 4%nat
  else if size <=? 1024 then Some 5%nat
  else if size <=? 2048 then Some 6%nat
  else if size <=? 4096 then Some 7%nat
  else None.

Definition kcache (s : slab_sys B) (i : nat) : Z := default 0 (kmalloc_caches s !! i).

Definition slab_kmalloc (s : slab_sys B) (size : Z) : Z * slab_sys B :=
  if size =? 0 then (0, s)
  else
    match size_class size with
    | Some i => slab_alloc s (kcache s i)
    | None =>
        match sy_pages s with
        | None => (0, s)
        | Some b =>
            let '(phys, b) := pa_alloc b size in
            let s := with_pages s (Some b) in
            if phys =? 0 then (0, s) else (PHYS_TO_VIRT phys, s)
        end
    end.

(** The first of the eight caches that holds [obj]. *)
Fixpoint find_cache (l : list Z) (s : slab_sys B) (obj : Z) : option Z :=
  match l with
  | [] => None
  | c :: l' =>
      if c =? 0 then find_cache l' s obj
      else if find_slab s c obj =? 0 then find_cache l' s obj
      else Some c
  end.

Definition slab_kfree (s : slab_sys B) (obj : Z) : slab_sys B :=
  if obj =? 0 then s
  else
    match find_cache (kmalloc_caches s) s obj with
    | Some c => slab_free s c obj
    | None =>
        with_pages s (match sy_pages s with
                      | Some b => Some (pa_free b (VIRT_TO_PHYS obj))
                      | None => None end)
    end.
End slab.
