(* ===== verification/SlabInv.v ===== *)
(** * Slab allocator: laws of the page allocator, invariant and lemmas

    [PageAllocatorLaws] is what the slab allocator needs of the allocator below
    it; [SlabThms.v] shows that the buddy allocator provides it.  [cache_inv]
    is the invariant of one cache under [slab_alloc] and [slab_free]. *)

From S2P Require Import Prelude MemLayout Errno Buddy Slab.

(** [pa_inv b live]: the page allocator is in a good state and the blocks
    [live] (physical address, order) are handed out. *)
Class PageAllocatorLaws (B : Type) `{PageAllocator B} (pa_inv : B -> list (Z * Z) -> Prop) := {
  pa_alloc_law b live o : pa_inv b live -> 0 <= o ->
    let '(addr, b') := pa_alloc_order b o in
    (addr = 0 /\ b' = b) \/
    (0 < addr /\ addr mod PAGE_SIZE = 0 /\ addr + BUDDY_SIZE_FOR_ORDER o <= 2 ^ 42 /\
     pa_inv b' ((addr, o) :: live) /\
     Forall (fun '(q, o') => addr + BUDDY_SIZE_FOR_ORDER o <= q \/ q + BUDDY_SIZE_FOR_ORDER o' <= addr) live);
  pa_free_law b l1 addr o l2 :
    pa_inv b (l1 ++ (addr, o) :: l2) -> pa_inv (pa_free b addr) (l1 ++ l2);
  pa_set_words_law b live addr o w :
    pa_inv b live -> (addr, o) ∈ live -> pa_inv (pa_set_words b (PHYS_TO_VIRT addr) w) live;
  pa_words_set b p w : pa_words (pa_set_words b p w) p = w;
}.

(** ** Object addresses and free lists *)

Definition obj_addrs (start aligned : Z) (n : nat) : list Z :=
  (fun i => start + i * aligned) <$> seqZ 0 (Z.of_nat n).

(** The [next] words thread the list [F] from [p]. *)
Fixpoint ochain (m : gmap Z Z) (p : Z) (F : list Z) : Prop :=
  match F with
  | [] => p = 0
  | q :: F' => p = q /\ q <> 0 /\ ochain m (rd m q) F'
  end.

Lemma ochain_insert m p F q v : q ∉ F -> ochain m p F -> ochain (<[q := v]> m) p F.
Proof.
  revert p. induction F as [|x F IH]; intros p Hq; [done|]. apply not_elem_of_cons in Hq as [Hne Hq].
  intros (-> & H0 & Hc). split; [done|]. split; [done|].
  unfold rd. rewrite lookup_insert_ne by done. by apply IH.
Qed.

Lemma ochain_nil_iff m p F : ochain m p F -> p = 0 <-> F = [].
Proof. destruct F as [|q F]; [done|]. intros (-> & H0 & _). split; [done|discriminate]. Qed.

Lemma obj_addrs_S start aligned n :
  obj_addrs start aligned (S n) = start :: obj_addrs (start + aligned) aligned n.
Proof.
  unfold obj_addrs. rewrite seqZ_cons by lia. cbn [fmap list_fmap]. f_equal; [lia|].
  replace (Z.pred (Z.of_nat (S n))) with (Z.of_nat n) by lia. change (Z.succ 0) with (1 + 0).
  rewrite <- fmap_add_seqZ. rewrite <- list_fmap_compose. apply list_fmap_ext. intros i x _. cbn. lia.
Qed.

Lemma elem_of_obj_addrs q start aligned n :
  q ∈ obj_addrs start aligned n <-> exists i, 0 <= i < Z.of_nat n /\ q = start + i * aligned.
Proof.
  unfold obj_addrs. rewrite list_elem_of_fmap. split.
  - intros (i & -> & Hi). apply elem_of_seqZ in Hi. exists i. split; [lia|done].
  - intros (i & Hi & ->). exists i. split; [done|]. apply elem_of_seqZ. lia.
Qed.

Lemma NoDup_obj_addrs start aligned n : 0 < aligned -> NoDup (obj_addrs start aligned n).
Proof. intros Ha. apply NoDup_fmap_2; [|apply NoDup_seqZ]. intros i j. nia. Qed.

Lemma length_obj_addrs start aligned n : length (obj_addrs start aligned n) = n.
Proof. unfold obj_addrs. rewrite length_fmap, length_seqZ. lia. Qed.

Lemma build_free_list_spec n aligned obj m fl F :
  0 < obj -> 0 < aligned -> obj + Z.of_nat n * aligned < 2 ^ 64 ->
  ochain m fl F -> (forall q, q ∈ F -> q < obj) ->
  let '(m', fl') := build_free_list n aligned obj m fl in
  exists F', ochain m' fl' F' /\ F' ≡ₚ obj_addrs obj aligned n ++ F.
Proof.
  change (2 ^ 64) with 18446744073709551616.
  revert obj m fl F. induction n as [|n IH]; intros obj m fl F Hobj Ha Hb Hc Hlt; cbn [build_free_list].
  { exists F. by split. }
  rewrite u64_small by lia.
  specialize (IH (obj + aligned) (<[obj := fl]> m) obj (obj :: F) ltac:(lia) Ha ltac:(lia)).
  assert (ochain (<[obj := fl]> m) obj (obj :: F)) as Hc'.
  { split; [done|]. split; [lia|]. unfold rd. rewrite lookup_insert_eq. cbn.
    apply ochain_insert; [|done]. intros Hin. specialize (Hlt _ Hin). lia. }
  specialize (IH Hc'). destruct (build_free_list n aligned (obj + aligned) _ _) as [m' fl'].
  destruct IH as (F' & H1 & H2).
  { intros q Hq. apply elem_of_cons in Hq as [->|Hq]; [lia|]. specialize (Hlt _ Hq). lia. }
  exists F'. split; [done|]. rewrite H2, obj_addrs_S. by rewrite <- Permutation_middle.
Qed.

(** ** Views: what the code sees of one cache and one slab *)

Section views.
Context {B : Type} `{HL : PageAllocatorLaws B pa_inv}.

(** The cache at [cache] is [c], the slab at [p] is [x] and is alone in its
    list; its pages are the live block [phys]. *)
Record view (s : slab_sys B) (cache : Z) (c : slab_cache) (p : Z) (x : slab) (blocks : list (Z * Z)) : Prop := {
  v_cache : cache_at s cache = c;
  v_slab : slab_at s p = x;
  v_words : words s p = (0, 0);
  v_pages : exists b, sy_pages s = Some b /\ pa_inv b blocks;
  v_block : exists phys, p = PHYS_TO_VIRT phys /\ (phys, slab_order c) ∈ blocks;
}.

(** What the list operations leave alone. *)
Definition same_rest (s s' : slab_sys B) : Prop :=
  sy_objs s' = sy_objs s /\ cache_registry s' = cache_registry s /\ num_caches s' = num_caches s /\
  kmalloc_caches s' = kmalloc_caches s /\ calls s' = calls s.

Lemma cache_at_upd (s : slab_sys B) k f : cache_at (upd_cache s k f) k = f (cache_at s k).
Proof. unfold cache_at, upd_cache, with_caches. cbn. by rewrite lookup_insert_eq. Qed.

Lemma slab_at_upd (s : slab_sys B) k f : slab_at (upd_slab s k f) k = f (slab_at s k).
Proof. unfold slab_at, upd_slab, with_slabs. cbn. by rewrite lookup_insert_eq. Qed.

Lemma view_upd_cache s cache c p x bl f :
  view s cache c p x bl -> slab_order (f c) = slab_order c ->
  view (upd_cache s cache f) cache (f c) p x bl.
Proof.
  intros [Hc Hs Hw Hp Hb] Ho. split; [|done|done|done|by rewrite Ho].
  rewrite cache_at_upd. by f_equal.
Qed.

Lemma view_upd_slab s cache c p x bl f :
  view s cache c p x bl -> view (upd_slab s p f) cache c p (f x) bl.
Proof.
  intros [Hc Hs Hw Hp Hb]. split; try done. rewrite slab_at_upd. by f_equal.
Qed.

Lemma view_set_words (s : slab_sys B) cache c p x bl :
  cache_at s cache = c -> slab_at s p = x -> (exists b, sy_pages s = Some b /\ pa_inv b bl) ->
  (exists phys, p = PHYS_TO_VIRT phys /\ (phys, slab_order c) ∈ bl) ->
  forall w, words (set_words s p w) p = w /\ cache_at (set_words s p w) cache = c /\
    slab_at (set_words s p w) p = x /\
    (exists b, sy_pages (set_words s p w) = Some b /\ pa_inv b bl) /\ same_rest s (set_words s p w).
Proof.
  intros Hc Hs (b & Hb & Hinv) (phys & -> & Hin) w. unfold set_words. rewrite Hb. split_and!; try done.
  - unfold words. cbn. apply pa_words_set.
  - eexists. split; [done|]. by eapply pa_set_words_law.
Qed.

(** Writing the null pointers that are there already. *)
Lemma view_set_next0 s cache c p x bl :
  view s cache c p x bl -> view (set_slab_next s p 0) cache c p x bl /\ same_rest s (set_slab_next s p 0).
Proof.
  intros [Hc Hs Hw Hp Hb]. unfold set_slab_next, slab_prev. rewrite Hw. cbn [snd].
  destruct (view_set_words s cache c p x bl Hc Hs Hp Hb (0, 0)) as (H1 & H2 & H3 & H4 & H5). by split.
Qed.

Lemma view_set_prev0 s cache c p x bl :
  view s cache c p x bl -> view (set_slab_prev s p 0) cache c p x bl /\ same_rest s (set_slab_prev s p 0).
Proof.
  intros [Hc Hs Hw Hp Hb]. unfold set_slab_prev, slab_next. rewrite Hw. cbn [fst].
  destruct (view_set_words s cache c p x bl Hc Hs Hp Hb (0, 0)) as (H1 & H2 & H3 & H4 & H5). by split.
Qed.

Lemma same_rest_trans s1 s2 s3 : same_rest s1 s2 -> same_rest s2 s3 -> same_rest s1 s3.
Proof. intros (?&?&?&?&?) (?&?&?&?&?). unfold same_rest. split_and!; congruence. Qed.

(** [remove_slab_from_list] runs after the state was changed: it clears the
    head of the list of the new state. *)
Lemma view_remove s cache c p x bl :
  view s cache c p x bl -> sl_cache x = cache ->
  view (remove_slab_from_list s p) cache (set_head (sl_state x) 0 c) p x bl /\
  same_rest s (remove_slab_from_list s p).
Proof.
  intros Hv Hx. destruct (Hv) as [Hc Hs Hw Hp Hb]. unfold remove_slab_from_list.
  assert (slab_prev s p = 0) as -> by (unfold slab_prev; by rewrite Hw).
  assert (slab_next s p = 0) as -> by (unfold slab_next; by rewrite Hw).
  cbn [Z.eqb]. rewrite Hs, Hx. set (s1 := upd_cache _ _ _).
  assert (view s1 cache (set_head (sl_state x) 0 c) p x bl) as Hv1.
  { apply view_upd_cache; [done|]. by destruct (sl_state x). }
  assert (slab_next s1 p = 0) as -> by (unfold slab_next; by rewrite (v_words _ _ _ _ _ _ Hv1)).
  cbn [Z.eqb]. destruct (view_set_next0 _ _ _ _ _ _ Hv1) as [Hv2 R2].
  destruct (view_set_prev0 _ _ _ _ _ _ Hv2) as [Hv3 R3]. split; [done|]. by eapply same_rest_trans.
Qed.

Lemma view_add s cache c p x bl :
  view s cache c p x bl -> get_head (sl_state x) c = 0 ->
  view (add_slab_to_list s cache p) cache (set_head (sl_state x) p c) p x bl /\
  same_rest s (add_slab_to_list s cache p).
Proof.
  intros Hv Hh. unfold add_slab_to_list. rewrite (v_slab _ _ _ _ _ _ Hv), (v_cache _ _ _ _ _ _ Hv), Hh.
  destruct (view_set_next0 _ _ _ _ _ _ Hv) as [Hv2 R2].
  destruct (view_set_prev0 _ _ _ _ _ _ Hv2) as [Hv3 R3].
  rewrite (v_cache _ _ _ _ _ _ Hv3), Hh. cbn [Z.eqb]. split.
  - apply view_upd_cache; [done|]. by destruct (sl_state x).
  - by eapply same_rest_trans.
Qed.

Lemma view_restate s cache c p x bl st :
  view s cache c p x bl -> sl_cache x = cache -> get_head (sl_state x) c = p ->
  exists c', view (restate s cache p (sl_state x) st) cache c' p (set_state st x) bl /\
    same_rest s (restate s cache p (sl_state x) st) /\
    get_head st c' = p /\ (forall st', st' <> st -> get_head st' c' = get_head st' c) /\
    c' = set_lists (slabs_full c') (slabs_partial c') (slabs_empty c') c.
Proof.
  intros Hv Hx Hh. unfold restate. pose proof (view_upd_slab _ _ _ _ _ _ (set_state st) Hv) as Hv1.
  case_decide as E.
  - exists c. subst st. split_and!; try done. by destruct c.
  - destruct (view_remove _ _ _ _ _ _ Hv1) as [Hv2 R2]; [done|]. cbn [sl_state set_state] in *.
    destruct (view_add _ _ _ _ _ _ Hv2) as [Hv3 R3]; [by destruct st|]. cbn [sl_state set_state] in *.
    eexists. split; [exact Hv3|]. split; [by eapply same_rest_trans|].
    destruct st; split_and!; try done; by intros [].
Qed.
End views.

(** ** Geometry of a cache *)

Lemma align_size_spec size :
  0 <= size <= 2 ^ 62 ->
  align_size size SLAB_ALIGN mod 8 = 0 /\ size <= align_size size SLAB_ALIGN < size + 8.
Proof.
  change (2 ^ 62) with 4611686018427387904. intros Hs. unfold align_size, SLAB_ALIGN.
  rewrite (u64_small (size + 8 - 1)) by lia. change (u64 (Z.lnot (8 - 1))) with (Z.land (Z.lnot 7) (Z.ones 64)).
  rewrite Z.land_assoc, <- Z.ldiff_land. change 7 with (Z.ones 3).
  rewrite Z.ldiff_ones_r, Z.shiftr_div_pow2, Z.shiftl_mul_pow2 by lia. change (2 ^ 3) with 8.
  rewrite Z.land_ones by lia. change (2 ^ 64) with 18446744073709551616.
  assert (size <= (size + 8 - 1) / 8 * 8 < size + 8) as Hr by dlia.
  rewrite (Z.mod_small (_ * 8)) by lia. rewrite Z.mod_mul by lia. by split.
Qed.

Record geom_ok (c : slab_cache) : Prop := {
  g_size : 0 < object_size c <= aligned_size c;
  g_align : aligned_size c mod 8 = 0;
  g_per : 0 <= objects_per_slab c < 2 ^ 32;
  g_order : 0 <= slab_order c <= 3;
  g_fit : sizeof_slab_t + objects_per_slab c * aligned_size c <= BUDDY_SIZE_FOR_ORDER (slab_order c);
}.

Lemma calculate_slab_order_range size : 0 <= calculate_slab_order size <= 3.
Proof.
  unfold calculate_slab_order. destruct (find_range _ _ _) eqn:E; [|lia].
  apply find_range_Some in E as (E & _). lia.
Qed.

Lemma BUDDY_SIZE_small o : 0 <= o <= 3 -> 4096 <= BUDDY_SIZE_FOR_ORDER o <= 32768.
Proof.
  intros Ho. assert (o = 0 \/ o = 1 \/ o = 2 \/ o = 3) as [->|[->|[->| ->]]] by lia;
    vm_compute; intuition discriminate.
Qed.

(** The fields of a cache that never change. *)
Definition same_geom (c c' : slab_cache) : Prop :=
  object_size c' = object_size c /\ aligned_size c' = aligned_size c /\
  objects_per_slab c' = objects_per_slab c /\ slab_order c' = slab_order c.

Lemma geom_ok_same c c' : same_geom c c' -> geom_ok c -> geom_ok c'.
Proof. intros (E1 & E2 & E3 & E4) []. split; congruence. Qed.

Section invariant.
Context {B : Type} `{HL : PageAllocatorLaws B pa_inv}.

Record slab_inv (s : slab_sys B) (cache : Z) (c : slab_cache) (live : list Z) (p : Z) (x : slab)
    (F : list Z) (bl : list (Z * Z)) : Prop := {
  si_view : view (pa_inv := pa_inv) s cache c p x bl;
  si_owner : sl_cache x = cache;
  si_objects : sl_objects x = p + sizeof_slab_t;
  si_num : sl_num_objects x = objects_per_slab c;
  si_chain : ochain (sy_objs s) (sl_free_list x) F;
  si_parts : F ++ live ≡ₚ obj_addrs (p + sizeof_slab_t) (aligned_size c) (Z.to_nat (objects_per_slab c));
  si_free : sl_free_objects x = Z.of_nat (length F);
  si_state : sl_state x = match live, F with [], _ => SLAB_EMPTY | _, [] => SLAB_FULL | _, _ => SLAB_PARTIAL end;
  si_listed : get_head (sl_state x) c = p;
  si_heads : forall st, get_head st c = 0 \/ get_head st c = p;
  si_empty : slabs_empty c = p;
  si_addr : VIRT_PHYS_MAP_BASE < p /\ p mod 8 = 0 /\ p + BUDDY_SIZE_FOR_ORDER (slab_order c) <= VIRT_PHYS_MAP_BASE + 2 ^ 42;
}.

(** The invariant of a cache: its geometry, and either no slab yet or the one
    slab that all its objects come from. *)
Inductive cache_inv (s : slab_sys B) (cache : Z) (live : list Z) : Prop :=
  | ci_fresh c b bl :
      cache <> 0 -> cache_at s cache = c -> geom_ok c -> num_active_objects c = 0 ->
      slabs_full c = 0 -> slabs_partial c = 0 -> slabs_empty c = 0 ->
      sy_pages s = Some b -> pa_inv b bl -> live = [] -> cache_inv s cache live
  | ci_slab c p x F bl :
      cache <> 0 -> geom_ok c -> num_active_objects c = Z.of_nat (length live) ->
      slab_inv s cache c live p x F bl -> cache_inv s cache live.

Lemma slab_addr_bounds s cache c live p x F bl :
  slab_inv s cache c live p x F bl -> geom_ok c ->
  forall q, q ∈ F ++ live -> p < q /\ q + aligned_size c <= p + BUDDY_SIZE_FOR_ORDER (slab_order c) /\ q mod 8 = 0.
Proof.
  intros Hi [G1 G2 G3 G4 G5] q Hq. rewrite (si_parts _ _ _ _ _ _ _ _ Hi) in Hq.
  apply elem_of_obj_addrs in Hq as (i & Hi' & ->). pose proof (si_addr _ _ _ _ _ _ _ _ Hi) as (_ & Hm & _).
  unfold sizeof_slab_t in *. split; [nia|]. split; [nia|].
  rewrite <- Z.add_assoc, Z.add_mod, Hm, Z.add_0_l, Z.mod_mod by lia.
  rewrite Z.add_mod, Z.mul_mod, G2, Z.mul_0_r by lia. done.
Qed.

Lemma objs_nodup s cache c live p x F bl :
  slab_inv s cache c live p x F bl -> geom_ok c -> NoDup (F ++ live).
Proof.
  intros Hi G. rewrite (si_parts _ _ _ _ _ _ _ _ Hi). apply NoDup_obj_addrs. destruct G. lia.
Qed.

Lemma length_parts s cache c live p x F bl :
  slab_inv s cache c live p x F bl -> geom_ok c ->
  Z.of_nat (length F) + Z.of_nat (length live) = objects_per_slab c.
Proof.
  intros Hi G. pose proof (Permutation_length (si_parts _ _ _ _ _ _ _ _ Hi)) as E.
  rewrite length_app, length_obj_addrs in E. destruct G. lia.
Qed.

(** After the selection at the start of [slab_alloc] the slab is known. *)
Lemma allocate_slab_spec s cache c b bl :
  cache <> 0 -> cache_at s cache = c -> geom_ok c ->
  slabs_full c = 0 -> slabs_partial c = 0 -> slabs_empty c = 0 ->
  sy_pages s = Some b -> pa_inv b bl ->
  let '(p, s1) := allocate_slab s cache in
  (p = 0 /\ s1 = s) \/
  (p <> 0 /\ let s2 := add_slab_to_list s1 cache p in
   exists c' x F, slab_inv s2 cache c' [] p x F ((VIRT_TO_PHYS p, slab_order c) :: bl) /\
     slabs_partial c' = 0 /\ slabs_empty c' = p /\
     geom_ok c' /\ num_active_objects c' = num_active_objects c /\
     num_allocations c' = num_allocations c /\ c_ctor c' = c_ctor c /\
     same_geom c c').
Proof.
  intros Hc0 Hc G Hf Hpa He Hb Hinv. unfold allocate_slab. rewrite Hb, Hc.
  pose proof (pa_alloc_law b bl (slab_order c) Hinv ltac:(apply G)) as Hal.
  destruct (pa_alloc_order b (slab_order c)) as [phys b1].
  destruct Hal as [[-> ->]|(Hpos & Hmod & Hfit & Hinv1 & _)].
  { left. split; [done|]. destruct s; cbn in *. by subst. }
  rewrite (proj2 (Z.eqb_neq phys 0)) by lia. destruct (G) as [G1 G2 G3 G4 G5].
  pose proof (BUDDY_SIZE_small _ G4) as Hbs. change (2 ^ 42) with 4398046511104 in Hfit.
  assert (PHYS_TO_VIRT phys = phys + VIRT_PHYS_MAP_BASE) as Ev
    by (apply PHYS_TO_VIRT_eq; change (2 ^ 47) with 140737488355328; lia).
  set (p := PHYS_TO_VIRT phys) in *. set (s0 := with_pages s (Some b1)).
  assert (exists ph, p = PHYS_TO_VIRT ph /\ (ph, slab_order c) ∈ (phys, slab_order c) :: bl) as Hblk
    by (exists phys; split; [done|apply list_elem_of_here]).
  unfold set_slab_next at 1.
  destruct (view_set_words s0 cache c p (slab_at s p) ((phys, slab_order c) :: bl)) with (w := (0, slab_prev s0 p))
    as (W1 & W2 & W3 & W4 & W5); [done|done|by exists b1|done|].
  unfold set_slab_next. set (sa := set_words s0 p (0, slab_prev s0 p)) in *.
  unfold set_slab_prev, slab_next. rewrite W1. cbn [fst].
  destruct (view_set_words sa cache c p (slab_at s p) ((phys, slab_order c) :: bl) W2 W3 W4 Hblk (0, 0))
    as (X1 & X2 & X3 & X4 & X5). set (sb := set_words sa p (0, 0)) in *. rewrite X2.
  change (align_size sizeof_slab_t SLAB_ALIGN) with 56.
  assert (VIRT_PHYS_MAP_BASE = 18446603336221196288) as EM by reflexivity.
  rewrite (u64_small (p + 56)) by lia.
  pose proof (build_free_list_spec (Z.to_nat (objects_per_slab c)) (aligned_size c) (p + 56) (sy_objs sb) 0 []) as Hbf.
  destruct (build_free_list _ _ _ _ _) as [objs fl]. right. split; [lia|].
  destruct Hbf as (F & Hch & HF); [lia|lia| |done|set_solver|].
  { change (2 ^ 64) with 18446744073709551616. unfold sizeof_slab_t in *. lia. }
  rewrite app_nil_r in HF. cbv zeta.
  set (x := mkSlab cache (p + 56) fl (objects_per_slab c) (objects_per_slab c) SLAB_EMPTY).
  set (s1 := upd_cache _ _ _).
  set (c1 := set_counts (num_allocations c) (num_frees c) (u64 (num_slabs c + 1)) (num_active_objects c) c).
  assert (view (pa_inv := pa_inv) s1 cache c1 p x ((phys, slab_order c) :: bl)) as Hv.
  { unfold s1. apply (view_upd_cache _ _ c); [|done]. split; [exact X2| |exact X1|exact X4|exact Hblk].
    unfold x. by rewrite slab_at_upd. }
  destruct (view_add _ _ _ _ _ _ Hv) as [Hv2 R2]; [done|]. cbn [sl_state x set_head] in Hv2.
  assert (VIRT_TO_PHYS p = phys) as EP
    by (apply VIRT_PHYS_inv; change (2 ^ 47) with 140737488355328; lia).
  rewrite EP. exists (set_lists (slabs_full c1) (slabs_partial c1) p c1), x, F. split.
  2: { split; [exact Hpa|]. split; [reflexivity|]. split; [by destruct G; split|]. done. }
  split.
  - exact Hv2.
  - done.
  - done.
  - done.
  - destruct R2 as (-> & _). exact Hch.
  - rewrite app_nil_r. exact HF.
  - cbn. apply Permutation_length in HF. rewrite HF, length_obj_addrs. lia.
  - done.
  - done.
  - intros []; cbn; auto.
  - done.
  - split; [lia|]. split; [|change (2 ^ 42) with 4398046511104; cbn; lia].
    rewrite Ev. unfold PAGE_SIZE in Hmod. rewrite EM. dlia.
Qed.

(** ** Allocation of an object *)

Definition select_slab (s : slab_sys B) (cache : Z) : Z * slab_sys B :=
  let c := cache_at s cache in
  if negb (slabs_partial c =? 0) then (slabs_partial c, s)
  else if negb (slabs_empty c =? 0) then (slabs_empty c, s)
  else
    let '(p, s) := allocate_slab s cache in
    if p =? 0 then (0, s) else (p, add_slab_to_list s cache p).

Definition take_object (s : slab_sys B) (cache p : Z) : Z * slab_sys B :=
  let obj := sl_free_list (slab_at s p) in
  if obj =? 0 then (0, s)
  else
    let s := upd_slab s p (fun x =>
      set_free (rd (sy_objs s) obj) (u32 (sl_free_objects x - 1)) x) in
    let old := sl_state (slab_at s p) in
    let st := if sl_free_objects (slab_at s p) =? 0 then SLAB_FULL else SLAB_PARTIAL in
    let s := restate s cache p old st in
    let s := if c_ctor (cache_at s cache) =? 0 then s else log_call s (c_ctor (cache_at s cache)) obj in
    let s := upd_cache s cache (fun c =>
      set_counts (u64 (num_allocations c + 1)) (num_frees c) (num_slabs c)
        (u64 (num_active_objects c + 1)) c) in
    (obj, s).

Lemma slab_alloc_eq s cache :
  slab_alloc s cache =
  if cache =? 0 then (0, s)
  else let '(p, s) := select_slab s cache in if p =? 0 then (0, s) else take_object s cache p.
Proof. reflexivity. Qed.

Lemma view_cache_at s cache c p x bl : view (pa_inv := pa_inv) s cache c p x bl -> cache_at s cache = c.
Proof. by intros []. Qed.

(** Updating counters after the slab was moved to the list of its new state. *)
Lemma slab_inv_restated s cache c live p x F bl st live' F' x' f s1 :
  slab_inv s cache c live p x F bl ->
  (* the slab after its free list was changed *)
  view (pa_inv := pa_inv) s1 cache c p x' bl -> sl_cache x' = cache -> sl_objects x' = sl_objects x ->
  sl_num_objects x' = sl_num_objects x -> sl_state x' = sl_state x ->
  ochain (sy_objs s1) (sl_free_list x') F' -> F' ++ live' ≡ₚ F ++ live ->
  sl_free_objects x' = Z.of_nat (length F') ->
  st = match live', F' with [], _ => SLAB_EMPTY | _, [] => SLAB_FULL | _, _ => SLAB_PARTIAL end ->
  (forall c0, same_geom c0 (f c0) /\ (forall st', get_head st' (f c0) = get_head st' c0)) ->
  forall s2, s2 = restate s1 cache p (sl_state x') st ->
  forall s3, (sy_objs s3 = sy_objs s2 /\ sy_slabs s3 = sy_slabs s2 /\ sy_pages s3 = sy_pages s2 /\
              sy_caches s3 = sy_caches s2) ->
  exists c', slab_inv (upd_cache s3 cache f) cache (f c') live' p (set_state st x') F' bl /\
    c' = set_lists (slabs_full c') (slabs_partial c') (slabs_empty c') c.
Proof.
  intros Hi Hv1 Hx' Ho Hn Hst Hch Hperm Hlen Hst' Hf s2 -> s3 (R1 & R2 & R3 & R4).
  destruct (view_restate s1 cache c p x' bl st Hv1 Hx') as (c' & Hv2 & (S1 & _) & Hh & Hoth & Ec').
  { rewrite Hst. apply (si_listed _ _ _ _ _ _ _ _ Hi). }
  assert (view (pa_inv := pa_inv) s3 cache c' p (set_state st x') bl) as Hv3.
  { destruct Hv2 as [V1 V2 V3 V4 V5].
    split; [unfold cache_at; by rewrite R4|unfold slab_at; by rewrite R2|unfold words; by rewrite R3|by rewrite R3|done]. }
  assert (same_geom c c') as Hsg by (rewrite Ec'; by repeat split).
  destruct (Hf c') as [Hsg' Hhd]. exists c'. split; [|done]. destruct Hsg as (E1 & E2 & E3 & E4).
  destruct Hsg' as (E1' & E2' & E3' & E4').
  destruct Hi as [I1 I2 I3 I4 I5 I6 I7 I8 I9 I10 I11 I12].
  assert (forall st', get_head st' c' = 0 \/ get_head st' c' = p) as Hheads.
  { intros st'. destruct (decide (st' = st)) as [->|]; [by right|]. rewrite Hoth by done. apply I10. }
  split.
  - apply view_upd_cache; [done|congruence].
  - done.
  - cbn. congruence.
  - cbn. congruence.
  - cbn. change (sy_objs (upd_cache s3 cache f)) with (sy_objs s3). by rewrite R1, S1.
  - rewrite Hperm, I6, E2', E3', E2, E3. done.
  - done.
  - done.
  - rewrite Hhd. exact Hh.
  - intros st'. rewrite Hhd. apply Hheads.
  - pose proof (Hhd SLAB_EMPTY) as P. cbn in P. rewrite P.
    destruct (decide (st = SLAB_EMPTY)) as [->|N]; [exact Hh|].
    pose proof (Hoth SLAB_EMPTY ltac:(congruence)) as Q. cbn in Q. by rewrite Q.
  - rewrite E4', E4. exact I12.
Qed.

Lemma take_object_spec s cache c live p x F bl :
  cache <> 0 -> geom_ok c -> num_active_objects c = Z.of_nat (length live) ->
  slab_inv s cache c live p x F bl ->
  let '(obj, s') := take_object s cache p in
  (obj = 0 /\ s' = s /\ F = []) \/
  (obj ∈ F /\ cache_inv s' cache (obj :: live) /\ same_geom c (cache_at s' cache)).
Proof.
  intros Hc0 G Hact Hi. pose proof (slab_addr_bounds _ _ _ _ _ _ _ _ Hi G) as Hbd.
  pose proof (length_parts _ _ _ _ _ _ _ _ Hi G) as Hlen. pose proof (si_free _ _ _ _ _ _ _ _ Hi) as Hfree.
  pose proof (v_slab _ _ _ _ _ _ (si_view _ _ _ _ _ _ _ _ Hi)) as V2.
  unfold take_object. rewrite V2. pose proof (si_chain _ _ _ _ _ _ _ _ Hi) as Hch.
  destruct F as [|q F].
  { cbn in Hch. rewrite Hch. left. done. }
  destruct Hch as (Eq & Hq0 & Hch). rewrite Eq, (proj2 (Z.eqb_neq q 0)) by done. right.
  split; [apply list_elem_of_here|].
  set (s1 := upd_slab s p _). set (x' := set_free (rd (sy_objs s) q) (u32 (sl_free_objects x - 1)) x).
  assert (view (pa_inv := pa_inv) s1 cache c p x' bl) as Hv1
    by exact (view_upd_slab s cache c p x bl
         (fun x => set_free (rd (sy_objs s) q) (u32 (sl_free_objects x - 1)) x) (si_view _ _ _ _ _ _ _ _ Hi)).
  rewrite (v_slab _ _ _ _ _ _ Hv1). destruct (G) as [_ _ G3 _ _]. change (2 ^ 32) with 4294967296 in G3.
  assert (sl_free_objects x' = Z.of_nat (length F)) as Hfo.
  { cbn [x' set_free sl_free_objects]. rewrite Hfree. cbn [length] in *. rewrite u32_small; lia. }
  rewrite Hfo. set (st := if Z.of_nat (length F) =? 0 then SLAB_FULL else SLAB_PARTIAL).
  set (s2 := restate s1 cache p (sl_state x') st). set (s3 := if _ =? 0 then s2 else _). set (f := fun c => _).
  destruct (slab_inv_restated s cache c live p x (q :: F) bl st (q :: live) F x' f s1 Hi Hv1) with (s2 := s2) (s3 := s3)
    as (c' & Hi' & Ec').
  - apply Hi.
  - done.
  - done.
  - done.
  - exact Hch.
  - rewrite <- Permutation_middle. done.
  - done.
  - unfold st. destruct F; [done|]. cbn [length]. rewrite (proj2 (Z.eqb_neq _ 0)) by lia. done.
  - intros c0. split; [by repeat split|by intros []].
  - done.
  - unfold s3. by destruct (c_ctor (cache_at s2 cache) =? 0).
  - assert (same_geom c (f c')) as Hsg by (rewrite Ec'; by repeat split).
    pose proof (si_view _ _ _ _ _ _ _ _ Hi') as Hv'. split.
    + eapply ci_slab; [done|by eapply geom_ok_same| |exact Hi'].
      rewrite Ec'. cbn. rewrite Hact, u64_small; [cbn [length]; lia|]. cbn [length] in *. lia.
    + by rewrite (v_cache _ _ _ _ _ _ Hv').
Qed.

Lemma slab_alloc_spec s cache live :
  cache_inv s cache live ->
  let '(obj, s') := slab_alloc s cache in
  let n := objects_per_slab (cache_at s cache) in
  same_geom (cache_at s cache) (cache_at s' cache) /\
  ((obj = 0 /\ s' = s /\ live = [] /\
      exists b, sy_pages s = Some b /\ fst (pa_alloc_order b (slab_order (cache_at s cache))) = 0) \/
   (obj = 0 /\ cache_inv s' cache live /\ Z.of_nat (length live) = n) \/
   (obj <> 0 /\ (obj ∉ live) /\ cache_inv s' cache (obj :: live) /\ Z.of_nat (length live) < n)).
Proof.
  intros Hinv. rewrite slab_alloc_eq.
  assert (exists c, cache_at s cache = c /\ cache <> 0 /\ geom_ok c) as (c & Hc & Hc0 & G).
  { destruct Hinv as [c b bl H0 Hc G|c p x F bl H0 G Ha Hi]; exists c; [done|].
    split; [|done]. apply (si_view _ _ _ _ _ _ _ _ Hi). }
  rewrite (proj2 (Z.eqb_neq cache 0)) by done.
  (* the object comes from a known slab *)
  assert (forall s1 c1 p x F bl, slab_inv s1 cache c1 live p x F bl -> same_geom c c1 ->
    num_active_objects c1 = Z.of_nat (length live) -> p <> 0 ->
    let '(obj, s') := if p =? 0 then (0, s1) else take_object s1 cache p in
    same_geom c (cache_at s' cache) /\
    ((obj = 0 /\ cache_inv s' cache live /\ Z.of_nat (length live) = objects_per_slab c) \/
     (obj <> 0 /\ (obj ∉ live) /\ cache_inv s' cache (obj :: live) /\ Z.of_nat (length live) < objects_per_slab c)))
    as Htake.
  { intros s1 c1 p x F bl Hi Hsg Ha Hp. rewrite (proj2 (Z.eqb_neq p 0)) by done.
    pose proof (geom_ok_same _ _ Hsg G) as G1. pose proof (length_parts _ _ _ _ _ _ _ _ Hi G1) as Hlen.
    destruct (Hsg) as (S1 & S2 & S3 & S4). rewrite S3 in Hlen.
    pose proof (take_object_spec _ _ _ _ _ _ _ _ Hc0 G1 Ha Hi) as Ht. pose proof (objs_nodup _ _ _ _ _ _ _ _ Hi G1) as Hnd.
    pose proof (slab_addr_bounds _ _ _ _ _ _ _ _ Hi G1) as Hbd.
    destruct (take_object s1 cache p) as [obj s'].
    destruct Ht as [(-> & -> & ->)|(Hin & Hci & Hsg')].
    - rewrite (view_cache_at _ _ _ _ _ _ (si_view _ _ _ _ _ _ _ _ Hi)). split; [done|]. left.
      split; [done|]. split; [by eapply ci_slab|]. cbn [length] in Hlen. lia.
    - split; [by destruct Hsg' as (?&?&?&?); repeat split; congruence|]. right.
      pose proof (si_addr _ _ _ _ _ _ _ _ Hi) as (Hpos & _). destruct (Hbd obj) as (Hgt & _); [set_solver|].
      assert (0 < VIRT_PHYS_MAP_BASE) by (by vm_compute).
      split; [lia|]. apply NoDup_app in Hnd as (_ & Hnd & _). split; [by apply Hnd|]. split; [done|].
      destruct F; [set_solver|]. cbn [length] in Hlen. lia. }
  unfold select_slab. rewrite Hc. destruct Hinv as [c' b bl _ Hc' _ Ha H1 H2 H3 Hb Hpi ->|c' p x F bl _ _ Ha Hi].
  - rewrite Hc in Hc'. subst c'. rewrite H2, H3. cbn [Z.eqb negb].
    pose proof (allocate_slab_spec s cache c b bl Hc0 Hc G H1 H2 H3 Hb Hpi) as Has.
    destruct (allocate_slab s cache) as [p s1] eqn:Ealloc.
    destruct Has as [[-> ->]|(Hp & c1 & x & F & Hi & _ & _ & G1 & Ha1 & _ & _ & Hn1)].
    + cbn. rewrite Hc. split; [done|]. left. split_and!; try done. exists b. split; [done|].
      unfold allocate_slab in Ealloc. rewrite Hb, Hc in Ealloc.
      destruct (pa_alloc_order b (slab_order c)) as [phys b1] eqn:Epa. cbn.
      destruct (Z.eqb_spec phys 0) as [|Hne]; [done|]. exfalso.
      destruct (build_free_list _ _ _ _ _) in Ealloc. injection Ealloc as Ep _.
      pose proof (pa_alloc_law b bl (slab_order c) Hpi ltac:(apply G)) as Hal. rewrite Epa in Hal.
      destruct Hal as [[? _]|(Hpos & _ & Hfit & _)]; [done|]. change (2 ^ 42) with 4398046511104 in Hfit.
      pose proof (BUDDY_SIZE_small _ (g_order _ G)). rewrite PHYS_TO_VIRT_eq in Ep by (change (2 ^ 47) with 140737488355328; lia).
      unfold VIRT_PHYS_MAP_BASE in Ep. lia.
    + rewrite (proj2 (Z.eqb_neq p 0)) by done.
      specialize (Htake _ _ _ _ _ _ Hi Hn1 ltac:(by rewrite Ha1, Ha) Hp). cbv zeta in Htake.
      destruct (if p =? 0 then _ else _) as [obj s']. destruct Htake as [E [T|T]]; split; auto.
  - pose proof (view_cache_at _ _ _ _ _ _ (si_view _ _ _ _ _ _ _ _ Hi)) as Hcv. rewrite Hc in Hcv. subst c'.
    pose proof (si_addr _ _ _ _ _ _ _ _ Hi) as (Hpos & _). assert (0 < VIRT_PHYS_MAP_BASE) by (by vm_compute).
    assert (p <> 0) as Hp by lia.
    assert ((if negb (slabs_partial c =? 0) then (slabs_partial c, s)
             else if negb (slabs_empty c =? 0) then (slabs_empty c, s)
             else let '(p, s) := allocate_slab s cache in
               if p =? 0 then (0, s) else (p, add_slab_to_list s cache p)) = (p, s)) as ->.
    { rewrite (si_empty _ _ _ _ _ _ _ _ Hi). destruct (si_heads _ _ _ _ _ _ _ _ Hi SLAB_PARTIAL) as [E|E];
        cbn in E; rewrite E; by rewrite ?(proj2 (Z.eqb_neq p 0)). }
    specialize (Htake s c p x F bl Hi ltac:(by repeat split) Ha Hp).
    destruct (if p =? 0 then _ else _) as [obj s']. destruct Htake as [E [T|T]]; split; auto.
Qed.

(** ** Release of an object *)

Lemma walk_single s cache p obj fuel :
  (0 < fuel)%nat -> words s p = (0, 0) -> p <> 0 ->
  walk (S fuel) s cache p obj = if holds s cache p obj then p else 0.
Proof.
  intros Hf Hw Hp. cbn [walk]. rewrite (proj2 (Z.eqb_neq p 0)) by done. destruct (holds s cache p obj); [done|].
  unfold slab_next. rewrite Hw. cbn [fst]. by destruct fuel.
Qed.

Lemma find_slab_spec s cache c live p x F bl obj :
  slab_inv s cache c live p x F bl -> geom_ok c -> p <> 0 ->
  find_slab s cache obj = if holds s cache p obj then p else 0.
Proof.
  intros Hi G Hp. pose proof (si_view _ _ _ _ _ _ _ _ Hi) as Hv.
  unfold find_slab. rewrite (v_cache _ _ _ _ _ _ Hv).
  assert (0 < size (sy_slabs s))%nat as Hsz.
  { destruct (decide (sy_slabs s = ∅)) as [E|E]; [|by apply Nat.neq_0_lt_0; rewrite map_size_empty_iff].
    exfalso. pose proof (v_slab _ _ _ _ _ _ Hv) as Hs. unfold slab_at in Hs. rewrite E, lookup_empty in Hs. cbn in Hs.
    pose proof (si_objects _ _ _ _ _ _ _ _ Hi) as Ho. subst x. cbn in Ho.
    pose proof (si_addr _ _ _ _ _ _ _ _ Hi) as (Hpos & _). assert (0 < VIRT_PHYS_MAP_BASE) by (by vm_compute).
    unfold sizeof_slab_t in Ho. lia. }
  unfold walk_fuel. pose proof (si_heads _ _ _ _ _ _ _ _ Hi) as Hh.
  pose proof (si_listed _ _ _ _ _ _ _ _ Hi) as Hl.
  assert (forall st, walk (S (size (sy_slabs s))) s cache (get_head st c) obj
    = if decide (get_head st c = p) then if holds s cache p obj then p else 0 else 0) as Hw.
  { intros st. destruct (Hh st) as [E|E]; rewrite E.
    - rewrite decide_False by done. done.
    - rewrite decide_True by done. apply walk_single; [done|apply Hv|done]. }
  pose proof (Hw SLAB_FULL) as W1. pose proof (Hw SLAB_PARTIAL) as W2. pose proof (Hw SLAB_EMPTY) as W3.
  cbn [get_head] in W1, W2, W3. rewrite W1, W2, W3.
  assert (slabs_full c = p \/ slabs_partial c = p \/ slabs_empty c = p) as Hor
    by (destruct (sl_state x); cbn in Hl; auto).
  destruct (holds s cache p obj); repeat case_decide; cbn; rewrite ?(proj2 (Z.eqb_neq p 0)) by done; try done.
  exfalso. naive_solver.
Qed.

(** The freed object heads the free list of the cache's slab. *)
Lemma slab_free_slab s cache l1 obj l2 :
  cache_inv s cache (l1 ++ obj :: l2) ->
  exists c' p x' F bl, cache <> 0 /\ geom_ok c' /\ num_active_objects c' = Z.of_nat (length (l1 ++ l2)) /\
    slab_inv (slab_free s cache obj) cache c' (l1 ++ l2) p x' (obj :: F) bl /\
    same_geom (cache_at s cache) c'.
Proof.
  intros [c b bl _ _ _ _ _ _ _ _ _ E|c p x F bl Hc0 G Hact Hi]; [by destruct l1|].
  pose proof (si_view _ _ _ _ _ _ _ _ Hi) as Hv. pose proof (slab_addr_bounds _ _ _ _ _ _ _ _ Hi G) as Hbd.
  pose proof (objs_nodup _ _ _ _ _ _ _ _ Hi G) as Hnd. pose proof (length_parts _ _ _ _ _ _ _ _ Hi G) as Hlen.
  pose proof (si_addr _ _ _ _ _ _ _ _ Hi) as (Hpos & _ & Hend). destruct (G) as [G1 G2 G3 G4 G5].
  assert (VIRT_PHYS_MAP_BASE = 18446603336221196288) as EM by reflexivity.
  change (2 ^ 42) with 4398046511104 in Hend. pose proof (BUDDY_SIZE_small _ G4) as Hbs.
  destruct (Hbd obj) as (Ho1 & Ho2 & _); [set_solver|].
  unfold slab_free. rewrite (proj2 (Z.eqb_neq cache 0)), (proj2 (Z.eqb_neq obj 0)) by lia. cbn [orb].
  rewrite (find_slab_spec _ _ _ _ _ _ _ _ obj Hi G) by lia.
  assert (holds s cache p obj = true) as ->.
  { unfold holds. rewrite (v_cache _ _ _ _ _ _ Hv), (v_slab _ _ _ _ _ _ Hv), (si_objects _ _ _ _ _ _ _ _ Hi).
    assert (obj ∈ obj_addrs (p + sizeof_slab_t) (aligned_size c) (Z.to_nat (objects_per_slab c))) as Hin.
    { rewrite <- (si_parts _ _ _ _ _ _ _ _ Hi). set_solver. }
    apply elem_of_obj_addrs in Hin as (i & Hi' & ->). unfold sizeof_slab_t in *.
    change (2 ^ 32) with 4294967296 in G3. rewrite (u64_small (objects_per_slab c * _)) by nia.
    rewrite u64_small by nia. apply andb_true_iff. split; [apply Z.leb_le|apply Z.ltb_lt]; nia. }
  rewrite (proj2 (Z.eqb_neq p 0)) by lia.
  set (s0 := with_objs s _). set (s1 := upd_slab s0 p _).
  set (x' := set_free obj (u32 (sl_free_objects x + 1)) x).
  assert (view (pa_inv := pa_inv) s0 cache c p x bl) as Hv0 by (destruct Hv; by split).
  assert (view (pa_inv := pa_inv) s1 cache c p x' bl) as Hv1
    by exact (view_upd_slab s0 cache c p x bl (fun x => set_free obj (u32 (sl_free_objects x + 1)) x) Hv0).
  rewrite (v_slab _ _ _ _ _ _ Hv1). change (2 ^ 32) with 4294967296 in G3.
  rewrite length_app in Hlen. cbn [length] in Hlen.
  assert (sl_free_objects x' = Z.of_nat (length (obj :: F))) as Hfo.
  { cbn [x' set_free sl_free_objects]. rewrite (si_free _ _ _ _ _ _ _ _ Hi), u32_small; cbn [length]; lia. }
  rewrite Hfo. change (sl_num_objects x') with (sl_num_objects x). rewrite (si_num _ _ _ _ _ _ _ _ Hi).
  set (st := if _ =? _ then SLAB_EMPTY else SLAB_PARTIAL). 
  match goal with |- context [upd_cache _ _ ?g] => set (f := g) end.
  destruct (slab_inv_restated s cache c (l1 ++ obj :: l2) p x F bl st (l1 ++ l2) (obj :: F) x' f s1 Hi Hv1)
    with (s2 := restate s1 cache p (sl_state x') st) (s3 := restate s1 cache p (sl_state x') st) as (c' & Hi' & Ec').
  - apply Hi.
  - done.
  - done.
  - done.
  - cbn [x' set_free sl_free_list ochain]. split; [done|]. split; [lia|].
    change (sy_objs s1) with (wr (sy_objs s) obj (sl_free_list (slab_at s p))).
    rewrite rd_wr_eq, (v_slab _ _ _ _ _ _ Hv). apply ochain_insert; [|apply Hi].
    apply NoDup_app in Hnd as (_ & Hnd & _). intros Hin. apply (Hnd obj Hin). set_solver.
  - cbn [app]. rewrite <- Permutation_middle. by rewrite Permutation_middle.
  - exact Hfo.
  - unfold st. cbn [length]. destruct (l1 ++ l2) as [|y l] eqn:El.
    + apply app_eq_nil in El as [-> ->]. cbn [length] in Hlen. rewrite (proj2 (Z.eqb_eq _ _)); [done|lia].
    + assert (length l1 + length l2 = S (length l))%nat as El' by (by rewrite <- length_app, El).
      rewrite (proj2 (Z.eqb_neq _ _)); [done|lia].
  - intros c0. split; [by repeat split|by intros []].
  - done.
  - done.
  - assert (same_geom c (f c')) as Hsg by (rewrite Ec'; by repeat split).
    rewrite (v_cache _ _ _ _ _ _ Hv). eexists (f c'), p, _, F, bl.
    split; [done|]. split; [by eapply geom_ok_same|]. split; [|split; [exact Hi'|done]].
    rewrite Ec'. cbn. rewrite length_app in *. cbn [length] in *. rewrite Hact, u64_small; lia.
Qed.

Lemma slab_free_spec s cache l1 obj l2 :
  cache_inv s cache (l1 ++ obj :: l2) -> cache_inv (slab_free s cache obj) cache (l1 ++ l2).
Proof.
  intros Hinv. destruct (slab_free_slab _ _ _ _ _ Hinv) as (c' & p & x' & F & bl & Hc0 & G & Ha & Hi & _).
  by eapply ci_slab.
Qed.

(** An allocation takes the head of the free list. *)
Lemma slab_alloc_head s cache c live p x q F bl :
  cache <> 0 -> slab_inv s cache c live p x (q :: F) bl -> fst (slab_alloc s cache) = q.
Proof.
  intros Hc0 Hi. pose proof (si_view _ _ _ _ _ _ _ _ Hi) as Hv.
  pose proof (si_addr _ _ _ _ _ _ _ _ Hi) as (Hpos & _). assert (0 < VIRT_PHYS_MAP_BASE) by (by vm_compute).
  assert (p <> 0) as Hp by lia. rewrite slab_alloc_eq, (proj2 (Z.eqb_neq cache 0)) by done.
  assert (select_slab s cache = (p, s)) as ->.
  { unfold select_slab. rewrite (v_cache _ _ _ _ _ _ Hv), (si_empty _ _ _ _ _ _ _ _ Hi).
    destruct (si_heads _ _ _ _ _ _ _ _ Hi SLAB_PARTIAL) as [E|E];
      cbn in E; rewrite E; by rewrite ?(proj2 (Z.eqb_neq p 0)). }
  rewrite (proj2 (Z.eqb_neq p 0)) by done. unfold take_object. rewrite (v_slab _ _ _ _ _ _ Hv).
  destruct (si_chain _ _ _ _ _ _ _ _ Hi) as (-> & Hq & _). by rewrite (proj2 (Z.eqb_neq q 0)).
Qed.
End invariant.
