(* ===== verification/SlabThms.v ===== *)
(** * Slab allocator: the buddy allocator below it, and the theorems

    The buddy allocator is an instance of [PageAllocator] and satisfies its
    laws.  The theorems about one cache hold over any page allocator that does. *)

From S2P Require Import Prelude MemLayout Errno Bitmap Buddy BuddyLists BuddyInv BuddyThms Slab SlabInv.

(** ** The buddy allocator as page allocator *)

#[export] Instance buddy_pages : PageAllocator buddy := {
  pa_alloc_order := buddy_alloc_order;
  pa_free := buddy_free;
  pa_words b p := (bb_next (block_at (blocks b) p), bb_prev (block_at (blocks b) p));
  pa_set_words b p w := with_blocks b (<[p := mkBlock (fst w) (snd w)]> (blocks b));
}.

Definition buddy_pa_inv (a : buddy) (live : list (Z * Z)) : Prop :=
  exists fl bl, buddy_inv a fl bl /\ live = client_block (base_addr a) <$> bl.

(** Writing the header words of a live block does not disturb the free lists. *)
Lemma buddy_inv_set_words a fl bl i o h :
  buddy_inv a fl bl -> (i, o) ∈ bl ->
  buddy_inv (with_blocks a (<[node (base_addr a) i := h]> (blocks a))) fl bl.
Proof.
  intros Hinv Hin. pose proof (inv_nodup _ _ _ Hinv) as Hnd. destruct (live_block_facts _ _ _ _ _ Hinv Hin) as (Hi & Ho & _).
  destruct Hinv as [Hcfg Hl Hlive Hp Hbits Hord].
  split; [destruct Hcfg; by split| |done|done|done|done].
  destruct (Hl) as [L1 L2 L3 L4]. split; [done|done|done|]. intros o' Ho'. destruct (L4 o' Ho') as [Hh Hd].
  split; [done|]. cbn [blocks with_blocks base_addr]. apply dseg_insert_ne; [|done].
  intros Hn. apply elem_of_nodes, elem_of_of_order in Hn. apply NoDup_app in Hnd as (_ & Hnd & _).
  pose proof (pow2_pos o ltac:(lia)). pose proof (pow2_pos o' ltac:(lia)).
  apply (Hnd i); apply elem_of_all_pages; [exists i, o'|exists i, o]; split; (done || lia).
Qed.

Lemma client_addr_index a fl bl addr o :
  buddy_inv a fl bl -> (addr, o) ∈ (client_block (base_addr a) <$> bl) ->
  exists i, (i, o) ∈ bl /\ addr = base_addr a + i * PAGE_SIZE /\ PHYS_TO_VIRT addr = node (base_addr a) i.
Proof.
  intros Hinv Hin. apply list_elem_of_fmap in Hin as ([i o'] & [= -> ->] & Hin). exists i. cbn [fst].
  split; [done|]. split; [done|]. apply PHYS_TO_VIRT_node; [apply Hinv|].
  destruct (live_block_facts _ _ _ _ _ Hinv Hin) as (? & _). lia.
Qed.

#[export] Instance buddy_pages_laws : PageAllocatorLaws buddy buddy_pa_inv.
Proof.
  split.
  - intros a live o (fl & bl & Hinv & ->) Ho. cbn [pa_alloc_order buddy_pages].
    pose proof (alloc_order_spec a fl bl o Hinv Ho) as Hs. destruct (buddy_alloc_order a o) as [addr a'].
    destruct Hs as [(-> & -> & _)|(i & fl' & -> & Hpos & Hle & _ & Hinv' & Eb & Et)]; [by left|right].
    pose proof (bi_cfg _ _ _ Hinv) as Hcfg. pose proof (bi_live _ _ _ Hinv') as HF.
    apply Forall_cons in HF as [(Hi1 & Hi2 & Hi3) HF]. cbn [fst snd] in *.
    assert (BUDDY_SIZE_FOR_ORDER o = 2 ^ o * PAGE_SIZE) as Hbs.
    { unfold BUDDY_SIZE_FOR_ORDER. rewrite PAGES_PER_ORDER_pow by lia. lia. }
    split; [done|]. split; [rewrite Z.mod_add by done; apply Hcfg|]. split.
    { rewrite Hbs. destruct Hcfg as [? ? ? Hsz ?]. rewrite Et in Hi3. unfold PAGE_SIZE in *. lia. }
    split; [exists fl', ((i, o) :: bl); split; [done|]; by rewrite Eb|].
    apply Forall_fmap, Forall_forall. intros [j x] Hj. unfold compose, client_block. cbn [fst snd].
    apply list_elem_of_lookup in Hj as [k Hk].
    assert (blk_ok (total_pages a') (j, x)) as (_ & Hx & _) by (rewrite Forall_forall in HF; apply HF; by eapply list_elem_of_lookup_2).
    cbn [snd] in Hx. rewrite Hbs. unfold BUDDY_SIZE_FOR_ORDER. rewrite PAGES_PER_ORDER_pow by lia.
    pose proof (pow2_pos o ltac:(lia)). pose proof (pow2_pos x ltac:(lia)).
    destruct (decide (i + 2 ^ o <= j \/ j + 2 ^ x <= i)); [unfold PAGE_SIZE; lia|]. exfalso.
    apply (live_disjoint a' fl' _ 0 (S k) (i, o) (j, x) (Z.max i j) Hinv'); try done; apply elem_of_pages_of; lia.
  - intros a l1 addr o l2 (fl & bl & Hinv & E). symmetry in E.
    apply fmap_app_inv in E as (b1 & b2' & -> & E2 & ->).
    destruct b2' as [|[i o'] b2]; [done|]. cbn in E2. injection E2 as -> -> ->.
    destruct (buddy_free_spec a fl b1 i o' b2 Hinv) as (Eb' & Et' & fl' & _ & _ & Hinv' & _). cbv zeta in *.
    exists fl', (b1 ++ b2). split; [done|]. cbn [pa_free buddy_pages]. rewrite Eb'. by rewrite fmap_app.
  - intros a live addr o w (fl & bl & Hinv & ->) Hin.
    destruct (client_addr_index _ _ _ _ _ Hinv Hin) as (i & Hi & _ & Ev). cbn [pa_set_words buddy_pages]. rewrite Ev.
    exists fl, bl. split; [by eapply buddy_inv_set_words|done].
  - intros a p [w1 w2]. cbn. unfold block_at. by rewrite lookup_insert_eq.
Qed.

(** ** Creating a cache *)

Section client.
Context {B : Type} `{HL : PageAllocatorLaws B pa_inv}.

Lemma slab_cache_create_spec (s : slab_sys B) name size ctor dtor b bl :
  sy_pages s = Some b -> pa_inv b bl -> 0 < size <= 2 ^ 60 -> num_caches s < SLAB_MAX_CACHES ->
  let '(cache, s') := slab_cache_create s name size ctor dtor in
  (cache = 0 /\ s' = s) \/
  (cache_inv (pa_inv := pa_inv) s' cache [] /\ object_size (cache_at s' cache) = size /\
   num_caches s' = num_caches s + 1 /\ cache_registry s' = updz (cache_registry s) (num_caches s) cache /\
   c_name (cache_at s' cache) = take 31 name).
Proof.
  change (2 ^ 60) with 1152921504606846976. intros Hb Hinv Hs Hn. unfold slab_cache_create.
  rewrite (proj2 (Z.eqb_neq size 0)), (proj2 (Z.leb_gt _ _) Hn) by lia. cbn [orb]. rewrite Hb.
  unfold pa_alloc. change (buddy_get_order_for_size sizeof_slab_cache_t) with 0.
  pose proof (pa_alloc_law b bl 0 Hinv ltac:(lia)) as Hal. destruct (pa_alloc_order b 0) as [phys b1].
  destruct Hal as [[-> ->]|(Hpos & Hmod & Hfit & Hinv1 & _)].
  { left. split; [done|]. destruct s; cbn in *. by subst. }
  rewrite (proj2 (Z.eqb_neq phys 0)) by lia. right. cbv zeta.
  change (2 ^ 42) with 4398046511104 in Hfit. change (BUDDY_SIZE_FOR_ORDER 0) with 4096 in Hfit.
  destruct (align_size_spec size) as [A1 A2]; [change (2 ^ 62) with 4611686018427387904; lia|].
  set (al := align_size size SLAB_ALIGN) in *. change (align_size sizeof_slab_t SLAB_ALIGN) with 56.
  pose proof (calculate_slab_order_range al) as Ho. set (o := calculate_slab_order al) in *.
  pose proof (BUDDY_SIZE_small o Ho) as Hbs. set (cache := PHYS_TO_VIRT phys).
  assert (cache <> 0) as Hc0.
  { unfold cache. rewrite PHYS_TO_VIRT_eq by (change (2 ^ 47) with 140737488355328; lia).
    unfold VIRT_PHYS_MAP_BASE. lia. }
  rewrite (u64_small (BUDDY_SIZE_FOR_ORDER o - 56)) by lia.
  set (n := (BUDDY_SIZE_FOR_ORDER o - 56) / al).
  assert (0 <= n <= 32768 /\ n * al <= BUDDY_SIZE_FOR_ORDER o - 56) as [Hn1 Hn2].
  { unfold n. pose proof (Z.mul_div_le (BUDDY_SIZE_FOR_ORDER o - 56) al ltac:(lia)).
    assert (0 <= (BUDDY_SIZE_FOR_ORDER o - 56) / al) by (apply Z.div_pos; lia). nia. }
  rewrite (u32_small n) by lia.
  set (c := mkCache _ _ _ _ _ _ _ _ _ _ _ _ _ _).
  match goal with |- context [with_registry ?s0 _ _] =>
    assert (cache_at s0 cache = c) as Hc by (by rewrite cache_at_upd) end.
  change (cache_at (with_registry ?x _ _) cache) with (cache_at x cache). rewrite Hc.
  split_and!; try done. eapply (ci_fresh _ _ _ c b1); try done.
  by split; cbn; unfold sizeof_slab_t; lia.
Qed.

(** The states of one cache: created, then allocations and releases of
    objects that are live. *)
Inductive slab_reachable (cache : Z) : slab_sys B -> list Z -> Prop :=
  | sr_create s b bl name size ctor dtor s' :
      sy_pages s = Some b -> pa_inv b bl -> 0 < size <= 2 ^ 60 -> num_caches s < SLAB_MAX_CACHES ->
      slab_cache_create s name size ctor dtor = (cache, s') -> cache <> 0 ->
      slab_reachable cache s' []
  | sr_alloc s live obj s' :
      slab_reachable cache s live -> slab_alloc s cache = (obj, s') ->
      slab_reachable cache s' (if obj =? 0 then live else obj :: live)
  | sr_free s l1 obj l2 :
      slab_reachable cache s (l1 ++ obj :: l2) ->
      slab_reachable cache (slab_free s cache obj) (l1 ++ l2).

Lemma slab_reachable_inv cache s live :
  slab_reachable cache s live -> cache_inv (pa_inv := pa_inv) s cache live.
Proof.
  induction 1 as [s b bl name size ctor dtor s' Hb Hinv Hs Hn Hcr Hc|s live obj s' _ IH Hal|s l1 obj l2 _ IH].
  - pose proof (slab_cache_create_spec s name size ctor dtor b bl Hb Hinv Hs Hn) as Hsp. rewrite Hcr in Hsp.
    by destruct Hsp as [[? _]|[? _]].
  - pose proof (slab_alloc_spec s cache live IH) as Hs. rewrite Hal in Hs.
    destruct Hs as [_ [(-> & -> & _)|[(-> & Hi & _)|(Hne & _ & Hi & _)]]]; [done|done|].
    by rewrite (proj2 (Z.eqb_neq obj 0)).
  - by apply slab_free_spec.
Qed.

(** C2. Safety of a slab cache.  In every state reached by allocating from a
    cache and freeing live objects, the live objects are 8-byte aligned, lie
    behind the slab header inside one block obtained from the page allocator,
    do not overlap, and [num_active_objects] counts them. *)
Theorem slab_objects_safe (cache : Z) (s : slab_sys B) (live : list Z)
    (Hreach : slab_reachable cache s live) :
  let c := cache_at s cache in
  num_active_objects c = Z.of_nat (length live) /\
  (live <> [] -> exists b bl phys, sy_pages s = Some b /\ pa_inv b bl /\ (phys, slab_order c) ∈ bl /\
     forall q, q ∈ live -> q mod 8 = 0 /\ PHYS_TO_VIRT phys + sizeof_slab_t <= q /\
       q + object_size c <= PHYS_TO_VIRT phys + BUDDY_SIZE_FOR_ORDER (slab_order c)) /\
  (forall k1 k2 q1 q2, live !! k1 = Some q1 -> live !! k2 = Some q2 -> k1 <> k2 ->
     q1 + object_size c <= q2 \/ q2 + object_size c <= q1).
Proof.
  apply slab_reachable_inv in Hreach. cbv zeta.
  destruct Hreach as [c b bl _ Hc G Ha _ _ _ _ _ ->|c p x F bl Hc0 G Ha Hi].
  { rewrite Hc. split; [done|]. split; [done|]. intros k1 k2 q1 q2 H1. by rewrite lookup_nil in H1. }
  pose proof (si_view _ _ _ _ _ _ _ _ Hi) as Hv. rewrite (v_cache _ _ _ _ _ _ Hv). split; [done|].
  destruct (G) as [G1 G2 G3 G4 G5]. split.
  - intros _. destruct (v_pages _ _ _ _ _ _ Hv) as (b & Hb & Hinv). destruct (v_block _ _ _ _ _ _ Hv) as (phys & -> & Hin).
    exists b, bl, phys. split_and!; try done. intros q Hq.
    assert (q ∈ F ++ live) as Hq' by set_solver.
    destruct (slab_addr_bounds _ _ _ _ _ _ _ _ Hi G q Hq') as (_ & H2 & H3).
    rewrite (si_parts _ _ _ _ _ _ _ _ Hi) in Hq'. apply elem_of_obj_addrs in Hq' as (i & Hi' & ->).
    split; [done|]. split; [nia|lia].
  - intros k1 k2 q1 q2 H1 H2 Hne. pose proof (objs_nodup _ _ _ _ _ _ _ _ Hi G) as Hnd.
    apply NoDup_app in Hnd as (_ & _ & Hnd).
    assert (q1 <> q2) as Hq by (intros <-; apply Hne; by eapply NoDup_lookup).
    assert (forall q, q ∈ live -> exists i, q = p + sizeof_slab_t + i * aligned_size c) as Hobj.
    { intros q Hq'. assert (q ∈ F ++ live) as Hin by set_solver.
      rewrite (si_parts _ _ _ _ _ _ _ _ Hi) in Hin. apply elem_of_obj_addrs in Hin as (i & _ & ->). by exists i. }
    destruct (Hobj q1) as [i ->]; [by eapply list_elem_of_lookup_2|].
    destruct (Hobj q2) as [j ->]; [by eapply list_elem_of_lookup_2|].
    destruct (Z.lt_trichotomy i j) as [Hij|[->|Hij]]; [left; nia|done|right; nia].
Qed.

(** C23. A cache never holds more than one slab's worth of objects.  The slab
    stays the head of the list it was first put on, because
    [remove_slab_from_list] consults the state after it was changed; so once
    [objects_per_slab] objects are live every allocation returns null,
    however much memory the page allocator has left.  Below that bound an
    allocation fails only when the first slab itself cannot be had, and a
    successful one returns an object that was not live. *)
Theorem slab_alloc_capacity (cache : Z) (s : slab_sys B) (live : list Z)
    (Hreach : slab_reachable cache s live) :
  let '(obj, s') := slab_alloc s cache in
  let c := cache_at s cache in
  Z.of_nat (length live) <= objects_per_slab c /\
  (Z.of_nat (length live) = objects_per_slab c -> obj = 0) /\
  (Z.of_nat (length live) < objects_per_slab c ->
     (obj <> 0 /\ (obj ∉ live)) \/
     (live = [] /\ exists b, sy_pages s = Some b /\ fst (pa_alloc_order b (slab_order c)) = 0)).
Proof.
  apply slab_reachable_inv in Hreach. pose proof (slab_alloc_spec s cache live Hreach) as Hs.
  assert (0 <= objects_per_slab (cache_at s cache)) as Hpos.
  { destruct Hreach as [c b bl _ -> G|c p x F bl _ G _ Hi]; [|rewrite (view_cache_at _ _ _ _ _ _ (si_view _ _ _ _ _ _ _ _ Hi))]; apply G. }
  destruct (slab_alloc s cache) as [obj s'].
  destruct Hs as [_ [(-> & -> & -> & Hb)|[(-> & Hi & Hlen)|(Hne & Hnin & Hi & Hlen)]]].
  - split; [done|]. split; [done|]. intros _. by right.
  - split; [lia|]. split; [done|]. lia.
  - split; [lia|]. split; [lia|]. intros _. by left.
Qed.

(** ** Shrinking a cache in use *)

(** The slab of a cache in use is still the head of the empty list, and
    neither unlinking nor freeing it changes that. *)
Record stuck (s : slab_sys B) (cache p : Z) : Prop := {
  st_head : slabs_empty (cache_at s cache) = p;
  st_cache : sl_cache (slab_at s p) = cache;
  st_state : sl_state (slab_at s p) <> SLAB_EMPTY;
  st_null : p <> 0;
}.

Lemma stuck_set_words s cache p q w : stuck s cache p -> stuck (set_words s q w) cache p.
Proof. by intros []. Qed.

Lemma stuck_upd_cache s cache p f :
  stuck s cache p -> (forall c, slabs_empty (f c) = slabs_empty c) -> stuck (upd_cache s cache f) cache p.
Proof. intros [H1 H2 H3 H4] Hf. split; try done. by rewrite cache_at_upd, Hf. Qed.

Lemma stuck_remove s cache p : stuck s cache p -> stuck (remove_slab_from_list s p) cache p.
Proof.
  intros Hst. unfold remove_slab_from_list. set (s1 := if slab_prev s p =? 0 then _ else _).
  assert (stuck s1 cache p) as Hst1.
  { unfold s1. destruct (_ =? 0); [|by apply stuck_set_words]. destruct (Hst) as [_ H2 H3 _]. rewrite H2.
    apply stuck_upd_cache; [done|]. intros c. by destruct (sl_state (slab_at s p)). }
  do 2 apply stuck_set_words. destruct (slab_next s1 p =? 0); [done|by apply stuck_set_words].
Qed.

Lemma stuck_dtors n fn al obj s cache p : stuck s cache p -> stuck (run_dtors n fn al obj s) cache p.
Proof. revert obj s. induction n as [|n IH]; intros obj s Hst; [done|]. cbn [run_dtors]. apply IH. destruct Hst. by split. Qed.

Lemma stuck_free s cache p : stuck s cache p -> stuck (free_slab s p) cache p.
Proof.
  intros Hst. unfold free_slab. destruct (sy_pages s); [|done]. rewrite (st_cache _ _ _ Hst).
  apply stuck_upd_cache; [|done].
  match goal with |- stuck (with_pages ?s1 _) _ _ => assert (stuck s1 cache p) as [S1 S2 S3 S4] end; [|by split].
  destruct (_ =? 0); [done|]. by apply stuck_dtors.
Qed.

Lemma stuck_drain fuel s cache p freed : stuck s cache p -> drain_list fuel SLAB_EMPTY s cache freed = None.
Proof.
  revert s freed. induction fuel as [|fuel IH]; intros s freed Hst; [done|]. cbn [drain_list get_head].
  rewrite (st_head _ _ _ Hst), (proj2 (Z.eqb_neq p 0)) by apply Hst.
  apply IH. by apply stuck_free, stuck_remove.
Qed.

(** C22. [slab_cache_shrink] does not terminate on a cache in use: whenever an
    object of the cache is live, the loop that frees empty slabs runs for
    ever, on the slab that holds the object, however many steps it is given. *)
Theorem slab_cache_shrink_diverges (cache : Z) (s : slab_sys B) (live : list Z) (fuel : nat)
    (Hreach : slab_reachable cache s live) (Hlive : live <> []) :
  slab_cache_shrink fuel s cache = None.
Proof.
  apply slab_reachable_inv in Hreach. destruct Hreach as [c b bl _ _ _ _ _ _ _ _ _ E|c p x F bl Hc0 G _ Hi]; [done|].
  unfold slab_cache_shrink. rewrite (proj2 (Z.eqb_neq cache 0)) by done.
  pose proof (si_view _ _ _ _ _ _ _ _ Hi) as Hv. apply (stuck_drain _ _ _ p). split.
  - rewrite (v_cache _ _ _ _ _ _ Hv). apply Hi.
  - rewrite (v_slab _ _ _ _ _ _ Hv). apply Hi.
  - rewrite (v_slab _ _ _ _ _ _ Hv), (si_state _ _ _ _ _ _ _ _ Hi). by destruct live, F.
  - pose proof (si_addr _ _ _ _ _ _ _ _ Hi) as (Hpos & _). unfold VIRT_PHYS_MAP_BASE in Hpos. lia.
Qed.

(** Release and reuse.  Freeing a live object makes it the next one the
    cache hands out, and leaves the other live objects in place. *)
Theorem slab_free_then_alloc (cache : Z) (s : slab_sys B) (l1 l2 : list Z) (obj : Z)
    (Hreach : slab_reachable cache s (l1 ++ obj :: l2)) :
  let s1 := slab_free s cache obj in
  num_active_objects (cache_at s1 cache) = Z.of_nat (length (l1 ++ l2)) /\
  fst (slab_alloc s1 cache) = obj.
Proof.
  cbv zeta. apply slab_reachable_inv in Hreach.
  destruct (slab_free_slab _ _ _ _ _ Hreach) as (c' & p & x' & F & bl & Hc0 & _ & Ha & Hi & _).
  rewrite (view_cache_at _ _ _ _ _ _ (si_view _ _ _ _ _ _ _ _ Hi)). split; [done|].
  by eapply slab_alloc_head.
Qed.
End client.

(** ** The kernel's slab allocator *)

Definition kernel_sys : slab_sys buddy :=
  mkSys (Some kernel_buddy) ∅ ∅ ∅ (replicate 32 0) 0 [] [].

Lemma kernel_pages : sy_pages kernel_sys = Some kernel_buddy /\ buddy_pa_inv kernel_buddy [].
Proof.
  split; [reflexivity|].
  destruct (reachable_inv _ _ _ _ kernel_region_ok kernel_reachable) as (fl & bl & Hinv & E & _).
  exists fl, bl. split; [exact Hinv|]. destruct bl; [reflexivity|discriminate].
Qed.

(** A cache of 2048-byte objects: 7 objects to a slab. *)
Definition demo_cache : Z := fst (slab_cache_create kernel_sys (str "demo") 2048 0 0).
Definition demo_sys : slab_sys buddy := snd (slab_cache_create kernel_sys (str "demo") 2048 0 0).
Definition demo_obj : Z := fst (slab_alloc demo_sys demo_cache).
Definition demo_sys1 : slab_sys buddy := snd (slab_alloc demo_sys demo_cache).

Lemma demo_cache_val : demo_cache <> 0.
Proof. vm_compute. discriminate. Qed.
Lemma demo_obj_val : demo_obj <> 0.
Proof. vm_compute. discriminate. Qed.

Lemma demo_reachable : slab_reachable (pa_inv := buddy_pa_inv) demo_cache demo_sys [].
Proof.
  destruct kernel_pages as [E Hinv].
  apply (sr_create demo_cache kernel_sys kernel_buddy [] (str "demo") 2048 0 0); [exact E|exact Hinv|..].
  - change (2 ^ 60) with 1152921504606846976. lia.
  - reflexivity.
  - unfold demo_cache, demo_sys. by destruct (slab_cache_create _ _ _ _ _).
  - apply demo_cache_val.
Qed.

Lemma demo_reachable1 : slab_reachable (pa_inv := buddy_pa_inv) demo_cache demo_sys1 [demo_obj].
Proof.
  assert (slab_alloc demo_sys demo_cache = (demo_obj, demo_sys1)) as E
    by (unfold demo_obj, demo_sys1; by destruct (slab_alloc demo_sys demo_cache)).
  pose proof (sr_alloc demo_cache demo_sys [] demo_obj demo_sys1 demo_reachable E) as R.
  by rewrite (proj2 (Z.eqb_neq _ _) demo_obj_val) in R.
Qed.

Lemma slab_objects_safe_witness :
  num_active_objects (cache_at demo_sys1 demo_cache) = 1 /\ demo_obj mod 8 = 0.
Proof.
  destruct (slab_objects_safe demo_cache demo_sys1 [demo_obj] demo_reachable1) as (H1 & H2 & _).
  split; [exact H1|]. destruct H2 as (b & bl & phys & _ & _ & _ & H); [discriminate|].
  apply (H demo_obj). apply list_elem_of_here.
Defined.

Lemma slab_alloc_capacity_witness :
  objects_per_slab (cache_at demo_sys demo_cache) = 7 /\ 0 <= objects_per_slab (cache_at demo_sys demo_cache).
Proof.
  split; [vm_compute; reflexivity|].
  pose proof (slab_alloc_capacity demo_cache demo_sys [] demo_reachable) as H.
  destruct (slab_alloc demo_sys demo_cache) as [obj s']. apply H.
Defined.

Lemma slab_cache_shrink_diverges_witness : slab_cache_shrink 1000 demo_sys1 demo_cache = None.
Proof. apply (slab_cache_shrink_diverges demo_cache demo_sys1 [demo_obj] 1000 demo_reachable1). discriminate. Defined.

Lemma slab_free_then_alloc_witness :
  fst (slab_alloc (slab_free demo_sys1 demo_cache demo_obj) demo_cache) = demo_obj.
Proof. apply (slab_free_then_alloc demo_cache demo_sys1 [] [] demo_obj demo_reachable1). Defined.

(** Shrinking an idle cache leaves a dangling slab.  Allocate an object,
    free it, shrink the cache (which frees the slab's pages), and allocate
    again: the cache hands out an object whose page the buddy allocator counts
    as free, because the freed slab is still the head of the partial list. *)
Theorem slab_use_after_shrink :
  match slab_cache_shrink 8 (slab_free demo_sys1 demo_cache demo_obj) demo_cache with
  | None => False
  | Some (freed, s) =>
      let '(obj, s') := slab_alloc s demo_cache in
      freed = 1 /\ obj <> 0 /\
      match sy_pages s' with
      | Some b => buddy_is_allocated b (PAGE_ALIGN_DOWN (VIRT_TO_PHYS obj)) = false
      | None => False
      end
  end.
Proof. vm_compute. split; [reflexivity|]. split; [discriminate|reflexivity]. Qed.

(** ** Size classes *)

Definition kernel_slab : slab_sys buddy := snd (slab_init kernel_sys).

Lemma kernel_cache_sizes :
  (fun c => object_size (cache_at kernel_slab c)) <$> kmalloc_caches kernel_slab = kmalloc_sizes.*2.
Proof. vm_compute. reflexivity. Qed.

Lemma kernel_caches_nonnull : forallb (fun c => negb (c =? 0)) (kmalloc_caches kernel_slab) = true.
Proof. vm_compute. reflexivity. Qed.

Lemma kernel_cache_lookup i sz :
  kmalloc_sizes.*2 !! i = Some sz ->
  exists c, kmalloc_caches kernel_slab !! i = Some c /\ c <> 0 /\ object_size (cache_at kernel_slab c) = sz.
Proof.
  rewrite <- kernel_cache_sizes, list_lookup_fmap. intros (c & Hc & ->)%fmap_Some. exists c.
  split; [exact Hc|]. split; [|reflexivity]. pose proof kernel_caches_nonnull as Hn. rewrite forallb_forall in Hn.
  apply list_elem_of_lookup_2, list_elem_of_In, Hn in Hc. by apply negb_true_iff, Z.eqb_neq in Hc.
Qed.

Lemma size_class_spec size :
  0 < size <= 4096 ->
  exists i sz, size_class size = Some i /\ kmalloc_sizes.*2 !! i = Some sz /\ size <= sz /\
    forall j sz', (j < i)%nat -> kmalloc_sizes.*2 !! j = Some sz' -> sz' < size.
Proof.
  intros Hs. change (kmalloc_sizes.*2) with [32; 64; 128; 256; 512; 1024; 2048; 4096]. unfold size_class.
  repeat match goal with |- context [size <=? ?k] => destruct (Z.leb_spec size k) end; try lia;
    (eexists _, _; split; [reflexivity|]; split; [reflexivity|]; split; [lia|]; intros j sz' Hj Hsz;
     do 8 (destruct j as [|j]; [first [exfalso; lia | injection Hsz as <-; lia]|]); exfalso; lia).
Qed.

(** [slab_init] on the kernel's buddy allocator succeeds and creates the
    eight caches; [slab_kmalloc] serves a request of at most 4096 bytes from
    the smallest cache whose objects hold it, and never from a null cache. *)
Theorem slab_kmalloc_size_classes (size : Z) (Hs : 0 < size <= 4096) :
  fst (slab_init kernel_sys) = E_OK /\
  exists i c, size_class size = Some i /\ slab_kmalloc kernel_slab size = slab_alloc kernel_slab c /\
    kmalloc_caches kernel_slab !! i = Some c /\ c <> 0 /\
    size <= object_size (cache_at kernel_slab c) /\
    (forall j c', (j < i)%nat -> kmalloc_caches kernel_slab !! j = Some c' ->
       object_size (cache_at kernel_slab c') < size).
Proof.
  split; [vm_compute; reflexivity|].
  destruct (size_class_spec size Hs) as (i & sz & E1 & E2 & E3 & E4).
  destruct (kernel_cache_lookup i sz E2) as (c & Hk & Hn & Ho). exists i, c. split; [done|]. split.
  { unfold slab_kmalloc. rewrite (proj2 (Z.eqb_neq size 0)), E1 by lia. unfold kcache. by rewrite Hk. }
  split; [done|]. split; [done|]. split; [lia|]. intros j c' Hj Hk'. apply lookup_lt_Some in E2.
  destruct (lookup_lt_is_Some_2 (kmalloc_sizes.*2) j) as [sz' Ej]; [lia|].
  destruct (kernel_cache_lookup j sz' Ej) as (c'' & Hk'' & _ & Ho''). rewrite Hk' in Hk''. injection Hk'' as <-.
  rewrite Ho''. by eapply E4.
Qed.

Lemma slab_kmalloc_size_classes_witness :
  exists c, slab_kmalloc kernel_slab 100 = slab_alloc kernel_slab c /\ 100 <= object_size (cache_at kernel_slab c).
Proof.
  destruct (slab_kmalloc_size_classes 100) as (_ & i & c & _ & H2 & _ & _ & H5 & _); [lia|].
  exists c. split; [exact H2|exact H5].
Defined.
