(* ===== verification/Kmalloc.v ===== *)
(** * Kernel heap: mm/allocators/kmalloc.c

    [kmalloc] serves small requests from the slab caches and large ones from
    the page allocator, behind a 16-byte header.  The state adds to the slab
    allocator's the bytes [kmem] that the kernel stores in its allocations;
    the headers are among them.  [is_buddy_allocation] inspects the 16 bytes
    before a pointer: for the first object of a slab these are the end of the
    slab header, whose word at offset 40 is [num_objects]; otherwise they are
    bytes of [kmem].  The printing function is not modelled. *)

From S2P Require Import Prelude MemLayout Errno Bitmap Buddy BuddyLists BuddyInv BuddyThms CString Slab SlabInv SlabThms.

Record heap (B : Type) := mkHeap { h_slab : slab_sys B; kmem : mem }.
Arguments mkHeap {B}. Arguments h_slab {B}. Arguments kmem {B}.

Definition BUDDY_MAGIC : Z := 0xB0DD1E5.
Definition sizeof_header : Z := 16.

(** Little-endian integers in memory. *)
Fixpoint wr_le (m : mem) (p v : Z) (n : nat) : mem :=
  match n with
  | O => m
  | S n' => wr_le (wr m p (v mod 256)) (p + 1) (v / 256) n'
  end.
Fixpoint rd_le (m : mem) (p : Z) (n : nat) : Z :=
  match n with
  | O => 0
  | S n' => rd m p + 256 * rd_le m (p + 1) n'
  end.

Section kmalloc.
Context {B : Type} `{PageAllocator B}.

Definition with_h_slab (h : heap B) (s : slab_sys B) : heap B := mkHeap s (kmem h).
Definition with_kmem (h : heap B) (m : mem) : heap B := mkHeap (h_slab h) m.

(** [header->magic == BUDDY_MAGIC] *)
Definition is_buddy_allocation (h : heap B) (ptr : Z) : bool :=
  if ptr =? 0 then false
  else
    let magic :=
      match sy_slabs (h_slab h) !! (ptr - sizeof_slab_t) with
      | Some x => sl_num_objects x
      | None => rd_le (kmem h) (ptr - sizeof_header) 4
      end in
    magic =? BUDDY_MAGIC.

Definition get_buddy_order (h : heap B) (ptr : Z) : Z := rd_le (kmem h) (ptr - sizeof_header + 4) 4.
Definition get_buddy_size (h : heap B) (ptr : Z) : Z := rd_le (kmem h) (ptr - sizeof_header + 8) 8.

Definition kmalloc (h : heap B) (size : Z) : Z * heap B :=
  if size =? 0 then (0, h)
  else if size <=? 4096 then
    let '(p, s) := slab_kmalloc (h_slab h) size in (p, with_h_slab h s)
  else
    match sy_pages (h_slab h) with
    | None => (0, h)
    | Some b =>
        let total_size := u64 (size + sizeof_header) in
        let order := u8 (buddy_get_order_for_size total_size) in
        let '(phys, b) := pa_alloc_order b order in
        let h := with_h_slab h (with_pages (h_slab h) (Some b)) in
        if phys =? 0 then (0, h)
        else
          let virt := PHYS_TO_VIRT phys in
          let m := wr_le (kmem h) virt BUDDY_MAGIC 4 in
          let m := wr_le m (virt + 4) order 4 in
          let m := wr_le m (virt + 8) size 8 in
          (u64 (virt + sizeof_header), with_kmem h m)
    end.

Definition kfree (h : heap B) (ptr : Z) : heap B :=
  if ptr =? 0 then h
  else if is_buddy_allocation h ptr then
    match sy_pages (h_slab h) with
    | None => h
    | Some b =>
        let phys := VIRT_TO_PHYS (u64 (ptr - sizeof_header)) in
        with_h_slab h (with_pages (h_slab h) (Some (pa_free b phys)))
    end
  else with_h_slab h (slab_kfree (h_slab h) ptr).

Definition kcalloc (h : heap B) (num size : Z) : Z * heap B :=
  let total := u64 (num * size) in
  if negb (num =? 0) && negb (total / num =? size) then (0, h)
  else
    let '(ptr, h) := kmalloc h total in
    if ptr =? 0 then (ptr, h) else (ptr, with_kmem h (memset (kmem h) ptr 0 (Z.to_nat total))).

Definition krealloc (h : heap B) (ptr new_size : Z) : Z * heap B :=
  if ptr =? 0 then kmalloc h new_size
  else if new_size =? 0 then (0, kfree h ptr)
  else
    let old_size := if is_buddy_allocation h ptr then get_buddy_size h ptr else new_size in
    if new_size <=? old_size then (ptr, h)
    else
      let '(new_ptr, h) := kmalloc h new_size in
      if new_ptr =? 0 then (0, h)
      else
        let copy_size := if old_size <? new_size then old_size else new_size in
        let h := with_kmem h (memcpy (kmem h) new_ptr ptr (Z.to_nat copy_size)) in
        (new_ptr, kfree h ptr).

(** [while (pages < num_pages && order < BUDDY_MAX_ORDER)] *)
Fixpoint pages_order_loop (fuel : nat) (num_pages order pages : Z) : Z * Z :=
  match fuel with
  | O => (order, pages)
  | S fuel' =>
      if (pages <? num_pages) && (order <? BUDDY_MAX_ORDER)
      then pages_order_loop fuel' num_pages (order + 1) (BUDDY_PAGES_PER_ORDER (order + 1))
      else (order, pages)
  end.

Definition kmalloc_pages (h : heap B) (num_pages : Z) : Z * heap B :=
  if num_pages =? 0 then (0, h)
  else
    match sy_pages (h_slab h) with
    | None => (0, h)
    | Some b =>
        let '(order, pages) := pages_order_loop BUDDY_FUEL num_pages 0 1 in
        if pages <? num_pages then (0, h)
        else
          let '(phys, b) := pa_alloc_order b order in
          let h := with_h_slab h (with_pages (h_slab h) (Some b)) in
          if phys =? 0 then (0, h) else (PHYS_TO_VIRT phys, h)
    end.

(** [num_pages] is not used by the code. *)
Definition kfree_pages (h : heap B) (ptr num_pages : Z) : heap B :=
  if ptr =? 0 then h
  else
    match sy_pages (h_slab h) with
    | None => h
    | Some b => with_h_slab h (with_pages (h_slab h) (Some (pa_free b (VIRT_TO_PHYS ptr))))
    end.
End kmalloc.

Definition kmalloc_get_used_memory (h : heap buddy) : Z :=
  match sy_pages (h_slab h) with Some b => buddy_get_used_memory b | None => 0 end.
Definition kmalloc_get_free_memory (h : heap buddy) : Z :=
  match sy_pages (h_slab h) with Some b => buddy_get_free_memory b | None => 0 end.

(** ** Little-endian words *)

Lemma rd_le_ext m m' p n :
  (forall q, p <= q < p + Z.of_nat n -> rd m' q = rd m q) -> rd_le m' p n = rd_le m p n.
Proof.
  revert p. induction n as [|n IH]; intros p Hext; [done|]. cbn [rd_le].
  rewrite Hext by lia. rewrite IH; [done|]. intros q Hq. apply Hext. lia.
Qed.

Lemma wr_le_outside m p v n q : ~ (p <= q < p + Z.of_nat n) -> rd (wr_le m p v n) q = rd m q.
Proof.
  revert m p v. induction n as [|n IH]; intros m p v Hq; [done|]. cbn [wr_le]. rewrite IH by lia.
  apply rd_wr_ne. lia.
Qed.

Lemma rd_wr_le m p v n : 0 <= v < 256 ^ Z.of_nat n -> rd_le (wr_le m p v n) p n = v.
Proof.
  revert m p v. induction n as [|n IH]; intros m p v Hv.
  { change (256 ^ Z.of_nat 0) with 1 in Hv. cbn. lia. }
  rewrite Nat2Z.inj_succ, Z.pow_succ_r in Hv by lia. cbn [rd_le wr_le].
  rewrite wr_le_outside, rd_wr_eq by lia. rewrite IH; [dlia|].
  split; [dlia|]. apply Z.div_lt_upper_bound; lia.
Qed.

Lemma rd_wr_le_ne m p v n q k :
  (q + Z.of_nat k <= p \/ p + Z.of_nat n <= q) -> rd_le (wr_le m p v n) q k = rd_le m q k.
Proof. intros Hd. apply rd_le_ext. intros r Hr. apply wr_le_outside. lia. Qed.

(** ** Theorems *)

Section heap_theorems.
Context {B : Type} `{HL : PageAllocatorLaws B pa_inv}.

(** The slabs sit at page boundaries. *)
Definition slabs_paged (h : heap B) : Prop :=
  forall p, is_Some (sy_slabs (h_slab h) !! p) -> p mod PAGE_SIZE = 0.

(** C17. Large allocations round trip.  [kmalloc] of more than 4096 bytes (up
    to the largest block less the header) either fails without effect or
    returns a pointer 16 bytes into a fresh block of the smallest order that
    holds the 16 bytes of header and the request together; the header records
    the size, and [kfree] of that pointer is recognised as a buddy allocation
    and gives exactly that block back.  Because the header counts, 65536 bytes
    take a block of order 5 ([kmalloc_64k_order]), where [docs/MEMORY_LAYOUT.md]
    has order 4. *)
Theorem kmalloc_large_roundtrip (h : heap B) (b : B) (live : list (Z * Z)) (size : Z)
    (Hb : sy_pages (h_slab h) = Some b) (Hinv : pa_inv b live) (Hp : slabs_paged h)
    (Hs : 4096 < size <= 0x800000 - 16) :
  let '(ptr, h1) := kmalloc h size in
  (ptr = 0 /\ h1 = h) \/
  (exists phys order b1 b2,
     ptr = PHYS_TO_VIRT phys + 16 /\ size + 16 <= BUDDY_SIZE_FOR_ORDER order /\
     BUDDY_SIZE_FOR_ORDER (order - 1) < size + 16 /\
     sy_pages (h_slab h1) = Some b1 /\ pa_inv b1 ((phys, order) :: live) /\
     get_buddy_size h1 ptr = size /\
     sy_pages (h_slab (kfree h1 ptr)) = Some b2 /\ pa_inv b2 live).
Proof.
  unfold kmalloc. rewrite (proj2 (Z.eqb_neq size 0)), (proj2 (Z.leb_gt _ _)) by lia. rewrite Hb.
  unfold sizeof_header. rewrite (u64_small (size + 16)) by lia.
  destruct (order_for_size_spec (size + 16)) as (Ho & Hcov & Hmin).
  { change (2 ^ 64) with 18446744073709551616. unfold PAGE_SIZE. lia. }
  cbv zeta in Ho, Hcov, Hmin. set (o := buddy_get_order_for_size (size + 16)) in *. unfold BUDDY_MAX_ORDER in *.
  rewrite (u8_small o) by lia. pose proof (pa_alloc_law b live o Hinv ltac:(lia)) as Hal.
  destruct (pa_alloc_order b o) as [phys b1].
  destruct Hal as [[-> ->]|(Hpos & Hmod & Hfit & Hinv1 & _)].
  { left. split; [done|]. destruct h as [s m]; cbn in *. f_equal. destruct s; cbn in *. by subst. }
  rewrite (proj2 (Z.eqb_neq phys 0)) by lia. right.
  assert (size + 16 <= BUDDY_SIZE_FOR_ORDER o) as Hsz.
  { unfold BUDDY_SIZE_FOR_ORDER, PAGE_SIZE in *. rewrite PAGES_PER_ORDER_pow by lia.
    destruct Hcov as [Hcov| ->]; [dlia|change (2 ^ 11) with 2048; lia]. }
  assert (BUDDY_SIZE_FOR_ORDER (o - 1) < size + 16) as Hless.
  { assert (0 < o) as Hpo by (destruct (decide (o = 0)) as [E|]; [|lia];
      unfold BUDDY_SIZE_FOR_ORDER in Hsz; rewrite E in Hsz; change (BUDDY_PAGES_PER_ORDER 0) with 1 in Hsz;
      unfold PAGE_SIZE in Hsz; lia).
    specialize (Hmin Hpo). unfold BUDDY_SIZE_FOR_ORDER, PAGE_SIZE in *. rewrite PAGES_PER_ORDER_pow by lia. dlia. }
  change (2 ^ 42) with 4398046511104 in Hfit.
  assert (PHYS_TO_VIRT phys = phys + VIRT_PHYS_MAP_BASE) as Ev
    by (apply PHYS_TO_VIRT_eq; change (2 ^ 47) with 140737488355328; lia).
  assert (VIRT_TO_PHYS (PHYS_TO_VIRT phys) = phys) as Evp
    by (apply VIRT_PHYS_inv; change (2 ^ 47) with 140737488355328; lia).
  set (v := PHYS_TO_VIRT phys) in *. assert (VIRT_PHYS_MAP_BASE = 18446603336221196288) as EM by reflexivity.
  rewrite (u64_small (v + 16)) by lia. set (m3 := wr_le (wr_le _ _ _ _) _ _ _).
  exists phys, o, b1, (pa_free b1 phys).
  assert (rd_le m3 v 4 = BUDDY_MAGIC /\ rd_le m3 (v + 8) 8 = size) as [Hmagic Hsize].
  { unfold m3. split; [rewrite !rd_wr_le_ne by lia|]; apply rd_wr_le; [by vm_compute|].
    change (256 ^ Z.of_nat 8) with 18446744073709551616. lia. }
  set (h1 := with_kmem _ m3).
  assert (is_buddy_allocation h1 (v + 16) = true) as His.
  { unfold is_buddy_allocation. rewrite (proj2 (Z.eqb_neq (v + 16) 0)) by lia.
    change (sy_slabs (h_slab h1)) with (sy_slabs (h_slab h)). change (kmem h1) with m3.
    destruct (sy_slabs (h_slab h) !! (v + 16 - sizeof_slab_t)) as [x|] eqn:E.
    - exfalso. specialize (Hp (v + 16 - sizeof_slab_t) ltac:(by eexists)).
      rewrite Ev, EM in Hp. unfold PAGE_SIZE, sizeof_slab_t in *. dlia.
    - unfold sizeof_header. replace (v + 16 - 16) with v by lia. rewrite Hmagic. apply Z.eqb_refl. }
  split_and!; try done.
  - unfold get_buddy_size, sizeof_header. change (kmem h1) with m3.
    replace (v + 16 - 16 + 8) with (v + 8) by lia. done.
  - unfold kfree. rewrite (proj2 (Z.eqb_neq (v + 16) 0)), His by lia.
    change (sy_pages (h_slab h1)) with (Some b1). unfold sizeof_header.
    replace (v + 16 - 16) with v by lia. rewrite u64_small by lia. by rewrite Evp.
  - exact (pa_free_law b1 [] phys o live Hinv1).
Qed.

(** [krealloc] never enlarges a slab object: for any pointer not taken for
    a buddy allocation and any non-zero new size it returns the pointer
    itself, with nothing allocated or copied, because the old size is
    assumed to equal the new one. *)
Theorem krealloc_keeps_slab_object (h : heap B) (ptr new_size : Z)
    (Hptr : ptr <> 0) (Hsize : new_size <> 0) (Hslab : is_buddy_allocation h ptr = false) :
  krealloc h ptr new_size = (ptr, h).
Proof.
  unfold krealloc. rewrite (proj2 (Z.eqb_neq ptr 0)), (proj2 (Z.eqb_neq new_size 0)) by done.
  by rewrite Hslab, Z.leb_refl.
Qed.

(** [kcalloc] refuses requests whose total size overflows 64 bits;
    otherwise it is [kmalloc] of the product, and a non-null result is zero
    in all its bytes. *)
Theorem kcalloc_correct (h : heap B) (num size : Z)
    (Hn : 0 <= num < 2 ^ 64) (Hs : 0 <= size < 2 ^ 64) :
  (2 ^ 64 <= num * size -> kcalloc h num size = (0, h)) /\
  (num * size < 2 ^ 64 ->
     let '(ptr, h') := kcalloc h num size in
     ptr = fst (kmalloc h (num * size)) /\ h_slab h' = h_slab (snd (kmalloc h (num * size))) /\
     (ptr <> 0 -> bytes_at (kmem h') ptr (replicate (Z.to_nat (num * size)) 0))).
Proof.
  change (2 ^ 64) with 18446744073709551616 in *. unfold kcalloc. cbv zeta. split; intros Hov.
  - assert (num <> 0) as Hn0 by nia. rewrite (proj2 (Z.eqb_neq num 0)) by done. cbn [negb andb].
    assert (u64 (num * size) / num <> size) as Hne.
    { pose proof (u64_range (num * size)). intros E.
      pose proof (Z.mul_div_le (u64 (num * size)) num ltac:(lia)). rewrite E in *. lia. }
    by rewrite (proj2 (Z.eqb_neq _ _) Hne).
  - rewrite u64_small by nia.
    assert (negb (num =? 0) && negb (num * size / num =? size) = false) as ->.
    { destruct (Z.eqb_spec num 0) as [->|Hn0]; [done|]. rewrite Z.mul_comm, Z.div_mul by done.
      by rewrite Z.eqb_refl. }
    destruct (kmalloc h (num * size)) as [ptr h1]. cbn [fst snd]. destruct (Z.eqb_spec ptr 0) as [->|Hp]; [done|].
    split; [done|]. split; [done|]. intros _. cbn [kmem with_kmem]. exact (proj1 (memset_spec _ _ _ 0)).
Qed.

Lemma pages_order_loop_spec fuel n o :
  0 <= o <= BUDDY_MAX_ORDER -> BUDDY_MAX_ORDER - o < Z.of_nat fuel -> (0 < o -> 2 ^ (o - 1) < n) ->
  exists r, pages_order_loop fuel n o (2 ^ o) = (r, 2 ^ r) /\ 0 <= r <= BUDDY_MAX_ORDER /\
    (n <= 2 ^ r \/ r = BUDDY_MAX_ORDER) /\ (0 < r -> 2 ^ (r - 1) < n).
Proof.
  revert o. induction fuel as [|fuel IH]; intros o Ho Hf Hlow; [lia|]. cbn [pages_order_loop].
  destruct (Z.ltb_spec (2 ^ o) n); destruct (Z.ltb_spec o BUDDY_MAX_ORDER); cbn [andb].
  - rewrite PAGES_PER_ORDER_pow by lia. apply IH; [lia|lia|]. by replace (o + 1 - 1) with o by lia.
  - exists o. split_and!; try done; try lia; right; lia.
  - exists o. split_and!; try done; try lia; by left.
  - exists o. split_and!; try done; try lia; by left.
Qed.

Lemma kfree_pages_block (h : heap B) (b : B) (phys n : Z) :
  sy_pages (h_slab h) = Some b -> PHYS_TO_VIRT phys <> 0 -> 0 <= phys < 2 ^ 47 ->
  sy_pages (h_slab (kfree_pages h (PHYS_TO_VIRT phys) n)) = Some (pa_free b phys).
Proof.
  intros Hb H0 Hr. unfold kfree_pages. rewrite (proj2 (Z.eqb_neq _ 0) H0), Hb.
  cbn [sy_pages h_slab with_h_slab with_pages]. by rewrite VIRT_PHYS_inv.
Qed.

(** The block behind a result of [kmalloc_pages]. *)
Lemma kmalloc_pages_block (h : heap B) (b : B) (live : list (Z * Z)) (n : Z) :
  sy_pages (h_slab h) = Some b -> pa_inv b live -> 0 < n ->
  let '(ptr, h1) := kmalloc_pages h n in
  (ptr = 0 /\ h1 = h) \/
  (n <= 2048 /\ ptr <> 0 /\ kmem h1 = kmem h /\ exists phys order b1, ptr = PHYS_TO_VIRT phys /\
     n <= 2 ^ order /\ (0 < order -> 2 ^ (order - 1) < n) /\
     0 < phys /\ phys mod PAGE_SIZE = 0 /\ phys + 4096 * 2 ^ order <= 2 ^ 42 /\
     Forall (fun '(q, o) => phys + 4096 * 2 ^ order <= q \/ q + BUDDY_SIZE_FOR_ORDER o <= phys) live /\
     BUDDY_SIZE_FOR_ORDER order = 4096 * 2 ^ order /\
     sy_pages (h_slab h1) = Some b1 /\ pa_inv b1 ((phys, order) :: live)).
Proof.
  intros Hb Hinv Hn. unfold kmalloc_pages. rewrite (proj2 (Z.eqb_neq n 0)) by lia. rewrite Hb.
  destruct (pages_order_loop_spec BUDDY_FUEL n 0) as (o & E & Ho & Hcov & Hlow);
    [unfold BUDDY_MAX_ORDER; lia|unfold BUDDY_MAX_ORDER, BUDDY_FUEL; lia|lia|].
  change (2 ^ 0) with 1 in E. rewrite E. destruct (Z.ltb_spec (2 ^ o) n) as [Hlt|Hge]; [by left|].
  pose proof (pa_alloc_law b live o Hinv ltac:(lia)) as Hal. destruct (pa_alloc_order b o) as [phys b1].
  destruct Hal as [[-> ->]|(Hpos & Hmod & Hfit & Hinv1 & Hdis)].
  { left. split; [done|]. destruct h as [s m]; cbn in *. f_equal. destruct s; cbn in *. by subst. }
  rewrite (proj2 (Z.eqb_neq phys 0)) by lia. right. unfold BUDDY_MAX_ORDER in *.
  assert (2 ^ o <= 2 ^ 11) as Hpw by (apply Z.pow_le_mono_r; lia). change (2 ^ 11) with 2048 in Hpw.
  assert (Hsz : BUDDY_SIZE_FOR_ORDER o = 4096 * 2 ^ o).
  { unfold BUDDY_SIZE_FOR_ORDER, PAGE_SIZE. rewrite PAGES_PER_ORDER_pow by lia. lia. }
  rewrite Hsz in Hfit, Hdis. pose proof (pow2_pos o ltac:(lia)). change (2 ^ 42) with 4398046511104 in *.
  split; [lia|]. split.
  { rewrite PHYS_TO_VIRT_eq by (change (2 ^ 47) with 140737488355328; lia). unfold VIRT_PHYS_MAP_BASE. lia. }
  split; [done|]. exists phys, o, b1. split_and!; done.
Qed.

(** [kmalloc_pages] refuses more than 2048 pages; otherwise it fails
    without effect or returns the virtual address of a fresh block of the
    smallest order that holds [num_pages] pages, and [kfree_pages] gives that
    block back. *)
Theorem kmalloc_pages_correct (h : heap B) (b : B) (live : list (Z * Z)) (n : Z)
    (Hb : sy_pages (h_slab h) = Some b) (Hinv : pa_inv b live) (Hn : 0 < n) :
  let '(ptr, h1) := kmalloc_pages h n in
  (ptr = 0 /\ h1 = h) \/
  (n <= 2048 /\ exists phys order b1 b2, ptr = PHYS_TO_VIRT phys /\ n <= 2 ^ order /\ (0 < order -> 2 ^ (order - 1) < n) /\
     sy_pages (h_slab h1) = Some b1 /\ pa_inv b1 ((phys, order) :: live) /\
     sy_pages (h_slab (kfree_pages h1 ptr n)) = Some b2 /\ pa_inv b2 live).
Proof.
  pose proof (kmalloc_pages_block h b live n Hb Hinv Hn) as H1. destruct (kmalloc_pages h n) as [ptr h1].
  destruct H1 as [H1|(H1 & H2 & H3 & phys & o & b1 & -> & H4 & H5 & H6 & H7 & H8 & H9 & H10 & H11 & H12)]; [by left|].
  right. split; [done|]. exists phys, o, b1, (pa_free b1 phys). repeat (split; [done|]).
  split; [|exact (pa_free_law b1 [] phys o live H12)].
  apply (kfree_pages_block h1 b1 phys n H11 H2). pose proof (Z.pow_nonneg 2 o ltac:(lia)).
  change (2 ^ 42) with 4398046511104 in H8. change (2 ^ 47) with 140737488355328. lia.
Qed.
End heap_theorems.

Definition kernel_heap : heap buddy := mkHeap kernel_sys ∅.

Lemma kmalloc_large_roundtrip_witness :
  exists phys, fst (kmalloc kernel_heap 10000) = PHYS_TO_VIRT phys + 16 /\
    get_buddy_size (snd (kmalloc kernel_heap 10000)) (PHYS_TO_VIRT phys + 16) = 10000.
Proof.
  destruct kernel_pages as [E Hinv].
  pose proof (kmalloc_large_roundtrip kernel_heap kernel_buddy [] 10000 E Hinv) as H.
  assert (fst (kmalloc kernel_heap 10000) <> 0) as Hn by (vm_compute; discriminate).
  destruct (kmalloc kernel_heap 10000) as [ptr h1].
  destruct H as [[-> _]|(phys & o & b1 & b2 & -> & _ & _ & _ & _ & H & _)].
  - intros p [x Hx]. discriminate.
  - lia.
  - destruct (Hn eq_refl).
  - exists phys. split; [reflexivity|exact H].
Defined.

(** With its header a request of 65536 bytes does not fit 16 pages. *)
Example kmalloc_64k_order : buddy_get_order_for_size (u64 (65536 + sizeof_header)) = 5.
Proof. reflexivity. Qed.

Lemma krealloc_keeps_slab_object_witness :
  krealloc kernel_heap 0x1000 5000 = (0x1000, kernel_heap).
Proof. apply (krealloc_keeps_slab_object kernel_heap 0x1000 5000); [discriminate|discriminate|reflexivity]. Defined.

Lemma kcalloc_correct_witness : kcalloc kernel_heap (2 ^ 33) (2 ^ 33) = (0, kernel_heap).
Proof.
  assert (0 <= 2 ^ 33 < 2 ^ 64) as H33 by (split; [discriminate|reflexivity]).
  exact (proj1 (kcalloc_correct kernel_heap (2 ^ 33) (2 ^ 33) H33 H33) ltac:(discriminate)).
Defined.

Lemma kmalloc_pages_correct_witness :
  exists phys, fst (kmalloc_pages kernel_heap 3) = PHYS_TO_VIRT phys.
Proof.
  destruct kernel_pages as [E Hinv].
  pose proof (kmalloc_pages_correct kernel_heap kernel_buddy [] 3 E Hinv ltac:(lia)) as H.
  assert (fst (kmalloc_pages kernel_heap 3) <> 0) as Hn by (vm_compute; discriminate).
  destruct (kmalloc_pages kernel_heap 3) as [ptr h1].
  destruct H as [[-> _]|(_ & phys & o & b1 & b2 & -> & _)]; [destruct (Hn eq_refl)|].
  exists phys. reflexivity.
Defined.
