(* ===== verification/Task.v ===== *)
(** * Tasks and scheduler: scheduler/task.h, scheduler/task.c, drivers/pit.c (definitions)

    Task structures live in a store keyed by address; 0 is the null pointer and
    a freed task is removed from the store.  The ready queue and the sleep queue
    are threaded through the [next] field as in the code.  [task_switch] only
    changes which task runs: the register save areas are data of the tasks
    ([context]) and the assembly routine is not modelled.  The kernel heap is
    reached through [KHeap], of which [kmalloc] and [kfree] are the instance.
    Serial and console output is not modelled. *)

From S2P Require Import Prelude Errno Buddy Slab SlabThms Kmalloc.

Class KHeap (A : Type) := {
  kh_alloc : A -> Z -> Z * A;
  kh_free : A -> Z -> A;
}.

#[export] Instance kmalloc_heap : KHeap (heap buddy) := {
  kh_alloc h size := kmalloc h size;
  kh_free h p := kfree h p;
}.

Inductive task_state := READY | RUNNING | BLOCKED | SLEEPING | TERMINATED.
#[export] Instance task_state_eq_dec : EqDecision task_state.
Proof. solve_decision. Defined.

Record task := mkTask {
  pid : Z;
  t_name : list Z;
  t_state : task_state;
  context : Z;
  stack_base : Z;
  stack_top : Z;
  time_slice : Z;
  total_runtime : Z;
  wake_time : Z;
  t_next : Z;
}.

Definition null_task : task := mkTask 0 [] TERMINATED 0 0 0 0 0 0 0.

Definition TASK_STACK_SIZE : Z := 8192.
Definition TIME_SLICE_TICKS : Z := 10.
Definition INITIAL_TASK_CAPACITY : Z := 8.
Definition sizeof_task_t : Z := 96.
Definition sizeof_ptr : Z := 8.

(** Field assignments. *)
Definition set_t_state (v : task_state) (t : task) : task :=
  mkTask (pid t) (t_name t) v (context t) (stack_base t) (stack_top t) (time_slice t)
    (total_runtime t) (wake_time t) (t_next t).
Definition set_slice (v : Z) (t : task) : task :=
  mkTask (pid t) (t_name t) (t_state t) (context t) (stack_base t) (stack_top t) v
    (total_runtime t) (wake_time t) (t_next t).
Definition set_runtime (v : Z) (t : task) : task :=
  mkTask (pid t) (t_name t) (t_state t) (context t) (stack_base t) (stack_top t) (time_slice t)
    v (wake_time t) (t_next t).
Definition set_wake (v : Z) (t : task) : task :=
  mkTask (pid t) (t_name t) (t_state t) (context t) (stack_base t) (stack_top t) (time_slice t)
    (total_runtime t) v (t_next t).
Definition set_t_next (v : Z) (t : task) : task :=
  mkTask (pid t) (t_name t) (t_state t) (context t) (stack_base t) (stack_top t) (time_slice t)
    (total_runtime t) (wake_time t) v.

Record sched (A : Type) := mkSched {
  tasks : gmap Z task;
  task_table : list Z;
  table_ptr : Z;
  task_table_size : Z;
  current_task : Z;
  idle_task : Z;
  ready_queue_head : Z;
  ready_queue_tail : Z;
  sleep_queue_head : Z;
  reap_counter : Z;
  pit_ticks : Z;
  stack_mem : gmap Z Z;
  k_heap : A;
}.
Arguments mkSched {A}. Arguments tasks {A}. Arguments task_table {A}. Arguments table_ptr {A}.
Arguments task_table_size {A}. Arguments current_task {A}. Arguments idle_task {A}.
Arguments ready_queue_head {A}. Arguments ready_queue_tail {A}. Arguments sleep_queue_head {A}.
Arguments reap_counter {A}. Arguments pit_ticks {A}. Arguments stack_mem {A}. Arguments k_heap {A}.

Section scheduler.
Context {A : Type} `{KHeap A}.
Implicit Types s : sched A.

(** ** State access *)

Definition with_tasks s m : sched A :=
  mkSched m (task_table s) (table_ptr s) (task_table_size s) (current_task s) (idle_task s)
    (ready_queue_head s) (ready_queue_tail s) (sleep_queue_head s) (reap_counter s) (pit_ticks s) (stack_mem s) (k_heap s).
Definition with_table s tb p n : sched A :=
  mkSched (tasks s) tb p n (current_task s) (idle_task s)
    (ready_queue_head s) (ready_queue_tail s) (sleep_queue_head s) (reap_counter s) (pit_ticks s) (stack_mem s) (k_heap s).
Definition with_current s c : sched A :=
  mkSched (tasks s) (task_table s) (table_ptr s) (task_table_size s) c (idle_task s)
    (ready_queue_head s) (ready_queue_tail s) (sleep_queue_head s) (reap_counter s) (pit_ticks s) (stack_mem s) (k_heap s).
Definition with_idle s i : sched A :=
  mkSched (tasks s) (task_table s) (table_ptr s) (task_table_size s) (current_task s) i
    (ready_queue_head s) (ready_queue_tail s) (sleep_queue_head s) (reap_counter s) (pit_ticks s) (stack_mem s) (k_heap s).
Definition with_ready s hd tl : sched A :=
  mkSched (tasks s) (task_table s) (table_ptr s) (task_table_size s) (current_task s) (idle_task s)
    hd tl (sleep_queue_head s) (reap_counter s) (pit_ticks s) (stack_mem s) (k_heap s).
Definition with_sleep s hd : sched A :=
  mkSched (tasks s) (task_table s) (table_ptr s) (task_table_size s) (current_task s) (idle_task s)
    (ready_queue_head s) (ready_queue_tail s) hd (reap_counter s) (pit_ticks s) (stack_mem s) (k_heap s).
Definition with_reap s n : sched A :=
  mkSched (tasks s) (task_table s) (table_ptr s) (task_table_size s) (current_task s) (idle_task s)
    (ready_queue_head s) (ready_queue_tail s) (sleep_queue_head s) n (pit_ticks s) (stack_mem s) (k_heap s).
Definition with_ticks s n : sched A :=
  mkSched (tasks s) (task_table s) (table_ptr s) (task_table_size s) (current_task s) (idle_task s)
    (ready_queue_head s) (ready_queue_tail s) (sleep_queue_head s) (reap_counter s) n (stack_mem s) (k_heap s).
Definition with_stack s m : sched A :=
  mkSched (tasks s) (task_table s) (table_ptr s) (task_table_size s) (current_task s) (idle_task s)
    (ready_queue_head s) (ready_queue_tail s) (sleep_queue_head s) (reap_counter s) (pit_ticks s) m (k_heap s).
Definition with_heap s h : sched A :=
  mkSched (tasks s) (task_table s) (table_ptr s) (task_table_size s) (current_task s) (idle_task s)
    (ready_queue_head s) (ready_queue_tail s) (sleep_queue_head s) (reap_counter s) (pit_ticks s) (stack_mem s) h.

Definition task_at s (p : Z) : task := default null_task (tasks s !! p).
Definition upd_task s (p : Z) (f : task -> task) : sched A :=
  with_tasks s (<[p := f (task_at s p)]> (tasks s)).
Definition task_table_capacity s : Z := Z.of_nat (length (task_table s)).
Definition kfree_mem s (p : Z) : sched A := with_heap s (kh_free (k_heap s) p).

(** A queue holds each task at most once, so it is no longer than the store. *)
Definition queue_fuel s : nat := S (size (tasks s)).

(** ** Ready queue *)

Definition scheduler_add_task s (task : Z) : sched A :=
  if task =? 0 then s
  else
    let s := upd_task s task (set_t_state READY) in
    let s := upd_task s task (set_t_next 0) in
    if ready_queue_head s =? 0 then with_ready s task task
    else
      let s := upd_task s (ready_queue_tail s) (set_t_next task) in
      with_ready s (ready_queue_head s) task.

(** [while (curr)] in [scheduler_remove_task]. *)
Fixpoint remove_search (fuel : nat) s (task prev curr : Z) : sched A :=
  match fuel with
  | O => s
  | S fuel' =>
      if curr =? 0 then s
      else if curr =? task then
        let s := upd_task s prev (set_t_next (t_next (task_at s curr))) in
        let s := if ready_queue_tail s =? curr then with_ready s (ready_queue_head s) prev else s in
        upd_task s task (set_t_next 0)
      else remove_search fuel' s task curr (t_next (task_at s curr))
  end.

Definition scheduler_remove_task s (task : Z) : sched A :=
  if (task =? 0) || (ready_queue_head s =? 0) then s
  else if ready_queue_head s =? task then
    let hd := t_next (task_at s task) in
    let s := with_ready s hd (if hd =? 0 then 0 else ready_queue_tail s) in
    upd_task s task (set_t_next 0)
  else
    remove_search (queue_fuel s) s task (ready_queue_head s) (t_next (task_at s (ready_queue_head s))).

Definition scheduler_pick_next s : Z * sched A :=
  if ready_queue_head s =? 0 then (idle_task s, s)
  else
    let next := ready_queue_head s in
    let hd := t_next (task_at s next) in
    let s := with_ready s hd (if hd =? 0 then 0 else ready_queue_tail s) in
    (next, upd_task s next (set_t_next 0)).

(** ** Sleeping tasks *)

Fixpoint wake_loop (fuel : nat) s (current_ticks prev curr : Z) : sched A :=
  match fuel with
  | O => s
  | S fuel' =>
      if curr =? 0 then s
      else
        let next := t_next (task_at s curr) in
        if wake_time (task_at s curr) <=? current_ticks then
          let s := if prev =? 0 then with_sleep s next else upd_task s prev (set_t_next next) in
          let s := upd_task s curr (set_t_next 0) in
          let s := scheduler_add_task s curr in
          wake_loop fuel' s current_ticks prev next
        else wake_loop fuel' s current_ticks curr next
  end.

Definition scheduler_check_sleeping_tasks s : sched A :=
  if sleep_queue_head s =? 0 then s
  else wake_loop (queue_fuel s) s (pit_ticks s) 0 (sleep_queue_head s).

(** ** Reaping *)

Definition reap_slot s (i : Z) : sched A :=
  let task := nthz (task_table s) i in
  if negb (task =? 0) && bool_decide (t_state (task_at s task) = TERMINATED) && negb (task =? current_task s) then
    let base := stack_base (task_at s task) in
    let s := if base =? 0 then s else kfree_mem s base in
    let s := with_table s (updz (task_table s) i 0) (table_ptr s) (u32 (task_table_size s - 1)) in
    let s := kfree_mem s task in
    with_tasks s (delete task (tasks s))
  else s.

Definition scheduler_reap_terminated s : sched A :=
  for_range 0 (task_table_capacity s) (fun i s => reap_slot s i) s.

(** ** The tick *)

Definition scheduler_tick s : sched A :=
  if current_task s =? 0 then s
  else
    let s := scheduler_check_sleeping_tasks s in
    let s := with_reap s (u64 (reap_counter s + 1)) in
    let s := if 100 <=? reap_counter s then scheduler_reap_terminated (with_reap s 0) else s in
    let cur := current_task s in
    let s :=
      if 0 <? time_slice (task_at s cur)
      then upd_task s cur (fun t => set_slice (time_slice t - 1) t) else s in
    let s := upd_task s cur (fun t => set_runtime (u64 (total_runtime t + 1)) t) in
    if time_slice (task_at s cur) =? 0 then
      let old_task := cur in
      let '(new_task, s) := scheduler_pick_next s in
      if negb (new_task =? 0) && negb (new_task =? old_task) then
        let s :=
          if bool_decide (t_state (task_at s old_task) = RUNNING) then
            let s := upd_task s old_task (set_t_state READY) in
            let s := upd_task s old_task (set_slice TIME_SLICE_TICKS) in
            scheduler_add_task s old_task
          else s in
        let s := upd_task s new_task (set_t_state RUNNING) in
        let s := upd_task s new_task (set_slice TIME_SLICE_TICKS) in
        with_current s new_task
      else upd_task s (current_task s) (set_slice TIME_SLICE_TICKS)
    else s.

(** [pit_handler]; the tick callback is not part of the scheduler. *)
Definition pit_handler s : sched A :=
  scheduler_tick (with_ticks s (u64 (pit_ticks s + 1))).

(** ** Operations of the running task *)

Definition task_yield s : sched A :=
  if current_task s =? 0 then s
  else scheduler_tick (upd_task s (current_task s) (set_slice 0)).

Definition task_block s : sched A :=
  if current_task s =? 0 then s
  else task_yield (upd_task s (current_task s) (set_t_state BLOCKED)).

Definition task_unblock s (task : Z) : sched A :=
  if (task =? 0) || negb (bool_decide (t_state (task_at s task) = BLOCKED)) then s
  else scheduler_add_task s task.

Definition task_sleep s (ticks : Z) : sched A :=
  if (current_task s =? 0) || (ticks =? 0) then s
  else if current_task s =? idle_task s then s
  else
    let cur := current_task s in
    let s := upd_task s cur (set_wake (u64 (pit_ticks s + ticks))) in
    let s := upd_task s cur (set_t_state SLEEPING) in
    let s := upd_task s cur (set_t_next (sleep_queue_head s)) in
    let s := with_sleep s cur in
    let s := upd_task s cur (set_slice 0) in
    scheduler_tick s.

(** [task_exit]; [None] for the idle task, which halts the machine. *)
Definition task_exit s : option (sched A) :=
  if current_task s =? 0 then Some s
  else if current_task s =? idle_task s then None
  else
    let cur := current_task s in
    let s := upd_task s cur (set_t_state TERMINATED) in
    let s := scheduler_remove_task s cur in
    let s := upd_task s cur (set_slice 0) in
    Some (scheduler_tick s).

(** ** Creating and destroying tasks *)

Definition task_table_grow s : kerr_t * sched A :=
  let new_capacity := u32 (task_table_capacity s * 2) in
  let '(new_table, h) := kh_alloc (k_heap s) (new_capacity * sizeof_ptr) in
  let s := with_heap s h in
  if new_table =? 0 then (E_NOMEM, s)
  else
    let tb := task_table s ++ replicate (Z.to_nat (new_capacity - task_table_capacity s)) 0 in
    let s := kfree_mem s (table_ptr s) in
    (E_OK, with_table s tb new_table (task_table_size s)).

(** [None] stands for [(uint32_t)-1]. *)
Definition task_find_free_slot s : option Z * sched A :=
  match find_range 0 (task_table_capacity s) (fun i => nthz (task_table s) i =? 0) with
  | Some i => (Some i, s)
  | None =>
      let '(err, s) := task_table_grow s in
      if negb (is_ok err) then (None, s) else (Some (task_table_capacity s / 2), s)
  end.

Definition task_init s : kerr_t * sched A :=
  let '(tb, h) := kh_alloc (k_heap s) (INITIAL_TASK_CAPACITY * sizeof_ptr) in
  let s := with_heap s h in
  if tb =? 0 then (E_NOMEM, s)
  else
    let s := with_table s (replicate 8 0) tb 0 in
    let s := with_current s 0 in
    let s := with_ready s 0 0 in
    (E_OK, with_sleep s 0).

(** The initial stack: padding, the return guard, the entry point and six
    zero registers, at addresses below [top]. *)
Definition initial_stack (m : gmap Z Z) (top task_return_error entry_point : Z) : gmap Z Z :=
  let m := <[top - 24 := task_return_error]> m in
  let m := <[top - 32 := entry_point]> m in
  let m := <[top - 40 := 0]> m in
  let m := <[top - 48 := 0]> m in
  let m := <[top - 56 := 0]> m in
  let m := <[top - 64 := 0]> m in
  let m := <[top - 72 := 0]> m in
  <[top - 80 := 0]> m.

(** [guard] is the address of [task_return_error]. *)
Definition task_create s (guard : Z) (name : list Z) (entry_point : Z) : Z * sched A :=
  let '(slot, s) := task_find_free_slot s in
  match slot with
  | None => (0, s)
  | Some slot =>
      let '(task, h) := kh_alloc (k_heap s) sizeof_task_t in
      let s := with_heap s h in
      if task =? 0 then (0, s)
      else
        let '(base, h) := kh_alloc (k_heap s) TASK_STACK_SIZE in
        let s := with_heap s h in
        if base =? 0 then (0, kfree_mem s task)
        else
          let top := u64 (base + TASK_STACK_SIZE) in
          let s := with_stack s (initial_stack (stack_mem s) top guard entry_point) in
          let s := upd_task s task (fun _ =>
            mkTask slot (take 31 name) READY (top - 80) base top TIME_SLICE_TICKS 0 0 0) in
          let s := with_table s (updz (task_table s) slot task) (table_ptr s) (u32 (task_table_size s + 1)) in
          (task, s)
  end.

Definition scheduler_init s (guard idle_task_entry : Z) : kerr_t * sched A :=
  let '(t, s) := task_create s guard (str "idle") idle_task_entry in
  let s := with_idle s t in
  if t =? 0 then (E_NOMEM, s)
  else (E_OK, with_current (upd_task s t (set_t_state RUNNING)) t).

(** The walk that unlinks a task from the sleep queue. *)
Fixpoint unsleep_loop (fuel : nat) s (task curr : Z) : sched A :=
  match fuel with
  | O => s
  | S fuel' =>
      if (curr =? 0) || (t_next (task_at s curr) =? 0) then s
      else if t_next (task_at s curr) =? task
      then upd_task s curr (set_t_next (t_next (task_at s task)))
      else unsleep_loop fuel' s task (t_next (task_at s curr))
  end.

Definition task_destroy s (task : Z) : sched A :=
  if task =? 0 then s
  else if task =? current_task s then s
  else
    let s := upd_task s task (set_t_state TERMINATED) in
    let s := scheduler_remove_task s task in
    let s :=
      if sleep_queue_head s =? task then with_sleep s (t_next (task_at s task))
      else unsleep_loop (queue_fuel s) s task (sleep_queue_head s) in
    let t := task_at s task in
    let s := if stack_base t =? 0 then s else kfree_mem s (stack_base t) in
    let s :=
      if pid t <? task_table_capacity s
      then with_table s (updz (task_table s) (pid t) 0) (table_ptr s) (u32 (task_table_size s - 1)) else s in
    let s := kfree_mem s task in
    with_tasks s (delete task (tasks s)).

(** ** Queries *)

Definition task_get_by_pid s (p : Z) : Z :=
  if task_table_capacity s <=? p then 0 else nthz (task_table s) p.

Definition task_get_by_name s (name : list Z) : Z :=
  match find_range 0 (task_table_capacity s) (fun i =>
    let t := nthz (task_table s) i in
    negb (t =? 0) && bool_decide (t_name (task_at s t) = name)) with
  | Some i => nthz (task_table s) i
  | None => 0
  end.

Definition task_pidof s (task : Z) : Z :=
  if task =? 0 then 4294967295 else pid (task_at s task).
End scheduler.
