(* ===== verification/TaskInv.v ===== *)
(** * Scheduler: the queues as lists, and the abstract scheduler

    [queues s rq sq] says that the ready queue of [s] is the list [rq] and its
    sleep queue the list [sq] of task addresses.  The queue operations are
    shown to be append, removal and filtering; [sched_rel] relates the
    scheduler's state to an abstract round-robin scheduler. *)

From S2P Require Import Prelude Errno Task.

(** ** Linked queues *)

Fixpoint tseg (m : gmap Z task) (p : Z) (q : list Z) : Prop :=
  match q with
  | [] => p = 0
  | x :: q' => p = x /\ x <> 0 /\ exists t, m !! x = Some t /\ tseg m (t_next t) q'
  end.

(** Only the members' [next] fields matter. *)
Lemma tseg_ext m m' p q :
  (forall x t, x ∈ q -> m !! x = Some t -> exists t', m' !! x = Some t' /\ t_next t' = t_next t) ->
  tseg m p q -> tseg m' p q.
Proof.
  revert p. induction q as [|x q IH]; intros p Hext; [done|]. intros (-> & H0 & t & Ht & Hq).
  destruct (Hext x t) as (t' & Ht' & En); [set_solver|done|]. split; [done|]. split; [done|].
  exists t'. split; [done|]. rewrite En. apply IH; [|done]. intros y ty Hy. apply Hext. set_solver.
Qed.

Lemma tseg_insert_ne m p q x t : x ∉ q -> tseg m p q -> tseg (<[x := t]> m) p q.
Proof.
  intros Hx. apply tseg_ext. intros y ty Hy Hl. exists ty. split; [|done].
  rewrite lookup_insert_ne; [done|]. intros ->. done.
Qed.

Lemma tseg_nonzero m p q : tseg m p q -> 0 ∉ q.
Proof.
  revert p. induction q as [|x q IH]; intros p; [set_solver|]. intros (_ & H0 & t & _ & Hq).
  apply IH in Hq. set_solver.
Qed.

Lemma tseg_stored m p q x : tseg m p q -> x ∈ q -> is_Some (m !! x).
Proof.
  revert p. induction q as [|y q IH]; intros p Hs Hx; [set_solver|].
  destruct Hs as (_ & _ & t & Ht & Hq). apply elem_of_cons in Hx as [->|Hx]; [by eexists|by eapply IH].
Qed.

Lemma tseg_head m p q : tseg m p q -> p = default 0 (head q).
Proof. destruct q; [done|]. by intros (-> & _). Qed.

Lemma tseg_suffix m p l1 l2 : tseg m p (l1 ++ l2) -> tseg m (default 0 (head l2)) l2.
Proof.
  revert p. induction l1 as [|x l1 IH]; intros p; cbn [app].
  - intros Hs. by rewrite <- (tseg_head _ _ _ Hs).
  - intros (_ & _ & t & _ & Hs). by eapply IH.
Qed.

Lemma length_le_size (m : gmap Z task) q :
  NoDup q -> (forall x, x ∈ q -> is_Some (m !! x)) -> (length q <= size m)%nat.
Proof.
  intros Hnd Hall. rewrite <- size_dom, <- (size_list_to_set (C := gset Z) q) by done.
  apply subseteq_size. intros x Hx. apply elem_of_list_to_set in Hx. apply elem_of_dom. by apply Hall.
Qed.

(** Appending: the last node's [next] is redirected to the new one. *)
Lemma tseg_snoc m p q x t :
  tseg m p q -> NoDup q -> x ∉ q -> x <> 0 -> m !! x = Some t -> t_next t = 0 ->
  match last q with
  | None => tseg m x [x]
  | Some y => forall ty, m !! y = Some ty -> tseg (<[y := set_t_next x ty]> m) p (q ++ [x])
  end.
Proof.
  revert p. induction q as [|z q IH]; intros p Hs Hnd Hx Hx0 Ht Hn.
  { cbn. split; [done|]. split; [done|]. by exists t. }
  destruct Hs as (-> & Hz0 & tz & Htz & Hq). apply NoDup_cons in Hnd as [Hzq Hnd].
  apply not_elem_of_cons in Hx as [Hxz Hxq]. specialize (IH _ Hq Hnd Hxq Hx0 Ht Hn).
  destruct (last q) as [y|] eqn:El.
  - rewrite last_cons, El. cbn. intros ty Hty. split; [done|]. split; [done|].
    assert (y ∈ q) as Hyq by (apply last_Some in El as [? ->]; set_solver).
    assert (z <> y) by (intros ->; done).
    exists tz. split; [by rewrite lookup_insert_ne|]. by apply IH.
  - apply last_None in El as ->. cbn. intros ty Hty. rewrite Htz in Hty. injection Hty as <-.
    split; [done|]. split; [done|]. exists (set_t_next x tz). split; [by rewrite lookup_insert_eq|].
    cbn. split; [done|]. split; [done|]. exists t. split; [by rewrite lookup_insert_ne|done].
Qed.

(** Unlinking: the predecessor's [next] skips a node. *)
Lemma tseg_remove m p l1 pr x l2 tp tx :
  tseg m p (l1 ++ pr :: x :: l2) -> NoDup (l1 ++ pr :: x :: l2) -> m !! pr = Some tp -> m !! x = Some tx ->
  tseg (<[pr := set_t_next (t_next tx) tp]> m) p (l1 ++ pr :: l2).
Proof.
  revert p. induction l1 as [|z l1 IH]; intros p Hs Hnd Hp Hx.
  - cbn [app] in *. destruct Hs as (-> & H0 & t & Ht & _ & Hx0 & t' & Ht' & Hs).
    rewrite Hp in Ht. injection Ht as <-. rewrite Hx in Ht'. injection Ht' as <-.
    apply NoDup_cons in Hnd as [Hnd _]. split; [done|]. split; [done|].
    exists (set_t_next (t_next tx) tp). split; [by rewrite lookup_insert_eq|]. cbn [t_next set_t_next].
    apply tseg_insert_ne; [set_solver|done].
  - cbn [app] in *. apply NoDup_cons in Hnd as [Hz Hnd]. destruct Hs as (-> & H0 & t & Ht & Hs).
    split; [done|]. split; [done|]. exists t. split; [rewrite lookup_insert_ne; [done|set_solver]|]. by apply IH.
Qed.

Lemma set_t_next_id t : set_t_next (t_next t) t = t.
Proof. by destruct t. Qed.

Section queues.
Context {A : Type} `{KHeap A}.
Implicit Types s : sched A.

Record queues s (rq sq : list Z) : Prop := {
  q_ready : tseg (tasks s) (ready_queue_head s) rq;
  q_tail : ready_queue_tail s = default 0 (last rq);
  q_sleep : tseg (tasks s) (sleep_queue_head s) sq;
  q_nodup : NoDup (rq ++ sq);
  q_rstate : forall x, x ∈ rq -> t_state (task_at s x) = READY;
  q_sstate : forall x, x ∈ sq -> t_state (task_at s x) = SLEEPING;
}.

(** The globals other than the store and the queue heads. *)
Definition same_globals s s' : Prop :=
  current_task s' = current_task s /\ idle_task s' = idle_task s /\ task_table s' = task_table s /\
  table_ptr s' = table_ptr s /\ task_table_size s' = task_table_size s /\
  reap_counter s' = reap_counter s /\ pit_ticks s' = pit_ticks s /\ k_heap s' = k_heap s.

(** Outside [X] tasks change at most in their [next] field. *)
Definition frame_but (X : list Z) s s' : Prop :=
  forall y, y ∉ X -> exists n, tasks s' !! y = set_t_next n <$> tasks s !! y.

Lemma task_at_Some s x t : tasks s !! x = Some t -> task_at s x = t.
Proof. unfold task_at. by intros ->. Qed.

Lemma lookup_upd s p f y : is_Some (tasks s !! p) ->
  tasks (upd_task s p f) !! y = if decide (y = p) then f <$> tasks s !! y else tasks s !! y.
Proof.
  intros [t Ht]. unfold upd_task, with_tasks. cbn. case_decide as E.
  - subst. rewrite lookup_insert_eq, Ht. cbn. by rewrite (task_at_Some _ _ _ Ht).
  - by rewrite lookup_insert_ne.
Qed.

Lemma queues_ext s s' rq sq :
  ready_queue_head s' = ready_queue_head s -> ready_queue_tail s' = ready_queue_tail s ->
  sleep_queue_head s' = sleep_queue_head s ->
  (forall x t, x ∈ rq ++ sq -> tasks s !! x = Some t ->
     exists t', tasks s' !! x = Some t' /\ t_next t' = t_next t /\ t_state t' = t_state t) ->
  queues s rq sq -> queues s' rq sq.
Proof.
  intros E1 E2 E3 Hext [Q1 Q2 Q3 Q4 Q5 Q6].
  assert (forall x, x ∈ rq ++ sq -> t_state (task_at s' x) = t_state (task_at s x)) as Hst.
  { intros x Hx. assert (is_Some (tasks s !! x)) as [t Ht].
    { apply elem_of_app in Hx as [Hx|Hx]; eauto using tseg_stored. }
    destruct (Hext x t Hx Ht) as (t' & Ht' & _ & Es). by rewrite (task_at_Some _ _ _ Ht'), (task_at_Some _ _ _ Ht). }
  split.
  - rewrite E1. eapply tseg_ext; [|exact Q1]. intros x t Hx Ht.
    destruct (Hext x t) as (t' & ? & ? & _); [set_solver|done|]. by exists t'.
  - congruence.
  - rewrite E3. eapply tseg_ext; [|exact Q3]. intros x t Hx Ht.
    destruct (Hext x t) as (t' & ? & ? & _); [set_solver|done|]. by exists t'.
  - done.
  - intros x Hx. rewrite Hst by set_solver. by apply Q5.
  - intros x Hx. rewrite Hst by set_solver. by apply Q6.
Qed.

Lemma queues_fuel s rq sq : queues s rq sq -> (length rq + length sq < queue_fuel s)%nat.
Proof.
  intros [Q1 Q2 Q3 Q4 Q5 Q6]. unfold queue_fuel. rewrite <- length_app.
  assert (length (rq ++ sq) <= size (tasks s))%nat; [|lia]. apply length_le_size; [done|].
  intros x [Hx|Hx]%elem_of_app; eauto using tseg_stored.
Qed.

(** Updating a task that is in no queue. *)
Lemma queues_upd_other s rq sq x f :
  queues s rq sq -> x ∉ rq ++ sq -> queues (upd_task s x f) rq sq.
Proof.
  intros Hq Hx. eapply queues_ext; [..|exact Hq]; [done|done|done|].
  intros y t Hy Ht. exists t. split; [|done]. cbn. rewrite lookup_insert_ne; [done|]. intros ->. done.
Qed.

Lemma queue_add_spec s rq sq x :
  queues s rq sq -> x ∉ rq ++ sq -> x <> 0 -> is_Some (tasks s !! x) ->
  let s' := scheduler_add_task s x in
  queues s' (rq ++ [x]) sq /\ same_globals s s' /\ frame_but [x] s s' /\
  (exists n, tasks s' !! x = (set_t_next n ∘ set_t_state READY) <$> tasks s !! x) /\
  sleep_queue_head s' = sleep_queue_head s.
Proof.
  intros Hq Hx Hx0 [t Ht]. cbv zeta. unfold scheduler_add_task. rewrite (proj2 (Z.eqb_neq x 0)) by done.
  set (s1 := upd_task s x (set_t_state READY)). set (s2 := upd_task s1 x (set_t_next 0)).
  assert (tasks s1 !! x = Some (set_t_state READY t)) as Ht1.
  { unfold s1. cbn. by rewrite lookup_insert_eq, (task_at_Some _ _ _ Ht). }
  set (t2 := set_t_next 0 (set_t_state READY t)).
  assert (tasks s2 !! x = Some t2) as Ht2.
  { unfold s2. cbn [tasks upd_task with_tasks]. by rewrite lookup_insert_eq, (task_at_Some _ _ _ Ht1). }
  assert (forall y, y <> x -> tasks s2 !! y = tasks s !! y) as Hoth.
  { intros y Hy. unfold s2, s1. cbn [tasks upd_task with_tasks]. by rewrite !lookup_insert_ne by done. }
  assert (queues s2 rq sq) as Hq2 by (by apply queues_upd_other; [apply queues_upd_other|]).
  destruct (Hq2) as [Q1 Q2 Q3 Q4 Q5 Q6]. apply NoDup_app in Q4 as (N1 & N2 & N3).
  rewrite elem_of_app in Hx. assert ((x ∉ rq) /\ (x ∉ sq)) as [Hxr Hxs] by tauto.
  pose proof (tseg_snoc _ _ _ x t2 Q1 N1 Hxr Hx0 Ht2 eq_refl) as Hsnoc.
  change (ready_queue_head s2) with (ready_queue_head s) in *.
  assert (NoDup ((rq ++ [x]) ++ sq)) as Hnd.
  { apply NoDup_app. split_and!; [apply NoDup_app; split_and!; [done|set_solver|apply NoDup_singleton]|set_solver|done]. }
  destruct (Z.eqb_spec (ready_queue_head s) 0) as [E0|E0].
  - assert (rq = []) as -> by (destruct rq; [done|]; destruct Q1 as (? & ? & _); congruence).
    cbn in Hsnoc. split; [split|split; [done|split; [|split; [|done]]]].
    + exact Hsnoc.
    + done.
    + exact Q3.
    + exact Hnd.
    + intros y [->|[]%elem_of_nil]%elem_of_cons. by rewrite (task_at_Some _ _ t2).
    + exact Q6.
    + intros y Hy%not_elem_of_cons. destruct Hy as [Hy _]. cbn [tasks with_ready]. rewrite Hoth by done.
      destruct (tasks s !! y) as [ty|] eqn:E; [|by exists 0]. exists (t_next ty). cbn. by destruct ty.
    + exists 0. cbn [tasks with_ready]. by rewrite Ht2, Ht.
  - destruct (last rq) as [y|] eqn:El.
    2: { apply last_None in El as ->. cbn in Q1. done. }
    assert (y ∈ rq) as Hy by (apply last_Some in El as [? ->]; set_solver).
    destruct (tseg_stored _ _ _ y Q1 Hy) as [ty Hty].
    assert (y <> x) as Hyx by (intros ->; done).
    rewrite Q2. change (default 0 (Some y)) with y.
    set (s3 := upd_task s2 y (set_t_next x)).
    assert (forall z, z <> y -> tasks s3 !! z = tasks s2 !! z) as Hoth3.
    { intros z Hz. unfold s3. cbn [tasks upd_task with_tasks]. by rewrite lookup_insert_ne. }
    assert (tasks s3 !! y = Some (set_t_next x ty)) as Hty3.
    { unfold s3. cbn [tasks upd_task with_tasks]. by rewrite lookup_insert_eq, (task_at_Some _ _ _ Hty). }
    specialize (Hsnoc ty Hty).
    assert (forall z, z ∈ rq ++ sq -> t_state (task_at s3 z) = t_state (task_at s2 z)) as Hst.
    { intros z Hz. destruct (decide (z = y)) as [->|Hzy].
      - by rewrite (task_at_Some _ _ _ Hty3), (task_at_Some _ _ _ Hty).
      - unfold task_at. by rewrite Hoth3. }
    split; [split|split; [done|split; [|split; [|done]]]].
    + change (tasks (with_ready s3 _ _)) with (<[y := set_t_next x (task_at s2 y)]> (tasks s2)).
      by rewrite (task_at_Some _ _ _ Hty).
    + cbn. by rewrite last_snoc.
    + cbn [sleep_queue_head with_ready tasks]. change (sleep_queue_head s3) with (sleep_queue_head s2).
      eapply tseg_ext; [|exact Q3]. intros z tz Hz Htz. exists tz. split; [|done]. cbn [tasks with_ready].
      rewrite Hoth3; [done|]. intros ->. by eapply N2.
    + exact Hnd.
    + intros z [Hz|[->|[]%elem_of_nil]%elem_of_cons]%elem_of_app.
      * change (task_at (with_ready s3 _ _) z) with (task_at s3 z). rewrite Hst by set_solver. by apply Q5.
      * change (task_at (with_ready s3 _ _) x) with (task_at s3 x). unfold task_at. rewrite Hoth3, Ht2 by done. done.
    + intros z Hz. change (task_at (with_ready s3 _ _) z) with (task_at s3 z). rewrite Hst by set_solver. by apply Q6.
    + intros z Hz%not_elem_of_cons. destruct Hz as [Hz _]. cbn [tasks with_ready].
      destruct (decide (z = y)) as [->|Hzy].
      * exists x. rewrite Hty3. rewrite Hoth in Hty by done. by rewrite Hty.
      * rewrite Hoth3, Hoth by done. destruct (tasks s !! z) as [tz|] eqn:E; [|by exists 0].
        exists (t_next tz). cbn. by destruct tz.
    + exists 0. cbn [tasks with_ready]. rewrite Hoth3, Ht2, Ht by done. done.
Qed.

Lemma frame_refl X s : frame_but X s s.
Proof.
  intros y _. destruct (tasks s !! y) as [t|]; [|by exists 0]. exists (t_next t). cbn. by rewrite set_t_next_id.
Qed.

Lemma frame_trans X s1 s2 s3 : frame_but X s1 s2 -> frame_but X s2 s3 -> frame_but X s1 s3.
Proof.
  intros H1 H2 y Hy. destruct (H1 y Hy) as [n1 E1], (H2 y Hy) as [n2 E2]. exists n2.
  rewrite E2, E1. by destruct (tasks s1 !! y).
Qed.

Lemma frame_mono (X Y : list Z) s s' : X ⊆ Y -> frame_but X s s' -> frame_but Y s s'.
Proof. intros HXY Hf y Hy. apply Hf. set_solver. Qed.

Lemma same_globals_trans s1 s2 s3 : same_globals s1 s2 -> same_globals s2 s3 -> same_globals s1 s3.
Proof. intros (?&?&?&?&?&?&?&?) (?&?&?&?&?&?&?&?). unfold same_globals. split_and!; congruence. Qed.

Lemma queues_stored s rq sq x : queues s rq sq -> x ∈ rq ++ sq -> is_Some (tasks s !! x).
Proof. intros [Q1 _ Q3 _ _ _] [Hx|Hx]%elem_of_app; eauto using tseg_stored. Qed.

(** What the frame preserves of a task. *)
Lemma frame_state X s s' y :
  frame_but X s s' -> y ∉ X ->
  t_state (task_at s' y) = t_state (task_at s y) /\ time_slice (task_at s' y) = time_slice (task_at s y) /\
  wake_time (task_at s' y) = wake_time (task_at s y) /\ total_runtime (task_at s' y) = total_runtime (task_at s y) /\
  (is_Some (tasks s !! y) -> is_Some (tasks s' !! y)).
Proof.
  intros Hf Hy. destruct (Hf y Hy) as [n E]. unfold task_at. rewrite E.
  destruct (tasks s !! y); cbn; split_and!; try done.
Qed.

Lemma pick_spec s x rq sq :
  queues s (x :: rq) sq ->
  exists s', scheduler_pick_next s = (x, s') /\ queues s' rq sq /\ same_globals s s' /\ frame_but [] s s' /\
    (x ∉ rq ++ sq) /\ x <> 0 /\ is_Some (tasks s' !! x).
Proof.
  intros Hq. pose proof (queues_stored s _ _ x Hq ltac:(set_solver)) as [t Ht].
  destruct (Hq) as [Q1 Q2 Q3 Q4 Q5 Q6]. unfold scheduler_pick_next.
  destruct Q1 as (Eh & Hx0 & t' & Ht' & Q1). rewrite Ht in Ht'. injection Ht' as <-.
  rewrite Eh, (proj2 (Z.eqb_neq x 0)) by done. eexists. split; [done|].
  apply NoDup_cons in Q4 as [Hxq Q4]. rewrite (task_at_Some _ _ _ Ht).
  set (s1 := with_ready s _ _). assert (queues s1 rq sq) as Hq1.
  { split; try done; cbn.
    - rewrite (tseg_head _ _ _ Q1). destruct rq as [|y rq]; [done|]. destruct Q1 as (_ & Hy0 & _). cbn.
      rewrite (proj2 (Z.eqb_neq y 0)) by done. rewrite Q2. by rewrite !last_cons_cons.
    - intros y Hy. apply Q5. set_solver. }
  split; [by apply queues_upd_other|]. split; [done|]. split.
  - intros y _. cbn. destruct (decide (y = x)) as [->|Hy].
    + exists 0. rewrite lookup_insert_eq, Ht. cbn. f_equal. f_equal. change (task_at s1 x) with (task_at s x).
      by apply task_at_Some.
    + rewrite lookup_insert_ne by done. destruct (tasks s !! y) as [ty|]; [|by exists 0].
      exists (t_next ty). cbn. by rewrite set_t_next_id.
  - split; [done|]. split; [done|]. cbn. rewrite lookup_insert_eq. by eexists.
Qed.

Lemma pick_empty s sq : queues s [] sq -> scheduler_pick_next s = (idle_task s, s).
Proof. intros [Q1 _ _ _ _ _]. unfold scheduler_pick_next. cbn in Q1. by rewrite Q1. Qed.

(** ** Removal *)

Lemma remove_search_eq fuel s task prev curr r1 r2 :
  tseg (tasks s) curr (r1 ++ task :: r2) -> NoDup (r1 ++ task :: r2) -> (length (r1 ++ task :: r2) < fuel)%nat ->
  remove_search fuel s task prev curr =
    let pr := default prev (last r1) in
    let s1 := upd_task s pr (set_t_next (t_next (task_at s task))) in
    let s2 := if ready_queue_tail s1 =? task then with_ready s1 (ready_queue_head s1) pr else s1 in
    upd_task s2 task (set_t_next 0).
Proof.
  revert fuel prev curr. induction r1 as [|z r1 IH]; intros fuel prev curr Hs Hnd Hf;
    (destruct fuel as [|fuel]; [cbn in Hf; lia|]); cbn [remove_search].
  - cbn [app] in Hs. destruct Hs as (-> & H0 & _). rewrite (proj2 (Z.eqb_neq task 0)), Z.eqb_refl by done. done.
  - cbn [app] in *. destruct Hs as (-> & H0 & t & Ht & Hs). rewrite (proj2 (Z.eqb_neq z 0)) by done.
    apply NoDup_cons in Hnd as [Hz Hnd]. rewrite (proj2 (Z.eqb_neq z task)) by set_solver.
    rewrite (task_at_Some _ _ _ Ht). rewrite IH; [|done|done|cbn in Hf; lia].
    rewrite last_cons. by destruct (last r1).
Qed.

Lemma remove_search_absent fuel s task prev curr r :
  tseg (tasks s) curr r -> task ∉ r -> (length r < fuel)%nat -> remove_search fuel s task prev curr = s.
Proof.
  revert fuel prev curr. induction r as [|z r IH]; intros fuel prev curr Hs Hn Hf;
    (destruct fuel as [|fuel]; [cbn in Hf; lia|]); cbn [remove_search].
  - cbn in Hs. by rewrite Hs.
  - destruct Hs as (-> & H0 & t & Ht & Hs). rewrite (proj2 (Z.eqb_neq z 0)) by done.
    rewrite (proj2 (Z.eqb_neq z task)) by set_solver. rewrite (task_at_Some _ _ _ Ht).
    apply IH; [done|set_solver|cbn in Hf; lia].
Qed.

Lemma remove_absent s rq sq x : queues s rq sq -> x ∉ rq -> scheduler_remove_task s x = s.
Proof.
  intros Hq Hx. pose proof (queues_fuel _ _ _ Hq) as Hf. destruct Hq as [Q1 _ _ _ _ _].
  unfold scheduler_remove_task. destruct (_ || _) eqn:E; [done|].
  apply orb_false_iff in E as [_ E%Z.eqb_neq]. destruct rq as [|y rq]; [done|].
  destruct Q1 as (Eh & Hy0 & t & Ht & Q1). rewrite Eh in *. rewrite (proj2 (Z.eqb_neq y x)) by set_solver.
  rewrite (task_at_Some _ _ _ Ht). eapply remove_search_absent; [exact Q1|set_solver|cbn in Hf; lia].
Qed.

(** Redirecting the [next] field of a node. *)
Lemma frame_set_next s x n : is_Some (tasks s !! x) -> frame_but [] s (upd_task s x (set_t_next n)).
Proof.
  intros [t Ht] y _. destruct (decide (y = x)) as [->|Hy].
  - exists n. cbn. rewrite lookup_insert_eq, Ht. cbn. by rewrite (task_at_Some _ _ _ Ht).
  - cbn. rewrite lookup_insert_ne by done. destruct (tasks s !! y) as [ty|]; [|by exists 0].
    exists (t_next ty). cbn. by rewrite set_t_next_id.
Qed.

Lemma frame_states s s' : frame_but [] s s' -> forall y, t_state (task_at s' y) = t_state (task_at s y).
Proof. intros Hf y. eapply (frame_state [] s s' y Hf). set_solver. Qed.

Lemma queue_remove_spec s r1 x r2 sq :
  queues s (r1 ++ x :: r2) sq ->
  let s' := scheduler_remove_task s x in
  queues s' (r1 ++ r2) sq /\ same_globals s s' /\ frame_but [] s s'.
Proof.
  intros Hq. cbv zeta. pose proof (queues_fuel _ _ _ Hq) as Hfuel.
  pose proof (queues_stored s _ _ x Hq ltac:(set_solver)) as [tx Htx].
  destruct r1 as [|h r1].
  { destruct (pick_spec s x r2 sq Hq) as (s' & E & Hq' & Hg & Hf & _ & Hx0 & _).
    unfold scheduler_remove_task, scheduler_pick_next in *. cbn [app] in *.
    assert (ready_queue_head s = x) as Eh by (by destruct (q_ready _ _ _ Hq)). rewrite Eh in *.
    rewrite (proj2 (Z.eqb_neq x 0)), Z.eqb_refl in * by done. cbn [orb]. injection E as E. by rewrite E. }
  destruct (Hq) as [Q1 Q2 Q3 Q4 Q5 Q6]. cbn [app] in *. destruct (Q1) as (Eh & Hh0 & th & Hth & Qr).
  pose proof (tseg_nonzero _ _ _ Q1) as Hnz.
  apply NoDup_cons in Q4 as [Hh Q4]. assert (NoDup (r1 ++ x :: r2)) as Hnd1.
  { by apply NoDup_app in Q4 as (? & _ & _). }
  unfold scheduler_remove_task. rewrite Eh, (proj2 (Z.eqb_neq h 0)), (proj2 (Z.eqb_neq x 0)) by set_solver.
  rewrite (proj2 (Z.eqb_neq h x)) by set_solver. cbn [orb]. rewrite (task_at_Some _ _ _ Hth).
  rewrite (remove_search_eq _ _ _ _ _ r1 r2); [|done|done|cbn [length] in Hfuel; lia]. cbv zeta.
  set (pr := default h (last r1)).
  assert (exists l0, h :: r1 = l0 ++ [pr]) as (l0 & El).
  { unfold pr. destruct r1 as [|z r1' _] using rev_ind; [by exists []|]. rewrite last_snoc. by exists (h :: r1'). }
  assert (pr ∈ h :: r1) as Hpr by (rewrite El; set_solver).
  assert (is_Some (tasks s !! pr)) as [tp Htp] by (eapply queues_stored; [exact Hq|set_solver]).
  rewrite (task_at_Some _ _ _ Htx). set (s1 := upd_task s pr _).
  change (ready_queue_tail s1) with (ready_queue_tail s). change (ready_queue_head s1) with (ready_queue_head s).
  set (s2 := if ready_queue_tail s =? x then _ else s1). set (s3 := upd_task s2 x _).
  assert (NoDup (h :: r1 ++ x :: r2)) as Hnd2 by (constructor; [set_solver|done]).
  assert (tseg (tasks s1) h (h :: r1 ++ r2)) as Hseg.
  { change (h :: r1 ++ x :: r2) with ((h :: r1) ++ x :: r2) in *. change (h :: r1 ++ r2) with ((h :: r1) ++ r2).
    rewrite El in *. rewrite <- (assoc_L (++)) in *. cbn [app] in *.
    unfold s1. cbn [tasks upd_task with_tasks]. rewrite (task_at_Some _ _ _ Htp).
    rewrite Eh in Q1. by apply tseg_remove with x. }
  assert (tasks s2 = tasks s1 /\ ready_queue_head s2 = h /\ sleep_queue_head s2 = sleep_queue_head s /\
    same_globals s s2 /\ ready_queue_tail s2 = default 0 (last (h :: r1 ++ r2))) as (E2 & E2h & E2s & Hg & E2t).
  { assert (ready_queue_tail s = default 0 (last ((h :: r1) ++ x :: r2))) as Et by exact Q2.
    unfold s2. destruct (Z.eqb_spec (ready_queue_tail s) x) as [Ex|Ex].
    - split; [done|]. split; [exact Eh|]. split; [done|]. split; [done|]. cbn [ready_queue_tail with_ready].
      assert (r2 = []) as ->.
      { destruct r2 as [|z r2' _] using rev_ind; [done|]. exfalso. rewrite Et in Ex.
        rewrite app_comm_cons, (assoc_L (++)), last_snoc in Ex. cbn in Ex. subst z.
        apply NoDup_app in Hnd1 as (_ & _ & Hnd1). apply NoDup_cons in Hnd1 as [Hnd1 _]. set_solver. }
      rewrite app_nil_r, El, last_snoc. done.
    - split; [done|]. split; [exact Eh|]. split; [done|]. split; [done|]. change (ready_queue_tail s1) with (ready_queue_tail s).
      rewrite Et. change (h :: r1 ++ r2) with ((h :: r1) ++ r2). rewrite Et in Ex.
      destruct r2 as [|z r2' _] using rev_ind; [by rewrite last_snoc in Ex|].
      rewrite app_comm_cons, !(assoc_L (++)), !last_snoc. done. }
  assert (frame_but [] s s2) as Hf2.
  { intros y Hy. rewrite E2. apply (frame_set_next s pr); [by eexists|done]. }
  assert (is_Some (tasks s2 !! x)) as Hsx.
  { destruct (Hf2 x) as [n ->]; [set_solver|]. rewrite Htx. by eexists. }
  assert (frame_but [] s s3) as Hf3 by (eapply frame_trans; [exact Hf2|by apply frame_set_next]).
  split; [|split; [done|exact Hf3]].
  apply queues_upd_other.
  2: { rewrite elem_of_app. rewrite elem_of_app in Hh. apply NoDup_app in Hnd1 as (_ & N1 & N2).
       apply NoDup_cons in N2 as [N2 _]. apply NoDup_app in Q4 as (_ & N3 & _).
       intros [Hx|Hx]; [|apply (N3 x); set_solver].
       apply elem_of_cons in Hx as [->|Hx]; [set_solver|]. apply elem_of_app in Hx as [Hx|Hx]; [|done].
       apply (N1 x Hx). set_solver. }
  pose proof (frame_states _ _ Hf2) as Hst. split.
  - rewrite E2, E2h. exact Hseg.
  - exact E2t.
  - rewrite E2s. eapply tseg_ext; [|exact Q3]. intros y t Hy Ht. rewrite E2. unfold s1. cbn.
    rewrite lookup_insert_ne; [by exists t|]. intros <-. apply NoDup_app in Q4 as (_ & N3 & _).
    apply elem_of_cons in Hpr as [->|Hpr]; [set_solver|]. apply (N3 pr); [set_solver|done].
  - apply NoDup_app in Q4 as (N1 & N2 & N3). apply NoDup_app. split_and!; [|set_solver|done].
    constructor; [set_solver|]. eapply sublist_NoDup; [exact N1|]. apply sublist_app; [done|]. by constructor.
  - intros y Hy. rewrite Hst. apply Q5. set_solver.
  - intros y Hy. rewrite Hst. by apply Q6.
Qed.

(** ** Waking sleepers *)

Definition due s (T x : Z) : bool := wake_time (task_at s x) <=? T.
Definition woken s (T : Z) (q : list Z) : list Z := filter (fun x => due s T x = true) q.
Definition asleep s (T : Z) (q : list Z) : list Z := filter (fun x => due s T x = false) q.

Lemma woken_ext s s' T q : (forall x, x ∈ q -> due s' T x = due s T x) -> woken s' T q = woken s T q /\ asleep s' T q = asleep s T q.
Proof.
  intros Hx. unfold woken, asleep. induction q as [|x q IH]; [done|].
  destruct IH as [IH1 IH2]; [intros; apply Hx; set_solver|].
  pose proof (Hx x ltac:(set_solver)) as E. destruct (due s T x) eqn:Ed.
  - rewrite !filter_cons_True, !filter_cons_False by congruence. by rewrite IH1, IH2.
  - rewrite !filter_cons_False, !filter_cons_True by congruence. by rewrite IH1, IH2.
Qed.

(** One sleeper leaves the sleep queue. *)
Lemma unsleep_spec s rq kept x rest :
  queues s rq (kept ++ x :: rest) ->
  let n := t_next (task_at s x) in
  let prev := default 0 (last kept) in
  let s1 := if prev =? 0 then with_sleep s n else upd_task s prev (set_t_next n) in
  queues s1 rq (kept ++ rest) /\ same_globals s s1 /\ frame_but [] s s1 /\ (x ∉ rq ++ kept ++ rest) /\
  tseg (tasks s1) n rest.
Proof.
  intros Hq. cbv zeta. pose proof (queues_stored s _ _ x Hq ltac:(set_solver)) as [tx Htx].
  destruct (Hq) as [Q1 Q2 Q3 Q4 Q5 Q6]. rewrite (task_at_Some _ _ _ Htx).
  assert (NoDup (rq ++ kept ++ rest) /\ (x ∉ rq ++ kept ++ rest)) as [Hnd Hx].
  { rewrite (assoc_L (++)) in Q4 |- *. assert (NoDup (x :: (rq ++ kept) ++ rest)) as Hn.
    { eapply NoDup_Permutation_proper; [|exact Q4]. by rewrite Permutation_middle. }
    apply NoDup_cons in Hn as [? ?]. by split. }
  assert (tseg (tasks s) (t_next tx) rest) as Hrest.
  { apply tseg_suffix in Q3. destruct Q3 as (_ & _ & t & Ht & Hs). rewrite Htx in Ht. by injection Ht as <-. }
  destruct kept as [|pr kept _] using rev_ind.
  - cbn [last default Z.eqb]. split; [|split; [done|split; [exact (frame_refl [] s)|done]]]. split; try done.
    intros y Hy. apply Q6. set_solver.
  - rewrite last_snoc. change (default 0 (Some pr)) with pr. pose proof (tseg_nonzero _ _ _ Q3) as Hnz.
    rewrite (proj2 (Z.eqb_neq pr 0)) by set_solver.
    pose proof (queues_stored s _ _ pr Hq ltac:(set_solver)) as [tp Htp].
    assert (frame_but [] s (upd_task s pr (set_t_next (t_next tx)))) as Hf by (apply frame_set_next; by eexists).
    pose proof (frame_states _ _ Hf) as Hst. rewrite <- !(assoc_L (++)) in *. cbn [app] in *.
    apply NoDup_app in Q4 as (N1 & N2 & N3).
    split; [split|split; [done|split; [done|split; [done|]]]].
    + eapply tseg_ext; [|exact Q1]. intros y t Hy Ht. exists t. split; [|done]. cbn.
      rewrite lookup_insert_ne; [done|]. intros <-. apply (N2 pr Hy). set_solver.
    + done.
    + cbn [tasks upd_task with_tasks sleep_queue_head]. rewrite (task_at_Some _ _ _ Htp). by apply tseg_remove with x.
    + exact Hnd.
    + intros y Hy. rewrite Hst. by apply Q5.
    + intros y Hy. rewrite Hst. apply Q6. set_solver.
    + cbn. apply tseg_insert_ne; [|done]. apply NoDup_app in N3 as (_ & _ & N3).
      apply NoDup_cons in N3 as [N3 _]. set_solver.
Qed.

(** The tasks a wake-up changes: only the woken ones, beyond [next] fields. *)
Lemma wake_spec fuel s T rq kept rest prev curr :
  queues s rq (kept ++ rest) -> prev = default 0 (last kept) -> tseg (tasks s) curr rest ->
  (length rest < fuel)%nat ->
  let s' := wake_loop fuel s T prev curr in
  queues s' (rq ++ woken s T rest) (kept ++ asleep s T rest) /\ same_globals s s' /\
  frame_but (woken s T rest) s s'.
Proof.
  revert s rq kept rest prev curr. induction fuel as [|fuel IH]; intros s rq kept rest prev curr Hq Hp Hs Hf; [lia|].
  cbv zeta. cbn [wake_loop]. destruct rest as [|x rest].
  { cbn in Hs. subst curr. cbn. rewrite !app_nil_r in *. split; [done|]. split; [done|apply frame_refl]. }
  destruct (Hs) as (-> & Hx0 & tx & Htx & Hrest). rewrite (proj2 (Z.eqb_neq x 0)) by done.
  destruct (wake_time (task_at s x) <=? T) eqn:Ed.
  - destruct (unsleep_spec s rq kept x rest Hq) as (Hq1 & Hg1 & Hf1 & Hx1 & Hs1). cbv zeta in *.
    rewrite <- Hp in *. set (s1 := if prev =? 0 then _ else _) in *.
    set (s2 := upd_task s1 x (set_t_next 0)).
    assert (is_Some (tasks s1 !! x)) as Hsx.
    { destruct (Hf1 x) as [n ->]; [set_solver|]. rewrite Htx. by eexists. }
    assert (queues s2 rq (kept ++ rest)) as Hq2 by (by apply queues_upd_other).
    assert (frame_but [] s1 s2) as Hf2 by (by apply frame_set_next).
    destruct (queue_add_spec s2 rq (kept ++ rest) x Hq2 Hx1 Hx0) as (Hq3 & Hg3 & Hf3 & _ & _).
    { destruct (Hf2 x) as [n ->]; [set_solver|]. by destruct (tasks s1 !! x); [eexists|destruct Hsx]. }
    cbv zeta in *. set (s3 := scheduler_add_task s2 x) in *.
    assert (frame_but [x] s s3) as Hf13.
    { eapply frame_trans; [eapply frame_mono, Hf1; set_solver|].
      eapply frame_trans; [eapply frame_mono, Hf2; set_solver|done]. }
    assert (x ∉ rest) as Hxr by set_solver.
    assert (forall y, y ∈ rest -> due s3 T y = due s T y) as Hdue.
    { intros y Hy. unfold due. destruct (frame_state [x] s s3 y Hf13) as (_ & _ & -> & _); [set_solver|done]. }
    destruct (woken_ext s s3 T rest Hdue) as [Ew Ea].
    destruct (IH s3 (rq ++ [x]) kept rest prev (t_next (task_at s x)) Hq3 Hp) as (I1 & I2 & I3).
    { rewrite (tseg_head _ _ _ Hs1). eapply tseg_suffix, Hq3. }
    { cbn in Hf. lia. }
    cbv zeta in *. rewrite Ew, Ea in *. unfold woken, asleep in *.
    rewrite filter_cons_True, filter_cons_False by (unfold due; congruence).
    split; [by rewrite <- (assoc_L (++)) in I1|].
    split; [eapply same_globals_trans; [|exact I2]; eapply same_globals_trans; [exact Hg1|exact Hg3]|].
    eapply frame_trans; [eapply frame_mono, Hf13; set_solver|eapply frame_mono, I3; set_solver].
  - destruct (IH s rq (kept ++ [x]) rest x (t_next (task_at s x))) as (I1 & I2 & I3).
    { by rewrite <- (assoc_L (++)). }
    { by rewrite last_snoc. }
    { by rewrite (task_at_Some _ _ _ Htx). }
    { cbn in Hf. lia. }
    cbv zeta in *. unfold woken, asleep in *.
    rewrite filter_cons_False, filter_cons_True by (unfold due; congruence).
    by rewrite <- (assoc_L (++)) in I1.
Qed.

Lemma check_sleeping_spec s rq sq :
  queues s rq sq ->
  let s' := scheduler_check_sleeping_tasks s in
  queues s' (rq ++ woken s (pit_ticks s) sq) (asleep s (pit_ticks s) sq) /\ same_globals s s' /\
  frame_but (woken s (pit_ticks s) sq) s s'.
Proof.
  intros Hq. cbv zeta. unfold scheduler_check_sleeping_tasks. destruct (Z.eqb_spec (sleep_queue_head s) 0) as [E|E].
  - assert (sq = []) as -> by (destruct sq; [done|]; destruct (q_sleep _ _ _ Hq) as (? & ? & _); congruence).
    cbn. rewrite app_nil_r. split; [done|]. split; [done|apply frame_refl].
  - pose proof (queues_fuel _ _ _ Hq).
    apply (wake_spec (queue_fuel s) s (pit_ticks s) rq [] sq 0); [done|done|apply Hq|lia].
Qed.
End queues.
