(* ===== verification/TaskThms.v ===== *)
(** * Scheduler: refinement of an abstract round-robin scheduler

    The abstract scheduler has a running task with its remaining time slice, a
    FIFO list of ready tasks and a list of sleepers with their wake times.
    Every operation of the running task, the timer interrupt and the wake-up
    of a blocked task are shown to simulate their abstract counterparts; the
    invariant that makes this work is preserved on the way. *)

From S2P Require Import Prelude Errno Buddy Slab SlabThms Kmalloc Task TaskInv.

(** ** The abstract scheduler *)

Record asched := mkA { a_cur : Z; a_slice : Z; a_rq : list Z; a_sq : list (Z * Z) }.

(** One scheduler tick at time [T]; [requeue] says whether the running task
    still wants the processor. *)
Definition a_tick (T : Z) (requeue : bool) (a : asched) : asched :=
  let rq := a_rq a ++ (filter (fun p => snd p <= T) (a_sq a)).*1 in
  let sq := filter (fun p => T < snd p) (a_sq a) in
  let slice := Z.max 0 (a_slice a - 1) in
  if slice =? 0 then
    match rq with
    | [] => mkA (a_cur a) TIME_SLICE_TICKS [] sq
    | n :: rq' => mkA n TIME_SLICE_TICKS (rq' ++ if requeue then [a_cur a] else []) sq
    end
  else mkA (a_cur a) slice rq sq.

Definition a_expire (a : asched) : asched := mkA (a_cur a) 0 (a_rq a) (a_sq a).
Definition a_fall_asleep (w : Z) (a : asched) : asched := mkA (a_cur a) 0 (a_rq a) ((a_cur a, w) :: a_sq a).
Definition a_ready (x : Z) (a : asched) : asched := mkA (a_cur a) (a_slice a) (a_rq a ++ [x]) (a_sq a).

Section refinement.
Context {A : Type} `{KHeap A}.
Implicit Types s : sched A.

(** The concrete state represents the abstract one. *)
Record sched_rel s (a : asched) : Prop := {
  r_queues : queues s (a_rq a) (a_sq a).*1;
  r_wake : forall x w, (x, w) ∈ a_sq a -> wake_time (task_at s x) = w;
  r_cur : current_task s = a_cur a /\ a_cur a <> 0 /\ is_Some (tasks s !! a_cur a);
  r_slice : time_slice (task_at s (a_cur a)) = a_slice a /\ 0 <= a_slice a;
  r_fresh : a_cur a ∉ a_rq a;
  r_idle : idle_task s = a_cur a \/ idle_task s ∈ a_rq a;
}.

(** Between interrupts the running task is marked so and is in no queue. *)
Record sched_ok s (a : asched) : Prop := {
  o_rel : sched_rel s a;
  o_running : t_state (task_at s (a_cur a)) = RUNNING;
  o_awake : a_cur a ∉ (a_sq a).*1;
}.

(** ** Steps of the tick *)

(** Live tasks survive reaping unchanged. *)
Definition survives s s' : Prop :=
  forall y t, tasks s !! y = Some t -> t_state t <> TERMINATED \/ y = current_task s -> tasks s' !! y = Some t.

Lemma reap_spec s :
  let s' := scheduler_reap_terminated s in
  survives s s' /\ current_task s' = current_task s /\ idle_task s' = idle_task s /\
  ready_queue_head s' = ready_queue_head s /\ ready_queue_tail s' = ready_queue_tail s /\
  sleep_queue_head s' = sleep_queue_head s /\ pit_ticks s' = pit_ticks s.
Proof.
  cbv zeta. unfold scheduler_reap_terminated.
  apply (for_range_ind (fun _ s' => survives s s' /\ current_task s' = current_task s /\ idle_task s' = idle_task s /\
    ready_queue_head s' = ready_queue_head s /\ ready_queue_tail s' = ready_queue_tail s /\
    sleep_queue_head s' = sleep_queue_head s /\ pit_ticks s' = pit_ticks s)); [unfold task_table_capacity; lia| |split; [by intros y t Ht _|done]].
  intros i s1 _ (Hs & E1 & E2 & E3 & E4 & E5 & E6). unfold reap_slot.
  destruct (_ && _) eqn:Hc; [|done]. apply andb_true_iff in Hc as [Hc Hne%negb_true_iff%Z.eqb_neq].
  apply andb_true_iff in Hc as [_ Hterm%bool_decide_eq_true].
  set (x := nthz (task_table s1) i) in *. split; [|by destruct (stack_base (task_at s1 x) =? 0)].
  intros y t Ht Hy. specialize (Hs y t Ht Hy).
  assert (y <> x) as Hyx.
  { intros ->. rewrite (task_at_Some _ _ _ Hs) in Hterm. destruct Hy as [?|Hy]; [done|]. congruence. }
  destruct (stack_base (task_at s1 x) =? 0); cbn; by rewrite lookup_delete_ne.
Qed.

Lemma queues_survive s s' rq sq :
  queues s rq sq -> survives s s' -> ready_queue_head s' = ready_queue_head s ->
  ready_queue_tail s' = ready_queue_tail s -> sleep_queue_head s' = sleep_queue_head s -> queues s' rq sq.
Proof.
  intros Hq Hs E1 E2 E3. eapply queues_ext; [exact E1|exact E2|exact E3| |exact Hq].
  intros x t Hx Ht. exists t. split; [|done]. apply Hs; [done|]. left.
  destruct Hq as [_ _ _ _ Q5 Q6]. apply elem_of_app in Hx as [Hx|Hx]; [apply Q5 in Hx|apply Q6 in Hx];
    rewrite (task_at_Some _ _ _ Ht) in Hx; by rewrite Hx.
Qed.

Lemma queues_upd_keep s rq sq x f :
  queues s rq sq -> is_Some (tasks s !! x) ->
  (forall t, t_next (f t) = t_next t /\ t_state (f t) = t_state t) -> queues (upd_task s x f) rq sq.
Proof.
  intros Hq Hx Hf. eapply queues_ext; [..|exact Hq]; [done|done|done|]. intros y t Hy Ht.
  rewrite lookup_upd by done. case_decide; [|by exists t]. rewrite Ht. exists (f t). split; [done|apply Hf].
Qed.

Lemma task_at_upd s x f y :
  is_Some (tasks s !! x) -> task_at (upd_task s x f) y = if decide (y = x) then f (task_at s y) else task_at s y.
Proof.
  intros Hx. unfold task_at at 1. rewrite lookup_upd by done. case_decide; [|done]. subst y.
  destruct Hx as [t Ht]. rewrite Ht. cbn. by rewrite (task_at_Some _ _ _ Ht).
Qed.

Lemma stored_upd s x f y : is_Some (tasks s !! x) -> is_Some (tasks s !! y) -> is_Some (tasks (upd_task s x f) !! y).
Proof. intros Hx [t Ht]. rewrite lookup_upd by done. case_decide; rewrite Ht; by eexists. Qed.

(** The state in which [scheduler_tick] decides whether to switch. *)
Definition tick_prepare s : sched A :=
  let s := scheduler_check_sleeping_tasks s in
  let s := with_reap s (u64 (reap_counter s + 1)) in
  let s := if 100 <=? reap_counter s then scheduler_reap_terminated (with_reap s 0) else s in
  let cur := current_task s in
  let s :=
    if 0 <? time_slice (task_at s cur)
    then upd_task s cur (fun t => set_slice (time_slice t - 1) t) else s in
  upd_task s cur (fun t => set_runtime (u64 (total_runtime t + 1)) t).

Definition tick_switch s : sched A :=
  let cur := current_task s in
  if time_slice (task_at s cur) =? 0 then
    let '(new_task, s) := scheduler_pick_next s in
    if negb (new_task =? 0) && negb (new_task =? cur) then
      let s :=
        if bool_decide (t_state (task_at s cur) = RUNNING) then
          let s := upd_task s cur (set_t_state READY) in
          let s := upd_task s cur (set_slice TIME_SLICE_TICKS) in
          scheduler_add_task s cur
        else s in
      let s := upd_task s new_task (set_t_state RUNNING) in
      let s := upd_task s new_task (set_slice TIME_SLICE_TICKS) in
      with_current s new_task
    else upd_task s (current_task s) (set_slice TIME_SLICE_TICKS)
  else s.

Lemma current_upd s x f : current_task (upd_task s x f) = current_task s.
Proof. done. Qed.

Lemma tick_eq s : scheduler_tick s = if current_task s =? 0 then s else tick_switch (tick_prepare s).
Proof.
  unfold scheduler_tick, tick_switch, tick_prepare. destruct (_ =? 0); [done|].
  rewrite !current_upd. by destruct (0 <? _).
Qed.

(** What is known of a state while the tick runs. *)
Record mid s (c slice : Z) (rq sq : list Z) (st : task_state) (wk : Z -> Z) (idle : Z) : Prop := {
  m_queues : queues s rq sq;
  m_cur : current_task s = c /\ is_Some (tasks s !! c) /\ c <> 0 /\ c ∉ rq;
  m_slice : time_slice (task_at s c) = slice;
  m_state : t_state (task_at s c) = st;
  m_wake : forall x, x ∈ sq -> wake_time (task_at s x) = wk x;
  m_idle : idle_task s = idle;
}.

Lemma prepare_spec s c slice rq sq st wk idle :
  mid s c slice rq sq st wk idle -> 0 <= slice -> c ∉ woken s (pit_ticks s) sq ->
  mid (tick_prepare s) c (Z.max 0 (slice - 1)) (rq ++ woken s (pit_ticks s) sq) (asleep s (pit_ticks s) sq)
    st wk idle.
Proof.
  intros [Hq (Ec & Hsc & Hc0 & Hcr) Hsl Hst Hwk Hid] Hs0 Hcw. unfold tick_prepare.
  destruct (check_sleeping_spec s rq sq Hq) as (Hq1 & (G1 & G2 & _ & _ & _ & G6 & G7 & _) & Hf1). cbv zeta in *.
  set (T := pit_ticks s) in *. set (s1 := scheduler_check_sleeping_tasks s) in *.
  destruct (frame_state _ _ _ c Hf1 Hcw) as (F1 & F2 & F3 & _ & F5).
  assert (forall x, x ∈ asleep s T sq -> wake_time (task_at s1 x) = wk x) as Hwk1.
  { intros x Hx. apply list_elem_of_filter in Hx as [Hd Hx].
    destruct (frame_state _ _ _ x Hf1) as (_ & _ & -> & _); [|by apply Hwk].
    intros Hw. apply list_elem_of_filter in Hw as [Hw _]. congruence. }
  set (s2 := with_reap s1 _). set (s3 := if 100 <=? reap_counter s2 then _ else s2).
  assert (survives s1 s3 /\ current_task s3 = c /\ idle_task s3 = idle /\ ready_queue_head s3 = ready_queue_head s1 /\
    ready_queue_tail s3 = ready_queue_tail s1 /\ sleep_queue_head s3 = sleep_queue_head s1) as (S1 & S2 & S3 & S4 & S5 & S6).
  { unfold s3. destruct (100 <=? _).
    - destruct (reap_spec (with_reap s2 0)) as (R1 & R2 & R3 & R4 & R5 & R6 & _). cbv zeta in *.
      split; [exact R1|]. rewrite R2, R3, R4, R5, R6. cbn. by rewrite G1, G2.
    - split; [by intros y t Ht _|]. cbn. by rewrite G1, G2. }
  assert (queues s3 (rq ++ woken s T sq) (asleep s T sq)) as Hq3 by (by eapply queues_survive).
  destruct (F5 Hsc) as [tc Htc]. assert (tasks s3 !! c = Some tc) as Htc3 by (apply S1; [done|right; congruence]).
  assert (is_Some (tasks s3 !! c)) as Hs3 by (by eexists).
  assert (task_at s3 c = task_at s1 c) as Ec3 by (by rewrite (task_at_Some _ _ _ Htc3), (task_at_Some _ _ _ Htc)).
  assert (forall x, x ∈ asleep s T sq -> wake_time (task_at s3 x) = wk x) as Hwk3.
  { intros x Hx. destruct (queues_stored _ _ _ x Hq1) as [t Ht]; [set_solver|].
    assert (t_state t <> TERMINATED) as Hnt.
    { pose proof (q_sstate _ _ _ Hq1 x Hx) as E. rewrite (task_at_Some _ _ _ Ht) in E. by rewrite E. }
    rewrite (task_at_Some _ _ _ (S1 x t Ht (or_introl Hnt))). rewrite <- (Hwk1 x Hx). by rewrite (task_at_Some _ _ _ Ht). }
  rewrite S2. set (f := fun t => set_slice (time_slice t - 1) t). set (s4 := if 0 <? _ then upd_task s3 c f else s3).
  assert (mid s4 c (Z.max 0 (slice - 1)) (rq ++ woken s T sq) (asleep s T sq) st wk idle) as [M1 (M2 & M3 & M4 & M5) M6 M7 M8 M9].
  { unfold s4. rewrite Ec3, F2, Hsl. destruct (Z.ltb_spec 0 slice).
    - split; [by apply queues_upd_keep|split_and!; [done|by apply stored_upd|done|set_solver]|..].
      + rewrite task_at_upd, decide_True by done. cbn. rewrite Ec3, F2, Hsl. lia.
      + rewrite task_at_upd, decide_True by done. cbn. by rewrite Ec3, F1.
      + intros x Hx. rewrite task_at_upd by done. case_decide; [subst; cbn|]; by apply Hwk3.
      + done.
    - split; [done|split_and!; [done|done|done|set_solver]|..]; [|by rewrite Ec3, F1|done|done].
      rewrite Ec3, F2, Hsl. lia. }
  split; [by apply queues_upd_keep|split_and!; [done|by apply stored_upd|done|done]|..]; [| | |done].
  - rewrite task_at_upd, decide_True by done. done.
  - rewrite task_at_upd, decide_True by done. done.
  - intros x Hx. rewrite task_at_upd by done. case_decide; [subst; cbn|]; by apply M8.
Qed.

Lemma switch_stay s c slice rq sq st wk idle :
  mid s c slice rq sq st wk idle -> slice <> 0 -> tick_switch s = s.
Proof.
  intros [_ (Ec & _) Hsl _ _ _] Hne. unfold tick_switch. by rewrite Ec, Hsl, (proj2 (Z.eqb_neq slice 0)).
Qed.

Lemma switch_alone s c sq st wk :
  mid s c 0 [] sq st wk c -> mid (tick_switch s) c TIME_SLICE_TICKS [] sq st wk c.
Proof.
  intros [Hq (Ec & Hs & Hc0 & Hcr) Hsl Hst Hwk Hid]. unfold tick_switch.
  rewrite Ec, Hsl. cbn [Z.eqb]. rewrite (pick_empty _ _ Hq), Hid, Z.eqb_refl, andb_false_r, Ec.
  split; [by apply queues_upd_keep|split_and!; [done|by apply stored_upd|done|done]|..]; [| | |done].
  - by rewrite task_at_upd, decide_True by done.
  - by rewrite task_at_upd, decide_True by done.
  - intros x Hx. rewrite task_at_upd by done. case_decide; [subst; cbn|]; by apply Hwk.
Qed.

(** The outgoing task goes to the back of the ready queue if it was running. *)
Lemma requeue_spec s c r sq st wk idle :
  queues s r sq -> current_task s = c -> is_Some (tasks s !! c) -> c <> 0 -> c ∉ r ->
  t_state (task_at s c) = st -> (st = RUNNING -> c ∉ sq) ->
  (forall x, x ∈ sq -> wake_time (task_at s x) = wk x) -> idle_task s = idle ->
  let s' :=
    if bool_decide (t_state (task_at s c) = RUNNING)
    then scheduler_add_task (upd_task (upd_task s c (set_t_state READY)) c (set_slice TIME_SLICE_TICKS)) c
    else s in
  queues s' (r ++ if decide (st = RUNNING) then [c] else []) sq /\
  (forall x, x ∈ sq -> wake_time (task_at s' x) = wk x) /\ idle_task s' = idle /\
  (forall x, is_Some (tasks s !! x) -> is_Some (tasks s' !! x)).
Proof.
  intros Hq Ec Hs Hc0 Hcr Hst Hcs Hwk Hid. cbv zeta. rewrite Hst. case_bool_decide as E.
  - specialize (Hcs E). rewrite decide_True by done.
    set (s1 := upd_task s c (set_t_state READY)). set (s2 := upd_task s1 c _).
    assert (c ∉ r ++ sq) as Hn by (rewrite elem_of_app; tauto).
    assert (is_Some (tasks s1 !! c)) as Hs1 by (by apply stored_upd).
    assert (is_Some (tasks s2 !! c)) as Hs2 by (by apply stored_upd).
    destruct (queue_add_spec s2 r sq c) as (Hq3 & (G1 & G2 & _) & Hf & (n & Hn3) & _); [|done|done|done|].
    { by apply queues_upd_other; [apply queues_upd_other|]. }
    cbv zeta in *. split; [done|]. split; [|split; [by rewrite G2|]].
    + intros x Hx. assert (x <> c) as Hxc by (intros ->; done).
      destruct (frame_state _ _ _ x Hf) as (_ & _ & -> & _); [set_solver|].
      unfold s2, s1. rewrite !task_at_upd, !decide_False by (done || by apply stored_upd). by apply Hwk.
    + intros x Hx. destruct (decide (x = c)) as [->|Hxc].
      * rewrite Hn3. destruct Hs2 as [t ->]. by eexists.
      * apply (frame_state _ _ _ x Hf); [set_solver|]. by do 2 apply stored_upd; try done; apply stored_upd.
  - rewrite decide_False by done. rewrite app_nil_r. done.
Qed.

Lemma switch_next s c n r sq st wk idle :
  mid s c 0 (n :: r) sq st wk idle -> (st = RUNNING -> c ∉ sq) ->
  mid (tick_switch s) n TIME_SLICE_TICKS (r ++ if decide (st = RUNNING) then [c] else []) sq RUNNING wk idle.
Proof.
  intros [Hq (Ec & Hs & Hc0 & Hcr) Hsl Hst Hwk Hid] Hcs. unfold tick_switch.
  rewrite Ec, Hsl. cbn [Z.eqb]. apply not_elem_of_cons in Hcr as [Hcn Hcr].
  destruct (pick_spec s n r sq Hq) as (s1 & -> & Hq1 & (G1 & G2 & _) & Hf & Hnq & Hn0 & Hsn).
  rewrite (proj2 (Z.eqb_neq n 0)), (proj2 (Z.eqb_neq n c)) by congruence. cbn [negb andb].
  destruct (frame_state _ _ _ c Hf) as (F1 & _ & _ & _ & F5); [set_solver|].
  destruct (requeue_spec s1 c r sq st wk idle) as (Hq2 & Hwk2 & Hid2 & Hall2); try done.
  { by rewrite G1. }
  { by apply F5. }
  { by rewrite F1. }
  { intros x Hx. destruct (frame_state _ _ _ x Hf) as (_ & _ & -> & _); [set_solver|]. by apply Hwk. }
  { by rewrite G2. }
  cbv zeta in *. set (s2 := if bool_decide _ then _ else _) in *.
  assert (is_Some (tasks s2 !! n)) as Hs2 by (by apply Hall2).
  set (s3 := upd_task s2 n (set_t_state RUNNING)). assert (is_Some (tasks s3 !! n)) as Hs3 by (by apply stored_upd).
  set (r' := r ++ if decide (st = RUNNING) then [c] else []) in *. assert (n ∉ r' ++ sq) as Hn'.
  { unfold r'. clear -Hnq Hcn. destruct (decide (st = RUNNING)); set_solver. }
  set (s4 := upd_task s3 n (set_slice TIME_SLICE_TICKS)).
  assert (queues s4 r' sq) as Hq4 by (by apply queues_upd_other; [apply queues_upd_other|]).
  assert (task_at s4 n = set_slice TIME_SLICE_TICKS (set_t_state RUNNING (task_at s2 n))) as En.
  { unfold s4, s3. rewrite task_at_upd, decide_True by done. by rewrite task_at_upd, decide_True. }
  split; [destruct Hq4; by split|split_and!; [done|by apply stored_upd|done|set_solver]|..].
  - change (task_at (with_current s4 n) n) with (task_at s4 n). by rewrite En.
  - change (task_at (with_current s4 n) n) with (task_at s4 n). by rewrite En.
  - intros x Hx. change (task_at (with_current s4 n) x) with (task_at s4 x).
    unfold s4, s3. rewrite task_at_upd by done. rewrite decide_False by set_solver.
    rewrite task_at_upd by done. rewrite decide_False by set_solver. by apply Hwk2.
  - exact Hid2.
Qed.

(** ** The simulation *)

Lemma woken_pairs s T (sq : list (Z * Z)) :
  (forall x w, (x, w) ∈ sq -> wake_time (task_at s x) = w) ->
  woken s T sq.*1 = (filter (fun p => snd p <= T) sq).*1 /\ asleep s T sq.*1 = (filter (fun p => T < snd p) sq).*1.
Proof.
  induction sq as [|[x w] sq IH]; intros Hw; [done|]. destruct IH as [IH1 IH2]; [intros; apply Hw; set_solver|].
  pose proof (Hw x w ltac:(set_solver)) as Ew. unfold woken, asleep in *.
  change (((x, w) :: sq).*1) with (x :: sq.*1). destruct (decide (w <= T)) as [Hle|Hgt].
  - assert (due s T x = true) as Ed by (unfold due; rewrite Ew; by apply Z.leb_le).
    rewrite (filter_cons_True (fun x => due s T x = true)), (filter_cons_False (fun x => due s T x = false)) by congruence.
    rewrite (filter_cons_True (fun p => snd p <= T)), (filter_cons_False (fun p => T < snd p)) by (cbn; lia).
    cbn. by rewrite IH1, IH2.
  - assert (due s T x = false) as Ed by (unfold due; rewrite Ew; apply Z.leb_gt; lia).
    rewrite (filter_cons_False (fun x => due s T x = true)), (filter_cons_True (fun x => due s T x = false)) by congruence.
    rewrite (filter_cons_False (fun p => snd p <= T)), (filter_cons_True (fun p => T < snd p)) by (cbn; lia).
    cbn. by rewrite IH1, IH2.
Qed.

Lemma rel_mid s a :
  sched_rel s a ->
  mid s (a_cur a) (a_slice a) (a_rq a) (a_sq a).*1 (t_state (task_at s (a_cur a)))
    (fun x => wake_time (task_at s x)) (idle_task s).
Proof. intros [H1 H2 (H3 & H4 & H5) [H6 H7] H8 H9]. by split. Qed.

Lemma mid_rel s c slice rq (sq : list (Z * Z)) wk idle :
  mid s c slice rq sq.*1 RUNNING wk idle -> 0 <= slice -> (forall x w, (x, w) ∈ sq -> wk x = w) ->
  idle = c \/ idle ∈ rq -> c ∉ sq.*1 -> sched_ok s (mkA c slice rq sq).
Proof.
  intros [Hq (Ec & Hs & Hc0 & Hcr) Hsl Hst Hwk Hid] Hs0 Hw Hi Hcs. split; [split|done|done]; cbn; try done.
  - intros x w Hx. rewrite Hwk; [by eapply Hw|]. apply list_elem_of_fmap. by exists (x, w).
  - by rewrite Hid.
Qed.

Lemma tick_refines s a :
  sched_rel s a ->
  (a_cur a ∈ (a_sq a).*1 -> pit_ticks s < wake_time (task_at s (a_cur a)) /\ t_state (task_at s (a_cur a)) <> RUNNING) ->
  t_state (task_at s (a_cur a)) = RUNNING \/ (a_slice a = 0 /\ idle_task s <> a_cur a) ->
  sched_ok (scheduler_tick s)
    (a_tick (pit_ticks s) (bool_decide (t_state (task_at s (a_cur a)) = RUNNING)) a).
Proof.
  intros Hr Hsleep Hst. rewrite tick_eq. pose proof (rel_mid _ _ Hr) as Hm.
  destruct (Hr) as [Hq Hw (Ec & Hc0 & Hsc) [Hsl Hs0] Hfr Hid]. rewrite Ec, (proj2 (Z.eqb_neq _ 0) Hc0).
  set (T := pit_ticks s) in *. destruct (woken_pairs s T (a_sq a) Hw) as [Ew Ea].
  assert (a_cur a ∉ woken s T (a_sq a).*1) as Hcw.
  { intros Hin. apply list_elem_of_filter in Hin as [Hd Hin]. destruct (Hsleep Hin) as [Hlt _].
    unfold due in Hd. apply Z.leb_le in Hd. lia. }
  pose proof (prepare_spec _ _ _ _ _ _ _ _ Hm Hs0 Hcw) as Hp. fold T in Hp. rewrite Ew, Ea in *.
  unfold a_tick. set (rq1 := a_rq a ++ _) in *. set (sq1 := filter (fun p => T < snd p) (a_sq a)) in *.
  set (slice := Z.max 0 (a_slice a - 1)) in *.
  assert (forall x w, (x, w) ∈ sq1 -> wake_time (task_at s x) = w) as Hw1.
  { intros x w Hx. apply list_elem_of_filter in Hx as [_ Hx]. by apply Hw. }
  assert (sq1.*1 ⊆ (a_sq a).*1) as Hsub.
  { intros x Hx. apply list_elem_of_fmap in Hx as (p & -> & Hx). apply list_elem_of_filter in Hx as [_ Hx].
    apply list_elem_of_fmap. by exists p. }
  assert (t_state (task_at s (a_cur a)) = RUNNING -> a_cur a ∉ sq1.*1) as Hcs.
  { intros E Hin. destruct (Hsleep (Hsub _ Hin)) as [_ ?]. done. }
  assert (idle_task s = a_cur a \/ idle_task s ∈ rq1) as Hid1 by (unfold rq1; destruct Hid; [by left|right; set_solver]).
  destruct (Z.eqb_spec slice 0) as [E0|E0].
  - rewrite E0 in Hp. destruct rq1 as [|n r] eqn:Er.
    + destruct Hid1 as [Hid1|Hid1]; [|set_solver].
      destruct Hst as [Hst|[_ Hst]]; [|done]. rewrite Hst in Hp. rewrite Hid1 in Hp.
      apply (mid_rel _ _ _ _ _ _ _ (switch_alone _ _ _ _ _ Hp)); [done|done|by left|by apply Hcs].
    + pose proof (switch_next _ _ _ _ _ _ _ _ Hp Hcs) as Hn.
      assert (n ∉ sq1.*1) as Hnn.
      { pose proof (q_nodup _ _ _ (m_queues _ _ _ _ _ _ _ _ Hp)) as Hnd. cbn in Hnd.
        apply NoDup_cons in Hnd as [Hnd _]. set_solver. }
      case_bool_decide as Eb.
      * rewrite decide_True in Hn by done. apply (mid_rel _ _ _ _ _ _ _ Hn); [done|done| |done].
        destruct Hid1 as [->|Hin]; [right; set_solver|]. apply elem_of_cons in Hin as [->|Hin]; [by left|right; set_solver].
      * rewrite decide_False in Hn by done. apply (mid_rel _ _ _ _ _ _ _ Hn); [done|done| |done].
        destruct Hst as [?|[_ Hne]]; [done|]. destruct Hid1 as [?|Hin]; [done|].
        apply elem_of_cons in Hin as [->|Hin]; [by left|right; set_solver].
  - destruct Hst as [Hst|[E _]]; [|unfold slice in E0; rewrite E in E0; lia].
    rewrite (switch_stay _ _ _ _ _ _ _ _ Hp E0). rewrite Hst in Hp.
    apply (mid_rel _ _ _ _ _ _ _ Hp); [lia|done|done|by apply Hcs].
Qed.

(** A field update of the running task, which is in no queue. *)
Lemma rel_upd_cur s a f slice :
  sched_ok s a -> time_slice (f (task_at s (a_cur a))) = slice -> 0 <= slice ->
  sched_rel (upd_task s (a_cur a) f) (mkA (a_cur a) slice (a_rq a) (a_sq a)).
Proof.
  intros [[Hq Hw (Ec & Hc0 & Hsc) [Hsl Hs0] Hfr Hid] Hrun Haw] Hf Hs. split; cbn [a_cur a_slice a_rq a_sq].
  - apply queues_upd_other; [done|]. rewrite elem_of_app. tauto.
  - intros x w Hx. rewrite task_at_upd by done. rewrite decide_False; [by apply Hw|].
    intros ->. apply Haw. apply list_elem_of_fmap. by exists (a_cur a, w).
  - split; [done|]. split; [done|]. by apply stored_upd.
  - rewrite task_at_upd, decide_True by done. done.
  - done.
  - done.
Qed.

Lemma ok_slice s a : sched_ok s a -> time_slice (task_at s (a_cur a)) = a_slice a /\ 0 <= a_slice a.
Proof. by intros [[] _ _]. Qed.

Lemma sched_ok_ticks s a n : sched_ok s a -> sched_ok (with_ticks s n) a.
Proof. intros [[Hq ? ? ? ? ?] ? ?]. split; [split; [destruct Hq; by split|done..]|done|done]. Qed.

Lemma tick_running s a : sched_ok s a -> sched_ok (scheduler_tick s) (a_tick (pit_ticks s) true a).
Proof.
  intros [Hr Hrun Haw]. pose proof (tick_refines s a Hr) as Ht. rewrite Hrun, bool_decide_eq_true_2 in Ht by done.
  apply Ht; [done|by left].
Qed.

Lemma yield_ok s a : sched_ok s a -> sched_ok (task_yield s) (a_tick (pit_ticks s) true (a_expire a)).
Proof.
  intros Hok. destruct (Hok) as [[Hq Hw (Ec & Hc0 & Hsc) [Hsl Hs0] Hfr Hid] Hrun Haw]. unfold task_yield.
  rewrite Ec, (proj2 (Z.eqb_neq _ 0) Hc0).
  pose proof (rel_upd_cur s a (set_slice 0) 0 Hok eq_refl ltac:(lia)) as Hr.
  apply (tick_running (upd_task s (a_cur a) (set_slice 0)) (a_expire a)). split; [done| |done].
  rewrite task_at_upd, decide_True by done. done.
Qed.

(** ** Theorems *)

(** C3. The scheduler implements round-robin with time slices.  On every timer
    interrupt and every [task_yield] of a running task, the new state
    represents what the abstract scheduler computes: sleepers whose time has
    come join the back of the ready queue in order, and when the slice is used
    up the task at the front runs next with a fresh slice and the running one
    goes to the back.  A blocked task that is unblocked joins the back. *)
Theorem scheduler_refines_round_robin s (a : asched) (Hok : sched_ok s a) :
  sched_ok (pit_handler s) (a_tick (u64 (pit_ticks s + 1)) true a) /\
  sched_ok (task_yield s) (a_tick (pit_ticks s) true (a_expire a)) /\
  (forall x, is_Some (tasks s !! x) -> x <> 0 -> t_state (task_at s x) = BLOCKED ->
     sched_ok (task_unblock s x) (a_ready x a)).
Proof.
  split; [|split].
  - unfold pit_handler. by apply (tick_running (with_ticks s _)), sched_ok_ticks.
  - by apply yield_ok.
  - intros x Hx Hx0 Hb. destruct (Hok) as [[Hq Hw (Ec & Hc0 & Hsc) [Hsl Hs0] Hfr Hid] Hrun Haw].
    unfold task_unblock. rewrite (proj2 (Z.eqb_neq x 0) Hx0), bool_decide_eq_true_2 by done. cbn [orb negb].
    assert (x ∉ a_rq a ++ (a_sq a).*1) as Hxn.
    { rewrite elem_of_app. intros [Hin|Hin]; [rewrite (q_rstate _ _ _ Hq x Hin) in Hb|rewrite (q_sstate _ _ _ Hq x Hin) in Hb]; done. }
    assert (x <> a_cur a) as Hxc by (intros ->; congruence).
    destruct (queue_add_spec s _ _ x Hq Hxn Hx0 Hx) as (Hq' & (G1 & G2 & _) & Hf & _ & _). cbv zeta in *.
    destruct (frame_state _ _ _ (a_cur a) Hf) as (F1 & F2 & _ & _ & F5); [set_solver|].
    split; [split|cbn; by rewrite F1|done]; cbn [a_cur a_slice a_rq a_sq a_ready].
    + done.
    + intros y w Hy. destruct (frame_state _ _ _ y Hf) as (_ & _ & -> & _); [|by apply Hw].
      intros ->%list_elem_of_singleton. apply Hxn, elem_of_app. right. apply list_elem_of_fmap. by exists (x, w).
    + split; [by rewrite G1|]. split; [done|by apply F5].
    + by rewrite F2.
    + set_solver.
    + rewrite G2. destruct Hid; [by left|right; set_solver].
Qed.

Lemma upd_upd s p f g : upd_task (upd_task s p f) p g = upd_task s p (g ∘ f).
Proof. unfold upd_task, with_tasks, task_at. cbn. rewrite lookup_insert_eq. by rewrite insert_insert_eq. Qed.

(** A running task that leaves the state [RUNNING] with an empty slice is not requeued. *)
Lemma give_up_ok s a f st :
  sched_ok s a -> idle_task s <> a_cur a ->
  time_slice (f (task_at s (a_cur a))) = 0 -> t_state (f (task_at s (a_cur a))) = st -> st <> RUNNING ->
  sched_ok (scheduler_tick (upd_task s (a_cur a) f)) (a_tick (pit_ticks s) false (a_expire a)).
Proof.
  intros Hok Hidle Hf Hst Hne. destruct (Hok) as [[Hq Hw (Ec & Hc0 & Hsc) [Hsl Hs0] Hfr Hid] Hrun Haw].
  pose proof (rel_upd_cur s a f 0 Hok Hf ltac:(lia)) as Hr.
  pose proof (tick_refines _ (a_expire a) Hr) as Htk. cbn [a_cur a_expire a_slice] in Htk.
  rewrite (task_at_upd s (a_cur a) f (a_cur a)), decide_True, Hst in Htk by done.
  rewrite bool_decide_eq_false_2 in Htk by done. apply Htk; [done|]. by right.
Qed.

Lemma block_ok s a :
  sched_ok s a -> idle_task s <> a_cur a -> sched_ok (task_block s) (a_tick (pit_ticks s) false (a_expire a)).
Proof.
  intros Hok Hidle. destruct (Hok) as [[_ _ (Ec & Hc0 & _) _ _ _] _ _].
  unfold task_block, task_yield. rewrite Ec, (proj2 (Z.eqb_neq _ 0) Hc0). rewrite current_upd, Ec, (proj2 (Z.eqb_neq _ 0) Hc0).
  rewrite upd_upd. by apply (give_up_ok s a _ BLOCKED).
Qed.

(** C12. Giving up the processor.  When the running task is not the idle task,
    [task_block], [task_sleep] and [task_exit] hand the processor to the task
    at the front of the ready queue and do not requeue the caller;
    [task_sleep] records the caller among the sleepers with its wake time. *)
Theorem scheduler_gives_up_processor s (a : asched) (n : Z)
    (Hok : sched_ok s a) (Hidle : idle_task s <> a_cur a) (Hn : 0 < n) (Hov : pit_ticks s + n < 2 ^ 64)
    (Ht : 0 <= pit_ticks s) :
  sched_ok (task_block s) (a_tick (pit_ticks s) false (a_expire a)) /\
  sched_ok (task_sleep s n) (a_tick (pit_ticks s) false (a_fall_asleep (pit_ticks s + n) a)) /\
  (exists s', task_exit s = Some s' /\ sched_ok s' (a_tick (pit_ticks s) false (a_expire a))).
Proof.
  change (2 ^ 64) with 18446744073709551616 in Hov.
  destruct (Hok) as [[Hq Hw (Ec & Hc0 & Hsc) [Hsl Hs0] Hfr Hid] Hrun Haw].
  split; [|split].
  - by apply block_ok.
  - unfold task_sleep. rewrite Ec, (proj2 (Z.eqb_neq _ 0) Hc0), (proj2 (Z.eqb_neq n 0)) by lia. cbn [orb].
    rewrite (proj2 (Z.eqb_neq _ _)) by congruence. rewrite u64_small by lia. rewrite upd_upd.
    set (f := set_t_state SLEEPING ∘ set_wake (pit_ticks s + n)).
    change (sleep_queue_head (upd_task s (a_cur a) f)) with (sleep_queue_head s). rewrite upd_upd.
    set (g := set_t_next (sleep_queue_head s) ∘ f). set (s1 := upd_task s (a_cur a) g).
    assert (a_cur a ∉ a_rq a ++ (a_sq a).*1) as Hcn by (rewrite elem_of_app; tauto).
    assert (queues s1 (a_rq a) (a_sq a).*1) as Hq1 by (by apply queues_upd_other).
    assert (is_Some (tasks s1 !! a_cur a)) as Hs1 by (by apply stored_upd).
    assert (task_at s1 (a_cur a) = g (task_at s (a_cur a))) as Ec1.
    { unfold s1. by rewrite task_at_upd, decide_True by done. }
    set (s2 := with_sleep s1 (a_cur a)).
    assert (queues s2 (a_rq a) (a_cur a :: (a_sq a).*1)) as Hq2.
    { destruct Hq1 as [Q1 Q2 Q3 Q4 Q5 Q6]. split; try done.
      - cbn. split; [done|]. split; [done|]. eexists. split; [apply lookup_insert_eq|]. exact Q3.
      - apply NoDup_app in Q4 as (N1 & N2 & N3). apply NoDup_app. split_and!; [done|set_solver|].
        constructor; [set_solver|done].
      - intros y [->|Hy]%elem_of_cons; [|by apply Q6].
        change (task_at s2 (a_cur a)) with (task_at s1 (a_cur a)). by rewrite Ec1. }
    change (upd_task s2 (a_cur a) (set_slice 0)) with (upd_task s2 (a_cur a) (set_slice 0)).
    set (s3 := upd_task s2 (a_cur a) (set_slice 0)).
    assert (task_at s3 (a_cur a) = set_slice 0 (g (task_at s (a_cur a)))) as Ec3.
    { unfold s3. rewrite task_at_upd, decide_True by done. by rewrite <- Ec1. }
    pose proof (tick_refines s3 (a_fall_asleep (pit_ticks s + n) a)) as Htk. cbn [a_cur a_fall_asleep a_slice a_sq a_rq] in Htk.
    rewrite Ec3 in Htk. change (pit_ticks s3) with (pit_ticks s) in Htk.
    apply Htk; [|intros _; cbn; split; [lia|done]|by right].
    split; cbn [a_cur a_fall_asleep a_slice a_sq a_rq].
    + by apply queues_upd_keep.
    + intros x w [[= -> ->]|Hx]%elem_of_cons; [by rewrite Ec3|].
      unfold s3. rewrite task_at_upd by done. rewrite decide_False.
      * change (task_at s2 x) with (task_at s1 x). unfold s1. rewrite task_at_upd by done. rewrite decide_False; [by apply Hw|].
        intros ->. apply Haw. apply list_elem_of_fmap. by exists (a_cur a, w).
      * intros ->. apply Haw. apply list_elem_of_fmap. by exists (a_cur a, w).
    + split; [done|]. split; [done|]. by apply stored_upd.
    + by rewrite Ec3.
    + done.
    + done.
  - unfold task_exit. rewrite Ec, (proj2 (Z.eqb_neq _ 0) Hc0), (proj2 (Z.eqb_neq _ _)) by congruence.
    eexists. split; [done|]. set (s1 := upd_task s (a_cur a) (set_t_state TERMINATED)).
    assert (queues s1 (a_rq a) (a_sq a).*1) as Hq1 by (apply queues_upd_other; [done|rewrite elem_of_app; tauto]).
    rewrite (remove_absent s1 (a_rq a) (a_sq a).*1 _ Hq1) by done. unfold s1. rewrite upd_upd. by apply (give_up_ok s a _ TERMINATED).
Qed.

(** ** Fairness *)

Lemma pit_iter_ok k s a :
  sched_ok s a -> exists a', sched_ok (Nat.iter k pit_handler s) a' /\
    (a_sq a = [] -> exists Ts, length Ts = k /\ a' = foldr (fun T a => a_tick T true a) a Ts).
Proof.
  intros Hok. induction k as [|k (a' & IH & Heq)]; [exists a; split; [done|]; by exists []|].
  exists (a_tick (u64 (pit_ticks (Nat.iter k pit_handler s) + 1)) true a').
  split; [cbn [Nat.iter]; unfold pit_handler at 1; by apply (tick_running (with_ticks _ _)), sched_ok_ticks|].
  intros E. destruct (Heq E) as (Ts & Hl & ->).
  exists (u64 (pit_ticks (Nat.iter k pit_handler s) + 1) :: Ts). cbn. by rewrite Hl.
Qed.

(** With nobody asleep the time of the ticks does not matter. *)
Definition a_step (a : asched) : asched := a_tick 0 true a.

Lemma a_tick_no_sleepers T a : a_sq a = [] -> a_tick T true a = a_step a /\ a_sq (a_step a) = [].
Proof.
  intros E. unfold a_step, a_tick. rewrite E. cbn. rewrite app_nil_r.
  destruct (_ =? 0); [|done]. by destruct (a_rq a).
Qed.

Lemma foldr_ticks Ts a : a_sq a = [] ->
  foldr (fun T a => a_tick T true a) a Ts = Nat.iter (length Ts) a_step a /\ a_sq (Nat.iter (length Ts) a_step a) = [].
Proof.
  intros E. induction Ts as [|T Ts [IH1 IH2]]; [done|].
  cbn [foldr length Nat.iter nat_rect]. rewrite IH1. by destruct (a_tick_no_sleepers T _ IH2) as [-> E2].
Qed.

Lemma a_step_stay c slice q : 1 < slice -> a_step (mkA c slice q []) = mkA c (slice - 1) q [].
Proof.
  intros Hs. unfold a_step, a_tick. cbn [a_cur a_slice a_rq a_sq]. rewrite Z.max_r by lia.
  rewrite (proj2 (Z.eqb_neq _ 0)) by lia. by rewrite app_nil_r.
Qed.

Lemma a_step_switch c n r : a_step (mkA c 1 (n :: r) []) = mkA n TIME_SLICE_TICKS (r ++ [c]) [].
Proof. unfold a_step, a_tick. cbn [a_cur a_slice a_rq a_sq Z.max Z.sub Z.eqb]. cbn. by rewrite app_nil_r. Qed.

(** Ten ticks: one full slice, after which the front of the queue runs. *)
Lemma a_round c n r :
  Nat.iter 10 a_step (mkA c TIME_SLICE_TICKS (n :: r) []) = mkA n TIME_SLICE_TICKS (r ++ [c]) [].
Proof.
  unfold TIME_SLICE_TICKS at 1. do 9 (rewrite Nat.iter_succ_r, a_step_stay by lia).
  cbn [Nat.iter nat_rect]. apply a_step_switch.
Qed.

Lemma a_rounds k c q n :
  q !! k = Some n -> a_cur (Nat.iter (10 * S k) a_step (mkA c TIME_SLICE_TICKS q [])) = n.
Proof.
  revert c q. induction k as [|k IH]; intros c q Hq; (destruct q as [|m r]; [done|]).
  - cbn in Hq. injection Hq as ->. change (10 * 1)%nat with 10%nat. by rewrite a_round.
  - replace (10 * S (S k))%nat with (10 * S k + 10)%nat by lia. rewrite Nat.iter_add, a_round. apply IH.
    cbn in Hq. by rewrite lookup_app_l by (by eapply lookup_lt_Some).
Qed.

(** C14. Every ready task gets the processor.  If nobody is asleep and the
    running task has a full slice, the task at position [k] of the ready queue
    is the running one after exactly [10 * (k + 1)] timer interrupts. *)
Theorem scheduler_round_robin_fair s (a : asched) (k : nat) (n : Z)
    (Hok : sched_ok s a) (Hslice : a_slice a = TIME_SLICE_TICKS) (Hsq : a_sq a = [])
    (Hk : a_rq a !! k = Some n) :
  current_task (Nat.iter (10 * S k) pit_handler s) = n.
Proof.
  destruct (pit_iter_ok (10 * S k) s a Hok) as (a' & Hok' & Heq). destruct (Heq Hsq) as (Ts & Hl & ->).
  destruct (foldr_ticks Ts a Hsq) as [E _]. rewrite E, Hl in Hok'.
  destruct Hok' as [[_ _ (Ec & _) _ _ _] _ _]. rewrite Ec.
  destruct a as [c sl q sq]. cbn in *. subst. by apply a_rounds.
Qed.

(** ** Creating tasks *)

Lemma find_free_slot_spec s :
  let '(slot, s') := task_find_free_slot s in
  tasks s' = tasks s /\ current_task s' = current_task s /\ stack_mem s' = stack_mem s /\
  task_table_size s' = task_table_size s /\
  (forall i, 0 <= i < task_table_capacity s -> nthz (task_table s') i = nthz (task_table s) i) /\
  task_table_capacity s <= task_table_capacity s' /\
  match slot with
  | Some i => 0 < task_table_capacity s < 2 ^ 31 -> 0 <= i < task_table_capacity s' /\ nthz (task_table s') i = 0 /\
      (forall j, 0 <= j < i -> nthz (task_table s') j <> 0)
  | None => forall j, 0 <= j < task_table_capacity s -> nthz (task_table s) j <> 0
  end.
Proof.
  unfold task_find_free_slot. destruct (find_range _ _ _) as [i|] eqn:Ef.
  - apply find_range_Some in Ef as (Hi & Hz%Z.eqb_eq & Hmin). split_and!; try done; try lia.
    intros _. split; [done|]. split; [done|]. intros j Hj. specialize (Hmin j Hj). by apply Z.eqb_neq in Hmin.
  - rewrite find_range_None in Ef. unfold task_table_grow.
    destruct (kh_alloc (k_heap s) _) as [tb h]. destruct (Z.eqb_spec tb 0) as [->|Hne]; cbn [is_ok negb].
    { split_and!; try done; try lia. intros j Hj. specialize (Ef j Hj). by apply Z.eqb_neq in Ef. }
    cbn [tasks current_task stack_mem task_table_size with_table kfree_mem with_heap task_table].
    set (cap := task_table_capacity s) in *. set (ext := replicate _ 0).
    change (task_table_capacity (with_heap s h)) with cap in *.
    assert (forall i, 0 <= i < cap -> nthz (task_table s ++ ext) i = nthz (task_table s) i) as Hold.
    { intros i Hi. unfold nthz. rewrite lookup_app_l; [done|]. unfold cap, task_table_capacity in Hi. lia. }
    assert (task_table_capacity (with_table (kfree_mem (with_heap s h) (table_ptr (with_heap s h))) (task_table s ++ ext) tb
      (task_table_size s)) = cap + Z.of_nat (length ext)) as Hcap.
    { unfold task_table_capacity. cbn. rewrite length_app. unfold cap, task_table_capacity. lia. }
    split_and!; try done; [change (task_table (with_heap s h)) with (task_table s); rewrite Hcap; lia|].
    change (task_table (with_heap s h)) with (task_table s).
    rewrite Hcap. unfold ext. rewrite length_replicate.
    intros Hc. change (2 ^ 31) with 2147483648 in Hc. rewrite u32_small by lia.
    replace (cap + Z.of_nat (Z.to_nat (cap * 2 - cap))) with (cap * 2) by lia. rewrite Z.div_mul by lia.
    split; [lia|]. split.
    + unfold nthz. rewrite lookup_app_r by (unfold cap, task_table_capacity; lia).
      rewrite lookup_replicate_2; [done|]. unfold cap, task_table_capacity in *. lia.
    + intros j Hj. unfold ext in Hold. rewrite (u32_small (cap * 2)) in Hold by lia. rewrite Hold by lia.
      specialize (Ef j Hj). by apply Z.eqb_neq in Ef.
Qed.

Lemma idle_remove_search fuel s t prev curr : idle_task (remove_search fuel s t prev curr) = idle_task s.
Proof.
  revert prev curr. induction fuel as [|fuel IH]; intros prev curr; [done|]. cbn [remove_search].
  destruct (curr =? 0); [done|]. destruct (curr =? t); [|apply IH]. by destruct (_ =? curr).
Qed.

Lemma idle_remove s t : idle_task (scheduler_remove_task s t) = idle_task s.
Proof.
  unfold scheduler_remove_task. destruct (_ || _); [done|]. destruct (_ =? t); [done|]. apply idle_remove_search.
Qed.

Lemma idle_unsleep fuel s t curr : idle_task (unsleep_loop fuel s t curr) = idle_task s.
Proof.
  revert curr. induction fuel as [|fuel IH]; intros curr; [done|]. cbn [unsleep_loop].
  destruct (_ || _); [done|]. destruct (_ =? t); [done|apply IH].
Qed.

(** The task is ready with a full slice, and its saved context returns into
    [entry] with [guard] as the return address above. *)
Definition ready_to_start s (t entry guard : Z) : Prop :=
  let tk := task_at s t in
  t_state tk = READY /\ time_slice tk = TIME_SLICE_TICKS /\ context tk + 80 = stack_top tk /\
  stack_mem s !! (context tk + 48) = Some entry /\ stack_mem s !! (context tk + 56) = Some guard.


(** [task_destroy] protects the running task but not the idle task: when
    another task runs, destroying the idle task frees it while [idle_task]
    keeps pointing to it. *)
Theorem task_destroy_idle_dangles s (a : asched)
    (Hok : sched_ok s a) (Hidle : idle_task s <> a_cur a) (Hnz : idle_task s <> 0) :
  let s' := task_destroy s (idle_task s) in
  idle_task s' = idle_task s /\ tasks s' !! idle_task s' = None /\
  task_destroy s (current_task s) = s.
Proof.
  destruct (Hok) as [[Hq Hw (Ec & Hc0 & Hsc) [Hsl Hs0] Hfr Hid] Hrun Haw]. cbv zeta.
  destruct Hid as [?|Hid]; [done|]. apply list_elem_of_split in Hid as (r1 & r2 & Er).
  assert (task_destroy s (current_task s) = s) as Hcur.
  { unfold task_destroy. rewrite Ec, (proj2 (Z.eqb_neq _ 0) Hc0). by rewrite Z.eqb_refl. }
  assert (idle_task (task_destroy s (idle_task s)) = idle_task s) as Hsame.
  { unfold task_destroy. rewrite (proj2 (Z.eqb_neq _ 0) Hnz), (proj2 (Z.eqb_neq _ _)) by congruence.
    set (s1 := upd_task s _ _). set (s2 := scheduler_remove_task s1 _).
    assert (idle_task s2 = idle_task s) as E2.
    { unfold s2. change (idle_task s) with (idle_task s1). apply idle_remove. }
    set (s3 := if sleep_queue_head s2 =? _ then _ else _).
    assert (idle_task s3 = idle_task s) as E3.
    { unfold s3. destruct (_ =? _); [exact E2|]. by rewrite idle_unsleep. }
    destruct (stack_base _ =? 0), (pid _ <? _); exact E3. }
  split; [done|]. split; [|done]. rewrite Hsame. unfold task_destroy.
  rewrite (proj2 (Z.eqb_neq _ 0) Hnz), (proj2 (Z.eqb_neq _ _)) by congruence. cbn. apply lookup_delete_eq.
Qed.
End refinement.

(** ** The kernel's scheduler after boot *)

Definition boot_heap : heap buddy := mkHeap kernel_slab ∅.
Definition sched_zero : sched (heap buddy) := mkSched ∅ [] 0 0 0 0 0 0 0 0 0 ∅ boot_heap.

(** [task_init], [scheduler_init], then two tasks made ready. *)
Definition boot1 : sched (heap buddy) := snd (scheduler_init (snd (task_init sched_zero)) 0x200000 0x201000).
Definition boot_a : Z := fst (task_create boot1 0x200000 (str "shell") 0x202000).
Definition boot2 : sched (heap buddy) :=
  scheduler_add_task (snd (task_create boot1 0x200000 (str "shell") 0x202000)) boot_a.
Definition boot_idle : Z := idle_task boot2.

Definition boot_abs : asched := mkA boot_idle TIME_SLICE_TICKS [boot_a] [].

Lemma boot_ok : sched_ok boot2 boot_abs.
Proof.
  split; [split; [split|..]|..].
  - split; [vm_compute; reflexivity|]. split; [vm_compute; discriminate|].
    exists (task_at boot2 boot_a). split; vm_compute; reflexivity.
  - vm_compute. reflexivity.
  - vm_compute. reflexivity.
  - apply NoDup_singleton.
  - intros x Hx. apply list_elem_of_singleton in Hx as ->. vm_compute. reflexivity.
  - intros x Hx. by apply elem_of_nil in Hx.
  - intros x w Hx. by apply elem_of_nil in Hx.
  - split; [vm_compute; reflexivity|]. split; [vm_compute; discriminate|]. vm_compute. by eexists.
  - split; [vm_compute; reflexivity|discriminate].
  - intros Hx. apply list_elem_of_singleton in Hx. revert Hx. vm_compute. discriminate.
  - left. vm_compute. reflexivity.
  - vm_compute. reflexivity.
  - intros Hx. by apply elem_of_nil in Hx.
Qed.

(** After one slice the shell runs and the idle task waits. *)
Definition boot3 : sched (heap buddy) := task_yield boot2.
Definition boot3_abs : asched := a_tick (pit_ticks boot2) true (a_expire boot_abs).

Lemma boot3_ok : sched_ok boot3 boot3_abs.
Proof. exact (yield_ok boot2 boot_abs boot_ok). Qed.

Lemma scheduler_refines_round_robin_witness :
  sched_ok (pit_handler boot2) (a_tick (u64 (pit_ticks boot2 + 1)) true boot_abs).
Proof. exact (proj1 (scheduler_refines_round_robin boot2 boot_abs boot_ok)). Defined.

Lemma boot3_idle : idle_task boot3 <> a_cur boot3_abs.
Proof. vm_compute. discriminate. Qed.

Lemma scheduler_gives_up_processor_witness :
  sched_ok (task_block boot3) (a_tick (pit_ticks boot3) false (a_expire boot3_abs)).
Proof.
  refine (proj1 (scheduler_gives_up_processor boot3 boot3_abs 5 boot3_ok boot3_idle _ _ _)).
  - reflexivity.
  - vm_compute. reflexivity.
  - vm_compute. discriminate.
Defined.

Lemma scheduler_round_robin_fair_witness : current_task (Nat.iter 10 pit_handler boot2) = boot_a.
Proof. exact (scheduler_round_robin_fair boot2 boot_abs 0 boot_a boot_ok eq_refl eq_refl eq_refl). Defined.

Definition boot_create : Z * sched (heap buddy) := task_create boot1 0x200000 (str "shell") 0x202000.

Lemma boot_create_eq : task_create boot1 0x200000 (str "shell") 0x202000 = (boot_a, snd boot_create).
Proof. unfold boot_a, boot_create. apply surjective_pairing. Qed.
Lemma boot_a_nonnull : boot_a <> 0.
Proof. vm_compute. discriminate. Qed.
Lemma boot1_capacity : 0 < task_table_capacity boot1 < 2 ^ 31.
Proof. vm_compute. split; reflexivity. Qed.


Lemma task_destroy_idle_dangles_witness :
  tasks (task_destroy boot3 (idle_task boot3)) !! idle_task (task_destroy boot3 (idle_task boot3)) = None.
Proof.
  refine (proj1 (proj2 (task_destroy_idle_dangles boot3 boot3_abs boot3_ok boot3_idle _))).
  vm_compute. discriminate.
Defined.
