(* ===== verification/Tty.v ===== *)
(** * Terminal and keyboard: tty/tty.c, drivers/keyboard.c

    [tty] is the global [tty_t]; its ring buffer is related to an abstract
    queue of characters by [contents].  Echo output is returned as a list of
    console events.  [tty_read] blocks: one pass of its outer loop is
    [tty_read_attempt], and [reader_step] splits that pass at the points where
    the keyboard interrupt can arrive.  Serial output is not modelled. *)

From S2P Require Import Prelude Errno Task TaskInv TaskThms.

Definition TTY_BUFFER_SIZE : Z := 256.

Record tty := mkTty {
  tty_buffer : list Z;
  read_pos : Z;
  write_pos : Z;
  count : Z;
  waiting_task : Z;
  echo_enabled : bool;
}.

Inductive con_event := ConPutc (c : Z) | ConBackspace (n : Z).

Definition CH_BS : Z := 8.
Definition CH_NL : Z := 10.

Definition tty_init : kerr_t * tty := (E_OK, mkTty (replicate 256 0) 0 0 0 0 true).

Section tty.
Context {A : Type} `{KHeap A}.

Definition tty_input_char (t : tty) (s : sched A) (c : Z) : tty * sched A * list con_event :=
  if c =? CH_BS then
    if 0 <? count t then
      (mkTty (tty_buffer t) (read_pos t) ((write_pos t - 1 + TTY_BUFFER_SIZE) mod TTY_BUFFER_SIZE)
         (count t - 1) (waiting_task t) (echo_enabled t), s,
       if echo_enabled t then [ConBackspace 1] else [])
    else (t, s, [])
  else
    let ev1 := if echo_enabled t && negb (c =? CH_NL) then [ConPutc c] else [] in
    let t :=
      if count t <? TTY_BUFFER_SIZE then
        mkTty (updz (tty_buffer t) (write_pos t) c) (read_pos t) ((write_pos t + 1) mod TTY_BUFFER_SIZE)
          (count t + 1) (waiting_task t) (echo_enabled t)
      else t in
    if c =? CH_NL then
      let ev2 := if echo_enabled t then [ConPutc CH_NL] else [] in
      if waiting_task t =? 0 then (t, s, ev1 ++ ev2)
      else
        let task_to_wake := waiting_task t in
        let t := mkTty (tty_buffer t) (read_pos t) (write_pos t) (count t) 0 (echo_enabled t) in
        (t, task_unblock s task_to_wake, ev1 ++ ev2)
    else (t, s, ev1).

(** The scan for a newline; [checked] runs up to [count]. *)
Fixpoint scan_newline (n : nat) (buf : list Z) (temp_pos : Z) : bool :=
  match n with
  | O => false
  | S n' => if nthz buf temp_pos =? CH_NL then true else scan_newline n' buf ((temp_pos + 1) mod TTY_BUFFER_SIZE)
  end.
Definition has_newline (t : tty) : bool := scan_newline (Z.to_nat (count t)) (tty_buffer t) (read_pos t).

(** The copy loop; [limit] is [size - 1] in 64 bits, [n] the characters held. *)
Fixpoint copy_line (n : nat) (t : tty) (limit bytes_read : Z) : list Z * tty :=
  match n with
  | O => ([], t)
  | S n' =>
      if bytes_read <? limit then
        let c := nthz (tty_buffer t) (read_pos t) in
        let t := mkTty (tty_buffer t) ((read_pos t + 1) mod TTY_BUFFER_SIZE) (write_pos t) (count t - 1)
                   (waiting_task t) (echo_enabled t) in
        if c =? CH_NL then ([c], t)
        else let '(l, t) := copy_line n' t limit (bytes_read + 1) in (c :: l, t)
      else ([], t)
  end.

(** The characters stored in the caller's buffer before the terminator, whose
    number is the result. *)
Definition tty_take_line (t : tty) (size : Z) : list Z * tty :=
  copy_line (Z.to_nat (count t)) t (u64 (size - 1)) 0.

Definition set_waiting (t : tty) (w : Z) : tty :=
  mkTty (tty_buffer t) (read_pos t) (write_pos t) (count t) w (echo_enabled t).

(** One pass of the outer loop, run by [current] without interruption: a
    line, or the caller is blocked. *)
Definition tty_read_attempt (t : tty) (s : sched A) (current size : Z) : option (list Z) * tty * sched A :=
  if has_newline t then
    let '(l, t) := tty_take_line t size in (Some l, t, s)
  else (None, set_waiting t current, task_block s).

(** *** The reader and the interrupts

    The same loop with its control points: the scan loop, the store to
    [waiting_task], the call of [task_block], the copy loop.  The reader
    moves only while it is the running task. *)
Inductive reader_pc :=
| RScan (temp_pos checked : Z)
| RSetWaiting
| RBlock
| RCopy (out : list Z)
| RDone (out : list Z).

Definition reader_next (t : tty) (s : sched A) (pc : reader_pc) (current size : Z)
  : tty * sched A * reader_pc :=
  match pc with
  | RScan temp_pos checked =>
      if checked <? count t then
        if nthz (tty_buffer t) temp_pos =? CH_NL then (t, s, RCopy [])
        else (t, s, RScan ((temp_pos + 1) mod TTY_BUFFER_SIZE) (checked + 1))
      else (t, s, RSetWaiting)
  | RSetWaiting => (set_waiting t current, s, RBlock)
  | RBlock => (t, task_block s, RScan (read_pos t) 0)
  | RCopy out =>
      if (0 <? count t) && (Z.of_nat (length out) <? u64 (size - 1)) then
        let c := nthz (tty_buffer t) (read_pos t) in
        let t := mkTty (tty_buffer t) ((read_pos t + 1) mod TTY_BUFFER_SIZE) (write_pos t) (count t - 1)
                   (waiting_task t) (echo_enabled t) in
        (t, s, if c =? CH_NL then RDone (out ++ [c]) else RCopy (out ++ [c]))
      else (t, s, RDone out)
  | RDone out => (t, s, RDone out)
  end.

(** Between two control points the keyboard or the timer may interrupt. *)
Inductive tty_step (current size : Z) : tty * sched A * reader_pc -> tty * sched A * reader_pc -> Prop :=
| step_reader t s pc : current_task s = current ->
    tty_step current size (t, s, pc) (reader_next t s pc current size)
| step_input t s pc c :
    tty_step current size (t, s, pc) (fst (tty_input_char t s c), pc)
| step_timer t s pc :
    tty_step current size (t, s, pc) (t, pit_handler s, pc).
End tty.

(** ** The ring buffer as a queue *)

Definition contents (t : tty) : list Z :=
  (fun i => nthz (tty_buffer t) ((read_pos t + i) mod TTY_BUFFER_SIZE)) <$> seqZ 0 (count t).

Record tty_inv (t : tty) : Prop := {
  ti_len : length (tty_buffer t) = 256%nat;
  ti_read : 0 <= read_pos t < TTY_BUFFER_SIZE;
  ti_count : 0 <= count t <= TTY_BUFFER_SIZE;
  ti_write : write_pos t = (read_pos t + count t) mod TTY_BUFFER_SIZE;
}.

Lemma length_contents t : tty_inv t -> Z.of_nat (length (contents t)) = count t.
Proof. intros []. unfold contents. rewrite length_fmap, length_seqZ. lia. Qed.

Lemma seqZ_snoc n : 0 <= n -> seqZ 0 (n + 1) = seqZ 0 n ++ [n].
Proof. intros Hn. rewrite seqZ_app by lia. by rewrite Z.add_0_l. Qed.

Lemma tty_init_inv : tty_inv (snd tty_init) /\ contents (snd tty_init) = [].
Proof. split; [|done]. split; cbn; unfold TTY_BUFFER_SIZE; done || lia. Qed.

(** Appending at the write position. *)
Lemma contents_push t c w e :
  tty_inv t -> count t < TTY_BUFFER_SIZE ->
  let t' := mkTty (updz (tty_buffer t) (write_pos t) c) (read_pos t) ((write_pos t + 1) mod TTY_BUFFER_SIZE)
              (count t + 1) w e in
  tty_inv t' /\ contents t' = contents t ++ [c].
Proof.
  intros [H1 H2 H3 H4] Hlt. cbv zeta. unfold TTY_BUFFER_SIZE in *. split.
  - split; cbn; unfold TTY_BUFFER_SIZE; [by rewrite length_updz|done|lia|]. rewrite H4. dlia.
  - unfold contents. cbn [tty_buffer read_pos count]. rewrite seqZ_snoc, fmap_app by lia. cbn [fmap list_fmap].
    f_equal.
    + apply list_fmap_ext. intros k i Hi. apply lookup_seqZ in Hi as [-> Hi]. unfold TTY_BUFFER_SIZE.
      apply nthz_updz_ne; rewrite ?H4; dlia.
    + f_equal. unfold TTY_BUFFER_SIZE. rewrite <- H4. apply nthz_updz_eq. rewrite H1, H4. dlia.
Qed.

(** Taking back the last character. *)
Lemma contents_pop t w e :
  tty_inv t -> 0 < count t ->
  let t' := mkTty (tty_buffer t) (read_pos t) ((write_pos t - 1 + TTY_BUFFER_SIZE) mod TTY_BUFFER_SIZE)
              (count t - 1) w e in
  tty_inv t' /\ exists c, contents t = contents t' ++ [c].
Proof.
  intros [H1 H2 H3 H4] Hlt. cbv zeta. unfold TTY_BUFFER_SIZE in *. split.
  - split; cbn; unfold TTY_BUFFER_SIZE; [done|done|lia|]. rewrite H4. dlia.
  - eexists. unfold contents. cbn [tty_buffer read_pos count].
    replace (count t) with (count t - 1 + 1) at 1 by lia. rewrite seqZ_snoc by lia. by rewrite fmap_app.
Qed.

(** Taking the first character. *)
Lemma contents_shift t w e :
  tty_inv t -> 0 < count t ->
  let c := nthz (tty_buffer t) (read_pos t) in
  let t' := mkTty (tty_buffer t) ((read_pos t + 1) mod TTY_BUFFER_SIZE) (write_pos t) (count t - 1) w e in
  tty_inv t' /\ contents t = c :: contents t'.
Proof.
  intros [H1 H2 H3 H4] Hlt. cbv zeta. unfold TTY_BUFFER_SIZE in *. split.
  - split; cbn; unfold TTY_BUFFER_SIZE; [done|dlia|lia|]. rewrite H4. dlia.
  - unfold contents. cbn [tty_buffer read_pos count]. rewrite (seqZ_cons 0 (count t)) by lia.
    cbn [fmap list_fmap]. unfold TTY_BUFFER_SIZE. rewrite Z.add_0_r, (Z.mod_small (read_pos t)) by lia. f_equal.
    replace (Z.pred (count t)) with (count t - 1) by lia. change (Z.succ 0) with (1 + 0). rewrite <- fmap_add_seqZ.
    rewrite <- list_fmap_compose. apply list_fmap_ext. intros k i Hi. cbn. f_equal. dlia.
Qed.

Lemma scan_newline_spec n buf pos :
  0 <= pos < TTY_BUFFER_SIZE ->
  scan_newline n buf pos = bool_decide (CH_NL ∈ (fun i => nthz buf ((pos + i) mod TTY_BUFFER_SIZE)) <$> seqZ 0 (Z.of_nat n)).
Proof.
  revert pos. induction n as [|n IH]; intros pos Hp; [done|]. cbn [scan_newline].
  rewrite seqZ_cons by lia. cbn [fmap list_fmap].
  assert ((pos + 0) mod TTY_BUFFER_SIZE = pos) as -> by (rewrite Z.add_0_r; by apply Z.mod_small).
  destruct (Z.eqb_spec (nthz buf pos) CH_NL) as [E|Hne].
  - symmetry. apply bool_decide_eq_true. rewrite E. apply list_elem_of_here.
  - rewrite IH by (unfold TTY_BUFFER_SIZE; dlia). apply bool_decide_ext.
    replace (Z.pred (Z.of_nat (S n))) with (Z.of_nat n) by lia. change (Z.succ 0) with (1 + 0). rewrite <- fmap_add_seqZ.
    rewrite <- list_fmap_compose.
    erewrite (list_fmap_ext (fun i => nthz buf (((pos + 1) mod TTY_BUFFER_SIZE + i) mod TTY_BUFFER_SIZE))).
    + rewrite elem_of_cons. split; [by right|]. intros [?|?]; [congruence|done].
    + intros k i Hi. cbn. f_equal. unfold TTY_BUFFER_SIZE. dlia.
Qed.

Lemma has_newline_spec t : tty_inv t -> has_newline t = bool_decide (CH_NL ∈ contents t).
Proof.
  intros Hi. unfold has_newline. rewrite scan_newline_spec by apply Hi. unfold contents.
  rewrite Z2Nat.id; [done|apply Hi].
Qed.

(** The line the reader gets: up to and including the first newline, at most
    [n] characters. *)
Fixpoint first_line (n : nat) (l : list Z) : list Z :=
  match n, l with
  | S n', c :: l' => if c =? CH_NL then [c] else c :: first_line n' l'
  | _, _ => []
  end.

Lemma copy_line_spec n t limit k :
  tty_inv t -> n = Z.to_nat (count t) -> 0 <= k ->
  let '(l, t') := copy_line n t limit k in
  tty_inv t' /\ l = first_line (Z.to_nat (limit - k)) (contents t) /\ contents t = l ++ contents t' /\
  waiting_task t' = waiting_task t.
Proof.
  revert t k. induction n as [|n IH]; intros t k Hi Hn Hk; cbn [copy_line].
  - assert (contents t = []) as E.
    { apply nil_length_inv. pose proof (length_contents t Hi). lia. }
    rewrite E. split_and!; try done. by destruct (Z.to_nat (limit - k)).
  - destruct (Z.ltb_spec k limit) as [Hlt|Hge].
    + destruct (contents_shift t (waiting_task t) (echo_enabled t) Hi ltac:(lia)) as [Hi' Ec]. cbv zeta in *.
      set (t1 := mkTty _ _ _ _ _ _) in *. set (c := nthz _ _) in *.
      replace (Z.to_nat (limit - k)) with (S (Z.to_nat (limit - (k + 1)))) by lia. rewrite Ec. cbn [first_line].
      destruct (Z.eqb_spec c CH_NL); [done|].
      specialize (IH t1 (k + 1) Hi' ltac:(cbn; lia) ltac:(lia)).
      destruct (copy_line n t1 limit (k + 1)) as [l t']. destruct IH as (I1 & -> & I3 & I4).
      split_and!; try done. by rewrite I3 at 1.
    + replace (Z.to_nat (limit - k)) with O by lia. split_and!; done.
Qed.

(** ** The keyboard *)

Definition scancode_to_ascii : list Z :=
  [0; 0] ++ str "1234567890-=" ++ [8; 9] ++ str "qwertyuiop[]" ++ [10; 0] ++ str "asdfghjkl;'`" ++ [0; 92]
  ++ str "zxcvbnm,./" ++ [0] ++ str "*" ++ [0] ++ str " ".
Definition scancode_to_ascii_shift : list Z :=
  [0; 0] ++ str "!@#$%^&*()_+" ++ [8; 9] ++ str "QWERTYUIOP{}" ++ [10; 0] ++ str "ASDFGHJKL:" ++ [34] ++ str "~" ++ [0]
  ++ str "|ZXCVBNM<>?" ++ [0] ++ str "*" ++ [0] ++ str " ".

Section keyboard.
Context {A : Type} `{KHeap A}.

(** [scancode] is what [inb(KEYBOARD_DATA_PORT)] returned. *)
Definition keyboard_handler (shift_pressed : bool) (t : tty) (s : sched A) (scancode : Z)
  : bool * (tty * sched A * list con_event) :=
  if (scancode =? 0x2A) || (scancode =? 0x36) then (true, (t, s, []))
  else if (scancode =? 0xAA) || (scancode =? 0xB6) then (false, (t, s, []))
  else if scancode =? 0x0E then (shift_pressed, tty_input_char t s CH_BS)
  else if 0x80 <=? scancode then (shift_pressed, (t, s, []))
  else
    let c :=
      if scancode <? Z.of_nat (length scancode_to_ascii) then
        if shift_pressed then nthz scancode_to_ascii_shift scancode else nthz scancode_to_ascii scancode
      else 0 in
    if c =? 0 then (shift_pressed, (t, s, [])) else (shift_pressed, tty_input_char t s c).

(** The scancodes that type [c]: shift down, the key, shift up. *)
Definition keys_for (c : Z) : option (bool * Z) :=
  match list_find (fun x => x = c) scancode_to_ascii with
  | Some (k, _) => Some (false, Z.of_nat k)
  | None => (fun p => (true, Z.of_nat (fst p))) <$> list_find (fun x => x = c) scancode_to_ascii_shift
  end.

Definition printable : list Z := seqZ 32 95.

Lemma tables_cover :
  forallb (fun c => match keys_for c with
    | Some (sh, k) => (0 <=? k) && (k <? 58) && negb (k =? 0x2A) && negb (k =? 0x36) && negb (k =? 0x0E) &&
                      (nthz (if sh then scancode_to_ascii_shift else scancode_to_ascii) k =? c)
    | None => false end) (CH_NL :: printable) = true.
Proof. vm_compute. reflexivity. Qed.

(** Every printable ASCII character and the newline can be typed: there is
    a key which, with the shift state it needs, makes [keyboard_handler] pass
    exactly that character to the terminal.  Both tables have the same
    length, so the shifted lookup stays in bounds, and no key release is
    taken for a character. *)
Theorem keyboard_types_every_character (t : tty) (s : sched A) :
  (forall c, c ∈ CH_NL :: printable -> exists sh k, keyboard_handler sh t s k = (sh, tty_input_char t s c)) /\
  length scancode_to_ascii_shift = length scancode_to_ascii /\
  (forall sh k, 0x80 <= k -> snd (keyboard_handler sh t s k) = (t, s, [])).
Proof.
  split; [|split; [reflexivity|]].
  - intros c Hc. pose proof (proj1 (forallb_forall _ _) tables_cover c (proj1 (list_elem_of_In _ _) Hc)) as Hk.
    cbv beta in Hk. destruct (keys_for c) as [[sh k]|]; [|done]. exists sh, k.
    rewrite !andb_true_iff, !negb_true_iff in Hk. destruct Hk as [[[[[K0 K1] K2] K3] K4] K5].
    apply Z.eqb_eq in K5. assert (c <> 0) as Hc0.
    { intros ->. apply elem_of_cons in Hc as [?|Hc]; [done|]. apply elem_of_seqZ in Hc. lia. }
    unfold keyboard_handler. rewrite K2, K3, K4. cbn [orb].
    rewrite (proj2 (Z.eqb_neq k 0xAA)), (proj2 (Z.eqb_neq k 0xB6)), (proj2 (Z.leb_gt 0x80 k)) by lia. cbn [orb].
    change (Z.of_nat (length scancode_to_ascii)) with 58. rewrite K1.
    destruct sh; rewrite K5, (proj2 (Z.eqb_neq c 0) Hc0); done.
  - intros sh k Hk. unfold keyboard_handler.
    rewrite (proj2 (Z.eqb_neq k 0x2A)), (proj2 (Z.eqb_neq k 0x36)), (proj2 (Z.eqb_neq k 0x0E)), (proj2 (Z.leb_le 0x80 k)) by lia.
    cbn [orb]. by destruct (_ || _).
Qed.
End keyboard.

(** ** The terminal as a line queue *)

(** What one typed character does to the characters waiting to be read. *)
Definition line_edit (c : Z) (q : list Z) : list Z :=
  if c =? CH_BS then removelast q
  else if Z.of_nat (length q) <? TTY_BUFFER_SIZE then q ++ [c] else q.

Section terminal.
Context {A : Type} `{KHeap A}.
Implicit Types (t : tty) (s : sched A).

Lemma input_spec t s c :
  tty_inv t ->
  let '(t', s', _) := tty_input_char t s c in
  tty_inv t' /\ contents t' = line_edit c (contents t) /\
  (if (c =? CH_NL) && negb (waiting_task t =? 0)
   then s' = task_unblock s (waiting_task t) /\ waiting_task t' = 0
   else s' = s /\ waiting_task t' = waiting_task t).
Proof.
  intros Hi. pose proof (length_contents t Hi) as Hlen. unfold tty_input_char, line_edit. rewrite Hlen.
  destruct (Z.eqb_spec c CH_BS) as [->|Hbs].
  - change (CH_BS =? CH_NL) with false. cbn [andb]. destruct (Z.ltb_spec 0 (count t)) as [Hlt|Hge].
    + destruct (contents_pop t (waiting_task t) (echo_enabled t) Hi Hlt) as [Hi' [x Ex]]. cbv zeta in *.
      split; [done|]. split; [|done]. by rewrite Ex, removelast_last.
    + split; [done|]. split; [|done]. destruct (contents t); [done|cbn in Hlen; lia].
  - cbv zeta.
    assert (forall w, tty_inv (mkTty (tty_buffer t) (read_pos t) (write_pos t) (count t) w (echo_enabled t))) as Hw.
    { intros w. by destruct Hi as [? ? ? ?]. }
    destruct (Z.ltb_spec (count t) TTY_BUFFER_SIZE) as [Hlt|Hge].
    + destruct (contents_push t c (waiting_task t) (echo_enabled t) Hi Hlt) as [Hi' Ec].
      destruct (contents_push t c 0 (echo_enabled t) Hi Hlt) as [Hi0 Ec0]. cbv zeta in *.
      cbn [waiting_task tty_buffer read_pos write_pos count echo_enabled].
      destruct (c =? CH_NL), (waiting_task t =? 0); cbn [andb negb]; done.
    + cbn [waiting_task tty_buffer read_pos write_pos count echo_enabled].
      destruct (c =? CH_NL), (waiting_task t =? 0); cbn [andb negb]; split_and!; done.
Qed.

(** A sequence of keystrokes. *)
Definition type_chars (ts : tty * sched A) (l : list Z) : tty * sched A :=
  foldl (fun ts c => fst (tty_input_char (fst ts) (snd ts) c)) ts l.

(** Ordinary characters that fit are appended and wake nobody. *)
Lemma type_plain t s l :
  tty_inv t -> CH_BS ∉ l -> CH_NL ∉ l -> Z.of_nat (length (contents t) + length l) <= TTY_BUFFER_SIZE ->
  let '(t', s') := type_chars (t, s) l in
  tty_inv t' /\ contents t' = contents t ++ l /\ s' = s /\ waiting_task t' = waiting_task t.
Proof.
  revert t. induction l as [|c l IH]; intros t Hi Hb Hn Hl; [cbn; by rewrite app_nil_r|].
  apply not_elem_of_cons in Hb as [Hb1 Hb2]. apply not_elem_of_cons in Hn as [Hn1 Hn2].
  pose proof (input_spec t s c Hi) as Hc. unfold type_chars. cbn [foldl fst snd].
  destruct (tty_input_char t s c) as [[t1 s1] ev]. cbn [fst]. destruct Hc as (I1 & I2 & I3).
  rewrite (proj2 (Z.eqb_neq c CH_NL)) in I3 by congruence. destruct I3 as [-> I4].
  unfold line_edit in I2. rewrite (proj2 (Z.eqb_neq c CH_BS)) in I2 by congruence.
  cbn [length] in Hl. rewrite (proj2 (Z.ltb_lt _ _)) in I2 by lia.
  specialize (IH t1 I1 Hb2 Hn2). rewrite I2, length_app in IH. cbn [length] in IH. specialize (IH ltac:(lia)).
  unfold type_chars in IH. destruct (foldl _ (t1, s) l) as [t' s']. rewrite <- app_assoc, I4 in IH. done.
Qed.

Lemma first_line_app n q l : CH_NL ∉ q -> (length q < n)%nat -> first_line n (q ++ CH_NL :: l) = q ++ [CH_NL].
Proof.
  revert n. induction q as [|c q IH]; intros n Hq Hn; (destruct n as [|n]; [cbn in Hn; lia|]); cbn; [done|].
  apply not_elem_of_cons in Hq as [Hc Hq]. rewrite (proj2 (Z.eqb_neq c CH_NL)) by congruence.
  rewrite IH; [done|done|cbn in Hn; lia].
Qed.

(** Line editing.  Whatever is typed, the ring buffer stays well formed and
    acts as a queue: a character is appended if fewer than 256 are waiting and
    dropped otherwise, a backspace takes back the last one.  A newline, and
    nothing else, unblocks the registered reader and clears the registration. *)
Theorem tty_input_refines_queue t s (c : Z) (Hi : tty_inv t) :
  let '(t', s', _) := tty_input_char t s c in
  tty_inv t' /\ contents t' = line_edit c (contents t) /\
  (if (c =? CH_NL) && negb (waiting_task t =? 0)
   then s' = task_unblock s (waiting_task t) /\ waiting_task t' = 0
   else s' = s /\ waiting_task t' = waiting_task t).
Proof. exact (input_spec t s c Hi). Qed.

(** C16. A line typed is a line read.  A reader that finds no complete line
    blocks and registers itself; when the rest of a line and a newline are
    then typed without interleaving and fit the buffer, the newline unblocks
    that reader, and its next pass returns exactly the pending characters, the
    typed ones and the newline, leaving the buffer empty. *)
Theorem tty_blocked_reader_gets_line t s (current size : Z) (line : list Z)
    (Hi : tty_inv t) (Hn : CH_NL ∉ contents t ++ line) (Hb : CH_BS ∉ line) (Hc : current <> 0)
    (Hfit : Z.of_nat (length (contents t ++ line)) < TTY_BUFFER_SIZE)
    (Hsize : Z.of_nat (length (contents t ++ line)) + 1 < size < 2 ^ 64) :
  exists t1 t2 t3,
    tty_read_attempt t s current size = (None, t1, task_block s) /\
    type_chars (t1, task_block s) (line ++ [CH_NL]) = (t2, task_unblock (task_block s) current) /\
    tty_read_attempt t2 (task_unblock (task_block s) current) current size =
      (Some (contents t ++ line ++ [CH_NL]), t3, task_unblock (task_block s) current) /\
    contents t3 = [] /\ waiting_task t3 = 0.
Proof.
  change (2 ^ 64) with 18446744073709551616 in Hsize. rewrite length_app in *.
  apply not_elem_of_app in Hn as Hn2. destruct Hn2 as [Hn1 Hn2].
  set (s1 := task_block s). exists (set_waiting t current).
  assert (tty_inv (set_waiting t current)) as Hi1 by (by destruct Hi).
  pose proof (type_plain (set_waiting t current) s1 line Hi1 Hb Hn2
    ltac:(change (contents (set_waiting t current)) with (contents t); lia)) as Ht.
  unfold type_chars. rewrite foldl_app. unfold type_chars in Ht.
  destruct (foldl _ _ line) as [t2 s2]. destruct Ht as (I1 & I2 & -> & I4).
  change (contents (set_waiting t current)) with (contents t) in I2. cbn in I4.
  pose proof (input_spec t2 s1 CH_NL I1) as Hnl. cbn [foldl fst snd].
  destruct (tty_input_char t2 s1 CH_NL) as [[t3 s3] ev]. destruct Hnl as (J1 & J2 & J3).
  rewrite I4, (proj2 (Z.eqb_neq current 0) Hc) in J3. cbn in J3. destruct J3 as [-> J4].
  unfold line_edit in J2. change (CH_NL =? CH_BS) with false in J2. cbv iota in J2.
  rewrite I2, length_app, (proj2 (Z.ltb_lt _ _)) in J2 by lia.
  pose proof (copy_line_spec _ t3 (u64 (size - 1)) 0 J1 eq_refl ltac:(lia)) as Hcp.
  exists t3. unfold tty_read_attempt.
  rewrite (has_newline_spec t Hi), bool_decide_eq_false_2 by done.
  rewrite (has_newline_spec t3 J1), bool_decide_eq_true_2 by (rewrite J2; apply elem_of_app; right; apply list_elem_of_here).
  unfold tty_take_line.
  destruct (copy_line _ t3 _ 0) as [l t4]. destruct Hcp as (K1 & K2 & K3 & K4).
  rewrite J2, first_line_app in K2; [|done|rewrite length_app, u64_small by lia; lia].
  exists t4. rewrite K2, <- app_assoc. split_and!; try done; [|congruence].
  rewrite J2, K2 in K3. rewrite <- (app_nil_r (_ ++ [CH_NL])) in K3 at 1. by apply app_inv_head in K3.
Qed.

(** A full buffer with no newline starves the reader: the newline that
    would complete the line is dropped, so whatever is typed next, short of a
    backspace, no later pass of [tty_read] finds a line. *)
Theorem tty_full_buffer_starves_reader t s (current size : Z) (l : list Z)
    (Hi : tty_inv t) (Hfull : count t = TTY_BUFFER_SIZE) (Hn : CH_NL ∉ contents t) (Hb : CH_BS ∉ l) :
  let '(t', s') := type_chars (t, s) l in
  contents t' = contents t /\ exists t'', tty_read_attempt t' s' current size = (None, t'', task_block s').
Proof.
  revert t s Hi Hfull Hn Hb. induction l as [|c l IH]; intros t s Hi Hfull Hn Hb; cbn [type_chars foldl].
  - split; [done|]. eexists. unfold tty_read_attempt. rewrite (has_newline_spec t Hi), bool_decide_eq_false_2 by done. done.
  - pose proof (input_spec t s c Hi) as Hc. pose proof (length_contents t Hi) as Hl.
    unfold type_chars. cbn [foldl fst snd]. destruct (tty_input_char t s c) as [[t1 s1] ev]. cbn [fst].
    apply not_elem_of_cons in Hb as [Hb1 Hb2]. destruct Hc as (I1 & I2 & _). unfold line_edit in I2.
    rewrite (proj2 (Z.eqb_neq c CH_BS)) in I2 by congruence. rewrite Hl, Hfull in I2. rewrite Z.ltb_irrefl in I2.
    assert (count t1 = TTY_BUFFER_SIZE) as Hf1.
    { rewrite <- (length_contents t1 I1), I2, Hl. done. }
    specialize (IH t1 s1 I1 Hf1 ltac:(by rewrite I2) Hb2). unfold type_chars in IH.
    destruct (foldl _ _ l) as [t' s']. by rewrite <- I2.
Qed.

Lemma type_chars_steps current size t s pc l :
  rtc (tty_step current size) (t, s, pc) (type_chars (t, s) l, pc).
Proof.
  revert t s. induction l as [|c l IH]; intros t s; [apply rtc_refl|].
  eapply rtc_l; [apply (step_input current size t s pc c)|]. unfold type_chars. cbn [foldl fst snd].
  destruct (fst (tty_input_char t s c)) as [t1 s1]. apply IH.
Qed.

(** With an empty ready queue and nobody asleep the timer never switches. *)
Lemma alone_stays k s c n : sched_ok s (mkA c n [] []) -> current_task (Nat.iter k pit_handler s) = c.
Proof.
  intros Hok. destruct (pit_iter_ok k s _ Hok) as (a' & Ha' & Heq).
  destruct (Heq eq_refl) as (Ts & _ & ->). destruct Ha' as [[_ _ (-> & _) _ _ _] _ _].
  destruct (foldr_ticks Ts (mkA c n [] []) eq_refl) as [-> _].
  cut (exists m, Nat.iter (length Ts) a_step (mkA c n [] []) = mkA c m [] []); [by intros [m ->]|].
  induction (length Ts) as [|j [m IH]]; [by exists n|]. rewrite Nat.iter_succ, IH. unfold a_step, a_tick. cbn.
  destruct (_ =? 0); by eexists.
Qed.

(** C18. The wake-up can be lost.  If the whole line arrives after the scan has
    found the buffer empty and before the reader stores itself in
    [waiting_task], the interrupt finds no reader to wake; the reader then
    registers and blocks, the complete line stays in the buffer, and no number
    of timer interrupts makes the reader run again. *)
Theorem tty_lost_wakeup t s (a : asched) (size : Z) (line : list Z)
    (Hok : sched_ok s a) (Hrq : a_rq a = [idle_task s]) (Hsq : a_sq a = []) (Hidle : idle_task s <> a_cur a)
    (Hi : tty_inv t) (Hempty : contents t = []) (Hw : waiting_task t = 0)
    (Hn : CH_NL ∉ line) (Hb : CH_BS ∉ line) (Hfit : Z.of_nat (length line) < TTY_BUFFER_SIZE) :
  exists t' s',
    rtc (tty_step (a_cur a) size) (t, s, RScan (read_pos t) 0) (t', s', RScan (read_pos t') 0) /\
    contents t' = line ++ [CH_NL] /\ waiting_task t' = a_cur a /\
    forall k, current_task (Nat.iter k pit_handler s') <> a_cur a.
Proof.
  assert (current_task s = a_cur a) as Ec by (by destruct Hok as [[_ _ (-> & _) _ _ _] _ _]).
  pose proof (type_plain t s line Hi Hb Hn ltac:(rewrite Hempty; cbn; lia)) as Ht.
  pose proof (type_chars_steps (a_cur a) size t s RSetWaiting (line ++ [CH_NL])) as Hst.
  unfold type_chars in Ht, Hst. rewrite foldl_app in Hst.
  destruct (foldl _ _ line) as [t2 s2]. destruct Ht as (I1 & I2 & -> & I4).
  rewrite Hempty in I2. cbn [app] in I2. pose proof (input_spec t2 s CH_NL I1) as Hnl. cbn [foldl fst snd] in Hst.
  destruct (tty_input_char t2 s CH_NL) as [[t3 s3] ev]. cbn [fst] in Hst. destruct Hnl as (J1 & J2 & J3).
  rewrite I4, Hw in J3. destruct J3 as [-> J4]. unfold line_edit in J2.
  change (CH_NL =? CH_BS) with false in J2. cbv iota in J2. rewrite I2, (proj2 (Z.ltb_lt _ _) Hfit) in J2.
  exists (set_waiting t3 (a_cur a)), (task_block s). split_and!; [|done|done|].
  - assert (reader_next t s (RScan (read_pos t) 0) (a_cur a) size = (t, s, RSetWaiting)) as E1.
    { unfold reader_next. pose proof (length_contents t Hi) as Hl. rewrite Hempty in Hl. cbn in Hl. by rewrite <- Hl. }
    eapply rtc_l; [by apply (step_reader (a_cur a) size t s (RScan (read_pos t) 0))|]. rewrite E1.
    etrans; [exact Hst|].
    eapply rtc_l; [by apply (step_reader (a_cur a) size t3 s RSetWaiting)|]. cbn [reader_next].
    eapply rtc_l; [by apply (step_reader (a_cur a) size _ s RBlock)|]. apply rtc_refl.
  - intros k. pose proof (block_ok s a Hok Hidle) as Hb2. unfold a_tick, a_expire in Hb2.
    cbn [a_slice a_rq a_sq a_cur] in Hb2. rewrite Hrq, Hsq in Hb2. cbn in Hb2.
    by rewrite (alone_stays k _ _ _ Hb2).
Qed.
End terminal.

(** ** The terminal of a freshly booted kernel *)

Definition tty0 : tty := snd tty_init.
Definition full_tty : tty := fst (type_chars (tty0, boot3) (replicate 256 97)).

Lemma tty_input_refines_queue_witness :
  contents (fst (fst (tty_input_char tty0 boot3 104))) = [104].
Proof. exact (proj1 (proj2 (tty_input_refines_queue tty0 boot3 104 (proj1 tty_init_inv)))). Defined.

Lemma tty_blocked_reader_gets_line_witness :
  exists t1 t2 t3,
    tty_read_attempt tty0 boot3 boot_a 256 = (None, t1, task_block boot3) /\
    type_chars (t1, task_block boot3) (str "help" ++ [CH_NL]) = (t2, task_unblock (task_block boot3) boot_a) /\
    tty_read_attempt t2 (task_unblock (task_block boot3) boot_a) boot_a 256 =
      (Some (str "help" ++ [CH_NL]), t3, task_unblock (task_block boot3) boot_a) /\
    contents t3 = [] /\ waiting_task t3 = 0.
Proof.
  apply (tty_blocked_reader_gets_line tty0 boot3 boot_a 256 (str "help") (proj1 tty_init_inv)).
  - by apply (bool_decide_unpack _).
  - by apply (bool_decide_unpack _).
  - exact boot_a_nonnull.
  - vm_compute. reflexivity.
  - vm_compute. split; reflexivity.
Defined.

Lemma full_tty_facts : tty_inv full_tty /\ count full_tty = TTY_BUFFER_SIZE /\ CH_NL ∉ contents full_tty.
Proof.
  split; [|split; [vm_compute; reflexivity|]].
  - split; vm_compute; repeat split; discriminate.
  - intros Hx. rewrite (eq_refl : contents full_tty = replicate 256 97) in Hx. apply elem_of_replicate in Hx as [? _]. discriminate.
Qed.

Lemma tty_full_buffer_starves_reader_witness :
  contents (fst (type_chars (full_tty, boot3) [CH_NL])) = contents full_tty.
Proof.
  pose proof (tty_full_buffer_starves_reader full_tty boot3 boot_a 256 [CH_NL] (proj1 full_tty_facts)
    (proj1 (proj2 full_tty_facts)) (proj2 (proj2 full_tty_facts)) ltac:(by intros ?%list_elem_of_singleton)) as Hx.
  destruct (type_chars (full_tty, boot3) [CH_NL]) as [t' s']. exact (proj1 Hx).
Defined.

Lemma boot3_queues : a_rq boot3_abs = [idle_task boot3] /\ a_sq boot3_abs = [].
Proof. split; vm_compute; reflexivity. Qed.
Lemma plain_ls : (CH_NL ∉ str "ls") /\ (CH_BS ∉ str "ls").
Proof. split; by apply (bool_decide_unpack _). Qed.

Lemma tty_lost_wakeup_witness :
  exists t' s',
    rtc (tty_step (a_cur boot3_abs) 256) (tty0, boot3, RScan 0 0) (t', s', RScan (read_pos t') 0) /\
    contents t' = str "ls" ++ [CH_NL] /\ waiting_task t' = a_cur boot3_abs /\
    forall k, current_task (Nat.iter k pit_handler s') <> a_cur boot3_abs.
Proof.
  exact (tty_lost_wakeup tty0 boot3 boot3_abs 256 (str "ls") boot3_ok (proj1 boot3_queues) (proj2 boot3_queues)
    boot3_idle (proj1 tty_init_inv) eq_refl eq_refl (proj1 plain_ls) (proj2 plain_ls) eq_refl).
Defined.
