(* ===== verification/Driver.v ===== *)
(** * Driver registry: drivers/driver.h, drivers/driver.c

    A driver is a record found through its address; [W] is the state that the
    drivers' own [init] and [cleanup] functions change, so these are functions
    on [W].  [driver_init_all] also returns the drivers in the order in which it
    announced and initialised them.  The rest of the console output is not
    modelled.  The loop bound of the initialisation passes is the source's own
    [max_passes]; [init_passes_spec] shows that it never cuts the work short. *)

From stdpp Require Import sorting.
From S2P Require Import Prelude Errno.

Definition MAX_DRIVERS : Z := 32.
Definition DRIVER_NAME_MAX : Z := 32.

Inductive driver_type_t :=
| DRIVER_TYPE_UNKNOWN | DRIVER_TYPE_FUNDAMENTAL | DRIVER_TYPE_BLOCK | DRIVER_TYPE_CHAR | DRIVER_TYPE_NETWORK
| DRIVER_TYPE_INPUT | DRIVER_TYPE_TIMER | DRIVER_TYPE_FILESYSTEM | DRIVER_TYPE_VIDEO | DRIVER_TYPE_AUDIO.

Inductive driver_status_t :=
| DRIVER_STATUS_UNINITIALIZED | DRIVER_STATUS_INITIALIZED | DRIVER_STATUS_ENABLED
| DRIVER_STATUS_DISABLED | DRIVER_STATUS_FAILED.

#[export] Instance driver_type_eq_dec : EqDecision driver_type_t.
Proof. solve_decision. Defined.
#[export] Instance driver_status_eq_dec : EqDecision driver_status_t.
Proof. solve_decision. Defined.

Record driver_t (W : Type) := mkDriver {
  d_name : list Z;
  d_type : driver_type_t;
  d_version : Z;
  d_priority : Z;
  d_status : driver_status_t;
  d_init : option (Z -> W -> kerr_t * W);
  d_cleanup : option (Z -> W -> kerr_t * W);
  depends_on : list Z;
  driver_data : Z;
}.
Arguments mkDriver {W}. Arguments d_name {W}. Arguments d_type {W}. Arguments d_version {W}. Arguments d_priority {W}.
Arguments d_status {W}. Arguments d_init {W}. Arguments d_cleanup {W}. Arguments depends_on {W}. Arguments driver_data {W}.

(** The driver structures, and the registry's array and counter. *)
Record registry (W : Type) := mkReg {
  drv_mem : gmap Z (driver_t W);
  driver_registry : list Z;
  driver_count : Z;
}.
Arguments mkReg {W}. Arguments drv_mem {W}. Arguments driver_registry {W}. Arguments driver_count {W}.

Section driver.
Context {W : Type}.
Implicit Types (r : registry W) (w : W).

Definition null_driver : driver_t W :=
  mkDriver [] DRIVER_TYPE_UNKNOWN 0 0 DRIVER_STATUS_UNINITIALIZED None None [] 0.
Definition drv_at r (p : Z) : driver_t W := default null_driver (drv_mem r !! p).
Definition set_status (st : driver_status_t) (d : driver_t W) : driver_t W :=
  mkDriver (d_name d) (d_type d) (d_version d) (d_priority d) st (d_init d) (d_cleanup d) (depends_on d) (driver_data d).
Definition upd_status r (p : Z) (st : driver_status_t) : registry W :=
  mkReg (<[p := set_status st (drv_at r p)]> (drv_mem r)) (driver_registry r) (driver_count r).

Definition driver_registry_init r : kerr_t * registry W :=
  (E_OK, mkReg (drv_mem r) (for_range 0 MAX_DRIVERS (fun i a => updz a i 0) (driver_registry r)) 0).

(** [for (i = 0; i < driver_count; i++) if (strcmp(registry[i]->name, name) == 0)] *)
Definition find_name r (name : list Z) : option Z :=
  find_range 0 (driver_count r) (fun i => bool_decide (d_name (drv_at r (nthz (driver_registry r) i)) = name)).

Definition driver_register r (driver : Z) : kerr_t * registry W :=
  if driver =? 0 then (E_INVALID, r)
  else if MAX_DRIVERS <=? driver_count r then (E_NOMEM, r)
  else match find_name r (d_name (drv_at r driver)) with
  | Some _ => (E_EXISTS, r)
  | None =>
      let r := upd_status r driver DRIVER_STATUS_UNINITIALIZED in
      (E_OK, mkReg (drv_mem r) (updz (driver_registry r) (driver_count r) driver) (u8 (driver_count r + 1)))
  end.

Definition is_up (st : driver_status_t) : bool :=
  match st with DRIVER_STATUS_INITIALIZED | DRIVER_STATUS_ENABLED => true | _ => false end.

(** [name] is [None] for a null pointer. *)
Definition driver_unregister r w (name : option (list Z)) : kerr_t * registry W * W :=
  match name with
  | None => (E_INVALID, r, w)
  | Some name =>
      match find_name r name with
      | None => (E_NOTFOUND, r, w)
      | Some i =>
          let p := nthz (driver_registry r) i in
          let w := match d_cleanup (drv_at r p) with
                   | Some cleanup => if is_up (d_status (drv_at r p)) then snd (cleanup p w) else w
                   | None => w
                   end in
          let a := for_range i (driver_count r - 1) (fun j a => updz a j (nthz a (j + 1))) (driver_registry r) in
          let a := updz a (driver_count r - 1) 0 in
          (E_OK, mkReg (drv_mem r) a (u8 (driver_count r - 1)), w)
      end
  end.

Definition driver_get_by_name r (name : option (list Z)) : Z :=
  match name with
  | None => 0
  | Some name => match find_name r name with Some i => nthz (driver_registry r) i | None => 0 end
  end.

(** The pointers stored in the caller's array. *)
Definition driver_get_by_type r (type : driver_type_t) (max_count : Z) : list Z :=
  for_range 0 (driver_count r) (fun i found =>
    if Z.of_nat (length found) <? max_count then
      let p := nthz (driver_registry r) i in
      if bool_decide (d_type (drv_at r p) = type) then found ++ [p] else found
    else found) [].

Definition driver_dependencies_met r (driver : Z) : bool :=
  match depends_on (drv_at r driver) with
  | [] => true
  | dep_name =>
      let dep := driver_get_by_name r (Some dep_name) in
      if dep =? 0 then false else is_up (d_status (drv_at r dep))
  end.

(** The insertion point: the first position at or after [pos] whose priority
    number is larger. *)
Fixpoint find_pos (n : nat) r (q : list Z) (prio pos : Z) : Z :=
  match n with
  | O => pos
  | S n' => if d_priority (drv_at r (nthz q pos)) <=? prio then find_pos n' r q prio (pos + 1) else pos
  end.

(** [for (j = queue_size; j > insert_pos; j--) q[j] = q[j - 1]; q[insert_pos] = drv] *)
Definition shift_insert (q : list Z) (queue_size insert_pos drv : Z) : list Z :=
  updz (for_range 0 (queue_size - insert_pos)
          (fun k q => updz q (queue_size - k) (nthz q (queue_size - k - 1))) q) insert_pos drv.

Definition queue_step r (i : Z) (qs : list Z * Z) : list Z * Z :=
  let '(q, queue_size) := qs in
  let drv := nthz (driver_registry r) i in
  let insert_pos := find_pos (Z.to_nat queue_size) r q (d_priority (drv_at r drv)) 0 in
  (shift_insert q queue_size insert_pos drv, u8 (queue_size + 1)).

(** The array [sorted_queue] and its size. *)
Definition build_queue r : list Z * Z :=
  for_range 0 (driver_count r) (queue_step r) (replicate 32 0, 0).

Record init_st := mkInit {
  i_reg : registry W;
  i_world : W;
  i_count : Z;
  i_progress : bool;
  i_log : list Z;
}.

(** The body of the inner loop for one driver. *)
Definition init_one (drv : Z) (st : init_st) : init_st :=
  let r := i_reg st in
  if negb (bool_decide (d_status (drv_at r drv) = DRIVER_STATUS_UNINITIALIZED)) then st
  else if negb (driver_dependencies_met r drv) then st
  else
    let '(err, w) := match d_init (drv_at r drv) with
                     | Some init => init drv (i_world st)
                     | None => (E_OK, i_world st)
                     end in
    let status := if is_ok err then DRIVER_STATUS_INITIALIZED else DRIVER_STATUS_FAILED in
    mkInit (upd_status r drv status) w (u8 (i_count st + 1)) true (i_log st ++ [drv]).

Definition clear_progress (st : init_st) : init_st :=
  mkInit (i_reg st) (i_world st) (i_count st) false (i_log st).

Definition init_pass (q : list Z) (queue_size : Z) (st : init_st) : init_st :=
  for_range 0 queue_size (fun i => init_one (nthz q i)) (clear_progress st).

(** The outer loop; [passes] is [max_passes - pass]. *)
Fixpoint init_passes (passes : nat) (q : list Z) (queue_size : Z) (st : init_st) : init_st :=
  match passes with
  | O => st
  | S passes' =>
      if i_count st <? driver_count (i_reg st) then
        let st := init_pass q queue_size st in
        if i_progress st then init_passes passes' q queue_size st else st
      else st
  end.

Definition driver_init_all r w : kerr_t * init_st :=
  let '(q, queue_size) := build_queue r in
  let max_passes := u8 (driver_count r * 2) in
  (E_OK, init_passes (Z.to_nat max_passes) q queue_size (mkInit r w 0 false [])).

Definition driver_get_count r : Z := driver_count r.
End driver.

Definition driver_type_name (type : driver_type_t) : string :=
  match type with
  | DRIVER_TYPE_FUNDAMENTAL => "Fundamental"
  | DRIVER_TYPE_BLOCK => "Block"
  | DRIVER_TYPE_CHAR => "Character"
  | DRIVER_TYPE_NETWORK => "Network"
  | DRIVER_TYPE_INPUT => "Input"
  | DRIVER_TYPE_TIMER => "Timer"
  | DRIVER_TYPE_FILESYSTEM => "Filesystem"
  | DRIVER_TYPE_VIDEO => "Video"
  | DRIVER_TYPE_AUDIO => "Audio"
  | DRIVER_TYPE_UNKNOWN => "Unknown"
  end.

Definition driver_status_name (status : driver_status_t) : string :=
  match status with
  | DRIVER_STATUS_UNINITIALIZED => "Uninitialized"
  | DRIVER_STATUS_INITIALIZED => "Initialized"
  | DRIVER_STATUS_ENABLED => "Enabled"
  | DRIVER_STATUS_DISABLED => "Disabled"
  | DRIVER_STATUS_FAILED => "Failed"
  end.

(** ** The registered drivers *)

Section registered.
Context {W : Type}.
Implicit Types (r : registry W) (w : W).

Definition live r : list Z := take (Z.to_nat (driver_count r)) (driver_registry r).
Definition name_of r (p : Z) : list Z := d_name (drv_at r p).
Definition prio r (p : Z) : Z := d_priority (drv_at r p).
Definition status_of r (p : Z) : driver_status_t := d_status (drv_at r p).

Record reg_ok r : Prop := {
  ro_len : length (driver_registry r) = 32%nat;
  ro_count : 0 <= driver_count r <= MAX_DRIVERS;
  ro_stored : forall p, p ∈ live r -> p <> 0 /\ is_Some (drv_mem r !! p);
  ro_names : NoDup (name_of r <$> live r);
}.

Lemma live_lookup r i :
  reg_ok r -> 0 <= i < driver_count r -> live r !! Z.to_nat i = Some (nthz (driver_registry r) i).
Proof.
  intros [Hl Hc _ _] Hi. unfold live, nthz, MAX_DRIVERS in *. rewrite lookup_take_lt by lia.
  destruct (driver_registry r !! Z.to_nat i) as [p|] eqn:E; [done|]. apply lookup_ge_None in E. lia.
Qed.

Lemma length_live r : reg_ok r -> Z.of_nat (length (live r)) = driver_count r.
Proof. intros [Hl Hc _ _]. unfold live, MAX_DRIVERS in *. rewrite length_take, Hl. lia. Qed.

Lemma live_elem r p :
  reg_ok r -> p ∈ live r -> exists i, 0 <= i < driver_count r /\ nthz (driver_registry r) i = p.
Proof.
  intros Hr Hp. apply list_elem_of_lookup in Hp as [k Hk]. pose proof (length_live r Hr).
  apply lookup_lt_Some in Hk as Hlt. exists (Z.of_nat k). split; [lia|].
  pose proof (live_lookup r (Z.of_nat k) Hr ltac:(lia)) as E. rewrite Nat2Z.id, Hk in E. by injection E.
Qed.

Lemma find_name_spec r n :
  reg_ok r ->
  match find_name r n with
  | Some i => 0 <= i < driver_count r /\ live r !! Z.to_nat i = Some (nthz (driver_registry r) i) /\
              name_of r (nthz (driver_registry r) i) = n
  | None => n ∉ (name_of r <$> live r)
  end.
Proof.
  intros Hr. unfold find_name. destruct (find_range _ _ _) as [i|] eqn:E.
  - apply find_range_Some in E as (Hi & Hp & _). split; [done|]. split; [by apply live_lookup|].
    by apply bool_decide_eq_true in Hp.
  - intros Hin. apply list_elem_of_fmap in Hin as (p & -> & Hp).
    apply (live_elem r p Hr) in Hp as (i & Hi & <-).
    pose proof (proj1 (find_range_None _ _ _) E i Hi) as Hf. cbv beta in Hf.
    by apply bool_decide_eq_false in Hf.
Qed.

Lemma name_inj r p q : reg_ok r -> p ∈ live r -> q ∈ live r -> name_of r p = name_of r q -> p = q.
Proof.
  intros [_ _ _ Hn] Hp Hq E. apply list_elem_of_lookup in Hp as [i Hi]. apply list_elem_of_lookup in Hq as [j Hj].
  assert (i = j) as ->.
  { eapply NoDup_lookup; [exact Hn| |]; rewrite list_lookup_fmap; [rewrite Hi|rewrite Hj]; cbn; by rewrite ?E. }
  congruence.
Qed.

(** Lookup by name is exact on a well-formed registry. *)
Lemma get_by_name_spec r n p :
  reg_ok r -> p <> 0 -> driver_get_by_name r (Some n) = p <-> p ∈ live r /\ name_of r p = n.
Proof.
  intros Hr Hp0. unfold driver_get_by_name. pose proof (find_name_spec r n Hr) as Hf.
  destruct (find_name r n) as [i|].
  - destruct Hf as (Hi & Hlk & Hn). split.
    + intros <-. split; [by eapply list_elem_of_lookup_2|done].
    + intros [Hin Hn']. apply (name_inj r); [done|by eapply list_elem_of_lookup_2|done|congruence].
  - split; [congruence|]. intros [Hin <-]. exfalso. apply Hf, list_elem_of_fmap. by exists p.
Qed.

(** *** Array moves *)

Lemma list_eq_nthz (a b : list Z) n :
  length a = n -> length b = n -> (forall i, 0 <= i < Z.of_nat n -> nthz a i = nthz b i) -> a = b.
Proof.
  intros Ha Hb Hext. apply (list_eq_same_length _ _ n); [done|done|]. intros i x y Hi Hx Hy.
  specialize (Hext (Z.of_nat i) ltac:(lia)). unfold nthz in Hext. rewrite Nat2Z.id, Hx, Hy in Hext. done.
Qed.

(** Moving up: entries from [pos] are copied one place to the right. *)
Lemma shift_up_spec (q : list Z) n pos drv :
  0 <= pos <= n -> n < Z.of_nat (length q) ->
  let q' := shift_insert q n pos drv in
  length q' = length q /\
  (forall i, 0 <= i -> nthz q' i = if i <? pos then nthz q i else if i =? pos then drv
                                   else if i <=? n then nthz q (i - 1) else nthz q i).
Proof.
  intros Hp Hn. cbv zeta. unfold shift_insert.
  pose proof (for_range_ind (fun k (q' : list Z) => length q' = length q /\
    forall i, 0 <= i -> nthz q' i = if (n - k <? i) && (i <=? n) then nthz q (i - 1) else nthz q i)
    0 (n - pos) (fun k q => updz q (n - k) (nthz q (n - k - 1))) q) as Hl.
  destruct Hl as [L1 L2]; [lia| |split; [done|]|].
  - intros k q' Hk [H1 H2]. split; [by rewrite length_updz|]. intros i Hi.
    destruct (decide (i = n - k)) as [->|Hne].
    + rewrite nthz_updz_eq by (rewrite H1; lia). rewrite H2 by lia. zdecide.
    + rewrite nthz_updz_ne by lia. rewrite H2 by lia. zdecide.
  - intros i Hi. zdecide.
  - split; [by rewrite length_updz|]. intros i Hi. destruct (decide (i = pos)) as [->|Hne].
    + rewrite nthz_updz_eq by (rewrite L1; lia). zdecide.
    + rewrite nthz_updz_ne by lia. rewrite L2 by lia. zdecide.
Qed.

Lemma nthz_app a b i : 0 <= i ->
  nthz (a ++ b) i = if i <? Z.of_nat (length a) then nthz a i else nthz b (i - Z.of_nat (length a)).
Proof.
  intros Hi. unfold nthz. destruct (Z.ltb_spec i (Z.of_nat (length a))).
  - by rewrite lookup_app_l by lia.
  - rewrite lookup_app_r by lia. do 2 f_equal. lia.
Qed.

Lemma nthz_take a n i : 0 <= i < Z.of_nat n -> nthz (take n a) i = nthz a i.
Proof. intros. unfold nthz. by rewrite lookup_take_lt by lia. Qed.
Lemma nthz_drop a n i : 0 <= i -> nthz (drop n a) i = nthz a (Z.of_nat n + i).
Proof. intros. unfold nthz. rewrite lookup_drop. do 2 f_equal. lia. Qed.

Lemma shift_insert_list (q : list Z) n pos drv :
  0 <= pos <= n -> n < Z.of_nat (length q) ->
  take (Z.to_nat (n + 1)) (shift_insert q n pos drv) =
    take (Z.to_nat pos) (take (Z.to_nat n) q) ++ drv :: drop (Z.to_nat pos) (take (Z.to_nat n) q).
Proof.
  intros Hp Hn. destruct (shift_up_spec q n pos drv Hp Hn) as [L1 L2]. cbv zeta in *.
  apply (list_eq_nthz _ _ (Z.to_nat (n + 1))).
  - rewrite length_take, L1. lia.
  - rewrite length_app, length_cons, length_drop, !length_take. lia.
  - intros i Hi. rewrite nthz_take, L2 by lia. rewrite nthz_app, !length_take by lia.
    replace (Z.of_nat (Z.to_nat pos `min` (Z.to_nat n `min` length q))) with pos by lia.
    destruct (Z.ltb_spec i pos); [by rewrite !nthz_take by lia|].
    change (drv :: ?l) with ([drv] ++ l). rewrite nthz_app by lia. cbn [length].
    destruct (Z.eqb_spec i pos) as [->|Hne]; [by rewrite Z.sub_diag|].
    rewrite (proj2 (Z.ltb_ge _ _)), (proj2 (Z.leb_le _ _)) by lia.
    rewrite nthz_drop, nthz_take by lia. f_equal. lia.
Qed.

(** *** The sorted queue *)

(** The reference: insertion after everything of the same or a smaller number. *)
Fixpoint ins (f : Z -> Z) (p : Z) (l : list Z) : list Z :=
  match l with
  | [] => [p]
  | x :: l' => if f x <=? f p then x :: ins f p l' else p :: x :: l'
  end.
Definition isort (f : Z -> Z) (l : list Z) : list Z := foldl (fun acc p => ins f p acc) [] l.

Lemma find_pos_spec r q (l : list Z) pos c :
  (forall i, 0 <= i < Z.of_nat (length l) -> nthz q (pos + i) = nthz l i) ->
  let k := find_pos (length l) r q c pos - pos in
  0 <= k <= Z.of_nat (length l) /\
  (forall p, prio r p = c -> take (Z.to_nat k) l ++ p :: drop (Z.to_nat k) l = ins (prio r) p l).
Proof.
  revert pos. induction l as [|x l IH]; intros pos Hq; cbn [length find_pos ins].
  - rewrite Z.sub_diag. split; [lia|done].
  - pose proof (Hq 0 ltac:(cbn; lia)) as E. rewrite Z.add_0_r in E. change (nthz (x :: l) 0) with x in E. rewrite E.
    fold (prio r x). destruct (Z.leb_spec (prio r x) c) as [Hle|Hgt].
    + destruct (IH (pos + 1)) as [IH1 IH2].
      { intros i Hi. replace (pos + 1 + i) with (pos + (i + 1)) by lia. rewrite Hq by (cbn; lia).
        unfold nthz. by replace (Z.to_nat (i + 1)) with (S (Z.to_nat i)) by lia. }
      cbv zeta in *. split; [lia|]. intros p Hpc. rewrite Hpc, (proj2 (Z.leb_le _ _) Hle).
      rewrite <- (IH2 p Hpc).
      replace (Z.to_nat (find_pos (length l) r q c (pos + 1) - pos))
        with (S (Z.to_nat (find_pos (length l) r q c (pos + 1) - (pos + 1)))) by lia. done.
    + cbv zeta. rewrite Z.sub_diag. split; [lia|]. intros p Hpc. rewrite Hpc, (proj2 (Z.leb_gt _ _) Hgt). done.
Qed.

Definition queue_inv r (i : Z) (qs : list Z * Z) : Prop :=
  snd qs = i /\ length (fst qs) = 32%nat /\
  take (Z.to_nat i) (fst qs) = isort (prio r) (take (Z.to_nat i) (driver_registry r)).

Lemma length_ins f p l : length (ins f p l) = S (length l).
Proof. induction l as [|x l IH]; cbn; [done|]. destruct (_ <=? _); cbn; by rewrite ?IH. Qed.

Lemma build_queue_spec r :
  reg_ok r ->
  snd (build_queue r) = driver_count r /\ length (fst (build_queue r)) = 32%nat /\
  take (Z.to_nat (driver_count r)) (fst (build_queue r)) = isort (prio r) (live r).
Proof.
  intros Hr. pose proof (ro_len r Hr) as Hl. pose proof (ro_count r Hr) as Hc. unfold MAX_DRIVERS in Hc.
  apply (for_range_ind (queue_inv r)); [lia| |by split_and!].
  intros i [q n] Hi (E1 & E2 & E3). cbn [fst snd] in *. subst n. unfold queue_step.
  set (p := nthz (driver_registry r) i). fold (prio r p).
  set (l := take (Z.to_nat i) q) in *.
  assert (length l = Z.to_nat i) as Hll by (unfold l; rewrite length_take; lia).
  destruct (find_pos_spec r q l 0 (prio r p)) as [F1 F2].
  { intros k Hk. unfold l. rewrite nthz_take by lia. done. }
  rewrite Z.sub_0_r in F1, F2. rewrite Hll in F1, F2.
  specialize (F2 p eq_refl).
  pose proof (shift_insert_list q i _ p ltac:(split; [apply F1|lia]) ltac:(lia)) as Hs. fold l in Hs. rewrite F2 in Hs.
  split_and!; cbn [fst snd].
  - apply u8_small. lia.
  - pose proof (shift_up_spec q i (find_pos (Z.to_nat i) r q (prio r p) 0) p ltac:(lia) ltac:(lia)) as [-> _]. done.
  - rewrite Hs, E3. replace (Z.to_nat (i + 1)) with (S (Z.to_nat i)) by lia.
    rewrite (take_S_r _ _ p).
    + unfold isort. by rewrite foldl_app.
    + unfold p, nthz. destruct (driver_registry r !! Z.to_nat i) eqn:E; [done|]. apply lookup_ge_None in E. lia.
Qed.
End registered.

(** ** The order of initialisation *)

Section sorting.
Context (f : Z -> Z).

Lemma ins_perm p l : ins f p l ≡ₚ p :: l.
Proof. induction l as [|x l IH]; cbn; [done|]. destruct (_ <=? _); [|done]. rewrite IH. apply Permutation_swap. Qed.

Lemma ins_sorted p l :
  StronglySorted (fun x y => f x <= f y) l -> StronglySorted (fun x y => f x <= f y) (ins f p l).
Proof.
  induction 1 as [|x l Hs IH Hall]; cbn; [repeat constructor|].
  destruct (Z.leb_spec (f x) (f p)) as [Hle|Hgt].
  - constructor; [done|]. rewrite ins_perm. by constructor.
  - constructor; [by constructor|]. constructor; [lia|]. eapply Forall_impl; [exact Hall|]. cbn. lia.
Qed.

(** Among drivers of one priority the new one comes last. *)
Lemma ins_stable p l k :
  StronglySorted (fun x y => f x <= f y) l ->
  filter (fun x => f x = k) (ins f p l) = filter (fun x => f x = k) (l ++ [p]).
Proof.
  induction 1 as [|x l Hs IH Hall]; cbn [ins app]; [done|].
  destruct (Z.leb_spec (f x) (f p)) as [Hle|Hgt].
  - rewrite !filter_cons. by rewrite IH.
  - destruct (decide (f p = k)) as [Hk|Hk].
    + rewrite (filter_cons (fun x => f x = k) p), decide_True by done. change (x :: l ++ [p]) with ((x :: l) ++ [p]).
      rewrite filter_app, (filter_cons (fun x => f x = k) p), decide_True, filter_nil by done.
      assert (filter (fun x => f x = k) (x :: l) = []) as ->.
      { rewrite filter_cons, decide_False by lia. rewrite Forall_forall in Hall.
        destruct (filter (fun x => f x = k) l) as [|y l'] eqn:E; [done|].
        assert (y ∈ filter (fun x => f x = k) l) as Hy by (rewrite E; apply list_elem_of_here).
        apply list_elem_of_filter in Hy as [Hy1 Hy2]. specialize (Hall y Hy2). cbn in Hall. lia. }
      done.
    + rewrite (filter_cons (fun x => f x = k) p), decide_False by done. change (x :: l ++ [p]) with ((x :: l) ++ [p]).
      rewrite filter_app, (filter_cons (fun x => f x = k) p), decide_False, filter_nil by done. by rewrite app_nil_r.
Qed.

Lemma isort_spec l :
  isort f l ≡ₚ l /\ StronglySorted (fun x y => f x <= f y) (isort f l) /\
  (forall k, filter (fun x => f x = k) (isort f l) = filter (fun x => f x = k) l).
Proof.
  induction l as [|p l (IH1 & IH2 & IH3)] using rev_ind; [split_and!; [done|constructor|done]|].
  unfold isort in *. rewrite foldl_app. cbn [foldl]. split_and!.
  - rewrite ins_perm, IH1. by rewrite Permutation_cons_append.
  - by apply ins_sorted.
  - intros k. rewrite ins_stable by done. by rewrite !filter_app, IH3.
Qed.
End sorting.

Section initialisation.
Context {W : Type}.
Implicit Types (r : registry W) (w : W) (st : @init_st W).

(** Only the status of a driver changes. *)
Definition same_but_status r r' : Prop :=
  driver_registry r' = driver_registry r /\ driver_count r' = driver_count r /\
  forall p, match drv_mem r !! p with
            | Some d => exists s, drv_mem r' !! p = Some (set_status s d)
            | None => drv_mem r' !! p = None
            end.

Lemma sbs_refl r : same_but_status r r.
Proof. split_and!; try done. intros p. destruct (drv_mem r !! p) as [d|]; [|done]. exists (d_status d). by destruct d. Qed.

Lemma sbs_fields r r' p : same_but_status r r' ->
  depends_on (drv_at r' p) = depends_on (drv_at r p) /\ name_of r' p = name_of r p /\ prio r' p = prio r p /\
  (is_Some (drv_mem r !! p) -> is_Some (drv_mem r' !! p)).
Proof.
  intros (_ & _ & Hm). specialize (Hm p). unfold name_of, prio, drv_at.
  destruct (drv_mem r !! p) as [d|].
  - destruct Hm as [s ->]. cbn. by split_and!.
  - rewrite Hm. by split_and!.
Qed.

Lemma sbs_live r r' : same_but_status r r' -> live r' = live r.
Proof. intros (E1 & E2 & _). unfold live. by rewrite E1, E2. Qed.

Lemma sbs_ok r r' : same_but_status r r' -> reg_ok r -> reg_ok r'.
Proof.
  intros Hs [H1 H2 H3 H4]. pose proof (sbs_live r r' Hs) as El. destruct (Hs) as (E1 & E2 & _). split.
  - by rewrite E1.
  - by rewrite E2.
  - intros p Hp. rewrite El in Hp. destruct (H3 p Hp) as [Hp0 Hp1]. split; [done|]. by apply (sbs_fields r r' p Hs).
  - rewrite El. rewrite (list_fmap_ext (name_of r') (name_of r)); [done|]. intros i p _. apply (sbs_fields r r' p Hs).
Qed.

Lemma sbs_upd r r' p s :
  same_but_status r r' -> is_Some (drv_mem r !! p) -> same_but_status r (upd_status r' p s).
Proof.
  intros (E1 & E2 & Hm) Hp. split_and!; [done|done|]. intros q. pose proof (Hm q) as Hq. cbn.
  destruct (decide (p = q)) as [->|Hne].
  - destruct Hp as [d Hd]. rewrite Hd in Hq |- *. destruct Hq as [s0 Hq]. rewrite lookup_insert_eq.
    exists s. unfold drv_at. by rewrite Hq.
  - by rewrite lookup_insert_ne.
Qed.

Lemma status_upd r p s q : status_of (upd_status r p s) q = if decide (p = q) then s else status_of r q.
Proof.
  unfold status_of, drv_at, upd_status. cbn. destruct (decide (p = q)) as [->|].
  - by rewrite lookup_insert_eq.
  - by rewrite lookup_insert_ne.
Qed.

Definition done_status (s : driver_status_t) : Prop :=
  s = DRIVER_STATUS_INITIALIZED \/ s = DRIVER_STATUS_FAILED.

(** Every driver's dependency was initialised before it. *)
Definition dep_before r (log : list Z) (p : Z) : Prop :=
  exists l1 l2, log = l1 ++ p :: l2 /\
    (depends_on (drv_at r p) = [] \/
     exists q, q ∈ l1 /\ name_of r q = depends_on (drv_at r p) /\ status_of r q = DRIVER_STATUS_INITIALIZED).

(** What holds between any two driver initialisations, from registry [r0]. *)
Record init_inv (r0 : registry W) st : Prop := {
  ii_same : same_but_status r0 (i_reg st);
  ii_nodup : NoDup (i_log st);
  ii_live : forall p, p ∈ i_log st -> p ∈ live r0;
  ii_done : forall p, p ∈ live r0 ->
    if decide (p ∈ i_log st) then done_status (status_of (i_reg st) p)
    else status_of (i_reg st) p = DRIVER_STATUS_UNINITIALIZED;
  ii_deps : forall p, p ∈ i_log st -> dep_before (i_reg st) (i_log st) p;
  ii_count : i_count st = Z.of_nat (length (i_log st));
}.

Lemma log_bound r0 st : reg_ok r0 -> init_inv r0 st -> Z.of_nat (length (i_log st)) <= driver_count r0.
Proof.
  intros Hr Hi. rewrite <- (length_live r0 Hr). apply Nat2Z.inj_le.
  apply submseteq_length, NoDup_submseteq; [apply Hi|]. apply Hi.
Qed.

Lemma deps_met_spec r p : reg_ok r ->
  driver_dependencies_met r p = true <->
  depends_on (drv_at r p) = [] \/
  exists q, q ∈ live r /\ name_of r q = depends_on (drv_at r p) /\ is_up (status_of r q) = true.
Proof.
  intros Hr. unfold driver_dependencies_met. destruct (depends_on (drv_at r p)) as [|c n] eqn:E; [tauto|].
  set (n' := c :: n) in *. pose proof (fun q => get_by_name_spec r n' q Hr) as Hg.
  destruct (Z.eqb_spec (driver_get_by_name r (Some n')) 0) as [E0|Hne].
  - split; [done|]. intros [?|(q & Hq1 & Hq2 & _)]; [done|]. exfalso.
    pose proof (proj1 (ro_stored r Hr q Hq1)) as Hq0. apply Hq0.
    by rewrite <- E0, (proj2 (Hg q Hq0) (conj Hq1 Hq2)).
  - destruct (proj1 (Hg _ Hne) eq_refl) as [G1 G2]. split.
    + intros Hu. right. by eexists.
    + intros [?|(q & Hq1 & Hq2 & Hq3)]; [done|].
      by rewrite (proj2 (Hg q (proj1 (ro_stored r Hr q Hq1))) (conj Hq1 Hq2)).
Qed.

(** A driver that could be initialised now. *)
Definition eligible r (p : Z) : Prop :=
  status_of r p = DRIVER_STATUS_UNINITIALIZED /\ driver_dependencies_met r p = true.

Lemma init_one_inv r0 st p :
  reg_ok r0 -> init_inv r0 st -> p ∈ live r0 ->
  init_inv r0 (init_one p st) /\
  (init_one p st = st /\ ~ eligible (i_reg st) p \/
   i_progress (init_one p st) = true /\ i_log (init_one p st) = i_log st ++ [p]).
Proof.
  intros Hr Hi Hp. unfold init_one. fold (status_of (i_reg st) p).
  destruct (decide (status_of (i_reg st) p = DRIVER_STATUS_UNINITIALIZED)) as [Hu|Hu];
    [rewrite (bool_decide_eq_true_2 _ Hu)|rewrite (bool_decide_eq_false_2 _ Hu)]; cbn [negb].
  2: { split; [done|]. left. split; [done|]. by intros [? _]. }
  destruct (driver_dependencies_met (i_reg st) p) eqn:Hd; cbn [negb].
  2: { split; [done|]. left. split; [done|]. intros [_ ?]. congruence. }
  set (ew := match d_init _ with Some _ => _ | None => _ end). destruct ew as [err w].
  set (s := if is_ok err then _ else _).
  assert (done_status s) as Hs by (unfold s, done_status; destruct (is_ok err); tauto).
  split; [|right; done]. pose proof (log_bound r0 st Hr Hi) as Hlb. destruct Hi as [I1 I2 I3 I4 I5 I6].
  assert (p ∉ i_log st) as Hnew.
  { intros Hin. specialize (I4 p Hp). rewrite decide_True in I4 by done. rewrite Hu in I4. destruct I4; done. }
  pose proof (sbs_ok _ _ I1 Hr) as Hr'. pose proof (sbs_live _ _ I1) as El.
  split; cbn [i_reg i_log i_count].
  - apply sbs_upd; [done|]. by apply Hr.
  - apply NoDup_app. split_and!; [done|set_solver|apply NoDup_singleton].
  - intros q [Hq| ->%list_elem_of_singleton]%elem_of_app; [by apply I3|done].
  - intros q Hq. rewrite status_upd. destruct (decide (p = q)) as [->|Hne].
    + by rewrite decide_True by (apply elem_of_app; right; apply list_elem_of_here).
    + specialize (I4 q Hq). destruct (decide (q ∈ i_log st)).
      * by rewrite decide_True by (apply elem_of_app; by left).
      * rewrite decide_False; [done|]. rewrite elem_of_app, list_elem_of_singleton. intros [?|?]; [done|congruence].
  - assert (forall q, q <> p -> status_of (upd_status (i_reg st) p s) q = status_of (i_reg st) q) as Hst.
    { intros q Hq. rewrite status_upd. by rewrite decide_False. }
    pose proof (fun q => sbs_fields _ _ q (sbs_upd _ _ p s (sbs_refl (i_reg st)) (proj2 (ro_stored _ Hr' p ltac:(by rewrite El))))) as Hf.
    intros q [Hq| ->%list_elem_of_singleton]%elem_of_app.
    + destruct (I5 q Hq) as (l1 & l2 & El12 & Hdep). exists l1, (l2 ++ [p]). split; [by rewrite El12, <- app_assoc|].
      destruct (Hf q) as (-> & _). destruct Hdep as [?|(x & Hx1 & Hx2 & Hx3)]; [by left|]. right. exists x.
      destruct (Hf x) as (_ & -> & _). split_and!; [done|done|]. rewrite Hst; [done|].
      intros ->. apply Hnew. rewrite El12. apply elem_of_app. by left.
    + exists (i_log st), []. split; [done|]. destruct (Hf p) as (-> & _).
      apply (deps_met_spec (i_reg st) p Hr') in Hd as [?|(x & Hx1 & Hx2 & Hx3)]; [by left|]. right. exists x.
      rewrite El in Hx1. specialize (I4 x Hx1). destruct (Hf x) as (_ & -> & _).
      destruct (decide (x ∈ i_log st)) as [Hxl|]; [|rewrite I4 in Hx3; done].
      split_and!; [done|done|]. rewrite Hst by (by intros ->). destruct I4 as [?|E]; [done|]. rewrite E in Hx3. done.
  - rewrite length_app, I6. cbn [length]. pose proof (ro_count r0 Hr). unfold MAX_DRIVERS in *.
    assert (length (i_log st) < 32)%nat.
    { assert (S (length (i_log st)) <= length (live r0))%nat as Hlen.
      { change (S (length (i_log st))) with (length (p :: i_log st)).
        apply submseteq_length, NoDup_submseteq; [by constructor|].
        intros x [->|Hx]%elem_of_cons; [done|by apply I3]. }
      pose proof (length_live r0 Hr). lia. }
    rewrite u8_small; lia.
Qed.

Lemma for_range_list {S} (g : Z -> S -> S) (q : list Z) n (x : S) :
  0 <= n <= Z.of_nat (length q) ->
  for_range 0 n (fun i => g (nthz q i)) x = foldl (fun x p => g p x) x (take (Z.to_nat n) q).
Proof.
  intros Hn. apply (for_range_ind (fun i y => y = foldl (fun x p => g p x) x (take (Z.to_nat i) q))); [lia| |done].
  intros i y Hi ->. replace (Z.to_nat (i + 1)) with (Datatypes.S (Z.to_nat i)) by lia.
  rewrite (take_S_r _ _ (nthz q i)); [by rewrite foldl_app|].
  unfold nthz. destruct (q !! Z.to_nat i) eqn:E; [done|]. apply lookup_ge_None in E. lia.
Qed.

Definition init_list (l : list Z) st : init_st := foldl (fun st p => init_one p st) st l.

Lemma init_list_inv r0 l st :
  reg_ok r0 -> init_inv r0 st -> (forall p, p ∈ l -> p ∈ live r0) ->
  init_inv r0 (init_list l st) /\
  (init_list l st = st /\ (forall p, p ∈ l -> ~ eligible (i_reg st) p) \/
   i_progress (init_list l st) = true /\ (length (i_log st) < length (i_log (init_list l st)))%nat).
Proof.
  intros Hr. revert st. induction l as [|p l IH]; intros st Hi Hl; cbn [init_list foldl].
  - split; [done|]. left. split; [done|]. intros p Hp. by apply elem_of_nil in Hp.
  - destruct (init_one_inv r0 st p Hr Hi) as [Hi1 Hc1]; [apply Hl, list_elem_of_here|].
    destruct (IH (init_one p st) Hi1) as [Hi2 Hc2]; [intros q Hq; apply Hl, elem_of_cons; by right|].
    unfold init_list in *. split; [done|].
    destruct Hc1 as [[E1 Hn1]|[P1 L1]], Hc2 as [[E2 Hn2]|[P2 L2]].
    + left. rewrite E2, E1 in *. split; [done|]. intros q [->|Hq]%elem_of_cons; [done|by apply Hn2].
    + right. rewrite E1 in *. done.
    + right. rewrite E2. split; [done|]. rewrite L1, length_app. cbn. lia.
    + right. split; [done|]. rewrite L1, length_app in L2. cbn in L2. lia.
Qed.

Lemma clear_inv r0 st : init_inv r0 st -> init_inv r0 (clear_progress st).
Proof. by intros []. Qed.

(** When everybody is in the log nobody is left to initialise. *)
Lemma all_logged r0 st :
  reg_ok r0 -> init_inv r0 st -> driver_count r0 <= Z.of_nat (length (i_log st)) ->
  forall p, p ∈ live r0 -> ~ eligible (i_reg st) p.
Proof.
  intros Hr Hi Hge p Hp [Hu _]. pose proof (ii_done r0 st Hi p Hp) as Hd.
  destruct (decide (p ∈ i_log st)) as [|Hn]; [rewrite Hu in Hd; by destruct Hd|].
  assert (length (p :: i_log st) <= length (live r0))%nat as Hlen.
  { apply submseteq_length, NoDup_submseteq; [constructor; [done|apply Hi]|].
    intros x [->|Hx]%elem_of_cons; [done|by apply (ii_live r0 st Hi)]. }
  pose proof (length_live r0 Hr). cbn in Hlen. lia.
Qed.

(** [n] passes are enough for [n] drivers. *)
Lemma init_passes_spec r0 n q qs st :
  reg_ok r0 -> init_inv r0 st -> 0 <= qs <= Z.of_nat (length q) ->
  take (Z.to_nat qs) q ≡ₚ live r0 ->
  driver_count r0 <= Z.of_nat (length (i_log st) + n) ->
  init_inv r0 (init_passes n q qs st) /\
  (forall p, p ∈ live r0 -> ~ eligible (i_reg (init_passes n q qs st)) p).
Proof.
  intros Hr Hi Hqs Hperm. revert st Hi. induction n as [|n IH]; intros st Hi Hn; cbn [init_passes].
  - split; [done|]. apply (all_logged r0); [done|done|lia].
  - destruct (ii_same r0 st Hi) as (_ & Ecnt & _). rewrite Ecnt, (ii_count r0 st Hi).
    destruct (Z.ltb_spec (Z.of_nat (length (i_log st))) (driver_count r0)) as [Hlt|Hge].
    2: { split; [done|]. by apply all_logged. }
    unfold init_pass. rewrite for_range_list by done.
    fold (init_list (take (Z.to_nat qs) q) (clear_progress st)).
    destruct (init_list_inv r0 (take (Z.to_nat qs) q) (clear_progress st) Hr (clear_inv _ _ Hi)) as [Hi' Hc].
    { intros p Hp. by rewrite <- Hperm. }
    destruct Hc as [[E Hne]|[Hp Hlen]].
    + rewrite E. cbn [clear_progress i_progress]. split; [by apply clear_inv|].
      intros p Hp. apply Hne. by rewrite Hperm.
    + rewrite Hp. apply IH; [done|]. cbn [clear_progress i_log] in Hlen. lia.
Qed.

Lemma init_start r w :
  reg_ok r -> (forall p, p ∈ live r -> status_of r p = DRIVER_STATUS_UNINITIALIZED) ->
  init_inv r (mkInit r w 0 false []).
Proof.
  intros Hr Hu. split; cbn; try done; [apply sbs_refl|constructor|by intros p ?%elem_of_nil|by intros p ?%elem_of_nil].
Qed.

(** C6. [driver_init_all] respects dependencies and does all it can.  Starting
    from freshly registered drivers it terminates within its pass limit; each
    driver's [init] runs at most once, after the driver it depends on was
    initialised successfully; and at the end every driver was processed or has
    a dependency that is missing, failed or itself unprocessed. *)
Theorem driver_init_all_correct r w (Hr : reg_ok r)
    (Hu : forall p, p ∈ live r -> status_of r p = DRIVER_STATUS_UNINITIALIZED) :
  let st := snd (driver_init_all r w) in
  same_but_status r (i_reg st) /\ NoDup (i_log st) /\
  (forall p, p ∈ live r -> p ∈ i_log st /\ done_status (status_of (i_reg st) p) /\ dep_before (i_reg st) (i_log st) p \/
                           (p ∉ i_log st) /\ status_of (i_reg st) p = DRIVER_STATUS_UNINITIALIZED /\
                           driver_dependencies_met (i_reg st) p = false).
Proof.
  destruct (build_queue_spec r Hr) as (E1 & E2 & E3). unfold driver_init_all.
  destruct (build_queue r) as [q qs]. cbn [fst snd] in *. subst qs.
  pose proof (ro_count r Hr) as Hc. unfold MAX_DRIVERS in Hc.
  destruct (init_passes_spec r (Z.to_nat (u8 (driver_count r * 2))) q (driver_count r) (mkInit r w 0 false []) Hr)
    as [Hi Hno]; [by apply init_start|lia|rewrite E3; apply isort_spec|rewrite u8_small by lia; cbn; lia|].
  cbv zeta. set (st := init_passes _ _ _ _) in *. split; [apply Hi|]. split; [apply Hi|].
  intros p Hp. pose proof (ii_done r st Hi p Hp) as Hd. destruct (decide (p ∈ i_log st)) as [Hin|Hout].
  - left. split; [done|]. split; [done|]. by apply (ii_deps r st Hi).
  - right. split; [done|]. split; [done|].
    destruct (driver_dependencies_met (i_reg st) p) eqn:E; [|done]. exfalso. by apply (Hno p Hp).
Qed.

(** Without dependencies one pass takes the drivers in queue order. *)
Lemma init_list_free r0 l st :
  reg_ok r0 -> init_inv r0 st -> NoDup l ->
  (forall p, p ∈ l -> p ∈ live r0 /\ (p ∉ i_log st) /\ depends_on (drv_at r0 p) = []) ->
  i_log (init_list l st) = i_log st ++ l.
Proof.
  intros Hr. revert st. induction l as [|p l IH]; intros st Hi Hnd Hl; cbn; [by rewrite app_nil_r|].
  apply NoDup_cons in Hnd as [Hnp Hnd]. destruct (Hl p (list_elem_of_here _ _)) as (Hp1 & Hp2 & Hp3).
  destruct (init_one_inv r0 st p Hr Hi Hp1) as [Hi1 [[_ Hne]|[_ Elog]]].
  - exfalso. apply Hne. split.
    + pose proof (ii_done r0 st Hi p Hp1) as Hd. by rewrite decide_False in Hd.
    + unfold driver_dependencies_met. destruct (sbs_fields _ _ p (ii_same r0 st Hi)) as (-> & _). by rewrite Hp3.
  - unfold init_list in IH. rewrite IH; [by rewrite Elog, <- app_assoc|done|done|].
    intros q Hq. destruct (Hl q) as (Q1 & Q2 & Q3); [apply elem_of_cons; by right|]. split; [done|]. split; [|done].
    rewrite Elog, elem_of_app, list_elem_of_singleton. intros [?| ->]; done.
Qed.

(** Initialisation order.  When no driver has a dependency, every driver is
    initialised exactly once, in ascending order of priority number, and
    drivers of equal priority in the order in which they were registered. *)
Theorem driver_init_all_priority_order r w (Hr : reg_ok r)
    (Hu : forall p, p ∈ live r -> status_of r p = DRIVER_STATUS_UNINITIALIZED)
    (Hfree : forall p, p ∈ live r -> depends_on (drv_at r p) = []) :
  let log := i_log (snd (driver_init_all r w)) in
  log ≡ₚ live r /\ StronglySorted (fun x y => prio r x <= prio r y) log /\
  (forall k, filter (fun p => prio r p = k) log = filter (fun p => prio r p = k) (live r)).
Proof.
  destruct (build_queue_spec r Hr) as (E1 & E2 & E3). unfold driver_init_all.
  destruct (build_queue r) as [q qs]. cbn [fst snd] in *. subst qs.
  pose proof (ro_count r Hr) as Hc. unfold MAX_DRIVERS in Hc. destruct (isort_spec (prio r) (live r)) as (S1 & S2 & S3).
  assert (NoDup (live r)) as Hnd by (eapply NoDup_fmap_1; apply Hr). pose proof (length_live r Hr) as Hlen.
  cut (i_log (init_passes (Z.to_nat (u8 (driver_count r * 2))) q (driver_count r) (mkInit r w 0 false [])) = isort (prio r) (live r)).
  { cbv zeta. by intros ->. }
  rewrite u8_small by lia. destruct (Z.to_nat (driver_count r * 2)) as [|n] eqn:En; cbn [init_passes i_reg i_count].
  { assert (live r = []) as -> by (apply nil_length_inv; lia). done. }
  rewrite (proj2 (Z.ltb_lt _ _)) by lia. unfold init_pass. rewrite for_range_list by lia. rewrite E3.
  fold (init_list (isort (prio r) (live r)) (clear_progress (mkInit r w 0 false []))).
  pose proof (init_start r w Hr Hu) as H0. set (st0 := clear_progress _).
  assert (i_log (init_list (isort (prio r) (live r)) st0) = isort (prio r) (live r)) as El.
  { rewrite (init_list_free r); [done|done|done|by rewrite S1|].
    intros p Hp. rewrite S1 in Hp. split; [done|]. split; [by intros ?%elem_of_nil|by apply Hfree]. }
  destruct (init_list_inv r (isort (prio r) (live r)) st0 Hr (clear_inv _ _ H0)) as [Hi _].
  { intros p Hp. by rewrite <- S1. }
  set (st1 := init_list _ st0) in *. destruct (i_progress st1); [|done].
  destruct n as [|n]; cbn [init_passes]; [done|]. destruct (ii_same r st1 Hi) as (_ & -> & _).
  rewrite (ii_count r st1 Hi), El, (Permutation_length S1), Hlen, Z.ltb_irrefl. done.
Qed.
End initialisation.

(** ** Registration *)

Section registration.
Context {W : Type}.
Implicit Types (r : registry W) (w : W).

Lemma register_spec r p :
  reg_ok r -> p <> 0 -> is_Some (drv_mem r !! p) -> driver_count r < MAX_DRIVERS ->
  name_of r p ∉ (name_of r <$> live r) ->
  exists r', driver_register r p = (E_OK, r') /\ reg_ok r' /\ live r' = live r ++ [p] /\
    status_of r' p = DRIVER_STATUS_UNINITIALIZED /\ (forall q, q <> p -> drv_mem r' !! q = drv_mem r !! q) /\
    driver_get_by_name r' (Some (name_of r p)) = p.
Proof.
  intros Hr Hp0 Hp Hc Hfresh. unfold driver_register. rewrite (proj2 (Z.eqb_neq p 0) Hp0), (proj2 (Z.leb_gt _ _) Hc).
  pose proof (find_name_spec r (name_of r p) Hr) as Hf. fold (name_of r p). destruct (find_name r (name_of r p)) as [i|].
  { destruct Hf as (Hi & Hlk & Hn). exfalso. apply Hfresh, list_elem_of_fmap. eexists. split; [by symmetry|].
    by eapply list_elem_of_lookup_2. }
  pose proof (ro_len r Hr) as Hl. pose proof (ro_count r Hr) as Hc'. unfold MAX_DRIVERS in *.
  pose proof (sbs_upd r r p DRIVER_STATUS_UNINITIALIZED (sbs_refl r) Hp) as Hs.
  set (r1 := upd_status r p _) in *. eexists. split; [done|]. set (r' := mkReg _ _ _).
  assert (live r' = live r ++ [p]) as El.
  { unfold live, r'. cbn. rewrite u8_small by lia. replace (Z.to_nat (driver_count r + 1)) with (S (Z.to_nat (driver_count r))) by lia.
    rewrite (take_S_r _ _ p) by (unfold updz; rewrite list_lookup_insert_eq; [done|lia]).
    unfold updz. by rewrite take_insert_ge by lia. }
  assert (forall q, name_of r' q = name_of r q) as Hn by (intros q; apply (sbs_fields r r1 q Hs)).
  assert (reg_ok r') as Hr'.
  { split.
    - unfold r'. cbn. by rewrite length_updz.
    - unfold r'. cbn. rewrite u8_small; unfold MAX_DRIVERS; lia.
    - intros q. rewrite El. intros [Hq| ->%list_elem_of_singleton]%elem_of_app.
      + destruct (ro_stored r Hr q Hq). split; [done|]. by apply (sbs_fields r r1 q Hs).
      + split; [done|]. by apply (sbs_fields r r1 p Hs).
    - rewrite El, (list_fmap_ext _ (name_of r)) by (intros; apply Hn). rewrite fmap_app. apply NoDup_app.
      split_and!; [apply Hr| |apply NoDup_singleton]. intros x Hx ->%list_elem_of_singleton. done. }
  split_and!; try done.
  - change (status_of r1 p = DRIVER_STATUS_UNINITIALIZED). unfold r1. rewrite status_upd. by rewrite decide_True.
  - intros q Hq. unfold r', r1. cbn. by rewrite lookup_insert_ne.
  - apply get_by_name_spec; [done|done|]. rewrite El. split; [apply elem_of_app; right; apply list_elem_of_here|apply Hn].
Qed.

(** Moving down: the entries above [i] are copied one place to the left. *)
Lemma shift_down_spec (a : list Z) i n :
  0 <= i <= n -> n < Z.of_nat (length a) ->
  let a' := for_range i n (fun j a => updz a j (nthz a (j + 1))) a in
  length a' = length a /\ take (Z.to_nat n) a' = take (Z.to_nat i) a ++ take (Z.to_nat (n - i)) (drop (S (Z.to_nat i)) a).
Proof.
  intros Hi Hn. cbv zeta.
  pose proof (for_range_ind (fun k (a' : list Z) => length a' = length a /\
    forall j, 0 <= j -> nthz a' j = if (i <=? j) && (j <? k) then nthz a (j + 1) else nthz a j)
    i n (fun j a => updz a j (nthz a (j + 1))) a) as Hl.
  destruct Hl as [L1 L2]; [lia| |split; [done|]|].
  - intros k a' Hk [H1 H2]. split; [by rewrite length_updz|]. intros j Hj.
    destruct (decide (j = k)) as [->|Hne].
    + rewrite nthz_updz_eq by (rewrite H1; lia). rewrite H2 by lia. zdecide.
    + rewrite nthz_updz_ne by lia. rewrite H2 by lia. zdecide.
  - intros j Hj. zdecide.
  - split; [done|]. apply (list_eq_nthz _ _ (Z.to_nat n)).
    + rewrite length_take, L1. lia.
    + rewrite length_app, !length_take, length_drop. lia.
    + intros j Hj. rewrite nthz_take, L2 by lia. rewrite nthz_app, length_take by lia.
      replace (Z.of_nat (Z.to_nat i `min` length a)) with i by lia.
      destruct (Z.ltb_spec j i); [rewrite nthz_take by lia; zdecide|].
      rewrite nthz_take, nthz_drop by lia. rewrite (proj2 (Z.leb_le i j)), (proj2 (Z.ltb_lt j n)) by lia. cbn [andb].
      f_equal. lia.
Qed.

Lemma unregister_spec r w n :
  reg_ok r ->
  let '(e, r', w') := driver_unregister r w (Some n) in
  reg_ok r' /\ drv_mem r' = drv_mem r /\
  if decide (n ∈ (name_of r <$> live r))
  then e = E_OK /\ live r' = filter (fun p => name_of r p <> n) (live r)
  else e = E_NOTFOUND /\ r' = r /\ w' = w.
Proof.
  intros Hr. unfold driver_unregister. pose proof (find_name_spec r n Hr) as Hf.
  destruct (find_name r n) as [i|]; [|by rewrite decide_False].
  destruct Hf as (Hi & Hlk & Hn). set (p := nthz (driver_registry r) i) in *.
  rewrite decide_True by (apply list_elem_of_fmap; exists p; split; [done|by eapply list_elem_of_lookup_2]).
  pose proof (ro_len r Hr) as Hl. pose proof (ro_count r Hr) as Hc. unfold MAX_DRIVERS in Hc.
  destruct (shift_down_spec (driver_registry r) i (driver_count r - 1) ltac:(lia) ltac:(lia)) as [L1 L2]. cbv zeta in *.
  set (a := for_range _ _ _ _) in *. set (r' := mkReg _ _ _).
  assert (live r' = take (Z.to_nat i) (live r) ++ drop (S (Z.to_nat i)) (live r)) as El.
  { unfold live, r'. cbn. rewrite u8_small by lia. unfold updz. rewrite take_insert_ge by lia. rewrite L2.
    rewrite take_take, Nat.min_l by lia. rewrite skipn_firstn_comm. do 2 f_equal. lia. }
  pose proof (take_drop_middle _ _ _ Hlk) as Em.
  assert (NoDup (name_of r <$> live r)) as Hnd by apply Hr.
  assert (live r' = filter (fun p => name_of r p <> n) (live r)) as Ef.
  { rewrite El. rewrite <- Em, fmap_app, fmap_cons, NoDup_app in Hnd. destruct Hnd as (N1 & N2 & N3).
    apply NoDup_cons in N3 as [N3 _]. rewrite <- Em at 3. rewrite filter_app, filter_cons, decide_False by (by intros []).
    assert (forall l : list Z, n ∉ (name_of r <$> l) -> filter (fun p => name_of r p <> n) l = l) as Hid.
    { intros l Hnl. induction l as [|x l IH]; [done|]. rewrite fmap_cons, not_elem_of_cons in Hnl. destruct Hnl as [Hx Hnl].
      rewrite filter_cons, decide_True by congruence. by rewrite IH. }
    rewrite (Hid (take _ _)), (Hid (drop _ _)).
    - done.
    - by rewrite <- Hn.
    - intros Hx. apply (N2 n Hx). rewrite Hn. apply list_elem_of_here. }
  split_and!; [|done|done|done]. split.
  - unfold r'. cbn. by rewrite length_updz, L1.
  - unfold r'. cbn. rewrite u8_small; unfold MAX_DRIVERS; lia.
  - intros q Hq. rewrite Ef in Hq. apply list_elem_of_filter in Hq as [_ Hq]. by apply (ro_stored r Hr).
  - rewrite Ef. change (name_of r') with (name_of r). eapply (sublist_NoDup _ (name_of r <$> live r)); [done|].
    generalize (live r). intros l. induction l as [|x l IH]; [done|]. rewrite filter_cons.
    destruct (decide _); cbn; by constructor.
Qed.

(** The registry is a list of drivers with distinct names.  A driver with a
    new name is appended while fewer than 32 are registered, starts
    uninitialised and is then found under its name; a full registry and a
    taken name are refused without change.  Unregistering a name removes
    exactly the driver that has it, keeps the order of the others, and leaves
    nothing to be found under that name. *)
Theorem driver_registry_correct r w (p : Z) (n : list Z) (Hr : reg_ok r) (Hp0 : p <> 0) (Hp : is_Some (drv_mem r !! p)) :
  (let '(e, r') := driver_register r p in
   reg_ok r' /\
   if MAX_DRIVERS <=? driver_count r then e = E_NOMEM /\ r' = r
   else if decide (name_of r p ∈ (name_of r <$> live r)) then e = E_EXISTS /\ r' = r
   else e = E_OK /\ live r' = live r ++ [p] /\ status_of r' p = DRIVER_STATUS_UNINITIALIZED /\
        driver_get_by_name r' (Some (name_of r p)) = p) /\
  (let '(e, r', w') := driver_unregister r w (Some n) in
   reg_ok r' /\
   if decide (n ∈ (name_of r <$> live r))
   then e = E_OK /\ live r' = filter (fun q => name_of r q <> n) (live r) /\ driver_get_by_name r' (Some n) = 0
   else e = E_NOTFOUND /\ r' = r /\ w' = w).
Proof.
  split.
  - destruct (Z.leb_spec MAX_DRIVERS (driver_count r)) as [Hge|Hlt].
    { unfold driver_register. by rewrite (proj2 (Z.eqb_neq p 0) Hp0), (proj2 (Z.leb_le _ _) Hge). }
    destruct (decide (name_of r p ∈ (name_of r <$> live r))) as [Hin|Hout].
    + unfold driver_register. rewrite (proj2 (Z.eqb_neq p 0) Hp0), (proj2 (Z.leb_gt _ _) Hlt).
      pose proof (find_name_spec r (name_of r p) Hr) as Hf. fold (name_of r p).
      by destruct (find_name r (name_of r p)).
    + destruct (register_spec r p Hr Hp0 Hp Hlt Hout) as (r' & -> & ? & ? & ? & _ & ?). done.
  - pose proof (unregister_spec r w n Hr) as Hun.
    destruct (driver_unregister r w (Some n)) as [[e r'] w']. destruct Hun as (Hr' & Hm & Hc). split; [done|].
    destruct (decide _) as [Hin|Hout]; [|done]. destruct Hc as [-> El]. split_and!; [done|done|].
    destruct (decide (driver_get_by_name r' (Some n) = 0)) as [|Hne]; [done|exfalso].
    destruct (proj1 (get_by_name_spec r' n _ Hr' Hne) eq_refl) as [Hg1 Hg2].
    rewrite El in Hg1. apply list_elem_of_filter in Hg1 as [Hg1 _]. apply Hg1.
    unfold name_of, drv_at in *. by rewrite <- Hm.
Qed.
End registration.

(** ** The kernel's own drivers *)

(** IDT, keyboard and PIT as their files declare them, at three addresses; the
    world counts the calls of [init]. *)
Definition demo_drv (name : list Z) (type : driver_type_t) (prio : Z) (dep : list Z) : driver_t nat :=
  mkDriver name type 1 prio DRIVER_STATUS_UNINITIALIZED (Some (fun _ n => (E_OK, S n))) None dep 0.
Definition demo_mem : gmap Z (driver_t nat) :=
  <[100 := demo_drv (str "Keyboard") DRIVER_TYPE_INPUT 20 (str "IDT")]>
  (<[200 := demo_drv (str "IDT") DRIVER_TYPE_FUNDAMENTAL 10 []]>
  (<[300 := demo_drv (str "Block Layer") DRIVER_TYPE_BLOCK 30 []]> ∅)).
Definition demo_reg (l : list Z) : registry nat :=
  foldl (fun r p => snd (driver_register r p)) (mkReg demo_mem (replicate 32 0) 0) l.

Lemma demo_reg_ok l : l = [100; 200] \/ l = [300; 200] ->
  reg_ok (demo_reg l) /\ live (demo_reg l) = l /\ is_Some (drv_mem (demo_reg l) !! 300) /\
  (forall p, p ∈ l -> status_of (demo_reg l) p = DRIVER_STATUS_UNINITIALIZED).
Proof.
  intros Hl. assert (forall p, p ∈ l -> p = 100 \/ p = 200 \/ p = 300) as Hp.
  { intros p Hp. destruct Hl as [->| ->]; repeat (apply elem_of_cons in Hp as [->|Hp]; [tauto|]); by apply elem_of_nil in Hp. }
  assert (live (demo_reg l) = l) as El by (destruct Hl as [->| ->]; vm_compute; reflexivity).
  split_and!; [split|done| |].
  - destruct Hl as [->| ->]; vm_compute; reflexivity.
  - destruct Hl as [->| ->]; vm_compute; split; discriminate.
  - intros p. rewrite El. intros Hin. destruct (Hp p Hin) as [->|[->| ->]]; (split; [done|]);
      destruct Hl as [->| ->]; vm_compute; by eexists.
  - rewrite El. apply (bool_decide_unpack _). destruct Hl as [->| ->]; vm_compute; exact I.
  - destruct Hl as [->| ->]; vm_compute; by eexists.
  - intros p Hin. destruct (Hp p Hin) as [->|[->| ->]]; destruct Hl as [->| ->]; vm_compute; reflexivity.
Qed.

Lemma driver_init_all_correct_witness :
  NoDup (i_log (snd (driver_init_all (demo_reg [100; 200]) O))).
Proof.
  destruct (demo_reg_ok [100; 200] ltac:(by left)) as (Hr & El & _ & Hu).
  refine (proj1 (proj2 (driver_init_all_correct (demo_reg [100; 200]) O Hr _))).
  intros p Hp. apply Hu. by rewrite <- El.
Defined.

(** The keyboard, registered first, waits for the IDT. *)
Example demo_order : i_log (snd (driver_init_all (demo_reg [100; 200]) O)) = [200; 100].
Proof. vm_compute. reflexivity. Qed.

Lemma driver_init_all_priority_order_witness :
  i_log (snd (driver_init_all (demo_reg [300; 200]) O)) ≡ₚ live (demo_reg [300; 200]).
Proof.
  destruct (demo_reg_ok [300; 200] ltac:(by right)) as (Hr & El & _ & Hu).
  refine (proj1 (driver_init_all_priority_order (demo_reg [300; 200]) O Hr _ _)).
  - intros p Hp. apply Hu. by rewrite <- El.
  - intros p Hp. rewrite El in Hp. repeat (apply elem_of_cons in Hp as [->|Hp]; [vm_compute; reflexivity|]).
    by apply elem_of_nil in Hp.
Defined.

Lemma driver_registry_correct_witness : reg_ok (snd (driver_register (demo_reg [100; 200]) 300)).
Proof.
  destruct (demo_reg_ok [100; 200] ltac:(by left)) as (Hr & _ & Hp & _).
  exact (proj1 (proj1 (driver_registry_correct (demo_reg [100; 200]) O 300 [] Hr ltac:(done) Hp))).
Defined.
