(* ===== verification/Block.v ===== *)
(** * Block layer: drivers/block.h, drivers/block.c

    A device is a record found through its address.  Its operations are the
    functions its driver supplies, so they are functions on the state [W] those
    drivers work on; an absent operation is [None].  [block_list_devices] only
    prints and is not modelled. *)

From S2P Require Import Prelude Errno Kmalloc Task.

Definition BLOCK_SIZE : Z := 512.
Definition MAX_BLOCK_DEVICES : Z := 8.

Inductive block_device_type_t :=
| BLOCK_TYPE_NONE | BLOCK_TYPE_ATA | BLOCK_TYPE_AHCI | BLOCK_TYPE_NVME | BLOCK_TYPE_RAMDISK.

(** Arguments: device, lba, (count,) buffer. *)
Record block_device_ops_t (W : Type) := mkOps {
  op_read_block : option (Z -> Z -> Z -> W -> Z * W);
  op_write_block : option (Z -> Z -> Z -> W -> Z * W);
  op_read_blocks : option (Z -> Z -> Z -> Z -> W -> Z * W);
  op_write_blocks : option (Z -> Z -> Z -> Z -> W -> Z * W);
  op_flush : option (Z -> W -> Z * W);
}.
Arguments mkOps {W}. Arguments op_read_block {W}. Arguments op_write_block {W}. Arguments op_read_blocks {W}.
Arguments op_write_blocks {W}. Arguments op_flush {W}.

Record block_device_t (W : Type) := mkDev {
  dev_id : Z;
  dev_type : block_device_type_t;
  block_count : Z;
  block_size : Z;
  present : bool;
  label : list Z;
  dev_data : Z;
  ops : option (block_device_ops_t W);
}.
Arguments mkDev {W}. Arguments dev_id {W}. Arguments dev_type {W}. Arguments block_count {W}. Arguments block_size {W}.
Arguments present {W}. Arguments label {W}. Arguments dev_data {W}. Arguments ops {W}.

(** The device structures; the manager, [None] until the layer is initialised. *)
Record block_sys (W : Type) := mkBlk {
  dev_mem : gmap Z (block_device_t W);
  g_block_manager : option (list Z * Z);
}.
Arguments mkBlk {W}. Arguments dev_mem {W}. Arguments g_block_manager {W}.

Section block.
Context {W : Type}.
Implicit Types (b : block_sys W) (w : W).

Definition null_dev : block_device_t W := mkDev 0 BLOCK_TYPE_NONE 0 0 false [] 0 None.
Definition dev_at b (p : Z) : block_device_t W := default null_dev (dev_mem b !! p).
Definition set_id (id : Z) (d : block_device_t W) : block_device_t W :=
  mkDev id (dev_type d) (block_count d) (block_size d) (present d) (label d) (dev_data d) (ops d).

(** [sizeof(block_manager_t)] is 72. *)
Definition block_driver_init {A} `{KHeap A} b (h : A) : kerr_t * block_sys W * A :=
  let '(p, h) := kh_alloc h 72 in
  if p =? 0 then (E_NOMEM, mkBlk (dev_mem b) None, h)
  else (E_OK, mkBlk (dev_mem b) (Some (replicate 8 0, 0)), h).

Definition block_register_device b (device : Z) : Z * block_sys W :=
  match g_block_manager b with
  | None => (-1, b)
  | Some (devices, device_count) =>
      if MAX_BLOCK_DEVICES <=? device_count then (-1, b)
      else
        (device_count,
         mkBlk (<[device := set_id device_count (dev_at b device)]> (dev_mem b))
           (Some (updz devices device_count device, u8 (device_count + 1))))
  end.

Definition block_get_device b (id : Z) : Z :=
  match g_block_manager b with
  | None => 0
  | Some (devices, device_count) => if device_count <=? id then 0 else nthz devices id
  end.

Definition block_get_device_count b : Z :=
  match g_block_manager b with None => 0 | Some (_, n) => n end.

Definition block_read b (device_id lba buffer : Z) w : Z * W :=
  let dev := block_get_device b device_id in
  if dev =? 0 then (kerr_value E_NOTFOUND, w)
  else
    let d := dev_at b dev in
    match (if present d then ops d else None) with
    | None => (kerr_value E_INVALID, w)
    | Some o =>
        match op_read_block o with
        | None => (kerr_value E_INVALID, w)
        | Some read_block =>
            if block_count d <=? lba then (kerr_value E_EXISTS, w) else read_block dev lba buffer w
        end
    end.

Definition block_write b (device_id lba buffer : Z) w : Z * W :=
  let dev := block_get_device b device_id in
  if dev =? 0 then (-1, w)
  else
    let d := dev_at b dev in
    match (if present d then ops d else None) with
    | None => (-2, w)
    | Some o =>
        match op_write_block o with
        | None => (-2, w)
        | Some write_block =>
            if block_count d <=? lba then (-3, w) else write_block dev lba buffer w
        end
    end.

(** The fallback: one block at a time, [i] from the current index; the buffer
    offset [i * block_size] is computed in 32 bits. *)
Fixpoint each_block (n : nat) (i : Z) (op : Z -> Z -> Z -> W -> Z * W) (dev bsize lba buffer : Z) w : Z * W :=
  match n with
  | O => (0, w)
  | S n' =>
      let '(res, w) := op dev (u64 (lba + i)) (u64 (buffer + u32 (i * bsize))) w in
      if negb (res =? 0) then (-1, w) else each_block n' (i + 1) op dev bsize lba buffer w
  end.

(** The common shape of the two multi-block transfers. *)
Definition block_multi (multi : block_device_ops_t W -> option (Z -> Z -> Z -> Z -> W -> Z * W))
    (single : block_device_ops_t W -> option (Z -> Z -> Z -> W -> Z * W))
    b (device_id lba count buffer : Z) w : Z * W :=
  let dev := block_get_device b device_id in
  let d := dev_at b dev in
  match (if negb (dev =? 0) && present d then ops d else None) with
  | None => (-1, w)
  | Some o =>
      if block_count d <? u64 (lba + count) then (-2, w)
      else match multi o with
      | Some op => op dev lba count buffer w
      | None =>
          match single o with
          | None => (-3, w)
          | Some op => each_block (Z.to_nat count) 0 op dev (block_size d) lba buffer w
          end
      end
  end.

Definition block_read_multi := block_multi op_read_blocks op_read_block.
Definition block_write_multi := block_multi op_write_blocks op_write_block.

Definition block_flush b (device_id : Z) w : Z * W :=
  let dev := block_get_device b device_id in
  match (if negb (dev =? 0) && present (dev_at b dev) then ops (dev_at b dev) else None) with
  | None => (-1, w)
  | Some o => match op_flush o with Some flush => flush dev w | None => (0, w) end
  end.
End block.

(** ** Properties *)

Section properties.
Context {W : Type}.
Implicit Types (b : block_sys W) (w : W).

Record block_ok b : Prop := {
  bo_mgr : exists devices n, g_block_manager b = Some (devices, n) /\ length devices = 8%nat /\
    0 <= n <= MAX_BLOCK_DEVICES /\
    forall i, 0 <= i < n -> nthz devices i <> 0 /\ dev_id (dev_at b (nthz devices i)) = i;
}.

(** Device numbers.  A device that is registered gets the next free number,
    is then found under that number, and the devices registered before keep
    theirs; the ninth registration is refused. *)
Theorem block_register_device_correct b (device : Z) (Hb : block_ok b) (Hd : device <> 0)
    (Hnew : forall i, 0 <= i < block_get_device_count b -> block_get_device b i <> device) :
  let n := block_get_device_count b in
  let '(id, b') := block_register_device b device in
  if n <? MAX_BLOCK_DEVICES
  then id = n /\ block_ok b' /\ block_get_device_count b' = n + 1 /\ block_get_device b' n = device /\
       (forall i, 0 <= i < n -> block_get_device b' i = block_get_device b i)
  else id = -1 /\ b' = b.
Proof.
  destruct Hb as [(devs & n & Em & Hl & Hn & Hids)]. unfold block_get_device_count, block_get_device in Hnew |- *.
  unfold block_register_device. rewrite Em in *. cbv zeta. unfold MAX_BLOCK_DEVICES in *.
  destruct (Z.ltb_spec n 8) as [Hlt|Hge]; [|by rewrite (proj2 (Z.leb_le _ _) Hge)].
  rewrite (proj2 (Z.leb_gt _ _) Hlt). cbn [g_block_manager]. rewrite u8_small by lia.
  assert (forall i, 0 <= i < n -> nthz devs i <> device) as Hnew'.
  { intros i Hi. specialize (Hnew i Hi). by rewrite (proj2 (Z.leb_gt _ _)) in Hnew by lia. }
  split_and!; [done| |done| |].
  - split. exists (updz devs n device), (n + 1). split_and!; [done|by rewrite length_updz|lia|unfold MAX_BLOCK_DEVICES; lia|].
    intros i Hi. destruct (decide (i = n)) as [->|Hne].
    + rewrite nthz_updz_eq by lia. split; [done|]. unfold dev_at. cbn. by rewrite lookup_insert_eq.
    + rewrite nthz_updz_ne by lia. destruct (Hids i ltac:(lia)) as [H1 H2]. split; [done|].
      unfold dev_at in *. cbn. rewrite lookup_insert_ne; [done|]. intros E. by apply (Hnew' i ltac:(lia)).
  - rewrite (proj2 (Z.leb_gt _ _)) by lia. by rewrite nthz_updz_eq by lia.
  - intros i Hi. rewrite !(proj2 (Z.leb_gt _ _)) by lia. by rewrite nthz_updz_ne by lia.
Qed.

(** The bounds check of a multi-block transfer does not protect the device:
    [lba + count] wraps at 64 bits, so a request that starts near the top of
    the 64-bit range passes the check and is handed to the driver although it
    lies outside the device. *)
Theorem block_multi_bounds_check_wraps b (id lba count buffer : Z) w (o : block_device_ops_t W)
    (op : Z -> Z -> Z -> Z -> W -> Z * W)
    (Hdev : block_get_device b id <> 0) (Hp : present (dev_at b (block_get_device b id)) = true)
    (Ho : ops (dev_at b (block_get_device b id)) = Some o) (Hop : op_read_blocks o = Some op)
    (Hc : 0 < count < 2 ^ 32) (Hlba : 2 ^ 64 - count <= lba < 2 ^ 64)
    (Hsmall : lba + count - 2 ^ 64 <= block_count (dev_at b (block_get_device b id)) <= lba) :
  block_read_multi b id lba count buffer w = op (block_get_device b id) lba count buffer w.
Proof.
  unfold block_read_multi, block_multi. rewrite (proj2 (Z.eqb_neq _ 0) Hdev), Hp, Ho. cbn [negb andb].
  change (2 ^ 64) with 18446744073709551616 in *. change (2 ^ 32) with 4294967296 in *.
  assert (u64 (lba + count) = lba + count - 18446744073709551616) as -> by (unfold u64; dlia).
  rewrite (proj2 (Z.ltb_ge _ _)) by lia. by rewrite Hop.
Qed.
End properties.

(** *** Reading through a one-block driver *)

Section copy.
(** A driver whose [read_block] copies block [lba] of [disk] to the buffer in
    memory and touches nothing else. *)
Context (disk : Z -> Z -> Z) (bsize nblocks : Z) (rb : Z -> Z -> Z -> gmap Z Z -> Z * gmap Z Z).
Hypothesis bsize_pos : 0 < bsize < 65536.
Hypothesis rb_copies : forall dev lba buf m, 0 <= lba < nblocks ->
  let '(res, m') := rb dev lba buf m in
  res = 0 /\ (forall k, 0 <= k < bsize -> rd m' (buf + k) = disk lba k) /\
  (forall a, ~ (buf <= a < buf + bsize) -> rd m' a = rd m a).

Lemma each_block_spec n i dev lba buf m :
  0 <= i -> 0 <= lba -> lba + i + Z.of_nat n <= nblocks -> nblocks <= 2 ^ 64 ->
  (i + Z.of_nat n) * bsize < 2 ^ 32 -> 0 <= buf -> buf + (i + Z.of_nat n) * bsize < 2 ^ 64 ->
  let '(res, m') := each_block n i rb dev bsize lba buf m in
  res = 0 /\
  (forall j k, i <= j < i + Z.of_nat n -> 0 <= k < bsize -> rd m' (buf + j * bsize + k) = disk (lba + j) k) /\
  (forall a, ~ (buf + i * bsize <= a < buf + (i + Z.of_nat n) * bsize) -> rd m' a = rd m a).
Proof.
  change (2 ^ 64) with 18446744073709551616. change (2 ^ 32) with 4294967296.
  revert i m. induction n as [|n IH]; intros i m Hi Hlba Hnb Hb Hsz Hbuf Htop; cbn [each_block].
  - split; [done|]. split; [intros; lia|done].
  - assert (i * bsize + bsize <= (i + Z.of_nat (S n)) * bsize) as Hstep by nia. assert (0 <= i * bsize) by nia.
    rewrite (u64_small (lba + i)), (u32_small (i * bsize)), (u64_small (buf + _)) by lia.
    pose proof (rb_copies dev (lba + i) (buf + i * bsize) m ltac:(lia)) as Hr.
    destruct (rb dev (lba + i) (buf + i * bsize) m) as [res m1]. destruct Hr as (-> & R1 & R2). cbn [Z.eqb negb].
    specialize (IH (i + 1) m1 ltac:(lia) Hlba ltac:(lia) Hb ltac:(nia) Hbuf ltac:(nia)).
    destruct (each_block n (i + 1) rb dev bsize lba buf m1) as [res m2]. destruct IH as (-> & I1 & I2).
    split; [done|]. split.
    + intros j k Hj Hk. destruct (decide (j = i)) as [->|Hne].
      * rewrite I2; [by apply R1|]. nia.
      * apply I1; [lia|done].
    + intros a Ha. rewrite I2, R2; [done| |]; nia.
Qed.

(** Multi-block reads.  On a device whose driver only reads single blocks, a
    request inside the device succeeds, fills the buffer with the blocks in
    order and changes no other byte, as long as the transfer is smaller than
    4 GiB. *)
Theorem block_read_multi_copies_blocks (b : block_sys (gmap Z Z)) (id lba count buf : Z) (m : gmap Z Z)
    (o : block_device_ops_t (gmap Z Z))
    (Hdev : block_get_device b id <> 0) (Hp : present (dev_at b (block_get_device b id)) = true)
    (Ho : ops (dev_at b (block_get_device b id)) = Some o)
    (Hrs : op_read_blocks o = None) (Hr1 : op_read_block o = Some rb)
    (Hbs : block_size (dev_at b (block_get_device b id)) = bsize)
    (Hbc : block_count (dev_at b (block_get_device b id)) = nblocks)
    (Hlba : 0 <= lba) (Hc : 0 <= count) (Hin : lba + count <= nblocks) (Hnb : nblocks < 2 ^ 64)
    (Hsz : count * bsize < 2 ^ 32) (Hbuf : 0 <= buf) (Htop : buf + count * bsize < 2 ^ 64) :
  exists m', block_read_multi b id lba count buf m = (0, m') /\
    (forall j k, 0 <= j < count -> 0 <= k < bsize -> rd m' (buf + j * bsize + k) = disk (lba + j) k) /\
    (forall a, ~ (buf <= a < buf + count * bsize) -> rd m' a = rd m a).
Proof.
  unfold block_read_multi, block_multi. rewrite (proj2 (Z.eqb_neq _ 0) Hdev), Hp, Ho. cbn [negb andb].
  rewrite Hbs, Hbc, Hrs, Hr1.
  assert (lba + count < 18446744073709551616) by (change (2 ^ 64) with 18446744073709551616 in Hnb; lia).
  rewrite u64_small, (proj2 (Z.ltb_ge _ _)) by lia.
  pose proof (each_block_spec (Z.to_nat count) 0 (block_get_device b id) lba buf m) as He.
  rewrite !Z.add_0_l, Z2Nat.id, Z.mul_0_l, !Z.add_0_r in He by done.
  destruct (each_block _ _ _ _ _ _ _ _) as [res m'].
  destruct He as (-> & H1 & H2); [lia|lia|lia|lia|done|lia|done|]. exists m'. split; [done|]. split; [|done].
  intros j k Hj Hk. apply H1; [lia|done].
Qed.
End copy.

(** ** A RAM disk *)

(** Blocks of 4 bytes: byte [k] of block [lba] is [16 * lba + k]. *)
Definition ram_disk (lba k : Z) : Z := 16 * lba + k.
Definition ram_read (_ lba buf : Z) (m : gmap Z Z) : Z * gmap Z Z :=
  (0, wr (wr (wr (wr m buf (ram_disk lba 0)) (buf + 1) (ram_disk lba 1)) (buf + 2) (ram_disk lba 2)) (buf + 3) (ram_disk lba 3)).
Definition ram_ops : block_device_ops_t (gmap Z Z) := mkOps (Some ram_read) None None None None.
Definition ram_ops_multi : block_device_ops_t (gmap Z Z) :=
  mkOps (Some ram_read) None (Some (fun _ lba _ _ m => (lba, m))) None None.
Definition ram_sys (o : block_device_ops_t (gmap Z Z)) : block_sys (gmap Z Z) :=
  snd (block_register_device
    (mkBlk {[100 := mkDev 0 BLOCK_TYPE_RAMDISK 8 4 true [] 0 (Some o)]} (Some (replicate 8 0, 0))) 100).

Lemma ram_read_copies dev lba buf m : 0 <= lba < 8 ->
  let '(res, m') := ram_read dev lba buf m in
  res = 0 /\ (forall k, 0 <= k < 4 -> rd m' (buf + k) = ram_disk lba k) /\
  (forall a, ~ (buf <= a < buf + 4) -> rd m' a = rd m a).
Proof.
  intros _. cbn. split; [done|]. split.
  - intros k Hk. assert (k = 0 \/ k = 1 \/ k = 2 \/ k = 3) as [->|[->|[->| ->]]] by lia;
      rewrite ?Z.add_0_r; by rewrite ?(rd_wr_ne _ _ buf), ?(rd_wr_ne _ _ (buf + 1)), ?(rd_wr_ne _ _ (buf + 2)), rd_wr_eq by lia.
  - intros a Ha. by rewrite !rd_wr_ne by lia.
Qed.

Lemma block_read_multi_copies_blocks_witness :
  exists m', block_read_multi (ram_sys ram_ops) 0 2 3 1000 ∅ = (0, m') /\
    (forall j k, 0 <= j < 3 -> 0 <= k < 4 -> rd m' (1000 + j * 4 + k) = ram_disk (2 + j) k) /\
    (forall a, ~ (1000 <= a < 1000 + 3 * 4) -> rd m' a = rd ∅ a).
Proof.
  exact (block_read_multi_copies_blocks ram_disk 4 8 ram_read ltac:(lia) ram_read_copies (ram_sys ram_ops) 0 2 3 1000 ∅ ram_ops
    ltac:(vm_compute; discriminate) eq_refl eq_refl eq_refl eq_refl eq_refl eq_refl
    ltac:(lia) ltac:(lia) ltac:(lia) ltac:(lia) ltac:(lia) ltac:(lia) ltac:(lia)).
Defined.

Lemma block_multi_bounds_check_wraps_witness :
  block_read_multi (ram_sys ram_ops_multi) 0 (2 ^ 64 - 1) 2 1000 ∅ = (2 ^ 64 - 1, ∅).
Proof.
  refine (block_multi_bounds_check_wraps (ram_sys ram_ops_multi) 0 (2 ^ 64 - 1) 2 1000 ∅ ram_ops_multi
    (fun _ lba _ _ m => (lba, m)) _ eq_refl eq_refl eq_refl _ _ _).
  - vm_compute. discriminate.
  - lia.
  - lia.
  - vm_compute. split; discriminate.
Defined.

Definition empty_sys : block_sys (gmap Z Z) := mkBlk ∅ (Some (replicate 8 0, 0)).
Lemma empty_sys_ok : block_ok empty_sys.
Proof. split. exists (replicate 8 0), 0. split_and!; try done. intros; lia. Qed.

Lemma block_register_device_correct_witness :
  fst (block_register_device empty_sys 100) = 0 /\ block_ok (snd (block_register_device empty_sys 100)).
Proof.
  pose proof (block_register_device_correct empty_sys 100 empty_sys_ok ltac:(done)
    ltac:(intros i Hi; cbn in Hi; lia)) as (H1 & H2 & _). exact (conj H1 H2).
Defined.
