(* ===== verification/Vmm.v ===== *)
(** * Virtual memory manager: mm/vmm.c

    [vmem] is the memory the page tables live in, as 64-bit words at 8-byte
    aligned addresses; [flushed] records the [invlpg] instructions.  Reading CR3
    gives the argument of [vmm_init].  Page frames come from the physical memory
    manager of [Pmm.v].  The diagnostic output and [page_fault_handler], which
    prints and halts, are not modelled. *)

From S2P Require Import Prelude MemLayout Errno Bitmap Pmm.

Definition PML4_INDEX (addr : Z) : Z := Z.land (Z.shiftr addr 39) 0x1FF.
Definition PDPT_INDEX (addr : Z) : Z := Z.land (Z.shiftr addr 30) 0x1FF.
Definition PD_INDEX (addr : Z) : Z := Z.land (Z.shiftr addr 21) 0x1FF.
Definition PT_INDEX (addr : Z) : Z := Z.land (Z.shiftr addr 12) 0x1FF.

Record vmm := mkVmm {
  vmem : gmap Z Z;
  current_pml4_phys : Z;
  flushed : list Z;
}.

Definition get_table (phys_addr : Z) : Z :=
  if PHYS_FREE_START <=? phys_addr then PHYS_TO_VIRT phys_addr else phys_addr.

Definition vmm_init (v : vmm) (cr3 : Z) : kerr_t * vmm := (E_OK, mkVmm (vmem v) cr3 (flushed v)).

(** [table[i]] and [table[i] = e] for a [uint64_t*] table. *)
Definition entry (v : vmm) (table i : Z) : Z := rd (vmem v) (table + 8 * i).
Definition set_entry (v : vmm) (table i e : Z) : vmm :=
  mkVmm (wr (vmem v) (table + 8 * i) e) (current_pml4_phys v) (flushed v).
(** [memset(table, 0, PAGE_SIZE)] *)
Definition clear_table (v : vmm) (table : Z) : vmm :=
  for_range 0 512 (fun i v => set_entry v table i 0) v.

Definition vmm_flush_tlb_page (v : vmm) (virt_addr : Z) : vmm :=
  mkVmm (vmem v) (current_pml4_phys v) (flushed v ++ [virt_addr]).

(** One "get or create" block of [vmm_map_page]: the pointer to the table that
    entry [i] refers to, or [None] when a new table cannot be allocated. *)
Definition get_or_create (v : vmm) (pm : pmm) (table i : Z) : option Z * vmm * pmm :=
  if negb (pte_has_flag (entry v table i) PAGE_PRESENT) then
    let '(phys, pm) := pmm_alloc_page pm in
    if phys =? 0 then (None, v, pm)
    else
      let new := get_table phys in
      let v := clear_table v new in
      let v := set_entry v table i (Z.lor (Z.lor phys PAGE_PRESENT) PAGE_WRITE) in
      (Some new, v, pm)
  else (Some (get_table (pte_get_address (entry v table i))), v, pm).

Definition vmm_map_page (v : vmm) (pm : pmm) (virt_addr phys_addr flags : Z) : kerr_t * vmm * pmm :=
  if negb (IS_PAGE_ALIGNED virt_addr) || negb (IS_PAGE_ALIGNED phys_addr) then (E_INVALID, v, pm)
  else
    let pml4 := get_table (current_pml4_phys v) in
    let '(pdpt, v, pm) := get_or_create v pm pml4 (PML4_INDEX virt_addr) in
    match pdpt with
    | None => (E_NOMEM, v, pm)
    | Some pdpt =>
        let '(pd, v, pm) := get_or_create v pm pdpt (PDPT_INDEX virt_addr) in
        match pd with
        | None => (E_NOMEM, v, pm)
        | Some pd =>
            let '(pt, v, pm) := get_or_create v pm pd (PD_INDEX virt_addr) in
            match pt with
            | None => (E_NOMEM, v, pm)
            | Some pt =>
                let v := set_entry v pt (PT_INDEX virt_addr) (Z.lor phys_addr flags) in
                (E_OK, vmm_flush_tlb_page v virt_addr, pm)
            end
        end
    end.

(** Follow a present entry to the table it refers to. *)
Definition next_table (v : vmm) (table i : Z) : option Z :=
  if negb (pte_has_flag (entry v table i) PAGE_PRESENT) then None
  else Some (get_table (pte_get_address (entry v table i))).

Definition vmm_unmap_page (v : vmm) (virt_addr : Z) : kerr_t * vmm :=
  if negb (IS_PAGE_ALIGNED virt_addr) then (E_INVALID, v)
  else
    match next_table v (get_table (current_pml4_phys v)) (PML4_INDEX virt_addr) with
    | None => (E_NOTFOUND, v)
    | Some pdpt =>
        match next_table v pdpt (PDPT_INDEX virt_addr) with
        | None => (E_NOTFOUND, v)
        | Some pd =>
            match next_table v pd (PD_INDEX virt_addr) with
            | None => (E_NOTFOUND, v)
            | Some pt =>
                if negb (pte_has_flag (entry v pt (PT_INDEX virt_addr)) PAGE_PRESENT) then (E_NOTFOUND, v)
                else (E_OK, vmm_flush_tlb_page (set_entry v pt (PT_INDEX virt_addr) 0) virt_addr)
            end
        end
    end.

Definition vmm_get_physical (v : vmm) (virt_addr : Z) : Z :=
  match next_table v (get_table (current_pml4_phys v)) (PML4_INDEX virt_addr) with
  | None => 0
  | Some pdpt =>
      match next_table v pdpt (PDPT_INDEX virt_addr) with
      | None => 0
      | Some pd =>
          let e := entry v pd (PD_INDEX virt_addr) in
          if negb (pte_has_flag e PAGE_PRESENT) then 0
          else if pte_has_flag e PAGE_HUGE then u64 (pte_get_address e + Z.land virt_addr 0x1FFFFF)
          else
            let pt := get_table (pte_get_address e) in
            let e := entry v pt (PT_INDEX virt_addr) in
            if negb (pte_has_flag e PAGE_PRESENT) then 0
            else u64 (pte_get_address e + Z.land virt_addr 0xFFF)
      end
  end.

Definition vmm_is_mapped (v : vmm) (virt_addr : Z) : bool := negb (vmm_get_physical v virt_addr =? 0).

Definition vmm_alloc_page (v : vmm) (pm : pmm) (virt_addr flags : Z) : kerr_t * vmm * pmm :=
  let '(phys_addr, pm) := pmm_alloc_page pm in
  if phys_addr =? 0 then (E_NOMEM, v, pm)
  else
    let '(err, v, pm) := vmm_map_page v pm virt_addr phys_addr flags in
    if is_ok err then (E_OK, v, pm) else (err, v, pmm_free_page pm phys_addr).

Definition vmm_free_page (v : vmm) (pm : pmm) (virt_addr : Z) : kerr_t * vmm * pmm :=
  let phys_addr := vmm_get_physical v virt_addr in
  if phys_addr =? 0 then (E_NOTFOUND, v, pm)
  else
    let '(err, v) := vmm_unmap_page v virt_addr in
    if is_ok err then (E_OK, v, pmm_free_page pm (PAGE_ALIGN_DOWN phys_addr)) else (err, v, pm).

Definition vmm_get_cr3 (v : vmm) : Z := current_pml4_phys v.

(** ** Page table entries *)

Lemma land_aligned_low a m : a mod 4096 = 0 -> 0 <= m < 4096 -> Z.land a m = 0.
Proof.
  intros Ha Hm. apply Z.bits_inj'. intros n Hn. rewrite Z.land_spec, Z.bits_0.
  destruct (Z.lt_ge_cases n 12).
  - replace a with (Z.shiftl (a / 4096) 12) by (rewrite Z.shiftl_mul_pow2 by lia; change (2 ^ 12) with 4096; dlia).
    by rewrite Z.shiftl_spec_low by lia.
  - rewrite (Z.bits_above_log2 m n), andb_false_r; [done|lia|].
    destruct (decide (m = 0)) as [->|]; [cbn; lia|]. assert (m < 2 ^ 12) by (change (2 ^ 12) with 4096; lia).
    apply Z.log2_lt_pow2 in H0; lia.
Qed.

Lemma pte_addr_id a : a mod 4096 = 0 -> 0 <= a < 2 ^ 52 -> Z.land a PTE_ADDR_MASK = a.
Proof.
  change (2 ^ 52) with 4503599627370496. intros Ha Hr.
  assert (a = Z.shiftl (a / 4096) 12) as E by (rewrite Z.shiftl_mul_pow2 by lia; change (2 ^ 12) with 4096; dlia).
  rewrite E at 1. change PTE_ADDR_MASK with (Z.shiftl (Z.ones 40) 12). rewrite <- Z.shiftl_land, Z.land_ones by lia.
  rewrite Z.mod_small; [done|]. change (2 ^ 40) with 1099511627776. dlia.
Qed.

(** An entry made from an aligned frame and flags gives the frame back. *)
Lemma pte_lor_address a f :
  a mod 4096 = 0 -> 0 <= a < 2 ^ 52 -> Z.land f PTE_ADDR_MASK = 0 -> pte_get_address (Z.lor a f) = a.
Proof. intros. unfold pte_get_address. by rewrite Z.land_lor_distr_l, pte_addr_id, H1, Z.lor_0_r by done. Qed.

Lemma pte_lor_flag a f g :
  a mod 4096 = 0 -> 0 <= g < 4096 -> pte_has_flag (Z.lor a f) g = pte_has_flag f g.
Proof. intros. unfold pte_has_flag. by rewrite Z.land_lor_distr_l, land_aligned_low, Z.lor_0_l by done. Qed.

Lemma pte_address_aligned e : 0 <= e -> pte_get_address e mod 4096 = 0 /\ 0 <= pte_get_address e < 2 ^ 52.
Proof.
  intros He. unfold pte_get_address. change PTE_ADDR_MASK with (Z.shiftl (Z.ones 40) 12).
  assert (Z.land e (Z.shiftl (Z.ones 40) 12) = Z.shiftl (Z.land (Z.shiftr e 12) (Z.ones 40)) 12) as ->.
  { apply Z.bits_inj'. intros n Hn. rewrite Z.land_spec. destruct (Z.lt_ge_cases n 12).
    - rewrite !Z.shiftl_spec_low by lia. by rewrite andb_false_r.
    - rewrite !Z.shiftl_spec, Z.land_spec, Z.shiftr_spec by lia. f_equal. f_equal. lia. }
  rewrite Z.land_ones, Z.shiftl_mul_pow2 by lia. pose proof (Z.mod_pos_bound (Z.shiftr e 12) (2 ^ 40) ltac:(lia)).
  change (2 ^ 40) with 1099511627776 in *. change (2 ^ 52) with 4503599627370496. change (2 ^ 12) with 4096.
  set (x := Z.shiftr e 12 mod 1099511627776) in *. split; [dlia|lia].
Qed.

(** ** Tables *)

Definition frame_ok (t : Z) : Prop := t mod 4096 = 0 /\ 0 <= t < 2 ^ 47.

Lemma get_table_spec t : frame_ok t ->
  get_table t mod 4096 = 0 /\ get_table t = if PHYS_FREE_START <=? t then t + VIRT_PHYS_MAP_BASE else t.
Proof.
  intros [H1 H2]. unfold get_table. rewrite PHYS_TO_VIRT_eq by done. split; [|done].
  unfold VIRT_PHYS_MAP_BASE. destruct (_ <=? _); [dlia|done].
Qed.

(** Different entries are different words. *)
Lemma entry_word_inj t t' j j' :
  frame_ok t -> frame_ok t' -> 0 <= j < 512 -> 0 <= j' < 512 ->
  get_table t + 8 * j = get_table t' + 8 * j' -> t = t' /\ j = j'.
Proof.
  intros H H' Hj Hj' E. destruct (get_table_spec t H) as [A1 A2], (get_table_spec t' H') as [B1 B2].
  assert (get_table t = get_table t' /\ j = j') as [E1 ->] by dlia. split; [|done].
  rewrite A2, B2 in E1. destruct H, H'. unfold VIRT_PHYS_MAP_BASE, PHYS_FREE_START in *.
  change (2 ^ 47) with 140737488355328 in *. zbool; lia.
Qed.

Lemma entry_set_eq v t j e : entry (set_entry v t j e) t j = e.
Proof. apply rd_wr_eq. Qed.

Lemma entry_set_ne v t t' j j' e :
  frame_ok t -> frame_ok t' -> 0 <= j < 512 -> 0 <= j' < 512 -> (t, j) <> (t', j') ->
  entry (set_entry v (get_table t) j e) (get_table t') j' = entry v (get_table t') j'.
Proof.
  intros H H' Hj Hj' Hne. apply rd_wr_ne. intros E. apply Hne.
  destruct (entry_word_inj t t' j j') as [-> ->]; done.
Qed.

Lemma clear_table_spec v t :
  frame_ok t ->
  current_pml4_phys (clear_table v (get_table t)) = current_pml4_phys v /\
  (forall j, 0 <= j < 512 -> entry (clear_table v (get_table t)) (get_table t) j = 0) /\
  (forall t' j, frame_ok t' -> t' <> t -> 0 <= j < 512 ->
     entry (clear_table v (get_table t)) (get_table t') j = entry v (get_table t') j).
Proof.
  intros Ht. pose proof (for_range_ind (fun k v' => current_pml4_phys v' = current_pml4_phys v /\
    (forall j, 0 <= j < k -> entry v' (get_table t) j = 0) /\
    (forall t' j, frame_ok t' -> t' <> t -> 0 <= j < 512 -> entry v' (get_table t') j = entry v (get_table t') j))
    0 512 (fun i v => set_entry v (get_table t) i 0) v) as Hl.
  apply Hl; [lia| |split_and!; [done|intros; lia|done]].
  intros i v' Hi (H1 & H2 & H3). split_and!; [done| |].
  - intros j Hj. destruct (decide (j = i)) as [->|]; [apply entry_set_eq|].
    rewrite entry_set_ne; [apply H2; lia|done|done|lia|lia|congruence].
  - intros t' j Ht' Hne Hj. rewrite entry_set_ne; [by apply H3|done|done|lia|lia|congruence].
Qed.

(** ** The page table tree

    A table is named by the path of indices that leads to it, last index first;
    [tbl] gives its frame.  A huge entry of a page directory leads nowhere. *)

Definition ent (v : vmm) (t i : Z) : Z := entry v (get_table t) i.

Definition leads (level : nat) (e : Z) : bool :=
  pte_has_flag e PAGE_PRESENT && negb ((level =? 2)%nat && pte_has_flag e PAGE_HUGE).

Fixpoint tbl (v : vmm) (p : list Z) : option Z :=
  match p with
  | [] => Some (current_pml4_phys v)
  | i :: p' =>
      match tbl v p' with
      | None => None
      | Some t => if leads (length p') (ent v t i) then Some (pte_get_address (ent v t i)) else None
      end
  end.

Definition idx (j : Z) : Prop := 0 <= j < 512.
Definition path_ok (p : list Z) : Prop := Forall idx p /\ (length p <= 3)%nat.

(** Frames the physical memory manager may still hand out. *)
Definition avail (pm : pmm) (a : Z) : Prop :=
  exists i, 0 <= i < TOTAL_PAGES /\ a = PHYS_FREE_START + i * PAGE_SIZE /\ page_used pm i = false.

(** Tables are frames, no two paths share one, and none is free. *)
Record vmm_wf (v : vmm) (pm : pmm) : Prop := {
  wf_pmm : pmm_inv pm;
  wf_frame : forall p t, path_ok p -> tbl v p = Some t -> frame_ok t;
  wf_inj : forall p q t, path_ok p -> path_ok q -> tbl v p = Some t -> tbl v q = Some t -> p = q;
  wf_used : forall p t, path_ok p -> tbl v p = Some t -> ~ avail pm t;
}.

Lemma pmm_alloc_avail pm a pm' :
  pmm_inv pm -> pmm_alloc_page pm = (a, pm') ->
  pmm_inv pm' /\
  (a = 0 /\ pm' = pm \/
   a <> 0 /\ frame_ok a /\ avail pm a /\ ~ avail pm' a /\ (forall b, avail pm' b -> avail pm b)).
Proof.
  intros Hinv E. pose proof (alloc_page_inv pm Hinv) as Hinv'. rewrite E in Hinv'. split; [done|].
  unfold pmm_alloc_page in E. rewrite (inv_total pm Hinv) in E. pages.
  destruct (find_range 0 TOTAL_PAGES _) as [i|] eqn:Hf.
  2: { left. injection E as <- <-. split; reflexivity. }
  right. injection E as <- <-. apply find_range_Some in Hf as (Hi & Hfree & _). apply negb_true_iff in Hfree.
  rewrite page_to_addr_eq by done. unfold PHYS_FREE_START, PAGE_SIZE. split_and!.
  - lia.
  - split; [dlia|]. change (2 ^ 47) with 140737488355328. lia.
  - exists i. split; [exact Hi|]. split; [reflexivity|exact Hfree].
  - intros (k & Hk & Ek & Hu). unfold PHYS_FREE_START, PAGE_SIZE in Ek. assert (k = i) as -> by lia.
    rewrite page_used_set, Z.eqb_refl in Hu by lia. done.
  - intros b (k & Hk & Ek & Hu). exists k. split; [done|]. split; [done|]. rewrite page_used_set in Hu by lia.
    by apply orb_false_iff in Hu as [_ ?].
Qed.

(** [v'] is [v] but for entry [i] of the table at [p]. *)
Definition agree_except (v v' : vmm) (p : list Z) (i : Z) : Prop :=
  current_pml4_phys v' = current_pml4_phys v /\
  forall q t j, path_ok q -> tbl v q = Some t -> idx j -> (q, j) <> (p, i) -> ent v' t j = ent v t j.

Lemma tbl_agree v v' p i q :
  agree_except v v' p i -> path_ok q -> ~ (i :: p) `suffix_of` q -> tbl v' q = tbl v q.
Proof.
  intros [Hroot Hag]. induction q as [|j q IH]; intros [Hq1 Hq2] Hs; cbn [tbl]; [by rewrite Hroot|].
  apply Forall_cons in Hq1 as [Hj Hq1]. cbn in Hq2.
  assert (path_ok q) as Hqok by (split; [done|lia]).
  rewrite IH; [|done|intros Hx; by apply Hs, suffix_cons_r]. destruct (tbl v q) as [t|] eqn:E; [|done].
  rewrite (Hag q t j Hqok E Hj); [done|]. intros [= -> ->]. by apply Hs.
Qed.

Lemma tbl_below v p q : tbl v p = None -> p `suffix_of` q -> tbl v q = None.
Proof. intros Hp [k ->]. induction k as [|j k IH]; [done|]. cbn. by rewrite IH. Qed.

Lemma path_tail i p : path_ok (i :: p) -> idx i /\ path_ok p.
Proof. intros [H1 H2]. apply Forall_cons in H1 as [H1 H1']. cbn in H2. split; [done|]. split; [done|lia]. Qed.

Definition i4 := PML4_INDEX.
Definition i3 := PDPT_INDEX.
Definition i2 := PD_INDEX.
Definition i1 := PT_INDEX.

Lemma index_range a s : idx (Z.land (Z.shiftr a s) 0x1FF).
Proof. change 0x1FF with (Z.ones 9). rewrite Z.land_ones by lia. by apply Z.mod_pos_bound. Qed.

Lemma paths_ok va : path_ok [] /\ path_ok [i4 va] /\ path_ok [i3 va; i4 va] /\ path_ok [i2 va; i3 va; i4 va].
Proof. split_and!; (split; [repeat constructor; apply index_range|cbn; lia]). Qed.
Lemma pd_path_ok va : path_ok [i3 va; i4 va].
Proof. exact (proj1 (proj2 (proj2 (paths_ok va)))). Qed.
Lemma pt_path_ok va : path_ok [i2 va; i3 va; i4 va].
Proof. exact (proj2 (proj2 (proj2 (paths_ok va)))). Qed.
Lemma i1_ok va : idx (i1 va).
Proof. apply index_range. Qed.
Lemma i2_ok va : idx (i2 va).
Proof. apply index_range. Qed.

(** The translation in terms of the tree. *)
Definition translate (v : vmm) (va : Z) : Z :=
  match tbl v [i3 va; i4 va] with
  | None => 0
  | Some pd =>
      let e := ent v pd (i2 va) in
      if negb (pte_has_flag e PAGE_PRESENT) then 0
      else if pte_has_flag e PAGE_HUGE then u64 (pte_get_address e + Z.land va 0x1FFFFF)
      else
        let e := ent v (pte_get_address e) (i1 va) in
        if negb (pte_has_flag e PAGE_PRESENT) then 0 else u64 (pte_get_address e + Z.land va 0xFFF)
  end.

Lemma next_table_tbl v p i t :
  tbl v p = Some t -> (length p < 2)%nat -> next_table v (get_table t) i = get_table <$> tbl v (i :: p).
Proof.
  intros E Hl. cbn [tbl]. rewrite E. unfold next_table, leads. fold (ent v t i).
  destruct (pte_has_flag (ent v t i) PAGE_PRESENT); cbn [negb andb]; [|done].
  rewrite (proj2 (Nat.eqb_neq _ _)) by lia. done.
Qed.

Lemma get_physical_eq v va : vmm_get_physical v va = translate v va.
Proof.
  unfold vmm_get_physical, translate. fold (i4 va) (i3 va) (i2 va) (i1 va).
  rewrite (next_table_tbl v []) by (done || cbn; lia).
  destruct (tbl v [i4 va]) as [t3|] eqn:E3; cbn [fmap option_fmap option_map].
  - rewrite (next_table_tbl v [i4 va]) by (done || cbn; lia).
    destruct (tbl v [i3 va; i4 va]) as [t2|]; done.
  - by rewrite (tbl_below v [i4 va] [i3 va; i4 va] E3) by (by exists [i3 va]).
Qed.

(** The last level through the page table's path. *)
Lemma translate_small v va pd :
  tbl v [i3 va; i4 va] = Some pd -> pte_has_flag (ent v pd (i2 va)) PAGE_HUGE = false ->
  translate v va =
  match tbl v [i2 va; i3 va; i4 va] with
  | None => 0
  | Some pt => if negb (pte_has_flag (ent v pt (i1 va)) PAGE_PRESENT) then 0
               else u64 (pte_get_address (ent v pt (i1 va)) + Z.land va 0xFFF)
  end.
Proof.
  intros E Hh. unfold translate. rewrite E. change (tbl v [i2 va; i3 va; i4 va]) with
    (match tbl v [i3 va; i4 va] with None => None | Some t =>
       if leads 2 (ent v t (i2 va)) then Some (pte_get_address (ent v t (i2 va))) else None end).
  rewrite E. unfold leads. cbn [Nat.eqb andb]. rewrite Hh. cbv zeta.
  by destruct (pte_has_flag (ent v pd (i2 va)) PAGE_PRESENT).
Qed.

(** ** Creating a table *)

Definition no_huge (v : vmm) (va : Z) : Prop :=
  forall pd, tbl v [i3 va; i4 va] = Some pd -> pte_has_flag (ent v pd (i2 va)) PAGE_HUGE = false.

Definition new_entry (a : Z) : Z := Z.lor (Z.lor a PAGE_PRESENT) PAGE_WRITE.

Lemma new_entry_spec a : frame_ok a ->
  pte_has_flag (new_entry a) PAGE_PRESENT = true /\ pte_has_flag (new_entry a) PAGE_HUGE = false /\
  pte_get_address (new_entry a) = a.
Proof.
  intros [H1 H2]. unfold new_entry. rewrite <- Z.lor_assoc. split_and!.
  - by rewrite pte_lor_flag by done.
  - by rewrite pte_lor_flag by done.
  - apply pte_lor_address; [done| |done]. change (2 ^ 47) with 140737488355328 in H2. change (2 ^ 52) with 4503599627370496. lia.
Qed.

Lemma flag_0 g : pte_has_flag 0 g = false.
Proof. done. Qed.

Section create.
Context (v : vmm) (pm pm' : pmm) (p : list Z) (t i a : Z).
Hypothesis Hwf : vmm_wf v pm.
Hypothesis Hp : path_ok (i :: p).
Hypothesis Ht : tbl v p = Some t.
Hypothesis Habs : pte_has_flag (ent v t i) PAGE_PRESENT = false.
Hypothesis Halloc : pmm_alloc_page pm = (a, pm').
Hypothesis Ha0 : a <> 0.

Definition created : vmm := set_entry (clear_table v (get_table a)) (get_table t) i (new_entry a).

Lemma create_frame : frame_ok a /\ (forall q u, path_ok q -> tbl v q = Some u -> u <> a).
Proof.
  destruct (pmm_alloc_avail pm a pm' (wf_pmm v pm Hwf) Halloc) as [_ [[? _]|(_ & Hf & Hav & _)]]; [done|].
  split; [done|]. intros q u Hq Hu ->. by apply (wf_used v pm Hwf q a Hq Hu).
Qed.

Lemma create_agree :
  agree_except v created p i /\ ent created t i = new_entry a /\ (forall j, idx j -> ent created a j = 0).
Proof.
  destruct (path_tail i p Hp) as [Hi Hp']. destruct create_frame as [Hfa Hfresh].
  pose proof (wf_frame v pm Hwf p t Hp' Ht) as Hft. destruct (clear_table_spec v a Hfa) as (C1 & C2 & C3).
  unfold created. split_and!.
  - split; [exact C1|]. intros q u j Hq Hu Hj Hne. unfold ent.
    pose proof (wf_frame v pm Hwf q u Hq Hu) as Hfu.
    rewrite entry_set_ne; [apply C3; [done|by apply (Hfresh q)|done]|done|done|done|done|].
    intros [= <- <-]. apply Hne. f_equal. by apply (wf_inj v pm Hwf q p t).
  - apply entry_set_eq.
  - intros j Hj. unfold ent. rewrite entry_set_ne; [by apply C2|done|done|done|done|].
    intros [= E _]. by apply (Hfresh p t).
Qed.

Lemma create_tbl q : path_ok q -> tbl created q = if decide (q = i :: p) then Some a else tbl v q.
Proof.
  intros Hq. destruct create_agree as (Hag & Hnew & Hzero). destruct (path_tail i p Hp) as [Hi Hp'].
  destruct create_frame as [Hfa _]. destruct (new_entry_spec a Hfa) as (N1 & N2 & N3).
  assert (tbl created (i :: p) = Some a) as Ea.
  { cbn [tbl]. rewrite (tbl_agree v created p i p Hag Hp'), Ht.
    - unfold leads. by rewrite Hnew, N1, N2, andb_false_r, N3.
    - intros Hs%suffix_length. cbn in Hs. lia. }
  assert (tbl v (i :: p) = None) as En by (cbn [tbl]; rewrite Ht; unfold leads; by rewrite Habs).
  destruct (decide (q = i :: p)) as [->|Hne]; [done|].
  destruct (decide ((i :: p) `suffix_of` q)) as [Hs|Hs]; [|by apply (tbl_agree v created p i)].
  rewrite (tbl_below v (i :: p) q En Hs). destruct Hs as [k ->].
  destruct (exists_last (l := k)) as (k' & j & ->); [by intros ->|].
  apply (tbl_below created (j :: i :: p)); [|exists k'; by rewrite <- app_assoc].
  destruct Hq as [Hq _]. rewrite <- app_assoc, Forall_app in Hq. destruct Hq as [_ Hq]. apply Forall_cons in Hq as [Hj _].
  change (tbl created (j :: i :: p)) with (match tbl created (i :: p) with None => None | Some u =>
    if leads (length (i :: p)) (ent created u j) then Some (pte_get_address (ent created u j)) else None end).
  rewrite Ea, Hzero by done. done.
Qed.

Lemma create_wf : vmm_wf created pm'.
Proof.
  destruct (pmm_alloc_avail pm a pm' (wf_pmm v pm Hwf) Halloc) as [Hinv [[? _]|(_ & Hf & Hav & Hnav & Hmono)]]; [done|].
  destruct create_frame as [_ Hfresh]. split.
  - done.
  - intros q u Hq. rewrite create_tbl by done. destruct (decide _); [by intros [= <-]|by apply (wf_frame v pm Hwf)].
  - intros q q' u Hq Hq'. rewrite !create_tbl by done. destruct (decide (q = _)) as [->|], (decide (q' = _)) as [->|].
    + done.
    + intros [= <-] Hu. exfalso. by apply (Hfresh q' a).
    + intros Hu [= <-]. exfalso. by apply (Hfresh q a).
    + by apply (wf_inj v pm Hwf).
  - intros q u Hq. rewrite create_tbl by done. destruct (decide _); [by intros [= <-]|].
    intros Hu Hx. by apply (wf_used v pm Hwf q u Hq Hu), Hmono.
Qed.

(** An empty table maps nothing, so no translation changes. *)
Lemma create_translate va : translate created va = translate v va /\ (no_huge v va -> no_huge created va).
Proof.
  destruct create_agree as (Hag & Hnew & Hzero). destruct create_frame as [Hfa _].
  destruct (new_entry_spec a Hfa) as (N1 & N2 & N3). destruct (paths_ok va) as (_ & _ & P2 & P3).
  assert (idx (i2 va)) as J2 by apply index_range. assert (idx (i1 va)) as J1 by apply index_range.
  destruct (decide ([i3 va; i4 va] = i :: p)) as [E2|E2].
  - pose proof (create_tbl _ P2) as Ec. rewrite decide_True in Ec by done.
    assert (tbl v [i3 va; i4 va] = None) as En by (rewrite E2; cbn [tbl]; rewrite Ht; unfold leads; by rewrite Habs).
    split; [unfold translate; rewrite Ec, En; by rewrite Hzero by done|].
    intros _ pd. rewrite Ec. intros [= <-]. by rewrite Hzero by done.
  - pose proof (create_tbl _ P2) as Ec. rewrite decide_False in Ec by done.
    unfold translate, no_huge. rewrite Ec. destruct (tbl v [i3 va; i4 va]) as [pd|] eqn:Ev; [|split; [reflexivity|by intros _ ? [=]]].
    destruct (decide (([i3 va; i4 va], i2 va) = (p, i))) as [[= Ep Ei]|Hne].
    + rewrite <- Ep in Ht. rewrite Ev in Ht. injection Ht as ->. rewrite Ei, Hnew, Habs, N1, N2, N3. cbn [negb]. split.
      * by rewrite Hzero by done.
      * intros _ pd0 [= <-]. rewrite Hnew. exact N2.
    + destruct Hag as [Hroot Hag]. pose proof (Hag _ pd _ P2 Ev J2 Hne) as Ee. rewrite Ee.
      split; [|intros Hn pd0 [= <-]; rewrite Ee; exact (Hn pd eq_refl)]. cbv zeta.
      destruct (pte_has_flag (ent v pd (i2 va)) PAGE_PRESENT) eqn:Hpr; cbn [negb]; [|done].
      destruct (pte_has_flag (ent v pd (i2 va)) PAGE_HUGE) eqn:Hh; [done|].
      rewrite (Hag [i2 va; i3 va; i4 va] (pte_get_address (ent v pd (i2 va))) (i1 va) P3); [reflexivity| |exact J1|].
      * change (tbl v [i2 va; i3 va; i4 va]) with (match tbl v [i3 va; i4 va] with None => None | Some u =>
          if leads 2 (ent v u (i2 va)) then Some (pte_get_address (ent v u (i2 va))) else None end).
        rewrite Ev. unfold leads. by rewrite Hpr, Hh.
      * intros [= <- _]. destruct Hp as [_ Hl]. cbn in Hl. lia.
Qed.
End create.

Lemma get_or_create_spec v pm p t i :
  vmm_wf v pm -> path_ok (i :: p) -> tbl v p = Some t ->
  (length p = 2%nat -> pte_has_flag (ent v t i) PAGE_HUGE = false) ->
  let '(r, v', pm') := get_or_create v pm (get_table t) i in
  vmm_wf v' pm' /\ (forall va, translate v' va = translate v va /\ (no_huge v va -> no_huge v' va)) /\
  (forall q u, path_ok q -> tbl v q = Some u -> tbl v' q = Some u) /\
  match r with
  | None => fst (pmm_alloc_page pm') = 0
  | Some ptr => exists t', ptr = get_table t' /\ tbl v' (i :: p) = Some t'
  end.
Proof.
  intros Hwf Hp Ht Hh. unfold get_or_create. fold (ent v t i).
  destruct (pte_has_flag (ent v t i) PAGE_PRESENT) eqn:Hpr; cbn [negb].
  - split_and!; [done|done|done|]. eexists. split; [done|]. cbn [tbl]. rewrite Ht. unfold leads. rewrite Hpr.
    destruct (Nat.eqb_spec (length p) 2) as [E|]; [by rewrite Hh|done].
  - destruct (pmm_alloc_page pm) as [a pm'] eqn:Halloc. destruct (Z.eqb_spec a 0) as [->|Ha0].
    + destruct (pmm_alloc_avail pm 0 pm' (wf_pmm v pm Hwf) Halloc) as [_ [[_ ->]|[? _]]]; [|done].
      split_and!; [done|done|done|]. by rewrite Halloc.
    + fold (new_entry a). fold (created v t i a). split_and!.
      * eapply create_wf; eassumption.
      * intros va. eapply create_translate; eassumption.
      * intros q u Hq Hu. erewrite create_tbl by eassumption. rewrite decide_False; [done|].
        intros ->. cbn [tbl] in Hu. rewrite Ht in Hu. unfold leads in Hu. by rewrite Hpr in Hu.
      * exists a. split; [done|]. erewrite create_tbl by eassumption. by rewrite decide_True.
Qed.

(** ** Virtual pages *)

Definition vpage (va : Z) : Z := (va / 4096) mod 2 ^ 36.

Lemma indices_digits va :
  i1 va = (va / 4096) mod 512 /\ i2 va = (va / 4096 / 512) mod 512 /\
  i3 va = (va / 4096 / 512 / 512) mod 512 /\ i4 va = (va / 4096 / 512 / 512 / 512) mod 512.
Proof.
  unfold i1, i2, i3, i4, PT_INDEX, PD_INDEX, PDPT_INDEX, PML4_INDEX. change 0x1FF with (Z.ones 9).
  rewrite !Z.land_ones, !Z.shiftr_div_pow2, !Z.div_div by lia. done.
Qed.

Lemma same_indices va va' :
  i1 va = i1 va' -> i2 va = i2 va' -> i3 va = i3 va' -> i4 va = i4 va' -> vpage va = vpage va'.
Proof.
  destruct (indices_digits va) as (-> & -> & -> & ->), (indices_digits va') as (-> & -> & -> & ->).
  unfold vpage. change (2 ^ 36) with (512 * (512 * (512 * 512))). generalize (va / 4096) (va' / 4096). intros x y E1 E2 E3 E4.
  rewrite (Z.rem_mul_r x), (Z.rem_mul_r y), (Z.rem_mul_r (x / 512)), (Z.rem_mul_r (y / 512)),
    (Z.rem_mul_r (x / 512 / 512)), (Z.rem_mul_r (y / 512 / 512)) by lia. lia.
Qed.

Lemma same_page va va' :
  va' / 4096 = va / 4096 -> i1 va' = i1 va /\ i2 va' = i2 va /\ i3 va' = i3 va /\ i4 va' = i4 va.
Proof.
  intros E. destruct (indices_digits va) as (-> & -> & -> & ->), (indices_digits va') as (-> & -> & -> & ->).
  by rewrite E.
Qed.

Lemma tbl_flush v va p : tbl (vmm_flush_tlb_page v va) p = tbl v p.
Proof. induction p as [|i p IH]; [done|]. cbn [tbl]. rewrite IH. done. Qed.

Lemma flush_wf v va pm : vmm_wf v pm -> vmm_wf (vmm_flush_tlb_page v va) pm.
Proof.
  intros [H1 H2 H3 H4]. split; [done|..].
  - intros p t. rewrite tbl_flush. apply H2.
  - intros p q t. rewrite !tbl_flush. apply H3.
  - intros p t. rewrite tbl_flush. apply H4.
Qed.

Lemma translate_flush v va va' : translate (vmm_flush_tlb_page v va) va' = translate v va'.
Proof. unfold translate. rewrite tbl_flush. done. Qed.

Lemma index_names : PML4_INDEX = i4 /\ PDPT_INDEX = i3 /\ PD_INDEX = i2 /\ PT_INDEX = i1.
Proof. done. Qed.
Ltac name_indices := let A := fresh in let B := fresh in let C := fresh in let D := fresh in
  destruct index_names as (A & B & C & D); rewrite ?A, ?B, ?C, ?D; clear A B C D.

#[local] Opaque i1 i2 i3 i4.

(** ** Writing a last-level entry *)

Definition pt_path (va : Z) : list Z := [i2 va; i3 va; i4 va].

Lemma leaf_write v pm va t e :
  vmm_wf v pm -> tbl v (pt_path va) = Some t ->
  let v' := set_entry v (get_table t) (i1 va) e in
  vmm_wf v' pm /\ ent v' t (i1 va) = e /\ (forall q, path_ok q -> tbl v' q = tbl v q) /\
  (forall va', vpage va' <> vpage va -> translate v' va' = translate v va') /\
  (forall va', i2 va' = i2 va -> i3 va' = i3 va -> i4 va' = i4 va -> no_huge v va' -> no_huge v' va').
Proof.
  intros Hwf Ht v'. pose proof (pt_path_ok va) as P3. fold (pt_path va) in P3.
  pose proof (i1_ok va) as J1.
  assert (agree_except v v' (pt_path va) (i1 va)) as Hag.
  { split; [done|]. intros q u j Hq Hu Hj Hne. unfold ent, v'.
    apply entry_set_ne; [exact (wf_frame v pm Hwf _ _ P3 Ht)|exact (wf_frame v pm Hwf q u Hq Hu)|done|done|].
    intros [= <- <-]. apply Hne. f_equal. by apply (wf_inj v pm Hwf q (pt_path va) t). }
  assert (forall q, path_ok q -> tbl v' q = tbl v q) as Htbl.
  { intros q Hq. apply (tbl_agree v v' (pt_path va) (i1 va)); [done|done|].
    intros Hs%suffix_length. destruct Hq as [_ Hq]. cbn in Hs. lia. }
  assert (forall va' pd, tbl v [i3 va'; i4 va'] = Some pd -> ent v' pd (i2 va') = ent v pd (i2 va')) as Hpd.
  { intros va' pd E. destruct Hag as [_ Hag]. apply (Hag [i3 va'; i4 va']); [apply pd_path_ok|done|apply i2_ok|].
    intros E'. by apply (f_equal (fun x => length (fst x))) in E'. }
  split_and!.
  - destruct Hwf as [H1 H2 H3 H4]. split; [done|..].
    + intros q u Hq. rewrite Htbl by done. by apply H2.
    + intros q q' u Hq Hq'. rewrite !Htbl by done. by apply H3.
    + intros q u Hq. rewrite Htbl by done. by apply H4.
  - apply entry_set_eq.
  - done.
  - intros va' Hne. unfold translate. rewrite Htbl by apply pd_path_ok.
    destruct (tbl v [i3 va'; i4 va']) as [pd|] eqn:E; [|done]. rewrite (Hpd va' pd E). cbv zeta.
    destruct (pte_has_flag (ent v pd (i2 va')) PAGE_PRESENT) eqn:Hpr; cbn [negb]; [|done].
    destruct (pte_has_flag (ent v pd (i2 va')) PAGE_HUGE) eqn:Hh; [done|].
    destruct Hag as [_ Hag]. rewrite (Hag (pt_path va') (pte_get_address (ent v pd (i2 va'))) (i1 va'));
      [reflexivity|apply pt_path_ok| |apply i1_ok|].
    + change (tbl v (pt_path va')) with (match tbl v [i3 va'; i4 va'] with None => None | Some u =>
        if leads 2 (ent v u (i2 va')) then Some (pte_get_address (ent v u (i2 va'))) else None end).
      rewrite E. unfold leads. by rewrite Hpr, Hh.
    + intros [= A B C D]. apply Hne. by apply same_indices.
  - intros va' A B C Hn pd. rewrite Htbl by apply pd_path_ok. intros E. rewrite (Hpd va' pd E). by apply Hn.
Qed.

(** The entry of [va] in its page table decides the translation. *)
Lemma translate_leaf v va va' t :
  tbl v (pt_path va) = Some t -> no_huge v va -> va' / 4096 = va / 4096 ->
  translate v va' = if negb (pte_has_flag (ent v t (i1 va)) PAGE_PRESENT) then 0
                    else u64 (pte_get_address (ent v t (i1 va)) + Z.land va' 0xFFF).
Proof.
  intros Ht Hn Hp. destruct (same_page va va' Hp) as (E1 & E2 & E3 & E4).
  destruct (tbl v [i3 va; i4 va]) as [pd|] eqn:Epd.
  2: { unfold pt_path in Ht. by rewrite (tbl_below v [i3 va; i4 va] _ Epd) in Ht by (by exists [i2 va]). }
  rewrite (translate_small v va' pd); [|by rewrite E3, E4|rewrite E2; by apply Hn].
  rewrite E1, E2, E3, E4. fold (pt_path va). by rewrite Ht.
Qed.

Lemma offset_land va off : va mod 4096 = 0 -> 0 <= off < 4096 -> Z.land (va + off) 0xFFF = off /\ (va + off) / 4096 = va / 4096.
Proof. intros Ha Ho. change 0xFFF with (Z.ones 12). rewrite Z.land_ones by lia. change (2 ^ 12) with 4096. split; dlia. Qed.

(** ** Properties *)

Lemma aligned_mod a : IS_PAGE_ALIGNED a = true -> a mod 4096 = 0.
Proof. intros H%IS_PAGE_ALIGNED_spec. exact H. Qed.

(** Mapping, with the tables of the path already followed. *)
Lemma map_spec v pm va pa flags :
  vmm_wf v pm -> IS_PAGE_ALIGNED va = true -> IS_PAGE_ALIGNED pa = true -> no_huge v va ->
  let '(e, v', pm') := vmm_map_page v pm va pa flags in
  vmm_wf v' pm' /\
  (e = E_OK /\ (exists t, tbl v' (pt_path va) = Some t /\ ent v' t (i1 va) = Z.lor pa flags) /\ no_huge v' va /\
     (forall va', vpage va' <> vpage va -> translate v' va' = translate v va') \/
   e = E_NOMEM /\ fst (pmm_alloc_page pm') = 0 /\ (forall va', translate v' va' = translate v va')).
Proof.
  intros Hwf Hva Hpa Hn. unfold vmm_map_page. rewrite Hva, Hpa. cbn [negb orb].
  name_indices.
  pose proof (proj1 (proj2 (paths_ok va))) as P1.
  pose proof (get_or_create_spec v pm [] _ (i4 va) Hwf P1 eq_refl ltac:(done)) as H1.
  destruct (get_or_create v pm _ (i4 va)) as [[r1 v1] pm1]. destruct H1 as (W1 & T1 & _ & R1).
  destruct r1 as [ptr1|]; [|split; [done|]; right; split_and!; [done|done|]; intros va'; apply T1].
  destruct R1 as (t1 & -> & E1).
  pose proof (get_or_create_spec v1 pm1 [i4 va] t1 (i3 va) W1 (pd_path_ok va) E1 ltac:(done)) as H2.
  destruct (get_or_create v1 pm1 _ (i3 va)) as [[r2 v2] pm2]. destruct H2 as (W2 & T2 & _ & R2).
  assert (forall va', translate v2 va' = translate v va') as TT2.
  { intros va'. rewrite (proj1 (T2 va')). apply T1. }
  destruct r2 as [ptr2|]; [|split; [done|]; right; split_and!; done]. destruct R2 as (t2 & -> & E2).
  assert (no_huge v2 va) as N2 by (by apply T2, T1).
  pose proof (get_or_create_spec v2 pm2 [i3 va; i4 va] t2 (i2 va) W2 (pt_path_ok va) E2 (fun _ => N2 t2 E2)) as H3.
  destruct (get_or_create v2 pm2 _ (i2 va)) as [[r3 v3] pm3]. destruct H3 as (W3 & T3 & _ & R3).
  assert (forall va', translate v3 va' = translate v va') as TT3.
  { intros va'. rewrite (proj1 (T3 va')). apply TT2. }
  destruct r3 as [ptr3|]; [|split; [done|]; right; split_and!; done]. destruct R3 as (t3 & -> & E3).
  assert (no_huge v3 va) as N3 by (by apply T3).
  destruct (leaf_write v3 pm3 va t3 (Z.lor pa flags) W3 E3) as (L1 & L2 & L3 & L4 & L5). cbv zeta in *.
  set (v4 := set_entry v3 (get_table t3) (i1 va) (Z.lor pa flags)) in *.
  split; [by apply flush_wf|]. left. split; [done|]. split_and!.
  - exists t3. rewrite tbl_flush, L3 by apply pt_path_ok. split; [exact E3|exact L2].
  - intros pd. rewrite tbl_flush. apply (L5 va eq_refl eq_refl eq_refl N3).
  - intros va' Hne. rewrite translate_flush, L4 by done. apply TT3.
Qed.

(** C5. Mapping an aligned page to an aligned frame with flags that include [PAGE_PRESENT].  On a well-formed page table tree without a huge page
    over the address, [vmm_map_page] either succeeds, and then every address of
    the page translates to the frame plus its offset while every other page
    translates as before, or runs out of frames and changes no translation at
    all.  The tree stays well formed: tables are never shared and never free. *)
Theorem vmm_map_page_correct (v : vmm) (pm : pmm) (va pa flags : Z)
    (Hwf : vmm_wf v pm) (Hva : IS_PAGE_ALIGNED va = true) (Hpa : IS_PAGE_ALIGNED pa = true) (Hpr : 0 <= pa < 2 ^ 52)
    (Hf1 : pte_has_flag flags PAGE_PRESENT = true) (Hf2 : Z.land flags PTE_ADDR_MASK = 0) (Hn : no_huge v va) :
  let '(e, v', pm') := vmm_map_page v pm va pa flags in
  vmm_wf v' pm' /\
  (e = E_OK /\ (forall off, 0 <= off < 4096 -> vmm_get_physical v' (va + off) = pa + off) /\
     (forall va', vpage va' <> vpage va -> vmm_get_physical v' va' = vmm_get_physical v va') \/
   e = E_NOMEM /\ fst (pmm_alloc_page pm') = 0 /\ (forall va', vmm_get_physical v' va' = vmm_get_physical v va')).
Proof.
  pose proof (map_spec v pm va pa flags Hwf Hva Hpa Hn) as Hm.
  destruct (vmm_map_page v pm va pa flags) as [[e v'] pm']. destruct Hm as [Hwf' Hm]. split; [done|].
  destruct Hm as [(-> & (t & Et & Ee) & Hn' & Ho)|(-> & Ho & Ht)]; [left|right]; (split; [done|]).
  - split; [|intros va' Hne; rewrite !get_physical_eq; by apply Ho].
    intros off Hoff. destruct (offset_land va off (aligned_mod va Hva) Hoff) as [O1 O2].
    rewrite get_physical_eq, (translate_leaf v' va (va + off) t Et Hn' O2), Ee, O1.
    rewrite (pte_lor_flag pa flags PAGE_PRESENT), Hf1, pte_lor_address; [|by apply aligned_mod|done|done|by apply aligned_mod|done].
    cbn [negb]. apply u64_small. change (2 ^ 52) with 4503599627370496 in Hpr. lia.
  - split; [done|]. intros va'. rewrite !get_physical_eq. apply Ht.
Qed.

(** A present page translates some address of it, to a number other than 0. *)
Lemma present_translates v va t :
  tbl v (pt_path va) = Some t -> no_huge v va -> IS_PAGE_ALIGNED va = true -> pte_has_flag (ent v t (i1 va)) PAGE_PRESENT = true ->
  vmm_get_physical v (va + 1) <> 0.
Proof.
  intros Ht Hn Hva Hp. destruct (offset_land va 1 (aligned_mod va Hva) ltac:(lia)) as [O1 O2].
  rewrite get_physical_eq, (translate_leaf v va (va + 1) t Ht Hn O2), Hp, O1. cbn [negb].
  assert (He : Z.even (pte_get_address (ent v t (i1 va))) = true).
  { rewrite <- Z.negb_odd, <- Z.bit0_odd. unfold pte_get_address. by rewrite Z.land_spec, andb_false_r. }
  apply Z.even_spec in He as [k ->]. unfold u64. dlia.
Qed.

(** C26. Unmapping an aligned page, on a well-formed tree without a huge page over the address.
    [vmm_unmap_page] fails with [E_NOTFOUND] and no change exactly when no address of the page
    translates; otherwise it succeeds, no address of the page translates any more
    and every other page translates as before. *)
Theorem vmm_unmap_page_correct (v : vmm) (pm : pmm) (va : Z)
    (Hwf : vmm_wf v pm) (Hva : IS_PAGE_ALIGNED va = true) (Hn : no_huge v va) :
  let '(e, v') := vmm_unmap_page v va in
  vmm_wf v' pm /\
  (e = E_NOTFOUND /\ v' = v /\ (forall off, 0 <= off < 4096 -> vmm_get_physical v (va + off) = 0) \/
   e = E_OK /\ (exists off, 0 <= off < 4096 /\ vmm_get_physical v (va + off) <> 0) /\
     (forall off, 0 <= off < 4096 -> vmm_get_physical v' (va + off) = 0) /\
     (forall va', vpage va' <> vpage va -> vmm_get_physical v' va' = vmm_get_physical v va')).
Proof.
  unfold vmm_unmap_page. rewrite Hva. cbn [negb]. name_indices.
  assert (forall v off, 0 <= off < 4096 -> tbl v (pt_path va) = None -> no_huge v va -> vmm_get_physical v (va + off) = 0) as Hnone.
  { intros w off Hoff En Hw. destruct (offset_land va off (aligned_mod va Hva) Hoff) as [_ O2].
    destruct (same_page va (va + off) O2) as (E1 & E2 & E3 & E4). rewrite get_physical_eq.
    destruct (tbl w [i3 va; i4 va]) as [pd|] eqn:Epd; [|unfold translate; by rewrite E3, E4, Epd].
    rewrite (translate_small w (va + off) pd); [|by rewrite E3, E4|rewrite E2; by apply Hw].
    rewrite E2, E3, E4. fold (pt_path va). by rewrite En. }
  assert (tbl v (pt_path va) = None -> vmm_wf v pm /\ (E_NOTFOUND = E_NOTFOUND /\ v = v /\
    (forall off, 0 <= off < 4096 -> vmm_get_physical v (va + off) = 0) \/
    E_NOTFOUND = E_OK /\ (exists off, 0 <= off < 4096 /\ vmm_get_physical v (va + off) <> 0) /\
    (forall off, 0 <= off < 4096 -> vmm_get_physical v (va + off) = 0) /\
    (forall va', vpage va' <> vpage va -> vmm_get_physical v va' = vmm_get_physical v va'))) as Hnf.
  { intros En. split; [done|]. left. split; [done|]. split; [done|]. intros off Hoff. by apply Hnone. }
  rewrite (next_table_tbl v []) by (done || cbn; lia).
  destruct (tbl v [i4 va]) as [t3|] eqn:T3; cbn [fmap option_fmap option_map].
  2: { apply Hnf, (tbl_below v [i4 va]); [done|]. by exists [i2 va; i3 va]. }
  rewrite (next_table_tbl v [i4 va]) by (done || cbn; lia).
  destruct (tbl v [i3 va; i4 va]) as [pd|] eqn:T2; cbn [fmap option_fmap option_map].
  2: { apply Hnf, (tbl_below v [i3 va; i4 va]); [done|]. by exists [i2 va]. }
  assert (next_table v (get_table pd) (i2 va) = get_table <$> tbl v (pt_path va)) as ->.
  { change (tbl v (pt_path va)) with (match tbl v [i3 va; i4 va] with None => None | Some u =>
      if leads 2 (ent v u (i2 va)) then Some (pte_get_address (ent v u (i2 va))) else None end).
    rewrite T2. unfold next_table, leads. fold (ent v pd (i2 va)). rewrite (Hn pd T2), andb_false_r.
    by destruct (pte_has_flag _ _). }
  destruct (tbl v (pt_path va)) as [pt|] eqn:T1; cbn [fmap option_fmap option_map]; [|by apply Hnf].
  fold (ent v pt (i1 va)). destruct (pte_has_flag (ent v pt (i1 va)) PAGE_PRESENT) eqn:Hp; cbn [negb].
  - destruct (leaf_write v pm va pt 0 Hwf T1) as (L1 & L2 & L3 & L4 & L5). cbv zeta in *.
    set (v' := set_entry _ _ _ _) in *. split; [by apply flush_wf|]. right. split; [done|].
    split; [exists 1; split; [lia|by apply (present_translates v va pt)]|]. split.
    + intros off Hoff. destruct (offset_land va off (aligned_mod va Hva) Hoff) as [_ O2].
      rewrite get_physical_eq, translate_flush, (translate_leaf v' va (va + off) pt); [|by rewrite L3 by apply pt_path_ok| |done].
      * rewrite L2. reflexivity.
      * by apply L5.
    + intros va' Hne. rewrite !get_physical_eq, translate_flush. by apply L4.
  - split; [done|]. left. split; [done|]. split; [done|]. intros off Hoff.
    destruct (offset_land va off (aligned_mod va Hva) Hoff) as [_ O2].
    rewrite get_physical_eq, (translate_leaf v va (va + off) pt T1 Hn O2), Hp. reflexivity.
Qed.

(** A write to a frame that is no table changes no translation. *)
Lemma foreign_write v pm f j e va :
  vmm_wf v pm -> frame_ok f -> idx j -> (forall q, path_ok q -> tbl v q <> Some f) ->
  translate (set_entry v (get_table f) j e) va = translate v va.
Proof.
  intros Hwf Hf Hj Hfor. set (v' := set_entry _ _ _ _).
  assert (forall q u k, path_ok q -> tbl v q = Some u -> idx k -> ent v' u k = ent v u k) as Hent.
  { intros q u k Hq Hu Hk. apply entry_set_ne; [done|exact (wf_frame v pm Hwf q u Hq Hu)|done|done|].
    intros [= -> _]. by apply (Hfor q). }
  assert (forall q, path_ok q -> tbl v' q = tbl v q) as Htbl.
  { intros q Hq. apply (tbl_agree v v' (pt_path va) 0); [|done|].
    - split; [done|]. intros q' u k Hq' Hu Hk _. by apply (Hent q').
    - intros Hs%suffix_length. destruct Hq as [_ Hq]. cbn in Hs. lia. }
  unfold translate. rewrite Htbl by apply pd_path_ok. destruct (tbl v [i3 va; i4 va]) as [pd|] eqn:E; [|done].
  rewrite (Hent _ pd (i2 va) (pd_path_ok va) E (i2_ok va)). cbv zeta.
  destruct (pte_has_flag (ent v pd (i2 va)) PAGE_PRESENT) eqn:Hpr; cbn [negb]; [|done].
  destruct (pte_has_flag (ent v pd (i2 va)) PAGE_HUGE) eqn:Hh; [done|].
  rewrite (Hent (pt_path va) (pte_get_address (ent v pd (i2 va))) (i1 va)); [reflexivity|apply pt_path_ok| |apply i1_ok].
  change (tbl v (pt_path va)) with (match tbl v [i3 va; i4 va] with None => None | Some u =>
    if leads 2 (ent v u (i2 va)) then Some (pte_get_address (ent v u (i2 va))) else None end).
  rewrite E. unfold leads. by rewrite Hpr, Hh.
Qed.

(** Mapping over a huge page corrupts memory.  When the page directory entry
    of the address is a present 2 MB page whose frame is not itself a table,
    [vmm_map_page] takes the frame for a page table: it reports success,
    overwrites one word of the data stored in that frame, and no address
    translates differently, so the requested mapping is not made. *)
Theorem vmm_map_page_over_huge_page (v : vmm) (pm : pmm) (va pa flags pd frame : Z)
    (Hwf : vmm_wf v pm) (Hva : IS_PAGE_ALIGNED va = true) (Hpa : IS_PAGE_ALIGNED pa = true)
    (Hpd : tbl v [i3 va; i4 va] = Some pd)
    (Hpr : pte_has_flag (ent v pd (i2 va)) PAGE_PRESENT = true)
    (Hh : pte_has_flag (ent v pd (i2 va)) PAGE_HUGE = true)
    (Hfr : pte_get_address (ent v pd (i2 va)) = frame) (Hok : frame_ok frame)
    (Hfor : forall q, path_ok q -> tbl v q <> Some frame) :
  let '(e, v', pm') := vmm_map_page v pm va pa flags in
  e = E_OK /\ pm' = pm /\ vmem v' = wr (vmem v) (get_table frame + 8 * PT_INDEX va) (Z.lor pa flags) /\
  (forall va', vmm_get_physical v' va' = vmm_get_physical v va').
Proof.
  unfold vmm_map_page. rewrite Hva, Hpa. cbn [negb orb]. name_indices.
  assert (forall t i, pte_has_flag (ent v t i) PAGE_PRESENT = true ->
    get_or_create v pm (get_table t) i = (Some (get_table (pte_get_address (ent v t i))), v, pm)) as Hg.
  { intros t i Ht. unfold get_or_create. fold (ent v t i). by rewrite Ht. }
  destruct (tbl v [i4 va]) as [t3|] eqn:T3.
  2: { by rewrite (tbl_below v [i4 va] [i3 va; i4 va] T3) in Hpd by (by exists [i3 va]). }
  cbn [tbl] in T3, Hpd. unfold leads in T3, Hpd. cbn [length Nat.eqb andb] in T3, Hpd.
  destruct (pte_has_flag (ent v (current_pml4_phys v) (i4 va)) PAGE_PRESENT) eqn:H4; [|done]. cbn [andb negb] in T3, Hpd.
  rewrite (Hg _ _ H4). injection T3 as T3. rewrite T3 in Hpd |- *.
  destruct (pte_has_flag (ent v t3 (i3 va)) PAGE_PRESENT) eqn:H3; [|done]. cbn [andb negb] in Hpd.
  rewrite (Hg _ _ H3). injection Hpd as ->. rewrite (Hg _ _ Hpr), Hfr.
  split; [reflexivity|]. split; [reflexivity|]. split; [reflexivity|].
  intros va'. rewrite !get_physical_eq, translate_flush. apply (foreign_write v pm); [done|done|apply i1_ok|done].
Qed.

(** Freeing a page leaks its frame.  [vmm_free_page] removes the mapping but
    the frame is never given back: the physical memory manager's state is the
    same before and after, on every path. *)
Theorem vmm_free_page_leaks (v : vmm) (pm : pmm) (va : Z) (Hinv : pmm_inv pm) :
  snd (vmm_free_page v pm va) = pm.
Proof.
  unfold vmm_free_page. destruct (_ =? 0); [reflexivity|]. destruct (vmm_unmap_page v va) as [err v'].
  destruct (is_ok err); cbn [snd]; [|reflexivity]. apply free_page_id, Hinv.
Qed.

(** ** A small address space *)

(** An empty root table at 0x1000, and one with a huge page at address 0. *)
Definition vm0 : vmm := snd (vmm_init (mkVmm ∅ 0 []) 0x1000).
Definition vm_huge : vmm :=
  mkVmm (<[0x1000 := 0x2003]> (<[0x2000 := 0x3003]> (<[0x3000 := 0x400083]> ∅))) 0x1000 [].
Definition FLAGS : Z := Z.lor PAGE_PRESENT PAGE_WRITE.

Lemma vm0_tbl q t : tbl vm0 q = Some t -> q = [] /\ t = 0x1000.
Proof.
  destruct q as [|i q]; [by intros [= <-]|]. cbn [tbl]. destruct (tbl vm0 q) as [u|]; [|done].
  change (ent vm0 u i) with 0. done.
Qed.

Lemma low_not_avail pm t : t < PHYS_FREE_START -> ~ avail pm t.
Proof. intros Ht (i & Hi & -> & _). unfold PAGE_SIZE in Ht. lia. Qed.

Lemma vm0_wf : vmm_wf vm0 pmm_boot.
Proof.
  split.
  - exact (proj1 pmm_boot_facts).
  - intros p t _ Ht. destruct (vm0_tbl p t Ht) as [_ ->]. split; [reflexivity|]. split; [discriminate|reflexivity].
  - intros p q t _ _ H1 H2. destruct (vm0_tbl p t H1) as [-> _], (vm0_tbl q t H2) as [-> _]. reflexivity.
  - intros p t _ Ht. destruct (vm0_tbl p t Ht) as [_ ->]. apply low_not_avail. reflexivity.
Qed.

Lemma vm0_no_huge va : no_huge vm0 va.
Proof. intros pd Hpd. by destruct (vm0_tbl _ _ Hpd). Qed.

Lemma vmm_map_page_correct_witness :
  let '(e, v', pm') := vmm_map_page vm0 pmm_boot 0x10000000 0x500000 FLAGS in
  vmm_wf v' pm' /\
  (e = E_OK /\ (forall off, 0 <= off < 4096 -> vmm_get_physical v' (0x10000000 + off) = 0x500000 + off) /\
     (forall va', vpage va' <> vpage 0x10000000 -> vmm_get_physical v' va' = vmm_get_physical vm0 va') \/
   e = E_NOMEM /\ fst (pmm_alloc_page pm') = 0 /\ (forall va', vmm_get_physical v' va' = vmm_get_physical vm0 va')).
Proof.
  apply (vmm_map_page_correct vm0 pmm_boot 0x10000000 0x500000 FLAGS vm0_wf); [| | | | |apply vm0_no_huge].
  - reflexivity.
  - reflexivity.
  - split; [discriminate|reflexivity].
  - reflexivity.
  - reflexivity.
Defined.

(** It does succeed. *)
Example map_succeeds : fst (fst (vmm_map_page vm0 pmm_boot 0x10000000 0x500000 FLAGS)) = E_OK.
Proof. vm_compute. reflexivity. Qed.

Lemma vmm_unmap_page_correct_witness :
  vmm_wf (snd (vmm_unmap_page vm0 0x10000000)) pmm_boot.
Proof. exact (proj1 (vmm_unmap_page_correct vm0 pmm_boot 0x10000000 vm0_wf eq_refl (vm0_no_huge _))). Defined.

Lemma vmm_free_page_leaks_witness : snd (vmm_free_page vm0 pmm_boot 0x10000000) = pmm_boot.
Proof. exact (vmm_free_page_leaks vm0 pmm_boot 0x10000000 (proj1 pmm_boot_facts)). Defined.

Lemma vm_huge_word x : rd (vmem vm_huge) x =
  if x =? 0x1000 then 0x2003 else if x =? 0x2000 then 0x3003 else if x =? 0x3000 then 0x400083 else 0.
Proof.
  unfold rd, vm_huge. cbn [vmem].
  destruct (Z.eqb_spec x 0x1000) as [->|]; [reflexivity|]. rewrite lookup_insert_ne by congruence.
  destruct (Z.eqb_spec x 0x2000) as [->|]; [reflexivity|]. rewrite lookup_insert_ne by congruence.
  destruct (Z.eqb_spec x 0x3000) as [->|]; [reflexivity|]. by rewrite lookup_insert_ne by congruence.
Qed.

Lemma vm_huge_tbl q t : path_ok q -> tbl vm_huge q = Some t ->
  q = [] /\ t = 0x1000 \/ q = [0] /\ t = 0x2000 \/ q = [0; 0] /\ t = 0x3000.
Proof.
  revert t. induction q as [|i q IH]; intros t Hq; [intros [= <-]; by left|].
  apply path_tail in Hq as [Hi Hq]. unfold idx in Hi. cbn [tbl].
  destruct (tbl vm_huge q) as [u|]; [|done]. unfold ent, entry. rewrite vm_huge_word.
  destruct (IH u Hq eq_refl) as [[-> ->]|[[-> ->]|[-> ->]]]; unfold get_table; cbn [Z.leb Z.compare PHYS_FREE_START Pos.compare Pos.compare_cont];
    destruct (decide (i = 0)) as [->|Hne].
  - intros [= <-]. right. by left.
  - rewrite !(proj2 (Z.eqb_neq _ _)) by lia. done.
  - intros [= <-]. right. by right.
  - rewrite !(proj2 (Z.eqb_neq _ _)) by lia. done.
  - done.
  - rewrite !(proj2 (Z.eqb_neq _ _)) by lia. done.
Qed.

Lemma vm_huge_wf : vmm_wf vm_huge pmm_boot.
Proof.
  split.
  - exact (proj1 pmm_boot_facts).
  - intros p t Hp Ht. destruct (vm_huge_tbl p t Hp Ht) as [[_ ->]|[[_ ->]|[_ ->]]]; (split; [reflexivity|split; [discriminate|reflexivity]]).
  - intros p q t Hp Hq H1 H2.
    destruct (vm_huge_tbl p t Hp H1) as [[-> ->]|[[-> ->]|[-> ->]]];
      destruct (vm_huge_tbl q _ Hq H2) as [[-> E]|[[-> E]|[-> E]]]; done.
  - intros p t Hp Ht. apply low_not_avail. destruct (vm_huge_tbl p t Hp Ht) as [[_ ->]|[[_ ->]|[_ ->]]]; reflexivity.
Qed.

(** The first word of the 4 MB frame is overwritten. *)
Lemma vmm_map_page_over_huge_page_witness :
  fst (fst (vmm_map_page vm_huge pmm_boot 0 0x500000 FLAGS)) = E_OK.
Proof.
  pose proof (vmm_map_page_over_huge_page vm_huge pmm_boot 0 0x500000 FLAGS 0x3000 0x400000 vm_huge_wf
    eq_refl eq_refl eq_refl eq_refl eq_refl eq_refl) as H.
  destruct (vmm_map_page vm_huge pmm_boot 0 0x500000 FLAGS) as [[e v'] pm'].
  refine (proj1 (H _ _)).
  - split; [reflexivity|split; [discriminate|reflexivity]].
  - intros q Hq Ht. destruct (vm_huge_tbl q _ Hq Ht) as [[_ E]|[[_ E]|[_ E]]]; discriminate.
Defined.
