(* ===== verification/Ramfs.v ===== *)
(** * RAM file system: fs/filesystems/ramfs.c, and the types of fs/vfs.h

    Each kind of structure the file system allocates is a finite map from
    address to record: VFS nodes, ramfs nodes, file contents and file systems.
    Freeing an address removes its entry.  An operations table is named by its
    address: 0 is a null pointer, [RAMFS_OPS] the only table there is.  Strings
    are lists of characters without the terminator.  Loops along the sibling
    list take fuel; [sibs] describes a list that ends, for which the fuel
    [ram_fuel], one more than the number of ramfs nodes, is enough. *)

From S2P Require Import Prelude Errno Slab SlabThms Kmalloc Task TaskThms.

Definition MAX_FILENAME : Z := 64.
Definition MAX_PATH : Z := 256.
Definition MAX_MOUNTS : Z := 8.

Inductive file_type_t := FILE_TYPE_REGULAR | FILE_TYPE_DIRECTORY.
#[export] Instance file_type_eq_dec : EqDecision file_type_t.
Proof. solve_decision. Defined.

Record vfs_node_t := mkNode {
  n_name : list Z;
  n_type : file_type_t;
  n_size : Z;
  n_flags : Z;
  n_parent : Z;
  n_fs : Z;
  n_fs_data : Z;
  n_ops : Z;
}.

Record ramfs_node_t := mkRam {
  r_vfs_node : Z;
  r_data : Z;
  first_child : Z;
  next_sibling : Z;
}.

(** [f_mount] and [f_unmount] are addresses of functions. *)
Record filesystem_t := mkFs {
  f_name : list Z;
  fs_private : Z;
  f_root : Z;
  f_mount : Z;
  f_unmount : Z;
}.

Record mount_point_t := mkMount {
  m_path : list Z;
  m_fs : Z;
  in_use : bool;
}.

Record vfs (A : Type) := mkVfs {
  nodes : gmap Z vfs_node_t;
  rams : gmap Z ramfs_node_t;
  blobs : gmap Z (list Z);
  fss : gmap Z filesystem_t;
  mount_table : list mount_point_t;
  vfs_root : Z;
  v_heap : A;
}.
Arguments mkVfs {A}. Arguments nodes {A}. Arguments rams {A}. Arguments blobs {A}. Arguments fss {A}.
Arguments mount_table {A}. Arguments vfs_root {A}. Arguments v_heap {A}.

Definition RAMFS_OPS : Z := 1.
Definition RAMFS_MOUNT : Z := 2.
Definition RAMFS_UNMOUNT : Z := 3.
Definition sizeof_vfs_node : Z := 120.
Definition sizeof_ramfs_node : Z := 32.
Definition sizeof_filesystem : Z := 64.

Definition null_node : vfs_node_t := mkNode [] FILE_TYPE_REGULAR 0 0 0 0 0 0.
Definition null_ram : ramfs_node_t := mkRam 0 0 0 0.
Definition null_fs : filesystem_t := mkFs [] 0 0 0 0.

Section ramfs.
Context {A : Type} `{KHeap A}.
Implicit Types s : vfs A.

Definition with_nodes s m := mkVfs m (rams s) (blobs s) (fss s) (mount_table s) (vfs_root s) (v_heap s).
Definition with_rams s m := mkVfs (nodes s) m (blobs s) (fss s) (mount_table s) (vfs_root s) (v_heap s).
Definition with_blobs s m := mkVfs (nodes s) (rams s) m (fss s) (mount_table s) (vfs_root s) (v_heap s).
Definition with_fss s m := mkVfs (nodes s) (rams s) (blobs s) m (mount_table s) (vfs_root s) (v_heap s).
Definition with_mounts s t := mkVfs (nodes s) (rams s) (blobs s) (fss s) t (vfs_root s) (v_heap s).
Definition with_root s r := mkVfs (nodes s) (rams s) (blobs s) (fss s) (mount_table s) r (v_heap s).
Definition with_vheap s (h : A) := mkVfs (nodes s) (rams s) (blobs s) (fss s) (mount_table s) (vfs_root s) h.

Definition node_at s (p : Z) : vfs_node_t := default null_node (nodes s !! p).
Definition ram_at s (p : Z) : ramfs_node_t := default null_ram (rams s !! p).
Definition fs_at s (p : Z) : filesystem_t := default null_fs (fss s !! p).
Definition blob_at s (p : Z) : list Z := default [] (blobs s !! p).
Definition put_node s p n := with_nodes s (<[p := n]> (nodes s)).
Definition put_ram s p r := with_rams s (<[p := r]> (rams s)).
Definition put_fs s p f := with_fss s (<[p := f]> (fss s)).
Definition put_blob s p b := with_blobs s (<[p := b]> (blobs s)).

Definition kmalloc_s s (size : Z) : Z * vfs A :=
  let '(p, h) := kh_alloc (v_heap s) size in (p, with_vheap s h).
(** [kfree]: whatever structure lives at [p] is gone. *)
Definition kfree_s s (p : Z) : vfs A :=
  mkVfs (delete p (nodes s)) (delete p (rams s)) (delete p (blobs s)) (delete p (fss s))
    (mount_table s) (vfs_root s) (kh_free (v_heap s) p).

Definition ram_fuel s : nat := S (size (rams s)).

Definition set_size (sz : Z) (n : vfs_node_t) : vfs_node_t :=
  mkNode (n_name n) (n_type n) sz (n_flags n) (n_parent n) (n_fs n) (n_fs_data n) (n_ops n).
Definition set_fs_data (d : Z) (n : vfs_node_t) : vfs_node_t :=
  mkNode (n_name n) (n_type n) (n_size n) (n_flags n) (n_parent n) (n_fs n) d (n_ops n).
Definition set_data (d : Z) (r : ramfs_node_t) : ramfs_node_t :=
  mkRam (r_vfs_node r) d (first_child r) (next_sibling r).
Definition set_first_child (c : Z) (r : ramfs_node_t) : ramfs_node_t :=
  mkRam (r_vfs_node r) (r_data r) c (next_sibling r).
Definition set_next_sibling (c : Z) (r : ramfs_node_t) : ramfs_node_t :=
  mkRam (r_vfs_node r) (r_data r) (first_child r) c.
Definition set_f_root (p : Z) (f : filesystem_t) : filesystem_t :=
  mkFs (f_name f) (fs_private f) p (f_mount f) (f_unmount f).

Definition ramfs_mount s (fs : Z) : kerr_t * vfs A :=
  let '(root, s) := kmalloc_s s sizeof_vfs_node in
  if root =? 0 then (E_NOMEM, s)
  else
    let s := put_node s root (mkNode [47] FILE_TYPE_DIRECTORY 0 0 0 fs 0 RAMFS_OPS) in
    let '(ramfs_data, s) := kmalloc_s s sizeof_ramfs_node in
    if ramfs_data =? 0 then (E_NOMEM, kfree_s s root)
    else
      let s := put_ram s ramfs_data (mkRam root 0 0 0) in
      let s := put_node s root (set_fs_data ramfs_data (node_at s root)) in
      (E_OK, put_fs s fs (set_f_root root (fs_at s fs))).

(** The recursion and the sibling loop share the fuel. *)
Fixpoint ramfs_free_node_recursive (fuel : nat) s (node : Z) : vfs A :=
  match fuel with
  | O => s
  | S fuel' =>
      if node =? 0 then s
      else
        let r := ram_at s node in
        let s :=
          if negb (r_vfs_node r =? 0) && bool_decide (n_type (node_at s (r_vfs_node r)) = FILE_TYPE_DIRECTORY)
          then (fix children (fuel : nat) s (child : Z) : vfs A :=
                  match fuel with
                  | O => s
                  | S fuel2 =>
                      if child =? 0 then s
                      else
                        let next := next_sibling (ram_at s child) in
                        children fuel2 (ramfs_free_node_recursive fuel' s child) next
                  end) fuel s (first_child r)
          else s in
        let s := if negb (r_data (ram_at s node) =? 0) then kfree_s s (r_data (ram_at s node)) else s in
        let s := if negb (r_vfs_node (ram_at s node) =? 0) then kfree_s s (r_vfs_node (ram_at s node)) else s in
        kfree_s s node
  end.

Definition ramfs_unmount s (fs : Z) : kerr_t * vfs A :=
  if (fs =? 0) || (f_root (fs_at s fs) =? 0) then (E_INVALID, s)
  else
    let root_data := n_fs_data (node_at s (f_root (fs_at s fs))) in
    let s := if negb (root_data =? 0) then ramfs_free_node_recursive (ram_fuel s) s root_data else s in
    (E_OK, put_fs s fs (set_f_root 0 (fs_at s fs))).

Definition ramfs_open s (node : Z) : kerr_t := E_OK.
Definition ramfs_close s (node : Z) : kerr_t := E_OK.

(** The bytes stored in the caller's buffer; their number is [*bytes_read].
    [None]: [*bytes_read] and the buffer are not written. *)
Definition ramfs_read s (node size : Z) : kerr_t * option (list Z) :=
  if (node =? 0) || negb (bool_decide (n_type (node_at s node) = FILE_TYPE_REGULAR)) then (E_ISDIR, None)
  else
    let ramfs_data := n_fs_data (node_at s node) in
    if (ramfs_data =? 0) || (r_data (ram_at s ramfs_data) =? 0) then (E_OK, Some [])
    else
      let to_read := if size <? n_size (node_at s node) then size else n_size (node_at s node) in
      (E_OK, Some (take (Z.to_nat to_read) (blob_at s (r_data (ram_at s ramfs_data))))).

(** [buffer] holds the [size] bytes to write; the result's [Z] is [*bytes_written]. *)
Definition ramfs_write s (node : Z) (buffer : list Z) : kerr_t * Z * vfs A :=
  if (node =? 0) || negb (bool_decide (n_type (node_at s node) = FILE_TYPE_REGULAR)) then (E_ISDIR, 0, s)
  else
    let ramfs_data := n_fs_data (node_at s node) in
    if ramfs_data =? 0 then (E_INVALID, 0, s)
    else
      let size := Z.of_nat (length buffer) in
      let s := if negb (r_data (ram_at s ramfs_data) =? 0) then kfree_s s (r_data (ram_at s ramfs_data)) else s in
      let '(data, s) := kmalloc_s s size in
      let s := put_ram s ramfs_data (set_data data (ram_at s ramfs_data)) in
      if data =? 0 then (E_NOMEM, 0, put_node s node (set_size 0 (node_at s node)))
      else
        let s := put_blob s data buffer in
        (E_OK, size, put_node s node (set_size size (node_at s node))).

(** The search of [ramfs_node_create] for a child with the name. *)
Fixpoint find_sibling (fuel : nat) s (child : Z) (name : list Z) : Z :=
  match fuel with
  | O => 0
  | S fuel' =>
      if child =? 0 then 0
      else if bool_decide (n_name (node_at s (r_vfs_node (ram_at s child))) = name) then child
      else find_sibling fuel' s (next_sibling (ram_at s child)) name
  end.

Definition ramfs_node_create s (parent : Z) (name : list Z) (type : file_type_t) : kerr_t * Z * vfs A :=
  if (parent =? 0) || negb (bool_decide (n_type (node_at s parent) = FILE_TYPE_DIRECTORY)) then (E_NOTDIR, 0, s)
  else
    let parent_data := n_fs_data (node_at s parent) in
    if parent_data =? 0 then (E_INVALID, 0, s)
    else
      let child := find_sibling (ram_fuel s) s (first_child (ram_at s parent_data)) name in
      if negb (child =? 0) then (E_EXISTS, r_vfs_node (ram_at s child), s)
      else
        let '(new_node, s) := kmalloc_s s sizeof_vfs_node in
        if new_node =? 0 then (E_NOMEM, 0, s)
        else
          let s := put_node s new_node (mkNode (take 63 name) type 0 0 parent (n_fs (node_at s parent)) 0 RAMFS_OPS) in
          let '(new_ramfs_data, s) := kmalloc_s s sizeof_ramfs_node in
          if new_ramfs_data =? 0 then (E_NOMEM, 0, kfree_s s new_node)
          else
            let s := put_ram s new_ramfs_data (mkRam new_node 0 0 (first_child (ram_at s parent_data))) in
            let s := put_node s new_node (set_fs_data new_ramfs_data (node_at s new_node)) in
            let s := put_ram s parent_data (set_first_child new_ramfs_data (ram_at s parent_data)) in
            (E_OK, new_node, s).

(** [while (prev && prev->next_sibling != ramfs_data)] *)
Fixpoint find_prev (fuel : nat) s (prev ramfs_data : Z) : Z :=
  match fuel with
  | O => 0
  | S fuel' =>
      if prev =? 0 then 0
      else if next_sibling (ram_at s prev) =? ramfs_data then prev
      else find_prev fuel' s (next_sibling (ram_at s prev)) ramfs_data
  end.

Definition ramfs_node_delete s (node : Z) : kerr_t * vfs A :=
  if (node =? 0) || (n_parent (node_at s node) =? 0) then (E_PERM, s)
  else
    let ramfs_data := n_fs_data (node_at s node) in
    let parent_data := n_fs_data (node_at s (n_parent (node_at s node))) in
    if (ramfs_data =? 0) || (parent_data =? 0) then (E_INVALID, s)
    else
      let next := next_sibling (ram_at s ramfs_data) in
      let s :=
        if first_child (ram_at s parent_data) =? ramfs_data then
          put_ram s parent_data (set_first_child next (ram_at s parent_data))
        else
          let prev := find_prev (ram_fuel s) s (first_child (ram_at s parent_data)) ramfs_data in
          if negb (prev =? 0) then put_ram s prev (set_next_sibling next (ram_at s prev)) else s in
      let s := if negb (r_data (ram_at s ramfs_data) =? 0) then kfree_s s (r_data (ram_at s ramfs_data)) else s in
      (E_OK, kfree_s (kfree_s s ramfs_data) node).

(** [while (child && current < index)] *)
Fixpoint nth_sibling (index : nat) s (child : Z) : Z :=
  match index with
  | O => child
  | S index' => if child =? 0 then 0 else nth_sibling index' s (next_sibling (ram_at s child))
  end.

Definition ramfs_readdir s (node : Z) (index : nat) : kerr_t * Z :=
  if (node =? 0) || negb (bool_decide (n_type (node_at s node) = FILE_TYPE_DIRECTORY)) then (E_NOTDIR, 0)
  else
    let ramfs_data := n_fs_data (node_at s node) in
    if ramfs_data =? 0 then (E_INVALID, 0)
    else
      let child := nth_sibling index s (first_child (ram_at s ramfs_data)) in
      if child =? 0 then (E_NOTFOUND, 0) else (E_OK, r_vfs_node (ram_at s child)).

Definition ramfs_create_fs s : kerr_t * Z * vfs A :=
  let '(fs, s) := kmalloc_s s sizeof_filesystem in
  if fs =? 0 then (E_NOMEM, 0, s)
  else (E_OK, fs, put_fs s fs (mkFs (str "ramfs") 0 0 RAMFS_MOUNT RAMFS_UNMOUNT)).

Definition ramfs_destroy_fs s (fs : Z) : kerr_t * vfs A :=
  if fs =? 0 then (E_INVALID, s)
  else
    let s := if negb (f_root (fs_at s fs) =? 0) then snd (ramfs_unmount s fs) else s in
    (E_OK, kfree_s s fs).
End ramfs.

(** ** Directories as lists *)

(** [l] is the sibling list that starts at [p]. *)
Fixpoint sibs (m : gmap Z ramfs_node_t) (p : Z) (l : list Z) : Prop :=
  match l with
  | [] => p = 0
  | x :: l' => p = x /\ x <> 0 /\ exists r, m !! x = Some r /\ sibs m (next_sibling r) l'
  end.

Lemma sibs_stored m p l x : sibs m p l -> x ∈ l -> x <> 0 /\ is_Some (m !! x).
Proof.
  revert p. induction l as [|y l IH]; intros p Hs Hx; [by apply elem_of_nil in Hx|].
  destruct Hs as (-> & Hy0 & r & Hr & Hs). apply elem_of_cons in Hx as [->|Hx]; [by split|by apply (IH _ Hs)].
Qed.

(** Only the [next_sibling] links of the members matter. *)
Lemma sibs_ext m m' p l :
  (forall x r, x ∈ l -> m !! x = Some r -> exists r', m' !! x = Some r' /\ next_sibling r' = next_sibling r) ->
  sibs m p l -> sibs m' p l.
Proof.
  revert p. induction l as [|y l IH]; intros p Hext Hs; [done|].
  destruct Hs as (-> & Hy0 & r & Hr & Hs). split; [done|]. split; [done|].
  destruct (Hext y r (list_elem_of_here _ _) Hr) as (r' & Hr' & E). exists r'. split; [done|]. rewrite E.
  apply IH; [|done]. intros x r0 Hx. apply Hext. apply elem_of_cons. by right.
Qed.

Section directories.
Context {A : Type} `{KHeap A}.
Implicit Types s : vfs A.

(** [p] is a directory node whose children, newest first, have the ramfs nodes [l]. *)
Record dir_ok s (p : Z) (l : list Z) : Prop := {
  do_node : p <> 0 /\ is_Some (nodes s !! p) /\ n_type (node_at s p) = FILE_TYPE_DIRECTORY;
  do_data : n_fs_data (node_at s p) <> 0 /\ is_Some (rams s !! n_fs_data (node_at s p));
  do_list : sibs (rams s) (first_child (ram_at s (n_fs_data (node_at s p)))) l;
  do_nodup : NoDup l;
  do_nodes : forall x, x ∈ l -> r_vfs_node (ram_at s x) <> 0 /\ is_Some (nodes s !! r_vfs_node (ram_at s x));
}.

Definition child_node s (x : Z) : Z := r_vfs_node (ram_at s x).
Definition child_name s (x : Z) : list Z := n_name (node_at s (child_node s x)).

Lemma ram_at_Some s x r : rams s !! x = Some r -> ram_at s x = r.
Proof. unfold ram_at. by intros ->. Qed.

Lemma dir_fuel s p l : dir_ok s p l -> (length l < ram_fuel s)%nat.
Proof.
  intros [_ _ Hl Hnd _]. unfold ram_fuel. rewrite <- size_dom.
  assert (list_to_set l ⊆ dom (rams s)) as Hsub.
  { intros x Hx. apply elem_of_list_to_set in Hx. apply elem_of_dom. by apply (sibs_stored _ _ _ _ Hl). }
  apply subseteq_size in Hsub. rewrite size_list_to_set in Hsub by done. lia.
Qed.

Lemma find_sibling_spec fuel s p l name :
  sibs (rams s) p l -> (length l < fuel)%nat ->
  find_sibling fuel s p name = match list_find (fun x => child_name s x = name) l with Some (_, x) => x | None => 0 end.
Proof.
  revert p l. induction fuel as [|fuel IH]; intros p l Hs Hf; [lia|]. destruct l as [|x l]; cbn [find_sibling].
  - cbn in Hs. by rewrite Hs.
  - destruct Hs as (-> & Hx0 & r & Hr & Hs). rewrite (proj2 (Z.eqb_neq x 0) Hx0). cbn [list_find].
    fold (child_node s x). fold (child_name s x).
    destruct (decide (child_name s x = name)) as [E|E]; [by rewrite bool_decide_eq_true_2|].
    rewrite bool_decide_eq_false_2 by done. rewrite (ram_at_Some s x r Hr), (IH _ l Hs) by (cbn in Hf; lia).
    destruct (list_find _ l) as [[k y]|]; done.
Qed.

Lemma nth_sibling_spec i s p l : sibs (rams s) p l -> nth_sibling i s p = default 0 (l !! i).
Proof.
  revert p l. induction i as [|i IH]; intros p l Hs; destruct l as [|x l]; cbn [nth_sibling lookup list_lookup].
  - done.
  - by destruct Hs as (-> & _).
  - cbn in Hs. by rewrite Hs.
  - destruct Hs as (-> & Hx0 & r & Hr & Hs). rewrite (proj2 (Z.eqb_neq x 0) Hx0), (ram_at_Some s x r Hr). by apply IH.
Qed.

(** Reading a directory enumerates its children. *)
Lemma readdir_spec s p l i :
  dir_ok s p l ->
  ramfs_readdir s p i = match l !! i with Some x => (E_OK, child_node s x) | None => (E_NOTFOUND, 0) end.
Proof.
  intros [(Hp0 & _ & Ht) (Hd0 & _) Hl _ _]. unfold ramfs_readdir.
  rewrite (proj2 (Z.eqb_neq p 0) Hp0), (bool_decide_eq_true_2 _ Ht), (proj2 (Z.eqb_neq _ 0) Hd0). cbn [orb negb].
  rewrite (nth_sibling_spec i s _ l Hl). destruct (l !! i) as [x|] eqn:E; [change (default 0 (Some x)) with x|done].
  destruct (sibs_stored _ _ _ x Hl) as [Hx0 _]; [by eapply list_elem_of_lookup_2|].
  by rewrite (proj2 (Z.eqb_neq x 0) Hx0).
Qed.

Lemma list_find_None_names s l name :
  name ∉ (child_name s <$> l) -> list_find (fun x => child_name s x = name) l = None.
Proof.
  intros Hn. apply list_find_None. apply Forall_forall. intros x Hx E. apply Hn, list_elem_of_fmap. by exists x.
Qed.

(** C27. Creating a file or directory.  In a directory that has no child of that
    name, when both allocations succeed at unused addresses,
    [ramfs_node_create] returns the new node, empty, with the name cut to 63
    characters and the directory as parent; a directory listing shows it first
    and the old children after it, and every other node is unchanged. *)
Theorem ramfs_create_correct s (parent : Z) (l : list Z) (name : list Z) (type : file_type_t) (p1 p2 : Z) (h1 h2 : A)
    (Hd : dir_ok s parent l) (Hn : name ∉ (child_name s <$> l))
    (Ha1 : kh_alloc (v_heap s) sizeof_vfs_node = (p1, h1)) (Ha2 : kh_alloc h1 sizeof_ramfs_node = (p2, h2))
    (Hp1 : p1 <> 0) (Hp2 : p2 <> 0) (Hf1 : nodes s !! p1 = None) (Hf2 : rams s !! p2 = None) :
  exists s', ramfs_node_create s parent name type = (E_OK, p1, s') /\
    dir_ok s' parent (p2 :: l) /\
    node_at s' p1 = mkNode (take 63 name) type 0 0 parent (n_fs (node_at s parent)) p2 RAMFS_OPS /\
    ramfs_readdir s' parent 0 = (E_OK, p1) /\
    (forall i, ramfs_readdir s' parent (S i) = ramfs_readdir s parent i) /\
    (forall q, q <> p1 -> nodes s' !! q = nodes s !! q).
Proof.
  pose proof (dir_fuel s parent l Hd) as Hfuel. pose proof (fun i => readdir_spec s parent l i Hd) as Hrd.
  destruct Hd as [(Hp0 & [n En] & Ht) (Hd0 & [rd Ed]) Hl Hnd Hns].
  unfold ramfs_node_create. rewrite (proj2 (Z.eqb_neq parent 0) Hp0), (bool_decide_eq_true_2 _ Ht). cbn [orb negb].
  set (d := n_fs_data (node_at s parent)) in *. rewrite (proj2 (Z.eqb_neq d 0) Hd0).
  rewrite (find_sibling_spec _ s _ l name Hl Hfuel), (list_find_None_names s l name Hn). cbn [Z.eqb negb].
  unfold kmalloc_s at 1. rewrite Ha1. rewrite (proj2 (Z.eqb_neq p1 0) Hp1).
  unfold kmalloc_s. cbn [v_heap with_vheap put_node with_nodes]. rewrite Ha2, (proj2 (Z.eqb_neq p2 0) Hp2).
  eexists. split; [done|]. set (s' := put_ram _ _ _).
  assert (p1 <> parent) as Hne1 by congruence. assert (p2 <> d) as Hne2 by congruence.
  assert (forall q, q <> p1 -> nodes s' !! q = nodes s !! q) as Hnodes.
  { intros q Hq. unfold s', put_ram, put_node, with_rams, with_nodes, with_vheap. cbn. by rewrite !lookup_insert_ne by congruence. }
  assert (node_at s' p1 = mkNode (take 63 name) type 0 0 parent (n_fs (node_at s parent)) p2 RAMFS_OPS) as En1.
  { unfold s', node_at, put_ram, put_node, with_rams, with_nodes, with_vheap. cbn. by rewrite !lookup_insert_eq. }
  assert (node_at s' parent = node_at s parent) as Enp by (unfold node_at; by rewrite Hnodes).
  assert (rams s' !! p2 = Some (mkRam p1 0 0 (first_child rd))) as Er2.
  { unfold s', put_ram, put_node, with_rams, with_nodes, with_vheap, ram_at. cbn.
    rewrite lookup_insert_ne by congruence. rewrite lookup_insert_eq. by rewrite Ed. }
  assert (rams s' !! d = Some (set_first_child p2 rd)) as Erd.
  { unfold s', put_ram, put_node, with_rams, with_nodes, with_vheap, ram_at. cbn.
    rewrite lookup_insert_eq. rewrite lookup_insert_ne by done. by rewrite Ed. }
  assert (forall x r, rams s !! x = Some r ->
    exists r', rams s' !! x = Some r' /\ next_sibling r' = next_sibling r /\ r_vfs_node r' = r_vfs_node r) as Hrams.
  { intros x r Hx. destruct (decide (x = d)) as [->|Hxd]; [exists (set_first_child p2 rd); rewrite Ed in Hx; by injection Hx as <-|].
    exists r. split; [|done]. unfold s', put_ram, put_node, with_rams, with_nodes, with_vheap. cbn.
    rewrite lookup_insert_ne by done. rewrite lookup_insert_ne by congruence. done. }
  assert (forall x, x ∈ l -> child_node s' x = child_node s x) as Hcn.
  { intros x Hx. destruct (sibs_stored _ _ _ x Hl Hx) as [_ [r Hr]]. destruct (Hrams x r Hr) as (r' & Hr' & _ & E).
    unfold child_node. by rewrite (ram_at_Some _ _ _ Hr), (ram_at_Some _ _ _ Hr'). }
  rewrite (ram_at_Some s d rd Ed) in Hl.
  assert (dir_ok s' parent (p2 :: l)) as Hd'.
  { split.
    - rewrite Enp. split; [done|]. split; [by rewrite Hnodes, En|done].
    - rewrite Enp. fold d. split; [done|]. by rewrite Erd.
    - rewrite Enp. fold d. rewrite (ram_at_Some _ _ _ Erd). cbn. split; [done|]. split; [done|]. eexists. split; [exact Er2|]. cbn.
      apply (sibs_ext (rams s)); [|done]. intros x r _ Hx. destruct (Hrams x r Hx) as (r' & ? & ? & _). by exists r'.
    - constructor; [|done]. intros Hin. destruct (sibs_stored _ _ _ p2 Hl Hin) as [_ [r Hr]]. congruence.
    - intros x [->|Hx]%elem_of_cons.
      + rewrite (ram_at_Some _ _ _ Er2). cbn. split; [done|]. unfold s', put_ram, put_node, with_rams, with_nodes. cbn.
        rewrite lookup_insert_eq. by eexists.
      + fold (child_node s' x). rewrite (Hcn x Hx). destruct (Hns x Hx) as [Hc0 [c Hc]]. split; [done|].
        rewrite Hnodes; [by eexists|]. unfold child_node. intros E. rewrite E in Hc. congruence. }
  split_and!; [done|done| | |done].
  - rewrite (readdir_spec s' parent (p2 :: l) 0 Hd'). cbn. unfold child_node. by rewrite (ram_at_Some _ _ _ Er2).
  - intros i. rewrite (readdir_spec s' parent (p2 :: l) (S i) Hd'), Hrd. cbn [lookup list_lookup].
    destruct (l !! i) as [x|] eqn:E; [|done]. rewrite Hcn; [done|]. by eapply list_elem_of_lookup_2.
Qed.

(** *** Files *)

(** [node] is a regular file whose ramfs node is [d]; its addresses differ. *)
Record file_ok s (node d : Z) : Prop := {
  fo_node : node <> 0 /\ is_Some (nodes s !! node) /\ n_type (node_at s node) = FILE_TYPE_REGULAR;
  fo_data : n_fs_data (node_at s node) = d /\ d <> 0 /\ is_Some (rams s !! d);
  fo_sep : r_data (ram_at s d) <> node /\ r_data (ram_at s d) <> d;
}.

Definition release s (p : Z) : vfs A := if negb (p =? 0) then kfree_s s p else s.

Lemma release_lookup s p q :
  q <> p -> nodes (release s p) !! q = nodes s !! q /\ rams (release s p) !! q = rams s !! q /\
            blobs (release s p) !! q = blobs s !! q.
Proof.
  intros Hq. unfold release. destruct (p =? 0); cbn [negb]; [done|]. unfold kfree_s. cbn.
  by rewrite !lookup_delete_ne by congruence.
Qed.

(** The state after a write, on the branch where the allocation succeeds. *)
Lemma write_spec s node d (buf : list Z) p h :
  file_ok s node d -> kh_alloc (v_heap (release s (r_data (ram_at s d)))) (Z.of_nat (length buf)) = (p, h) ->
  let '(e, n, s') := ramfs_write s node buf in
  (forall q, q <> node -> q <> r_data (ram_at s d) -> nodes s' !! q = nodes s !! q) /\
  (forall q, q <> d -> q <> r_data (ram_at s d) -> rams s' !! q = rams s !! q) /\
  nodes s' !! node = Some (set_size (if p =? 0 then 0 else Z.of_nat (length buf)) (node_at s node)) /\
  rams s' !! d = Some (set_data p (ram_at s d)) /\
  if p =? 0 then e = E_NOMEM /\ n = 0
  else e = E_OK /\ n = Z.of_nat (length buf) /\ blobs s' !! p = Some buf /\
       (forall q, q <> p -> q <> r_data (ram_at s d) -> blobs s' !! q = blobs s !! q).
Proof.
  intros [(Hn0 & Hn1 & Ht) (Ed & Hd0 & Hd1) (Hs1 & Hs2)] Ha. unfold ramfs_write.
  rewrite (proj2 (Z.eqb_neq node 0) Hn0), (bool_decide_eq_true_2 _ Ht), Ed, (proj2 (Z.eqb_neq d 0) Hd0). cbn [orb negb].
  fold (release s (r_data (ram_at s d))). set (old := r_data (ram_at s d)) in *. set (s1 := release s old) in *.
  assert (node_at s1 node = node_at s node) as En1.
  { unfold node_at, s1. by rewrite (proj1 (release_lookup s old node ltac:(congruence))). }
  assert (ram_at s1 d = ram_at s d) as Er1.
  { unfold ram_at, s1. by rewrite (proj1 (proj2 (release_lookup s old d ltac:(congruence)))). }
  unfold kmalloc_s. rewrite Ha.
  change (ram_at (with_vheap s1 h) d) with (ram_at s1 d). rewrite Er1.
  destruct (p =? 0); cbn [nodes rams blobs put_node put_ram put_blob with_nodes with_rams with_blobs with_vheap].
  - change (node_at (put_ram (with_vheap s1 h) d (set_data p (ram_at s d))) node) with (node_at s1 node). rewrite En1.
    split_and!; try done.
    + intros q Hq Ho. rewrite lookup_insert_ne by done. by apply release_lookup.
    + intros q Hq Ho. rewrite lookup_insert_ne by done. by apply release_lookup.
    + by rewrite lookup_insert_eq.
    + by rewrite lookup_insert_eq.
  - change (node_at (put_blob (put_ram (with_vheap s1 h) d (set_data p (ram_at s d))) p buf) node) with (node_at s1 node).
    rewrite En1. split_and!; try done.
    + intros q Hq Ho. rewrite lookup_insert_ne by done. by apply release_lookup.
    + intros q Hq Ho. rewrite lookup_insert_ne by done. by apply release_lookup.
    + by rewrite lookup_insert_eq.
    + by rewrite lookup_insert_eq.
    + by rewrite lookup_insert_eq.
    + intros q Hq Ho. rewrite lookup_insert_ne by done. by apply release_lookup.
Qed.

(** Reading a file just written gives the buffer back. *)
Lemma write_read_same s node d (buf : list Z) p h :
  file_ok s node d -> kh_alloc (v_heap (release s (r_data (ram_at s d)))) (Z.of_nat (length buf)) = (p, h) -> p <> 0 ->
  exists s', ramfs_write s node buf = (E_OK, Z.of_nat (length buf), s') /\
    n_size (node_at s' node) = Z.of_nat (length buf) /\ v_heap s' = h /\
    forall size, 0 <= size -> ramfs_read s' node size = (E_OK, Some (take (Z.to_nat size) buf)).
Proof.
  intros Hf Ha Hp. pose proof (write_spec s node d buf p h Hf Ha) as Hw.
  assert (Hh : v_heap (snd (ramfs_write s node buf)) = h).
  { destruct Hf as [(Hn0 & _ & Ht) (Ed & Hd0 & _) _]. unfold ramfs_write.
    rewrite (proj2 (Z.eqb_neq node 0) Hn0), (bool_decide_eq_true_2 _ Ht), Ed, (proj2 (Z.eqb_neq d 0) Hd0). cbn [orb negb].
    fold (release s (r_data (ram_at s d))). unfold kmalloc_s. rewrite Ha. by destruct (p =? 0). }
  destruct (ramfs_write s node buf) as [[e n] s'].
  destruct Hw as (W1 & W2 & W3 & W4 & W5). rewrite (proj2 (Z.eqb_neq p 0) Hp) in W3, W5. destruct W5 as (-> & -> & W6 & W7).
  destruct Hf as [(Hn0 & Hn1 & Ht) (Ed & Hd0 & Hd1) (Hs1 & Hs2)].
  assert (node_at s' node = set_size (Z.of_nat (length buf)) (node_at s node)) as En by (unfold node_at at 1; by rewrite W3).
  exists s'. split; [done|]. split; [by rewrite En|]. split; [done|]. intros size Hsz. unfold ramfs_read.
  rewrite (proj2 (Z.eqb_neq node 0) Hn0), En. cbn [n_type n_fs_data n_size set_size orb].
  rewrite (bool_decide_eq_true_2 _ Ht), Ed, (ram_at_Some _ _ _ W4). cbn [negb r_data set_data].
  rewrite (proj2 (Z.eqb_neq d 0) Hd0), (proj2 (Z.eqb_neq p 0) Hp). cbn [orb]. unfold blob_at. rewrite W6.
  change (default [] (Some buf)) with buf. do 2 f_equal. destruct (Z.ltb_spec size (Z.of_nat (length buf))); [done|].
  rewrite !take_ge; [done|lia|lia].
Qed.

(** C28. What is written is what is read.  Writing a buffer to a regular file,
    when the allocation for it succeeds, reports all bytes written; reading
    the file then returns the first [size] bytes of that buffer; and any file
    with its own node and data reads as before. *)
Theorem ramfs_write_read_roundtrip s (node d : Z) (buf : list Z) (p : Z) (h : A)
    (Hf : file_ok s node d)
    (Ha : kh_alloc (v_heap (release s (r_data (ram_at s d)))) (Z.of_nat (length buf)) = (p, h)) (Hp : p <> 0) :
  exists s', ramfs_write s node buf = (E_OK, Z.of_nat (length buf), s') /\
    (forall size, 0 <= size -> ramfs_read s' node size = (E_OK, Some (take (Z.to_nat size) buf))) /\
    (forall node2 d2 size, file_ok s node2 d2 -> node2 <> node -> d2 <> d ->
       node2 <> r_data (ram_at s d) -> d2 <> r_data (ram_at s d) ->
       r_data (ram_at s d2) <> p -> (r_data (ram_at s d2) <> r_data (ram_at s d) \/ r_data (ram_at s d2) = 0) ->
       ramfs_read s' node2 size = ramfs_read s node2 size).
Proof.
  destruct (write_read_same s node d buf p h Hf Ha Hp) as (s' & Hrun & _ & _ & Hread).
  pose proof (write_spec s node d buf p h Hf Ha) as Hw. rewrite Hrun in Hw.
  destruct Hw as (W1 & W2 & W3 & W4 & W5). rewrite (proj2 (Z.eqb_neq p 0) Hp) in W3, W5. destruct W5 as (_ & _ & W6 & W7).
  exists s'. split; [done|]. split; [done|].
  intros node2 d2 size [(Hm0 & Hm1 & Htm) (Edm & Hdm0 & Hdm1) _] N1 N2 N3 N4 N5 N6. unfold ramfs_read.
    assert (node_at s' node2 = node_at s node2) as En by (unfold node_at; by rewrite W1).
    assert (ram_at s' d2 = ram_at s d2) as Er by (unfold ram_at; by rewrite W2).
    rewrite En, Edm, Er. destruct (_ || _); [done|]. destruct (d2 =? 0); [done|]. cbn [orb].
    destruct (Z.eqb_spec (r_data (ram_at s d2)) 0) as [|Hnz]; [done|].
    unfold blob_at. rewrite W7; [done|done|]. destruct N6; [done|congruence].
Qed.
End directories.

(** Nothing can be truncated to zero length: with the kernel's heap, writing
    no bytes asks [kmalloc] for a block of size 0, which is refused, so the write
    fails with [E_NOMEM], and the old contents are already gone. *)
Theorem ramfs_empty_write_fails (s : vfs (heap Buddy.buddy)) (node d : Z) (Hf : file_ok s node d) :
  exists s', ramfs_write s node [] = (E_NOMEM, 0, s') /\
    forall size, ramfs_read s' node size = (E_OK, Some []).
Proof.
  assert (exists h, kh_alloc (v_heap (release s (r_data (ram_at s d)))) 0 = (0, h)) as [h Ha].
  { exists (v_heap (release s (r_data (ram_at s d)))). reflexivity. }
  pose proof (write_spec s node d [] 0 h Hf Ha) as Hw. destruct (ramfs_write s node []) as [[e n] s'].
  destruct Hw as (_ & _ & W3 & W4 & -> & ->). exists s'. split; [done|]. intros size. unfold ramfs_read.
  destruct Hf as [(Hn0 & Hn1 & Ht) (Ed & Hd0 & Hd1) _].
  assert (node_at s' node = set_size 0 (node_at s node)) as En by (unfold node_at at 1; by rewrite W3).
  rewrite (proj2 (Z.eqb_neq node 0) Hn0), En. cbn [n_type n_fs_data set_size orb].
  rewrite (bool_decide_eq_true_2 _ Ht), Ed, (ram_at_Some _ _ _ W4). cbn [negb r_data set_data].
  by rewrite orb_true_r.
Qed.

(** ** Deleting *)

Lemma exists_last_or_nil {B} (l : list B) : l = [] \/ exists l' y, l = l' ++ [y].
Proof. induction l as [|y l' _] using rev_ind; [by left|]. right. by exists l', y. Qed.

(** Bypassing the member after [y]. *)
Lemma sibs_unlink m p l1 y x l2 ry rx :
  sibs m p (l1 ++ y :: x :: l2) -> NoDup (l1 ++ y :: x :: l2) -> m !! y = Some ry -> m !! x = Some rx ->
  sibs (<[y := set_next_sibling (next_sibling rx) ry]> m) p (l1 ++ y :: l2).
Proof.
  intros Hs Hnd Hy Hx. revert p Hs Hnd. induction l1 as [|z l1 IH]; intros p Hs Hnd; cbn [app] in *.
  - destruct Hs as (-> & Hy0 & r & Hr & (_ & Hx0 & r' & Hr' & Hs)). assert (r' = rx) as -> by congruence.
    split; [done|]. split; [done|]. eexists. split; [apply lookup_insert_eq|]. cbn.
    apply (sibs_ext m); [|done]. intros z rz Hz Hrz. exists rz. split; [|done]. rewrite lookup_insert_ne; [done|].
    intros ->. apply NoDup_cons in Hnd as [Hnd _]. apply Hnd. apply elem_of_cons. by right.
  - destruct Hs as (-> & Hz0 & r & Hr & Hs). apply NoDup_cons in Hnd as [Hz Hnd]. split; [done|]. split; [done|].
    exists r. split; [|by apply IH]. rewrite lookup_insert_ne; [done|]. intros ->. apply Hz. set_solver.
Qed.

Section deletion.
Context {A : Type} `{KHeap A}.
Implicit Types s : vfs A.

Lemma ram_put_eq s q r : ram_at (put_ram s q r) q = r.
Proof. unfold ram_at. cbn. by rewrite lookup_insert_eq. Qed.

Lemma find_prev_spec fuel s p l1 y x l2 :
  sibs (rams s) p (l1 ++ y :: x :: l2) -> NoDup (l1 ++ y :: x :: l2) -> (length l1 < fuel)%nat -> find_prev fuel s p x = y.
Proof.
  revert p l1. induction fuel as [|fuel IH]; intros p l1 Hs Hnd Hf; [lia|]. destruct l1 as [|z l1]; cbn [app find_prev] in *.
  - destruct Hs as (-> & Hy0 & r & Hr & (E & _)). rewrite (proj2 (Z.eqb_neq y 0) Hy0), (ram_at_Some s y r Hr), E.
    by rewrite Z.eqb_refl.
  - destruct Hs as (-> & Hz0 & r & Hr & Hs). rewrite (proj2 (Z.eqb_neq z 0) Hz0), (ram_at_Some s z r Hr).
    apply NoDup_cons in Hnd as [Hz Hnd]. rewrite (proj2 (Z.eqb_neq _ _)).
    + apply (IH _ l1); [done|done|cbn in Hf; lia].
    + intros E. assert (next_sibling r = default 0 (head (l1 ++ [y]))) as E'.
      { destruct l1; by destruct Hs as (-> & _). }
      rewrite E in E'. assert (x ∈ l1 ++ [y]) as Hin.
      { rewrite E'. destruct l1; apply list_elem_of_here. }
      apply NoDup_app in Hnd as (_ & N2 & N3). apply NoDup_cons in N3 as [N3 _].
      apply elem_of_app in Hin as [Hin|Hin%list_elem_of_singleton].
      * apply (N2 x Hin). apply elem_of_cons. right. apply list_elem_of_here.
      * subst y. apply N3, list_elem_of_here.
Qed.

(** Freeing something else leaves a directory alone. *)
Lemma dir_ok_free s q p l :
  dir_ok s p l -> q <> p -> q <> n_fs_data (node_at s p) -> q ∉ l -> q ∉ (child_node s <$> l) ->
  dir_ok (kfree_s s q) p l /\ (forall x, x <> q -> node_at (kfree_s s q) x = node_at s x /\ ram_at (kfree_s s q) x = ram_at s x).
Proof.
  intros [(Hp0 & Hp1 & Ht) (Hd0 & Hd1) Hl Hnd Hns] Q1 Q2 Q3 Q4.
  assert (forall x, x <> q -> node_at (kfree_s s q) x = node_at s x /\ ram_at (kfree_s s q) x = ram_at s x) as Hat.
  { intros x Hx. unfold node_at, ram_at, kfree_s. cbn. by rewrite !lookup_delete_ne by congruence. }
  split; [|done]. destruct (Hat p ltac:(congruence)) as [Ep _].
  destruct (Hat (n_fs_data (node_at s p)) ltac:(congruence)) as [_ Ed]. split.
  - rewrite Ep. split; [done|]. split; [|done]. unfold kfree_s. cbn. by rewrite lookup_delete_ne by congruence.
  - rewrite Ep. split; [done|]. unfold kfree_s. cbn. by rewrite lookup_delete_ne by congruence.
  - rewrite Ep, Ed. apply (sibs_ext (rams s)); [|done]. intros x r Hx Hr. exists r. split; [|done].
    unfold kfree_s. cbn. rewrite lookup_delete_ne; [done|]. by intros ->.
  - done.
  - intros x Hx. assert (x <> q) as Hxq by (by intros ->). rewrite (proj2 (Hat x Hxq)). destruct (Hns x Hx) as [H1 H2].
    split; [done|]. unfold kfree_s. cbn. rewrite lookup_delete_ne; [done|].
    intros E. apply Q4, list_elem_of_fmap. by exists x.
Qed.

Definition unlinked s (parent_data x : Z) : vfs A :=
  if first_child (ram_at s parent_data) =? x then
    put_ram s parent_data (set_first_child (next_sibling (ram_at s x)) (ram_at s parent_data))
  else
    let prev := find_prev (ram_fuel s) s (first_child (ram_at s parent_data)) x in
    if negb (prev =? 0) then put_ram s prev (set_next_sibling (next_sibling (ram_at s x)) (ram_at s prev)) else s.

(** Unlinking takes the node out of its directory's list and changes no node. *)
Lemma ram_unlink_spec s parent l1 x l2 :
  dir_ok s parent (l1 ++ x :: l2) -> n_fs_data (node_at s parent) ∉ l1 ++ x :: l2 ->
  let s' := unlinked s (n_fs_data (node_at s parent)) x in
  dir_ok s' parent (l1 ++ l2) /\ nodes s' = nodes s /\ ram_at s' x = ram_at s x /\
  (forall y, r_vfs_node (ram_at s' y) = r_vfs_node (ram_at s y)) /\ (forall y, is_Some (rams s !! y) -> is_Some (rams s' !! y)).
Proof.
  intros Hd Hdn s'. pose proof (dir_fuel s parent _ Hd) as Hfuel.
  destruct Hd as [(Hp0 & Hp1 & Ht) (Hd0 & [rd Ed]) Hl Hnd Hns]. set (d := n_fs_data (node_at s parent)) in *.
  destruct (sibs_stored _ _ _ x Hl) as [Hx0 [rx Hrx]]; [set_solver|].
  assert (x <> d) as Hxd by set_solver.
  assert (exists q r, s' = put_ram s q r /\ q <> x /\ is_Some (rams s !! q) /\ r_vfs_node r = r_vfs_node (ram_at s q) /\
    sibs (<[q := r]> (rams s)) (first_child (ram_at (put_ram s q r) d)) (l1 ++ l2)) as (q & r & Es & Hqx & Hq & Hrv & Hsib).
  { unfold s', unlinked. destruct (exists_last_or_nil l1) as [->|(l1' & y & ->)].
    - cbn [app] in *. destruct Hl as (-> & _ & r0 & Hr0 & Hl). assert (r0 = rx) as -> by congruence. rewrite Z.eqb_refl.
      eexists d, _. split; [done|]. split; [done|]. split; [by eexists|]. split; [done|].
      rewrite ram_put_eq, (ram_at_Some s x rx Hrx). cbn [first_child set_first_child].
      apply (sibs_ext (rams s)); [|done]. intros z rz Hz Hrz. exists rz. split; [|done]. rewrite lookup_insert_ne; [done|set_solver].
    - rewrite <- app_assoc in Hl, Hnd, Hdn, Hfuel |- *. cbn [app] in *.
      destruct (sibs_stored _ _ _ y Hl) as [Hy0 [ry Hry]]; [set_solver|].
      assert (first_child (ram_at s d) <> x) as Hfc.
      { assert (first_child (ram_at s d) = default 0 (head (l1' ++ [y]))) as -> by (destruct l1'; by destruct Hl as (-> & _)).
        apply NoDup_app in Hnd as (_ & N2 & N3). apply NoDup_cons in N3 as [N3 _].
        destruct l1' as [|z l1']; cbn; [set_solver|]. intros ->. apply (N2 x); set_solver. }
      rewrite (proj2 (Z.eqb_neq _ _) Hfc).
      rewrite (find_prev_spec (ram_fuel s) s _ l1' y x l2 Hl Hnd) by (rewrite !length_app in Hfuel; cbn in Hfuel; lia).
      rewrite (proj2 (Z.eqb_neq y 0) Hy0). cbn [negb]. eexists y, _. split; [done|].
      split; [apply NoDup_app in Hnd as (_ & _ & N3); apply NoDup_cons in N3 as [N3 _]; set_solver|].
      split; [by eexists|]. split; [done|]. rewrite (ram_at_Some s x rx Hrx), (ram_at_Some s y ry Hry).
      assert (ram_at (put_ram s y (set_next_sibling (next_sibling rx) ry)) d = ram_at s d) as ->.
      { unfold ram_at. cbn. rewrite lookup_insert_ne; [done|set_solver]. }
      by apply (sibs_unlink _ _ l1' y x l2). }
  clearbody s'. subst s'.
  assert (forall y, r_vfs_node (ram_at (put_ram s q r) y) = r_vfs_node (ram_at s y)) as Hv.
  { intros y. unfold ram_at at 1. cbn. destruct (decide (q = y)) as [->|]; [by rewrite lookup_insert_eq|by rewrite lookup_insert_ne]. }
  assert (forall y, is_Some (rams s !! y) -> is_Some (rams (put_ram s q r) !! y)) as Hst.
  { intros y Hy. cbn. destruct (decide (q = y)) as [->|]; [rewrite lookup_insert_eq; by eexists|by rewrite lookup_insert_ne]. }
  split_and!; try done; [|unfold ram_at; cbn; by rewrite lookup_insert_ne].
  split; try done.
  - change (node_at (put_ram s q r) parent) with (node_at s parent). fold d. split; [done|]. apply Hst. by eexists.
  - apply NoDup_app in Hnd as (N1 & N2 & N3). apply NoDup_cons in N3 as [N3 N4]. apply NoDup_app. split_and!; [done| |done].
    intros z Hz Hz2. apply (N2 z Hz). apply elem_of_cons. by right.
  - intros y Hy. rewrite Hv. apply Hns. set_solver.
Qed.

(** The node of [x] hangs in the directory [parent], and its three addresses
    are not used for anything else there. *)
Record in_dir s (parent : Z) (l1 : list Z) (x : Z) (l2 : list Z) : Prop := {
  id_dir : dir_ok s parent (l1 ++ x :: l2);
  id_data : n_fs_data (node_at s parent) ∉ l1 ++ x :: l2;
  id_links : n_parent (node_at s (child_node s x)) = parent /\ n_fs_data (node_at s (child_node s x)) = x;
  id_sep : forall a, a = child_node s x \/ a = x \/ a = r_data (ram_at s x) /\ a <> 0 ->
    a <> parent /\ a <> n_fs_data (node_at s parent) /\ (a ∉ l1 ++ l2) /\ (a ∉ (child_node s <$> (l1 ++ l2)));
  id_blob : r_data (ram_at s x) <> x /\ r_data (ram_at s x) <> child_node s x;
}.

Lemma release_dir s q p l :
  dir_ok s p l ->
  (q <> 0 -> q <> p /\ q <> n_fs_data (node_at s p) /\ (q ∉ l) /\ (q ∉ (child_node s <$> l))) ->
  dir_ok (release s q) p l /\ (forall x, x <> q -> node_at (release s q) x = node_at s x /\ ram_at (release s q) x = ram_at s x).
Proof.
  intros Hd Hq. unfold release. destruct (Z.eqb_spec q 0) as [|Hq0]; cbn [negb]; [done|].
  destruct (Hq Hq0) as (Q1 & Q2 & Q3 & Q4). by apply dir_ok_free.
Qed.

Lemma child_nodes_ext s s' (l : list Z) :
  (forall x, x ∈ l -> ram_at s' x = ram_at s x) -> (child_node s' <$> l) = (child_node s <$> l).
Proof. intros Hx. apply list_fmap_ext. intros i x Hi. unfold child_node. rewrite Hx; [done|]. by eapply list_elem_of_lookup_2. Qed.

(** Deleting.  A node that hangs in a directory is taken out of its list,
    the other children stay in order, and its VFS node and ramfs node are
    freed.  No other node is touched: the children of a deleted directory
    stay allocated, with a parent pointer to freed memory. *)
Theorem ramfs_delete_correct s (parent : Z) (l1 l2 : list Z) (x : Z) (Hin : in_dir s parent l1 x l2) :
  exists s', ramfs_node_delete s (child_node s x) = (E_OK, s') /\
    dir_ok s' parent (l1 ++ l2) /\ (child_node s' <$> (l1 ++ l2)) = (child_node s <$> (l1 ++ l2)) /\
    nodes s' !! child_node s x = None /\ rams s' !! x = None /\
    (forall q, q <> child_node s x -> q <> x -> q <> r_data (ram_at s x) -> nodes s' !! q = nodes s !! q).
Proof.
  destruct Hin as [Hd Hdn [Hpar Hfd] Hsep [Hb1 Hb2]].
  destruct (ram_unlink_spec s parent l1 x l2 Hd Hdn) as (U1 & U2 & U3 & U4 & U5). cbv zeta in *.
  pose proof (do_node s parent _ Hd) as (Hp0 & _). pose proof (do_data s parent _ Hd) as (Hd0 & _).
  destruct (sibs_stored _ _ _ x (do_list s parent _ Hd)) as [Hx0 _]; [set_solver|].
  destruct (do_nodes s parent _ Hd x) as [Hn0 _]; [set_solver|]. fold (child_node s x) in Hn0.
  unfold ramfs_node_delete. rewrite Hpar, Hfd, (proj2 (Z.eqb_neq _ 0) Hn0), (proj2 (Z.eqb_neq _ 0) Hp0),
    (proj2 (Z.eqb_neq _ 0) Hd0), (proj2 (Z.eqb_neq _ 0) Hx0). cbn [orb].
  fold (unlinked s (n_fs_data (node_at s parent)) x). set (s1 := unlinked s (n_fs_data (node_at s parent)) x) in *.
  rewrite U3. fold (release s1 (r_data (ram_at s x))). set (dt := r_data (ram_at s x)) in *. set (nd := child_node s x) in *.
  assert (forall y, node_at s1 y = node_at s y) as Hn1 by (intros y; unfold node_at; by rewrite U2).
  assert ((child_node s1 <$> (l1 ++ l2)) = (child_node s <$> (l1 ++ l2))) as Ec1.
  { apply list_fmap_ext. intros i y _. apply U4. }
  destruct (release_dir s1 dt parent (l1 ++ l2) U1) as [D2 A2].
  { intros Hdt. rewrite Hn1, Ec1. apply (Hsep dt). by right; right. }
  set (s2 := release s1 dt) in *.
  assert (forall z, z = nd \/ z = x -> z <> parent /\ z <> n_fs_data (node_at s parent) /\ (z ∉ l1 ++ l2) /\
    (z ∉ (child_node s <$> (l1 ++ l2)))) as Hz by (intros z [->| ->]; apply Hsep; tauto).
  assert (dt = 0 \/ dt <> parent /\ (dt ∉ l1 ++ l2)) as Hdt.
  { destruct (decide (dt = 0)) as [|Hnz]; [by left|right]. destruct (Hsep dt) as (? & _ & ? & _); [by right; right|done]. }
  assert (node_at s2 parent = node_at s parent) as En2.
  { rewrite <- Hn1. apply A2. destruct Hdt as [->|[? _]]; congruence. }
  assert ((child_node s2 <$> (l1 ++ l2)) = (child_node s <$> (l1 ++ l2))) as Ec2.
  { rewrite <- Ec1. apply child_nodes_ext. intros y Hy. apply A2. intros ->.
    destruct Hdt as [E|[_ ?]]; [|done]. destruct (sibs_stored _ _ _ dt (do_list s1 parent _ U1) Hy) as [? _]. done. }
  destruct (Hz x ltac:(tauto)) as (X1 & X2 & X3 & X4). destruct (Hz nd ltac:(tauto)) as (N1 & N2 & N3 & N4).
  destruct (dir_ok_free s2 x parent (l1 ++ l2) D2) as [D3 A3]; [done|by rewrite En2|done|by rewrite Ec2|].
  set (s3 := kfree_s s2 x) in *.
  assert ((child_node s3 <$> (l1 ++ l2)) = (child_node s <$> (l1 ++ l2))) as Ec3.
  { rewrite <- Ec2. apply child_nodes_ext. intros y Hy. apply A3. by intros ->. }
  assert (node_at s3 parent = node_at s parent) as En3 by (rewrite <- En2; apply A3; congruence).
  destruct (dir_ok_free s3 nd parent (l1 ++ l2) D3) as [D4 A4]; [done|by rewrite En3|done|by rewrite Ec3|].
  exists (kfree_s s3 nd). split; [done|]. split; [done|]. split.
  { rewrite <- Ec3. apply child_nodes_ext. intros y Hy. apply A4. by intros ->. }
  split; [unfold kfree_s; cbn; by rewrite lookup_delete_eq|]. split.
  - unfold kfree_s at 1. cbn. destruct (decide (nd = x)) as [->|]; [by rewrite lookup_delete_eq|].
    rewrite lookup_delete_ne by done. unfold s3, kfree_s. cbn. by rewrite lookup_delete_eq.
  - intros q Q1 Q2 Q3. unfold s3, kfree_s. cbn. rewrite !lookup_delete_ne by congruence.
    unfold s2. rewrite (proj1 (release_lookup s1 dt q Q3)). by rewrite U2.
Qed.
End deletion.

(** ** A file system on the kernel's heap *)

(** [ramfs_create_fs], [ramfs_mount], then one file in the root directory. *)
Definition fs0 : vfs (heap Buddy.buddy) := mkVfs ∅ ∅ ∅ ∅ (replicate 8 (mkMount [] 0 false)) 0 boot_heap.
Definition fs1 : vfs (heap Buddy.buddy) := snd (ramfs_create_fs fs0).
Definition fs_ptr : Z := snd (fst (ramfs_create_fs fs0)).
Definition fs2 : vfs (heap Buddy.buddy) := snd (ramfs_mount fs1 fs_ptr).
Definition root2 : Z := f_root (fs_at fs2 fs_ptr).
Definition alloc1 : Z * heap Buddy.buddy := kh_alloc (v_heap fs2) sizeof_vfs_node.
Definition alloc2 : Z * heap Buddy.buddy := kh_alloc (snd alloc1) sizeof_ramfs_node.
Definition fs3 : vfs (heap Buddy.buddy) := snd (ramfs_node_create fs2 root2 (str "a") FILE_TYPE_REGULAR).
Definition file3 : Z := fst alloc1.
Definition ram3 : Z := fst alloc2.
Definition alloc3 : Z * heap Buddy.buddy := kh_alloc (v_heap (release fs3 (r_data (ram_at fs3 ram3)))) 5.

Lemma fs2_dir : dir_ok fs2 root2 [].
Proof.
  split.
  - vm_compute. split; [discriminate|]. split; [by eexists|reflexivity].
  - vm_compute. split; [discriminate|by eexists].
  - vm_compute. reflexivity.
  - constructor.
  - intros x Hx. by apply elem_of_nil in Hx.
Qed.

Lemma alloc_ptrs : fst alloc1 <> 0 /\ fst alloc2 <> 0 /\ fst alloc3 <> 0 /\
  nodes fs2 !! fst alloc1 = None /\ rams fs2 !! fst alloc2 = None.
Proof. vm_compute. split_and!; try discriminate; reflexivity. Qed.

Lemma ramfs_create_correct_witness :
  exists s', ramfs_node_create fs2 root2 (str "a") FILE_TYPE_REGULAR = (E_OK, fst alloc1, s') /\ dir_ok s' root2 [fst alloc2].
Proof.
  destruct alloc_ptrs as (P1 & P2 & _ & F1 & F2).
  destruct (ramfs_create_correct fs2 root2 [] (str "a") FILE_TYPE_REGULAR (fst alloc1) (fst alloc2) (snd alloc1) (snd alloc2)
    fs2_dir (not_elem_of_nil _) (surjective_pairing _) (surjective_pairing _) P1 P2 F1 F2) as (s' & E & D & _).
  exists s'. exact (conj E D).
Defined.

Lemma fs3_file : file_ok fs3 file3 ram3.
Proof.
  split; vm_compute.
  - split; [discriminate|]. split; [by eexists|reflexivity].
  - split; [reflexivity|]. split; [discriminate|by eexists].
  - split; discriminate.
Qed.

Lemma ramfs_write_read_roundtrip_witness :
  exists s', ramfs_write fs3 file3 (str "hello") = (E_OK, 5, s') /\
    ramfs_read s' file3 512 = (E_OK, Some (take 512 (str "hello"))).
Proof.
  destruct alloc_ptrs as (_ & _ & P3 & _).
  destruct (ramfs_write_read_roundtrip fs3 file3 ram3 (str "hello") (fst alloc3) (snd alloc3) fs3_file (surjective_pairing _) P3)
    as (s' & E & R & _).
  exists s'. split; [exact E|]. exact (R 512 ltac:(lia)).
Defined.

Lemma ramfs_empty_write_fails_witness : exists s', ramfs_write fs3 file3 [] = (E_NOMEM, 0, s').
Proof. destruct (ramfs_empty_write_fails fs3 file3 ram3 fs3_file) as (s' & E & _). exists s'. exact E. Defined.

Lemma fs3_in_dir : in_dir fs3 root2 [] ram3 [].
Proof.
  split.
  - split.
    + vm_compute. split; [discriminate|]. split; [by eexists|reflexivity].
    + vm_compute. split; [discriminate|by eexists].
    + vm_compute. split; [reflexivity|]. split; [discriminate|]. eexists. split; reflexivity.
    + apply NoDup_singleton.
    + intros x Hx. apply list_elem_of_singleton in Hx as ->. vm_compute. split; [discriminate|by eexists].
  - intros Hx. apply list_elem_of_singleton in Hx. revert Hx. vm_compute. discriminate.
  - vm_compute. split; reflexivity.
  - intros a Ha. assert (a <> root2 /\ a <> n_fs_data (node_at fs3 root2)) as [H1 H2].
    { destruct Ha as [->|[->|[-> _]]]; vm_compute; split; discriminate. }
    split; [exact H1|]. split; [exact H2|]. split; apply not_elem_of_nil.
  - vm_compute. split; discriminate.
Qed.

Lemma ramfs_delete_correct_witness :
  exists s', ramfs_node_delete fs3 (child_node fs3 ram3) = (E_OK, s') /\ dir_ok s' root2 [].
Proof.
  destruct (ramfs_delete_correct fs3 root2 [] [] ram3 fs3_in_dir) as (s' & E & D & _). exists s'. exact (conj E D).
Defined.
