(* ===== verification/Vfs.v ===== *)
(** * Virtual file system layer: fs/vfs.c

    The layer keeps the mount table and the root node and passes each request to
    the operations of the node found.  Where the source has undefined behaviour
    the model makes it visible: [vfs_dirname] takes the value that its
    uninitialised loop variable happens to hold, and a path that does not fit
    the 256-byte copy makes [vfs_resolve_path] give [None].  [vfs_list] and
    [vfs_print_tree] only print and are not modelled. *)

From S2P Require Import Prelude Errno Buddy Slab SlabThms Kmalloc Task TaskThms Ramfs.

Definition SLASH : Z := 47.

Section vfs.
Context {A : Type} `{KHeap A}.
Implicit Types s : vfs A.

Definition no_mount : mount_point_t := mkMount [] 0 false.
Definition mount_at s (i : Z) : mount_point_t := default no_mount (mount_table s !! Z.to_nat i).

Definition vfs_init s : kerr_t * vfs A :=
  let s := for_range 0 MAX_MOUNTS
    (fun i s => with_mounts s (updz (mount_table s) i (mkMount (m_path (mount_at s i)) 0 false))) s in
  (E_OK, with_root s 0).

Definition vfs_mount s (fs : Z) (path : list Z) : kerr_t * vfs A :=
  if fs =? 0 then (E_INVALID, s)
  else match find_range 0 MAX_MOUNTS (fun i => negb (in_use (mount_at s i))) with
  | None => (E_NOMEM, s)
  | Some slot =>
      if f_mount (fs_at s fs) =? 0 then (E_INVALID, s)
      else
        let '(err, s) := ramfs_mount s fs in
        if negb (is_ok err) then (err, s)
        else
          let s := with_mounts s (updz (mount_table s) slot (mkMount path fs true)) in
          if bool_decide (path = [SLASH]) then (E_OK, with_root s (f_root (fs_at s fs))) else (E_OK, s)
  end.

Definition vfs_unmount s (path : list Z) : kerr_t * vfs A :=
  match find_range 0 MAX_MOUNTS (fun i => in_use (mount_at s i) && bool_decide (path = m_path (mount_at s i))) with
  | None => (E_NOTFOUND, s)
  | Some i =>
      let fs := m_fs (mount_at s i) in
      if f_unmount (fs_at s fs) =? 0 then (E_NOTFOUND, s)
      else
        let '(err, s) := ramfs_unmount s fs in
        if negb (is_ok err) then (err, s)
        else (E_OK, with_mounts s (updz (mount_table s) i (mkMount (m_path (mount_at s i)) 0 false)))
  end.

(** The first mount whose path is a prefix of the given one. *)
Definition vfs_get_fs_for_path s (path : list Z) : Z :=
  match find_range 0 MAX_MOUNTS (fun i =>
    in_use (mount_at s i) && bool_decide (take (length (m_path (mount_at s i))) path = m_path (mount_at s i))) with
  | None => 0
  | Some i => m_fs (mount_at s i)
  end.

(** [node->ops->readdir]; a null table has none. *)
Definition op_readdir s (node : Z) (index : nat) : option (kerr_t * Z) :=
  if n_ops (node_at s node) =? 0 then None else Some (ramfs_readdir s node index).

(** The inner search loop of [vfs_resolve_path], from entry [index] on; [None]
    when no child has the name. *)
Fixpoint find_child (fuel : nat) s (current : Z) (index : nat) (component : list Z) : option Z :=
  match fuel with
  | O => None
  | S fuel' =>
      match ramfs_readdir s current index with
      | (E_OK, child) =>
          if negb (child =? 0) && bool_decide (n_name (node_at s child) = component) then Some child
          else find_child fuel' s current (S index) component
      | _ => None
      end
  end.

(** Characters up to the next slash, and from it on. *)
Fixpoint split_slash (l : list Z) : list Z * list Z :=
  match l with
  | [] => ([], [])
  | c :: l' => if c =? SLASH then ([], l) else let '(a, b) := split_slash l' in (c :: a, b)
  end.

(** The outer loop; [fuel] is the number of characters left plus one. *)
Fixpoint resolve_loop (fuel : nat) s (current : Z) (component : list Z) : Z :=
  match fuel with
  | O => 0
  | S fuel' =>
      match component with
      | [] => current
      | _ =>
          let '(name, rest) := split_slash component in
          if n_ops (node_at s current) =? 0 then 0
          else match find_child (ram_fuel s) s current 0 name with
          | None => 0
          | Some child =>
              match rest with
              | [] => child
              | _ :: rest' => resolve_loop fuel' s child rest'
              end
          end
      end
  end.

Definition skip_slash (path : list Z) : list Z :=
  match path with c :: l => if c =? SLASH then l else path | [] => [] end.

Definition vfs_resolve_path s (path : list Z) : option Z :=
  if vfs_root s =? 0 then Some 0
  else if bool_decide (path = [SLASH]) then Some (vfs_root s)
  else if MAX_PATH <=? Z.of_nat (length path) then None
  else Some (resolve_loop (S (length path)) s (vfs_root s) (skip_slash path)).

Fixpoint basename_loop (p last_slash : list Z) : list Z :=
  match p with
  | [] => last_slash
  | c :: p' => basename_loop p' (if c =? SLASH then p' else last_slash)
  end.
Definition vfs_basename (path : list Z) : list Z := basename_loop path path.

(** [i0] is what the uninitialised [i] holds. *)
Definition vfs_dirname (i0 : Z) (path : list Z) : list Z :=
  let last_slash := for_range i0 (Z.of_nat (length path))
    (fun i last => if nthz path i =? SLASH then i else last) 0 in
  if last_slash =? 0 then [SLASH] else take (Z.to_nat last_slash) path.

Definition vfs_open s (path : list Z) : option Z := vfs_resolve_path s path.

Definition vfs_close s (node : Z) : kerr_t :=
  if (node =? 0) || (n_ops (node_at s node) =? 0) then E_OK else ramfs_close s node.

Definition vfs_read s (node size : Z) : kerr_t * option (list Z) :=
  if (node =? 0) || (n_ops (node_at s node) =? 0) then (E_INVALID, None) else ramfs_read s node size.

Definition vfs_write s (node : Z) (buffer : list Z) : kerr_t * Z * vfs A :=
  if (node =? 0) || (n_ops (node_at s node) =? 0) then (E_INVALID, 0, s) else ramfs_write s node buffer.

(** The outer [option] is [None] when a path overflows its copy. *)
Definition vfs_create_file (i0 : Z) s (path : list Z) : option (kerr_t * vfs A) :=
  match vfs_resolve_path s (vfs_dirname i0 path) with
  | None => None
  | Some parent =>
      if parent =? 0 then Some (E_INVALID, s)
      else if n_ops (node_at s parent) =? 0 then Some (E_NOTFOUND, s)
      else let '(e, _, s) := ramfs_node_create s parent (vfs_basename path) FILE_TYPE_REGULAR in Some (e, s)
  end.

Definition vfs_create_directory (i0 : Z) s (path : list Z) : option (kerr_t * vfs A) :=
  match vfs_resolve_path s (vfs_dirname i0 path) with
  | None => None
  | Some parent =>
      if (parent =? 0) || (n_ops (node_at s parent) =? 0) then Some (E_INVALID, s)
      else let '(e, _, s) := ramfs_node_create s parent (vfs_basename path) FILE_TYPE_DIRECTORY in Some (e, s)
  end.

Definition vfs_delete s (path : list Z) : option (kerr_t * vfs A) :=
  match vfs_resolve_path s path with
  | None => None
  | Some node =>
      if (node =? 0) || (n_ops (node_at s node) =? 0) then Some (E_INVALID, s)
      else Some (ramfs_node_delete s node)
  end.

(** The memory image of a ramfs node: its four pointers, little endian. *)
Definition le64 (x : Z) : list Z := (fun i => Z.land (Z.shiftr x (8 * i)) 255) <$> seqZ 0 8.
Definition ram_bytes (r : ramfs_node_t) : list Z :=
  le64 (r_vfs_node r) ++ le64 (r_data r) ++ le64 (first_child r) ++ le64 (next_sibling r).

(** The buffer written is [src->fs_data], the ramfs node itself; [beyond] is
    what lies in memory after it. *)
Definition vfs_copy_file (i0 : Z) (beyond : list Z) s (dest source : list Z) : option (kerr_t * vfs A) :=
  match vfs_open s source with
  | None => None
  | Some src =>
      if (src =? 0) || negb (bool_decide (n_type (node_at s src) = FILE_TYPE_REGULAR)) then Some (E_INVALID, s)
      else
        match vfs_create_file i0 s dest with
        | None => None
        | Some (err, s) =>
            match err with
            | E_OK | E_EXISTS =>
                match vfs_open s dest with
                | None => None
                | Some dst =>
                    if dst =? 0 then Some (E_NOTFOUND, s)
                    else
                      let image := ram_bytes (ram_at s (n_fs_data (node_at s src))) ++ beyond in
                      let '(e, _, s) := vfs_write s dst (take (Z.to_nat (n_size (node_at s src))) image) in
                      Some (e, s)
                end
            | _ => Some (err, s)
            end
        end
  end.
End vfs.

(** ** Path splitting *)

Lemma split_slash_app name rest : SLASH ∉ name -> split_slash (name ++ SLASH :: rest) = (name, SLASH :: rest).
Proof.
  induction name as [|c name IH]; intros Hn; cbn; [done|]. apply not_elem_of_cons in Hn as [Hc Hn].
  rewrite (proj2 (Z.eqb_neq c SLASH)) by congruence. by rewrite IH.
Qed.

Lemma split_slash_end name : SLASH ∉ name -> split_slash name = (name, []).
Proof.
  induction name as [|c name IH]; intros Hn; cbn; [done|]. apply not_elem_of_cons in Hn as [Hc Hn].
  rewrite (proj2 (Z.eqb_neq c SLASH)) by congruence. by rewrite IH.
Qed.

Lemma basename_plain p last : SLASH ∉ p -> basename_loop p last = last.
Proof.
  revert last. induction p as [|c p IH]; intros last Hp; cbn; [done|]. apply not_elem_of_cons in Hp as [Hc Hp].
  rewrite (proj2 (Z.eqb_neq c SLASH)) by congruence. by apply IH.
Qed.

Lemma basename_split dir name last : SLASH ∉ name -> basename_loop (dir ++ SLASH :: name) last = name.
Proof. revert last. induction dir as [|c dir IH]; intros last Hn; cbn; [by apply basename_plain|by apply IH]. Qed.

Lemma nthz_mid dir c name : nthz (dir ++ c :: name) (Z.of_nat (length dir)) = c.
Proof. unfold nthz. rewrite Nat2Z.id, lookup_app_r, Nat.sub_diag by lia. done. Qed.

Lemma nthz_after dir c name i :
  SLASH ∉ name -> Z.of_nat (length dir) < i < Z.of_nat (length (dir ++ c :: name)) -> nthz (dir ++ c :: name) i <> SLASH.
Proof.
  intros Hn Hi. unfold nthz. rewrite length_app in Hi. cbn in Hi.
  rewrite lookup_app_r by lia. destruct (Z.to_nat i - length dir)%nat as [|k] eqn:E; [lia|]. cbn [lookup list_lookup].
  destruct (name !! k) as [x|] eqn:Ek; [|apply lookup_ge_None in Ek; lia]. change (default 0 (Some x)) with x.
  intros ->. apply Hn. by eapply list_elem_of_lookup_2.
Qed.

(** The loop finds the last slash, if it starts at or before it. *)
Lemma dirname_scan dir name i0 :
  SLASH ∉ name -> 0 <= i0 ->
  for_range i0 (Z.of_nat (length (dir ++ SLASH :: name))) (fun i last => if nthz (dir ++ SLASH :: name) i =? SLASH then i else last) 0
  = if i0 <=? Z.of_nat (length dir) then Z.of_nat (length dir) else 0.
Proof.
  intros Hn Hi. set (path := dir ++ SLASH :: name). set (n := Z.of_nat (length dir)).
  assert (n < Z.of_nat (length path)) as Hlen by (unfold n, path; rewrite length_app; cbn; lia).
  destruct (Z.leb_spec i0 n) as [Hle|Hgt].
  - apply (for_range_ind (fun i last => n < i -> last = n)); [lia| |lia|done].
    intros i last Hir IH Hlt. destruct (decide (i = n)) as [->|Hne]; [unfold path, n; by rewrite nthz_mid, Z.eqb_refl|].
    rewrite (proj2 (Z.eqb_neq _ _)); [apply IH; lia|]. apply nthz_after; [done|]. unfold n, path in *. lia.
  - destruct (decide (i0 <= Z.of_nat (length path))) as [Hr|Hr]; [|by rewrite for_range_empty by lia].
    apply (for_range_ind (fun i last => last = 0)); [done| |done].
    intros i last Hir ->. rewrite (proj2 (Z.eqb_neq _ _)); [done|]. apply nthz_after; [done|]. unfold n, path in *. lia.
Qed.

(** Splitting a path.  For a path made of a directory part, a slash and a
    slash-free name, [vfs_basename] gives the name, and [vfs_dirname] gives the
    directory part, or the root if that is empty, provided its uninitialised
    loop variable happens to hold a value not beyond the last slash; for any
    larger value it gives the root whatever the path is. *)
Theorem vfs_path_split (dir name : list Z) (i0 : Z) (Hn : SLASH ∉ name) (Hi : 0 <= i0) :
  vfs_basename (dir ++ SLASH :: name) = name /\
  vfs_dirname i0 (dir ++ SLASH :: name) =
    if (i0 <=? Z.of_nat (length dir)) && negb (bool_decide (dir = [])) then dir else [SLASH].
Proof.
  split; [by apply basename_split|]. unfold vfs_dirname. rewrite dirname_scan by done.
  destruct (Z.leb_spec i0 (Z.of_nat (length dir))) as [Hle|Hgt]; cbn [andb]; [|done].
  destruct dir as [|c dir]; [done|]. rewrite bool_decide_eq_false_2 by done. cbn [negb].
  rewrite (proj2 (Z.eqb_neq _ 0)) by (cbn; lia). by rewrite Nat2Z.id, take_app_length.
Qed.

Lemma vfs_path_split_witness : vfs_basename (str "/etc/motd") = str "motd" /\ vfs_dirname 0 (str "/etc/motd") = str "/etc".
Proof. exact (vfs_path_split (str "/etc") (str "motd") 0 ltac:(by apply (bool_decide_unpack _)) ltac:(lia)). Defined.

(** ** Path resolution *)

Section resolution.
Context {A : Type} `{KHeap A}.
Implicit Types s : vfs A.

(** The child of that name in a directory with children [l]. *)
Definition child_named s (l : list Z) (name : list Z) : option Z :=
  match list_find (fun x => child_name s x = name) l with Some (_, x) => Some (child_node s x) | None => None end.

Lemma find_child_from fuel s p l i name :
  dir_ok s p l -> (length l < fuel + i)%nat -> find_child fuel s p i name = child_named s (drop i l) name.
Proof.
  intros Hd. revert i. induction fuel as [|fuel IH]; intros i Hf; cbn [find_child].
  { rewrite drop_ge by lia. done. }
  rewrite (readdir_spec s p l i Hd). destruct (l !! i) as [x|] eqn:E; cbn [fst snd].
  - rewrite (drop_S l x i E). unfold child_named. cbn [list_find].
    destruct (do_nodes s p l Hd x) as [Hx0 _]; [by eapply list_elem_of_lookup_2|]. fold (child_node s x) in Hx0.
    rewrite (proj2 (Z.eqb_neq _ 0) Hx0). cbn [negb andb]. fold (child_name s x).
    destruct (decide (child_name s x = name)) as [En|En]; [by rewrite bool_decide_eq_true_2|].
    rewrite bool_decide_eq_false_2 by done. rewrite IH by lia. unfold child_named.
    by destruct (list_find _ (drop (S i) l)) as [[k y]|].
  - rewrite drop_ge; [done|]. by apply lookup_ge_None in E.
Qed.

(** The search loop terminates and finds the newest child of the name. *)
Lemma find_child_spec s p l name : dir_ok s p l -> find_child (ram_fuel s) s p 0 name = child_named s l name.
Proof.
  intros Hd. rewrite (find_child_from _ s p l 0 name Hd); [done|]. pose proof (dir_fuel s p l Hd). lia.
Qed.

(** [walk s p names q]: from directory [p] the names lead to node [q]. *)
Inductive walk s : Z -> list (list Z) -> Z -> Prop :=
| walk_nil p : walk s p [] p
| walk_cons p l name c names q :
    dir_ok s p l -> n_ops (node_at s p) <> 0 -> child_named s l name = Some c -> walk s c names q ->
    walk s p (name :: names) q.

Fixpoint join (names : list (list Z)) : list Z :=
  match names with
  | [] => []
  | [name] => name
  | name :: rest => name ++ SLASH :: join rest
  end.

Definition component_ok (name : list Z) : Prop := name <> [] /\ (SLASH ∉ name).

Lemma resolve_loop_walk fuel s p names q :
  walk s p names q -> Forall component_ok names -> (length (join names) < fuel)%nat ->
  resolve_loop fuel s p (join names) = q.
Proof.
  intros Hw. revert fuel. induction Hw as [p|p l name c names q Hd Ho Hc Hw IH]; intros fuel Hok Hf;
    (destruct fuel as [|fuel]; [lia|]); [done|].
  apply Forall_cons in Hok as [[Hne Hns] Hok].
  assert (exists ch rest, join (name :: names) = ch :: rest) as (ch & rest & Ej).
  { destruct name as [|ch name]; [done|]. destruct names; by eexists _, _. }
  cbn [resolve_loop]. rewrite Ej, <- Ej.
  assert (split_slash (join (name :: names)) = (name, match names with [] => [] | _ => SLASH :: join names end)) as ->.
  { destruct names; [by apply split_slash_end|by apply split_slash_app]. }
  rewrite (proj2 (Z.eqb_neq _ 0) Ho), (find_child_spec s p l name Hd), Hc.
  destruct names as [|n2 names]; [by inversion Hw|].
  apply IH; [done|]. change (join (name :: n2 :: names)) with (name ++ SLASH :: join (n2 :: names)) in Hf.
  rewrite length_app in Hf. cbn [length] in Hf. lia.
Qed.

(** C35. Path resolution follows the tree.  If the names of an absolute path lead
    from the root through directories to a node, each name being that of the
    newest child with it, then [vfs_resolve_path] terminates and returns that
    node, for every path shorter than 256 characters. *)
Theorem vfs_resolve_path_walks s (names : list (list Z)) (q : Z)
    (Hroot : vfs_root s <> 0) (Hw : walk s (vfs_root s) names q) (Hne : names <> [])
    (Hok : Forall component_ok names) (Hlen : Z.of_nat (S (length (join names))) < MAX_PATH) :
  vfs_resolve_path s (SLASH :: join names) = Some q.
Proof.
  unfold vfs_resolve_path. rewrite (proj2 (Z.eqb_neq _ 0) Hroot).
  rewrite bool_decide_eq_false_2.
  - rewrite (proj2 (Z.leb_gt _ _)) by (cbn [length]; lia). f_equal. cbn [skip_slash length].
    apply resolve_loop_walk; [done|done|lia].
  - intros [= E]. destruct names as [|n names]; [done|]. apply Forall_cons in Hok as [[Hn _] _].
    destruct n; [done|]. destruct names; done.
Qed.

(** Unmounting leaves the root pointer: whatever is unmounted, [vfs_root]
    keeps its value, also when the file system it belongs to has been freed. *)
Theorem vfs_unmount_keeps_root s (path : list Z) : vfs_root (snd (vfs_unmount s path)) = vfs_root s.
Proof.
  assert (forall fuel s n, vfs_root (ramfs_free_node_recursive fuel s n) = vfs_root s) as Hfree.
  { induction fuel as [|fuel IH]; intros s0 n; cbn [ramfs_free_node_recursive]; [done|].
    destruct (n =? 0); [done|].
    assert (forall k s1 c, vfs_root ((fix children (fuel0 : nat) (s : vfs A) (child : Z) : vfs A :=
        match fuel0 with
        | O => s
        | S fuel2 => if child =? 0 then s
                     else children fuel2 (ramfs_free_node_recursive fuel s child) (next_sibling (ram_at s child))
        end) k s1 c) = vfs_root s1) as Hch.
    { induction k as [|k IHk]; intros s1 c; [done|]. destruct (c =? 0) eqn:Ec; [done|]. rewrite IHk. apply IH. }
    unfold kfree_s. cbn. repeat case_match; cbn; rewrite ?Hch; done. }
  unfold vfs_unmount. destruct (find_range _ _ _) as [i|]; [|done]. destruct (_ =? 0); [done|].
  unfold ramfs_unmount. destruct (_ || _); [reflexivity|].
  cbn [is_ok negb snd vfs_root with_mounts put_fs with_fss]. case_match; [apply Hfree|reflexivity].
Qed.
End resolution.

(** ** The kernel's root file system *)

(** As [kernel_main] does: a RAM file system mounted at the root, then a file. *)
Definition boot_vfs : vfs (heap buddy) := snd (vfs_mount (snd (vfs_init fs1)) fs_ptr [SLASH]).
Definition vfs_a : vfs (heap buddy) := from_option snd boot_vfs (vfs_create_file 0 boot_vfs (str "/a")).
Definition node_a : Z := default 0 (vfs_open vfs_a (str "/a")).
Definition vfs_hello : vfs (heap buddy) := snd (vfs_write vfs_a node_a (str "hello")).

Lemma vfs_a_root : vfs_root vfs_a <> 0 /\ n_ops (node_at vfs_a (vfs_root vfs_a)) <> 0.
Proof. vm_compute. split; discriminate. Qed.

Definition ram_a : Z := n_fs_data (node_at vfs_a node_a).

Lemma vfs_a_dir : dir_ok vfs_a (vfs_root vfs_a) [ram_a].
Proof.
  split.
  - vm_compute. split; [discriminate|]. split; [by eexists|reflexivity].
  - vm_compute. split; [discriminate|by eexists].
  - vm_compute. split; [reflexivity|]. split; [discriminate|]. eexists. split; reflexivity.
  - apply NoDup_singleton.
  - intros x Hx. apply list_elem_of_singleton in Hx as ->. vm_compute. split; [discriminate|by eexists].
Qed.

Lemma vfs_a_named : child_named vfs_a [ram_a] (str "a") = Some node_a.
Proof. vm_compute. reflexivity. Qed.

Lemma vfs_resolve_path_walks_witness : vfs_resolve_path vfs_a (SLASH :: join [str "a"]) = Some node_a.
Proof.
  refine (vfs_resolve_path_walks vfs_a [str "a"] node_a (proj1 vfs_a_root) _ _ _ _).
  - exact (walk_cons vfs_a _ [ram_a] (str "a") node_a [] node_a vfs_a_dir (proj2 vfs_a_root) vfs_a_named (walk_nil _ _)).
  - discriminate.
  - repeat constructor; [discriminate|]. by apply (bool_decide_unpack _).
  - vm_compute. reflexivity.
Defined.

Definition copy_a (beyond : list Z) : option (kerr_t * vfs (heap buddy)) :=
  vfs_copy_file 0 beyond vfs_hello (str "/b") (str "/a").
Definition vfs_b (beyond : list Z) : vfs (heap buddy) := from_option snd vfs_hello (copy_a beyond).
Definition vfs_unmounted : vfs (heap buddy) := snd (vfs_unmount vfs_hello [SLASH]).

Lemma hello_read : vfs_read vfs_hello node_a 100 = (E_OK, Some (str "hello")).
Proof. vm_compute. reflexivity. Qed.
Lemma copy_status beyond : (fst <$> copy_a beyond) = Some E_OK.
Proof. vm_compute. reflexivity. Qed.
Lemma copy_read beyond :
  vfs_read (vfs_b beyond) (default 0 (vfs_open (vfs_b beyond) (str "/b"))) 100 = (E_OK, Some (take 5 (le64 node_a))).
Proof. vm_compute. reflexivity. Qed.
Lemma node_a_bytes : take 5 (le64 node_a) <> str "hello".
Proof. vm_compute. discriminate. Qed.
Lemma unmounted_status : fst (vfs_unmount vfs_hello [SLASH]) = E_OK /\ (vfs_root vfs_unmounted =? 0) = false.
Proof. vm_compute. split; reflexivity. Qed.
Lemma unmounted_root : nodes vfs_unmounted !! vfs_root vfs_unmounted = None.
Proof. vm_compute. reflexivity. Qed.

(** The round trip through the whole stack, on the kernel's own heap: a file
    created and written by path reads back what was written; copying it with
    [vfs_copy_file] reports success but the copy holds the bytes of a pointer,
    whatever lies in memory after the ramfs node; and after [vfs_unmount] of the
    root the root pointer refers to a freed node. *)
Theorem vfs_stack_scenario (beyond : list Z) :
  vfs_read vfs_hello node_a 100 = (E_OK, Some (str "hello")) /\
  (fst <$> copy_a beyond) = Some E_OK /\
  vfs_read (vfs_b beyond) (default 0 (vfs_open (vfs_b beyond) (str "/b"))) 100 = (E_OK, Some (take 5 (le64 node_a))) /\
  take 5 (le64 node_a) <> str "hello" /\
  fst (vfs_unmount vfs_hello [SLASH]) = E_OK /\ (vfs_root vfs_unmounted =? 0) = false /\
  nodes vfs_unmounted !! vfs_root vfs_unmounted = None.
Proof.
  exact (conj hello_read (conj (copy_status beyond) (conj (copy_read beyond) (conj node_a_bytes
    (conj (proj1 unmounted_status) (conj (proj2 unmounted_status) unmounted_root)))))).
Qed.
