(* ===== verification/Console.v ===== *)
(** * Console layer: console/console.h, console/console.c

    A console driver is a table of optional operations on the state [W] the
    driver works on; the layer keeps the driver it was given and passes each
    request on.  A string is the list of its characters without the
    terminator. *)

From S2P Require Import Prelude Errno.

(** [console_color_t]; a colour fits the 4-bit fields it is stored in. *)
Definition CONSOLE_COLOR_BLACK : Z := 0.
Definition CONSOLE_COLOR_BLUE : Z := 1.
Definition CONSOLE_COLOR_GREEN : Z := 2.
Definition CONSOLE_COLOR_CYAN : Z := 3.
Definition CONSOLE_COLOR_RED : Z := 4.
Definition CONSOLE_COLOR_BROWN : Z := 6.
Definition CONSOLE_COLOR_LIGHT_GREY : Z := 7.
Definition CONSOLE_COLOR_LIGHT_BLUE : Z := 9.
Definition CONSOLE_COLOR_LIGHT_GREEN : Z := 10.
Definition CONSOLE_COLOR_LIGHT_CYAN : Z := 11.
Definition CONSOLE_COLOR_LIGHT_RED : Z := 12.
Definition CONSOLE_COLOR_LIGHT_BROWN : Z := 14.
Definition CONSOLE_COLOR_WHITE : Z := 15.

Record console_color_attr_t := mkColor { foreground : Z; background : Z }.

#[export] Instance console_color_attr_eq_dec : EqDecision console_color_attr_t.
Proof. solve_decision. Defined.

Definition CONSOLE_COLOR_DEFAULT := mkColor CONSOLE_COLOR_WHITE CONSOLE_COLOR_BLACK.
Definition CONSOLE_COLOR_SUCCESS := mkColor CONSOLE_COLOR_GREEN CONSOLE_COLOR_BLACK.
Definition CONSOLE_COLOR_FAILURE := mkColor CONSOLE_COLOR_RED CONSOLE_COLOR_BLACK.
Definition CONSOLE_COLOR_WARNING := mkColor CONSOLE_COLOR_LIGHT_BROWN CONSOLE_COLOR_BLACK.
Definition CONSOLE_COLOR_INFO := mkColor CONSOLE_COLOR_LIGHT_CYAN CONSOLE_COLOR_BLACK.

Record console_driver_t (W : Type) := mkConDriver {
  cd_init : option (W -> kerr_t * W);
  cd_clear : option (W -> W);
  cd_putc : option (Z -> W -> W);
  cd_puts : option (list Z -> W -> W);
  cd_set_color : option (console_color_attr_t -> W -> W);
  cd_get_color : option (W -> console_color_attr_t);
  cd_backspace : option (Z -> W -> W);
}.
Arguments mkConDriver {W}. Arguments cd_init {W}. Arguments cd_clear {W}.
Arguments cd_putc {W}. Arguments cd_puts {W}. Arguments cd_set_color {W}.
Arguments cd_get_color {W}. Arguments cd_backspace {W}.

(** The layer's static [driver] pointer and the state behind the driver. *)
Record console (W : Type) := mkConsole { con_driver : option (console_driver_t W); con_dev : W }.
Arguments mkConsole {W}. Arguments con_driver {W}. Arguments con_dev {W}.

Section Console.
Context {W : Type}.
Implicit Types k : console W.

(** An operation of the driver, when there is a driver and it has one. *)
Definition con_op {A} k (sel : console_driver_t W -> option A) : option A :=
  match con_driver k with Some d => sel d | None => None end.
Definition con_apply k (f : option (W -> W)) : console W :=
  match f with Some f => mkConsole (con_driver k) (f (con_dev k)) | None => k end.

Definition console_init k (d : option (console_driver_t W)) : kerr_t * console W :=
  match d with
  | None => (E_INVALID, k)
  | Some d =>
      match cd_init d with
      | Some f => let '(e, w) := f (con_dev k) in (e, mkConsole (Some d) w)
      | None => (E_OK, mkConsole (Some d) (con_dev k))
      end
  end.

Definition console_clear k : console W := con_apply k (con_op k cd_clear).
Definition console_putc k (c : Z) : console W :=
  con_apply k ((fun f => f c) <$> con_op k cd_putc).
Definition console_puts k (s : list Z) : console W :=
  con_apply k ((fun f => f s) <$> con_op k cd_puts).
Definition console_set_color k (c : console_color_attr_t) : console W :=
  con_apply k ((fun f => f c) <$> con_op k cd_set_color).
Definition console_backspace k (count : Z) : console W :=
  con_apply k ((fun f => f count) <$> con_op k cd_backspace).

(** [console_get_color] tests [set_color] and then calls [get_color]; [None] is
    the call through a null pointer. *)
Definition console_get_color k : option console_color_attr_t :=
  match con_op k cd_set_color with
  | None => Some CONSOLE_COLOR_DEFAULT
  | Some _ => (fun f => f (con_dev k)) <$> con_op k cd_get_color
  end.

Definition console_puts_color k (s : list Z) (color : console_color_attr_t) : console W :=
  match con_op k cd_set_color, con_op k cd_get_color with
  | Some _, Some get =>
      let tmp := get (con_dev k) in
      let k := console_set_color k color in
      let k := console_puts k s in
      console_set_color k tmp
  | _, _ => k
  end.

Definition console_perror k (s : list Z) : console W :=
  match con_driver k with
  | None => k
  | Some _ => console_puts_color k s CONSOLE_COLOR_FAILURE
  end.

End Console.
