(* ===== verification/Vga.v ===== *)
(** * VGA text console: io/vga.h, io/vga.c

    The driver keeps a buffer of 100 lines, a cursor in it and the first line
    shown; lines that changed are copied to the screen memory.  Both buffers
    are maps from index to 16-bit cell: a static array starts as zeros, which
    is what an absent entry reads as. *)

From S2P Require Import Prelude Errno Console.

Definition VGA_WIDTH : Z := 80.
Definition VGA_HEIGHT : Z := 25.
Definition VGA_BUFFER_HEIGHT : Z := 100.
Definition NEWLINE : Z := 10.

Record vga := mkVga {
  vga_hardware_buffer : gmap Z Z;
  vga_virtual_buffer : gmap Z Z;
  vga_cursor : Z;
  vga_scroll_offset : Z;
  vga_color : console_color_attr_t;
  dirty_lines : gmap Z Z;
  needs_refresh : Z;
}.

(** ** Field updates *)

Definition with_hw s h := mkVga h (vga_virtual_buffer s) (vga_cursor s) (vga_scroll_offset s) (vga_color s) (dirty_lines s) (needs_refresh s).
Definition with_vb s b := mkVga (vga_hardware_buffer s) b (vga_cursor s) (vga_scroll_offset s) (vga_color s) (dirty_lines s) (needs_refresh s).
Definition with_cursor s c := mkVga (vga_hardware_buffer s) (vga_virtual_buffer s) c (vga_scroll_offset s) (vga_color s) (dirty_lines s) (needs_refresh s).
Definition with_scroll s o := mkVga (vga_hardware_buffer s) (vga_virtual_buffer s) (vga_cursor s) o (vga_color s) (dirty_lines s) (needs_refresh s).
Definition with_color s c := mkVga (vga_hardware_buffer s) (vga_virtual_buffer s) (vga_cursor s) (vga_scroll_offset s) c (dirty_lines s) (needs_refresh s).
Definition with_dirty s d := mkVga (vga_hardware_buffer s) (vga_virtual_buffer s) (vga_cursor s) (vga_scroll_offset s) (vga_color s) d (needs_refresh s).
Definition with_needs s n := mkVga (vga_hardware_buffer s) (vga_virtual_buffer s) (vga_cursor s) (vga_scroll_offset s) (vga_color s) (dirty_lines s) n.

(** ** The driver *)

(** [(background << 12) | (foreground << 8) | c], stored in 16 bits; [c] is a
    signed [char]. *)
Definition cell_of (col : console_color_attr_t) (c : Z) : Z :=
  u16 (Z.lor (Z.lor (Z.shiftl (background col) 12) (Z.shiftl (foreground col) 8)) c).
Definition blank_of (col : console_color_attr_t) : Z := cell_of col 32.

(** [for (i = 0; i < VGA_HEIGHT; i++) dirty_lines[i] = v] *)
Definition set_all_dirty (s : vga) (v : Z) : vga :=
  with_dirty s (for_range 0 VGA_HEIGHT (fun i d => wr d i v) (dirty_lines s)).

(** [for (i = a; i < b; i++) vga_virtual_buffer[i] = v] *)
Definition fill_cells (s : vga) (a b v : Z) : vga :=
  with_vb s (for_range a b (fun i vb => wr vb i v) (vga_virtual_buffer s)).

Definition refresh_line (s : vga) (line : Z) : vga :=
  let virtual_start := u16 ((vga_scroll_offset s + line) * VGA_WIDTH) in
  let hardware_start := u16 (line * VGA_WIDTH) in
  let s := with_hw s (for_range 0 VGA_WIDTH
    (fun col h => wr h (hardware_start + col) (rd (vga_virtual_buffer s) (virtual_start + col)))
    (vga_hardware_buffer s)) in
  with_dirty s (wr (dirty_lines s) line 0).

Definition refresh_if_dirty (line : Z) (s : vga) : vga :=
  if rd (dirty_lines s) line =? 0 then s else refresh_line s line.

Definition vga_refresh_screen (s : vga) : vga :=
  if needs_refresh s =? 0 then s
  else
    let s := for_range 0 VGA_HEIGHT refresh_if_dirty s in
    with_needs s 0.

Definition vga_driver_flush (s : vga) : vga := vga_refresh_screen s.

Definition vga_driver_clear (s : vga) : vga :=
  let blank := blank_of (vga_color s) in
  let s := fill_cells s 0 (VGA_WIDTH * VGA_BUFFER_HEIGHT) blank in
  let s := with_cursor s 0 in
  let s := with_scroll s 0 in
  let s := set_all_dirty s 1 in
  let s := vga_refresh_screen s in
  with_needs s 0.

Definition vga_driver_init (s : vga) : kerr_t * vga :=
  let s := set_all_dirty s 0 in
  let s := with_needs s 0 in
  (E_OK, vga_driver_clear s).

Definition mark_line_dirty (s : vga) (cursor_pos : Z) : vga :=
  let virtual_line := cursor_pos / VGA_WIDTH in
  let visible_line := u16 (virtual_line - vga_scroll_offset s) in
  if visible_line <? VGA_HEIGHT
  then with_needs (with_dirty s (wr (dirty_lines s) visible_line 1)) 1
  else s.

(** The block of [vga_driver_putc] that drops the first line of a full buffer;
    [current_line] is decremented with it. *)
Definition shift_lines (s : vga) : vga :=
  let s := with_vb s (for_range 0 (VGA_WIDTH * (VGA_BUFFER_HEIGHT - 1))
    (fun i vb => wr vb i (rd vb (i + VGA_WIDTH))) (vga_virtual_buffer s)) in
  let s := fill_cells s (VGA_WIDTH * (VGA_BUFFER_HEIGHT - 1)) (VGA_WIDTH * VGA_BUFFER_HEIGHT)
             (blank_of (vga_color s)) in
  let s := with_cursor s (u16 (vga_cursor s - VGA_WIDTH)) in
  let s := if 0 <? vga_scroll_offset s then with_scroll s (vga_scroll_offset s - 1) else s in
  with_needs (set_all_dirty s 1) 1.

Definition vga_driver_putc (s : vga) (c : Z) : vga :=
  let old_cursor := vga_cursor s in
  let s :=
    if c =? NEWLINE then with_cursor s (u16 ((vga_cursor s / VGA_WIDTH + 1) * VGA_WIDTH))
    else
      let s := with_vb s (wr (vga_virtual_buffer s) (vga_cursor s) (cell_of (vga_color s) c)) in
      with_cursor s (u16 (vga_cursor s + 1)) in
  let s := mark_line_dirty s old_cursor in
  let s :=
    if negb (vga_cursor s / VGA_WIDTH =? old_cursor / VGA_WIDTH)
    then mark_line_dirty s (vga_cursor s) else s in
  let current_line := vga_cursor s / VGA_WIDTH in
  let '(s, current_line) :=
    if VGA_BUFFER_HEIGHT <=? current_line then (shift_lines s, u16 (current_line - 1))
    else (s, current_line) in
  let s :=
    if vga_scroll_offset s + VGA_HEIGHT <=? current_line then
      let s := with_scroll s (u16 (current_line - VGA_HEIGHT + 1)) in
      with_needs (set_all_dirty s 1) 1
    else s in
  if (c =? NEWLINE) || negb (needs_refresh s =? 0) then vga_refresh_screen s else s.

Definition vga_driver_puts (s : vga) (str : list Z) : vga :=
  vga_driver_flush (fold_left vga_driver_putc str s).

Definition vga_driver_set_color (s : vga) (color : console_color_attr_t) : vga := with_color s color.
Definition vga_driver_get_color (s : vga) : console_color_attr_t := vga_color s.

(** [for (int i = 0; i <= count && vga_cursor < ...; i++)], from [i = count + 1 - n]. *)
Fixpoint backspace_loop (n : nat) (s : vga) (blank : Z) : vga :=
  match n with
  | O => s
  | S n' =>
      if vga_cursor s <? VGA_WIDTH * VGA_BUFFER_HEIGHT then
        let s := with_vb s (wr (vga_virtual_buffer s) (vga_cursor s) blank) in
        let s := mark_line_dirty s (vga_cursor s) in
        let s :=
          if (0 <? vga_cursor s) && (0 <? Z.of_nat n') then with_cursor s (vga_cursor s - 1) else s in
        backspace_loop n' s blank
      else s
  end.

Definition vga_driver_backspace (s : vga) (count : Z) : vga :=
  if 0 <? vga_cursor s then
    let old_cursor := vga_cursor s in
    let s := with_cursor s (vga_cursor s - 1) in
    let blank := blank_of (vga_color s) in
    let s := backspace_loop (Z.to_nat (count + 1)) s blank in
    let s := mark_line_dirty s old_cursor in
    let s := mark_line_dirty s (vga_cursor s) in
    vga_refresh_screen s
  else s.

Definition vga_get_driver : console_driver_t vga :=
  mkConDriver (Some vga_driver_init) (Some vga_driver_clear)
    (Some (fun c s => vga_driver_putc s c)) (Some (fun str s => vga_driver_puts s str))
    (Some (fun col s => vga_driver_set_color s col)) (Some vga_driver_get_color)
    (Some (fun count s => vga_driver_backspace s count)).

(** ** Reading the loops *)

#[local] Opaque for_range.

Ltac vga_simpl :=
  cbn [vga_hardware_buffer vga_virtual_buffer vga_cursor vga_scroll_offset vga_color dirty_lines
       needs_refresh with_hw with_vb with_cursor with_scroll with_color with_dirty with_needs].
Tactic Notation "vga_simpl" "in" "*" :=
  cbn [vga_hardware_buffer vga_virtual_buffer vga_cursor vga_scroll_offset vga_color dirty_lines
       needs_refresh with_hw with_vb with_cursor with_scroll with_color with_dirty with_needs] in *.

Lemma all_dirty_line s v l : 0 <= l < 25 -> rd (dirty_lines (set_all_dirty s v)) l = v.
Proof.
  intros Hl. unfold set_all_dirty. vga_simpl.
  rewrite (rd_for_range_wr 0 VGA_HEIGHT 0 (fun _ => v)). unfold VGA_HEIGHT. zdecide.
Qed.

Lemma fill_cells_at s a b v j :
  rd (vga_virtual_buffer (fill_cells s a b v)) j =
  if (a <=? j) && (j <? b) then v else rd (vga_virtual_buffer s) j.
Proof.
  unfold fill_cells. vga_simpl. rewrite (rd_for_range_wr a b 0 (fun _ => v)).
  by replace (j - 0) with j by lia.
Qed.

(** The part of the buffer the screen shows. *)
Definition window (s : vga) (i : Z) : Z := rd (vga_virtual_buffer s) (vga_scroll_offset s * 80 + i).

(** Clean lines of the screen show their line of the buffer. *)
Definition coherent (s : vga) : Prop :=
  forall i, 0 <= i < 2000 -> rd (dirty_lines s) (i / 80) = 0 -> rd (vga_hardware_buffer s) i = window s i.

(** Nothing is waiting to be copied: the screen is the window. *)
Definition clean (s : vga) : Prop :=
  needs_refresh s = 0 /\ (forall l, 0 <= l < 25 -> rd (dirty_lines s) l = 0) /\
  (forall i, 0 <= i < 2000 -> rd (vga_hardware_buffer s) i = window s i).

(** After a clear nothing has been copied yet. *)
Definition fresh (s : vga) : Prop :=
  needs_refresh s = 0 /\ vga_cursor s = 0 /\ vga_scroll_offset s = 0 /\
  (forall l, 0 <= l < 25 -> rd (dirty_lines s) l = 1).

(** The cursor is in the buffer and not below the window. *)
Definition geometry (s : vga) : Prop :=
  0 <= vga_cursor s < 8000 /\ 0 <= vga_scroll_offset s <= 75 /\
  vga_cursor s / 80 <= vga_scroll_offset s + 24.

(** Everything but the screen memory and the refresh bookkeeping. *)
Definition same_text (s s' : vga) : Prop :=
  vga_virtual_buffer s' = vga_virtual_buffer s /\ vga_cursor s' = vga_cursor s /\
  vga_scroll_offset s' = vga_scroll_offset s /\ vga_color s' = vga_color s.

Lemma refresh_line_at s line i :
  0 <= vga_scroll_offset s <= 75 -> 0 <= line < 25 -> 0 <= i < 2000 ->
  rd (vga_hardware_buffer (refresh_line s line)) i =
  if i / 80 =? line then window s i else rd (vga_hardware_buffer s) i.
Proof.
  intros Hs Hl Hi. unfold refresh_line, window. vga_simpl. unfold VGA_WIDTH.
  rewrite (u16_small (line * 80)) by lia.
  rewrite (u16_small ((vga_scroll_offset s + line) * 80)) by lia.
  rewrite (rd_for_range_wr 0 80 (line * 80)
    (fun col => rd (vga_virtual_buffer s) ((vga_scroll_offset s + line) * 80 + col))).
  destruct (Z.eqb_spec (i / 80) line) as [<-|Hne].
  - replace ((0 <=? i - i / 80 * 80) && (i - i / 80 * 80 <? 80)) with true by (symmetry; zbool; dlia).
    f_equal. lia.
  - replace ((0 <=? i - line * 80) && (i - line * 80 <? 80)) with false; [done|].
    symmetry. zbool; try done. exfalso. apply Hne. dlia.
Qed.

(** The first [line] lines have been copied. *)
Definition refreshed (s : vga) (line : Z) (t : vga) : Prop :=
  same_text s t /\
  (forall l, 0 <= l < 25 -> rd (dirty_lines t) l = if l <? line then 0 else rd (dirty_lines s) l) /\
  (forall i, 0 <= i < 2000 -> rd (vga_hardware_buffer t) i =
     if (i / 80 <? line) && negb (rd (dirty_lines s) (i / 80) =? 0)
     then window s i else rd (vga_hardware_buffer s) i).

Lemma refreshed_step s line t :
  0 <= vga_scroll_offset s <= 75 -> 0 <= line < 25 ->
  refreshed s line t -> refreshed s (line + 1) (refresh_if_dirty line t).
Proof.
  intros Hs Hline ((E1 & E2 & E3 & E4) & Hd & Hh).
  assert (Hw : forall i, window t i = window s i) by (intros; unfold window; by rewrite E1, E3).
  unfold refresh_if_dirty. pose proof (Hd line Hline) as Hdl.
  replace (line <? line) with false in Hdl by (symmetry; zbool; lia).
  destruct (Z.eqb_spec (rd (dirty_lines t) line) 0) as [Hz|Hz].
  - split; [exact (conj E1 (conj E2 (conj E3 E4)))|]. split.
    + intros l Hl. rewrite Hd by done. destruct (decide (l = line)) as [->|]; [|zbool; try done; lia].
      rewrite <- Hdl, Hz. zdecide.
    + intros i Hi. rewrite Hh by done. destruct (decide (i / 80 = line)) as [Hil|]; [|zbool; simpl; try done; lia].
      rewrite Hil, <- Hdl, Hz. zbool; simpl; try done; lia.
  - split; [exact (conj E1 (conj E2 (conj E3 E4)))|]. split.
    + intros l Hl. unfold refresh_line. vga_simpl. destruct (decide (l = line)) as [->|].
      * rewrite rd_wr_eq. zdecide.
      * rewrite rd_wr_ne by lia. rewrite Hd by done. zbool; try done; lia.
    + intros i Hi. rewrite refresh_line_at by (rewrite ?E3; lia). rewrite Hw, Hh by done.
      destruct (Z.eqb_spec (i / 80) line) as [Hil|].
      * rewrite Hil, <- Hdl. destruct (Z.eqb_spec (rd (dirty_lines t) line) 0); [lia|]. zdecide.
      * zbool; simpl; try done; lia.
Qed.

Lemma refreshed_all s :
  0 <= vga_scroll_offset s <= 75 -> refreshed s 25 (for_range 0 VGA_HEIGHT refresh_if_dirty s).
Proof.
  intros Hs. apply (for_range_ind (refreshed s) 0 VGA_HEIGHT); [unfold VGA_HEIGHT; lia| |].
  - intros line t Hline. apply refreshed_step; [done|]. unfold VGA_HEIGHT in Hline. lia.
  - split; [split_and!; reflexivity|]. split; intros; zbool; simpl; try done; dlia.
Qed.

Lemma refresh_spec s :
  0 <= vga_scroll_offset s <= 75 -> needs_refresh s <> 0 ->
  let s' := vga_refresh_screen s in
  same_text s s' /\ needs_refresh s' = 0 /\
  (forall l, 0 <= l < 25 -> rd (dirty_lines s') l = 0) /\
  (forall i, 0 <= i < 2000 -> rd (vga_hardware_buffer s') i =
     if rd (dirty_lines s) (i / 80) =? 0 then rd (vga_hardware_buffer s) i else window s i).
Proof.
  intros Hs Hn. cbv zeta. unfold vga_refresh_screen. rewrite (proj2 (Z.eqb_neq _ _) Hn).
  generalize (refreshed_all s Hs). generalize (for_range 0 VGA_HEIGHT refresh_if_dirty s).
  intros t ((E1 & E2 & E3 & E4) & Hd & Hh).
  split; [exact (conj E1 (conj E2 (conj E3 E4)))|]. split; [reflexivity|]. split.
  - intros l Hl. vga_simpl. rewrite Hd by done. zdecide.
  - intros i Hi. vga_simpl. rewrite Hh by done. replace (i / 80 <? 25) with true by (symmetry; zbool; dlia).
    simpl. by destruct (rd (dirty_lines s) (i / 80) =? 0).
Qed.

Lemma refresh_clean s :
  0 <= vga_scroll_offset s <= 75 -> needs_refresh s <> 0 -> coherent s ->
  same_text s (vga_refresh_screen s) /\ clean (vga_refresh_screen s).
Proof.
  intros Hs Hn Hc. destruct (refresh_spec s Hs Hn) as (Ht & Hz & Hd & Hh). cbv zeta in *.
  split; [done|]. split; [done|]. split; [done|]. intros i Hi. rewrite Hh by done.
  destruct Ht as (E1 & _ & E3 & _). unfold window. rewrite E1, E3. fold (window s i).
  destruct (Z.eqb_spec (rd (dirty_lines s) (i / 80)) 0); [by apply Hc|done].
Qed.

(** ** Marking and shifting *)

Lemma mark_spec s p :
  0 <= vga_scroll_offset s <= 75 -> 0 <= p <= 8000 ->
  let s' := mark_line_dirty s p in
  let v := p / 80 - vga_scroll_offset s in
  same_text s s' /\ vga_hardware_buffer s' = vga_hardware_buffer s /\
  ((0 <= v < 25 /\ needs_refresh s' = 1 /\
    (forall l, rd (dirty_lines s') l = if l =? v then 1 else rd (dirty_lines s) l)) \/
   (~ 0 <= v < 25 /\ s' = s)).
Proof.
  intros Hs Hp. cbv zeta. unfold mark_line_dirty, VGA_WIDTH, VGA_HEIGHT.
  set (v := p / 80 - vga_scroll_offset s). assert (Hv : -75 <= v <= 100) by (subst v; dlia).
  destruct (Z.ltb_spec (u16 v) 25) as [Hu|Hu].
  - assert (0 <= v).
    { destruct (decide (0 <= v)); [done|]. exfalso. unfold u16 in Hu.
      rewrite <- (Z_mod_plus_full v 1), Z.mod_small in Hu; lia. }
    rewrite u16_small in * by lia. split; [by split_and!|]. split; [done|]. left.
    split; [lia|]. split; [done|]. intros l. vga_simpl. destruct (Z.eqb_spec l v) as [->|].
    + apply rd_wr_eq.
    + by apply rd_wr_ne.
  - split; [by split_and!|]. split; [done|]. right. split; [|done].
    intros Hv'. rewrite u16_small in Hu; lia.
Qed.

(** Marking keeps coherence; a mark on a visible line asks for a refresh. *)
Lemma mark_coherent s p :
  0 <= vga_scroll_offset s <= 75 -> 0 <= p <= 8000 -> coherent s -> coherent (mark_line_dirty s p).
Proof.
  intros Hs Hp Hc i Hi Hd.
  destruct (mark_spec s p Hs Hp) as ((E1 & _ & E3 & _) & Eh & [(Hv & _ & Hl)|(_ & Es)]); cbv zeta in *.
  - rewrite Eh. unfold window. rewrite E1, E3. apply Hc; [done|]. rewrite Hl in Hd. by case_match.
  - rewrite Es in *. by apply Hc.
Qed.

(** The copy of every cell from the one a line below. *)
Lemma rd_shift_down n m j :
  0 <= n -> 0 <= j ->
  rd (for_range 0 n (fun i vb => wr vb i (rd vb (i + 80))) m) j = if j <? n then rd m (j + 80) else rd m j.
Proof.
  intros Hn. revert j. apply (for_range_ind (fun i m' => forall j, 0 <= j -> rd m' j = if j <? i
    then rd m (j + 80) else rd m j)); [lia| |].
  - intros i m' Hi IH k Hk. destruct (decide (k = i)) as [->|].
    + rewrite rd_wr_eq, IH by lia. zbool; try done; lia.
    + rewrite rd_wr_ne, IH by lia. zbool; try done; lia.
  - intros k Hk. zbool; try done; lia.
Qed.

Lemma shift_cells s j :
  0 <= j < 8000 ->
  rd (vga_virtual_buffer (shift_lines s)) j =
  if j <? 7920 then rd (vga_virtual_buffer s) (j + 80) else blank_of (vga_color s).
Proof.
  intros Hj.
  assert (Hu : vga_virtual_buffer (shift_lines s) = vga_virtual_buffer (fill_cells
    (with_vb s (for_range 0 7920 (fun i vb => wr vb i (rd vb (i + 80))) (vga_virtual_buffer s)))
    7920 8000 (blank_of (vga_color s)))).
  { unfold shift_lines, set_all_dirty, fill_cells. cbv zeta. vga_simpl.
    change (VGA_WIDTH * (VGA_BUFFER_HEIGHT - 1)) with 7920.
    change (VGA_WIDTH * VGA_BUFFER_HEIGHT) with 8000. unfold VGA_WIDTH.
    destruct (0 <? vga_scroll_offset s); vga_simpl; reflexivity. }
  rewrite Hu, fill_cells_at. vga_simpl. rewrite rd_shift_down by lia. clear Hu.
  destruct (Z.ltb_spec j 7920) as [H1|H1].
  - by rewrite (proj2 (Z.leb_gt 7920 j) H1).
  - by rewrite (proj2 (Z.leb_le 7920 j) H1), (proj2 (Z.ltb_lt j 8000) (proj2 Hj)).
Qed.

Lemma shift_rest s :
  80 <= vga_cursor s <= 8000 -> 0 < vga_scroll_offset s ->
  let s' := shift_lines s in
  vga_cursor s' = vga_cursor s - 80 /\ vga_scroll_offset s' = vga_scroll_offset s - 1 /\
  vga_color s' = vga_color s /\ needs_refresh s' = 1 /\
  (forall l, 0 <= l < 25 -> rd (dirty_lines s') l = 1).
Proof.
  intros Hc Hs. cbv zeta. unfold shift_lines, fill_cells. cbv zeta. vga_simpl.
  rewrite (proj2 (Z.ltb_lt _ _) Hs). vga_simpl. unfold VGA_WIDTH. rewrite u16_small by lia.
  split_and!; try reflexivity. intros l Hl. by apply all_dirty_line.
Qed.

(** ** The screen follows the buffer *)

(** Lines that differ from the screen are marked, and a refresh is asked for
    when there is any. *)
Definition pending (s : vga) : Prop :=
  coherent s /\
  (needs_refresh s = 1 \/ (needs_refresh s = 0 /\ forall l, 0 <= l < 25 -> rd (dirty_lines s) l = 0)).

Lemma same_text_refl s : same_text s s.
Proof. by split_and!. Qed.
Lemma same_text_trans s1 s2 s3 : same_text s1 s2 -> same_text s2 s3 -> same_text s1 s3.
Proof. unfold same_text. intuition congruence. Qed.
Lemma geometry_text s s' : same_text s s' -> geometry s -> geometry s'.
Proof. intros (_ & E2 & E3 & _). unfold geometry. by rewrite E2, E3. Qed.

Lemma line_of_range i : 0 <= i < 2000 -> 0 <= i / 80 < 25.
Proof. intros. dlia. Qed.

Lemma fresh_or_clean_coherent s : fresh s \/ clean s -> coherent s.
Proof.
  intros [(_ & _ & _ & Hd)|(_ & _ & Hh)] i Hi Hz; [|by apply Hh].
  rewrite Hd in Hz by (by apply line_of_range). done.
Qed.

Lemma pending_mark s p :
  0 <= vga_scroll_offset s <= 75 -> 0 <= p <= 8000 -> pending s ->
  same_text s (mark_line_dirty s p) /\ pending (mark_line_dirty s p).
Proof.
  intros Hs Hp [Hc Hn]. pose proof (mark_coherent s p Hs Hp Hc) as Hc'.
  destruct (mark_spec s p Hs Hp) as (Ht & _ & [(_ & H1 & _)|(_ & E)]); cbv zeta in *.
  - split; [done|]. split; [done|]. by left.
  - rewrite E. split; [apply same_text_refl|]. by split.
Qed.

Lemma pending_all s :
  needs_refresh s = 1 -> (forall l, 0 <= l < 25 -> rd (dirty_lines s) l = 1) -> pending s.
Proof.
  intros Hn Hd. split; [|by left]. intros i Hi Hz. rewrite Hd in Hz; [done|by apply line_of_range].
Qed.

Lemma pending_refresh s :
  0 <= vga_scroll_offset s <= 75 -> pending s ->
  same_text s (vga_refresh_screen s) /\ clean (vga_refresh_screen s).
Proof.
  intros Hs [Hc [Hn|[Hn Hd]]].
  - apply refresh_clean; [done|lia|done].
  - unfold vga_refresh_screen. rewrite Hn. split; [apply same_text_refl|]. split; [done|].
    split; [done|]. intros i Hi. apply Hc; [done|]. apply Hd. by apply line_of_range.
Qed.

(** Changing the cell under the cursor and marking its line. *)
Lemma pending_store s v p :
  geometry s -> fresh s \/ clean s -> 0 <= p <= 8000 ->
  let s1 := with_cursor (with_vb s (wr (vga_virtual_buffer s) (vga_cursor s) v)) p in
  let s2 := mark_line_dirty s1 (vga_cursor s) in
  same_text s1 s2 /\ pending s2.
Proof.
  intros (Hc & Hs & Hv) Hf Hp s1 s2.
  destruct (mark_spec s1 (vga_cursor s)) as (Ht & Eh & Hm); [exact Hs|lia|]. cbv zeta in Hm.
  fold s2 in Ht, Eh, Hm. split; [exact Ht|].
  pose proof (fresh_or_clean_coherent s Hf) as Hcoh.
  assert (Hother : forall i, 0 <= i < 2000 -> i / 80 <> vga_cursor s / 80 - vga_scroll_offset s ->
    window s1 i = window s i).
  { intros i Hi Hne. unfold window, s1. vga_simpl. apply rd_wr_ne. intros E. apply Hne. rewrite E. dlia. }
  destruct Ht as (E1 & _ & E3 & _).
  destruct Hm as [(Hvis & Hn & Hl)|(Hvis & E)].
  - split; [|by left]. intros i Hi. rewrite Hl.
    destruct (Z.eqb_spec (i / 80) (vga_cursor s / 80 - vga_scroll_offset s1)) as [|Hne]; [done|]. intros Hd.
    rewrite Eh. unfold window at 1. rewrite E1, E3. fold (window s1 i). rewrite Hother by done. by apply Hcoh.
  - unfold s1 in Hvis. vga_simpl in *. destruct Hf as [(_ & H0 & H1 & _)|(Hn & Hd & _)].
    { exfalso. apply Hvis. rewrite H0, H1. dlia. }
    rewrite E. split; [|by right]. intros i Hi Hz. rewrite Hother; [by apply Hcoh|done|].
    intros E'. apply Hvis. rewrite <- E'. by apply line_of_range.
Qed.

(** ** An unbounded text as specification

    The text is a tape of cells, 80 to a row, that only grows: the cursor moves
    right and down, a row is blanked in the current colour when the cursor
    first reaches it (the first [100] are blanked by a clear), and the rows
    shown start late enough to include the cursor's. *)

Record tape := mkTape { t_cells : Z -> Z; t_cur : Z; t_rows : Z; t_top : Z }.

Definition tape_clear (col : console_color_attr_t) : tape := mkTape (fun _ => blank_of col) 0 100 0.

Definition tape_putc (col : console_color_attr_t) (t : tape) (c : Z) : tape :=
  let cells :=
    if c =? NEWLINE then t_cells t
    else fun i => if i =? t_cur t then cell_of col c else t_cells t i in
  let cur := if c =? NEWLINE then (t_cur t / 80 + 1) * 80 else t_cur t + 1 in
  let row := cur / 80 in
  mkTape
    (if t_rows t <=? row then (fun i => if i / 80 =? row then blank_of col else cells i) else cells)
    cur (Z.max (t_rows t) (row + 1)) (Z.max (t_top t) (row - 24)).

(** [backspace count] blanks the [count + 1] cells before the cursor, as far as
    they are still in the buffer, which starts at [floor]. *)
Definition tape_backspace (col : console_color_attr_t) (t : tape) (count : Z) : tape :=
  let floor := 80 * (t_rows t - 100) in
  if t_cur t =? floor then t
  else
    let cur := if count <? 0 then t_cur t - 1 else Z.max floor (t_cur t - 1 - count) in
    mkTape (fun i => if (0 <=? count) && (cur <=? i) && (i <? t_cur t) then blank_of col else t_cells t i)
      cur (t_rows t) (t_top t).

Record shows (s : vga) (t : tape) : Prop := mkShows {
  sh_rows : 100 <= t_rows t;
  sh_cur : t_cur t = vga_cursor s + 80 * (t_rows t - 100);
  sh_top : t_top t = vga_scroll_offset s + (t_rows t - 100);
  sh_cells : forall i, 0 <= i < 8000 -> rd (vga_virtual_buffer s) i = t_cells t (80 * (t_rows t - 100) + i);
}.

Lemma shows_text s s' t : same_text s s' -> shows s t -> shows s' t.
Proof. intros (E1 & E2 & E3 & _) [H1 H2 H3 H4]. split; by rewrite ?E1, ?E2, ?E3. Qed.

(** ** Printing one character *)

(** The cursor after [c], before the buffer is shifted. *)
Definition advance (cur c : Z) : Z := if c =? NEWLINE then (cur / 80 + 1) * 80 else cur + 1.

Lemma advance_range cur c : 0 <= cur < 8000 -> 1 <= advance cur c <= 8000 /\ advance cur c / 80 <= cur / 80 + 1.
Proof. intros. unfold advance. destruct (c =? NEWLINE); dlia. Qed.

(** [vga_driver_putc] in three parts: the cell and the cursor with the marks,
    the shift and scroll, the refresh. *)
Definition put_cell (s : vga) (c : Z) : vga :=
  if c =? NEWLINE then with_cursor s (advance (vga_cursor s) c)
  else with_cursor (with_vb s (wr (vga_virtual_buffer s) (vga_cursor s) (cell_of (vga_color s) c)))
         (advance (vga_cursor s) c).
Definition put_marks (s : vga) (old : Z) : vga :=
  let s := mark_line_dirty s old in
  if negb (vga_cursor s / 80 =? old / 80) then mark_line_dirty s (vga_cursor s) else s.
Definition put_shift (s : vga) : vga := if 100 <=? vga_cursor s / 80 then shift_lines s else s.
Definition put_scroll (s : vga) : vga :=
  if vga_scroll_offset s + 25 <=? vga_cursor s / 80
  then with_needs (set_all_dirty (with_scroll s (vga_cursor s / 80 - 24)) 1) 1 else s.
Definition put_refresh (s : vga) (c : Z) : vga :=
  if (c =? NEWLINE) || negb (needs_refresh s =? 0) then vga_refresh_screen s else s.

Lemma put_cell_fields s c :
  vga_cursor (put_cell s c) = advance (vga_cursor s) c /\
  vga_scroll_offset (put_cell s c) = vga_scroll_offset s /\ vga_color (put_cell s c) = vga_color s.
Proof. unfold put_cell. by destruct (c =? NEWLINE). Qed.

(** The text of the buffer after the cell and the cursor have changed. *)
Lemma put_cell_shows s t c :
  0 <= vga_cursor s < 8000 -> shows s t ->
  shows (put_cell s c)
    (mkTape (if c =? NEWLINE then t_cells t
             else fun i => if i =? t_cur t then cell_of (vga_color s) c else t_cells t i)
       (advance (t_cur t) c) (t_rows t) (t_top t)).
Proof.
  intros Hc [H1 H2 H3 H4]. unfold put_cell, advance. destruct (c =? NEWLINE); split; cbn [t_cells t_cur t_rows t_top]; vga_simpl;
    try done; try (rewrite H2; dlia).
  intros i Hi. destruct (decide (i = vga_cursor s)) as [->|].
  - rewrite rd_wr_eq, H2. zbool; [done|lia].
  - rewrite rd_wr_ne, H4 by lia. zbool; [lia|done].
Qed.

Lemma put_marks_spec s c :
  geometry s -> fresh s \/ clean s ->
  let s2 := put_marks (put_cell s c) (vga_cursor s) in
  same_text (put_cell s c) s2 /\ pending s2.
Proof.
  intros Hg Hf s2. pose proof Hg as (Hc & Hs & _). pose proof (advance_range _ c Hc) as [Ha _].
  assert (H1 : same_text (put_cell s c) (mark_line_dirty (put_cell s c) (vga_cursor s)) /\
               pending (mark_line_dirty (put_cell s c) (vga_cursor s))).
  { unfold put_cell. destruct (c =? NEWLINE).
    - pose proof (fresh_or_clean_coherent s Hf) as Hcoh.
      destruct (mark_spec (with_cursor s (advance (vga_cursor s) c)) (vga_cursor s)) as (Ht & _ & Hm); [exact Hs|lia|].
      split; [exact Ht|]. split; [apply mark_coherent; [exact Hs|lia|exact Hcoh]|].
      destruct Hm as [(_ & Hn & _)|(Hvis & E)]; [by left|].
      destruct Hf as [(_ & H0 & H0' & _)|(Hn & Hd & _)].
      + exfalso. apply Hvis. vga_simpl. rewrite H0, H0'. dlia.
      + right. rewrite E. by split.
    - apply pending_store; [done|done|lia]. }
  destruct H1 as [Ht Hp]. unfold s2, put_marks. cbv zeta.
  destruct (negb _); [|by split]. destruct Ht as (E1 & E2 & E3 & E4).
  pose proof (put_cell_fields s c) as (F1 & F2 & _).
  destruct (pending_mark (mark_line_dirty (put_cell s c) (vga_cursor s))
    (vga_cursor (mark_line_dirty (put_cell s c) (vga_cursor s)))) as [Ht' Hp'];
    [by rewrite E3, F2|rewrite E2, F1; lia|done|].
  split; [|done]. eapply same_text_trans; [|exact Ht']. by split_and!.
Qed.

Lemma putc_parts s c :
  geometry s -> fresh s \/ clean s ->
  vga_driver_putc s c =
  put_refresh (put_scroll (put_shift (put_marks (put_cell s c) (vga_cursor s)))) c.
Proof.
  intros Hg Hf. pose proof Hg as (Hc & Hs & Hv). pose proof (advance_range _ c Hc) as [Ha Ha'].
  destruct (put_marks_spec s c Hg Hf) as ((_ & E2 & E3 & _) & _).
  pose proof (put_cell_fields s c) as (F1 & F2 & _). rewrite F1 in E2. rewrite F2 in E3.
  unfold vga_driver_putc. cbv zeta.
  replace (if c =? NEWLINE then with_cursor s (u16 ((vga_cursor s / VGA_WIDTH + 1) * VGA_WIDTH))
    else with_cursor (with_vb s (wr (vga_virtual_buffer s) (vga_cursor s) (cell_of (vga_color s) c)))
      (u16 (vga_cursor (with_vb s (wr (vga_virtual_buffer s) (vga_cursor s) (cell_of (vga_color s) c))) + 1)))
    with (put_cell s c).
  2: { unfold put_cell, advance, VGA_WIDTH in *. vga_simpl. destruct (c =? NEWLINE); by rewrite u16_small by lia. }
  change (if negb (vga_cursor (mark_line_dirty (put_cell s c) (vga_cursor s)) / VGA_WIDTH =? vga_cursor s / VGA_WIDTH)
    then mark_line_dirty (mark_line_dirty (put_cell s c) (vga_cursor s))
      (vga_cursor (mark_line_dirty (put_cell s c) (vga_cursor s)))
    else mark_line_dirty (put_cell s c) (vga_cursor s)) with (put_marks (put_cell s c) (vga_cursor s)).
  revert E2 E3. generalize (put_marks (put_cell s c) (vga_cursor s)). intros s2 E2 E3.
  unfold put_shift, put_scroll, put_refresh, VGA_WIDTH, VGA_HEIGHT, VGA_BUFFER_HEIGHT.
  destruct (Z.leb_spec 100 (vga_cursor s2 / 80)) as [Hfull|Hroom].
  - destruct (shift_rest s2) as (S1 & S2 & _); [rewrite E2 in *; dlia|rewrite E2, E3 in *; dlia|]. cbv zeta in *.
    assert (El : u16 (vga_cursor s2 / 80 - 1) = vga_cursor (shift_lines s2) / 80).
    { rewrite S1, u16_small; rewrite E2 in *; dlia. }
    rewrite El. assert (Hl : vga_cursor (shift_lines s2) / 80 = 99) by (rewrite S1, E2 in *; dlia).
    rewrite Hl. rewrite u16_small by lia. done.
  - destruct (Z.leb_spec (vga_scroll_offset s2 + 25) (vga_cursor s2 / 80)); [|done].
    rewrite u16_small by lia. by replace (vga_cursor s2 / 80 - 25 + 1) with (vga_cursor s2 / 80 - 24) by lia.
Qed.

Lemma put_shift_spec s cells cur rows top :
  shows s (mkTape cells cur rows top) ->
  1 <= vga_cursor s <= 8000 -> 0 <= vga_scroll_offset s <= 75 ->
  vga_cursor s / 80 <= vga_scroll_offset s + 25 -> pending s ->
  let s' := put_shift s in
  0 <= vga_cursor s' < 8000 /\ 0 <= vga_scroll_offset s' <= 75 /\
  vga_cursor s' / 80 <= vga_scroll_offset s' + 25 /\
  shows s' (mkTape (if rows <=? cur / 80 then (fun i => if i / 80 =? cur / 80 then blank_of (vga_color s) else cells i)
                    else cells) cur (Z.max rows (cur / 80 + 1)) top) /\
  pending s' /\ vga_color s' = vga_color s.
Proof.
  intros [H1 H2 H3 H4] Hc Hs Hv Hp. cbn [t_cells t_cur t_rows t_top] in *. cbv zeta. unfold put_shift.
  assert (Hrow : cur / 80 = vga_cursor s / 80 + (rows - 100)) by (rewrite H2; dlia).
  destruct (Z.leb_spec 100 (vga_cursor s / 80)) as [Hf|Hf].
  - destruct (shift_rest s) as (S1 & S2 & S3 & S4 & S5); [dlia|dlia|]. cbv zeta in *.
    assert (Hp8 : vga_cursor s = 8000) by dlia. rewrite S1, S2, S3. rewrite Hp8 in *.
    replace (rows <=? cur / 80) with true by (symmetry; apply Z.leb_le; lia).
    split_and!; try dlia; [|by apply pending_all|done].
    split; cbn [t_cells t_cur t_rows t_top]; rewrite ?S1, ?S2; try dlia.
    intros j Hj. rewrite shift_cells by done.
    assert (Hj80 : (80 * (Z.max rows (cur / 80 + 1) - 100) + j) / 80 = cur / 80 - 99 + j / 80) by dlia.
    rewrite Hj80. destruct (Z.ltb_spec j 7920).
    + rewrite H4 by lia. destruct (Z.eqb_spec (cur / 80 - 99 + j / 80) (cur / 80)); [exfalso; dlia|f_equal; lia].
    + destruct (Z.eqb_spec (cur / 80 - 99 + j / 80) (cur / 80)); [done|exfalso; dlia].
  - replace (rows <=? cur / 80) with false by (symmetry; apply Z.leb_gt; lia).
    replace (Z.max rows (cur / 80 + 1)) with rows by lia. split_and!; try dlia; try done.
Qed.

Lemma put_scroll_spec s cells cur rows top :
  shows s (mkTape cells cur rows top) ->
  0 <= vga_cursor s < 8000 -> 0 <= vga_scroll_offset s <= 75 ->
  vga_cursor s / 80 <= vga_scroll_offset s + 25 -> pending s ->
  let s' := put_scroll s in
  geometry s' /\ pending s' /\ shows s' (mkTape cells cur rows (Z.max top (cur / 80 - 24))) /\
  vga_color s' = vga_color s.
Proof.
  intros [H1 H2 H3 H4] Hc Hs Hv Hp. cbn [t_cells t_cur t_rows t_top] in *. cbv zeta. unfold put_scroll.
  assert (Hrow : cur / 80 = vga_cursor s / 80 + (rows - 100)) by (rewrite H2; dlia).
  destruct (Z.leb_spec (vga_scroll_offset s + 25) (vga_cursor s / 80)) as [Hf|Hf].
  - split; [split_and!; vga_simpl; unfold set_all_dirty; vga_simpl; dlia|].
    split; [apply pending_all; [done|]; intros l Hl; by apply all_dirty_line|]. split; [|done].
    split; cbn [t_cells t_cur t_rows t_top]; unfold set_all_dirty; vga_simpl; try done. lia.
  - split; [split_and!; dlia|]. split; [done|]. split; [|done].
    split; cbn [t_cells t_cur t_rows t_top]; try done. lia.
Qed.

(** One character: the tape advances and the screen is brought up to date. *)
Lemma putc_refines s t c :
  geometry s -> fresh s \/ clean s -> shows s t ->
  let s' := vga_driver_putc s c in
  geometry s' /\ clean s' /\ shows s' (tape_putc (vga_color s) t c) /\ vga_color s' = vga_color s.
Proof.
  intros Hg Hf Hsh. cbv zeta. rewrite putc_parts by done.
  pose proof Hg as (Hc & Hs & Hv). pose proof (advance_range _ c Hc) as [Ha Ha'].
  destruct (put_marks_spec s c Hg Hf) as (Ht2 & Hp2). cbv zeta in *.
  pose proof (put_cell_fields s c) as (F1 & F2 & F3).
  pose proof (shows_text _ _ _ Ht2 (put_cell_shows s t c Hc Hsh)) as Hsh2.
  destruct Ht2 as (_ & E2 & E3 & E4). rewrite F1 in E2. rewrite F2 in E3. rewrite F3 in E4.
  revert E2 E3 E4 Hp2 Hsh2. generalize (put_marks (put_cell s c) (vga_cursor s)). intros s2 E2 E3 E4 Hp2 Hsh2.
  set (cells := if c =? NEWLINE then _ else _) in Hsh2.
  enough (H : exists s3, put_scroll (put_shift s2) = s3 /\ geometry s3 /\ pending s3 /\
    shows s3 (tape_putc (vga_color s) t c) /\ vga_color s3 = vga_color s).
  { destruct H as (s3 & -> & Hg3 & Hp3 & Hsh3 & Hc3). pose proof Hg3 as (_ & Hs3 & _).
    destruct (pending_refresh s3 Hs3 Hp3) as [Ht4 Hcl]. unfold put_refresh.
    destruct ((c =? NEWLINE) || negb (needs_refresh s3 =? 0)) eqn:Hb.
    - split_and!; [by eapply geometry_text|done|by eapply shows_text|]. destruct Ht4 as (_ & _ & _ & ->). done.
    - apply orb_false_iff in Hb as [_ Hb]. apply negb_false_iff in Hb.
      unfold vga_refresh_screen in Hcl. rewrite Hb in Hcl. by split_and!. }
  destruct (put_shift_spec s2 _ _ _ _ Hsh2) as (G1 & G2 & G3 & G4 & G5 & G6);
    [rewrite E2; lia|by rewrite E3|rewrite E2, E3; lia|done|].
  destruct (put_scroll_spec (put_shift s2) _ _ _ _ G4) as (P1 & P2 & P3 & P4); [done|done|done|done|].
  eexists. split; [reflexivity|]. rewrite G6, E4 in P4. rewrite E4 in P3. by split_and!.
Qed.

(** ** Erasing *)

Lemma pending_write s p v :
  0 <= vga_scroll_offset s <= 75 -> 0 <= p < 8000 -> pending s ->
  let s1 := with_vb s (wr (vga_virtual_buffer s) p v) in
  same_text s1 (mark_line_dirty s1 p) /\ pending (mark_line_dirty s1 p).
Proof.
  intros Hs Hp [Hc Hn] s1.
  destruct (mark_spec s1 p) as (Ht & Eh & Hm); [exact Hs|lia|]. cbv zeta in Hm. split; [done|].
  assert (Hother : forall i, 0 <= i < 2000 -> i / 80 <> p / 80 - vga_scroll_offset s -> window s1 i = window s i).
  { intros i Hi Hne. unfold window, s1. vga_simpl. apply rd_wr_ne. intros E. apply Hne. rewrite E. dlia. }
  destruct Ht as (E1 & _ & E3 & _). destruct Hm as [(Hv & H1 & Hl)|(Hv & E)].
  - split; [|by left]. intros i Hi. rewrite Hl.
    destruct (Z.eqb_spec (i / 80) (p / 80 - vga_scroll_offset s1)) as [|Hne]; [done|]. intros Hd.
    rewrite Eh. unfold window. rewrite E1, E3. fold (window s1 i). rewrite Hother by done. by apply Hc.
  - rewrite E. split; [|done]. intros i Hi Hz. rewrite Hother; [by apply Hc|done|].
    intros E'. apply Hv. unfold s1. vga_simpl. rewrite <- E'. by apply line_of_range.
Qed.

Lemma backspace_loop_spec n s b :
  0 <= vga_cursor s < 8000 -> 0 <= vga_scroll_offset s <= 75 -> pending s ->
  let s' := backspace_loop (S n) s b in
  let low := Z.max 0 (vga_cursor s - Z.of_nat n) in
  pending s' /\ vga_cursor s' = low /\ vga_scroll_offset s' = vga_scroll_offset s /\
  vga_color s' = vga_color s /\
  (forall j, rd (vga_virtual_buffer s') j =
     if (low <=? j) && (j <=? vga_cursor s) then b else rd (vga_virtual_buffer s) j).
Proof.
  revert s. induction n as [|n IH]; intros s Hc Hs Hp; cbv zeta.
  all: set (s1 := with_vb s (wr (vga_virtual_buffer s) (vga_cursor s) b));
    destruct (pending_write s (vga_cursor s) b Hs Hc Hp) as ((E1 & E2 & E3 & E4) & Hp1); cbv zeta in *; fold s1 in E1, E2, E3, E4, Hp1.
  - cbn [backspace_loop]. unfold VGA_WIDTH, VGA_BUFFER_HEIGHT. rewrite (proj2 (Z.ltb_lt (vga_cursor s) (80 * 100))) by lia.
    fold s1. change (vga_cursor s1) with (vga_cursor s). change (0 <? Z.of_nat 0) with false. rewrite andb_false_r.
    split_and!; [done|rewrite E2; change (vga_cursor s1) with (vga_cursor s); lia|done|done|].
    intros j. rewrite E1. unfold s1. vga_simpl. destruct (decide (j = vga_cursor s)) as [->|].
    + rewrite rd_wr_eq. zdecide.
    + rewrite rd_wr_ne by lia. zbool; simpl; try done; lia.
  - remember (S n) as m eqn:Hm. cbn [backspace_loop]. unfold VGA_WIDTH, VGA_BUFFER_HEIGHT.
    rewrite (proj2 (Z.ltb_lt (vga_cursor s) (80 * 100))) by lia. fold s1. change (vga_cursor s1) with (vga_cursor s).
    rewrite (proj2 (Z.ltb_lt 0 (Z.of_nat m))) by lia. rewrite andb_true_r, E2. change (vga_cursor s1) with (vga_cursor s).
    set (s2 := mark_line_dirty s1 (vga_cursor s)) in *.
    set (s3 := if 0 <? vga_cursor s then with_cursor s2 (vga_cursor s - 1) else s2).
    assert (F : pending s3 /\ vga_cursor s3 = Z.max 0 (vga_cursor s - 1) /\ vga_scroll_offset s3 = vga_scroll_offset s /\
      vga_color s3 = vga_color s /\ vga_virtual_buffer s3 = wr (vga_virtual_buffer s) (vga_cursor s) b).
    { unfold s3. destruct (Z.ltb_spec 0 (vga_cursor s)).
      - split; [exact Hp1|]. vga_simpl. split_and!; [lia|exact E3|exact E4|exact E1].
      - split; [exact Hp1|]. split_and!; [rewrite E2; change (vga_cursor s1) with (vga_cursor s); lia|exact E3|exact E4|exact E1]. }
    destruct F as (F1 & F2 & F3 & F4 & F5). subst m.
    destruct (IH s3) as (G1 & G2 & G3 & G4 & G5); [lia|by rewrite F3|done|]. cbv zeta in *.
    split_and!; [done|rewrite G2; lia|by rewrite G3|by rewrite G4|].
    intros j. rewrite G5, F2, F5. destruct (decide (j = vga_cursor s)) as [->|].
    + rewrite rd_wr_eq. zbool; simpl; try done; lia.
    + rewrite rd_wr_ne by lia. zbool; simpl; try done; lia.
Qed.

Lemma clean_pending s : clean s -> pending s.
Proof. intros Hc. split; [by apply fresh_or_clean_coherent; right|]. destruct Hc as (H1 & H2 & _). by right. Qed.

Lemma backspace_refines s t count :
  geometry s -> fresh s \/ clean s -> shows s t ->
  let s' := vga_driver_backspace s count in
  geometry s' /\ (clean s -> clean s') /\ (fresh s -> s' = s) /\
  shows s' (tape_backspace (vga_color s) t count) /\ vga_color s' = vga_color s.
Proof.
  intros Hg Hf Hsh. pose proof Hg as (Hc & Hs & Hv). pose proof Hsh as [H1 H2 H3 H4].
  cbv zeta. unfold vga_driver_backspace, tape_backspace.
  destruct (Z.ltb_spec 0 (vga_cursor s)) as [Hpos|Hz].
  2: { replace (t_cur t =? 80 * (t_rows t - 100)) with true by (symmetry; apply Z.eqb_eq; lia). by split_and!. }
  replace (t_cur t =? 80 * (t_rows t - 100)) with false by (symmetry; apply Z.eqb_neq; lia).
  destruct Hf as [(_ & Hf & _)|Hcl]; [lia|].
  set (s0 := with_cursor s (vga_cursor s - 1)). change (vga_color s0) with (vga_color s).
  assert (Hp0 : pending s0) by (exact (clean_pending s Hcl)).
  enough (H : exists s1, backspace_loop (Z.to_nat (count + 1)) s0 (blank_of (vga_color s)) = s1 /\
    geometry s1 /\ pending s1 /\ vga_color s1 = vga_color s /\ vga_cursor s1 <= 8000 /\
    shows s1 (mkTape (fun i => if (0 <=? count) &&
        ((if count <? 0 then t_cur t - 1 else Z.max (80 * (t_rows t - 100)) (t_cur t - 1 - count)) <=? i) &&
        (i <? t_cur t) then blank_of (vga_color s) else t_cells t i)
      (if count <? 0 then t_cur t - 1 else Z.max (80 * (t_rows t - 100)) (t_cur t - 1 - count))
      (t_rows t) (t_top t))).
  { destruct H as (s1 & -> & Hg1 & Hp1 & Hc1 & _ & Hsh1). pose proof Hg1 as (Hc1' & Hs1 & _).
    destruct (pending_mark s1 (vga_cursor s) Hs1) as [T1 P1]; [lia|done|].
    pose proof (geometry_text _ _ T1 Hg1) as Hg2. pose proof Hg2 as (Hc2' & Hs2 & _).
    destruct (pending_mark _ (vga_cursor (mark_line_dirty s1 (vga_cursor s))) Hs2) as [T2 P2]; [lia|done|].
    pose proof (same_text_trans _ _ _ T1 T2) as T3.
    pose proof (geometry_text _ _ T3 Hg1) as Hg3. pose proof Hg3 as (_ & Hs3 & _).
    destruct (pending_refresh _ Hs3 P2) as [T4 C4]. pose proof (same_text_trans _ _ _ T3 T4) as T5.
    split_and!; [by eapply geometry_text|done|intros (_ & Hf & _); lia|by eapply shows_text|].
    destruct T5 as (_ & _ & _ & ->). done. }
  eexists. split; [reflexivity|]. destruct (Z.ltb_spec count 0) as [Hneg|Hge].
  - replace (Z.to_nat (count + 1)) with O by lia. cbn [backspace_loop].
    replace (0 <=? count) with false by (symmetry; apply Z.leb_gt; lia). simpl.
    split_and!; [split_and!; unfold s0; vga_simpl; dlia|done|done|unfold s0; vga_simpl; lia|].
    split; unfold s0; cbn [t_cells t_cur t_rows t_top]; vga_simpl; try done; lia.
  - replace (Z.to_nat (count + 1)) with (S (Z.to_nat count)) by lia.
    destruct (backspace_loop_spec (Z.to_nat count) s0 (blank_of (vga_color s))) as (G1 & G2 & G3 & G4 & G5);
      [unfold s0; vga_simpl; lia|done|done|]. cbv zeta in *. unfold s0 in G2, G3, G4, G5. vga_simpl in *.
    rewrite Z2Nat.id in G2, G5 by lia. fold s0 in G2, G3, G4, G5.
    replace (0 <=? count) with true by (symmetry; apply Z.leb_le; lia).
    split_and!; [split_and!; rewrite ?G2, ?G3; dlia|done|done|lia|].
    split; cbn [t_cells t_cur t_rows t_top]; rewrite ?G2, ?G3; try lia.
    intros i Hi. rewrite G5. rewrite (H4 i) by done. zbool; simpl; try done; lia.
Qed.

(** ** Clearing *)

Lemma clear_eq s :
  needs_refresh s = 0 ->
  vga_driver_clear s =
  with_needs (set_all_dirty (with_scroll (with_cursor
    (fill_cells s 0 8000 (blank_of (vga_color s))) 0) 0) 1) 0.
Proof.
  intros Hn. unfold vga_driver_clear, vga_refresh_screen. cbv zeta.
  change (needs_refresh (set_all_dirty _ 1)) with (needs_refresh s). by rewrite Hn.
Qed.

Lemma clear_refines s :
  needs_refresh s = 0 ->
  let s' := vga_driver_clear s in
  geometry s' /\ fresh s' /\ shows s' (tape_clear (vga_color s)) /\ vga_color s' = vga_color s /\
  vga_hardware_buffer s' = vga_hardware_buffer s.
Proof.
  intros Hn. cbv zeta. rewrite clear_eq by done.
  split; [unfold geometry, set_all_dirty; vga_simpl; split_and!; dlia|].
  split; [split_and!; [reflexivity..|by intros; apply all_dirty_line]|].
  split; [|split; reflexivity].
  split; cbn [t_cells t_cur t_rows t_top tape_clear]; [lia|reflexivity|reflexivity|].
  intros i Hi. change (rd (vga_virtual_buffer (fill_cells s 0 8000 (blank_of (vga_color s)))) i = blank_of (vga_color s)).
  rewrite fill_cells_at. rewrite (proj2 (Z.leb_le 0 i)), (proj2 (Z.ltb_lt i 8000)) by lia. done.
Qed.

(** ** Sequences of requests *)

Inductive vga_op :=
| VPutc (c : Z) | VPuts (s : list Z) | VSetColor (col : console_color_attr_t)
| VBackspace (count : Z) | VClear.

Definition vga_step (s : vga) (op : vga_op) : vga :=
  match op with
  | VPutc c => vga_driver_putc s c
  | VPuts str => vga_driver_puts s str
  | VSetColor col => vga_driver_set_color s col
  | VBackspace count => vga_driver_backspace s count
  | VClear => vga_driver_clear s
  end.

(** The specification: a text, the current colour, and whether a character has
    been printed since the last clear. *)
Record term := mkTerm { tm_tape : tape; tm_color : console_color_attr_t; tm_lit : bool }.

Definition term_step (m : term) (op : vga_op) : term :=
  match op with
  | VPutc c => mkTerm (tape_putc (tm_color m) (tm_tape m) c) (tm_color m) true
  | VPuts str => mkTerm (fold_left (tape_putc (tm_color m)) str (tm_tape m)) (tm_color m)
                   (tm_lit m || negb (bool_decide (str = [])))
  | VSetColor col => mkTerm (tm_tape m) col (tm_lit m)
  | VBackspace count => mkTerm (tape_backspace (tm_color m) (tm_tape m) count) (tm_color m) (tm_lit m)
  | VClear => mkTerm (tape_clear (tm_color m)) (tm_color m) false
  end.

Definition term_init (col : console_color_attr_t) : term := mkTerm (tape_clear col) col false.

(** The driver's state [s] implements the terminal [m]. *)
Definition vga_rel (s : vga) (m : term) : Prop :=
  geometry s /\ shows s (tm_tape m) /\ vga_color s = tm_color m /\
  (if tm_lit m then clean s else fresh s \/ clean s).

Lemma vga_rel_screen s m : vga_rel s m -> fresh s \/ clean s.
Proof. intros (_ & _ & _ & H). destruct (tm_lit m); auto. Qed.

Lemma clean_needs s : fresh s \/ clean s -> needs_refresh s = 0.
Proof. by intros [[H _]|[H _]]. Qed.

Lemma putc_rel s m c : vga_rel s m -> vga_rel (vga_step s (VPutc c)) (term_step m (VPutc c)).
Proof.
  intros Hr. pose proof (vga_rel_screen _ _ Hr) as Hf. destruct Hr as (Hg & Hsh & Hc & _).
  destruct (putc_refines s (tm_tape m) c Hg Hf Hsh) as (H1 & H2 & H3 & H4).
  rewrite Hc in *. by split_and!.
Qed.

Lemma puts_rel s m str : vga_rel s m -> vga_rel (vga_step s (VPuts str)) (term_step m (VPuts str)).
Proof.
  intros Hr. cbn [vga_step]. unfold vga_driver_puts, vga_driver_flush.
  enough (H : vga_rel (fold_left vga_driver_putc str s) (term_step m (VPuts str))).
  { unfold vga_refresh_screen. by rewrite (clean_needs _ (vga_rel_screen _ _ H)). }
  revert s m Hr. induction str as [|c str IH]; intros s m Hr.
  - destruct m as [t col lit]. cbn [term_step fold_left tm_tape tm_color tm_lit].
    by rewrite bool_decide_eq_true_2, orb_false_r.
  - specialize (IH _ _ (putc_rel s m c Hr)). destruct m as [t col lit].
    cbn [term_step vga_step fold_left tm_tape tm_color tm_lit] in *.
    rewrite (bool_decide_eq_false_2 (c :: str = [])), orb_true_r by done. exact IH.
Qed.

Lemma step_rel s m op : vga_rel s m -> vga_rel (vga_step s op) (term_step m op).
Proof.
  intros Hr. destruct op as [c|str|col|count|]; [by apply putc_rel|by apply puts_rel| | |].
  - destruct Hr as (Hg & Hsh & Hc & Hl). split; [exact Hg|]. split; [|split; [reflexivity|exact Hl]].
    destruct Hsh as [H1 H2 H3 H4]. exact (mkShows (with_color s col) (tm_tape m) H1 H2 H3 H4).
  - pose proof (vga_rel_screen _ _ Hr) as Hf. destruct Hr as (Hg & Hsh & Hc & Hl).
    destruct (backspace_refines s (tm_tape m) count Hg Hf Hsh) as (H1 & H2 & H3 & H4 & H5).
    rewrite Hc in *. split_and!; try done. cbn [vga_step term_step tm_lit].
    destruct (tm_lit m); [by apply H2|]. destruct Hf as [Hf|Hf]; [rewrite H3 by done; by left|right; by apply H2].
  - pose proof (clean_needs _ (vga_rel_screen _ _ Hr)) as Hn. destruct Hr as (_ & _ & Hc & _).
    destruct (clear_refines s Hn) as (H1 & H2 & H3 & H4 & _). rewrite Hc in *. split_and!; try done. by left.
Qed.

Lemma init_rel s : vga_rel (snd (vga_driver_init s)) (term_init (vga_color s)).
Proof.
  unfold vga_driver_init. cbn [snd].
  destruct (clear_refines (with_needs (set_all_dirty s 0) 0) eq_refl) as (H1 & H2 & H3 & H4 & _).
  split_and!; try done. by left.
Qed.

Lemma run_rel ops s m : vga_rel s m -> vga_rel (fold_left vga_step ops s) (fold_left term_step ops m).
Proof. revert s m. induction ops as [|op ops IH]; intros s m H; [done|]. by apply IH, step_rel. Qed.

Lemma reachable_rel ops s0 :
  vga_rel (fold_left vga_step ops (snd (vga_driver_init s0))) (fold_left term_step ops (term_init (vga_color s0))).
Proof. apply run_rel, init_rel. Qed.

(** The VGA driver implements an unbounded text: after any sequence of requests
    since initialisation its buffer holds the last 100 rows of the text with
    the cursor in place, and once a character has been printed since the last
    clear the screen shows exactly the 25 rows from the top row on, among them
    the cursor's unless it was erased back above them. *)
Theorem vga_refines_text ops s0 :
  let s := fold_left vga_step ops (snd (vga_driver_init s0)) in
  let m := fold_left term_step ops (term_init (vga_color s0)) in
  let t := tm_tape m in
  shows s t /\ 0 <= vga_cursor s < 8000 /\ t_cur t / 80 <= t_top t + 24 /\
  (tm_lit m = true -> forall i, 0 <= i < 2000 -> rd (vga_hardware_buffer s) i = t_cells t (80 * t_top t + i)).
Proof.
  pose proof (reachable_rel ops s0) as H. revert H.
  generalize (fold_left vga_step ops (snd (vga_driver_init s0))).
  generalize (fold_left term_step ops (term_init (vga_color s0))).
  intros m s ((Hc & Hs & Hv) & Hsh & _ & Hl). pose proof Hsh as [H1 H2 H3 H4]. cbv zeta.
  split_and!; [done|lia|lia|rewrite H2, H3; dlia|].
  intros Hlit i Hi. rewrite Hlit in Hl. destruct Hl as (_ & _ & Hh). rewrite Hh by done.
  unfold window. rewrite H4 by lia. f_equal. lia.
Qed.

(** The driver's static variables at boot; the screen memory is what the
    firmware left. *)
Definition vga_boot (screen : gmap Z Z) : vga :=
  mkVga screen ∅ 0 0 (mkColor CONSOLE_COLOR_WHITE CONSOLE_COLOR_BLACK) ∅ 0.

Lemma vga_refines_text_witness :
  let s := fold_left vga_step [VPuts (str "IGNIS"); VPutc NEWLINE] (snd (vga_driver_init (vga_boot ∅))) in
  rd (vga_hardware_buffer s) 1 = cell_of CONSOLE_COLOR_DEFAULT 71 /\ vga_cursor s < 8000.
Proof.
  cbv zeta.
  destruct (vga_refines_text [VPuts (str "IGNIS"); VPutc NEWLINE] (vga_boot ∅)) as (_ & H1 & _ & H2).
  cbv zeta in H1, H2. split; [|exact (proj2 H1)].
  rewrite H2; [vm_compute; reflexivity|reflexivity|lia].
Defined.

(** Clearing the console blanks the buffer but not the screen: the refresh it
    calls does nothing, because no refresh was pending, so the old contents stay
    visible until the next character is printed. *)
Theorem vga_clear_keeps_screen ops s0 :
  let s := fold_left vga_step ops (snd (vga_driver_init s0)) in
  vga_hardware_buffer (vga_driver_clear s) = vga_hardware_buffer s /\
  (forall i, 0 <= i < 8000 -> rd (vga_virtual_buffer (vga_driver_clear s)) i = blank_of (vga_color s)).
Proof.
  pose proof (clean_needs _ (vga_rel_screen _ _ (reachable_rel ops s0))) as Hn. cbv zeta.
  destruct (clear_refines _ Hn) as (_ & _ & [_ _ _ Hcells] & _ & Hh). split; [exact Hh|exact Hcells].
Qed.

(** Erasing one character erases two: [vga_driver_backspace] steps back once
    before its loop, and the loop runs [count + 1] times.  The terminal echoes
    every backspace key with count 1. *)
Theorem vga_backspace_erases_two ops s0 :
  let s := fold_left vga_step ops (snd (vga_driver_init s0)) in
  let s' := vga_driver_backspace s 1 in
  2 <= vga_cursor s ->
  vga_cursor s' = vga_cursor s - 2 /\
  (forall i, 0 <= i < 8000 -> rd (vga_virtual_buffer s') i =
     if (vga_cursor s - 2 <=? i) && (i <? vga_cursor s) then blank_of (vga_color s)
     else rd (vga_virtual_buffer s) i).
Proof.
  pose proof (reachable_rel ops s0) as H. revert H.
  generalize (fold_left vga_step ops (snd (vga_driver_init s0))).
  generalize (fold_left term_step ops (term_init (vga_color s0))).
  intros m s Hr. cbv zeta. intros H2. pose proof (vga_rel_screen _ _ Hr) as Hf.
  destruct Hr as (Hg & Hsh & _). destruct (backspace_refines s _ 1 Hg Hf Hsh) as (_ & _ & _ & Hsh' & _).
  destruct Hsh as [R1 R2 R3 R4], Hsh' as [Q1 Q2 Q3 Q4]. revert Q1 Q2 Q3 Q4. unfold tape_backspace.
  replace (t_cur (tm_tape m) =? 80 * (t_rows (tm_tape m) - 100)) with false by (symmetry; apply Z.eqb_neq; lia).
  cbn [t_cells t_cur t_rows t_top]. change (1 <? 0) with false. change (0 <=? 1) with true. cbn [andb].
  intros Q1 Q2 Q3 Q4. split; [lia|]. intros i Hi. rewrite Q4, R4 by done. zbool; simpl; try done; lia.
Qed.

Lemma vga_backspace_erases_two_witness :
  let s := fold_left vga_step [VPuts (str "ab")] (snd (vga_driver_init (vga_boot ∅))) in
  vga_cursor (vga_driver_backspace s 1) = 0.
Proof.
  cbv zeta. rewrite (proj1 (vga_backspace_erases_two [VPuts (str "ab")] (vga_boot ∅)
    ltac:(vm_compute; discriminate))). vm_compute. reflexivity.
Defined.

(** ** The console layer on top of the driver *)

Inductive con_req :=
| CPutc (c : Z) | CPuts (s : list Z) | CPutsColor (s : list Z) (col : console_color_attr_t)
| CSetColor (col : console_color_attr_t) | CBackspace (count : Z) | CClear | CPerror (s : list Z).

Definition con_step (k : console vga) (r : con_req) : console vga :=
  match r with
  | CPutc c => console_putc k c
  | CPuts s => console_puts k s
  | CPutsColor s col => console_puts_color k s col
  | CSetColor col => console_set_color k col
  | CBackspace count => console_backspace k count
  | CClear => console_clear k
  | CPerror s => console_perror k s
  end.

(** What a request means for the terminal in the current colour. *)
Definition req_ops (col : console_color_attr_t) (r : con_req) : list vga_op :=
  match r with
  | CPutc c => [VPutc c]
  | CPuts s => [VPuts s]
  | CPutsColor s c => [VSetColor c; VPuts s; VSetColor col]
  | CSetColor c => [VSetColor c]
  | CBackspace count => [VBackspace count]
  | CClear => [VClear]
  | CPerror s => [VSetColor CONSOLE_COLOR_FAILURE; VPuts s; VSetColor col]
  end.

Definition term_req (m : term) (r : con_req) : term := fold_left term_step (req_ops (tm_color m) r) m.

Lemma con_step_rel k m r :
  con_driver k = Some vga_get_driver -> vga_rel (con_dev k) m ->
  con_driver (con_step k r) = Some vga_get_driver /\ vga_rel (con_dev (con_step k r)) (term_req m r).
Proof.
  destruct k as [d s]. cbn [con_driver con_dev]. intros -> Hr.
  assert (E : con_step (mkConsole (Some vga_get_driver) s) r =
    mkConsole (Some vga_get_driver) (fold_left vga_step (req_ops (vga_color s) r) s)) by (by destruct r).
  rewrite E. split; [done|]. unfold term_req. destruct (Hr) as (_ & _ & <- & _). by apply run_rel.
Qed.

(** C13. The console layer and the VGA driver together: from any console, installing
    the driver and issuing any requests leaves the layer with the driver, every
    printed string on the text of the shadow buffer in the colour it was given,
    and the colour of the other text unchanged by coloured output.  The
    hardware screen shows the end of that text provided a character has been
    printed since the last clear ([tm_lit]); a clear alone empties the shadow
    buffer and leaves the old text on the screen ([vga_clear_keeps_screen]). *)
Theorem console_refines_text reqs (k0 : console vga) :
  let k := fold_left con_step reqs (snd (console_init k0 (Some vga_get_driver))) in
  let m := fold_left term_req reqs (term_init (vga_color (con_dev k0))) in
  fst (console_init k0 (Some vga_get_driver)) = E_OK /\
  console_get_color k = Some (tm_color m) /\ shows (con_dev k) (tm_tape m) /\
  (tm_lit m = true -> forall i, 0 <= i < 2000 ->
     rd (vga_hardware_buffer (con_dev k)) i = t_cells (tm_tape m) (80 * t_top (tm_tape m) + i)).
Proof.
  cbv zeta. split; [reflexivity|].
  enough (H : forall k m, con_driver k = Some vga_get_driver -> vga_rel (con_dev k) m ->
    let k' := fold_left con_step reqs k in let m' := fold_left term_req reqs m in
    con_driver k' = Some vga_get_driver /\ vga_rel (con_dev k') m').
  { destruct (H (snd (console_init k0 (Some vga_get_driver))) (term_init (vga_color (con_dev k0))) eq_refl
      (init_rel (con_dev k0))) as [Hd Hr]. clear H. cbv zeta in *. revert Hd Hr.
    generalize (fold_left con_step reqs (snd (console_init k0 (Some vga_get_driver)))).
    generalize (fold_left term_req reqs (term_init (vga_color (con_dev k0)))).
    intros m [d s] Hd Hr. cbn [con_driver con_dev] in *. subst d.
    destruct Hr as ((Hc & Hs & _) & Hsh & Hcol & Hl). split; [by rewrite <- Hcol|]. split; [exact Hsh|].
    intros Hlit i Hi. rewrite Hlit in Hl. destruct Hl as (_ & _ & Hh), Hsh as [H1 H2 H3 H4].
    rewrite Hh by done. unfold window. rewrite H4 by lia. f_equal. lia. }
  induction reqs as [|r reqs IH]; intros k m Hd Hr; [by split|]. cbn [fold_left].
  destruct (con_step_rel k m r Hd Hr) as [Hd' Hr']. by apply IH.
Qed.

Lemma console_refines_text_witness :
  let k := fold_left con_step [CPuts (str "Welcome!"); CPerror (str "no")]
    (snd (console_init (mkConsole None (vga_boot ∅)) (Some vga_get_driver))) in
  rd (vga_hardware_buffer (con_dev k)) 9 = cell_of CONSOLE_COLOR_FAILURE 111.
Proof.
  cbv zeta. destruct (console_refines_text [CPuts (str "Welcome!"); CPerror (str "no")]
    (mkConsole None (vga_boot ∅))) as (_ & _ & _ & H). cbv zeta in H.
  rewrite H; [vm_compute; reflexivity|reflexivity|lia].
Defined.
