(* ===== verification/Ports.v ===== *)
(** * Port input and output: io/ports.h

    The devices behind the I/O ports are not part of the program: [PortBus] is
    the interface of whatever is there, with a state [D] that every access may
    change.  Code that touches ports is a computation [io S A]: it transforms a
    state and gives a result, or gives [None] when the fuel of one of its
    polling loops runs out, so a theorem that gives [Some] also says that the
    loop ends.  [wp m s Q] is the weakest precondition: [m] ends from [s], in a
    result and a state that satisfy [Q]. *)

From S2P Require Import Prelude.

Class PortBus (D : Type) := {
  bus_in8 : Z -> D -> Z * D;
  bus_out8 : Z -> Z -> D -> D;
  bus_in16 : Z -> D -> Z * D;
  bus_out16 : Z -> Z -> D -> D;
  bus_in32 : Z -> D -> Z * D;
  bus_out32 : Z -> Z -> D -> D;
}.

(** ** Computations *)

Definition io (S A : Type) : Type := S -> option (A * S).

Definition io_ret {S A} (a : A) : io S A := fun s => Some (a, s).
Definition io_bind {S A B} (m : io S A) (k : A -> io S B) : io S B :=
  fun s => match m s with Some (a, s) => k a s | None => None end.
Definition io_diverge {S A} : io S A := fun _ => None.

Declare Scope io_scope.
Delimit Scope io_scope with io.
Notation "'let!' x ':=' m 'in' k" := (io_bind m (fun x => k))
  (at level 10, x name, m at level 200, k at level 200) : io_scope.
Notation "m ';;;' k" := (io_bind m (fun _ => k)) (at level 199, right associativity) : io_scope.
#[global] Open Scope io_scope.

(** [for (i = a; ...; i++) body(i)], [n] times. *)
Fixpoint io_for {S} (n : nat) (i : Z) (body : Z -> io S unit) : io S unit :=
  match n with
  | O => io_ret tt
  | Datatypes.S n' => body i ;;; io_for n' (i + 1) body
  end.

(** [while (!cond());] *)
Fixpoint io_until {S} (fuel : nat) (cond : io S bool) : io S unit :=
  match fuel with
  | O => io_diverge
  | Datatypes.S fuel' => let! b := cond in if b then io_ret tt else io_until fuel' cond
  end.

(** ** Weakest preconditions *)

Definition wp {S A} (m : io S A) (s : S) (Q : A -> S -> Prop) : Prop :=
  match m s with Some (a, s') => Q a s' | None => False end.

Section rules.
Context {S : Type}.

Lemma wp_ret {A} (a : A) (s : S) Q : Q a s -> wp (io_ret a) s Q.
Proof. done. Qed.

Lemma wp_bind {A B} (m : io S A) (k : A -> io S B) s Q :
  wp m s (fun a s' => wp (k a) s' Q) -> wp (io_bind m k) s Q.
Proof. unfold wp, io_bind. by destruct (m s) as [[a s']|]. Qed.

Lemma wp_mono {A} (m : io S A) s (Q Q' : A -> S -> Prop) :
  wp m s Q -> (forall a s', Q a s' -> Q' a s') -> wp m s Q'.
Proof. unfold wp. destruct (m s) as [[a s']|]; auto. Qed.

Lemma wp_run {A} (m : io S A) s Q : wp m s Q -> exists a s', m s = Some (a, s') /\ Q a s'.
Proof. unfold wp. destruct (m s) as [[a s']|]; [|done]. eauto. Qed.

(** The loop rule, with an invariant indexed by the loop variable. *)
Lemma wp_for (P : Z -> S -> Prop) n i body s :
  P i s ->
  (forall j s, i <= j < i + Z.of_nat n -> P j s -> wp (body j) s (fun _ s' => P (j + 1) s')) ->
  wp (io_for n i body) s (fun _ s' => P (i + Z.of_nat n) s').
Proof.
  revert i s. induction n as [|n IH]; intros i s Hi Hstep.
  - apply wp_ret. by replace (i + Z.of_nat 0) with i by lia.
  - apply wp_bind. eapply wp_mono; [apply Hstep; [lia|done]|].
    intros a s' Hs'. replace (i + Z.of_nat (Datatypes.S n)) with (i + 1 + Z.of_nat n) by lia.
    apply IH; [done|]. intros j t Hj. apply Hstep. lia.
Qed.

(** The polling rule: [P k] holds while the condition will still be false [k]
    times. *)
Lemma wp_until (P : nat -> S -> Prop) (Q : S -> Prop) k fuel cond s :
  (k < fuel)%nat -> P k s ->
  (forall j s, P (Datatypes.S j) s -> wp cond s (fun b s' => b = false /\ P j s')) ->
  (forall s, P O s -> wp cond s (fun b s' => b = true /\ Q s')) ->
  wp (io_until fuel cond) s (fun _ s' => Q s').
Proof.
  revert fuel s. induction k as [|k IH]; intros fuel s Hf HP Hstep Hlast;
    (destruct fuel as [|fuel]; [lia|]); apply wp_bind.
  - eapply wp_mono; [by apply Hlast|]. intros b s' [-> HQ]. by apply wp_ret.
  - eapply wp_mono; [by apply Hstep|]. intros b s' [-> HP']. apply IH; [lia|done|done|done].
Qed.
End rules.

(** Take a computation apart at its first step. *)
Ltac wp_step := first [apply wp_bind | apply wp_ret]; cbv beta.

(** ** The port instructions

    A program state [S] that holds a bus gives access to it through
    [HasBus]; the port number is a [uint16_t]. *)

Class HasBus (S D : Type) := {
  get_bus : S -> D;
  set_bus : D -> S -> S;
}.

#[export] Instance bus_itself D : HasBus D D := {| get_bus := id; set_bus d _ := d |}.

(** The bus is a field of the state. *)
Class BusLens (S D : Type) `{HasBus S D} := {
  get_set_bus d s : get_bus (set_bus d s) = d;
  set_set_bus d d' s : set_bus d (set_bus d' s) = set_bus d s;
  set_get_bus s : set_bus (get_bus s) s = s;
}.
#[export] Instance bus_itself_lens D : BusLens D D.
Proof. by split. Qed.

Section ports.
Context {S D : Type} `{PortBus D} `{HasBus S D}.

Definition inb (port : Z) : io S Z := fun s =>
  let '(v, d) := bus_in8 (u16 port) (get_bus s) in Some (u8 v, set_bus d s).
Definition outb (port data : Z) : io S unit := fun s =>
  Some (tt, set_bus (bus_out8 (u16 port) (u8 data) (get_bus s)) s).
Definition inw (port : Z) : io S Z := fun s =>
  let '(v, d) := bus_in16 (u16 port) (get_bus s) in Some (u16 v, set_bus d s).
Definition outw (port data : Z) : io S unit := fun s =>
  Some (tt, set_bus (bus_out16 (u16 port) (u16 data) (get_bus s)) s).
Definition inl (port : Z) : io S Z := fun s =>
  let '(v, d) := bus_in32 (u16 port) (get_bus s) in Some (u32 v, set_bus d s).
Definition outl (port data : Z) : io S unit := fun s =>
  Some (tt, set_bus (bus_out32 (u16 port) (u32 data) (get_bus s)) s).

Lemma wp_inb port s Q :
  Q (u8 (fst (bus_in8 (u16 port) (get_bus s)))) (set_bus (snd (bus_in8 (u16 port) (get_bus s))) s) ->
  wp (inb port) s Q.
Proof. unfold wp, inb. by destruct (bus_in8 _ _). Qed.
Lemma wp_outb port data s Q :
  Q tt (set_bus (bus_out8 (u16 port) (u8 data) (get_bus s)) s) -> wp (outb port data) s Q.
Proof. done. Qed.
Lemma wp_inw port s Q :
  Q (u16 (fst (bus_in16 (u16 port) (get_bus s)))) (set_bus (snd (bus_in16 (u16 port) (get_bus s))) s) ->
  wp (inw port) s Q.
Proof. unfold wp, inw. by destruct (bus_in16 _ _). Qed.
Lemma wp_outw port data s Q :
  Q tt (set_bus (bus_out16 (u16 port) (u16 data) (get_bus s)) s) -> wp (outw port data) s Q.
Proof. done. Qed.
End ports.

(** ** A bus that records what is written

    Reads answer from a given function of the port and the accesses so far;
    used for the devices the program only programs. *)

Inductive bus_event := Out8 (port data : Z) | In8 (port value : Z) | Out16 (port data : Z) | In16 (port value : Z)
| Out32 (port data : Z) | In32 (port value : Z).

Record trace_bus := mkTrace { tb_answer : list bus_event -> Z -> Z; tb_log : list bus_event }.

Definition tb_add (b : trace_bus) (e : bus_event) : trace_bus := mkTrace (tb_answer b) (tb_log b ++ [e]).

#[export] Instance trace_PortBus : PortBus trace_bus := {|
  bus_in8 p b := let v := u8 (tb_answer b (tb_log b) p) in (v, tb_add b (In8 p v));
  bus_out8 p v b := tb_add b (Out8 p v);
  bus_in16 p b := let v := u16 (tb_answer b (tb_log b) p) in (v, tb_add b (In16 p v));
  bus_out16 p v b := tb_add b (Out16 p v);
  bus_in32 p b := let v := u32 (tb_answer b (tb_log b) p) in (v, tb_add b (In32 p v));
  bus_out32 p v b := tb_add b (Out32 p v);
|}.
