(* ===== verification/Serial.v ===== *)
(** * Serial port: io/serial.h, io/serial.c

    The functions are computations over any port bus.  [Uart] states what the
    transmitter of a 16550 promises: it asks for a bounded number of status
    reads between characters and then sends what is written to its data
    register.  Under these laws the output functions end and send exactly the
    expected characters.  A string is the list of its characters without the
    terminator; characters are [char]s, sent as bytes. *)

From S2P Require Import Prelude Errno Ports.

Definition COM1 : Z := 1016.
Definition SERIAL_DATA : Z := 0.
Definition SERIAL_INT_ENABLE : Z := 1.
Definition SERIAL_FIFO_CTRL : Z := 2.
Definition SERIAL_LINE_CTRL : Z := 3.
Definition SERIAL_MODEM_CTRL : Z := 4.
Definition SERIAL_LINE_STATUS : Z := 5.
Definition SERIAL_LSR_DATA_READY : Z := 1.
Definition SERIAL_LSR_TX_EMPTY : Z := 32.

Section serial.
Context {S D : Type} `{PortBus D} `{HasBus S D}.

Definition serial_is_buffer_empty (port : Z) : io S Z :=
  let! v := inb (port + SERIAL_LINE_STATUS) in io_ret (Z.land v SERIAL_LSR_TX_EMPTY).

Definition serial_init (port : Z) : io S kerr_t :=
  outb (port + SERIAL_INT_ENABLE) 0 ;;;
  outb (port + SERIAL_LINE_CTRL) 128 ;;;
  outb (port + SERIAL_DATA) 3 ;;;
  outb (port + SERIAL_INT_ENABLE) 0 ;;;
  outb (port + SERIAL_LINE_CTRL) 3 ;;;
  outb (port + SERIAL_FIFO_CTRL) 199 ;;;
  outb (port + SERIAL_MODEM_CTRL) 11 ;;;
  let! v := inb (port + SERIAL_DATA) in
  if negb (v =? 174) then io_ret E_HARDWARE
  else
    outb (port + SERIAL_MODEM_CTRL) 15 ;;;
    io_ret E_OK.

Definition serial_putc (fuel : nat) (port c : Z) : io S unit :=
  io_until fuel (let! v := serial_is_buffer_empty port in io_ret (negb (v =? 0))) ;;;
  outb (port + SERIAL_DATA) c.

Fixpoint serial_puts (fuel : nat) (port : Z) (s : list Z) : io S unit :=
  match s with
  | [] => io_ret tt
  | c :: s' =>
      (if c =? 10 then serial_putc fuel port 13 else io_ret tt) ;;;
      serial_putc fuel port c ;;;
      serial_puts fuel port s'
  end.

Fixpoint serial_write (fuel : nat) (port : Z) (data : list Z) : io S unit :=
  match data with
  | [] => io_ret tt
  | c :: data' => serial_putc fuel port c ;;; serial_write fuel port data'
  end.

Definition serial_recieved (port : Z) : io S Z :=
  let! v := inb (port + SERIAL_LINE_STATUS) in io_ret (Z.land v SERIAL_LSR_DATA_READY).

Definition serial_getc (fuel : nat) (port : Z) : io S Z :=
  io_until fuel (let! v := serial_recieved port in io_ret (negb (v =? 0))) ;;;
  inb (port + SERIAL_DATA).

(** [hex_chars[d]] *)
Definition hex_char (d : Z) : Z := nthz (str "0123456789ABCDEF") d.

(** The [do ... while (value != 0 && i < width)] loop: the digits, least
    significant first; it runs at most [width] times, which is the fuel. *)
Fixpoint hex_digits (n : nat) (value : Z) : list Z :=
  match n with
  | O => []
  | Datatypes.S n' =>
      hex_char (Z.land value 15) ::
      (if Z.shiftr value 4 =? 0 then [] else hex_digits n' (Z.shiftr value 4))
  end.

Definition puthex_width (width : Z) : Z :=
  let width := if 16 <? width then 16 else width in
  if width <=? 0 then 1 else width.

(** The contents of [buffer] when it is padded. *)
Definition puthex_buffer (value width : Z) : list Z :=
  let w := Z.to_nat (puthex_width width) in
  let ds := hex_digits w value in
  ds ++ replicate (w - length ds) 48.

Definition serial_puthex (fuel : nat) (port value width : Z) : io S unit :=
  serial_puts fuel port (str "0x") ;;;
  serial_write fuel port (reverse (puthex_buffer value width)).
End serial.

(** ** The transmitter *)

(** [uart_wait d] is how many more status reads say that the transmitter is
    busy, never more than [uart_slow]; [uart_sent d] is what has left the port. *)
Class Uart (D : Type) `{PortBus D} (port : Z) := {
  uart_wait : D -> nat;
  uart_slow : nat;
  uart_sent : D -> list Z;
  uart_wait_bounded d : (uart_wait d <= uart_slow)%nat;
  uart_status d :
    let '(v, d') := bus_in8 (port + SERIAL_LINE_STATUS) d in
    uart_sent d' = uart_sent d /\ uart_wait d' = pred (uart_wait d) /\
    (Z.land (u8 v) SERIAL_LSR_TX_EMPTY = 0 <-> uart_wait d <> O);
  uart_data d v :
    uart_wait d = O -> uart_sent (bus_out8 (port + SERIAL_DATA) v d) = uart_sent d ++ [v];
}.

(** Newlines are sent with a carriage return before them. *)
Fixpoint crlf (s : list Z) : list Z :=
  match s with
  | [] => []
  | c :: s' => (if c =? 10 then [13] else []) ++ u8 c :: crlf s'
  end.

Section uart.
Context {D : Type} `{HB : PortBus D} {port : Z} {HU : Uart D port}.
Hypothesis Hport : 0 <= port < 65528.

Lemma wp_serial_putc fuel c (d : D) (Q : unit -> D -> Prop) :
  (uart_slow < fuel)%nat ->
  (forall d', uart_sent d' = uart_sent d ++ [u8 c] -> Q tt d') -> wp (serial_putc fuel port c) d Q.
Proof.
  intros Hf HQ. apply wp_bind. pose proof (uart_wait_bounded (Uart := HU) d) as Hb.
  assert (Hport5 : u16 (port + SERIAL_LINE_STATUS) = port + SERIAL_LINE_STATUS)
    by (apply u16_small; unfold SERIAL_LINE_STATUS; lia).
  eapply wp_mono.
  - apply (wp_until (fun k d' => uart_wait d' = k /\ uart_sent d' = uart_sent d)
      (fun d' => uart_wait d' = O /\ uart_sent d' = uart_sent d) (uart_wait d)); [lia|done| |].
    + intros j d1 [Hw Hs]. unfold serial_is_buffer_empty. do 2 apply wp_bind. apply wp_inb. rewrite Hport5. cbn.
      pose proof (uart_status (Uart := HU) d1) as Hst. unfold id in *. destruct (bus_in8 _ d1) as [v d2].
      destruct Hst as (E1 & E2 & E3). cbn. rewrite (proj2 E3) by lia.
      split; [done|]. rewrite E2, E1, Hw. done.
    + intros d1 [Hw Hs]. unfold serial_is_buffer_empty. do 2 apply wp_bind. apply wp_inb. rewrite Hport5. cbn.
      pose proof (uart_status (Uart := HU) d1) as Hst. unfold id in *. destruct (bus_in8 _ d1) as [v d2].
      destruct Hst as (E1 & E2 & E3). cbn. rewrite E1, E2, Hw. split; [|done].
      destruct (Z.eqb_spec (Z.land (u8 v) SERIAL_LSR_TX_EMPTY) 0) as [E|]; [|done].
      by apply E3 in E.
  - intros [] d1 [Hw Hs]. apply wp_outb. apply HQ. cbn. unfold id.
    rewrite (u16_small (port + SERIAL_DATA)) by (unfold SERIAL_DATA; lia).
    by rewrite (uart_data (Uart := HU) d1 (u8 c) Hw), Hs.
Qed.

Lemma wp_serial_puts fuel s (d : D) (Q : unit -> D -> Prop) :
  (uart_slow < fuel)%nat ->
  (forall d', uart_sent d' = uart_sent d ++ crlf s -> Q tt d') -> wp (serial_puts fuel port s) d Q.
Proof.
  intros Hf. revert d Q. induction s as [|c s IH]; intros d Q HQ; cbn [serial_puts crlf].
  - apply wp_ret, HQ. by rewrite app_nil_r.
  - apply wp_bind.
    assert (Hrest : forall d1, uart_sent d1 = uart_sent d ++ (if c =? 10 then [13] else []) ->
      wp (serial_putc fuel port c ;;; serial_puts fuel port s) d1 Q).
    { intros d1 E1. apply wp_bind, wp_serial_putc; [done|]. intros d2 E2. apply IH. intros d3 E3.
      apply HQ. rewrite E3, E2, E1, <- !app_assoc. done. }
    destruct (c =? 10).
    + by apply wp_serial_putc.
    + apply wp_ret, Hrest. by rewrite app_nil_r.
Qed.

Lemma wp_serial_write fuel s (d : D) (Q : unit -> D -> Prop) :
  (uart_slow < fuel)%nat ->
  (forall d', uart_sent d' = uart_sent d ++ map u8 s -> Q tt d') -> wp (serial_write fuel port s) d Q.
Proof.
  intros Hf. revert d Q. induction s as [|c s IH]; intros d Q HQ; cbn [serial_write map].
  - apply wp_ret, HQ. by rewrite app_nil_r.
  - apply wp_bind, wp_serial_putc; [done|]. intros d1 E1. apply IH. intros d2 E2.
    apply HQ. by rewrite E2, E1, <- app_assoc.
Qed.
End uart.

(** ** Hexadecimal numerals *)

Definition hex_val (c : Z) : Z := if c <=? 57 then c - 48 else c - 55.
Definition is_hex (c : Z) : Prop := 48 <= c <= 57 \/ 65 <= c <= 70.

(** The value of a numeral, most significant digit first. *)
Definition hex_value (ds : list Z) : Z := fold_left (fun acc c => acc * 16 + hex_val c) ds 0.

(** The same, least significant digit first. *)
Fixpoint hex_value_le (ds : list Z) : Z :=
  match ds with [] => 0 | c :: ds' => hex_val c + 16 * hex_value_le ds' end.

Lemma hex_value_reverse ds : hex_value (reverse ds) = hex_value_le ds.
Proof.
  unfold hex_value. induction ds as [|c ds IH]; [done|].
  rewrite reverse_cons, fold_left_app, IH. cbn. lia.
Qed.

Lemma hex_char_spec d : 0 <= d < 16 -> is_hex (hex_char d) /\ hex_val (hex_char d) = d /\ u8 (hex_char d) = hex_char d.
Proof.
  intros Hd.
  assert (Hall : forallb (fun n => let c := hex_char (Z.of_nat n) in
    (((48 <=? c) && (c <=? 57)) || ((65 <=? c) && (c <=? 70))) && (hex_val c =? Z.of_nat n) && (u8 c =? c))
    (seq 0 16) = true) by reflexivity.
  rewrite forallb_forall in Hall. specialize (Hall (Z.to_nat d)).
  rewrite in_seq, Z2Nat.id in Hall by lia. specialize (Hall ltac:(lia)). cbv zeta in Hall.
  unfold is_hex. zbool; cbn in Hall; try done; split_and!; lia.
Qed.

Lemma low_nibble v : 0 <= v -> Z.land v 15 = v mod 16 /\ Z.shiftr v 4 = v / 16.
Proof.
  intros. split; [|by rewrite Z.shiftr_div_pow2 by lia].
  change 15 with (Z.ones 4). by rewrite Z.land_ones by lia.
Qed.

Lemma hex_digits_spec n v :
  0 <= v ->
  let ds := hex_digits n v in
  (length ds <= n)%nat /\ Forall (fun c => is_hex c /\ u8 c = c) ds /\
  hex_value_le ds = v mod 16 ^ Z.of_nat n.
Proof.
  revert v. induction n as [|n IH]; intros v Hv; cbv zeta.
  - cbn. split; [lia|]. split; [done|]. by rewrite Z.mod_1_r.
  - cbn [hex_digits]. destruct (low_nibble v Hv) as [-> ->].
    destruct (hex_char_spec (v mod 16)) as (H1 & H2 & H3); [dlia|].
    rewrite Nat2Z.inj_succ, Z.pow_succ_r by lia.
    assert (Hpos : 0 < 16 ^ Z.of_nat n) by (apply Z.pow_pos_nonneg; lia).
    rewrite Z.rem_mul_r by lia.
    destruct (Z.eqb_spec (v / 16) 0) as [E|E].
    + cbn [hex_value_le length]. rewrite H2, E, Z.mod_0_l by lia. split_and!; [lia|constructor; [done|constructor]|lia].
    + destruct (IH (v / 16)) as (L & F & V); [dlia|]. cbn [length hex_value_le]. rewrite H2, V.
      split_and!; [lia|by constructor|done].
Qed.

Lemma hex_value_le_pad ds k : hex_value_le (ds ++ replicate k 48) = hex_value_le ds.
Proof.
  induction ds as [|c ds IH]; cbn; [|by rewrite IH].
  induction k as [|k IHk]; [done|]. cbn. rewrite IHk. done.
Qed.

Lemma puthex_width_range width : 1 <= puthex_width width <= 16.
Proof. unfold puthex_width. zbool; lia. Qed.

Lemma puthex_buffer_spec value width :
  0 <= value ->
  let ds := reverse (puthex_buffer value width) in
  Z.of_nat (length ds) = puthex_width width /\ Forall is_hex ds /\ map u8 ds = ds /\
  hex_value ds = value mod 16 ^ puthex_width width.
Proof.
  intros Hv. cbv zeta. unfold puthex_buffer. pose proof (puthex_width_range width) as Hw.
  set (w := Z.to_nat (puthex_width width)).
  destruct (hex_digits_spec w value Hv) as (L & F & V). cbv zeta in *.
  assert (Fp : Forall (fun c => is_hex c /\ u8 c = c) (hex_digits w value ++ replicate (w - length (hex_digits w value)) 48)).
  { apply Forall_app_2; [done|]. apply Forall_replicate. split; [left; lia|done]. }
  split_and!.
  - rewrite length_reverse, length_app, length_replicate. lia.
  - apply Forall_reverse. eapply Forall_impl; [exact Fp|]. naive_solver.
  - assert (Fr := Fp). apply Forall_reverse in Fr. revert Fr.
    generalize (reverse (hex_digits w value ++ replicate (w - length (hex_digits w value)) 48)).
    intros l. induction 1 as [|c l [_ Hc] _ IH]; [done|]. cbn. by rewrite Hc, IH.
  - rewrite hex_value_reverse, hex_value_le_pad, V. unfold w. by rewrite Z2Nat.id by lia.
Qed.

(** Hexadecimal output.  On a working transmitter [serial_puthex] ends and sends
    the prefix 0x and then exactly [width] digits (at least 1, at most 16) whose
    value is the number reduced to that many digits. *)
Theorem serial_puthex_correct {D} `{PortBus D} (port : Z) `{!Uart D port} (fuel : nat) (value width : Z) (d : D)
    (Hport : 0 <= port < 65528) (Hfuel : (uart_slow < fuel)%nat) (Hvalue : 0 <= value < 2 ^ 64) :
  exists ds d', serial_puthex fuel port value width d = Some (tt, d') /\
    uart_sent d' = uart_sent d ++ str "0x" ++ ds /\
    Z.of_nat (length ds) = puthex_width width /\ Forall is_hex ds /\
    hex_value ds = value mod 16 ^ puthex_width width.
Proof.
  destruct (puthex_buffer_spec value width) as (H1 & H2 & H3 & H4); [lia|]. cbv zeta in *.
  assert (Hwp : wp (serial_puthex fuel port value width) d
    (fun _ d' => uart_sent d' = uart_sent d ++ str "0x" ++ reverse (puthex_buffer value width))).
  { unfold serial_puthex. apply wp_bind, (wp_serial_puts Hport); [done|]. intros d1 E1.
    apply (wp_serial_write Hport); [done|]. intros d2 E2. by rewrite E2, E1, H3, <- app_assoc. }
  apply wp_run in Hwp as ([] & d' & E & Hs). by exists (reverse (puthex_buffer value width)), d'.
Qed.

(** Text output.  On a working transmitter [serial_puts] ends and sends the
    string with a carriage return before each newline. *)
Theorem serial_puts_correct {D} `{PortBus D} (port : Z) `{!Uart D port} (fuel : nat) (s : list Z) (d : D)
    (Hport : 0 <= port < 65528) (Hfuel : (uart_slow < fuel)%nat) :
  exists d', serial_puts fuel port s d = Some (tt, d') /\ uart_sent d' = uart_sent d ++ crlf s.
Proof.
  assert (Hwp : wp (serial_puts fuel port s) d (fun _ d' => uart_sent d' = uart_sent d ++ crlf s))
    by (by apply (wp_serial_puts Hport)).
  apply wp_run in Hwp as ([] & d' & E & Hs). by exists d'.
Qed.

(** ** A concrete transmitter *)

(** It is busy for one status read after each character. *)
Record demo_uart := mkUart { du_sent : list Z; du_busy : bool }.

#[export] Instance demo_uart_bus : PortBus demo_uart := {|
  bus_in8 p d :=
    if p =? COM1 + SERIAL_LINE_STATUS then (if du_busy d then 0 else 96, mkUart (du_sent d) false)
    else (0, d);
  bus_out8 p v d := if p =? COM1 + SERIAL_DATA then mkUart (du_sent d ++ [v]) true else d;
  bus_in16 p d := (0, d); bus_out16 p v d := d; bus_in32 p d := (0, d); bus_out32 p v d := d;
|}.

#[export] Instance demo_uart_spec : Uart demo_uart COM1.
Proof.
  refine {| uart_wait d := if du_busy d then 1%nat else O; uart_slow := 1%nat; uart_sent := du_sent |}.
  - intros d. destruct (du_busy d); lia.
  - intros d. cbn. by destruct (du_busy d).
  - done.
Defined.

Lemma serial_puthex_correct_witness :
  exists d', serial_puthex 2 COM1 48879 8 (mkUart [] false) = Some (tt, d') /\ length (uart_sent (port := COM1) d') = 10%nat.
Proof.
  destruct (serial_puthex_correct COM1 2 48879 8 (mkUart [] false)) as (ds & d' & E & Hs & Hl & _);
    [unfold COM1; lia|cbn; lia|lia|].
  exists d'. split; [exact E|]. rewrite Hs, !length_app. cbn. unfold puthex_width in Hl. cbn in Hl. lia.
Defined.

Lemma serial_puts_correct_witness :
  exists d', serial_puts 2 COM1 (str "ok" ++ [10]) (mkUart [] false) = Some (tt, d') /\ uart_sent (port := COM1) d' = [111; 107; 13; 10].
Proof.
  destruct (serial_puts_correct COM1 2 (str "ok" ++ [10]) (mkUart [] false)) as (d' & E & Hs);
    [unfold COM1; lia|cbn; lia|].
  exists d'. split; [exact E|exact Hs].
Defined.

(** ** The self test

    [serial_init] answers from the data register alone: it neither switches the
    port to loopback nor sends a test byte, so on a port with nothing received
    it reports a hardware error and leaves the modem control register at 11,
    and it reports success exactly when the byte 174 happens to be waiting. *)
Theorem serial_init_untested (answer : list bus_event -> Z -> Z) (log : list bus_event) (port : Z)
    (Hport : 0 <= port < 65528) :
  let outs := [Out8 (port + 1) 0; Out8 (port + 3) 128; Out8 port 3; Out8 (port + 1) 0;
               Out8 (port + 3) 3; Out8 (port + 2) 199; Out8 (port + 4) 11] in
  let v := u8 (answer (log ++ outs) port) in
  serial_init port (mkTrace answer log) =
  if v =? 174
  then Some (E_OK, mkTrace answer (log ++ outs ++ [In8 port v; Out8 (port + 4) 15]))
  else Some (E_HARDWARE, mkTrace answer (log ++ outs ++ [In8 port v])).
Proof.
  cbv zeta. unfold serial_init, io_bind, outb, inb, io_ret.
  unfold SERIAL_INT_ENABLE, SERIAL_LINE_CTRL, SERIAL_DATA, SERIAL_FIFO_CTRL, SERIAL_MODEM_CTRL.
  rewrite Z.add_0_r, !(u16_small (port + _)), !(u16_small port) by lia.
  cbn [get_bus set_bus bus_itself id bus_out8 bus_in8 trace_PortBus tb_add tb_answer tb_log].
  change (u8 0) with 0. change (u8 128) with 128. change (u8 3) with 3. change (u8 199) with 199.
  change (u8 11) with 11. change (u8 15) with 15. rewrite <- !app_assoc. cbn [app].
  rewrite !(u8_small (u8 _)) by apply u8_range. destruct (u8 _ =? 174); unfold tb_add; cbn [negb tb_answer tb_log]; by rewrite <- !app_assoc.
Qed.

Lemma serial_init_untested_witness :
  exists b, serial_init COM1 (mkTrace (fun _ _ => 0) []) = Some (E_HARDWARE, b) /\ length (tb_log b) = 8%nat.
Proof.
  pose proof (serial_init_untested (fun _ _ => 0) [] COM1 ltac:(unfold COM1; lia)) as H.
  eexists. split; [exact H|reflexivity].
Defined.
