(* ===== verification/Idt.v ===== *)
(** * Interrupt descriptor table and timer chip: interrupts/idt.h,
    interrupts/idt.c, drivers/pit.c (initialisation)

    The table is a map from vector to descriptor; an absent descriptor is all
    zeros, as in the static array.  Loading the table, an assembly routine,
    records the pointer it was given; the interrupt flag records [cli] and
    [sti].  The entry stubs are assembly: their addresses are arguments. *)

From S2P Require Import Prelude Errno Ports.

Definition IDT_ENTRIES : Z := 256.

Record idt_entry_t := mkGate {
  base_low : Z; selector : Z; ist : Z; flags : Z; base_mid : Z; base_high : Z; reserved : Z;
}.
Definition zero_gate : idt_entry_t := mkGate 0 0 0 0 0 0 0.

Record idt_ptr_t := mkIdtPtr { limit : Z; base : Z }.

Record cpu (D : Type) := mkCpu {
  c_bus : D;
  idt : gmap Z idt_entry_t;
  idt_ptr : idt_ptr_t;
  idt_loaded : option idt_ptr_t;
  interrupts_on : bool;
}.
Arguments mkCpu {D}. Arguments c_bus {D}. Arguments idt {D}. Arguments idt_ptr {D}.
Arguments idt_loaded {D}. Arguments interrupts_on {D}.

#[export] Instance cpu_bus D : HasBus (cpu D) D := {|
  get_bus := c_bus;
  set_bus d c := mkCpu d (idt c) (idt_ptr c) (idt_loaded c) (interrupts_on c);
|}.

Definition gate_at (t : gmap Z idt_entry_t) (v : Z) : idt_entry_t := default zero_gate (t !! v).

Definition set_gate (t : gmap Z idt_entry_t) (num base sel flags : Z) : gmap Z idt_entry_t :=
  <[u8 num := mkGate (Z.land base 0xFFFF) (u16 sel) 0 (u8 flags) (Z.land (Z.shiftr base 16) 0xFFFF)
                (Z.land (Z.shiftr base 32) 0xFFFFFFFF) 0]> t.

Section idt.
Context {D : Type} `{PortBus D}.

Definition upd_idt (f : gmap Z idt_entry_t -> gmap Z idt_entry_t) : io (cpu D) unit := fun c =>
  Some (tt, mkCpu (c_bus c) (f (idt c)) (idt_ptr c) (idt_loaded c) (interrupts_on c)).
Definition set_idt_ptr (p : idt_ptr_t) : io (cpu D) unit := fun c =>
  Some (tt, mkCpu (c_bus c) (idt c) p (idt_loaded c) (interrupts_on c)).
(** The processor copies the pointer structure. *)
Definition idt_load : io (cpu D) unit := fun c =>
  Some (tt, mkCpu (c_bus c) (idt c) (idt_ptr c) (Some (idt_ptr c)) (interrupts_on c)).

Definition idt_set_gate (num base sel flags : Z) : io (cpu D) unit :=
  upd_idt (fun t => set_gate t num base sel flags).

Definition idt_disable_interrupts : io (cpu D) unit := fun c =>
  Some (tt, mkCpu (c_bus c) (idt c) (idt_ptr c) (idt_loaded c) false).
Definition idt_enable_interrupts : io (cpu D) unit := fun c =>
  Some (tt, mkCpu (c_bus c) (idt c) (idt_ptr c) (idt_loaded c) true).

(** [idt_addr] is the address of the table; a descriptor has 16 bytes. *)
Definition idt_driver_init (idt_addr irq0 irq1 irq_page_fault : Z) : io (cpu D) kerr_t :=
  set_idt_ptr (mkIdtPtr (u16 (16 * IDT_ENTRIES - 1)) idt_addr) ;;;
  io_for (Z.to_nat IDT_ENTRIES) 0 (fun i => upd_idt (fun t => <[i := zero_gate]> t)) ;;;
  outb 0x20 0x11 ;;;
  outb 0xA0 0x11 ;;;
  outb 0x21 0x20 ;;;
  outb 0xA1 0x28 ;;;
  outb 0x21 0x04 ;;;
  outb 0xA1 0x02 ;;;
  outb 0x21 0x01 ;;;
  outb 0xA1 0x01 ;;;
  outb 0x21 0x0 ;;;
  outb 0xA1 0x0 ;;;
  idt_set_gate 32 irq0 0x08 0x8E ;;;
  idt_set_gate 33 irq1 0x08 0x8E ;;;
  idt_set_gate 14 irq_page_fault 0x08 0x8E ;;;
  idt_load ;;;
  outb 0x21 0xFC ;;;
  outb 0xA1 0xFF ;;;
  io_ret E_OK.
End idt.

(** ** The timer chip *)

Definition PIT_FREQUENCY : Z := 1193182.
Definition PIT_CHANNEL0 : Z := 0x40.
Definition PIT_COMMAND : Z := 0x43.
Definition PIT_MODE_RATE_GENERATOR : Z := 0x04.
Definition PIT_ACCESS_LOHIBYTE : Z := 0x30.
Definition PIT_CHANNEL_0 : Z := 0.

(** The divisor for a frequency, limited to the 16 bits of the counter. *)
Definition pit_divisor (frequency : Z) : Z :=
  let divisor := PIT_FREQUENCY / frequency in
  let divisor := if divisor <? 1 then 1 else divisor in
  if 65535 <? divisor then 65535 else divisor.

Section pit.
Context {S D : Type} `{PortBus D} `{HasBus S D}.

(** The caller sets [pit_ticks] to 0 when this returns. *)
Definition pit_driver_init : io S kerr_t :=
  let frequency := 100 in
  let divisor := pit_divisor frequency in
  let command := Z.lor (Z.lor PIT_CHANNEL_0 PIT_ACCESS_LOHIBYTE) PIT_MODE_RATE_GENERATOR in
  outb PIT_COMMAND command ;;;
  outb PIT_CHANNEL0 (Z.land divisor 0xFF) ;;;
  outb PIT_CHANNEL0 (Z.land (Z.shiftr divisor 8) 0xFF) ;;;
  io_ret E_OK.
End pit.

(** ** How the processor and the chips read what was written *)

(** The handler address of a descriptor. *)
Definition gate_offset (g : idt_entry_t) : Z :=
  Z.lor (Z.lor (base_low g) (Z.shiftl (base_mid g) 16)) (Z.shiftl (base_high g) 32).
Definition gate_present (g : idt_entry_t) : bool := Z.testbit (flags g) 7.

(** A 64-bit value from its parts. *)
Lemma split_64 b :
  0 <= b < 2 ^ 64 ->
  Z.lor (Z.lor (Z.land b 0xFFFF) (Z.shiftl (Z.land (Z.shiftr b 16) 0xFFFF) 16))
    (Z.shiftl (Z.land (Z.shiftr b 32) 0xFFFFFFFF) 32) = b.
Proof.
  intros Hb. change 0xFFFF with (Z.ones 16). change 0xFFFFFFFF with (Z.ones 32).
  apply Z.bits_inj'. intros n Hn. rewrite !Z.lor_spec.
  destruct (decide (64 <= n)).
  { assert (Hz : Z.testbit b n = false).
    { destruct (decide (b = 0)) as [->|]; [by rewrite Z.bits_0|].
      apply Z.bits_above_log2; [lia|]. apply (Z.log2_lt_pow2 b n); [lia|].
      assert (2 ^ 64 <= 2 ^ n) by (apply Z.pow_le_mono_r; lia). lia. }
    rewrite Hz, Z.land_spec, Z.testbit_ones_nonneg, !Z.shiftl_spec, !Z.land_spec, !Z.testbit_ones_nonneg by lia.
    zbool; try lia; rewrite ?andb_false_r; done. }
  rewrite Z.land_spec, Z.testbit_ones_nonneg by lia.
  rewrite !Z.shiftl_spec by lia.
  destruct (decide (n < 16)).
  { rewrite !(Z.testbit_neg_r _ (n - _)) by lia. zbool; try lia. rewrite andb_true_r. by destruct (Z.testbit b n). }
  rewrite (Z.land_spec _ _ (n - 16)), Z.testbit_ones_nonneg, Z.shiftr_spec by lia.
  replace (n - 16 + 16) with n by lia.
  destruct (decide (n < 32)).
  { rewrite (Z.testbit_neg_r _ (n - 32)) by lia. zbool; try lia. by destruct (Z.testbit b n). }
  rewrite Z.land_spec, Z.testbit_ones_nonneg, Z.shiftr_spec by lia.
  replace (n - 32 + 32) with n by lia. zbool; try lia; by destruct (Z.testbit b n).
Qed.

Lemma gate_offset_set_gate t num b sel fl :
  0 <= num < 256 -> 0 <= b < 2 ^ 64 -> gate_offset (gate_at (set_gate t num b sel fl) num) = b.
Proof.
  intros Hn Hb. unfold gate_at, set_gate. rewrite u8_small by lia. rewrite lookup_insert_eq. by apply split_64.
Qed.

Lemma gate_set t num b :
  0 <= num < 256 -> 0 <= b < 2 ^ 64 ->
  let g := gate_at (set_gate t num b 8 0x8E) num in
  gate_present g = true /\ selector g = 8 /\ ist g = 0 /\ gate_offset g = b.
Proof.
  intros Hn Hb. cbv zeta. rewrite gate_offset_set_gate by done.
  unfold gate_at, set_gate. rewrite u8_small by lia. by rewrite lookup_insert_eq.
Qed.

Lemma gate_at_set_gate_ne t num b sel fl v :
  0 <= num < 256 -> v <> num -> gate_at (set_gate t num b sel fl) v = gate_at t v.
Proof. intros Hn Hv. unfold gate_at, set_gate. rewrite u8_small by lia. by rewrite lookup_insert_ne. Qed.

Ltac cpu_simpl := cbn [get_bus set_bus cpu_bus c_bus idt idt_ptr idt_loaded interrupts_on].

Lemma wp_upd_idt {D} `{PortBus D} f (c : cpu D) (Q : unit -> cpu D -> Prop) :
  Q tt (mkCpu (c_bus c) (f (idt c)) (idt_ptr c) (idt_loaded c) (interrupts_on c)) -> wp (upd_idt f) c Q.
Proof. done. Qed.
Lemma wp_idt_load {D} `{PortBus D} (c : cpu D) (Q : unit -> cpu D -> Prop) :
  Q tt (mkCpu (c_bus c) (idt c) (idt_ptr c) (Some (idt_ptr c)) (interrupts_on c)) -> wp idt_load c Q.
Proof. done. Qed.

(** The loop that zeroes the table. *)
Lemma wp_idt_clear {D} `{PortBus D} n i (c : cpu D) (Q : unit -> cpu D -> Prop) :
  (forall t, (forall v, i <= v < i + Z.of_nat n -> gate_at t v = zero_gate) ->
     Q tt (mkCpu (c_bus c) t (idt_ptr c) (idt_loaded c) (interrupts_on c))) ->
  wp (io_for n i (fun i => upd_idt (fun t => <[i := zero_gate]> t))) c Q.
Proof.
  intros HQ. eapply wp_mono.
  - apply (wp_for (fun j c' => c_bus c' = c_bus c /\ idt_ptr c' = idt_ptr c /\ idt_loaded c' = idt_loaded c /\
      interrupts_on c' = interrupts_on c /\ forall v, i <= v < j -> gate_at (idt c') v = zero_gate));
      [split_and!; try done; lia|].
    intros j c1 Hj (E1 & E2 & E3 & E4 & Hz). unfold wp, upd_idt. cbn. split_and!; try done.
    intros v Hv. unfold gate_at. destruct (decide (v = j)) as [->|]; [by rewrite lookup_insert_eq|].
    rewrite lookup_insert_ne by done. apply Hz. lia.
  - intros [] [b t p l o] (E1 & E2 & E3 & E4 & Hz). cbn in *. subst. by apply HQ.
Qed.

(** C30. Interrupt set-up.  Whatever the table held and whatever the ports answer,
    initialisation leaves the timer, keyboard and page fault vectors with
    present gates in the kernel's code segment that lead to their entry points,
    every other vector absent, the pointer to all 256 descriptors loaded, and
    the two interrupt controllers remapped to vectors 32 and 40 with only the
    timer and the keyboard unmasked. *)
Theorem idt_driver_init_correct (idt_addr irq0 irq1 pf : Z) (answer : list bus_event -> Z -> Z)
    (log : list bus_event) (t0 : gmap Z idt_entry_t) (p0 : idt_ptr_t) (l0 : option idt_ptr_t) (on : bool)
    (H0 : 0 <= irq0 < 2 ^ 64) (H1 : 0 <= irq1 < 2 ^ 64) (Hpf : 0 <= pf < 2 ^ 64) :
  exists t, idt_driver_init idt_addr irq0 irq1 pf (mkCpu (mkTrace answer log) t0 p0 l0 on) =
    Some (E_OK, mkCpu (mkTrace answer (log ++
        [Out8 0x20 0x11; Out8 0xA0 0x11; Out8 0x21 32; Out8 0xA1 40; Out8 0x21 4; Out8 0xA1 2;
         Out8 0x21 1; Out8 0xA1 1; Out8 0x21 0; Out8 0xA1 0; Out8 0x21 0xFC; Out8 0xA1 0xFF]))
      t (mkIdtPtr 4095 idt_addr) (Some (mkIdtPtr 4095 idt_addr)) on) /\
    forall v, 0 <= v < 256 ->
      let g := gate_at t v in
      if (v =? 32) || (v =? 33) || (v =? 14)
      then gate_present g = true /\ selector g = 8 /\ ist g = 0 /\
           gate_offset g = (if v =? 32 then irq0 else if v =? 33 then irq1 else pf)
      else gate_present g = false.
Proof.
  enough (Hwp : wp (idt_driver_init idt_addr irq0 irq1 pf) (mkCpu (mkTrace answer log) t0 p0 l0 on)
    (fun e c => exists t, (forall v, 0 <= v < 256 -> gate_at t v = zero_gate) /\ e = E_OK /\
      c = mkCpu (mkTrace answer (log ++
        [Out8 0x20 0x11; Out8 0xA0 0x11; Out8 0x21 32; Out8 0xA1 40; Out8 0x21 4; Out8 0xA1 2;
         Out8 0x21 1; Out8 0xA1 1; Out8 0x21 0; Out8 0xA1 0; Out8 0x21 0xFC; Out8 0xA1 0xFF]))
      (set_gate (set_gate (set_gate t 32 irq0 8 0x8E) 33 irq1 8 0x8E) 14 pf 8 0x8E)
      (mkIdtPtr 4095 idt_addr) (Some (mkIdtPtr 4095 idt_addr)) on)).
  { apply wp_run in Hwp as (e & c & E & t & Hz & -> & ->). eexists. split; [exact E|].
    intros v Hv. cbv zeta.
    destruct (Z.eqb_spec v 14) as [->|Hn14]; [by apply gate_set|].
    rewrite (gate_at_set_gate_ne _ 14) by lia.
    destruct (Z.eqb_spec v 33) as [->|Hn33]; [by apply gate_set|].
    rewrite (gate_at_set_gate_ne _ 33) by lia.
    destruct (Z.eqb_spec v 32) as [->|Hn32]; [by apply gate_set|].
    rewrite (gate_at_set_gate_ne _ 32), Hz by lia. done. }
  unfold idt_driver_init. apply wp_bind. unfold wp at 1, set_idt_ptr at 1.
  cbn [c_bus idt idt_loaded interrupts_on]. apply wp_bind, wp_idt_clear. intros t Ht.
  do 10 (apply wp_bind, wp_outb; cpu_simpl). do 3 (apply wp_bind, wp_upd_idt; cpu_simpl).
  apply wp_bind, wp_idt_load; cpu_simpl. do 2 (apply wp_bind, wp_outb; cpu_simpl). apply wp_ret. exists t. split; [exact Ht|]. split; [reflexivity|].
  cbn [bus_out8 trace_PortBus]. unfold tb_add. cbn [tb_answer tb_log]. rewrite <- !app_assoc. reflexivity.
Qed.

Lemma idt_driver_init_correct_witness :
  exists t b, idt_driver_init 4096 100 200 300 (mkCpu (mkTrace (fun _ _ => 0) []) ∅ (mkIdtPtr 0 0) None false) =
    Some (E_OK, mkCpu b t (mkIdtPtr 4095 4096) (Some (mkIdtPtr 4095 4096)) false) /\
    gate_offset (gate_at t 33) = 200 /\ gate_present (gate_at t 13) = false.
Proof.
  destruct (idt_driver_init_correct 4096 100 200 300 (fun _ _ => 0) [] ∅ (mkIdtPtr 0 0) None false)
    as (t & E & Hg); [lia|lia|lia|].
  eexists t, _. split; [exact E|]. split.
  - exact (proj2 (proj2 (proj2 (Hg 33 ltac:(lia))))).
  - exact (Hg 13 ltac:(lia)).
Defined.

(** The timer.  The chip is programmed for 100 interrupts a second, to within a
    hundredth of a percent; the frequency given to [pit_register] is not used. *)
Theorem pit_driver_init_correct (answer : list bus_event -> Z -> Z) (log : list bus_event) :
  pit_driver_init (mkTrace answer log) =
    Some (E_OK, mkTrace answer (log ++ [Out8 0x43 0x34; Out8 0x40 (pit_divisor 100 mod 256);
                                         Out8 0x40 (pit_divisor 100 / 256)])) /\
  Z.abs (100 * 10000 * pit_divisor 100 - 10000 * PIT_FREQUENCY) <= PIT_FREQUENCY /\
  (forall frequency, 0 < frequency -> 1 <= pit_divisor frequency <= 65535).
Proof.
  split_and!.
  - unfold pit_driver_init, io_bind, outb, io_ret. cbn -[app]. unfold tb_add. cbn -[app]. by rewrite <- !app_assoc.
  - vm_compute. discriminate.
  - intros f Hf. unfold pit_divisor. zbool; lia.
Qed.
