(* ===== verification/Ata.v ===== *)
(** * ATA driver: drivers/disks/ata.h, drivers/disks/ata.c (definitions)

    The driver's functions are computations over any port bus.  [ata_world] is
    what the block operations work on: the bus and the memory their buffers lie
    in.  A device's operations table is closed over the device's driver data;
    a machine that polls forever is [None].  The loops that wait for the drive
    to leave the busy state have no bound in the source and take fuel. *)

From S2P Require Import Prelude Errno Ports CString Block.

Definition ATA_PRIMARY_DATA : Z := 0x1F0.
Definition ATA_PRIMARY_CONTROL : Z := 0x3F6.
Definition ATA_SECONDARY_DATA : Z := 0x170.
Definition ATA_SECONDARY_CONTROL : Z := 0x376.
Definition ATA_CMD_READ_PIO : Z := 0x20.
Definition ATA_CMD_WRITE_PIO : Z := 0x30.
Definition ATA_CMD_CACHE_FLUSH : Z := 0xE7.
Definition ATA_CMD_IDENTIFY : Z := 0xEC.
Definition ATA_SR_BSY : Z := 0x80.
Definition ATA_SR_DRQ : Z := 0x08.
Definition ATA_SR_ERR : Z := 0x01.
Definition ATA_MASTER : Z := 0xA0.
Definition ATA_SLAVE : Z := 0xB0.
Definition ATA_SECTOR_SIZE : Z := 512.

Record ata_device_data_t := mkAta { ata_base : Z; ata_ctrl : Z; ata_drive : Z }.

Record ata_world (D : Type) := mkAw { aw_bus : D; aw_ram : mem }.
Arguments mkAw {D}. Arguments aw_bus {D}. Arguments aw_ram {D}.

#[export] Instance ata_world_bus D : HasBus (ata_world D) D := {|
  get_bus := aw_bus; set_bus d w := mkAw d (aw_ram w) |}.

(** ** Port sequences *)

Section ports.
Context {S D : Type} `{PortBus D} `{HasBus S D}.

Definition ata_wait_busy (fuel : nat) (base : Z) : io S unit :=
  io_until fuel (let! status := inb (base + 7) in io_ret (Z.land status ATA_SR_BSY =? 0)).

(** [while (timeout--)] *)
Fixpoint wait_drq (timeout : nat) (base : Z) : io S kerr_t :=
  match timeout with
  | O => io_ret E_TIMEOUT
  | Datatypes.S timeout' =>
      let! status := inb (base + 7) in
      if negb (Z.land status ATA_SR_ERR =? 0) then io_ret E_HARDWARE
      else if negb (Z.land status ATA_SR_DRQ =? 0) then io_ret E_OK
      else wait_drq timeout' base
  end.
Definition ata_wait_drq (base : Z) : io S kerr_t := wait_drq (Z.to_nat 1000000) base.

(** The parameter is a [uint8_t], so the port read is not the drive's. *)
Definition ata_io_wait (base : Z) : io S unit :=
  io_for 4 0 (fun _ => let! _v := inb (u8 base + 7) in io_ret tt).

Definition drive_bits (drive : Z) : Z := if drive =? ATA_MASTER then 0xE0 else 0xF0.

Definition ata_select_drive_and_lba (base drive lba command : Z) : io S unit :=
  outb (base + 6) (Z.lor (drive_bits drive) (Z.land (Z.shiftr lba 24) 0x0F)) ;;;
  ata_io_wait base ;;;
  outb (base + 2) 1 ;;;
  outb (base + 3) (u8 lba) ;;;
  outb (base + 4) (u8 (Z.shiftr lba 8)) ;;;
  outb (base + 5) (u8 (Z.shiftr lba 16)) ;;;
  outb (base + 7) command.

(** [for (i = 0; i < n; i++) data[i] = inw(base)] into a local array. *)
Fixpoint read_words (n : nat) (base : Z) : io S (list Z) :=
  match n with
  | O => io_ret []
  | Datatypes.S n' => let! w := inw base in let! ws := read_words n' base in io_ret (w :: ws)
  end.

Definition ata_flush_cache (fuel : nat) (base drive : Z) : io S unit :=
  outb (base + 6) (drive_bits drive) ;;;
  outb (base + 7) ATA_CMD_CACHE_FLUSH ;;;
  ata_wait_busy fuel base.
End ports.

(** ** Block operations *)

Section ops.
Context {D : Type} `{PortBus D}.

Definition store16 (p v : Z) : io (ata_world D) unit := fun w =>
  Some (tt, mkAw (aw_bus w) (wr (wr (aw_ram w) p (v mod 256)) (p + 1) (v / 256))).
Definition load16 (p : Z) : io (ata_world D) Z := fun w =>
  Some (rd (aw_ram w) p + 256 * rd (aw_ram w) (p + 1), w).

Definition ata_read_block_op (fuel : nat) (dd : ata_device_data_t) (lba buffer : Z) : io (ata_world D) kerr_t :=
  let base := ata_base dd in
  ata_wait_busy fuel base ;;;
  ata_select_drive_and_lba base (ata_drive dd) lba ATA_CMD_READ_PIO ;;;
  let! e := ata_wait_drq base in
  if negb (is_ok e) then io_ret E_HARDWARE
  else
    io_for 256 0 (fun i => let! w := inw base in store16 (buffer + 2 * i) w) ;;;
    io_ret E_OK.

Definition ata_write_block_op (fuel : nat) (dd : ata_device_data_t) (lba buffer : Z) : io (ata_world D) kerr_t :=
  let base := ata_base dd in
  ata_wait_busy fuel base ;;;
  ata_select_drive_and_lba base (ata_drive dd) lba ATA_CMD_WRITE_PIO ;;;
  let! e := ata_wait_drq base in
  if negb (is_ok e) then io_ret E_HARDWARE
  else
    io_for 256 0 (fun i => let! w := load16 (buffer + 2 * i) in outw base w) ;;;
    ata_wait_busy fuel base ;;;
    ata_flush_cache fuel base (ata_drive dd) ;;;
    io_ret E_OK.

Definition ata_flush_op (fuel : nat) (dd : ata_device_data_t) : io (ata_world D) kerr_t :=
  ata_flush_cache fuel (ata_base dd) (ata_drive dd) ;;;
  io_ret E_OK.

(** An operation as the block layer calls it. *)
Definition as_op (m : io (ata_world D) kerr_t) (w : option (ata_world D)) : Z * option (ata_world D) :=
  match w with
  | None => (0, None)
  | Some w => match m w with Some (e, w) => (kerr_value e, Some w) | None => (0, None) end
  end.

Definition ata_ops (fuel : nat) (dd : ata_device_data_t) : block_device_ops_t (option (ata_world D)) :=
  mkOps (Some (fun _ lba buffer => as_op (ata_read_block_op fuel dd lba buffer)))
    (Some (fun _ lba buffer => as_op (ata_write_block_op fuel dd lba buffer)))
    None None (Some (fun _ => as_op (ata_flush_op fuel dd))).

(** ** Identification *)

(** The bus and the block layer. *)
Record ata_boot := mkBoot { ab_bus : D; ab_blk : block_sys (option (ata_world D)) }.

#[export] Instance ata_boot_bus : HasBus ata_boot D := {|
  get_bus := ab_bus; set_bus d s := mkBoot d (ab_blk s) |}.

(** [dev] and [data] are the addresses of [ata_block_devices[drive_num]] and
    [ata_device_data[drive_num]]; the words 60 and 61 are read as one
    little-endian [uint32_t].  The field [id] is set by the registration. *)
Definition ata_block_device (fuel : nat) (dd : ata_device_data_t) (data drive_num : Z) (ws : list Z)
  : block_device_t (option (ata_world D)) :=
  mkDev 0 BLOCK_TYPE_ATA (nthz ws 60 + 65536 * nthz ws 61) ATA_SECTOR_SIZE true
    (str "ATA" ++ uitoa_chars drive_num) data (Some (ata_ops fuel dd)).

Definition register_block (dev : Z) (d : block_device_t (option (ata_world D))) : io ata_boot unit := fun s =>
  let b := ab_blk s in
  Some (tt, mkBoot (ab_bus s) (snd (block_register_device (mkBlk (<[dev := d]> (dev_mem b)) (g_block_manager b)) dev))).

Definition ata_identify (fuel : nat) (dd : ata_device_data_t) (dev data drive_num : Z) : io ata_boot kerr_t :=
  let base := ata_base dd in
  outb (base + 6) (ata_drive dd) ;;;
  ata_io_wait base ;;;
  outb (base + 7) ATA_CMD_IDENTIFY ;;;
  ata_io_wait base ;;;
  let! status := inb (base + 7) in
  if status =? 0 then io_ret E_NOTFOUND
  else
    ata_wait_busy fuel base ;;;
    let! mid := inb (base + 4) in
    let! high := (if negb (mid =? 0) then io_ret 0 else inb (base + 5)) in
    if negb (mid =? 0) || negb (high =? 0) then io_ret E_NOTFOUND
    else
      let! e := ata_wait_drq base in
      if negb (is_ok e) then io_ret E_HARDWARE
      else
        let! ws := read_words 256 base in
        register_block dev (ata_block_device fuel dd data drive_num ws) ;;;
        io_ret E_OK.

Definition ata_device_data (i : Z) : ata_device_data_t :=
  mkAta (if i <? 2 then ATA_PRIMARY_DATA else ATA_SECONDARY_DATA)
    (if i <? 2 then ATA_PRIMARY_CONTROL else ATA_SECONDARY_CONTROL)
    (if i mod 2 =? 0 then ATA_MASTER else ATA_SLAVE).

(** [ata_block_devices[i].present = 0] *)
Definition clear_present (dev : Z) : io ata_boot unit := fun s =>
  let b := ab_blk s in
  let d := dev_at b dev in
  let d := mkDev (dev_id d) (dev_type d) (block_count d) (block_size d) false (label d) (dev_data d) (ops d) in
  Some (tt, mkBoot (ab_bus s) (mkBlk (<[dev := d]> (dev_mem b)) (g_block_manager b))).

Fixpoint identify_all (n : nat) (fuel : nat) (dev data : Z -> Z) (i count : Z) : io ata_boot Z :=
  match n with
  | O => io_ret count
  | Datatypes.S n' =>
      let! e := ata_identify fuel (ata_device_data i) (dev i) (data i) i in
      identify_all n' fuel dev data (i + 1) (if is_ok e then u8 (count + 1) else count)
  end.

Definition ata_driver_init (fuel : nat) (dev data : Z -> Z) : io ata_boot kerr_t :=
  io_for 4 0 (fun i => clear_present (dev i)) ;;;
  let! count := identify_all 4 fuel dev data 0 0 in
  io_ret (if negb (count =? 0) then E_OK else E_NOTFOUND).
End ops.
Arguments mkBoot {D}. Arguments ab_bus {D}. Arguments ab_blk {D}. Arguments ata_boot : clear implicits.
