(* ===== verification/AtaThms.v ===== *)
(** * ATA driver: the drive's protocol, and the theorems

    [AtaDrive] states what a drive behind the ports promises, as documented for
    28-bit PIO transfers: registers can be written while the drive is ready, a
    command makes it busy for a bounded number of status reads and then ready
    to transfer 256 words, and a completed write changes one sector.  The
    theorems about single operations hold over any such drive; those about the
    block layer compose them with [Block.v]. *)

From S2P Require Import Prelude Errno Ports CString Block Ata.

(** ** The drive's side of the protocol *)

Inductive ata_phase :=
| Ready | Absent
| Busy (n : nat) (next : ata_phase)
| DataIn (ws : list Z)
| DataOut (ws : list Z).

(** Busy for [n] more status reads, then [p]. *)
Definition busy (n : nat) (p : ata_phase) : ata_phase := match n with O => p | _ => Busy n p end.
Definition polled (p : ata_phase) : ata_phase := match p with Busy n p => busy (pred n) p | _ => p end.

(** The status byte in each phase. *)
Definition status_ok (p : ata_phase) (v : Z) : Prop :=
  match p with
  | Ready => Z.land v ATA_SR_BSY = 0 /\ Z.land v ATA_SR_ERR = 0 /\ Z.land v ATA_SR_DRQ = 0 /\ v <> 0
  | Absent => v = 0
  | Busy _ _ => Z.land v ATA_SR_BSY <> 0 /\ Z.land v ATA_SR_ERR = 0 /\ Z.land v ATA_SR_DRQ = 0
  | DataIn _ | DataOut _ => Z.land v ATA_SR_BSY = 0 /\ Z.land v ATA_SR_ERR = 0 /\ Z.land v ATA_SR_DRQ <> 0
  end.

(** Phase, task file registers, sectors of the two drives of the channel, and
    what each answers to IDENTIFY ([None]: no such drive). *)
Record ata_view := mkView {
  av_phase : ata_phase;
  av_reg : Z -> Z;
  av_disk : bool -> Z -> list Z;
  av_ident : bool -> option (list Z);
}.
Definition with_phase (v : ata_view) (p : ata_phase) : ata_view := mkView p (av_reg v) (av_disk v) (av_ident v).

(** The drive and the sector the registers select. *)
Definition sel (v : ata_view) : bool := Z.testbit (av_reg v 6) 4.
Definition sel_lba (v : ata_view) : Z :=
  av_reg v 3 + 256 * av_reg v 4 + 65536 * av_reg v 5 + 16777216 * (Z.land (av_reg v 6) 0x0F).
Definition lba_mode (v : ata_view) : Prop := Z.testbit (av_reg v 6) 6 = true /\ av_reg v 2 = 1.

Definition store_sector (disk : bool -> Z -> list Z) (s : bool) (lba : Z) (ws : list Z) : bool -> Z -> list Z :=
  fun s' lba' => if Bool.eqb s' s && (lba' =? lba) then ws else disk s' lba'.

Class AtaDrive (D : Type) `{PortBus D} (base : Z) := {
  ata_alpha : D -> ata_view;
  ata_latency : nat;
  ata_status d :
    let '(v, d') := bus_in8 (base + 7) d in
    status_ok (av_phase (ata_alpha d)) (u8 v) /\
    ata_alpha d' = with_phase (ata_alpha d) (polled (av_phase (ata_alpha d)));
  ata_other d p : ~ base <= p < base + 8 -> ata_alpha (snd (bus_in8 p d)) = ata_alpha d;
  ata_write_reg d r v :
    av_phase (ata_alpha d) = Ready \/ av_phase (ata_alpha d) = Absent -> 2 <= r <= 6 ->
    ata_alpha (bus_out8 (base + r) v d) =
    mkView Ready (fun r' => if r' =? r then v else av_reg (ata_alpha d) r')
      (av_disk (ata_alpha d)) (av_ident (ata_alpha d));
  ata_read_reg d r ws :
    av_phase (ata_alpha d) = DataIn ws -> r = 4 \/ r = 5 ->
    u8 (fst (bus_in8 (base + r) d)) = 0 /\ ata_alpha (snd (bus_in8 (base + r) d)) = ata_alpha d;
  ata_cmd_read d :
    av_phase (ata_alpha d) = Ready -> lba_mode (ata_alpha d) ->
    exists n, (n <= ata_latency)%nat /\
      ata_alpha (bus_out8 (base + 7) ATA_CMD_READ_PIO d) =
      with_phase (ata_alpha d) (busy n (DataIn (av_disk (ata_alpha d) (sel (ata_alpha d)) (sel_lba (ata_alpha d)))));
  ata_cmd_write d :
    av_phase (ata_alpha d) = Ready -> lba_mode (ata_alpha d) ->
    exists n, (n <= ata_latency)%nat /\
      ata_alpha (bus_out8 (base + 7) ATA_CMD_WRITE_PIO d) = with_phase (ata_alpha d) (busy n (DataOut []));
  ata_cmd_flush d :
    av_phase (ata_alpha d) = Ready ->
    exists n, (n <= ata_latency)%nat /\
      ata_alpha (bus_out8 (base + 7) ATA_CMD_CACHE_FLUSH d) = with_phase (ata_alpha d) (busy n Ready);
  ata_cmd_identify d :
    av_phase (ata_alpha d) = Ready ->
    match av_ident (ata_alpha d) (sel (ata_alpha d)) with
    | Some ws => exists n, (n <= ata_latency)%nat /\
        ata_alpha (bus_out8 (base + 7) ATA_CMD_IDENTIFY d) = with_phase (ata_alpha d) (busy n (DataIn ws))
    | None => ata_alpha (bus_out8 (base + 7) ATA_CMD_IDENTIFY d) = with_phase (ata_alpha d) Absent
    end;
  ata_data_in d w ws :
    av_phase (ata_alpha d) = DataIn (w :: ws) ->
    fst (bus_in16 base d) = w /\
    ata_alpha (snd (bus_in16 base d)) = with_phase (ata_alpha d) (match ws with [] => Ready | _ => DataIn ws end);
  ata_data_out d ws v :
    av_phase (ata_alpha d) = DataOut ws -> (length ws < 255)%nat ->
    ata_alpha (bus_out16 base v d) = with_phase (ata_alpha d) (DataOut (ws ++ [v]));
  ata_data_last d ws v :
    av_phase (ata_alpha d) = DataOut ws -> length ws = 255%nat ->
    exists n, (n <= ata_latency)%nat /\ ata_alpha (bus_out16 base v d) =
      mkView (busy n Ready) (av_reg (ata_alpha d))
        (store_sector (av_disk (ata_alpha d)) (sel (ata_alpha d)) (sel_lba (ata_alpha d)) (ws ++ [v]))
        (av_ident (ata_alpha d));
}.

#[export] Instance ata_world_lens D : BusLens (ata_world D) D.
Proof. split; by intros; destruct s. Qed.
#[export] Instance ata_boot_lens D `{PortBus D} : BusLens (ata_boot D) D.
Proof. split; by intros; destruct s. Qed.

(** ** Register arithmetic *)

Definition is_slave (drive : Z) : bool := negb (drive =? ATA_MASTER).

Lemma head_byte drive x :
  0 <= x < 16 ->
  let v := u8 (Z.lor (drive_bits drive) x) in
  Z.testbit v 6 = true /\ Z.testbit v 4 = is_slave drive /\ Z.land v 0x0F = x.
Proof.
  intros Hx. cbv zeta. unfold drive_bits, is_slave.
  assert (Hall : forallb (fun n => let x := Z.of_nat n in
    let a := u8 (Z.lor 0xE0 x) in let b := u8 (Z.lor 0xF0 x) in
    Z.testbit a 6 && negb (Z.testbit a 4) && (Z.land a 0x0F =? x) &&
    Z.testbit b 6 && Z.testbit b 4 && (Z.land b 0x0F =? x)) (seq 0 16) = true) by reflexivity.
  rewrite forallb_forall in Hall. specialize (Hall (Z.to_nat x)). rewrite in_seq, Z2Nat.id in Hall by lia.
  specialize (Hall ltac:(lia)). cbv zeta in Hall.
  rewrite !andb_true_iff, negb_true_iff, !Z.eqb_eq in Hall. destruct Hall as [[[[[? ?] ?] ?] ?] ?].
  destruct (drive =? ATA_MASTER); by split_and!.
Qed.

Lemma lba_bytes lba :
  0 <= lba ->
  u8 lba + 256 * u8 (Z.shiftr lba 8) + 65536 * u8 (Z.shiftr lba 16) + 16777216 * Z.land (Z.shiftr lba 24) 0x0F =
  lba mod 2 ^ 28 /\ 0 <= Z.land (Z.shiftr lba 24) 0x0F < 16.
Proof.
  intros Hl. rewrite !Z.shiftr_div_pow2 by lia. change 0x0F with (Z.ones 4). rewrite Z.land_ones by lia.
  unfold u8. change (2 ^ 8) with 256. change (2 ^ 16) with 65536. change (2 ^ 24) with 16777216.
  change (2 ^ 28) with 268435456. change (2 ^ 4) with 16. split; [|dlia].
  assert (E1 : lba / 65536 = lba / 256 / 256) by (rewrite Z.div_div by lia; done).
  assert (E2 : lba / 16777216 = lba / 256 / 256 / 256) by (rewrite !Z.div_div by lia; done).
  rewrite E1, E2. dlia.
Qed.

(** ** One port sequence at a time *)

Section protocol.
Context {S D : Type} `{HB : PortBus D} `{HS : HasBus S D} `{HL : !BusLens S D} {bs : Z} {HA : AtaDrive D bs}.
Hypothesis Hbs : bs = ATA_PRIMARY_DATA \/ bs = ATA_SECONDARY_DATA.

Local Abbreviation alpha := (ata_alpha (AtaDrive := HA)).
Implicit Types (d : D) (s : S).

Lemma base_range k : 0 <= k < 8 -> u16 (bs + k) = bs + k.
Proof using Hbs. clear HA. intros. apply u16_small. destruct Hbs as [-> | ->]; unfold ATA_PRIMARY_DATA, ATA_SECONDARY_DATA; lia. Qed.

Lemma wp_status s (Q : Z -> S -> Prop) :
  (forall v d, status_ok (av_phase (alpha (get_bus s))) v ->
     alpha d = with_phase (alpha (get_bus s)) (polled (av_phase (alpha (get_bus s)))) -> Q v (set_bus d s)) ->
  wp (inb (bs + 7)) s Q.
Proof using Hbs.
  intros HQ. apply wp_inb. rewrite base_range by lia. pose proof (ata_status (AtaDrive := HA) (get_bus s)) as Hs.
  destruct (bus_in8 (bs + 7) (get_bus s)) as [v d]. destruct Hs as [H1 H2]. by apply HQ.
Qed.

Definition settled (p : ata_phase) : Prop := match p with Busy _ _ => False | _ => True end.

Lemma polled_settled p : settled p -> polled p = p.
Proof. by destruct p. Qed.

Lemma wp_wait_busy fuel s n p (Q : unit -> S -> Prop) :
  av_phase (alpha (get_bus s)) = busy n p -> settled p -> (n < fuel)%nat ->
  (forall d, alpha d = with_phase (alpha (get_bus s)) p -> Q tt (set_bus d s)) ->
  wp (ata_wait_busy fuel bs) s Q.
Proof using Hbs HL.
  intros Hp Hset Hf HQ. unfold ata_wait_busy. eapply wp_mono.
  - apply (wp_until (fun k t => exists d, t = set_bus d s /\ alpha d = with_phase (alpha (get_bus s)) (busy k p))
      (fun t => exists d, t = set_bus d s /\ alpha d = with_phase (alpha (get_bus s)) p) n); [done| | |].
    + exists (get_bus s). rewrite set_get_bus, <- Hp. by destruct (alpha (get_bus s)).
    + intros j t (d & -> & Ha). apply wp_bind, wp_status. rewrite get_set_bus, Ha.
      cbn [av_phase with_phase busy status_ok polled pred]. intros v d' (Hv & _) Ha'. apply wp_ret.
      split; [by apply Z.eqb_neq|]. exists d'. by rewrite set_set_bus.
    + intros t (d & -> & Ha). apply wp_bind, wp_status. rewrite get_set_bus, Ha.
      cbn [av_phase with_phase busy]. rewrite polled_settled by done. intros v d' Hv Ha'. apply wp_ret.
      split; [|exists d'; by rewrite set_set_bus]. apply Z.eqb_eq. destruct p; cbn in Hv, Hset; try tauto. by rewrite Hv.
  - intros [] t (d & -> & Ha). by apply HQ.
Qed.

(** A drive ready to transfer. *)
Definition transfer (p : ata_phase) : Prop := match p with DataIn _ | DataOut _ => True | _ => False end.

Lemma wp_wait_drq timeout s n p (Q : kerr_t -> S -> Prop) :
  av_phase (alpha (get_bus s)) = busy n p -> transfer p -> (n < timeout)%nat ->
  (forall d, alpha d = with_phase (alpha (get_bus s)) p -> Q E_OK (set_bus d s)) ->
  wp (wait_drq timeout bs) s Q.
Proof using Hbs HL.
  revert timeout s. induction n as [|n IH]; intros timeout s Hp Ht Hn HQ; (destruct timeout as [|timeout]; [lia|]);
    cbn [wait_drq]; apply wp_bind, wp_status; rewrite Hp; cbn [busy].
  - rewrite polled_settled by (by destruct p). intros v d Hv Ha.
    assert (Z.land v ATA_SR_ERR = 0 /\ Z.land v ATA_SR_DRQ <> 0) as [-> Hd] by (destruct p; cbn in *; tauto).
    rewrite (proj2 (Z.eqb_neq _ _) Hd). apply wp_ret. by apply HQ.
  - intros v d (_ & -> & ->) Ha. cbn [status_ok polled pred] in *. cbn [negb Z.eqb].
    apply IH; [|done|lia|].
    + by rewrite get_set_bus, Ha.
    + intros d'. rewrite get_set_bus, Ha, set_set_bus. cbn [with_phase]. intros E. apply HQ. exact E.
Qed.

Lemma wp_io_wait s (Q : unit -> S -> Prop) :
  (forall d, alpha d = alpha (get_bus s) -> Q tt (set_bus d s)) -> wp (ata_io_wait bs) s Q.
Proof using Hbs HL.
  intros HQ. unfold ata_io_wait. eapply wp_mono.
  - apply (wp_for (fun _ t => exists d, t = set_bus d s /\ alpha d = alpha (get_bus s)) 4 0).
    + exists (get_bus s). by rewrite set_get_bus.
    + intros j t Hj (d & -> & Ha). apply wp_bind, wp_inb, wp_ret. rewrite set_set_bus, get_set_bus.
      eexists. split; [reflexivity|]. rewrite ata_other; [done|].
      destruct Hbs as [-> | ->]; vm_compute; intros [? ?]; congruence.
  - intros [] t (d & -> & Ha). by apply HQ.
Qed.

Lemma wp_write_reg s r x (Q : unit -> S -> Prop) :
  av_phase (alpha (get_bus s)) = Ready \/ av_phase (alpha (get_bus s)) = Absent -> 2 <= r <= 6 ->
  (forall d, alpha d = mkView Ready (fun r' => if r' =? r then u8 x else av_reg (alpha (get_bus s)) r')
       (av_disk (alpha (get_bus s))) (av_ident (alpha (get_bus s))) -> Q tt (set_bus d s)) ->
  wp (outb (bs + r) x) s Q.
Proof using Hbs.
  intros Hp Hr HQ. apply wp_outb. rewrite base_range by lia. apply HQ. by apply ata_write_reg.
Qed.

(** Drive, count and address set up; the command is given in a ready state with
    the registers selecting the sector. *)
Lemma wp_select s drive lba command (Q : unit -> S -> Prop) :
  0 <= lba -> av_phase (alpha (get_bus s)) = Ready ->
  (forall d v, alpha d = v -> av_phase v = Ready -> lba_mode v -> sel v = is_slave drive ->
     sel_lba v = lba mod 2 ^ 28 -> av_disk v = av_disk (alpha (get_bus s)) ->
     av_ident v = av_ident (alpha (get_bus s)) ->
     Q tt (set_bus (bus_out8 (bs + 7) (u8 command) d) s)) ->
  wp (ata_select_drive_and_lba bs drive lba command) s Q.
Proof using Hbs HL.
  intros Hl Hr HQ. destruct (lba_bytes lba Hl) as [El Hx].
  destruct (head_byte drive _ Hx) as (B1 & B2 & B3). cbv zeta in *.
  unfold ata_select_drive_and_lba. apply wp_bind, wp_write_reg; [by left|lia|]. intros d1 E1.
  apply wp_bind, wp_io_wait. rewrite get_set_bus. intros d2 E2. rewrite set_set_bus.
  apply wp_bind, wp_write_reg; rewrite ?get_set_bus, ?E2, ?E1; [by left|lia|]. intros d3 E3. rewrite set_set_bus.
  apply wp_bind, wp_write_reg; rewrite ?get_set_bus, ?E3; [by left|lia|]. intros d4 E4. rewrite set_set_bus.
  apply wp_bind, wp_write_reg; rewrite ?get_set_bus, ?E4; [by left|lia|]. intros d5 E5. rewrite set_set_bus.
  apply wp_bind, wp_write_reg; rewrite ?get_set_bus, ?E5; [by left|lia|]. intros d6 E6. rewrite set_set_bus.
  apply wp_outb. rewrite base_range, get_set_bus, set_set_bus by lia.
  apply (HQ d6 _ E6); unfold lba_mode, sel, sel_lba; cbn [av_phase av_reg av_disk av_ident Z.eqb Pos.eqb]; try done.
  rewrite B3, <- El. by rewrite !(u8_small (u8 _)) by apply u8_range.
Qed.
End protocol.

(** ** Blocks *)

(** The bytes of a sector, low byte of each word first. *)
Definition sector_byte (ws : list Z) (j : Z) : Z :=
  if j mod 2 =? 0 then nthz ws (j / 2) mod 256 else nthz ws (j / 2) / 256.
(** The words of a buffer. *)
Definition ram_words (m : mem) (p : Z) : list Z :=
  map (fun k => rd m (p + 2 * Z.of_nat k) + 256 * rd m (p + 2 * Z.of_nat k + 1)) (seq 0 256).

Definition sector_ok (ws : list Z) : Prop := length ws = 256%nat /\ Forall (fun w => 0 <= w < 65536) ws.
Definition buffer_ok (m : mem) (p : Z) : Prop := forall j, 0 <= j < 512 -> 0 <= rd m (p + j) < 256.

Lemma ram_words_at m p k : 0 <= k < 256 -> nthz (ram_words m p) k = rd m (p + 2 * k) + 256 * rd m (p + 2 * k + 1).
Proof.
  intros Hk. unfold nthz, ram_words. rewrite list_lookup_fmap, lookup_seq_lt by lia. cbn. by rewrite Z2Nat.id by lia.
Qed.

Lemma ram_words_sector m p : buffer_ok m p -> sector_ok (ram_words m p).
Proof.
  intros Hb. split; [unfold ram_words; by rewrite length_map, length_seq|].
  apply Forall_lookup_2. intros i w Hi. unfold ram_words in Hi. rewrite list_lookup_fmap in Hi.
  destruct (seq 0 256 !! i) as [k|] eqn:E; [|done]. injection Hi as <-. apply lookup_seq in E as [-> Hlt].
  pose proof (Hb (2 * Z.of_nat (0 + i))) as H1. pose proof (Hb (2 * Z.of_nat (0 + i) + 1)) as H2.
  rewrite Z.add_assoc in H2. lia.
Qed.

Lemma ram_words_byte m p j : buffer_ok m p -> 0 <= j < 512 -> sector_byte (ram_words m p) j = rd m (p + j).
Proof.
  intros Hb Hj. unfold sector_byte. rewrite ram_words_at by dlia.
  pose proof (Hb (2 * (j / 2)) ltac:(dlia)) as H1. pose proof (Hb (2 * (j / 2) + 1) ltac:(dlia)) as H2.
  rewrite Z.add_assoc in H2.
  destruct (Z.eqb_spec (j mod 2) 0).
  - replace j with (2 * (j / 2)) at 3 by dlia. dlia.
  - replace j with (2 * (j / 2) + 1) at 3 by dlia. rewrite Z.add_assoc. dlia.
Qed.

Section blocks.
Context {D : Type} `{HB : PortBus D} {bs : Z} {HA : AtaDrive D bs}.
Hypothesis Hbs : bs = ATA_PRIMARY_DATA \/ bs = ATA_SECONDARY_DATA.

Local Abbreviation alpha := (ata_alpha (AtaDrive := HA)).
Local Abbreviation latency := (ata_latency (AtaDrive := HA)).

(** Waiting for at most the drive's latency before it is ready. *)
Definition quiet (d : D) : Prop := exists n, (n <= latency)%nat /\ av_phase (alpha d) = busy n Ready.

(** The phase while words are left to read. *)
Definition reading (ws : list Z) : ata_phase := match ws with [] => Ready | _ => DataIn ws end.

Lemma wp_data_in d ram buffer ws v (Q : unit -> ata_world D -> Prop) :
  sector_ok ws -> alpha d = with_phase v (DataIn ws) ->
  (forall d' ram', alpha d' = with_phase v Ready ->
     (forall j, 0 <= j < 512 -> rd ram' (buffer + j) = sector_byte ws j) ->
     (forall a, ~ buffer <= a < buffer + 512 -> rd ram' a = rd ram a) -> Q tt (mkAw d' ram')) ->
  wp (io_for 256 0 (fun i => let! w := inw bs in store16 (buffer + 2 * i) w)) (mkAw d ram) Q.
Proof using Hbs.
  intros [Hlen Hws] Ha HQ. eapply wp_mono.
  - apply (wp_for (fun i t => exists d' ram', t = mkAw d' ram' /\
      alpha d' = with_phase v (reading (drop (Z.to_nat i) ws)) /\
      (forall j, 0 <= j < 2 * i -> rd ram' (buffer + j) = sector_byte ws j) /\
      (forall a, ~ buffer <= a < buffer + 2 * i -> rd ram' a = rd ram a)) 256 0).
    + exists d, ram. split_and!; [done| |lia|done]. rewrite Ha. by destruct ws.
    + intros i t Hi (d1 & ram1 & -> & E1 & Hb & Ho).
      destruct (lookup_lt_is_Some_2 ws (Z.to_nat i)) as [x Hx]; [lia|].
      rewrite (drop_S ws x) in E1 by done. cbn [reading] in E1.
      pose proof (ata_data_in (AtaDrive := HA) d1 x (drop (Datatypes.S (Z.to_nat i)) ws)) as Hd.
      rewrite E1 in Hd. specialize (Hd eq_refl) as [Hd1 Hd2].
      assert (Hx16 : 0 <= x < 65536) by (by eapply (Forall_lookup_1 _ _ _ _ Hws)).
      apply wp_bind, wp_inw. cbn [get_bus set_bus ata_world_bus aw_bus aw_ram].
      replace (u16 bs) with bs by (rewrite <- (Z.add_0_r bs) at 2; rewrite base_range; [lia|done|lia]).
      rewrite Hd1, u16_small by lia. unfold wp, store16. cbn [aw_bus aw_ram].
      assert (Hn : nthz ws i = x) by (unfold nthz; by rewrite Hx).
      eexists _, _. split; [reflexivity|]. split; [|split].
      * rewrite Hd2. replace (Z.to_nat (i + 1)) with (Datatypes.S (Z.to_nat i)) by lia. done.
      * intros j Hj. unfold sector_byte. destruct (decide (j = 2 * i + 1)) as [->|].
        { replace (buffer + (2 * i + 1)) with (buffer + 2 * i + 1) by lia. rewrite rd_wr_eq.
          replace ((2 * i + 1) / 2) with i by dlia. rewrite Hn.
          destruct (Z.eqb_spec ((2 * i + 1) mod 2) 0); [exfalso; dlia|done]. }
        rewrite rd_wr_ne by lia. destruct (decide (j = 2 * i)) as [->|].
        { rewrite rd_wr_eq. replace (2 * i / 2) with i by dlia. rewrite Hn.
          destruct (Z.eqb_spec (2 * i mod 2) 0); [done|exfalso; dlia]. }
        rewrite rd_wr_ne by lia. apply Hb. lia.
      * intros a Hout. rewrite !rd_wr_ne by lia. apply Ho. lia.
  - intros [] t (d' & ram' & -> & E & Hb & Ho). apply HQ; [|exact Hb|exact Ho].
    rewrite drop_ge in E by (cbn; lia). exact E.
Qed.

Lemma wp_data_out d ram buffer v (Q : unit -> ata_world D -> Prop) :
  buffer_ok ram buffer -> alpha d = with_phase v (DataOut []) ->
  (forall d' n, (n <= latency)%nat -> alpha d' = mkView (busy n Ready) (av_reg v)
       (store_sector (av_disk v) (sel v) (sel_lba v) (ram_words ram buffer)) (av_ident v) -> Q tt (mkAw d' ram)) ->
  wp (io_for 256 0 (fun i => let! w := load16 (buffer + 2 * i) in outw bs w)) (mkAw d ram) Q.
Proof using Hbs.
  intros Hbuf Ha HQ. destruct (ram_words_sector ram buffer Hbuf) as [Hlen Hws]. eapply wp_mono.
  - apply (wp_for (fun i t => exists d', t = mkAw d' ram /\
      if i <? 256 then alpha d' = with_phase v (DataOut (take (Z.to_nat i) (ram_words ram buffer)))
      else exists n, (n <= latency)%nat /\ alpha d' = mkView (busy n Ready) (av_reg v)
        (store_sector (av_disk v) (sel v) (sel_lba v) (ram_words ram buffer)) (av_ident v)) 256 0).
    + exists d. split; [done|]. cbn. by rewrite take_0.
    + intros i t Hi (d1 & -> & E1). cbn in Hi. rewrite (proj2 (Z.ltb_lt i 256)) in E1 by lia.
      unfold wp, io_bind, load16, outw. cbn [aw_bus aw_ram get_bus set_bus ata_world_bus].
      replace (u16 bs) with bs by (rewrite <- (Z.add_0_r bs) at 2; rewrite base_range; [lia|done|lia]).
      rewrite <- (ram_words_at ram buffer i) by lia.
      destruct (lookup_lt_is_Some_2 (ram_words ram buffer) (Z.to_nat i)) as [x Hx]; [lia|].
      assert (Hn : nthz (ram_words ram buffer) i = x) by (unfold nthz; by rewrite Hx).
      assert (Hx16 : 0 <= x < 65536) by (by eapply (Forall_lookup_1 _ _ _ _ Hws)).
      rewrite Hn, u16_small by lia. eexists. split; [reflexivity|].
      assert (Ht : take (Z.to_nat i) (ram_words ram buffer) ++ [x] = take (Z.to_nat (i + 1)) (ram_words ram buffer)).
      { replace (Z.to_nat (i + 1)) with (Datatypes.S (Z.to_nat i)) by lia. symmetry. by apply take_S_r. }
      destruct (Z.ltb_spec (i + 1) 256) as [Hlt|Hge].
      * pose proof (ata_data_out (AtaDrive := HA) d1 (take (Z.to_nat i) (ram_words ram buffer)) x) as Hd.
        rewrite E1 in Hd. rewrite Hd; [by rewrite Ht|done|]. rewrite length_take. lia.
      * pose proof (ata_data_last (AtaDrive := HA) d1 (take (Z.to_nat i) (ram_words ram buffer)) x) as Hd.
        rewrite E1 in Hd. destruct Hd as (n & Hle & E); [done|rewrite length_take; lia|].
        exists n. split; [done|]. rewrite E, Ht. rewrite (take_ge _ (Z.to_nat (i + 1))) by lia. done.
  - intros [] t (d' & -> & n & Hle & E). by eapply HQ.
Qed.

Lemma timeout_ok n : (n <= latency)%nat -> Z.of_nat latency < 1000000 -> (n < Z.to_nat 1000000)%nat.
Proof. intros. lia. Qed.

Lemma wp_ata_read fuel dd lba buffer (d : D) ram (Q : kerr_t -> ata_world D -> Prop) :
  let ws := av_disk (alpha d) (is_slave (ata_drive dd)) (lba mod 2 ^ 28) in
  ata_base dd = bs -> quiet d -> (latency < fuel)%nat -> Z.of_nat latency < 1000000 -> 0 <= lba -> sector_ok ws ->
  (forall d' ram', av_phase (alpha d') = Ready -> av_disk (alpha d') = av_disk (alpha d) ->
     (forall j, 0 <= j < 512 -> rd ram' (buffer + j) = sector_byte ws j) ->
     (forall a, ~ buffer <= a < buffer + 512 -> rd ram' a = rd ram a) -> Q E_OK (mkAw d' ram')) ->
  wp (ata_read_block_op fuel dd lba buffer) (mkAw d ram) Q.
Proof using Hbs.
  intros ws Hdd (n & Hn & Hq) Hf Hl Hlba Hws HQ. unfold ata_read_block_op. rewrite Hdd.
  apply wp_bind. eapply (wp_wait_busy Hbs _ _ n Ready); [exact Hq|done|lia|]. intros d1 E1.
  apply wp_bind, (wp_select Hbs); [done|cbn [get_bus set_bus ata_world_bus aw_bus]; by rewrite E1|]. cbn [get_bus set_bus ata_world_bus aw_bus aw_ram].
  intros d2 v E2 P2 M2 S2 L2 K2 I2.
  destruct (ata_cmd_read (AtaDrive := HA) d2) as (n2 & Hn2 & E3); [by rewrite E2|by rewrite E2|].
  rewrite E2, S2, L2, K2, E1 in E3. cbn [av_disk with_phase] in E3. fold ws in E3.
  change (u8 ATA_CMD_READ_PIO) with ATA_CMD_READ_PIO.
  apply wp_bind. unfold ata_wait_drq.
  eapply (wp_wait_drq Hbs _ _ n2 (DataIn ws)); [cbn [get_bus aw_bus ata_world_bus]; by rewrite E3|done|by apply timeout_ok|].
  cbn [get_bus set_bus ata_world_bus aw_bus aw_ram]. intros d3 E4. rewrite E3 in E4. cbn [is_ok negb].
  apply wp_bind. eapply (wp_data_in d3 ram buffer ws v); [done|by rewrite E4|].
  intros d4 ram4 E5 Hb Ho. apply wp_ret. apply HQ; [by rewrite E5| |done|done].
  rewrite E5. cbn [av_disk with_phase]. by rewrite K2, E1.
Qed.

Lemma wp_flush_cache fuel drive (d : D) ram (Q : unit -> ata_world D -> Prop) :
  av_phase (alpha d) = Ready -> (latency < fuel)%nat ->
  (forall d', av_phase (alpha d') = Ready -> av_disk (alpha d') = av_disk (alpha d) -> Q tt (mkAw d' ram)) ->
  wp (ata_flush_cache fuel bs drive) (mkAw d ram) Q.
Proof using Hbs.
  intros Hp Hf HQ. unfold ata_flush_cache. apply wp_bind, (wp_write_reg Hbs); [by left|lia|].
  cbn [get_bus set_bus ata_world_bus aw_bus aw_ram]. intros d1 E1.
  apply wp_bind, wp_outb. rewrite (base_range Hbs) by lia. change (u8 ATA_CMD_CACHE_FLUSH) with ATA_CMD_CACHE_FLUSH.
  cbn [get_bus set_bus ata_world_bus aw_bus aw_ram].
  destruct (ata_cmd_flush (AtaDrive := HA) d1) as (n & Hn & E2); [by rewrite E1|]. rewrite E1 in E2.
  eapply (wp_wait_busy Hbs _ _ n Ready); [cbn [get_bus aw_bus ata_world_bus]; by rewrite E2|done|lia|].
  cbn [get_bus set_bus ata_world_bus aw_bus aw_ram]. intros d2 E3. rewrite E2 in E3. apply HQ; by rewrite E3.
Qed.

Lemma wp_ata_write fuel dd lba buffer (d : D) ram (Q : kerr_t -> ata_world D -> Prop) :
  ata_base dd = bs -> quiet d -> (latency < fuel)%nat -> Z.of_nat latency < 1000000 -> 0 <= lba -> buffer_ok ram buffer ->
  (forall d', av_phase (alpha d') = Ready ->
     av_disk (alpha d') =
       store_sector (av_disk (alpha d)) (is_slave (ata_drive dd)) (lba mod 2 ^ 28) (ram_words ram buffer) ->
     Q E_OK (mkAw d' ram)) ->
  wp (ata_write_block_op fuel dd lba buffer) (mkAw d ram) Q.
Proof using Hbs.
  intros Hdd (n & Hn & Hq) Hf Hl Hlba Hbuf HQ. unfold ata_write_block_op. rewrite Hdd.
  apply wp_bind. eapply (wp_wait_busy Hbs _ _ n Ready); [exact Hq|done|lia|]. intros d1 E1.
  apply wp_bind, (wp_select Hbs); [done|cbn [get_bus set_bus ata_world_bus aw_bus]; by rewrite E1|]. cbn [get_bus set_bus ata_world_bus aw_bus aw_ram].
  intros d2 v E2 P2 M2 S2 L2 K2 I2.
  destruct (ata_cmd_write (AtaDrive := HA) d2) as (n2 & Hn2 & E3); [by rewrite E2|by rewrite E2|].
  rewrite E2 in E3. change (u8 ATA_CMD_WRITE_PIO) with ATA_CMD_WRITE_PIO. apply wp_bind. unfold ata_wait_drq.
  eapply (wp_wait_drq Hbs _ _ n2 (DataOut [])); [cbn [get_bus aw_bus ata_world_bus]; by rewrite E3|done|by apply timeout_ok|].
  cbn [get_bus set_bus ata_world_bus aw_bus aw_ram]. intros d3 E4. rewrite E3 in E4. cbn [is_ok negb].
  apply wp_bind. eapply (wp_data_out d3 ram buffer v); [done|by rewrite E4|]. intros d4 n4 Hn4 E5.
  rewrite S2, L2, K2, E1 in E5. cbn [av_disk with_phase] in E5.
  apply wp_bind. eapply (wp_wait_busy Hbs _ _ n4 Ready); [cbn [get_bus aw_bus ata_world_bus]; by rewrite E5|done|lia|].
  cbn [get_bus set_bus ata_world_bus aw_bus aw_ram]. intros d5 E6. rewrite E5 in E6.
  apply wp_bind, wp_flush_cache; [by rewrite E6|done|]. intros d6 P6 K6. apply wp_ret. apply HQ; [done|].
  by rewrite K6, E6.
Qed.
End blocks.

(** ** Through the block layer *)

(** Device [id] of the block layer is the ATA drive [dd] with [count] sectors. *)
Definition ata_device {D} `{PortBus D} (b : block_sys (option (ata_world D))) (id fuel_ count : Z) (dd : ata_device_data_t) : Prop :=
  let dev := block_get_device b id in
  dev <> 0 /\ present (dev_at b dev) = true /\ block_count (dev_at b dev) = count /\
  ops (dev_at b dev) = Some (ata_ops (Z.to_nat fuel_) dd).

(** C8. Writing a block to an ATA disk through the block layer and reading it back.
    On a drive that follows the protocol both calls end and succeed, the block
    read is the block written, every other sector of both drives is as before,
    and memory outside the second buffer is not touched; the drive is ready
    again. *)
Theorem ata_block_write_read {D} `{PortBus D} (bs : Z) `{HA : !AtaDrive D bs}
    (b : block_sys (option (ata_world D))) (id fuel count lba buf1 buf2 : Z) (dd : ata_device_data_t) (d : D) (ram : mem)
    (Hbs : bs = ATA_PRIMARY_DATA \/ bs = ATA_SECONDARY_DATA) (Hdd : ata_base dd = bs)
    (Hdev : ata_device b id fuel count dd) (Hquiet : quiet d)
    (Hlat : Z.of_nat (ata_latency (AtaDrive := HA)) < 1000000) (Hfuel : Z.of_nat (ata_latency (AtaDrive := HA)) < fuel)
    (Hlba : 0 <= lba < count) (Hcount : count <= 2 ^ 28) (Hbuf : buffer_ok ram buf1) :
  exists d1 d2 ram2,
    block_write b id lba buf1 (Some (mkAw d ram)) = (0, Some (mkAw d1 ram)) /\
    block_read b id lba buf2 (Some (mkAw d1 ram)) = (0, Some (mkAw d2 ram2)) /\
    (forall j, 0 <= j < 512 -> rd ram2 (buf2 + j) = rd ram (buf1 + j)) /\
    (forall a, ~ buf2 <= a < buf2 + 512 -> rd ram2 a = rd ram a) /\
    av_phase (ata_alpha d2) = Ready /\
    (forall s l, (s, l) <> (is_slave (ata_drive dd), lba) -> av_disk (ata_alpha d2) s l = av_disk (ata_alpha d) s l).
Proof.
  destruct Hdev as (H1 & H2 & H3 & H4). unfold block_write, block_read.
  rewrite (proj2 (Z.eqb_neq _ _) H1), H2, H4, H3, (proj2 (Z.leb_gt count lba)) by lia.
  cbn [op_read_block op_write_block ata_ops as_op].
  assert (Hmod : lba mod 2 ^ 28 = lba) by (apply Z.mod_small; lia).
  pose proof (ram_words_sector ram buf1 Hbuf) as Hsec.
  destruct (wp_run _ _ _ (wp_ata_write Hbs (Z.to_nat fuel) dd lba buf1 d ram (fun e w => e = E_OK /\ exists d1,
    w = mkAw d1 ram /\ av_phase (ata_alpha d1) = Ready /\ av_disk (ata_alpha d1) =
      store_sector (av_disk (ata_alpha d)) (is_slave (ata_drive dd)) lba (ram_words ram buf1))
    Hdd Hquiet ltac:(lia) Hlat ltac:(lia) Hbuf ltac:(rewrite Hmod; eauto))) as (e & w & Ew & -> & d1 & -> & P1 & K1).
  assert (Hsec1 : av_disk (ata_alpha d1) (is_slave (ata_drive dd)) (lba mod 2 ^ 28) = ram_words ram buf1).
  { rewrite Hmod, K1. unfold store_sector. by rewrite Bool.eqb_reflx, Z.eqb_refl. }
  destruct (wp_run _ _ _ (wp_ata_read Hbs (Z.to_nat fuel) dd lba buf2 d1 ram (fun e w => e = E_OK /\ exists d2 ram2,
    w = mkAw d2 ram2 /\ av_phase (ata_alpha d2) = Ready /\ av_disk (ata_alpha d2) = av_disk (ata_alpha d1) /\
    (forall j, 0 <= j < 512 -> rd ram2 (buf2 + j) = rd ram (buf1 + j)) /\
    (forall a, ~ buf2 <= a < buf2 + 512 -> rd ram2 a = rd ram a))
    Hdd (ex_intro _ O (conj (Nat.le_0_l _) P1)) ltac:(lia) Hlat ltac:(lia) ltac:(by rewrite Hsec1)
    ltac:(rewrite Hsec1; intros d2 ram2 P2 K2 Hb Ho; split; [done|]; exists d2, ram2; split_and!; try done;
          intros j Hj; by rewrite Hb, ram_words_byte)))
    as (e & w & Er & -> & d2 & ram2 & -> & P2 & K2 & Hb & Ho).
  exists d1, d2, ram2. rewrite Ew, Er. split_and!; try done.
  intros s l Hsl. rewrite K2, K1. unfold store_sector.
  destruct (Bool.eqb_spec s (is_slave (ata_drive dd))) as [->|]; [|done].
  destruct (Z.eqb_spec l lba) as [->|]; done.
Qed.

(** ** A concrete drive *)

(** The protocol itself as a device on the primary channel, busy for two status
    reads after every command. *)
Definition sim_status (p : ata_phase) : Z :=
  match p with Ready => 0x50 | Absent => 0 | Busy _ _ => 0x80 | DataIn _ | DataOut _ => 0x58 end.

Definition sim_command (v : ata_view) (c : Z) : ata_view :=
  match av_phase v with
  | Ready =>
      if c =? ATA_CMD_READ_PIO then with_phase v (busy 2 (DataIn (av_disk v (sel v) (sel_lba v))))
      else if c =? ATA_CMD_WRITE_PIO then with_phase v (busy 2 (DataOut []))
      else if c =? ATA_CMD_CACHE_FLUSH then with_phase v (busy 2 Ready)
      else if c =? ATA_CMD_IDENTIFY then
        match av_ident v (sel v) with
        | Some ws => with_phase v (busy 2 (DataIn ws))
        | None => with_phase v Absent
        end
      else v
  | _ => v
  end.

Definition sim_out8 (p x : Z) (v : ata_view) : ata_view :=
  let r := p - ATA_PRIMARY_DATA in
  if r =? 7 then sim_command v x
  else if (2 <=? r) && (r <=? 6) then
    match av_phase v with
    | Ready | Absent =>
        mkView Ready (fun r' => if r' =? r then x else av_reg v r') (av_disk v) (av_ident v)
    | _ => v
    end
  else v.

Definition sim_in16 (v : ata_view) : Z * ata_view :=
  match av_phase v with
  | DataIn (w :: ws) => (w, with_phase v (match ws with [] => Ready | _ => DataIn ws end))
  | _ => (0, v)
  end.

Definition sim_out16 (x : Z) (v : ata_view) : ata_view :=
  match av_phase v with
  | DataOut ws =>
      if (length ws <? 255)%nat then with_phase v (DataOut (ws ++ [x]))
      else mkView (busy 2 Ready) (av_reg v) (store_sector (av_disk v) (sel v) (sel_lba v) (ws ++ [x])) (av_ident v)
  | _ => v
  end.

#[export] Instance sim_bus : PortBus ata_view := {|
  bus_in8 p v := if p =? ATA_PRIMARY_DATA + 7 then (sim_status (av_phase v), with_phase v (polled (av_phase v))) else (0, v);
  bus_out8 := sim_out8;
  bus_in16 p v := sim_in16 v;
  bus_out16 p := sim_out16;
  bus_in32 p v := (0, v);
  bus_out32 p x v := v;
|}.

#[export] Instance sim_drive : AtaDrive ata_view ATA_PRIMARY_DATA.
Proof.
  refine {| ata_alpha v := v; ata_latency := 2%nat |}.
  - intros d. cbn. split; [|done]. destruct (av_phase d); vm_compute; try split_and!; congruence.
  - intros d p Hp. cbn [bus_in8 sim_bus]. destruct (Z.eqb_spec p (ATA_PRIMARY_DATA + 7)); [lia|done].
  - intros d r v Hp Hr. cbn. unfold sim_out8. replace (ATA_PRIMARY_DATA + r - ATA_PRIMARY_DATA) with r by lia.
    rewrite (proj2 (Z.eqb_neq r 7)), (proj2 (Z.leb_le 2 r)), (proj2 (Z.leb_le r 6)) by lia. cbn.
    by destruct Hp as [-> | ->].
  - intros d r ws Hp Hr. cbn. destruct Hr as [-> | ->]; done.
  - intros d Hp _. exists 2%nat. split; [lia|]. cbn. unfold sim_out8, sim_command. cbn. by rewrite Hp.
  - intros d Hp _. exists 2%nat. split; [lia|]. cbn. unfold sim_out8, sim_command. cbn. by rewrite Hp.
  - intros d Hp. exists 2%nat. split; [lia|]. cbn. unfold sim_out8, sim_command. cbn. by rewrite Hp.
  - intros d Hp. change (bus_out8 (ATA_PRIMARY_DATA + 7) ATA_CMD_IDENTIFY d) with (sim_command d ATA_CMD_IDENTIFY).
    unfold sim_command. rewrite Hp. cbn [Z.eqb Pos.eqb ATA_CMD_IDENTIFY ATA_CMD_READ_PIO ATA_CMD_WRITE_PIO ATA_CMD_CACHE_FLUSH].
    destruct (av_ident d (sel d)) as [ws|]; [exists 2%nat; split; [lia|reflexivity]|reflexivity].
  - intros d w ws Hp. cbn. unfold sim_in16. by rewrite Hp.
  - intros d ws v Hp Hl. cbn. unfold sim_out16. rewrite Hp. by rewrite (proj2 (Nat.ltb_lt _ _)).
  - intros d ws v Hp Hl. exists 2%nat. split; [lia|]. cbn. unfold sim_out16. rewrite Hp.
    by rewrite (proj2 (Nat.ltb_ge _ _)) by lia.
Defined.

Definition sim_disk : ata_view :=
  mkView Ready (fun _ => 0) (fun _ _ => replicate 256 0)
    (fun s => if s then None else Some (replicate 60 0 ++ [2048; 0] ++ replicate 194 0)).

Definition sim_block : block_sys (option (ata_world ata_view)) :=
  mkBlk {[ 4096 := ata_block_device 3 (ata_device_data 0) 8192 0 (replicate 60 0 ++ [2048; 0] ++ replicate 194 0) ]}
    (Some (4096 :: replicate 7 0, 1)).

Lemma sim_block_device : ata_device sim_block 0 3 2048 (ata_device_data 0).
Proof. split_and!; done. Qed.

Lemma ata_block_write_read_witness :
  exists d1 d2 ram2,
    block_write sim_block 0 100 0 (Some (mkAw sim_disk (wr ∅ 7 42))) = (0, Some (mkAw d1 (wr ∅ 7 42))) /\
    block_read sim_block 0 100 1024 (Some (mkAw d1 (wr ∅ 7 42))) = (0, Some (mkAw d2 ram2)) /\
    rd ram2 1031 = 42.
Proof.
  destruct (ata_block_write_read ATA_PRIMARY_DATA sim_block 0 3 2048 100 0 1024 (ata_device_data 0) sim_disk (wr ∅ 7 42))
    as (d1 & d2 & ram2 & E1 & E2 & Hb & _); [by left|done|exact sim_block_device|exists O; split; [apply Nat.le_0_l|reflexivity]|done|done|lia|lia| |].
  - intros j Hj. destruct (decide (j = 7)) as [->|]; [vm_compute; split; congruence|]. rewrite rd_wr_ne, rd_empty by lia. lia.
  - exists d1, d2, ram2. split; [exact E1|]. split; [exact E2|]. exact (Hb 7 ltac:(lia)).
Defined.

(** ** What every drive allows *)

(** The address wraps at 28 bits: two block numbers that agree modulo [2 ^ 28]
    give the same commands on any hardware, although the block layer's numbers
    have 64 bits. *)
Theorem ata_lba_wraps {D} `{PortBus D} (fuel : nat) (dd : ata_device_data_t) (lba k buffer : Z) (w : ata_world D)
    (Hlba : 0 <= lba) (Hk : 0 <= k) :
  ata_read_block_op fuel dd (lba + k * 2 ^ 28) buffer w = ata_read_block_op fuel dd lba buffer w /\
  ata_write_block_op fuel dd (lba + k * 2 ^ 28) buffer w = ata_write_block_op fuel dd lba buffer w.
Proof.
  assert (E : forall command, ata_select_drive_and_lba (S := ata_world D) (ata_base dd) (ata_drive dd) (lba + k * 2 ^ 28) command =
    ata_select_drive_and_lba (ata_base dd) (ata_drive dd) lba command).
  { intros command. unfold ata_select_drive_and_lba.
    assert (Hs : forall n, 0 <= n <= 24 -> Z.shiftr (lba + k * 2 ^ 28) n = Z.shiftr lba n + k * 2 ^ (28 - n)).
    { intros n Hn. rewrite !Z.shiftr_div_pow2 by lia.
      replace (k * 2 ^ 28) with (k * 2 ^ (28 - n) * 2 ^ n) by (rewrite <- Z.mul_assoc, <- Z.pow_add_r by lia; do 2 f_equal; lia).
      apply Z.div_add. apply Z.pow_nonzero; lia. }
    assert (Hu : forall n, 0 <= n <= 16 -> u8 (Z.shiftr (lba + k * 2 ^ 28) n) = u8 (Z.shiftr lba n)).
    { intros n Hn. rewrite Hs by lia. unfold u8. change 256 with (2 ^ 8).
      replace (28 - n) with (20 - n + 8) by lia. rewrite Z.pow_add_r, Z.mul_assoc by lia. apply Z_mod_plus_full. }
    assert (Hh : Z.land (Z.shiftr (lba + k * 2 ^ 28) 24) 0x0F = Z.land (Z.shiftr lba 24) 0x0F).
    { rewrite Hs by lia. change 0x0F with (Z.ones 4). rewrite !Z.land_ones by lia. apply Z_mod_plus_full. }
    pose proof (Hu 0 ltac:(lia)) as Hu0. rewrite !Z.shiftr_0_r in Hu0. by rewrite Hh, Hu0, !Hu by lia. }
  unfold ata_read_block_op, ata_write_block_op. by rewrite !E.
Qed.

Lemma ata_lba_wraps_witness :
  ata_read_block_op 3 (ata_device_data 0) (5 + 1 * 2 ^ 28) 0 (mkAw sim_disk ∅) =
  ata_read_block_op 3 (ata_device_data 0) 5 0 (mkAw sim_disk ∅).
Proof. exact (proj1 (ata_lba_wraps 3 (ata_device_data 0) 5 1 0 (mkAw sim_disk ∅) ltac:(lia) ltac:(lia))). Defined.

(** ** Failed transfers *)

(** Computations that end and leave memory alone. *)
Definition runs {D A} (m : io (ata_world D) A) : Prop :=
  forall w, exists a d, m w = Some (a, mkAw d (aw_ram w)).

Section runs.
Context {D : Type} `{PortBus D}.

Lemma runs_ret {A} (a : A) : runs (D := D) (io_ret a).
Proof. intros [d r]. by exists a, d. Qed.
Lemma runs_bind {A B} (m : io (ata_world D) A) (k : A -> io (ata_world D) B) :
  runs m -> (forall a, runs (k a)) -> runs (io_bind m k).
Proof.
  intros Hm Hk w. destruct (Hm w) as (a & d & E). destruct (Hk a (mkAw d (aw_ram w))) as (b & d' & E').
  exists b, d'. unfold io_bind. by rewrite E, E'.
Qed.
Lemma runs_inb p : runs (D := D) (inb p).
Proof. intros w. unfold inb. destruct (bus_in8 _ _) as [v d]. by eexists _, d. Qed.
Lemma runs_outb p x : runs (D := D) (outb p x).
Proof. intros w. by eexists tt, _. Qed.
Lemma runs_outw p x : runs (D := D) (outw p x).
Proof. intros w. by eexists tt, _. Qed.
Lemma runs_load p : runs (D := D) (load16 p).
Proof. intros [d r]. by eexists _, d. Qed.
Lemma runs_for n i (body : Z -> io (ata_world D) unit) : (forall j, runs (body j)) -> runs (io_for n i body).
Proof. intros Hb. revert i. induction n as [|n IH]; intros i; [apply runs_ret|]. by apply runs_bind. Qed.
End runs.
Create HintDb runs.
#[export] Hint Resolve runs_ret runs_bind runs_inb runs_outb runs_outw runs_load runs_for : runs.

Lemma bind_assoc {S A B C} (m : io S A) (f : A -> io S B) (g : B -> io S C) s :
  io_bind (io_bind m f) g s = io_bind m (fun a => io_bind (f a) g) s.
Proof. unfold io_bind. by destruct (m s) as [[a t]|]. Qed.
Lemma land_flag x i : 0 <= i -> (Z.land x (2 ^ i) =? 0) = negb (Z.testbit x i).
Proof.
  intros Hi. replace (Z.land x (2 ^ i)) with (if Z.testbit x i then 2 ^ i else 0).
  - destruct (Z.testbit x i); [|done]. apply Z.eqb_neq, Z.pow_nonzero; lia.
  - apply Z.bits_inj'. intros n Hn. rewrite Z.land_spec, Z.pow2_bits_eqb by lia.
    destruct (Z.eqb_spec i n) as [<-|Hne]; [|rewrite andb_false_r].
    + destruct (Z.testbit x i) eqn:E; [|by rewrite Z.bits_0]. by rewrite Z.pow2_bits_true by lia.
    + destruct (Z.testbit x i); [|by rewrite Z.bits_0]. by rewrite Z.pow2_bits_false by lia.
Qed.

Section outcome.
Context {D : Type} `{PortBus D}.
Variable (base : Z).

(** The status that the [k]-th of a series of reads of the status port shows. *)
Definition read_status (d : D) : Z * D := bus_in8 (u16 (base + 7)) d.
Definition nth_status (d : D) (k : nat) : Z := u8 (fst (read_status (Nat.iter k (fun d => snd (read_status d)) d))).

(** The drive is never seen busy [fuel] times in a row. *)
Definition never_stuck (fuel : nat) : Prop := forall d, exists k, (k < fuel)%nat /\ Z.testbit (nth_status d k) 7 = false.

(** Within a million reads the drive asks for the data, and shows no error up to then. *)
Definition asks_within (n : nat) (d : D) : Prop :=
  exists k, (k < n)%nat /\ Z.testbit (nth_status d k) 3 = true /\
    (forall j, (j <= k)%nat -> Z.testbit (nth_status d j) 0 = false) /\
    (forall j, (j < k)%nat -> Z.testbit (nth_status d j) 3 = false).
Definition asks_for_data (d : D) : Prop := asks_within (Z.to_nat 1000000) d.

Lemma nth_status_succ d k : nth_status d (S k) = nth_status (snd (read_status d)) k.
Proof. unfold nth_status. by rewrite Nat.iter_succ_r. Qed.
Lemma inb_status (w : ata_world D) :
  inb (base + 7) w = Some (nth_status (aw_bus w) 0, mkAw (snd (read_status (aw_bus w))) (aw_ram w)).
Proof. unfold inb, nth_status, read_status. cbn [Nat.iter nat_rect get_bus ata_world_bus]. by destruct (bus_in8 _ _). Qed.

Lemma runs_wait_busy fuel : never_stuck fuel -> runs (D := D) (ata_wait_busy fuel base).
Proof.
  intros Hs w. destruct (Hs (aw_bus w)) as (k & Hk & Hb). clear Hs. unfold ata_wait_busy.
  revert fuel w Hk Hb. induction k as [|k IH]; intros fuel w Hk Hb; (destruct fuel as [|fuel]; [lia|]); cbn [io_until];
    unfold io_bind at 1 2; rewrite inb_status; cbn [io_ret]; rewrite (land_flag _ 7) by lia.
  - rewrite Hb. by eexists tt, _.
  - destruct (Z.testbit (nth_status (aw_bus w) 0) 7); [|by eexists tt, _].
    apply (IH fuel (mkAw _ (aw_ram w))); [lia|]. cbn [aw_bus]. by rewrite <- nth_status_succ.
Qed.
Lemma runs_select drive lba c : runs (D := D) (ata_select_drive_and_lba base drive lba c).
Proof. unfold ata_select_drive_and_lba, ata_io_wait. auto 14 with runs. Qed.
Lemma runs_flush fuel drive : never_stuck fuel -> runs (D := D) (ata_flush_cache fuel base drive).
Proof. intros Hs. pose proof (runs_wait_busy fuel Hs). unfold ata_flush_cache. auto 8 with runs. Qed.

Lemma asks_first n d :
  Z.testbit (nth_status d 0) 0 = false -> Z.testbit (nth_status d 0) 3 = false ->
  asks_within (S n) d <-> asks_within n (snd (read_status d)).
Proof.
  intros He Hd. split.
  - intros ([|k] & Hk & Ha & Hb & Hc); [congruence|]. exists k. rewrite <- nth_status_succ. split; [lia|]. split; [done|].
    split; intros j Hj; rewrite <- nth_status_succ; [apply Hb|apply Hc]; lia.
  - intros (k & Hk & Ha & Hb & Hc). exists (S k). rewrite nth_status_succ. split; [lia|]. split; [done|].
    split; (intros [|j] Hj; [assumption|rewrite nth_status_succ]); [apply Hb; lia|apply Hc; lia].
Qed.

Lemma wait_drq_outcome n (w : ata_world D) :
  exists e d, wait_drq n base w = Some (e, mkAw d (aw_ram w)) /\ (e = E_OK <-> asks_within n (aw_bus w)).
Proof.
  revert w. induction n as [|n IH]; intros w; cbn [wait_drq].
  { exists E_TIMEOUT, (aw_bus w). split; [by destruct w|]. split; [done|]. intros (k & Hk & _). lia. }
  unfold io_bind. rewrite inb_status, (land_flag _ 0), (land_flag _ 3) by lia. rewrite !negb_involutive.
  destruct (Z.testbit (nth_status (aw_bus w) 0) 0) eqn:He.
  { eexists _, _. split; [reflexivity|]. split; [done|]. intros (k & _ & _ & Hb & _). specialize (Hb O ltac:(lia)). congruence. }
  destruct (Z.testbit (nth_status (aw_bus w) 0) 3) eqn:Hd.
  { eexists _, _. split; [reflexivity|]. split; [intros _|done]. exists O. split; [lia|]. split; [done|].
    split; [intros [|j] Hj; [done|lia]|lia]. }
  destruct (IH (mkAw (snd (read_status (aw_bus w))) (aw_ram w))) as (e & d & E & Ha). exists e, d. split; [exact E|].
  rewrite Ha. symmetry. by apply asks_first.
Qed.
Lemma ata_wait_drq_outcome (w : ata_world D) :
  exists e d, ata_wait_drq base w = Some (e, mkAw d (aw_ram w)) /\ (e = E_OK <-> asks_for_data (aw_bus w)).
Proof. apply wait_drq_outcome. Qed.

(** The read loop ends and writes only the buffer. *)
Lemma read_loop_ram n i buffer (w : ata_world D) :
  exists w', io_for n i (fun i => let! x := inw base in store16 (buffer + 2 * i) x) w = Some (tt, w') /\
    forall p, ~ buffer + 2 * i <= p < buffer + 2 * (i + Z.of_nat n) -> rd (aw_ram w') p = rd (aw_ram w) p.
Proof.
  revert i w. induction n as [|n IH]; intros i w; cbn [io_for]; [by exists w|].
  unfold io_bind, inw. destruct (bus_in16 _ _) as [v d]. unfold store16 at 1.
  match goal with |- context [io_for n (i + 1) _ ?x] => destruct (IH (i + 1) x) as (w' & E & Hp) end.
  exists w'. split; [exact E|]. intros p Hq. rewrite Hp by lia. cbn [aw_ram set_bus ata_world_bus]. by rewrite !rd_wr_ne by lia.
Qed.

(** The shape of the two operations: [issue] sends the command, [rest] moves the data. *)
Lemma transfer_outcome (issue : io (ata_world D) unit) (rest : io (ata_world D) kerr_t) w :
  runs issue ->
  exists d1 e1 d2, issue w = Some (tt, mkAw d1 (aw_ram w)) /\ (e1 = E_OK <-> asks_for_data d1) /\
    (issue ;;; let! e := ata_wait_drq base in if negb (is_ok e) then io_ret E_HARDWARE else rest) w =
      if is_ok e1 then rest (mkAw d2 (aw_ram w)) else Some (E_HARDWARE, mkAw d2 (aw_ram w)).
Proof.
  intros Hi. destruct (Hi w) as ([] & d1 & E1). destruct (ata_wait_drq_outcome (mkAw d1 (aw_ram w))) as (e & d2 & E2 & Ha).
  exists d1, e, d2. split; [done|]. split; [exact Ha|]. unfold io_bind. rewrite E1, E2. by destruct (is_ok e).
Qed.
End outcome.

(** Memory is as before but for the 512 bytes at [buffer]. *)
Definition only_block_changed (m m' : mem) (buffer : Z) : Prop :=
  forall p, ~ buffer <= p < buffer + 512 -> rd m' p = rd m p.

(** What became of a transfer whose command left the bus in state [d1]. *)
Definition outcome {D} `{PortBus D} (base : Z) (d1 : D) (m m' : mem) (e : kerr_t) : Prop :=
  (e = E_OK /\ asks_for_data base d1) \/ (e = E_HARDWARE /\ ~ asks_for_data base d1 /\ m' = m).

(** C29. Failed transfers. On any hardware that does not show the busy bit for
    ever, a block read and a block write end. Both succeed exactly when the
    drive, once it has the command, asks for the data within a million looks
    at its status and shows no error up to then; otherwise they report a
    hardware error, a timeout included, and memory is exactly as it was. Even
    a successful read changes nothing outside the 512 bytes of the buffer; a
    write never changes memory. *)
Theorem ata_error_keeps_memory {D} `{PortBus D} (fuel : nat) (dd : ata_device_data_t) (lba buffer : Z) (w : ata_world D)
    (Hfree : never_stuck (D := D) (ata_base dd) fuel) :
  let base := ata_base dd in
  let issue c := ata_wait_busy fuel base ;;; ata_select_drive_and_lba base (ata_drive dd) lba c in
  (exists d1 e d2 m', issue ATA_CMD_READ_PIO w = Some (tt, mkAw d1 (aw_ram w)) /\
     ata_read_block_op fuel dd lba buffer w = Some (e, mkAw d2 m') /\
     outcome base d1 (aw_ram w) m' e /\ only_block_changed (aw_ram w) m' buffer) /\
  (exists d1 e d2, issue ATA_CMD_WRITE_PIO w = Some (tt, mkAw d1 (aw_ram w)) /\
     ata_write_block_op fuel dd lba buffer w = Some (e, mkAw d2 (aw_ram w)) /\
     outcome base d1 (aw_ram w) (aw_ram w) e).
Proof.
  cbv zeta. pose proof (runs_wait_busy (D := D) _ fuel Hfree) as Hb. pose proof (runs_flush (D := D) _ fuel (ata_drive dd) Hfree) as Hf.
  assert (Hi : forall c, runs (D := D) (ata_wait_busy fuel (ata_base dd) ;;; ata_select_drive_and_lba (ata_base dd) (ata_drive dd) lba c)).
  { intros c. apply runs_bind; [done|]. intros _. apply runs_select. }
  split.
  - destruct (transfer_outcome (ata_base dd) _ (io_for 256 0 (fun i => let! x := inw (ata_base dd) in store16 (buffer + 2 * i) x) ;;; io_ret E_OK)
      w (Hi ATA_CMD_READ_PIO)) as (d1 & e1 & d2 & E1 & Ha & E).
    exists d1. rewrite bind_assoc in E. unfold outcome. destruct (is_ok e1) eqn:Ho.
    + destruct (read_loop_ram (ata_base dd) 256 0 buffer (mkAw d2 (aw_ram w))) as ([d3 m3] & E3 & Hm).
      exists E_OK, d3, m3. split; [exact E1|]. split; [etransitivity; [exact E|]; unfold io_bind at 1; by rewrite E3|].
      split; [left; split; [done|]; apply Ha; by destruct e1|]. intros p Hp. apply Hm. lia.
    + exists E_HARDWARE, d2, (aw_ram w). split; [exact E1|]. split; [exact E|]. split; [|done].
      right. split; [done|]. split; [|done]. rewrite <- Ha. by intros ->.
  - set (rest := io_for 256 0 (fun i => let! x := load16 (buffer + 2 * i) in outw (ata_base dd) x) ;;;
      ata_wait_busy fuel (ata_base dd) ;;; ata_flush_cache fuel (ata_base dd) (ata_drive dd) ;;; io_ret E_OK).
    destruct (transfer_outcome (ata_base dd) _ rest w (Hi ATA_CMD_WRITE_PIO)) as (d1 & e1 & d2 & E1 & Ha & E).
    exists d1. rewrite bind_assoc in E. unfold outcome. destruct (is_ok e1) eqn:Ho.
    + assert (Hr : exists d3, rest (mkAw d2 (aw_ram w)) = Some (E_OK, mkAw d3 (aw_ram w))).
      { assert (Hm : runs (D := D) (io_for 256 0 (fun i => let! x := load16 (buffer + 2 * i) in outw (ata_base dd) x) ;;;
          ata_wait_busy fuel (ata_base dd) ;;; ata_flush_cache fuel (ata_base dd) (ata_drive dd))) by auto 8 with runs.
        destruct (Hm (mkAw d2 (aw_ram w))) as ([] & d3 & E3). exists d3. unfold rest. revert E3. unfold io_bind, io_ret.
        repeat case_match; try done; intros E3; injection E3; congruence. }
      destruct Hr as [d3 E3]. rewrite E3 in E. exists E_OK, d3. split; [exact E1|]. split; [exact E|].
      left. split; [done|]. apply Ha. by destruct e1.
    + exists E_HARDWARE, d2. split; [exact E1|]. split; [exact E|]. right. split; [done|]. split; [|done]. rewrite <- Ha. by intros ->.
Qed.

(** A drive that always answers 1: error set, not busy. *)
Inductive broken_drive := Broken.
#[export] Instance broken_bus : PortBus broken_drive := {|
  bus_in8 _ d := (1, d); bus_out8 _ _ d := d; bus_in16 _ d := (0, d); bus_out16 _ _ d := d;
  bus_in32 _ d := (0, d); bus_out32 _ _ d := d |}.

Lemma broken_status base d k : nth_status (D := broken_drive) base d k = 1.
Proof. reflexivity. Qed.
Lemma broken_free base : never_stuck (D := broken_drive) base 1.
Proof. intros d. exists O. split; [lia|reflexivity]. Qed.
Lemma broken_refuses base d : ~ asks_for_data (D := broken_drive) base d.
Proof. intros (k & _ & H & _). rewrite broken_status in H. discriminate H. Qed.

Lemma ata_error_keeps_memory_witness :
  exists d, ata_read_block_op 1 (ata_device_data 0) 0 64 (mkAw Broken (wr ∅ 64 9)) = Some (E_HARDWARE, mkAw d (wr ∅ 64 9)).
Proof.
  destruct (proj1 (ata_error_keeps_memory 1 (ata_device_data 0) 0 64 (mkAw Broken (wr ∅ 64 9)) (broken_free _)))
    as (d1 & e & d2 & m' & _ & E & [[_ Ha]|(-> & _ & ->)] & _); [destruct (broken_refuses _ _ Ha)|].
  exists d2. exact E.
Defined.

(** ** Identification *)

Section identify.
Context {D : Type} `{HB : PortBus D} {bs : Z} {HA : AtaDrive D bs}.
Hypothesis Hbs : bs = ATA_PRIMARY_DATA \/ bs = ATA_SECONDARY_DATA.

Local Abbreviation alpha := (ata_alpha (AtaDrive := HA)).
Local Abbreviation latency := (ata_latency (AtaDrive := HA)).

Ltac boot_simpl := cbn [get_bus set_bus ata_boot_bus ab_bus ab_blk].

Lemma wp_read_words (d : D) b ws v (Q : list Z -> ata_boot D -> Prop) :
  Forall (fun w => 0 <= w < 65536) ws -> alpha d = with_phase v (reading ws) ->
  (forall d', alpha d' = with_phase v Ready -> Q ws (mkBoot d' b)) ->
  wp (read_words (length ws) bs) (mkBoot d b) Q.
Proof using Hbs.
  intros Hws. revert d Q. induction Hws as [|w ws Hw _ IH]; intros d Q Ha HQ; cbn [length read_words].
  - apply wp_ret, HQ, Ha.
  - pose proof (ata_data_in (AtaDrive := HA) d w ws) as Hd. rewrite Ha in Hd. specialize (Hd eq_refl) as [H1 H2].
    apply wp_bind, wp_inw. boot_simpl.
    replace (u16 bs) with bs by (rewrite <- (Z.add_0_r bs) at 2; rewrite base_range; [lia|done|lia]).
    rewrite H1, u16_small by lia. apply wp_bind, IH; [exact H2|]. intros d' Ha'. by apply wp_ret, HQ.
Qed.

Lemma busy_status n p v : status_ok (busy n p) v -> transfer p -> v <> 0.
Proof. intros Hs Hp ->. destruct n; [destruct p|]; cbn in *; tauto. Qed.

Lemma wp_ata_identify fuel dd dev data num (d : D) b (Q : kerr_t -> ata_boot D -> Prop) :
  ata_base dd = bs -> ata_drive dd = ATA_MASTER \/ ata_drive dd = ATA_SLAVE ->
  av_phase (alpha d) = Ready \/ av_phase (alpha d) = Absent ->
  (latency < fuel)%nat -> Z.of_nat latency < 1000000 ->
  match av_ident (alpha d) (is_slave (ata_drive dd)) with
  | None => forall d', av_phase (alpha d') = Absent -> Q E_NOTFOUND (mkBoot d' b)
  | Some ws => sector_ok ws /\ forall d', av_phase (alpha d') = Ready ->
      Q E_OK (mkBoot d' (snd (block_register_device
        (mkBlk (<[dev := ata_block_device fuel dd data num ws]> (dev_mem b)) (g_block_manager b)) dev)))
  end ->
  wp (ata_identify fuel dd dev data num) (mkBoot d b) Q.
Proof using Hbs.
  intros Hdd Hdrv Hp Hf Hl HQ. unfold ata_identify. rewrite Hdd.
  apply wp_bind, (wp_write_reg Hbs); [exact Hp|lia|]. boot_simpl. intros d1 E1.
  assert (Hsel : sel (alpha d1) = is_slave (ata_drive dd)).
  { rewrite E1. unfold sel, is_slave. cbn [av_reg Z.eqb Pos.eqb]. by destruct Hdrv as [-> | ->]. }
  assert (Hid : av_ident (alpha d1) = av_ident (alpha d)) by (by rewrite E1).
  assert (Hr1 : av_phase (alpha d1) = Ready) by (by rewrite E1). clear E1.
  apply wp_bind, (wp_io_wait Hbs). boot_simpl. intros d2 E2.
  apply wp_bind, wp_outb. rewrite (base_range Hbs) by lia. change (u8 ATA_CMD_IDENTIFY) with ATA_CMD_IDENTIFY. boot_simpl.
  pose proof (ata_cmd_identify (AtaDrive := HA) d2) as Hc. rewrite E2, Hsel, Hid in Hc. specialize (Hc Hr1).
  destruct (av_ident (alpha d) (is_slave (ata_drive dd))) as [ws|].
  - destruct Hc as (n & Hn & E3), HQ as [[Hlen Hws] HQ]. apply wp_bind, (wp_io_wait Hbs). boot_simpl. intros d4 E4. rewrite E3 in E4.
    apply wp_bind, (wp_status Hbs). boot_simpl. rewrite E4. cbn [av_phase with_phase]. intros v d5 Hv E5.
    rewrite (proj2 (Z.eqb_neq v 0)) by (by eapply busy_status).
    apply wp_bind. eapply (wp_wait_busy Hbs _ _ (pred n) (DataIn ws)); [boot_simpl; rewrite E5; by destruct n|done|lia|].
    boot_simpl. intros d6 E6. rewrite E5 in E6. cbn [with_phase] in E6.
    apply wp_bind, wp_inb. rewrite (base_range Hbs) by lia. boot_simpl.
    destruct (ata_read_reg (AtaDrive := HA) d6 4 ws) as [-> E7]; [by rewrite E6|by left|]. cbn [negb Z.eqb].
    apply wp_bind, wp_inb. rewrite (base_range Hbs) by lia. boot_simpl. rewrite E6 in E7.
    destruct (ata_read_reg (AtaDrive := HA) (snd (bus_in8 (bs + 4) d6)) 5 ws) as [-> E8]; [by rewrite E7|by right|].
    rewrite E7 in E8. cbn [negb Z.eqb orb]. apply wp_bind. unfold ata_wait_drq.
    eapply (wp_wait_drq Hbs _ _ O (DataIn ws)); [boot_simpl; by rewrite E8|done|lia|].
    boot_simpl. intros d9 E9. rewrite E8 in E9. cbn [is_ok negb with_phase] in *.
    apply wp_bind. rewrite <- Hlen. eapply wp_read_words; [done|rewrite E9; by destruct ws|].
    intros d10 E10. apply wp_bind. unfold register_block. unfold wp at 1. boot_simpl. apply wp_ret, HQ. by rewrite E10.
  - apply wp_bind, (wp_io_wait Hbs). boot_simpl. intros d4 E4. rewrite Hc in E4.
    apply wp_bind, (wp_status Hbs). boot_simpl. rewrite E4. cbn [av_phase with_phase status_ok polled].
    intros v d5 -> E5. cbn [Z.eqb]. apply wp_ret, HQ. by rewrite E5.
Qed.
End identify.

(** Detecting a disk.  On a channel that follows the protocol [ata_identify]
    ends; a missing drive is reported as not found with the block layer
    untouched, and a present one is registered as the next block device, with
    the sector count of its identification words 60 and 61 and the driver's
    operations, provided the layer has room. *)
Theorem ata_identify_registers {D} `{PortBus D} (bs : Z) `{HA : !AtaDrive D bs} (fuel dev data num n : Z)
    (dd : ata_device_data_t) (d : D) (b : block_sys (option (ata_world D))) (devices : list Z)
    (Hbs : bs = ATA_PRIMARY_DATA \/ bs = ATA_SECONDARY_DATA) (Hdd : ata_base dd = bs)
    (Hdrv : ata_drive dd = ATA_MASTER \/ ata_drive dd = ATA_SLAVE)
    (Hp : av_phase (ata_alpha d) = Ready \/ av_phase (ata_alpha d) = Absent)
    (Hlat : Z.of_nat (ata_latency (AtaDrive := HA)) < 1000000) (Hfuel : Z.of_nat (ata_latency (AtaDrive := HA)) < fuel)
    (Hdev : dev <> 0) (Hmgr : g_block_manager b = Some (devices, n)) (Hn : 0 <= n < 8) (Hlen : length devices = 8%nat)
    (Hid : forall ws, av_ident (ata_alpha d) (is_slave (ata_drive dd)) = Some ws -> sector_ok ws) :
  exists e d' b', ata_identify (Z.to_nat fuel) dd dev data num (mkBoot d b) = Some (e, mkBoot d' b') /\
    match av_ident (ata_alpha d) (is_slave (ata_drive dd)) with
    | None => e = E_NOTFOUND /\ b' = b
    | Some ws => e = E_OK /\ block_get_device_count b' = n + 1 /\
        ata_device b' n fuel (nthz ws 60 + 65536 * nthz ws 61) dd
    end.
Proof.
  enough (Hwp : wp (ata_identify (Z.to_nat fuel) dd dev data num) (mkBoot d b) (fun e s => exists d' b', s = mkBoot d' b' /\
    match av_ident (ata_alpha d) (is_slave (ata_drive dd)) with
    | None => e = E_NOTFOUND /\ b' = b
    | Some ws => e = E_OK /\ block_get_device_count b' = n + 1 /\
        ata_device b' n fuel (nthz ws 60 + 65536 * nthz ws 61) dd
    end)).
  { apply wp_run in Hwp as (e & s & E & d' & b' & -> & Hm). exists e, d', b'. by split. }
  apply (wp_ata_identify Hbs); [done|done|done|lia|done|].
  destruct (av_ident (ata_alpha d) (is_slave (ata_drive dd))) as [ws|] eqn:Ews; [|by eauto 6].
  split; [by apply Hid|]. intros d' _. eexists _, _. split; [reflexivity|]. split; [done|].
  unfold block_register_device. cbn [g_block_manager dev_mem]. rewrite Hmgr.
  rewrite (proj2 (Z.leb_gt MAX_BLOCK_DEVICES n)) by (unfold MAX_BLOCK_DEVICES; lia). cbn [snd].
  unfold ata_device, block_get_device_count, block_get_device. cbn [g_block_manager dev_mem].
  rewrite u8_small by lia. split; [done|]. rewrite (proj2 (Z.leb_gt (n + 1) n)) by lia.
  rewrite nthz_updz_eq by lia. unfold dev_at. cbn [dev_mem]. rewrite !lookup_insert_eq. done.
Qed.

Lemma ata_identify_registers_witness :
  exists d' b', ata_identify 3 (ata_device_data 0) 4096 8192 0 (mkBoot sim_disk (mkBlk ∅ (Some (replicate 8 0, 0)))) =
    Some (E_OK, mkBoot d' b') /\ ata_device b' 0 3 2048 (ata_device_data 0).
Proof.
  destruct (ata_identify_registers ATA_PRIMARY_DATA 3 4096 8192 0 0 (ata_device_data 0) sim_disk
    (mkBlk ∅ (Some (replicate 8 0, 0))) (replicate 8 0)) as (e & d' & b' & E & Hm);
    [by left|done|by left|by left|done|done|done|done|lia|done| |].
  - intros ws [= <-]. split; [done|]. repeat (constructor; [lia|]). constructor.
  - destruct Hm as (-> & _ & Hd). exists d', b'. split; [exact E|exact Hd].
Defined.
