(* ===== verification/Legacy.v ===== *)
(** * Legacy heap: mm/memory.h, mm/memory.c

    The first heap of the kernel.  It is set up at boot and reported on, but
    nothing allocates from it any more: its two list helpers have no caller.
    [kalloc_pages] takes pages from the physical memory manager.  A heap block
    header is a record found through its address; a list walk takes fuel, for
    which one more than the number of stored headers is enough. *)

From S2P Require Import Prelude MemLayout Errno Pmm.

Record memory_block_t := mkMb { mb_size : Z; mb_is_free : bool; mb_next : Z }.
Record heap_t := mkHp { hp_start : Z; hp_end : Z; hp_current : Z; hp_free_list : Z }.

Definition MEMORY_BLOCK_HEADER_SIZE : Z := 24.
Definition sizeof_heap_t : Z := 32.

(** The static [kernel_heap] and the headers. *)
Record legacy := mkLegacy { kernel_heap_ptr : option heap_t; mem_blocks : gmap Z memory_block_t }.

Definition null_mb : memory_block_t := mkMb 0 false 0.
Definition mb_at (m : gmap Z memory_block_t) (p : Z) : memory_block_t := default null_mb (m !! p).
Definition mb_fuel (m : gmap Z memory_block_t) : nat := S (size m).

Fixpoint find_free_block (fuel : nat) (m : gmap Z memory_block_t) (current sz : Z) : Z :=
  match fuel with
  | O => 0
  | S fuel' =>
      if current =? 0 then 0
      else if mb_is_free (mb_at m current) && (sz <=? mb_size (mb_at m current)) then current
      else find_free_block fuel' m (mb_next (mb_at m current)) sz
  end.

Fixpoint coalesce_free_blocks (fuel : nat) (m : gmap Z memory_block_t) (current : Z) : gmap Z memory_block_t :=
  match fuel with
  | O => m
  | S fuel' =>
      if (current =? 0) || (mb_next (mb_at m current) =? 0) then m
      else
        let c := mb_at m current in
        let n := mb_at m (mb_next c) in
        if mb_is_free c && mb_is_free n then
          coalesce_free_blocks fuel'
            (<[current := mkMb (u64 (mb_size c + u64 (mb_size n + MEMORY_BLOCK_HEADER_SIZE))) (mb_is_free c) (mb_next n)]> m)
            current
        else coalesce_free_blocks fuel' m (mb_next c)
  end.

Definition memory_init (st : legacy) (start sz : Z) : kerr_t * legacy :=
  let s := u64 (start + sizeof_heap_t) in
  (E_OK, mkLegacy (Some (mkHp s (u64 (start + sz)) s 0)) (mem_blocks st)).

Definition memory_get_kernel_heap (st : legacy) : option heap_t := kernel_heap_ptr st.

Definition memory_get_free (st : legacy) : Z :=
  match kernel_heap_ptr st with None => 0 | Some h => u64 (hp_end h - hp_current h) end.
Definition memory_get_used (st : legacy) : Z :=
  match kernel_heap_ptr st with None => 0 | Some h => u64 (hp_current h - hp_start h) end.
Definition memory_get_total (st : legacy) : Z :=
  match kernel_heap_ptr st with None => 0 | Some h => u64 (hp_end h - hp_start h) end.

Definition kalloc_pages (s : pmm) (num_pages : Z) : Z * pmm :=
  let '(phys, s) := pmm_alloc_pages s num_pages in
  if phys =? 0 then (0, s) else (PHYS_TO_VIRT phys, s).

(** ** The block list *)

(** [l] is the list of headers that starts at [p]. *)
Fixpoint mb_chain (m : gmap Z memory_block_t) (p : Z) (l : list Z) : Prop :=
  match l with
  | [] => p = 0
  | x :: l' => p = x /\ x <> 0 /\ is_Some (m !! x) /\ mb_chain m (mb_next (mb_at m x)) l'
  end.

(** The contents of a list: size and free flag of each block. *)
Definition mb_view (m : gmap Z memory_block_t) (x : Z) : Z * bool := (mb_size (mb_at m x), mb_is_free (mb_at m x)).

(** The reference: neighbouring free entries are joined from the left. *)
Fixpoint join_free (n : nat) (l : list (Z * bool)) : list (Z * bool) :=
  match n with
  | O => l
  | S n' =>
      match l with
      | (s1, f1) :: (s2, f2) :: l' =>
          if f1 && f2 then join_free n' ((u64 (s1 + u64 (s2 + MEMORY_BLOCK_HEADER_SIZE)), f1) :: l')
          else (s1, f1) :: join_free n' ((s2, f2) :: l')
      | _ => l
      end
  end.

Fixpoint separated (l : list (Z * bool)) : Prop :=
  match l with
  | (_, f1) :: (((_, f2) :: _) as l') => f1 && f2 = false /\ separated l'
  | _ => True
  end.

(** Bytes the list accounts for, headers included. *)
Fixpoint span_bytes (l : list (Z * bool)) : Z :=
  match l with [] => 0 | (s, _) :: l' => s + MEMORY_BLOCK_HEADER_SIZE + span_bytes l' end.

Lemma span_bytes_nonneg l : Forall (fun e => 0 <= fst e) l -> 0 <= span_bytes l.
Proof.
  unfold MEMORY_BLOCK_HEADER_SIZE. induction 1 as [|[s f] l Hs _ IH]; [done|]. cbn in *.
  unfold MEMORY_BLOCK_HEADER_SIZE. lia.
Qed.

Lemma join_free_separated n l : (length l <= n)%nat -> separated (join_free n l).
Proof.
  assert (Hhd : forall n s f l, exists s' l', join_free n ((s, f) :: l) = (s', f) :: l').
  { intros m. induction m as [|m IH]; intros s f l'; cbn [join_free]; [eauto|].
    destruct l' as [|[s2 f2] l']; [eauto|]. destruct (f && f2); eauto. }
  revert l. induction n as [|n IH]; intros l Hn; [by destruct l; [|cbn in Hn; lia]|].
  cbn [join_free]. destruct l as [|[s1 f1] [|[s2 f2] l']]; [done|done|]. cbn in Hn.
  destruct (f1 && f2) eqn:Ef; [apply IH; cbn; lia|].
  pose proof (IH ((s2, f2) :: l') ltac:(cbn; lia)) as IH'. destruct (Hhd n s2 f2 l') as (s' & r & E).
  rewrite E in *. by split.
Qed.

Lemma join_free_span n l :
  Forall (fun e => 0 <= fst e) l -> span_bytes l < 2 ^ 64 -> span_bytes (join_free n l) = span_bytes l.
Proof.
  revert l. induction n as [|n IH]; intros l Hl Hs; [done|]. cbn [join_free].
  destruct l as [|[s1 f1] [|[s2 f2] l']]; [done|done|].
  apply Forall_cons in Hl as [H1 Hl]. pose proof Hl as Hl2. apply Forall_cons in Hl as [H2 Hl].
  pose proof (span_bytes_nonneg l' Hl). cbn [span_bytes fst] in *. unfold MEMORY_BLOCK_HEADER_SIZE in *.
  destruct (f1 && f2).
  - wrap_small. rewrite IH; cbn [span_bytes]; unfold MEMORY_BLOCK_HEADER_SIZE; [lia| |lia].
    constructor; [cbn; lia|done].
  - cbn [span_bytes]. rewrite IH; [cbn [span_bytes]; unfold MEMORY_BLOCK_HEADER_SIZE; lia|done|].
    cbn [span_bytes]. unfold MEMORY_BLOCK_HEADER_SIZE. lia.
Qed.

Lemma mb_at_insert_ne m x y b : x <> y -> mb_at (<[x := b]> m) y = mb_at m y.
Proof. intros. unfold mb_at. by rewrite lookup_insert_ne. Qed.
Lemma mb_at_insert_eq m x b : mb_at (<[x := b]> m) x = b.
Proof. unfold mb_at. by rewrite lookup_insert_eq. Qed.

Lemma mb_chain_ext m m' p l :
  (forall x, x ∈ l -> m' !! x = m !! x) -> mb_chain m p l -> mb_chain m' p l.
Proof.
  revert p. induction l as [|y l IH]; intros p Hext; [done|]. intros (-> & H0 & Hy & Hl).
  assert (E : m' !! y = m !! y) by (apply Hext; left). cbn. unfold mb_at. rewrite E.
  split_and!; [done|done|done|]. apply IH; [|done]. intros x Hx. apply Hext. by right.
Qed.

Lemma mb_view_ext m m' (l : list Z) : (forall x, x ∈ l -> m' !! x = m !! x) -> mb_view m' <$> l = mb_view m <$> l.
Proof. intros Hext. apply list_fmap_ext. intros i x Hx. unfold mb_view, mb_at. by rewrite Hext by (by eapply list_elem_of_lookup_2). Qed.

Lemma coalesce_spec fuel m p l :
  mb_chain m p l -> NoDup l -> (length l <= fuel)%nat ->
  exists l', mb_chain (coalesce_free_blocks fuel m p) p l' /\
    mb_view (coalesce_free_blocks fuel m p) <$> l' = join_free fuel (mb_view m <$> l) /\
    forall x, x ∉ l -> coalesce_free_blocks fuel m p !! x = m !! x.
Proof.
  revert m p l. induction fuel as [|fuel IH]; intros m p l Hc Hnd Hf.
  { destruct l; [|cbn in Hf; lia]. by exists []. }
  cbn [coalesce_free_blocks]. destruct l as [|x l].
  { cbn in Hc. subst p. by exists []. }
  destruct Hc as (-> & Hx0 & Hxs & Hl). rewrite (proj2 (Z.eqb_neq x 0) Hx0). cbn [orb].
  apply NoDup_cons in Hnd as [Hxl Hnd]. destruct l as [|y l].
  { cbn in Hl. rewrite Hl. cbn [Z.eqb]. exists [x]. split; [by split_and!|by split]. }
  destruct Hl as (Hy & Hy0 & Hys & Hl). rewrite Hy, (proj2 (Z.eqb_neq y 0) Hy0).
  apply NoDup_cons in Hnd as Hnd'. destruct Hnd' as [Hyl Hnd']. rewrite !fmap_cons. cbn [mb_view join_free].
  destruct (mb_is_free (mb_at m x) && mb_is_free (mb_at m y)) eqn:Ef.
  - set (m1 := <[x := _]> m). assert (Hm1 : forall z, z <> x -> m1 !! z = m !! z).
    { intros z Hz. unfold m1. by rewrite lookup_insert_ne. }
    assert (Hrest : forall z, z ∈ l -> m1 !! z = m !! z).
    { intros z Hz. apply Hm1. intros ->. apply Hxl. by right. }
    destruct (IH m1 x (x :: l)) as (l' & Hc' & Hv & Hfr); [| |cbn in *; lia|].
    + split_and!; [done|done|unfold m1; rewrite lookup_insert_eq; eauto|].
      unfold m1 at 2. rewrite mb_at_insert_eq. cbn [mb_next]. by apply (mb_chain_ext m).
    + apply NoDup_cons. split; [|done]. intros Hx. apply Hxl. by right.
    + exists l'. split_and!; [done| |].
      * rewrite Hv, fmap_cons, (mb_view_ext m m1 l Hrest). unfold mb_view at 1, m1. by rewrite !mb_at_insert_eq.
      * intros z Hz. rewrite Hfr; [apply Hm1|]; intros Hz'; apply Hz; [subst z; left|].
        apply elem_of_cons in Hz' as [->|Hz']; [left|by right; right].
  - destruct (IH m y (y :: l)) as (l' & Hc' & Hv & Hfr); [done|done|cbn in *; lia|].
    exists (x :: l'). assert (Ex : coalesce_free_blocks fuel m y !! x = m !! x) by by apply Hfr.
    split_and!.
    + cbn. unfold mb_at. rewrite Ex. fold (mb_at m x). by rewrite Hy.
    + rewrite fmap_cons, Hv. unfold mb_view at 1, mb_at. by rewrite Ex.
    + intros z Hz. apply Hfr. intros Hz'. apply Hz. by right.
Qed.

(** Joining free blocks of the heap's list.  On any well-formed list the pass ends,
    leaves a well-formed list from the same head in which no two neighbours
    are both free, and accounts for the same number of bytes. *)
Theorem coalesce_free_blocks_correct (m : gmap Z memory_block_t) (p : Z) (l : list Z)
    (Hc : mb_chain m p l) (Hnd : NoDup l) (Hpos : Forall (fun x => 0 <= mb_size (mb_at m x)) l)
    (Hspan : span_bytes (mb_view m <$> l) < 2 ^ 64) :
  exists l', let m' := coalesce_free_blocks (mb_fuel m) m p in
    mb_chain m' p l' /\ separated (mb_view m' <$> l') /\
    span_bytes (mb_view m' <$> l') = span_bytes (mb_view m <$> l) /\
    forall x, x ∉ l -> m' !! x = m !! x.
Proof.
  assert (Hfuel : (length l <= mb_fuel m)%nat).
  { unfold mb_fuel. rewrite <- size_dom. transitivity (size (list_to_set l : gset Z)).
    - by rewrite size_list_to_set.
    - apply le_S, subseteq_size. intros x Hx. apply elem_of_list_to_set in Hx. apply elem_of_dom.
      clear - Hc Hx. revert p Hc. induction l as [|y l IH]; intros p Hc; [by apply elem_of_nil in Hx|].
      destruct Hc as (-> & _ & Hy & Hl). apply elem_of_cons in Hx as [->|Hx]; [done|by apply (IH Hx _ Hl)]. }
  destruct (coalesce_spec _ _ _ _ Hc Hnd Hfuel) as (l' & Hc' & Hv & Hfr). exists l'. cbv zeta. rewrite Hv.
  split_and!; [done| | |done].
  - apply join_free_separated. by rewrite length_fmap.
  - apply join_free_span; [|done]. by apply Forall_fmap.
Qed.

Definition demo_blocks : gmap Z memory_block_t :=
  <[64 := mkMb 100 true 256]> (<[256 := mkMb 40 true 512]> (<[512 := mkMb 8 false 0]> ∅)).

Lemma coalesce_free_blocks_correct_witness :
  exists l', let m' := coalesce_free_blocks (mb_fuel demo_blocks) demo_blocks 64 in
    mb_chain m' 64 l' /\ separated (mb_view m' <$> l') /\
    span_bytes (mb_view m' <$> l') = span_bytes (mb_view demo_blocks <$> [64; 256; 512]) /\
    forall x, x ∉ [64; 256; 512] -> m' !! x = demo_blocks !! x.
Proof.
  apply (coalesce_free_blocks_correct demo_blocks 64 [64; 256; 512]).
  - vm_compute. split_and!; eauto; discriminate.
  - by apply (bool_decide_unpack _).
  - by apply (bool_decide_unpack _).
  - by vm_compute.
Defined.

(** The figures of a fresh heap. *)
Lemma memory_init_figures st start sz :
  0 <= start -> sizeof_heap_t <= sz -> start + sz < 2 ^ 64 ->
  let st' := snd (memory_init st start sz) in
  memory_get_total st' = sz - sizeof_heap_t /\ memory_get_used st' = 0 /\ memory_get_free st' = memory_get_total st'.
Proof.
  unfold sizeof_heap_t. intros. cbn. unfold memory_get_total, memory_get_used, memory_get_free. cbn.
  unfold sizeof_heap_t. wrap_small. split_and!; lia.
Qed.
