(* ===== verification/Reports.v ===== *)
(** * Reports: the printing functions of the components

    [memory_print_stats], [pmm_print_stats], [buddy_print_stats],
    [slab_print_all_stats], [kmalloc_print_stats], [task_print_list],
    [driver_list], [block_list_devices], [vfs_list] and [vfs_print_tree].  A
    report does not change the component it describes: it is the list of the
    requests it makes of the console, in order.

    [lit] reads a string literal of the source: the escapes [\n] and [\\], and
    bytes above 127 as the negative values of a signed [char]. *)

From S2P Require Import Prelude MemLayout Errno CString Bitmap Pmm Buddy BuddyLists Slab Kmalloc Task Driver Block Ramfs Vfs.
From S2P Require Import Console Vga Legacy.

Fixpoint unescape (l : list Z) : list Z :=
  match l with
  | [] => []
  | c :: l1 =>
      match l1 with
      | d :: l2 =>
          if (c =? 92) && (d =? 110) then 10 :: unescape l2
          else if (c =? 92) && (d =? 92) then 92 :: unescape l2
          else (if 128 <=? c then c - 256 else c) :: unescape l1
      | [] => [if 128 <=? c then c - 256 else c]
      end
  end.
Definition lit (s : string) : list Z := unescape (str s).

Abbreviation output := (list con_req).

Definition o_puts (s : string) : output := [CPuts (lit s)].
Definition o_str (s : list Z) : output := [CPuts s].
Definition o_num (v : Z) : output := [CPuts (uitoa_chars v)].
Definition o_putc (c : Z) : output := [CPutc c].
Definition o_nl : output := o_putc 10.
Definition o_color (fg : Z) : output := [CSetColor (mkColor fg CONSOLE_COLOR_BLACK)].

(** [for (j = len; j < width; j++) console_putc(' ')] *)
Definition o_pad (len width : Z) : output := replicate (Z.to_nat (width - len)) (CPutc 32).

(** [for (i = a; i < b; i++)], collecting what each round prints. *)
Definition o_for (a b : Z) (f : Z -> output) : output := mjoin (f <$> seqZ a (b - a)).

Definition slen (l : list Z) : Z := Z.of_nat (length l).

(** ** Memory *)

(** The counting loop of [memory_print_stats]: all blocks, free blocks. *)
Fixpoint count_mb (fuel : nat) (m : gmap Z memory_block_t) (current total free : Z) : Z * Z :=
  match fuel with
  | O => (total, free)
  | S fuel' =>
      if current =? 0 then (total, free)
      else count_mb fuel' m (mb_next (mb_at m current)) (u64 (total + 1))
             (if mb_is_free (mb_at m current) then u64 (free + 1) else free)
  end.

Definition memory_print_stats (st : legacy) : output :=
  match kernel_heap_ptr st with
  | None => []
  | Some h =>
      let total_size := u64 (hp_end h - hp_start h) in
      let used_size := u64 (hp_current h - hp_start h) in
      let free_size := u64 (hp_end h - hp_current h) in
      let '(total_blocks, free_blocks) := count_mb (mb_fuel (mem_blocks st)) (mem_blocks st) (hp_free_list h) 0 0 in
      o_puts "\n=== Memory Statistics ===\n" ++
      o_puts "Total heap: " ++ o_num (total_size / 1024) ++ o_puts " KB\n" ++
      o_puts "Used: " ++ o_num used_size ++ o_puts " bytes\n" ++
      o_puts "Free: " ++ o_num (free_size / 1024) ++ o_puts " KB\n" ++
      o_puts "Total blocks: " ++ o_num total_blocks ++ o_puts "\n" ++
      o_puts "Free blocks: " ++ o_num free_blocks ++ o_puts "\n\n"
  end.

Definition pmm_print_stats (s : pmm) : output :=
  o_puts "\n=== Physical Memory Manager ===\n" ++
  o_puts "Total memory: " ++ o_num (pmm_get_total_memory s / 1024 / 1024) ++
  o_puts " MB (" ++ o_num (Pmm.total_pages s) ++ o_puts " pages)\n" ++
  o_puts "Used memory:  " ++ o_num (pmm_get_used_memory s / 1024 / 1024) ++
  o_puts " MB (" ++ o_num (used_pages s) ++ o_puts " pages)\n" ++
  o_puts "Free memory:  " ++ o_num (pmm_get_free_memory s / 1024 / 1024) ++
  o_puts " MB (" ++ o_num (pmm_get_free_pages s) ++ o_puts " pages)\n" ++
  o_puts "Page size:    " ++ o_num PAGE_SIZE ++ o_puts " bytes\n\n".

(** [uitoa] takes the [int] count as a [uint64_t]; a count is positive there. *)
Definition buddy_print_stats (a : buddy) : output :=
  o_puts "\n=== Buddy Allocator Statistics ===\n" ++
  o_puts "Total memory: " ++ o_num (total_size a / 1024 / 1024) ++ o_puts " MB\n" ++
  o_puts "Used memory:  " ++ o_num (buddy_get_used_memory a / 1024) ++ o_puts " KB\n" ++
  o_puts "Free memory:  " ++ o_num (buddy_get_free_memory a / 1024) ++ o_puts " KB\n\n" ++
  o_puts "Splits: " ++ o_num (splits a) ++ o_puts "  Merges: " ++ o_num (merges a) ++ o_puts "\n\n" ++
  o_puts "Free blocks by order:\n" ++
  o_for 0 (BUDDY_MAX_ORDER + 1) (fun order =>
    let count := count_list (list_fuel a) (blocks a) (free_head a order) 0 in
    if 0 <? count then
      o_puts "  Order " ++ o_num order ++ o_puts " (" ++ o_num (BUDDY_SIZE_FOR_ORDER order / 1024) ++
      o_puts " KB): " ++ o_num count ++ o_puts " blocks\n"
    else []) ++
  o_nl.

Definition slab_cache_print_stats {B} (s : slab_sys B) (cache : Z) : output :=
  if cache =? 0 then []
  else
    let c := cache_at s cache in
    o_puts "\nCache: " ++ o_str (c_name c) ++ o_nl ++
    o_puts "  Object size:    " ++ o_num (object_size c) ++ o_puts " bytes\n" ++
    o_puts "  Objects/slab:   " ++ o_num (objects_per_slab c) ++ o_nl ++
    o_puts "  Active objects: " ++ o_num (num_active_objects c) ++ o_nl ++
    o_puts "  Total slabs:    " ++ o_num (num_slabs c) ++ o_nl ++
    o_puts "  Allocations:    " ++ o_num (num_allocations c) ++ o_nl ++
    o_puts "  Frees:          " ++ o_num (num_frees c) ++ o_nl.

Definition slab_print_all_stats {B} (s : slab_sys B) : output :=
  o_puts "\n=== Slab Allocator Statistics ===\n" ++
  o_for 0 (num_caches s) (fun i => slab_cache_print_stats s (nthz (cache_registry s) i)) ++
  o_nl.

Definition kmalloc_print_stats (p : pmm) (h : heap buddy) : output :=
  o_puts "\n" ++
  o_puts "================================\n" ++
  o_puts "  KERNEL MEMORY STATISTICS\n" ++
  o_puts "================================\n" ++
  pmm_print_stats p ++
  match sy_pages (h_slab h) with Some b => buddy_print_stats b | None => [] end ++
  slab_print_all_stats (h_slab h).

(** ** Tasks, drivers and block devices *)

Definition task_state_label (st : task_state) : string * Z :=
  match st with
  | READY => ("READY", CONSOLE_COLOR_GREEN)
  | RUNNING => ("RUNNING", CONSOLE_COLOR_LIGHT_GREEN)
  | BLOCKED => ("BLOCKED", CONSOLE_COLOR_BROWN)
  | SLEEPING => ("SLEEPING", CONSOLE_COLOR_CYAN)
  | TERMINATED => ("TERMINATED", CONSOLE_COLOR_RED)
  end.

Definition task_row (t : task) : output :=
  let '(state_str, state_color) := task_state_label (t_state t) in
  o_num (pid t) ++ o_pad (slen (uitoa_chars (pid t))) 5 ++
  o_str (t_name t) ++ o_pad (slen (t_name t)) 16 ++
  [CPutsColor (lit state_str) (mkColor state_color CONSOLE_COLOR_BLACK)] ++ o_pad (slen (lit state_str)) 11 ++
  o_num (total_runtime t) ++ o_puts " ticks\n".

Definition task_print_list {A} (s : sched A) : output :=
  o_puts "\n=== Task List ===\n" ++
  o_puts "PID  Name            State      Runtime\n" ++
  o_puts "-------------------------------------------\n" ++
  o_for 0 (task_table_capacity s) (fun i =>
    let p := nthz (task_table s) i in
    if p =? 0 then [] else task_row (task_at s p)) ++
  o_puts "\nCurrent task: " ++
  (if current_task s =? 0 then o_puts "(none)" else o_str (t_name (task_at s (current_task s)))) ++
  o_puts "\n\n".

Definition driver_status_color (st : driver_status_t) : console_color_attr_t :=
  match st with
  | DRIVER_STATUS_INITIALIZED | DRIVER_STATUS_ENABLED => CONSOLE_COLOR_SUCCESS
  | DRIVER_STATUS_FAILED => CONSOLE_COLOR_FAILURE
  | DRIVER_STATUS_DISABLED => CONSOLE_COLOR_WARNING
  | DRIVER_STATUS_UNINITIALIZED => CONSOLE_COLOR_DEFAULT
  end.

Definition driver_list {W} (r : registry W) : output :=
  o_puts "\n=== Registered Drivers ===\n" ++
  o_puts "Name                Type            Status          Priority\n" ++
  o_puts "------------------------------------------------------------\n" ++
  o_for 0 (driver_count r) (fun i =>
    let drv := drv_at r (nthz (driver_registry r) i) in
    let type := str (driver_type_name (d_type drv)) in
    let status := str (driver_status_name (d_status drv)) in
    o_str (d_name drv) ++ o_pad (slen (d_name drv)) 20 ++
    o_str type ++ o_pad (slen type) 16 ++
    [CPutsColor status (driver_status_color (d_status drv))] ++ o_pad (slen status) 16 ++
    o_num (d_priority drv) ++ o_nl) ++
  o_nl ++
  o_puts "Total drivers: " ++ o_num (driver_count r) ++ o_puts "\n\n".

Definition block_type_name (t : block_device_type_t) : string :=
  match t with
  | BLOCK_TYPE_ATA => "ATA"
  | BLOCK_TYPE_AHCI => "AHCI"
  | BLOCK_TYPE_NVME => "NVME"
  | BLOCK_TYPE_RAMDISK => "RAM Disk"
  | BLOCK_TYPE_NONE => "Unknown"
  end.

Definition block_row {W} (d : block_device_t W) : output :=
  o_puts "Device " ++ o_num (dev_id d) ++ o_puts ": " ++ o_str (label d) ++ o_puts " (" ++
  o_puts (block_type_name (dev_type d)) ++ o_puts ") - " ++
  o_num (u64 (block_count d * block_size d) / (1024 * 1024)) ++ o_puts " MB\n".

Definition block_list_devices {W} (b : block_sys W) : output :=
  match g_block_manager b with
  | None => o_puts "Block manager not initialized\n"
  | Some (devices, device_count) =>
      o_puts "\n=== Block Devices ===\n" ++
      (if device_count =? 0 then o_puts "No block devices found\n"
       else
         o_for 0 device_count (fun i =>
           let dev := nthz devices i in
           if negb (dev =? 0) && present (dev_at b dev) then block_row (dev_at b dev) else []) ++
         o_nl)
  end.

(** ** Directories *)

Section directories.
Context {A : Type} `{KHeap A}.
Implicit Types s : vfs A.

Definition is_dir (n : vfs_node_t) : bool := bool_decide (n_type n = FILE_TYPE_DIRECTORY).
Definition type_color (n : vfs_node_t) : Z := if is_dir n then CONSOLE_COLOR_LIGHT_BLUE else CONSOLE_COLOR_WHITE.

(** What [vfs_list] prints for one child. *)
Definition list_entry (n : vfs_node_t) : output :=
  o_color (type_color n) ++ o_str (n_name n) ++
  (if is_dir n then o_putc 47
   else o_putc 32 ++ o_num (n_size n) ++ o_puts " bytes") ++
  o_nl.

(** [while (readdir(dir, index, &child) == E_OK)]; [None] when the fuel runs out. *)
Fixpoint each_child (fuel : nat) s (dir : Z) (index : nat) (f : Z -> option output) : option output :=
  match fuel with
  | O => None
  | S fuel' =>
      match ramfs_readdir s dir index with
      | (E_OK, child) =>
          match (if child =? 0 then Some [] else f child), each_child fuel' s dir (S index) f with
          | Some o1, Some o2 => Some (o1 ++ o2)
          | _, _ => None
          end
      | _ => Some []
      end
  end.

(** [None]: the path overflows its copy, or the directory's list is endless. *)
Definition vfs_list s (path : list Z) : option (kerr_t * output) :=
  match vfs_resolve_path s path with
  | None => None
  | Some dir =>
      if dir =? 0 then Some (E_NOTFOUND, [])
      else if negb (is_dir (node_at s dir)) then Some (E_NOTDIR, [])
      else if n_ops (node_at s dir) =? 0 then Some (E_INVALID, [])
      else
        match each_child (ram_fuel s) s dir 0 (fun child => Some (list_entry (node_at s child))) with
        | None => None
        | Some o => Some (E_OK, o ++ o_color CONSOLE_COLOR_WHITE)
        end
  end.

Definition tree_line (n : vfs_node_t) (depth : Z) : output :=
  o_for 0 depth (fun _ => o_puts "  ") ++
  o_color (type_color n) ++ o_str (n_name n) ++ (if is_dir n then o_puts "/" else []) ++ o_puts "\n" ++
  o_color CONSOLE_COLOR_WHITE.

(** The recursion takes its depth as fuel. *)
Fixpoint vfs_print_tree (fuel : nat) s (node depth : Z) : option output :=
  match fuel with
  | O => None
  | S fuel' =>
      let node := if node =? 0 then vfs_root s else node in
      if node =? 0 then Some []
      else
        let n := node_at s node in
        if is_dir n && negb (n_ops n =? 0) then
          match each_child (ram_fuel s) s node 0 (fun child => vfs_print_tree fuel' s child (depth + 1)) with
          | Some o => Some (tree_line n depth ++ o)
          | None => None
          end
        else Some (tree_line n depth)
  end.

(** *** What the listings show *)

Lemma each_child_spec fuel s dir l i f (outs : list output) :
  dir_ok s dir l -> (length l < fuel + i)%nat -> (i <= length l)%nat ->
  Forall2 (fun x o => f (child_node s x) = Some o) (drop i l) outs ->
  each_child fuel s dir i f = Some (mjoin outs).
Proof.
  intros Hd. revert i outs. induction fuel as [|fuel IH]; intros i outs Hf Hi Hall; [lia|].
  cbn [each_child]. rewrite (readdir_spec s dir l i Hd). destruct (l !! i) as [x|] eqn:Ex.
  - rewrite (drop_S _ _ _ Ex) in Hall. apply Forall2_cons_inv_l in Hall as (o & outs' & Ho & Hall & ->).
    destruct (do_nodes _ _ _ Hd x) as [Hx0 _]; [by eapply list_elem_of_lookup_2|].
    unfold child_node in *. rewrite (proj2 (Z.eqb_neq _ 0) Hx0), Ho.
    apply lookup_lt_Some in Ex. rewrite (IH (S i) outs'); [done|lia|lia|done].
  - apply lookup_ge_None in Ex. rewrite drop_ge in Hall by lia. by apply Forall2_nil_inv_l in Hall as ->.
Qed.

(** [ls] of a directory: one entry for each child, newest first, and nothing else. *)
Theorem vfs_list_lists_children s (path : list Z) (dir : Z) (l : list Z)
    (Hres : vfs_resolve_path s path = Some dir) (Hd : dir_ok s dir l) (Hops : n_ops (node_at s dir) <> 0) :
  vfs_list s path =
    Some (E_OK, mjoin ((fun x => list_entry (node_at s (child_node s x))) <$> l) ++ o_color CONSOLE_COLOR_WHITE).
Proof.
  pose proof (do_node _ _ _ Hd) as (Hd0 & _ & Ht). unfold vfs_list. rewrite Hres, (proj2 (Z.eqb_neq _ 0) Hd0).
  unfold is_dir at 1. rewrite (bool_decide_eq_true_2 _ Ht), (proj2 (Z.eqb_neq _ 0) Hops). cbn [negb].
  rewrite (each_child_spec _ s dir l 0 _ ((fun x => list_entry (node_at s (child_node s x))) <$> l)); [done|done| |lia|].
  - pose proof (dir_fuel s dir l Hd). lia.
  - rewrite drop_0. apply Forall2_fmap_r, Forall_Forall2_diag, Forall_forall. reflexivity.
Qed.

(** The picture of the tree below a node: the node's line, then the pictures of
    its children one level deeper, in the order of the list; [h] bounds the
    height. *)
Fixpoint tree_picture s (h : nat) (node depth : Z) (o : output) : Prop :=
  match h with
  | O => False
  | S h' =>
      node <> 0 /\
      ((is_dir (node_at s node) = false /\ o = tree_line (node_at s node) depth) \/
       (exists l outs, dir_ok s node l /\ n_ops (node_at s node) <> 0 /\
          Forall2 (fun x o => tree_picture s h' (child_node s x) (depth + 1) o) l outs /\
          o = tree_line (node_at s node) depth ++ mjoin outs))
  end.

(** [tree] on a tree of any height prints its picture, given that much fuel. *)
Theorem vfs_print_tree_correct s (h fuel : nat) (node depth : Z) (o : output)
    (Hp : tree_picture s h node depth o) (Hfuel : (h <= fuel)%nat) :
  vfs_print_tree fuel s node depth = Some o.
Proof.
  revert h node depth o Hp Hfuel. induction fuel as [|fuel IH]; intros [|h] node depth o Hp Hf; [done|lia|done|].
  destruct Hp as (H0 & Hp). cbn [vfs_print_tree]. rewrite (proj2 (Z.eqb_neq _ 0) H0), (proj2 (Z.eqb_neq _ 0) H0).
  destruct Hp as [[Hf' ->]|(l & outs & Hd & Hops & Hall & ->)]; [by rewrite Hf'|].
  pose proof (do_node _ _ _ Hd) as (_ & _ & Ht). unfold is_dir at 1.
  rewrite (bool_decide_eq_true_2 _ Ht), (proj2 (Z.eqb_neq _ 0) Hops). cbn [andb negb].
  rewrite (each_child_spec _ s node l 0 _ outs); [done|done| |lia|].
  - pose proof (dir_fuel s node l Hd). lia.
  - rewrite drop_0. eapply Forall2_impl; [exact Hall|]. intros x o' Hx. apply (IH h); [done|lia].
Qed.
End directories.

(** *** The root directory with one file *)

Lemma vfs_list_lists_children_witness :
  vfs_list vfs_a [SLASH] =
    Some (E_OK, o_color CONSOLE_COLOR_WHITE ++ o_puts "a" ++ o_putc 32 ++ o_puts "0" ++ o_puts " bytes" ++ o_nl ++
                o_color CONSOLE_COLOR_WHITE).
Proof.
  rewrite (vfs_list_lists_children vfs_a [SLASH] (vfs_root vfs_a) [ram_a] ltac:(vm_compute; reflexivity) vfs_a_dir
    (proj2 vfs_a_root)).
  vm_compute. reflexivity.
Defined.

Lemma vfs_a_picture :
  tree_picture vfs_a 2 (vfs_root vfs_a) 0
    (tree_line (node_at vfs_a (vfs_root vfs_a)) 0 ++ mjoin [tree_line (node_at vfs_a node_a) 1]).
Proof.
  split; [exact (proj1 vfs_a_root)|]. right. exists [ram_a], [tree_line (node_at vfs_a node_a) 1].
  split; [exact vfs_a_dir|]. split; [exact (proj2 vfs_a_root)|]. split; [|reflexivity].
  constructor; [|constructor]. vm_compute. split; [discriminate|]. left. by split.
Qed.

Lemma vfs_print_tree_correct_witness :
  vfs_print_tree 5 vfs_a (vfs_root vfs_a) 0 =
    Some (tree_line (node_at vfs_a (vfs_root vfs_a)) 0 ++ mjoin [tree_line (node_at vfs_a node_a) 1]).
Proof. exact (vfs_print_tree_correct vfs_a 2 5 _ 0 _ vfs_a_picture ltac:(lia)). Defined.
