(* ===== verification/VfsShape.v ===== *)
(** * The shape of the file tree

    Two file system states are equivalent when they have the same root, the same
    names, types and links; sizes, contents and the heap may differ.  Path
    resolution respects the equivalence, and writing to a file stays within it,
    so a path names the same file before and after a write. *)

From S2P Require Import Prelude Errno Buddy Kmalloc Task Ramfs Vfs.

Definition node_shape (n : vfs_node_t) : list Z * file_type_t * Z * Z := (n_name n, n_type n, n_fs_data n, n_ops n).
Definition ram_shape (r : ramfs_node_t) : Z * Z * Z := (r_vfs_node r, first_child r, next_sibling r).

Section shape.
Context {A : Type} `{KHeap A}.
Implicit Types s : vfs A.

Record same_tree s s' : Prop := {
  sm_root : vfs_root s = vfs_root s';
  sm_nodes : forall p, node_shape (node_at s p) = node_shape (node_at s' p);
  sm_rams : forall p, ram_shape (ram_at s p) = ram_shape (ram_at s' p);
  sm_size : size (rams s) = size (rams s');
}.

#[export] Instance vfs_equiv : Equiv (vfs A) := same_tree.
#[export] Instance vfs_equivalence : Equivalence (≡@{vfs A}).
Proof.
  split.
  - intros s. by split.
  - intros s s' [H1 H2 H3 H4]. by split.
  - intros s1 s2 s3 [H1 H2 H3 H4] [G1 G2 G3 G4]. split; [congruence| | |congruence]; intros p; etrans; eauto.
Qed.

Lemma shape_node s s' p :
  s ≡ s' -> n_name (node_at s p) = n_name (node_at s' p) /\ n_type (node_at s p) = n_type (node_at s' p) /\
            n_fs_data (node_at s p) = n_fs_data (node_at s' p) /\ n_ops (node_at s p) = n_ops (node_at s' p).
Proof. intros E. pose proof (sm_nodes _ _ E p) as Hp. by injection Hp. Qed.
Lemma shape_ram s s' p :
  s ≡ s' -> r_vfs_node (ram_at s p) = r_vfs_node (ram_at s' p) /\ first_child (ram_at s p) = first_child (ram_at s' p) /\
            next_sibling (ram_at s p) = next_sibling (ram_at s' p).
Proof. intros E. pose proof (sm_rams _ _ E p) as Hp. by injection Hp. Qed.

#[export] Instance ram_fuel_proper : Proper ((≡) ==> (=)) (ram_fuel (A := A)).
Proof. intros s s' E. unfold ram_fuel. by rewrite (sm_size _ _ E). Qed.

#[export] Instance nth_sibling_proper n : Proper ((≡) ==> (=) ==> (=)) (nth_sibling (A := A) n).
Proof.
  intros s s' E p ? <-. revert p. induction n as [|n IH]; intros p; [done|]. cbn.
  by rewrite (proj2 (proj2 (shape_ram s s' p E))), IH.
Qed.

#[export] Instance ramfs_readdir_proper : Proper ((≡) ==> (=) ==> (=) ==> (=)) (ramfs_readdir (A := A)).
Proof.
  intros s s' E p ? <- i ? <-. unfold ramfs_readdir.
  destruct (shape_node s s' p E) as (_ & -> & -> & _).
  set (d := n_fs_data (node_at s' p)). rewrite (proj1 (proj2 (shape_ram s s' d E))).
  rewrite (nth_sibling_proper i s s' E _ _ eq_refl). set (c := nth_sibling i s' _).
  by rewrite (proj1 (shape_ram s s' c E)).
Qed.

#[export] Instance find_child_proper fuel : Proper ((≡) ==> (=) ==> (=) ==> (=) ==> (=)) (find_child (A := A) fuel).
Proof.
  intros s s' E p ? <- i ? <- name ? <-. revert i. induction fuel as [|fuel IH]; intros i; [done|].
  cbn [find_child]. rewrite E. destruct (ramfs_readdir s' p i) as [[] child]; try done.
  by rewrite (proj1 (shape_node s s' child E)), IH.
Qed.

#[export] Instance resolve_loop_proper fuel : Proper ((≡) ==> (=) ==> (=) ==> (=)) (resolve_loop (A := A) fuel).
Proof.
  intros s s' E p ? <- c ? <-. revert p c. induction fuel as [|fuel IH]; intros p c; [done|].
  cbn [resolve_loop]. destruct c as [|c0 c]; [done|]. destruct (split_slash (c0 :: c)) as [name rest].
  destruct (shape_node s s' p E) as (_ & _ & _ & ->). destruct (_ =? 0); [done|].
  rewrite (ram_fuel_proper s s' E), (find_child_proper _ s s' E p _ eq_refl 0%nat _ eq_refl name _ eq_refl).
  destruct (find_child _ _ _ _ _) as [child|]; [|done]. by destruct rest.
Qed.

#[export] Instance vfs_resolve_path_proper : Proper ((≡) ==> (=) ==> (=)) (vfs_resolve_path (A := A)).
Proof.
  intros s s' E path ? <-. unfold vfs_resolve_path. rewrite (sm_root _ _ E).
  by rewrite (resolve_loop_proper _ s s' E _ _ eq_refl _ _ eq_refl).
Qed.

(** The heap is not part of the shape. *)
Lemma with_vheap_shape s h : with_vheap s h ≡ s.
Proof. by split. Qed.

(** The file's old data block is not one of the tree's structures. *)
Definition data_apart s (d : Z) : Prop :=
  nodes s !! r_data (ram_at s d) = None /\ rams s !! r_data (ram_at s d) = None.

Lemma release_shape s p : nodes s !! p = None -> rams s !! p = None -> release s p ≡ s.
Proof.
  intros Hn Hr. unfold release. destruct (p =? 0); [done|]. cbn [negb]. unfold kfree_s.
  split; cbn; [done| | |by rewrite delete_id]; intros q; unfold node_at, ram_at; cbn; by rewrite delete_id.
Qed.

Lemma put_node_shape s p n : node_shape n = node_shape (node_at s p) -> put_node s p n ≡ s.
Proof.
  intros Hn. split; cbn; [done| |done|done]. intros q. unfold node_at in *. cbn.
  destruct (decide (q = p)) as [->|]; [by rewrite lookup_insert_eq|by rewrite lookup_insert_ne].
Qed.

Lemma put_ram_shape s p r : is_Some (rams s !! p) -> ram_shape r = ram_shape (ram_at s p) -> put_ram s p r ≡ s.
Proof.
  intros Hp Hr. split; cbn; [done|done| |by apply map_size_insert_Some]. intros q. unfold ram_at in *. cbn.
  destruct (decide (q = p)) as [->|]; [by rewrite lookup_insert_eq|by rewrite lookup_insert_ne].
Qed.

Lemma put_blob_shape s p b : put_blob s p b ≡ s.
Proof. by split. Qed.

Lemma ramfs_write_shape s node d buf :
  file_ok s node d -> data_apart s d -> snd (ramfs_write s node buf) ≡ s.
Proof.
  intros [(Hn0 & Hn1 & Ht) (Ed & Hd0 & Hd1) _] [Ho1 Ho2]. unfold ramfs_write.
  destruct (_ || _); [done|]. rewrite Ed. destruct (d =? 0); [done|].
  fold (release s (r_data (ram_at s d))). set (s1 := release _ _).
  assert (E1 : s1 ≡ s) by by apply release_shape. unfold kmalloc_s. destruct (kh_alloc _ _) as [p h].
  assert (Hd1' : is_Some (rams s1 !! d)).
  { unfold s1, release. destruct (_ =? 0); [done|]. cbn. rewrite lookup_delete_ne; [done|]. intros E. rewrite E in Ho2.
    rewrite Ho2 in Hd1. by destruct Hd1. }
  assert (E2 : put_ram (with_vheap s1 h) d (set_data p (ram_at (with_vheap s1 h) d)) ≡ s).
  { rewrite put_ram_shape; [by rewrite with_vheap_shape|done|done]. }
  destruct (p =? 0); cbn [snd]; rewrite put_node_shape by done; [done|]. by rewrite put_blob_shape.
Qed.
End shape.
