(* ===== verification/Shell.v ===== *)
(** * Shell: shell/shell.h, shell/shell.c (command lines)

    Splitting a line into arguments.  The line is split in place: the buffer is a
    list of characters and the arguments are offsets into it.  The commands are
    in [ShellCmds.v], the line editor and the command loop in [ShellRun.v]. *)

From S2P Require Import Prelude.

Definition MAX_ARGS : Z := 16.

Definition is_blank (c : Z) : bool := (c =? 32) || (c =? 9).

(** ** Splitting *)

(** The loop of [parse_command] from index [i]; it stops at the terminator, so
    [n] need only exceed the number of characters left. *)
Fixpoint parse_loop (n : nat) (input : list Z) (i : Z) (argv : list Z) (in_word : bool) (max_args : Z)
  : list Z * list Z :=
  match n with
  | O => (input, argv)
  | S n' =>
      if (nthz input i =? 0) || (max_args <=? Z.of_nat (length argv)) then (input, argv)
      else if is_blank (nthz input i) then
        if in_word then parse_loop n' (updz input i 0) (i + 1) argv false max_args
        else parse_loop n' input (i + 1) argv in_word max_args
      else
        if in_word then parse_loop n' input (i + 1) argv in_word max_args
        else parse_loop n' input (i + 1) (argv ++ [i]) true max_args
  end.

Definition parse_command (input : list Z) (max_args : Z) : list Z * list Z :=
  parse_loop (S (length input)) input 0 [] false max_args.

Fixpoint take_while (p : Z -> bool) (l : list Z) : list Z :=
  match l with [] => [] | c :: l' => if p c then c :: take_while p l' else [] end.
Fixpoint drop_while (p : Z -> bool) (l : list Z) : list Z :=
  match l with [] => [] | c :: l' => if p c then drop_while p l' else l end.

(** The C string at an offset of the buffer. *)
Definition arg_at (input : list Z) (off : Z) : list Z :=
  take_while (fun c => negb (c =? 0)) (drop (Z.to_nat off) input).

(** The argument strings of a line. *)
Definition parse_args (input : list Z) (max_args : Z) : list (list Z) :=
  let '(input, argv) := parse_command input max_args in arg_at input <$> argv.

(** ** The reference: at most [k] words, the last of which is the rest *)

Fixpoint ref_args (k : nat) (s : list Z) : list (list Z) :=
  match k with
  | O => []
  | S k' =>
      match drop_while is_blank s with
      | [] => []
      | s' => match k' with
              | O => [s']
              | _ => take_while (fun c => negb (is_blank c)) s' ::
                     ref_args k' (drop_while (fun c => negb (is_blank c)) s')
              end
      end
  end.

(** The words of a line, as a specification. *)
Definition cons_word (c : Z) (ws : list (list Z)) : list (list Z) :=
  match ws with [] => [[c]] | w :: ws => (c :: w) :: ws end.

Fixpoint words (s : list Z) : list (list Z) :=
  match s with
  | [] => []
  | c :: s' =>
      if is_blank c then words s'
      else match s' with
           | d :: _ => if is_blank d then [c] :: words s' else cons_word c (words s')
           | [] => [[c]]
           end
  end.

Lemma arg_at_app pre t r :
  Forall (fun c => c <> 0) t -> arg_at (pre ++ t ++ 0 :: r) (Z.of_nat (length pre)) = t.
Proof.
  intros Ht. unfold arg_at. rewrite Nat2Z.id, drop_app_length.
  induction Ht as [|c t Hc _ IH]; [done|]. cbn. destruct (Z.eqb_spec c 0); [done|]. cbn. by rewrite IH.
Qed.

Lemma nthz_app_here (pre : list Z) (c : Z) t : nthz (pre ++ c :: t) (Z.of_nat (length pre)) = c.
Proof. unfold nthz. by rewrite Nat2Z.id, list_lookup_middle. Qed.

Lemma updz_app_here (pre : list Z) (c : Z) t v : updz (pre ++ c :: t) (Z.of_nat (length pre)) v = pre ++ v :: t.
Proof. unfold updz. rewrite Nat2Z.id. rewrite insert_app_r_alt by lia. by rewrite Nat.sub_diag. Qed.

Lemma ref_args_blank k c t : is_blank c = true -> ref_args k (c :: t) = ref_args k t.
Proof. intros Hc. destruct k as [|k]; [done|]. cbn [ref_args drop_while]. by rewrite Hc. Qed.

(** The two states of the loop.  Outside a word the rest of the line gives the
    remaining arguments; inside one, [w] has been read and is continued. *)
Definition loop_outside (t : list Z) : Prop :=
  forall n pre r argv k, (length t < n)%nat -> exists t' offs,
    parse_loop n (pre ++ t ++ 0 :: r) (Z.of_nat (length pre)) argv false (Z.of_nat (length argv + k)) =
      (pre ++ t' ++ 0 :: r, argv ++ offs) /\ length t' = length t /\
    arg_at (pre ++ t' ++ 0 :: r) <$> offs = ref_args k t.

Definition loop_inside (t : list Z) : Prop :=
  forall n pre w r argv k, (length t < n)%nat -> Forall (fun c => c <> 0) w -> exists t' offs,
    parse_loop n ((pre ++ w) ++ t ++ 0 :: r) (Z.of_nat (length (pre ++ w))) argv true (Z.of_nat (length argv + k)) =
      ((pre ++ w) ++ t' ++ 0 :: r, argv ++ offs) /\ length t' = length t /\
    arg_at ((pre ++ w) ++ t' ++ 0 :: r) (Z.of_nat (length pre)) =
      w ++ (if k is O then t else take_while (fun c => negb (is_blank c)) t) /\
    arg_at ((pre ++ w) ++ t' ++ 0 :: r) <$> offs = ref_args k (drop_while (fun c => negb (is_blank c)) t).

(** The test of the loop at a character that is not the terminator. *)
Lemma parse_loop_head pre c t (argv : list Z) k :
  c <> 0 ->
  (nthz (pre ++ (c :: t)) (Z.of_nat (length pre)) =? 0) || (Z.of_nat (length argv + k) <=? Z.of_nat (length argv))
  = match k with O => true | _ => false end.
Proof. intros Hc. rewrite nthz_app_here. destruct k; zdecide. Qed.

Lemma loop_outside_cons c t :
  c <> 0 -> Forall (fun c => c <> 0) t -> loop_outside t -> loop_inside t -> loop_outside (c :: t).
Proof.
  intros Hc Ht HA HB [|n] pre r argv k Hn; [cbn in Hn; lia|]. cbn [length] in Hn.
  cbn [parse_loop app]. rewrite parse_loop_head by done. destruct k as [|k].
  { exists (c :: t), []. by rewrite app_nil_r. }
  rewrite nthz_app_here. destruct (is_blank c) eqn:Hb.
  - destruct (HA n (pre ++ [c]) r argv (S k)) as (t' & offs & Hrun & Hlen & Hargs); [lia|].
    exists (c :: t'), offs. rewrite ref_args_blank by done. revert Hrun Hargs.
    rewrite <- !app_assoc, length_app, Nat2Z.inj_add. cbn [app length]. change (Z.of_nat 1) with 1. intros -> ->. by rewrite Hlen.
  - destruct (HB n pre [c] r (argv ++ [Z.of_nat (length pre)]) k) as (t' & offs & Hrun & Hlen & Hw & Hargs);
      [lia|by constructor|].
    exists (c :: t'), (Z.of_nat (length pre) :: offs). revert Hrun Hw Hargs.
    rewrite !length_app, <- !app_assoc, !Nat2Z.inj_add. cbn [app length].
    replace (Z.of_nat (length argv) + Z.of_nat 1 + Z.of_nat k) with (Z.of_nat (length argv) + Z.of_nat (S k)) by lia.
    change (Z.of_nat 1) with 1. intros -> Hw Hargs. rewrite Hlen. split_and!; [done|done|].
    rewrite fmap_cons, Hw, Hargs. cbn [ref_args drop_while take_while]. rewrite Hb. cbn [take_while drop_while].
    rewrite Hb. cbn [negb]. by destruct k.
Qed.

Lemma loop_inside_cons c t :
  c <> 0 -> Forall (fun c => c <> 0) t -> loop_outside t -> loop_inside t -> loop_inside (c :: t).
Proof.
  intros Hc Ht HA HB [|n] pre w r argv k Hn Hw; [cbn in Hn; lia|]. cbn [length] in Hn.
  cbn [parse_loop]. change ((c :: t) ++ 0 :: r) with (c :: (t ++ 0 :: r)).
  rewrite parse_loop_head by done. destruct k as [|k].
  { exists (c :: t), []. rewrite app_nil_r. split_and!; [done|done| |done].
    rewrite <- app_assoc, (app_assoc w). apply arg_at_app. apply Forall_app; split; [done|by constructor]. }
  rewrite nthz_app_here, updz_app_here. cbn [take_while drop_while]. destruct (is_blank c) eqn:Hb.
  - destruct (HA n ((pre ++ w) ++ [0]) r argv (S k)) as (t' & offs & Hrun & Hlen & Hargs); [lia|].
    exists (0 :: t'), offs. cbn [negb]. rewrite ref_args_blank by done. revert Hrun Hargs.
    rewrite <- !(app_assoc (pre ++ w)), (length_app (pre ++ w)), Nat2Z.inj_add. cbn [app length]. change (Z.of_nat 1) with 1. intros -> ->.
    rewrite Hlen. split_and!; try done. rewrite app_nil_r, <- app_assoc. by apply arg_at_app.
  - destruct (HB n pre (w ++ [c]) r argv (S k)) as (t' & offs & Hrun & Hlen & Harg & Hargs);
      [lia|apply Forall_app; split; [done|by constructor]|].
    exists (c :: t'), offs. cbn [negb]. revert Hrun Harg Hargs.
    rewrite !(app_assoc pre w), <- !(app_assoc (pre ++ w)), <- (app_assoc w), (length_app (pre ++ w)), Nat2Z.inj_add.
    cbn [app length]. change (Z.of_nat 1) with 1. intros -> -> ->. by rewrite Hlen.
Qed.

Lemma parse_loop_spec t : Forall (fun c => c <> 0) t -> loop_outside t /\ loop_inside t.
Proof.
  induction 1 as [|c t Hc Ht [HA HB]].
  - split.
    + intros [|n] pre r argv k Hn; [cbn in Hn; lia|]. exists [], []. cbn [parse_loop app].
      rewrite nthz_app_here, app_nil_r. split_and!; [done|done|by destruct k].
    + intros [|n] pre w r argv k Hn Hw; [cbn in Hn; lia|]. exists [], []. cbn [parse_loop app].
      rewrite nthz_app_here, app_nil_r. split_and!; [done|done| |by destruct k].
      rewrite <- app_assoc, arg_at_app by done. destruct k; by rewrite app_nil_r.
  - split; [by apply loop_outside_cons|by apply loop_inside_cons].
Qed.

(** Splitting in place computes the reference. *)
Lemma parse_args_ref t r k :
  Forall (fun c => c <> 0) t -> parse_args (t ++ 0 :: r) (Z.of_nat k) = ref_args k t.
Proof.
  intros Ht. destruct (parse_loop_spec t Ht) as [HA _]. unfold parse_args, parse_command.
  destruct (HA (S (length (t ++ 0 :: r))) [] r [] k) as (t' & offs & Hrun & Hlen & Hargs).
  { rewrite length_app. lia. }
  cbn [app length Nat.add] in Hrun. change (Z.of_nat 0) with 0 in Hrun. by rewrite Hrun.
Qed.

(** ** The reference and the words of the line *)

Abbreviation in_word c := (negb (is_blank c)).

Lemma words_drop_blank s : words (drop_while is_blank s) = words s.
Proof. induction s as [|c s IH]; [done|]. cbn. by destruct (is_blank c) eqn:E; cbn; rewrite ?E. Qed.

Lemma words_word c s :
  is_blank c = false ->
  words (c :: s) = take_while (fun c => in_word c) (c :: s) :: words (drop_while (fun c => in_word c) (c :: s)).
Proof.
  revert c. induction s as [|d s IH]; intros c Hc; [by cbn; rewrite Hc|].
  cbn [words take_while drop_while]. rewrite Hc. cbn [negb]. destruct (is_blank d) eqn:Hd; [by cbn; rewrite Hd|].
  specialize (IH d Hd). cbn [words] in IH. rewrite Hd in IH. rewrite IH. cbn [negb take_while drop_while].
  by rewrite Hd.
Qed.

Lemma drop_while_head p s c s' : drop_while p s = c :: s' -> p c = false.
Proof. induction s as [|d s IH]; [done|]. cbn. destruct (p d) eqn:E; [done|]. by intros [= <- <-]. Qed.

Lemma drop_while_suffix p s : drop_while p s `suffix_of` s.
Proof.
  induction s as [|d s IH]; [done|]. cbn. destruct (p d); [|done]. etrans; [exact IH|by apply suffix_cons_r].
Qed.

Lemma ref_args_SS k s :
  ref_args (S (S k)) s =
  match drop_while is_blank s with
  | [] => []
  | s' => take_while (fun c => in_word c) s' :: ref_args (S k) (drop_while (fun c => in_word c) s')
  end.
Proof. done. Qed.

(** With room for [k + 1] arguments: the words of the line if there are at most
    [k], and otherwise [k] words and the rest of the line from the next one. *)
Lemma ref_args_words k s :
  ((length (words s) <= k)%nat /\ ref_args (S k) s = words s) \/
  exists c rest, ref_args (S k) s = take k (words s) ++ [c :: rest] /\ is_blank c = false /\
    words (c :: rest) = drop k (words s) /\ (c :: rest) `suffix_of` s.
Proof.
  revert s. induction k as [|k IH]; intros s; rewrite <- (words_drop_blank s), ?ref_args_SS;
    pose proof (drop_while_suffix is_blank s) as Hsuf.
  - cbn [ref_args]. destruct (drop_while is_blank s) as [|c s'] eqn:Hs; [left; split; [cbn; lia|done]|].
    right. exists c, s'. rewrite drop_0. split_and!; [done|by apply drop_while_head in Hs|done|done].
  - destruct (drop_while is_blank s) as [|c s'] eqn:Hs; [left; split; [cbn; lia|done]|].
    rewrite (words_word c s') by (by apply drop_while_head in Hs). cbv beta iota zeta.
    destruct (IH (drop_while (fun c => in_word c) (c :: s'))) as [[Hle Heq]|(d & rest & Heq & Hd & Hw & Hsuf')].
    + left. split; [cbn [length]; lia|]. by rewrite Heq.
    + right. exists d, rest. split_and!; [by rewrite Heq|done|done|].
      etrans; [exact Hsuf'|]. etrans; [apply drop_while_suffix|exact Hsuf].
Qed.

(** Words survive being joined by blanks. *)
Definition is_word (w : list Z) : Prop := w <> [] /\ Forall (fun c => is_blank c = false /\ c <> 0) w.

Fixpoint join_blank (ws : list (list Z)) : list Z :=
  match ws with
  | [] => []
  | w :: ws' => match ws' with [] => w | _ => w ++ 32 :: join_blank ws' end
  end.

Lemma words_app_word w s :
  is_word w -> match s with [] => True | c :: _ => is_blank c = true end -> words (w ++ s) = w :: words s.
Proof.
  intros [Hne Hw] Hs. induction Hw as [|c w [Hc _] Hw IH]; [done|]. cbn [app words]. rewrite Hc.
  destruct w as [|d w].
  - destruct s as [|d s]; [done|]. cbn [app]. by rewrite Hs.
  - rewrite (IH ltac:(done)). cbn [app]. apply Forall_cons in Hw as [[Hd _] _]. by rewrite Hd.
Qed.

Lemma words_join ws : Forall is_word ws -> words (join_blank ws) = ws.
Proof.
  induction 1 as [|w ws Hw Hws IH]; [done|]. cbn [join_blank]. destruct ws as [|w' ws].
  - rewrite <- (app_nil_r w) at 1. by rewrite words_app_word.
  - rewrite words_app_word by done. f_equal. change (words (join_blank (w' :: ws)) = w' :: ws) in IH. exact IH.
Qed.

Lemma join_blank_nonzero ws : Forall is_word ws -> Forall (fun c => c <> 0) (join_blank ws).
Proof.
  assert (Hnz : forall w, is_word w -> Forall (fun c : Z => c <> 0) w).
  { intros w [_ Hw]. eapply Forall_impl; [exact Hw|]. by intros c [_ ?]. }
  induction 1 as [|w ws Hw Hws IH]; [done|]. cbn [join_blank]. destruct ws as [|w' ws]; [by apply Hnz|].
  apply Forall_app. split; [by apply Hnz|]. by constructor.
Qed.

(** C21. [parse_command] against the words of the line.  For any line and whatever
    follows its terminator, splitting in place gives at most [MAX_ARGS]
    arguments: the words of the line when there are fewer than [MAX_ARGS],
    and otherwise the first fifteen and, as the last one, the whole rest of the
    line from the sixteenth word on. *)
Theorem parse_command_correct (line rest : list Z) (Hline : Forall (fun c => c <> 0) line) :
  let args := parse_args (line ++ 0 :: rest) MAX_ARGS in
  (Z.of_nat (length args) <= MAX_ARGS) /\
  (Z.of_nat (length (words line)) < MAX_ARGS -> args = words line) /\
  (MAX_ARGS <= Z.of_nat (length (words line)) -> exists last,
     args = take 15 (words line) ++ [last] /\ last `suffix_of` line /\ words last = drop 15 (words line)).
Proof.
  cbv zeta. change MAX_ARGS with (Z.of_nat 16). rewrite parse_args_ref by done.
  destruct (ref_args_words 15 line) as [[Hle ->]|(c & last & -> & Hc & Hw & Hsuf)].
  - split_and!; [lia|done|lia].
  - assert (Hlen : (16 <= length (words line))%nat).
    { destruct (decide (16 <= length (words line))%nat); [done|]. rewrite drop_ge in Hw by lia.
      rewrite words_word in Hw by done. discriminate. }
    split_and!; [rewrite length_app, length_take; cbn [length]; lia|lia|eauto].
Qed.

Lemma parse_command_correct_witness :
  parse_args (str "cp  /a /b" ++ 0 :: str "old") MAX_ARGS = [str "cp"; str "/a"; str "/b"].
Proof.
  apply (parse_command_correct (str "cp  /a /b") (str "old") ltac:(by apply (bool_decide_unpack _))).
  vm_compute. reflexivity.
Defined.
