(* ===== verification/ShellSys.v ===== *)
(** * The system a shell command works on

    A command of shell/shell.c calls into every other component.  [system] puts
    their states side by side; there is one kernel heap and one memory, which
    the components' models take as a field, so a call lends them the shared one
    and takes back what they leave.  The block devices work on a world [W], of
    which only the memory is visible ([World]).

    A command is a computation [sh A]: it ends with a result, or stops the
    shell ([outcome]).  Its console output is the list of requests it makes. *)

From S2P Require Import Prelude MemLayout Errno CString Bitmap Pmm Buddy Slab SlabThms Kmalloc Task Driver Block Ramfs Vfs.
From S2P Require Import Console Vga Legacy Reports.

(** The memory of a machine, and whether it still runs (a driver may poll
    for ever). *)
Class World (W : Type) := {
  w_mem : W -> mem;
  w_set_mem : mem -> W -> W;
  w_running : W -> bool;
}.
Class WorldLaws (W : Type) `{World W} := {
  w_get_set m w : w_running w = true -> w_mem (w_set_mem m w) = m;
  w_set_get w : w_set_mem (w_mem w) w = w;
  w_set_set m m' w : w_set_mem m (w_set_mem m' w) = w_set_mem m w;
  w_set_running m w : w_running (w_set_mem m w) = w_running w;
}.

Record system (W V : Type) := mkSystem {
  y_con : list con_req;
  y_ser : list (list Z);
  y_slab : slab_sys buddy;
  y_pmm : pmm;
  y_legacy : legacy;
  y_vfs : vfs (heap buddy);
  y_sched : sched (heap buddy);
  y_drv : registry V;
  y_blk : block_sys W;
  y_world : W;
}.
Arguments mkSystem {W V}. Arguments y_con {W V}. Arguments y_ser {W V}. Arguments y_slab {W V}. Arguments y_pmm {W V}.
Arguments y_legacy {W V}. Arguments y_vfs {W V}. Arguments y_sched {W V}. Arguments y_drv {W V}. Arguments y_blk {W V}.
Arguments y_world {W V}.

(** Why the shell stops: a kernel panic with its message, the reset, the end of
    its task, a device that is polled for ever, or behaviour the C standard
    leaves undefined. *)
Inductive stop_reason := Panicked (message : list Z) | Rebooted | Exited | Hung | Undefined.
Inductive outcome (A : Type) := Ret (a : A) | Stop (r : stop_reason).
Arguments Ret {A}. Arguments Stop {A}.

Definition sh (W V A : Type) : Type := system W V -> outcome A * system W V.

#[export] Instance sh_ret W V : MRet (sh W V) := fun A a st => (Ret a, st).
#[export] Instance sh_bind W V : MBind (sh W V) := fun A B k m st =>
  match m st with (Ret a, st') => k a st' | (Stop r, st') => (Stop r, st') end.

Section ops.
Context {W V : Type} `{World W}.
Implicit Types st : system W V.

Definition stop {A} (r : stop_reason) : sh W V A := fun st => (Stop r, st).

(** *** Console and serial output *)

Definition say (o : output) : sh W V unit := fun st =>
  (Ret tt, mkSystem (y_con st ++ o) (y_ser st) (y_slab st) (y_pmm st) (y_legacy st) (y_vfs st) (y_sched st)
             (y_drv st) (y_blk st) (y_world st)).
Definition serial_debug_puts (s : list Z) : sh W V unit := fun st =>
  (Ret tt, mkSystem (y_con st) (y_ser st ++ [s]) (y_slab st) (y_pmm st) (y_legacy st) (y_vfs st) (y_sched st)
             (y_drv st) (y_blk st) (y_world st)).

Definition puts (s : string) : sh W V unit := say (o_puts s).
Definition puts_str (s : list Z) : sh W V unit := say (o_str s).
Definition putc (c : Z) : sh W V unit := say (o_putc c).
Definition putnum (v : Z) : sh W V unit := say (o_num v).
Definition set_color (fg : Z) : sh W V unit := say (o_color fg).
Definition perror (s : string) : sh W V unit := say [CPerror (lit s)].
Definition perror_err (e : kerr_t) : sh W V unit := say [CPerror (str (k_strerror (kerr_value e)))].

(** [console_set_color(fg); console_puts(s); console_set_color(WHITE);] *)
Definition puts_in (fg : Z) (s : string) : sh W V unit :=
  set_color fg ;; puts s ;; set_color CONSOLE_COLOR_WHITE.

(** *** Components *)

Definition y_heap st : heap buddy := mkHeap (y_slab st) (w_mem (y_world st)).
Definition set_heap (h : heap buddy) st : system W V :=
  mkSystem (y_con st) (y_ser st) (h_slab h) (y_pmm st) (y_legacy st) (y_vfs st) (y_sched st)
    (y_drv st) (y_blk st) (w_set_mem (kmem h) (y_world st)).
Definition set_y_vfs (v : vfs (heap buddy)) st : system W V :=
  mkSystem (y_con st) (y_ser st) (y_slab st) (y_pmm st) (y_legacy st) v (y_sched st)
    (y_drv st) (y_blk st) (y_world st).
Definition set_y_sched (s : sched (heap buddy)) st : system W V :=
  mkSystem (y_con st) (y_ser st) (y_slab st) (y_pmm st) (y_legacy st) (y_vfs st) s
    (y_drv st) (y_blk st) (y_world st).
Definition set_y_pmm (p : pmm) st : system W V :=
  mkSystem (y_con st) (y_ser st) (y_slab st) p (y_legacy st) (y_vfs st) (y_sched st)
    (y_drv st) (y_blk st) (y_world st).
Definition set_y_world (w : W) st : system W V :=
  mkSystem (y_con st) (y_ser st) (y_slab st) (y_pmm st) (y_legacy st) (y_vfs st) (y_sched st)
    (y_drv st) (y_blk st) w.

Definition gets {A} (f : system W V -> A) : sh W V A := fun st => (Ret (f st), st).

Definition heap_op {A} (f : heap buddy -> A * heap buddy) : sh W V A := fun st =>
  let '(a, h) := f (y_heap st) in (Ret a, set_heap h st).
Definition slab_op {A} (f : slab_sys buddy -> A * slab_sys buddy) : sh W V A :=
  heap_op (fun h => let '(a, s) := f (h_slab h) in (a, with_h_slab h s)).
Definition pmm_op {A} (f : pmm -> A * pmm) : sh W V A := fun st =>
  let '(a, p) := f (y_pmm st) in (Ret a, set_y_pmm p st).

(** The file system borrows the heap. *)
Definition vfs_view st : vfs (heap buddy) := with_vheap (y_vfs st) (y_heap st).
Definition vfs_op {A} (f : vfs (heap buddy) -> option (A * vfs (heap buddy))) : sh W V A := fun st =>
  match f (vfs_view st) with
  | Some (a, v) => (Ret a, set_y_vfs v (set_heap (v_heap v) st))
  | None => (Stop Undefined, st)
  end.

(** So does the scheduler. *)
Definition sched_view st : sched (heap buddy) := with_heap (y_sched st) (y_heap st).
Definition sched_op (f : sched (heap buddy) -> sched (heap buddy)) : sh W V unit := fun st =>
  let s := f (sched_view st) in (Ret tt, set_y_sched s (set_heap (k_heap s) st)).

(** A block operation; a driver that never returns hangs the machine. *)
Definition blk_op (f : block_sys W -> W -> Z * W) : sh W V Z := fun st =>
  let '(r, w) := f (y_blk st) (y_world st) in
  if w_running w then (Ret r, set_y_world w st) else (Stop Hung, st).

(** *** Memory *)

Definition load (p : Z) : sh W V Z := gets (fun st => rd (w_mem (y_world st)) p).
Definition store (p v : Z) : sh W V unit := fun st =>
  (Ret tt, set_y_world (w_set_mem (wr (w_mem (y_world st)) p (u8 v)) (y_world st)) st).
(** [for (i = 0; i < n; i++) buffer[i] = f(i)], and the same for given bytes. *)
Definition fill (p n : Z) (f : Z -> Z) : sh W V unit := fun st =>
  (Ret tt, set_y_world (w_set_mem (for_range 0 n (fun i m => wr m (p + i) (u8 (f i))) (w_mem (y_world st))) (y_world st)) st).
Definition store_bytes (p : Z) (bs : list Z) : sh W V unit := fun st =>
  (Ret tt, set_y_world (w_set_mem (wr_list (w_mem (y_world st)) p bs) (y_world st)) st).
Definition zero_mem (p n : Z) : sh W V unit := fun st =>
  (Ret tt, set_y_world (w_set_mem (memset (w_mem (y_world st)) p 0 (Z.to_nat n)) (y_world st)) st).

Definition sh_kmalloc (size : Z) : sh W V Z := heap_op (fun h => kmalloc h size).
Definition sh_kfree (p : Z) : sh W V unit := heap_op (fun h => (tt, kfree h p)).

(** [for (i = a; i < a + n; i++) body(i)] *)
Fixpoint sh_for (n : nat) (i : Z) (body : Z -> sh W V unit) : sh W V unit :=
  match n with
  | O => mret tt
  | S n' => body i ;; sh_for n' (i + 1) body
  end.

(** [vfs_read(file, buffer, size, &bytes_read)] with the bytes stored at [buffer];
    [bytes_read] is 0 before the call. *)
Definition vfs_read_to (file buffer size : Z) : sh W V (kerr_t * Z) :=
  r ← gets (fun st => vfs_read (vfs_view st) file size);
  match r with
  | (e, Some bs) => store_bytes buffer bs ;; mret (e, Z.of_nat (length bs))
  | (e, None) => mret (e, 0)
  end.
End ops.
