(* ===== verification/ShellCmds.v ===== *)
(** * Shell commands: shell/shell.c (command handlers)

    One definition per handler; the argument vector is the list of the argument
    strings, [argv !! 0] being the command's name.  An early [return] is the
    branch that ends.  [i0] and [beyond] are what the file system finds in
    uninitialised memory ([Vfs.v]); [resume] is what other tasks have done to
    the system when a sleeping shell runs again; [tree_fuel] bounds the height
    of the tree that [tree] draws. *)

From S2P Require Import Prelude MemLayout Errno CString Bitmap Pmm Buddy Slab SlabThms Kmalloc Task Driver Block Ramfs Vfs.
From S2P Require Import Console Vga Legacy Reports ShellSys.

(** [commands[i].name] and [commands[i].description], in order. *)
Definition command_help : list (string * string) := [
  ("help", "Display available commands");
  ("clear", "Clear the screen");
  ("echo", "Print text to screen");
  ("about", "About IGNIS OS");
  ("uptime", "Show system uptime");
  ("ticks", "Show PIT tick count");
  ("lsdrv", "Print registered drivers");
  ("meminfo", "Display memory statistics");
  ("memtest", "Run memory allocator test");
  ("pmminfo", "Show PMM info");
  ("pagetest", "Test page allocation");
  ("buddyinfo", "Display buddy allocator statistics");
  ("buddytest", "Test buddy allocator");
  ("slabinfo", "Display slab allocator statistics");
  ("slabtest", "Test slab allocator");
  ("ls", "List directory contents");
  ("tree", "Display directory tree");
  ("touch", "Create a new file");
  ("mkdir", "Create a new directory");
  ("rm", "Remove a file or directory");
  ("cat", "Display file contents");
  ("write", "Write data to a file");
  ("cp", "Copy a file");
  ("lsblk", "List block devices");
  ("blkread", "Read from block device");
  ("blkwrite", "Write to block device");
  ("blktest", "Test block device I/O");
  ("hexdump", "Display file in hexadecimal");
  ("panic", "Test kernel panic (WARNING: will halt system)");
  ("panictest", "Test panic with assertion");
  ("ps", "Print task list");
  ("pidof", "Get PID of a task by name");
  ("kill", "Kill a task by PID");
  ("pkill", "Kill a certain task by name");
  ("exit", "Exits the shell task");
  ("reboot", "Reboots the system with a triple fault");
  ("banner", "Displays a fun system banner")
]%string.

(** [dev_id = dev_id * 10 + (c - '0')] over the digits of an argument, in the
    width of the variable. *)
Definition parse_digits (wrap : Z -> Z) (s : list Z) : Z :=
  foldl (fun v c => if (48 <=? c) && (c <=? 57) then wrap (v * 10 + (c - 48)) else v) 0 s.

(** A byte stored in a [char]. *)
Definition to_char (b : Z) : Z := if 128 <=? b then b - 256 else b.

Definition hex_digit (v : Z) : Z := nthz (str "0123456789ABCDEF") v.
Definition o_hex (byte : Z) : output := o_str [hex_digit (Z.shiftr byte 4); hex_digit (Z.land byte 15)] ++ o_putc 32.

(** The loops that join arguments into a 256-byte buffer, from the argument
    [args] on: [pos] characters are stored, and the result is what they are.
    The last argument is not followed by a blank. *)
Fixpoint join_args (args : list (list Z)) (pos : Z) : list Z :=
  match args with
  | [] => []
  | a :: args' =>
      if pos <? 255 then
        let copied := take (Z.to_nat (255 - pos)) a in
        let pos := pos + Z.of_nat (length copied) in
        match args' with
        | [] => copied
        | _ => if pos <? 255 then copied ++ 32 :: join_args args' (pos + 1) else copied ++ join_args args' pos
        end
      else []
  end.

Section commands.
Context {W V : Type} `{World W}.
Context (i0 : Z) (beyond : list Z) (resume : system W V -> system W V) (tree_fuel : nat).
Implicit Types argv : list (list Z).

Abbreviation cmd := (sh W V unit).
Abbreviation GREEN := CONSOLE_COLOR_GREEN.
Abbreviation RED := CONSOLE_COLOR_RED.
Abbreviation WHITE := CONSOLE_COLOR_WHITE.

Definition argc argv : Z := Z.of_nat (length argv).
Definition arg argv (i : nat) : list Z := default [] (argv !! i).
Definition nl : cmd := putc 10.

(** ** Information *)

Definition shell_print_prompt : cmd :=
  set_color CONSOLE_COLOR_LIGHT_GREEN ;; puts "ignis" ;; set_color WHITE ;; puts "$ ".

Definition help_row (c : string * string) : output :=
  o_color CONSOLE_COLOR_LIGHT_GREEN ++ o_puts "  " ++ o_puts (fst c) ++ o_color WHITE ++
  o_pad (slen (str (fst c))) 12 ++ o_puts (snd c) ++ o_nl.

Definition cmd_help argv : cmd :=
  puts "\n" ;;
  puts_in CONSOLE_COLOR_LIGHT_CYAN "IGNIS Shell - Available Commands\n" ;;
  puts "================================\n\n" ;;
  say (mjoin (help_row <$> command_help)) ;;
  nl.

Definition cmd_clear argv : cmd := say [CClear].

(** [for (i = 1; i < argc; i++) { puts(argv[i]); if (i < argc - 1) putc(' '); }] *)
Fixpoint echo_args (args : list (list Z)) : output :=
  match args with
  | [] => []
  | a :: args' => o_str a ++ (match args' with [] => [] | _ => o_putc 32 end) ++ echo_args args'
  end.

Definition cmd_echo argv : cmd := nl ;; say (echo_args (drop 1 argv)) ;; puts "\n\n".

Definition cmd_about argv : cmd :=
  puts "\n" ;;
  set_color CONSOLE_COLOR_LIGHT_CYAN ;;
  puts " v=====================================v\n" ;;
  puts "[%]       IGNIS Operating System      [%]\n" ;;
  puts " ^=====================================^\n" ;;
  set_color WHITE ;;
  puts "\n" ;;
  puts "Version:     0.0.01 (64-bit)\n" ;;
  puts "Developer:   Josh Kelley\n" ;;
  puts "License:     Apache 2.0\n" ;;
  puts "Description: A hobby OS written from scratch\n" ;;
  puts "\n" ;;
  puts "Features:\n" ;;
  puts "  - VGA text mode output\n" ;;
  puts "  - Interrupt handling (IDT)\n" ;;
  puts "  - Keyboard driver\n" ;;
  puts "  - PIT timer\n" ;;
  puts "  - Memory allocator\n" ;;
  puts "  - Virtual filesystem (VFS)\n" ;;
  puts "  - RAM filesystem (RAMFS)\n" ;;
  puts "  - Block device layer\n" ;;
  puts "  - ATA disk driver\n" ;;
  puts "\n".

Definition pit_get_ticks : sh W V Z := gets (fun st => pit_ticks (y_sched st)).

Definition cmd_uptime argv : cmd :=
  ticks ← pit_get_ticks;
  let total_seconds := ticks / 100 in
  let hours := total_seconds / 3600 in
  let minutes := (total_seconds mod 3600) / 60 in
  let seconds := total_seconds mod 60 in
  puts "\nSystem uptime: " ;; putnum hours ;; puts "h " ;; putnum minutes ;; puts "m " ;; putnum seconds ;;
  puts "s\n\n".

Definition cmd_ticks argv : cmd :=
  ticks ← pit_get_ticks;
  puts "\nPIT ticks: " ;; putnum ticks ;; puts "\n\n".

Definition report (f : system W V -> output) : cmd := o ← gets f; say o.

Definition cmd_lsdrv argv : cmd := report (fun st => driver_list (y_drv st)).
Definition cmd_meminfo argv : cmd := report (fun st => memory_print_stats (y_legacy st)).
Definition cmd_pmminfo argv : cmd := report (fun st => pmm_print_stats (y_pmm st)).

(** ** Allocator tests *)

Definition all_zero (m : mem) (p n : Z) : bool := forallb (fun i => rd m (p + i) =? 0) (seqZ 0 n).

Definition cmd_memtest argv : cmd :=
  puts "\n=== Memory Allocator Test ===\n" ;;
  puts "Allocating 3 blocks (64, 128, 256 bytes)...\n" ;;
  ptr1 ← sh_kmalloc 64;
  ptr2 ← sh_kmalloc 128;
  ptr3 ← sh_kmalloc 256;
  if negb (ptr1 =? 0) && negb (ptr2 =? 0) && negb (ptr3 =? 0) then
    puts_in GREEN "✓ Allocation successful\n" ;;
    puts "Freeing middle block...\n" ;;
    sh_kfree ptr2 ;;
    puts "Reallocating 128 bytes...\n" ;;
    ptr4 ← sh_kmalloc 128;
    (if negb (ptr4 =? 0) then puts_in GREEN "✓ Reused freed block\n" else mret tt) ;;
    puts "Testing kcalloc (10 * 8 bytes)...\n" ;;
    ptr5 ← heap_op (fun h => kcalloc h 10 8);
    (if negb (ptr5 =? 0) then
       z ← gets (fun st => all_zero (w_mem (y_world st)) ptr5 80);
       (if (z : bool) then puts_in GREEN "✓ Memory properly zeroed\n" else mret tt) ;;
       sh_kfree ptr5
     else mret tt) ;;
    puts "Cleaning up...\n" ;;
    sh_kfree ptr1 ;;
    sh_kfree ptr3 ;;
    sh_kfree ptr4 ;;
    puts_in GREEN "✓ Test complete!\n\n"
  else puts_in RED "✗ Allocation failed!\n\n".

Definition page_line (label : string) (page : Z) : cmd := puts label ;; putnum page ;; nl.

Definition cmd_pagetest argv : cmd :=
  puts "\n=== Page Allocation Test ===\n" ;;
  puts "Allocating 3 pages...\n" ;;
  page1 ← pmm_op (fun s => kalloc_pages s 1);
  page2 ← pmm_op (fun s => kalloc_pages s 1);
  page3 ← pmm_op (fun s => kalloc_pages s 1);
  if negb (page1 =? 0) && negb (page2 =? 0) && negb (page3 =? 0) then
    page_line "Page 1: 0x" page1 ;;
    page_line "Page 2: 0x" page2 ;;
    page_line "Page 3: 0x" page3 ;;
    puts_in GREEN "✓ Allocation successful\n" ;;
    puts "\nWriting to pages...\n" ;;
    store page1 0xAA ;; store (page1 + 4095) 0xBB ;;
    store page2 0xCC ;; store (page2 + 4095) 0xDD ;;
    store page3 0xEE ;; store (page3 + 4095) 0xFF ;;
    puts "Reading from pages...\n" ;;
    ok ← gets (fun st => let m := w_mem (y_world st) in
      (rd m page1 =? 0xAA) && (rd m (page1 + 4095) =? 0xBB) &&
      (rd m page2 =? 0xCC) && (rd m (page2 + 4095) =? 0xDD) &&
      (rd m page3 =? 0xEE) && (rd m (page3 + 4095) =? 0xFF));
    (if (ok : bool) then puts_in GREEN "✓ Read/Write successful\n"
     else puts_in RED "✗ Read/Write verification failed\n") ;;
    puts "\nFreeing pages...\n" ;;
    heap_op (fun h => (tt, kfree_pages h page1 1)) ;;
    heap_op (fun h => (tt, kfree_pages h page2 1)) ;;
    heap_op (fun h => (tt, kfree_pages h page3 1)) ;;
    puts_in GREEN "✓ Test complete!\n\n" ;;
    report (fun st => pmm_print_stats (y_pmm st))
  else puts_in RED "✗ Allocation failed\n\n".

(** [buddy_get_global()] and an operation on it. *)
Definition buddy_get_global : sh W V (option buddy) := gets (fun st => sy_pages (y_slab st)).
Definition buddy_op {A} (dflt : A) (f : buddy -> A * buddy) : sh W V A :=
  slab_op (fun s => match sy_pages s with
                    | Some b => let '(a, b) := f b in (a, with_pages s (Some b))
                    | None => (dflt, s)
                    end).
Definition sh_buddy_alloc_order (order : Z) : sh W V Z := buddy_op 0 (fun b => buddy_alloc_order b order).
Definition sh_buddy_free (addr : Z) : cmd := buddy_op tt (fun b => (tt, buddy_free b addr)).

Definition cmd_buddyinfo argv : cmd :=
  b ← buddy_get_global;
  match b with
  | None => perror "Buddy allocator not initialized\n"
  | Some b => say (buddy_print_stats b)
  end.

(** The allocation loop of the sixth test, with [blocks] allocated so far: all of
    them, or [None] after the failure is reported and they are freed. *)
Fixpoint alloc_blocks (n : nat) (i : Z) (blocks : list Z) : sh W V (option (list Z)) :=
  match n with
  | O => mret (Some blocks)
  | S n' =>
      p ← sh_buddy_alloc_order 0;
      if p =? 0 then
        set_color RED ;; puts "  ✗ Allocation failed at block " ;; putnum i ;; nl ;; set_color WHITE ;;
        sh_for (length blocks) 0 (fun j => sh_buddy_free (nthz blocks j)) ;;
        mret None
      else alloc_blocks n' (i + 1) (blocks ++ [p])
  end.

Definition cmd_buddytest argv : cmd :=
  puts "\n=== Buddy Allocator Test ===\n" ;;
  b ← buddy_get_global;
  match b with
  | None => puts_in RED "✗ Buddy allocator not initialized\n\n"
  | Some _ =>
  puts "Test 1: Allocate single page (order 0)...\n" ;;
  page1 ← sh_buddy_alloc_order 0;
  if page1 =? 0 then puts_in RED "  ✗ Allocation failed\n"
  else
  page_line "  Allocated at: 0x" page1 ;;
  puts_in GREEN "  ✓ Single page allocation successful\n" ;;
  puts "\nTest 2: Allocate 8 pages (order 3)...\n" ;;
  pages8 ← sh_buddy_alloc_order 3;
  if pages8 =? 0 then puts_in RED "  ✗ Allocation failed\n" ;; sh_buddy_free page1
  else
  page_line "  Allocated at: 0x" pages8 ;;
  puts_in GREEN "  ✓ Multi-page allocation successful\n" ;;
  puts "\nTest 3: Allocate by size (17KB should use order 3)...\n" ;;
  size_alloc ← buddy_op 0 (fun b => buddy_alloc b (17 * 1024));
  if size_alloc =? 0 then
    puts_in RED "  ✗ Allocation failed\n" ;; sh_buddy_free page1 ;; sh_buddy_free pages8
  else
  puts "  Requested: 17 KB, Actual: " ;; putnum (buddy_get_actual_size (17 * 1024) / 1024) ;; puts " KB\n" ;;
  puts_in GREEN "  ✓ Size-based allocation successful\n" ;;
  puts "\nTest 4: Write/Read test...\n" ;;
  let test_data := PHYS_TO_VIRT page1 in
  store test_data 0xAA ;; store (test_data + 4095) 0xBB ;;
  ok ← gets (fun st => let m := w_mem (y_world st) in
    (rd m test_data =? 0xAA) && (rd m (test_data + 4095) =? 0xBB));
  (if (ok : bool) then puts_in GREEN "  ✓ Write/Read verification successful\n"
   else puts_in RED "  ✗ Write/Read verification failed\n") ;;
  puts "\nTest 5: Free and verify merging...\n" ;;
  before ← buddy_get_global;
  sh_buddy_free page1 ;;
  sh_buddy_free pages8 ;;
  sh_buddy_free size_alloc ;;
  after ← buddy_get_global;
  puts "  Merges performed: " ;;
  putnum (u64 (from_option merges 0 after - from_option merges 0 before)) ;; nl ;;
  puts_in GREEN "  ✓ Free and merge successful\n" ;;
  puts "\nTest 6: Allocation pattern test (fragment and coalesce)...\n" ;;
  puts "  Allocating 10 blocks of 1 page each...\n" ;;
  blocks ← alloc_blocks 10 0 [];
  match blocks with
  | None => mret tt
  | Some blocks =>
  puts "  Freeing every other block...\n" ;;
  sh_for 5 0 (fun k => sh_buddy_free (nthz blocks (2 * k))) ;;
  puts "  Freeing remaining blocks...\n" ;;
  sh_for 5 0 (fun k => sh_buddy_free (nthz blocks (2 * k + 1))) ;;
  puts_in GREEN "  ✓ Fragmentation test successful\n" ;;
  puts "\n" ;;
  puts_in GREEN "✓ All buddy allocator tests passed!\n" ;;
  puts "\nCurrent allocator statistics:\n" ;;
  report (fun st => from_option buddy_print_stats [] (sy_pages (y_slab st)))
  end
  end.

Definition sh_slab_kmalloc (size : Z) : sh W V Z := slab_op (fun s => slab_kmalloc s size).
Definition sh_slab_kfree (p : Z) : cmd := slab_op (fun s => (tt, slab_kfree s p)).
Definition free_all (ps : list Z) : cmd := foldr (fun p k => sh_slab_kfree p ;; k) (mret tt) ps.

Definition cmd_slabinfo argv : cmd := puts "\n" ;; report (fun st => slab_print_all_stats (y_slab st)).

(** The loop of the sixth test: the objects, or [None] after a failure. *)
Definition slabtest_sizes : list Z := [32; 64; 128; 256; 512; 1024; 2048; 4096].
Fixpoint alloc_sizes (n : nat) (i : Z) (ps : list Z) : sh W V (option (list Z)) :=
  match n with
  | O => mret (Some ps)
  | S n' =>
      p ← sh_slab_kmalloc (nthz slabtest_sizes (i mod 8));
      if p =? 0 then
        puts "  Failed at allocation " ;; putnum i ;; nl ;;
        free_all ps ;;
        mret None
      else alloc_sizes n' (i + 1) (ps ++ [p])
  end.

Definition cmd_slabtest argv : cmd :=
  puts "\n=== Slab Allocator Test ===\n" ;;
  puts "Test 1: Small allocations (32 bytes)...\n" ;;
  small1 ← sh_slab_kmalloc 32;
  small2 ← sh_slab_kmalloc 32;
  small3 ← sh_slab_kmalloc 32;
  if (small1 =? 0) || (small2 =? 0) || (small3 =? 0) then puts_in RED "  ✗ Small allocation failed\n\n"
  else
  puts_in GREEN "  ✓ Small allocations successful\n" ;;
  puts "\nTest 2: Medium allocations (256 bytes)...\n" ;;
  medium1 ← sh_slab_kmalloc 256;
  medium2 ← sh_slab_kmalloc 256;
  if (medium1 =? 0) || (medium2 =? 0) then
    puts_in RED "  ✗ Medium allocation failed\n\n" ;; free_all [small1; small2; small3]
  else
  puts_in GREEN "  ✓ Medium allocations successful\n" ;;
  puts "\nTest 3: Large allocations (1024 bytes)...\n" ;;
  large1 ← sh_slab_kmalloc 1024;
  large2 ← sh_slab_kmalloc 1024;
  if (large1 =? 0) || (large2 =? 0) then
    puts_in RED "  ✗ Large allocation failed\n\n" ;; free_all [small1; small2; small3; medium1; medium2]
  else
  puts_in GREEN "  ✓ Large allocations successful\n" ;;
  puts "\nTest 4: Write/Read verification...\n" ;;
  fill small1 32 (fun i => Z.land i 0xFF) ;;
  ok ← gets (fun st => forallb (fun i => rd (w_mem (y_world st)) (small1 + i) =? Z.land i 0xFF) (seqZ 0 32));
  (if (ok : bool) then puts_in GREEN "  ✓ Write/Read verification successful\n"
   else puts_in RED "  ✗ Write/Read verification failed\n") ;;
  puts "\nTest 5: Free and reallocation...\n" ;;
  sh_slab_kfree small2 ;;
  small4 ← sh_slab_kmalloc 32;
  (if small4 =? 0 then mret tt
   else if small4 =? small2 then puts_in GREEN "  ✓ Object reuse successful (same address)\n"
   else puts_in GREEN "  ✓ Reallocation successful (different address)\n") ;;
  puts "\nTest 6: Multiple allocations from different caches...\n" ;;
  multi_allocs ← alloc_sizes 20 0 [];
  match multi_allocs with
  | Some ps => puts_in GREEN "  ✓ Multiple cache allocations successful\n" ;; free_all ps
  | None => puts_in RED "  ✗ Multiple allocation test failed\n"
  end ;;
  puts "\nCleaning up test allocations...\n" ;;
  free_all [small1; small3; small4; medium1; medium2; large1; large2] ;;
  puts "\n" ;;
  puts_in GREEN "✓ All slab allocator tests passed!\n" ;;
  puts "\nCurrent slab statistics:\n" ;;
  report (fun st => slab_print_all_stats (y_slab st)).

(** ** Files *)

Definition path_arg argv : list Z := if 1 <? argc argv then arg argv 1 else [SLASH].

(** [console_perror(text); console_perror(k_strerror(err)); console_putc('\n');] *)
Definition fail_with (text : string) (err : kerr_t) : cmd := perror text ;; perror_err err ;; nl.
(** [console_puts(text); console_puts(name); console_putc('\n');] *)
Definition tell (text : string) (name : list Z) : cmd := puts text ;; puts_str name ;; nl.

Definition cmd_ls argv : cmd :=
  nl ;;
  r ← gets (fun st => vfs_list (vfs_view st) (path_arg argv));
  match r with
  | None => stop Undefined
  | Some (err, o) =>
      say o ;;
      (if is_ok err then mret tt else fail_with "Error listing directory: " err) ;;
      nl
  end.

Definition cmd_tree argv : cmd :=
  r ← gets (fun st => vfs_resolve_path (vfs_view st) (path_arg argv));
  match r with
  | None => stop Undefined
  | Some dir =>
      if dir =? 0 then perror "Directory not found\n"
      else
        nl ;;
        o ← gets (fun st => vfs_print_tree tree_fuel (vfs_view st) dir 0);
        match o with None => stop Undefined | Some o => say o end ;;
        nl
  end.

Definition cmd_touch argv : cmd :=
  if argc argv <? 2 then perror "Usage: touch <filename>\n"
  else
    err ← vfs_op (fun v => vfs_create_file i0 v (arg argv 1));
    match err with
    | E_OK => tell "Created file: " (arg argv 1)
    | E_EXISTS => tell "File already exists: " (arg argv 1)
    | _ => fail_with "Failed to create file: " err
    end.

Definition cmd_mkdir argv : cmd :=
  if argc argv <? 2 then perror "Usage: mkdir <dirname>\n"
  else
    err ← vfs_op (fun v => vfs_create_directory i0 v (arg argv 1));
    match err with
    | E_OK => tell "Created directory: " (arg argv 1)
    | E_EXISTS => tell "Directory already exists: " (arg argv 1)
    | _ => fail_with "Failed to create directory: " err
    end.

Definition cmd_rm argv : cmd :=
  if argc argv <? 2 then perror "Usage: rm <path>\n"
  else
    err ← vfs_op (fun v => vfs_delete v (arg argv 1));
    if is_ok err then tell "Removed: " (arg argv 1) else fail_with "Failed to remove: " err.

(** [vfs_open]; [Undefined] when the path overflows its copy. *)
Definition sh_open (path : list Z) : sh W V Z :=
  r ← gets (fun st => vfs_open (vfs_view st) path);
  match r with Some file => mret file | None => stop Undefined end.
Definition sh_close (file : Z) : cmd := _ ← gets (fun st => vfs_close (vfs_view st) file); mret tt.
Definition file_node (file : Z) : sh W V vfs_node_t := gets (fun st => node_at (y_vfs st) file).

(** The [n] bytes at [p], in the machine's memory. *)
Definition bytes_of (p n : Z) : sh W V (list Z) :=
  gets (fun st => (fun i => rd (w_mem (y_world st)) (p + i)) <$> seqZ 0 n).

Definition cmd_cat argv : cmd :=
  if argc argv <? 2 then perror "Usage: cat <filename>\n"
  else
  file ← sh_open (arg argv 1);
  if file =? 0 then perror "File not found\n"
  else
  node ← file_node file;
  if is_dir node then perror "Not a regular file\n" ;; sh_close file
  else
  buffer ← sh_kmalloc (u64 (n_size node + 1));
  if buffer =? 0 then perror "Out of memory\n" ;; sh_close file
  else
  '(err, bytes_read) ← vfs_read_to file buffer (n_size node);
  (if is_ok err then
     nl ;;
     bs ← bytes_of buffer bytes_read;
     say (CPutc ∘ to_char <$> bs) ;;
     puts "\n\n"
   else fail_with "Failed to read file: " err) ;;
  sh_kfree buffer ;;
  sh_close file.

(** The opened or created file; 0 after a failure is reported. *)
Definition open_or_create (path : list Z) : sh W V Z :=
  file ← sh_open path;
  if negb (file =? 0) then mret file
  else
    err ← vfs_op (fun v => vfs_create_file i0 v path);
    match err with
    | E_OK | E_EXISTS =>
        file ← sh_open path;
        if file =? 0 then perror "Failed to open file\n" ;; mret 0 else mret file
    | _ => fail_with "Failed to create file: " err ;; mret 0
    end.

Definition cmd_write argv : cmd :=
  if argc argv <? 3 then perror "Usage: write <filename> <text>\n"
  else
  file ← open_or_create (arg argv 1);
  if file =? 0 then mret tt
  else
  let buffer := join_args (drop 2 argv) 0 in
  '(err, bytes_written) ← vfs_op (fun v => let '(e, n, v) := vfs_write v file (u8 <$> buffer) in Some ((e, n), v));
  (if is_ok err then
     puts "Wrote " ;; putnum bytes_written ;; puts " bytes to " ;; puts_str (arg argv 1) ;; nl
   else fail_with "Write failed: " err) ;;
  sh_close file.

Definition cmd_cp argv : cmd :=
  if argc argv <? 3 then perror "Usage: cp <source> <dest>\n"
  else
    err ← vfs_op (fun v => vfs_copy_file i0 beyond v (arg argv 2) (arg argv 1));
    if is_ok err then
      puts "Copied " ;; puts_str (arg argv 1) ;; puts " to " ;; puts_str (arg argv 2) ;; nl
    else fail_with "Copy failed: " err.

(** [if (c >= 32 && c <= 126) putc(c); else putc('.');] *)
Definition o_ascii (byte : Z) : output :=
  let c := to_char byte in if (32 <=? c) && (c <=? 126) then o_putc c else o_putc 46.

(** What [cmd_hexdump] prints for the [n] bytes of [buf]. *)
Definition hexdump_body (buf : Z -> Z) (n : Z) : output :=
  o_for 0 n (fun i =>
    (if i mod 16 =? 0 then
       let num_str := uitoa_chars i in
       o_for (slen num_str) 4 (fun _ => o_putc 48) ++ o_str num_str ++ o_puts ": "
     else []) ++
    o_hex (buf i) ++
    (if (i + 1) mod 16 =? 0 then
       o_puts "  |" ++ o_for (i - 15) (i + 1) (fun j => o_ascii (buf j)) ++ o_puts "|\n"
     else [])) ++
  (if negb (n mod 16 =? 0) then
     let remaining := n mod 16 in
     o_for remaining 16 (fun _ => o_puts "   ") ++
     o_puts "  |" ++
     o_for (n - remaining) n (fun i => o_ascii (buf i)) ++
     o_for remaining 16 (fun _ => o_putc 32) ++
     o_puts "|\n"
   else []).

Definition cmd_hexdump argv : cmd :=
  if argc argv <? 2 then perror "Usage: hexdump <filename>\n"
  else
  file ← sh_open (arg argv 1);
  if file =? 0 then perror "File not found\n"
  else
  node ← file_node file;
  if is_dir node then perror "Not a regular file\n" ;; sh_close file
  else
  buffer ← sh_kmalloc (n_size node);
  if buffer =? 0 then perror "Out of memory\n" ;; sh_close file
  else
  '(err, bytes_read) ← vfs_read_to file buffer (n_size node);
  if negb (is_ok err) then fail_with "Failed to read file: " err ;; sh_kfree buffer ;; sh_close file
  else
  puts "\nHex dump of " ;; puts_str (arg argv 1) ;; puts ":\n\n" ;;
  m ← gets (fun st => w_mem (y_world st));
  say (hexdump_body (fun i => rd m (buffer + i)) bytes_read) ;;
  puts "\n" ;;
  sh_kfree buffer ;;
  sh_close file.

(** ** Block devices *)

Definition cmd_lsblk argv : cmd := report (fun st => block_list_devices (y_blk st)).

Definition device_line (text : string) (dev_id lba : Z) : cmd :=
  puts text ;; putnum dev_id ;; puts ", LBA " ;; putnum lba ;; puts "...\n".

Definition cmd_blkread argv : cmd :=
  if argc argv <? 3 then perror "Usage: blkread <device_id> <lba>\n"
  else
  let dev_id := parse_digits u8 (arg argv 1) in
  let lba := parse_digits u64 (arg argv 2) in
  buffer ← sh_kmalloc 512;
  if buffer =? 0 then perror "Failed to allocate buffer\n"
  else
  device_line "\nReading device " dev_id lba ;;
  r ← blk_op (fun b => block_read b dev_id lba buffer);
  (if r =? 0 then
     puts_in GREEN "✓ Read successful\n" ;;
     puts "\nFirst 64 bytes:\n" ;;
     m ← gets (fun st => w_mem (y_world st));
     say (o_for 0 64 (fun i =>
       (if i mod 16 =? 0 then o_puts "\n" ++ o_num i ++ o_puts ": " else []) ++ o_hex (rd m (buffer + i)))) ;;
     puts "\n\n"
   else puts_in RED "✗ Read failed\n\n") ;;
  sh_kfree buffer.

Definition cmd_blkwrite argv : cmd :=
  if argc argv <? 4 then perror "Usage: blkwrite <device_id> <lba> <data>\n"
  else
  let dev_id := parse_digits u8 (arg argv 1) in
  let lba := parse_digits u64 (arg argv 2) in
  buffer ← sh_kmalloc 512;
  if buffer =? 0 then perror "Failed to allocate buffer\n"
  else
  zero_mem buffer 512 ;;
  let len := slen (arg argv 3) in
  let len := if 512 <? len then 512 else len in
  fill buffer len (fun i => nthz (arg argv 3) i) ;;
  device_line "\nWriting to device " dev_id lba ;;
  blk_write_status ← blk_op (fun b => block_write b dev_id lba buffer);
  (if blk_write_status =? 0 then puts_in GREEN "✓ Write successful\n\n"
   else
     set_color RED ;; puts "✗ Write failed: " ;; puts_str (str (k_strerror blk_write_status)) ;; puts "\n\n" ;;
     set_color WHITE) ;;
  sh_kfree buffer.

Definition cmd_blktest argv : cmd :=
  if argc argv <? 2 then perror "Usage: blktest <device_id>\n"
  else
  let dev_id := parse_digits u8 (arg argv 1) in
  puts "\n=== Block Device Test ===\n" ;;
  b ← gets y_blk;
  let dev := block_get_device b dev_id in
  if (dev =? 0) || negb (present (dev_at b dev)) then perror "Device not found\n"
  else
  puts "Testing device " ;; putnum dev_id ;; puts " (" ;; puts_str (label (dev_at b dev)) ;; puts ")\n\n" ;;
  buffer ← sh_kmalloc 512;
  if buffer =? 0 then perror "Failed to allocate buffer\n"
  else
  puts "Writing test pattern...\n" ;;
  fill buffer 512 (fun i => Z.land i 0xFF) ;;
  r ← blk_op (fun b => block_write b dev_id 100 buffer);
  if negb (r =? 0) then puts_in RED "✗ Write failed\n\n" ;; sh_kfree buffer
  else
  puts_in GREEN "✓ Write successful\n" ;;
  zero_mem buffer 512 ;;
  puts "Reading back data...\n" ;;
  r ← blk_op (fun b => block_read b dev_id 100 buffer);
  if negb (r =? 0) then puts_in RED "✗ Read failed\n\n" ;; sh_kfree buffer
  else
  puts_in GREEN "✓ Read successful\n" ;;
  puts "Verifying data...\n" ;;
  errors ← gets (fun st => Z.of_nat (length (filter (fun i => rd (w_mem (y_world st)) (buffer + i) <> Z.land i 0xFF) (seqZ 0 512))));
  (if errors =? 0 then puts_in GREEN "✓ Verification passed!\n\n"
   else
     set_color RED ;; puts "✗ Verification failed! Errors: " ;; putnum errors ;; puts "\n\n" ;; set_color WHITE) ;;
  sh_kfree buffer.

(** ** Panic, tasks and the machine *)

(** [PANIC] does not return. *)
Definition cmd_panic argv : cmd :=
  if argc argv <? 2 then
    puts "\n" ;;
    puts_in CONSOLE_COLOR_LIGHT_RED "WARNING: This will trigger a kernel panic!\n" ;;
    puts "Usage: panic <message>\n" ;;
    puts_str (lit "Example: panic " ++ 34 :: lit "Testing panic handler" ++ 34 :: lit "\n\n")
  else
  let message := join_args (drop 1 argv) 0 in
  puts "Panicking in 1...\n" ;;
  serial_debug_puts (lit "[SHELL] Triggering kernel panic...\n") ;;
  sched_op (fun s => task_sleep s 100) ;;
  (fun st => (Ret tt, resume st)) ;;
  stop (Panicked message).

Definition cmd_panictest argv : cmd :=
  puts "\n=== Kernel Panic Test ===\n" ;;
  puts "Testing various panic scenarios...\n\n" ;;
  puts "1. Testing NULL pointer assertion...\n" ;;
  test_ptr ← sh_kmalloc 64;
  if test_ptr =? 0 then stop (Panicked (str "Assertion failed: Memory allocation failed"))
  else
  puts_in GREEN "   ✓ Passed\n" ;;
  sh_kfree test_ptr ;;
  puts "\n2. Testing PANIC_ON_NULL macro...\n" ;;
  test_ptr ← sh_kmalloc 128;
  if test_ptr =? 0 then stop (Panicked (str "Test allocation failed"))
  else
  puts_in GREEN "   ✓ Passed\n" ;;
  sh_kfree test_ptr ;;
  puts "\n3. All panic tests passed!\n" ;;
  puts "   To trigger an actual panic, use: panic <message>\n\n".

Definition cmd_ps argv : cmd := report (fun st => task_print_list (y_sched st)).

Definition cmd_pidof argv : cmd :=
  if argc argv <? 2 then perror "Usage: pidof <task_name>\n"
  else
  s ← gets y_sched;
  let task := task_get_by_name s (arg argv 1) in
  if task =? 0 then perror "Task not found\n"
  else
  puts "PID of " ;; puts_str (arg argv 1) ;; puts ": " ;; putnum (task_pidof s task) ;; nl.

(** [atoi] of an argument; it reads at most the argument and its terminator. *)
Definition arg_atoi (s : list Z) : Z := default 0 (atoi (S (length s)) (wr_list ∅ 0 (s ++ [0])) 0).

Definition cmd_kill argv : cmd :=
  if argc argv <? 2 then perror "Usage: pkill <task_pid>\n"
  else
  let pid := arg_atoi (arg argv 1) in
  if pid <=? 0 then perror "Invalid PID\n"
  else sched_op (fun s => task_destroy s (task_get_by_pid s pid)).

Definition cmd_pkill argv : cmd :=
  if argc argv <? 2 then perror "Usage: pkill <task_name>\n"
  else
  s ← gets y_sched;
  let task := task_get_by_name s (arg argv 1) in
  if task =? 0 then perror "Task not found" else sched_op (fun s => task_destroy s task).

(** [task_exit] returns only when there is no current task; the idle task halts. *)
Definition cmd_exit argv : cmd :=
  s ← gets sched_view;
  if current_task s =? 0 then mret tt
  else match task_exit s with
  | None => stop Hung
  | Some s' => sched_op (fun _ => s') ;; stop Exited
  end.

Definition cmd_reboot argv : cmd := puts "\nRebooting system...\n" ;; stop Rebooted.

Definition cmd_banner argv : cmd :=
  set_color RED ;;
  puts "\n" ;;
  puts " _____ _____ _   _ _____ _____ \n" ;;
  puts "|_   _|  __ \\ \\ | |_   _/  ___|\n" ;;
  puts "  | | | |  \\/|  \\| | | | \\ `--. \n" ;;
  puts "  | | | | __ | . ` | | |  `--. \\\n" ;;
  puts " _| |_| |_\\ \\| |\\  |_| |_/\\__/ /\n" ;;
  puts " \\___/ \\____/\\_| \\_/\\___/\\____/ \n" ;;
  puts "\n" ;;
  set_color WHITE.

(** ** The command table *)

Record shell_command_t := mkCmd { sc_name : string; sc_description : string; sc_handler : list (list Z) -> cmd }.

Definition handlers : list (list (list Z) -> cmd) := [
  cmd_help; cmd_clear; cmd_echo; cmd_about; cmd_uptime; cmd_ticks; cmd_lsdrv; cmd_meminfo; cmd_memtest;
  cmd_pmminfo; cmd_pagetest; cmd_buddyinfo; cmd_buddytest; cmd_slabinfo; cmd_slabtest; cmd_ls; cmd_tree;
  cmd_touch; cmd_mkdir; cmd_rm; cmd_cat; cmd_write; cmd_cp; cmd_lsblk; cmd_blkread; cmd_blkwrite; cmd_blktest;
  cmd_hexdump; cmd_panic; cmd_panictest; cmd_ps; cmd_pidof; cmd_kill; cmd_pkill; cmd_exit; cmd_reboot; cmd_banner ].

Definition commands : list shell_command_t :=
  zip_with (fun c h => mkCmd (fst c) (snd c) h) command_help handlers.
End commands.
