(* ===== verification/ShellRun.v ===== *)
(** * Running the shell: shell/shell.c (command execution, line editor, main loop)

    [run_argv] finds and runs a command.  [shell_execute_command] and
    [shell_handle_char] work on the static line buffer; [shell_round] is what
    [shell_run] does with one line read from the terminal, and [shell_session]
    its loop over the lines that arrive.  The theorems follow a command from
    the typed line to the components it reaches. *)

From S2P Require Import Prelude MemLayout Errno CString Bitmap Pmm Buddy Slab SlabThms Kmalloc Task TaskThms Driver Block Ramfs Vfs.
From S2P Require Import Console Vga Legacy Reports Shell ShellSys ShellCmds.

Definition CMD_BUFFER_SIZE : Z := 256.
Definition BACKSPACE_DELAY_TICKS : Z := 5.

(** The static variables of the line editor. *)
Record line_editor := mkEditor { last_backspace_time : Z; cmd_buffer : list Z; cmd_pos : Z }.

Section run.
Context {W V : Type} `{World W}.
Context (i0 : Z) (beyond : list Z) (resume : system W V -> system W V) (tree_fuel : nat).
Implicit Types (argv : list (list Z)) (st : system W V).

Abbreviation cmd := (sh W V unit).
Abbreviation commands := (commands i0 beyond resume tree_fuel).
Abbreviation handlers := (handlers i0 beyond resume tree_fuel).

(** The search loop over the table. *)
Fixpoint find_cmd (cs : list (@shell_command_t W V)) (name : list Z) : option (@shell_command_t W V) :=
  match cs with
  | [] => None
  | c :: cs' => if bool_decide (name = str (sc_name c)) then Some c else find_cmd cs' name
  end.

Definition unknown_command (name : list Z) : output :=
  o_puts "\n" ++ o_color CONSOLE_COLOR_RED ++ o_puts "Error: " ++ o_color CONSOLE_COLOR_WHITE ++
  o_puts "Unknown command '" ++ o_str name ++ o_puts "'\n" ++
  o_puts "Type 'help' for available commands.\n\n".

Definition run_argv argv : cmd :=
  match find_cmd commands (arg argv 0) with
  | Some c => sc_handler c argv
  | None => say (unknown_command (arg argv 0))
  end.

(** ** The line editor *)

Definition clear_line (e : line_editor) : line_editor := mkEditor (last_backspace_time e) (replicate 256 0) 0.

Definition shell_execute_command (e : line_editor) : sh W V line_editor :=
  let buf := updz (cmd_buffer e) (cmd_pos e) 0 in
  if cmd_pos e =? 0 then
    putc 10 ;; shell_print_prompt ;; mret (mkEditor (last_backspace_time e) buf (cmd_pos e))
  else
    let argv := parse_args buf MAX_ARGS in
    if argc argv =? 0 then putc 10 ;; shell_print_prompt ;; mret (clear_line e)
    else run_argv argv ;; shell_print_prompt ;; mret (clear_line e).

Definition shell_handle_char (e : line_editor) (c : Z) : sh W V line_editor :=
  if c =? 10 then shell_execute_command e
  else if c =? 8 then
    current_time ← pit_get_ticks;
    if u64 (current_time - last_backspace_time e) <? BACKSPACE_DELAY_TICKS then mret e
    else if 0 <? cmd_pos e then
      let pos := cmd_pos e - 1 in
      say [CBackspace 1] ;; mret (mkEditor current_time (updz (cmd_buffer e) pos 0) pos)
    else mret e
  else if cmd_pos e <? CMD_BUFFER_SIZE - 1 then
    mret (mkEditor (last_backspace_time e) (updz (cmd_buffer e) (cmd_pos e) c) (cmd_pos e + 1))
  else mret e.

(** ** The command loop *)

(** What follows [tty_read], which stored [line] and a terminator in the buffer;
    [rest] is what the buffer held behind them. *)
Definition shell_round (line rest : list Z) : cmd :=
  let bytes_read := slen line in
  serial_debug_puts (lit "[SHELL] Read ") ;;
  serial_debug_puts (uitoa_chars bytes_read) ;;
  serial_debug_puts (lit " bytes: ") ;;
  serial_debug_puts line ;;
  let buf := line ++ 0 :: rest in
  let strip := (0 <? bytes_read) && (nthz buf (bytes_read - 1) =? 10) in
  let buf := if strip then updz buf (bytes_read - 1) 0 else buf in
  let bytes_read := if strip then bytes_read - 1 else bytes_read in
  if bytes_read =? 0 then mret tt
  else
    let argv := parse_args buf MAX_ARGS in
    if argc argv =? 0 then mret tt else run_argv argv.

Fixpoint shell_rounds (lines : list (list Z)) : cmd :=
  match lines with
  | [] => mret tt
  | line :: lines' => shell_print_prompt ;; shell_round line [] ;; shell_rounds lines'
  end.

(** [shell_run] on the lines that arrive. *)
Definition shell_session (lines : list (list Z)) : cmd :=
  serial_debug_puts (lit "[SHELL] Shell task running\n") ;;
  puts "\nIGNIS Shell Ready\n" ;;
  puts "Type 'help' for available commands.\n\n" ;;
  shell_rounds lines.

Definition shell_init : cmd := shell_print_prompt.

(** ** Dispatch *)

Lemma sh_bind_eq {A B} (m : sh W V A) (k : A -> sh W V B) st :
  (m ≫= k) st = match m st with (Ret a, st') => k a st' | (Stop r, st') => (Stop r, st') end.
Proof. done. Qed.

Lemma find_cmd_lookup (cs : list (@shell_command_t W V)) k c :
  NoDup (str ∘ sc_name <$> cs) -> cs !! k = Some c -> find_cmd cs (str (sc_name c)) = Some c.
Proof.
  revert k. induction cs as [|d cs IH]; intros k Hnd Hk; [done|]. rewrite fmap_cons in Hnd.
  apply NoDup_cons in Hnd as [Hd Hnd]. cbn [find_cmd]. destruct k as [|k]; [injection Hk as ->; by rewrite bool_decide_eq_true_2|].
  rewrite bool_decide_eq_false_2; [by apply (IH k)|]. intros E. apply Hd. cbn. rewrite <- E.
  apply list_elem_of_fmap. exists c. split; [done|by eapply list_elem_of_lookup_2].
Qed.

Lemma find_cmd_None (cs : list (@shell_command_t W V)) name :
  name ∉ (str ∘ sc_name <$> cs) -> find_cmd cs name = None.
Proof.
  induction cs as [|d cs IH]; [done|]. rewrite fmap_cons. intros Hn. cbn [find_cmd].
  rewrite bool_decide_eq_false_2; [apply IH|]; set_solver.
Qed.

Lemma commands_names : str ∘ sc_name <$> commands = str ∘ fst <$> command_help.
Proof. reflexivity. Qed.

Lemma command_names_distinct : NoDup (str ∘ fst <$> command_help).
Proof. apply (bool_decide_unpack _). vm_compute. reflexivity. Qed.

(** The handler of the [k]-th entry of the table runs for its name. *)
Lemma run_argv_nth k name d h args :
  command_help !! k = Some (name, d) -> handlers !! k = Some h -> run_argv (str name :: args) = h (str name :: args).
Proof.
  intros Hn Hh. unfold run_argv. change (arg (str name :: args) 0) with (str name).
  assert (Hc : commands !! k = Some (mkCmd name d h)).
  { unfold ShellCmds.commands. rewrite lookup_zip_with, Hn. cbn. by rewrite Hh. }
  pose proof (find_cmd_lookup commands k _ (eq_ind_r (fun l => NoDup l) command_names_distinct commands_names) Hc) as Hf.
  cbn [sc_name] in Hf. by rewrite Hf.
Qed.

(** What a list of words asks for. *)
Inductive dispatches : list (list Z) -> cmd -> Prop :=
| disp_blank : dispatches [] (mret tt)
| disp_command k name d h args :
    command_help !! k = Some (name, d) -> handlers !! k = Some h ->
    dispatches (str name :: args) (h (str name :: args))
| disp_unknown w args :
    w ∉ (str ∘ fst <$> command_help) -> dispatches (w :: args) (say (unknown_command w)).

Lemma run_argv_unknown w args :
  w ∉ (str ∘ fst <$> command_help) -> run_argv (w :: args) = say (unknown_command w).
Proof.
  intros Hw. unfold run_argv. change (arg (w :: args) 0) with w.
  rewrite find_cmd_None; [done|]. by rewrite commands_names.
Qed.

Lemma dispatches_run argv m : dispatches argv m -> argv <> [] -> m = run_argv argv.
Proof.
  intros [|k name d h args Hn Hh|w args Hw] Hne; [done| |]; symmetry; [by eapply run_argv_nth|by apply run_argv_unknown].
Qed.

Lemma dispatches_total argv : exists m, dispatches argv m.
Proof.
  destruct argv as [|w args]; [eexists; constructor|].
  destruct (decide (w ∈ (str ∘ fst <$> command_help))) as [Hw|Hw]; [|eexists; by constructor].
  apply list_elem_of_fmap in Hw as ([name d] & -> & Hin). apply list_elem_of_lookup_1 in Hin as [k Hk].
  destruct (lookup_lt_is_Some_2 handlers k) as [h Hh].
  { apply lookup_lt_Some in Hk. exact Hk. }
  exists (h (str name :: args)). by apply (disp_command k name d h).
Qed.

Lemma dispatches_unique argv m m' : dispatches argv m -> dispatches argv m' -> m' = m.
Proof.
  intros H1 H2. destruct argv as [|w args].
  - inversion H1; inversion H2; by subst.
  - by rewrite (dispatches_run _ _ H1), (dispatches_run _ _ H2).
Qed.

(** The trace a line leaves on the serial port. *)
Definition heard (line : list Z) st : system W V :=
  snd ((serial_debug_puts (lit "[SHELL] Read ") ;; serial_debug_puts (uitoa_chars (slen line)) ;;
        serial_debug_puts (lit " bytes: ") ;; serial_debug_puts line) st).

Lemma shell_round_words body rest st :
  Forall (fun c => c <> 0) body -> Z.of_nat (length (words body)) < MAX_ARGS ->
  shell_round (body ++ [10]) rest st =
  (match words body with [] => mret tt | _ => run_argv (words body) end) (heard (body ++ [10]) st).
Proof.
  intros Hb Hlen. unfold shell_round. unfold slen. rewrite length_app. cbn [length].
  assert (Eb : (body ++ [10]) ++ 0 :: rest = body ++ 10 :: 0 :: rest) by (by rewrite <- app_assoc).
  rewrite Eb. replace (Z.of_nat (length body + 1) - 1) with (Z.of_nat (length body)) by lia.
  rewrite nthz_app_here, updz_app_here, (proj2 (Z.ltb_lt 0 _)) by lia. cbn [andb Z.eqb Pos.eqb].
  rewrite !sh_bind_eq. cbn [serial_debug_puts]. unfold heard, slen. rewrite length_app. cbn [length].
  set (st' := snd _). change MAX_ARGS with (Z.of_nat 16) in *. rewrite parse_args_ref by done.
  destruct (ref_args_words 15 body) as [[_ Er]|(c & r & _ & Hc & Hw & _)].
  - rewrite Er. unfold argc. destruct (words body) as [|w ws] eqn:Ew; [by case_match|].
    assert (length body <> 0%nat) by (intros E; apply nil_length_inv in E; by subst body).
    cbn [length]. rewrite !(proj2 (Z.eqb_neq _ 0)) by lia. reflexivity.
  - exfalso. rewrite drop_ge, words_word in Hw by (done || lia). discriminate.
Qed.

(** C20. One line typed at the prompt.  For every line of fewer than sixteen words
    exactly one thing happens: nothing on a blank line; for the name of the
    table's [k]-th command, its [k]-th handler with the line's words as
    arguments; for any other first word, the error message. *)
Theorem shell_round_dispatches (body rest : list Z) st
    (Hb : Forall (fun c => c <> 0) body) (Hlen : Z.of_nat (length (words body)) < MAX_ARGS) :
  exists m, dispatches (words body) m /\ (forall m', dispatches (words body) m' -> m' = m) /\
    shell_round (body ++ [10]) rest st = m (heard (body ++ [10]) st).
Proof.
  destruct (dispatches_total (words body)) as [m Hm]. exists m.
  split; [done|]. split; [intros m' Hm'; by eapply dispatches_unique|].
  rewrite shell_round_words by done. destruct (words body) as [|w ws]; [by inversion Hm|].
  by rewrite (dispatches_run _ _ Hm).
Qed.

(** ** Commands that print *)

(** The text of a run of console requests. *)
Definition req_text (r : con_req) : list Z :=
  match r with CPutc c => [c] | CPuts s => s | CPutsColor s _ => s | CPerror s => s | _ => [] end.
Definition text_of (o : output) : list Z := mjoin (req_text <$> o).

Lemma text_of_app o1 o2 : text_of (o1 ++ o2) = text_of o1 ++ text_of o2.
Proof. unfold text_of. by rewrite fmap_app, join_app. Qed.

Lemma echo_text ws : text_of (echo_args ws) = join_blank ws.
Proof.
  induction ws as [|w ws IH]; [done|]. cbn [echo_args join_blank]. destruct ws as [|w' ws].
  - cbn. by rewrite app_nil_r, ?app_nil_r.
  - rewrite !text_of_app, IH. cbn [o_str o_putc text_of fmap list_fmap mjoin list_join req_text app].
    by rewrite app_nil_r.
Qed.

(** The prefix of a file's contents that fits the 255 characters of the buffer. *)
Lemma join_args_spec ws pos :
  0 <= pos <= 255 -> join_args ws pos = take (Z.to_nat (255 - pos)) (join_blank ws).
Proof.
  revert pos. induction ws as [|w ws IH]; intros pos Hp; [cbn; by rewrite take_nil|].
  cbn [join_args join_blank]. destruct (Z.ltb_spec pos 255) as [Hlt|Hge]; [|by replace (Z.to_nat (255 - pos)) with O by lia].
  destruct ws as [|w' ws]; [done|]. rewrite length_take.
  destruct (decide (Z.of_nat (length w) < 255 - pos)) as [Hs|Hs].
  - rewrite (Nat.min_r _ (length w)), (take_ge w) by lia.
    rewrite (proj2 (Z.ltb_lt _ _)), IH by lia. rewrite take_app_ge by lia.
    replace (Z.to_nat (255 - pos) - length w)%nat with (S (Z.to_nat (255 - (pos + Z.of_nat (length w) + 1)))) by lia.
    reflexivity.
  - rewrite Nat.min_l by lia. rewrite (proj2 (Z.ltb_ge _ _)) by lia. rewrite IH by lia.
    rewrite take_app_le by lia. replace (Z.to_nat (255 - (pos + Z.of_nat (Z.to_nat (255 - pos))))) with O by lia.
    by rewrite take_0, app_nil_r.
Qed.
End run.

(** ** A system to run commands on *)

#[export] Instance mem_world : World mem := {| w_mem m := m; w_set_mem m _ := m; w_running _ := true |}.
#[export] Instance mem_world_laws : WorldLaws mem.
Proof. by split. Qed.

(** The machine with the file [/a] and no devices. *)
Definition demo_system : system mem nat :=
  mkSystem [] [] (h_slab (v_heap vfs_a)) pmm_boot (mkLegacy None ∅) vfs_a boot3 (mkReg ∅ [] 0) (mkBlk ∅ None)
    (kmem (v_heap vfs_a)).

Lemma shell_round_dispatches_witness :
  exists m, dispatches 0 [] id 8 (words (str "frob x")) m /\
    shell_round 0 [] id 8 (str "frob x" ++ [10]) [] demo_system = m (heard (str "frob x" ++ [10]) demo_system).
Proof.
  destruct (shell_round_dispatches 0 [] id 8 (str "frob x") [] demo_system ltac:(by apply (bool_decide_unpack _))
    ltac:(by vm_compute)) as (m & H1 & _ & H2).
  exists m. split; [exact H1|exact H2].
Defined.
