(* ===== verification/BlockStore.v ===== *)
(** * Block devices as stores of sectors

    [block_store] is what the users of the block layer rely on: a device that
    keeps what is written to it.  It is stated of the layer's entry points, so
    that a client needs no driver.  [ata_block_store] discharges it for the ATA
    driver on a drive that follows the protocol of [AtaThms.v]. *)

From S2P Require Import Prelude Errno Ports CString Block Ata AtaThms.
From S2P Require Import ShellSys.

Section interface.
Context {W : Type} `{World W}.

(** [I] is what holds of the machine between two calls; [sector w lba j] is byte
    [j] of block [lba]. *)
Record block_store (b : block_sys W) (id count : Z) (I : W -> Prop) (sector : W -> Z -> Z -> Z) : Prop := {
  bs_present : block_get_device b id <> 0 /\ present (dev_at b (block_get_device b id)) = true;
  bs_running w : I w -> w_running w = true;
  bs_memory w m : I w -> I (w_set_mem m w) /\ sector (w_set_mem m w) = sector w;
  bs_write w lba buf :
    I w -> 0 <= lba < count -> buffer_ok (w_mem w) buf ->
    exists w', block_write b id lba buf w = (0, w') /\ I w' /\ w_mem w' = w_mem w /\
      (forall j, 0 <= j < 512 -> sector w' lba j = rd (w_mem w) (buf + j)) /\
      (forall l j, l <> lba -> sector w' l j = sector w l j);
  bs_read w lba buf :
    I w -> 0 <= lba < count ->
    exists w', block_read b id lba buf w = (0, w') /\ I w' /\
      (forall j, 0 <= j < 512 -> rd (w_mem w') (buf + j) = sector w lba j) /\
      (forall a, ~ buf <= a < buf + 512 -> rd (w_mem w') a = rd (w_mem w) a) /\
      (forall l j, sector w' l j = sector w l j);
}.
End interface.

(** ** ATA drives *)

#[export] Instance ata_world_world D : World (option (ata_world D)) := {|
  w_mem w := from_option aw_ram ∅ w;
  w_set_mem m w := (fun w => mkAw (aw_bus w) m) <$> w;
  w_running w := bool_decide (is_Some w);
|}.

#[export] Instance ata_world_laws D : WorldLaws (option (ata_world D)).
Proof.
  split.
  - intros m [w|] Hr; [done|]. by apply bool_decide_eq_true in Hr as [? ?].
  - by intros [[d m]|].
  - by intros m m' [w|].
  - by intros m [w|].
Qed.

Section ata.
Context {D : Type} `{HB : PortBus D} {bs : Z} {HA : AtaDrive D bs}.
Context (dd : ata_device_data_t) (fuel count : Z).

Local Abbreviation latency := (ata_latency (AtaDrive := HA)).

Definition ata_sectors (d : D) (l : Z) : list Z := av_disk (ata_alpha d) (is_slave (ata_drive dd)) l.

(** The drive is ready or about to be, and its sectors have their size. *)
Definition ata_idle (w : option (ata_world D)) : Prop :=
  exists d ram, w = Some (mkAw d ram) /\ quiet d /\ forall l, 0 <= l < count -> sector_ok (ata_sectors d l).
Definition ata_sector (w : option (ata_world D)) (l j : Z) : Z :=
  match w with Some w => sector_byte (ata_sectors (aw_bus w) l) j | None => 0 end.

Lemma store_sector_eq disk s l ws : store_sector disk s l ws s l = ws.
Proof. unfold store_sector. by rewrite Bool.eqb_reflx, Z.eqb_refl. Qed.
Lemma store_sector_ne disk s l l' ws : l' <> l -> store_sector disk s l ws s l' = disk s l'.
Proof. intros. unfold store_sector. by rewrite (proj2 (Z.eqb_neq l' l)), andb_false_r. Qed.

Lemma ready_quiet (d : D) : av_phase (ata_alpha d) = Ready -> quiet d.
Proof. intros Hp. exists O. split; [apply Nat.le_0_l|done]. Qed.

Lemma ata_block_store (b : block_sys (option (ata_world D))) (id : Z)
    (Hbs : bs = ATA_PRIMARY_DATA \/ bs = ATA_SECONDARY_DATA) (Hdd : ata_base dd = bs)
    (Hdev : ata_device b id fuel count dd)
    (Hlat : Z.of_nat latency < 1000000) (Hfuel : Z.of_nat latency < fuel) (Hcount : count <= 2 ^ 28) :
  block_store b id count ata_idle ata_sector.
Proof.
  destruct Hdev as (H1 & H2 & H3 & H4). split.
  - done.
  - intros w (d & ram & -> & _). done.
  - intros w m (d & ram & -> & Hq & Hs). split; [|done]. by exists d, m.
  - intros w lba buf (d & ram & -> & Hq & Hs) Hlba Hbuf. unfold block_write.
    rewrite (proj2 (Z.eqb_neq _ _) H1), H2, H4, H3, (proj2 (Z.leb_gt count lba)) by lia.
    cbn [op_write_block ata_ops as_op]. assert (Hmod : lba mod 2 ^ 28 = lba) by (apply Z.mod_small; lia).
    destruct (wp_run _ _ _ (wp_ata_write Hbs (Z.to_nat fuel) dd lba buf d ram (fun e w => e = E_OK /\ exists d1,
      w = mkAw d1 ram /\ av_phase (ata_alpha d1) = Ready /\ av_disk (ata_alpha d1) =
        store_sector (av_disk (ata_alpha d)) (is_slave (ata_drive dd)) lba (ram_words ram buf))
      Hdd Hq ltac:(lia) Hlat ltac:(lia) Hbuf ltac:(rewrite Hmod; eauto))) as (e & w & Ew & -> & d1 & -> & P1 & K1).
    rewrite Ew. exists (Some (mkAw d1 ram)). split_and!; [done| |done| |].
    + exists d1, ram. split; [done|]. split; [by apply ready_quiet|]. intros l Hl. unfold ata_sectors. rewrite K1.
      destruct (decide (l = lba)) as [->|]; [rewrite store_sector_eq; by apply ram_words_sector|].
      rewrite store_sector_ne by done. by apply Hs.
    + intros j Hj. cbn. unfold ata_sectors. rewrite K1, store_sector_eq. by apply ram_words_byte.
    + intros l j Hl. cbn. unfold ata_sectors. by rewrite K1, store_sector_ne.
  - intros w lba buf (d & ram & -> & Hq & Hs) Hlba. unfold block_read.
    rewrite (proj2 (Z.eqb_neq _ _) H1), H2, H4, H3, (proj2 (Z.leb_gt count lba)) by lia.
    cbn [op_read_block ata_ops as_op]. assert (Hmod : lba mod 2 ^ 28 = lba) by (apply Z.mod_small; lia).
    destruct (wp_run _ _ _ (wp_ata_read Hbs (Z.to_nat fuel) dd lba buf d ram (fun e w => e = E_OK /\ exists d2 ram2,
      w = mkAw d2 ram2 /\ av_phase (ata_alpha d2) = Ready /\ av_disk (ata_alpha d2) = av_disk (ata_alpha d) /\
      (forall j, 0 <= j < 512 -> rd ram2 (buf + j) = sector_byte (ata_sectors d lba) j) /\
      (forall a, ~ buf <= a < buf + 512 -> rd ram2 a = rd ram a))
      Hdd Hq ltac:(lia) Hlat ltac:(lia) ltac:(rewrite Hmod; by apply Hs)
      ltac:(rewrite Hmod; intros d2 ram2 P2 K2 Hb Ho; split; [done|]; exists d2, ram2; by split_and!)))
      as (e & w & Er & -> & d2 & ram2 & -> & P2 & K2 & Hb & Ho).
    rewrite Er. exists (Some (mkAw d2 ram2)). split_and!; [done| |done|done|].
    + exists d2, ram2. split; [done|]. split; [by apply ready_quiet|]. intros l Hl. unfold ata_sectors. rewrite K2. by apply Hs.
    + intros l j. cbn. unfold ata_sectors. by rewrite K2.
Qed.
End ata.
