(* ===== verification/ShellThms.v ===== *)
(** * What shell commands do, end to end

    Each theorem follows typed lines through the parser, the dispatcher, the
    handlers and the components they call. *)

From S2P Require Import Prelude MemLayout Errno CString Bitmap Pmm Buddy Slab SlabThms Kmalloc Task TaskThms Driver Block Ramfs Vfs VfsShape.
From S2P Require Import Console Vga Legacy Reports Shell ShellSys ShellCmds ShellRun.

(** A name without blanks is one word. *)
Definition word_ok (s : string) : bool := forallb (fun c => negb (is_blank c) && negb (c =? 0)) (str s) && negb (bool_decide (str s = [])).

Lemma word_name s : word_ok s = true -> is_word (str s).
Proof.
  unfold word_ok. intros [Hc Hn]%andb_prop. apply negb_true_iff, bool_decide_eq_false in Hn. split; [done|].
  apply Forall_forall. intros c Hin. rewrite forallb_forall in Hc. specialize (Hc c (proj1 (list_elem_of_In _ _) Hin)).
  apply andb_prop in Hc as [Hb Hz]. apply negb_true_iff in Hb, Hz. apply Z.eqb_neq in Hz. done.
Qed.

(** ** Running computations *)

Section logic.
Context {W V : Type} `{World W}.
Implicit Types st : system W V.

(** [m] ends normally from [st], with a result and a state that satisfy [Q]. *)
Definition ends {A} (m : sh W V A) st (Q : A -> system W V -> Prop) : Prop :=
  match m st with (Ret a, st') => Q a st' | (Stop _, _) => False end.

Lemma ends_bind {A B} (m : sh W V A) (k : A -> sh W V B) st Q :
  ends m st (fun a st' => ends (k a) st' Q) -> ends (m ≫= k) st Q.
Proof. unfold ends. rewrite sh_bind_eq. by destruct (m st) as [[a|r] st']. Qed.
Lemma ends_ret {A} (a : A) st Q : Q a st -> ends (mret a) st Q.
Proof. done. Qed.
Lemma ends_mono {A} (m : sh W V A) st (Q Q' : A -> system W V -> Prop) :
  ends m st Q -> (forall a st', Q a st' -> Q' a st') -> ends m st Q'.
Proof. unfold ends. destruct (m st) as [[a|r] st']; auto. Qed.
Lemma ends_run {A} (m : sh W V A) st Q : ends m st Q -> exists a st', m st = (Ret a, st') /\ Q a st'.
Proof. unfold ends. destruct (m st) as [[a|r] st']; [eauto|done]. Qed.

(** The system with more console output. *)
Definition told st (o : output) : system W V := snd (say o st).

Lemma told_told st o1 o2 : told (told st o1) o2 = told st (o1 ++ o2).
Proof. unfold told, say. cbn. by rewrite app_assoc. Qed.
Lemma ends_say o st Q : Q tt (told st o) -> ends (say o) st Q.
Proof. done. Qed.
Lemma ends_gets {A} (f : system W V -> A) st Q : Q (f st) st -> ends (gets f) st Q.
Proof. done. Qed.
Lemma ends_heap {A} (f : heap buddy -> A * heap buddy) st a h Q :
  f (y_heap st) = (a, h) -> Q a (set_heap h st) -> ends (heap_op f) st Q.
Proof. intros E HQ. unfold ends, heap_op. by rewrite E. Qed.
Lemma ends_vfs {A} (f : vfs (heap buddy) -> option (A * vfs (heap buddy))) st a v Q :
  f (vfs_view st) = Some (a, v) -> Q a (set_y_vfs v (set_heap (v_heap v) st)) -> ends (vfs_op f) st Q.
Proof. intros E HQ. unfold ends, vfs_op. by rewrite E. Qed.
Lemma ends_blk (f : block_sys W -> W -> Z * W) st r w Q :
  f (y_blk st) (y_world st) = (r, w) -> w_running w = true -> Q r (set_y_world w st) -> ends (blk_op f) st Q.
Proof. intros E Hw HQ. unfold ends, blk_op. by rewrite E, Hw. Qed.

End logic.

(** One step of a computation: a bind, a result, output, or a query. *)
Ltac sh_step :=
  lazymatch goal with
  | |- ends (mbind _ _) _ _ => apply ends_bind
  | |- ends (mret _) _ _ => apply ends_ret
  | |- ends (say _) _ _ => apply ends_say
  | |- ends (puts ?s) _ _ => apply (ends_say (o_puts s))
  | |- ends (puts_str ?s) _ _ => apply (ends_say (o_str s))
  | |- ends (putc ?c) _ _ => apply (ends_say (o_putc c))
  | |- ends nl _ _ => apply (ends_say o_nl)
  | |- ends (putnum ?v) _ _ => apply (ends_say (o_num v))
  | |- ends (set_color ?c) _ _ => apply (ends_say (o_color c))
  | |- ends (puts_in ?c ?s) _ _ => unfold puts_in
  | |- ends (gets _) _ _ => apply ends_gets
  end; cbv beta.
Ltac sh_steps := repeat sh_step; rewrite ?told_told.

Section files.
Context {W V : Type} `{World W} `{!WorldLaws W}.
Context (i0 : Z) (beyond : list Z) (resume : system W V -> system W V) (tree_fuel : nat).
Implicit Types st : system W V.

(** *** What an operation leaves *)

Lemma vfs_view_set v st :
  w_running (y_world st) = true -> vfs_view (set_y_vfs v (set_heap (v_heap v) st)) = v.
Proof.
  intros Hr. unfold vfs_view, y_heap, with_vheap. cbn. rewrite w_get_set by done.
  destruct v as [n r b f m t [hs hk]]. reflexivity.
Qed.

Lemma y_heap_set_heap h st : w_running (y_world st) = true -> y_heap (set_heap h st) = h.
Proof. intros Hr. unfold y_heap. cbn. rewrite w_get_set by done. by destruct h. Qed.

(** *** [write] and [cat] *)

Definition wrote_text (n : Z) (path : list Z) : output :=
  o_puts "Wrote " ++ o_num n ++ o_puts " bytes to " ++ o_str path ++ o_nl.

Lemma cmd_write_spec w path ws st node v :
  ws <> [] -> vfs_open (vfs_view st) path = Some node -> node <> 0 ->
  vfs_write (vfs_view st) node (u8 <$> join_args ws 0) = (E_OK, Z.of_nat (length (join_args ws 0)), v) ->
  ends (cmd_write i0 (w :: path :: ws)) st (fun _ st' =>
    st' = told (set_y_vfs v (set_heap (v_heap v) st)) (wrote_text (Z.of_nat (length (join_args ws 0))) path)).
Proof.
  intros Hws Hopen Hn Hw. unfold cmd_write, argc. rewrite (proj2 (Z.ltb_ge _ _)) by (destruct ws; [done|cbn; lia]).
  change (arg (w :: path :: ws) 1) with path. change (drop 2 (w :: path :: ws)) with ws.
  unfold open_or_create, sh_open. sh_steps. rewrite Hopen. sh_steps.
  rewrite (proj2 (Z.eqb_neq _ 0) Hn). cbn [negb]. sh_steps. rewrite (proj2 (Z.eqb_neq _ 0) Hn).
  sh_steps. eapply ends_vfs; [rewrite Hw; reflexivity|]. cbn [is_ok]. unfold sh_close. sh_steps. reflexivity.
Qed.

Lemma cmd_cat_spec w path st node bs q h :
  w_running (y_world st) = true -> vfs_open (vfs_view st) path = Some node -> node <> 0 ->
  is_dir (node_at (y_vfs st) node) = false ->
  kmalloc (y_heap st) (u64 (n_size (node_at (y_vfs st) node) + 1)) = (q, h) -> q <> 0 ->
  vfs_read (vfs_view st) node (n_size (node_at (y_vfs st) node)) = (E_OK, Some bs) ->
  ends (cmd_cat [w; path]) st (fun _ st' =>
    y_con st' = y_con st ++ (o_nl ++ (CPutc ∘ to_char <$> bs) ++ o_puts "\n\n")).
Proof.
  intros Hr Hopen Hn Hdir Hk Hq Hrd. unfold cmd_cat. change (argc [w; path] <? 2) with false. cbv iota.
  change (arg [w; path] 1) with path.
  unfold sh_open. sh_steps. rewrite Hopen. sh_steps. rewrite (proj2 (Z.eqb_neq _ 0) Hn).
  unfold file_node. sh_steps. rewrite Hdir. sh_steps. eapply ends_heap; [exact Hk|].
  rewrite (proj2 (Z.eqb_neq _ 0) Hq). unfold vfs_read_to. sh_steps.
  change (vfs_read (vfs_view (set_heap h st)) node (n_size (node_at (y_vfs st) node)))
    with (vfs_read (vfs_view st) node (n_size (node_at (y_vfs st) node))).
  rewrite Hrd. sh_steps. unfold ends at 1, store_bytes. sh_steps. cbn [is_ok]. unfold bytes_of. sh_steps.
  cbn [y_world set_y_world set_heap told say snd].
  rewrite !w_get_set by (rewrite ?w_set_running; exact Hr). rewrite bytes_at_seqZ by apply wr_list_spec.
  eapply ends_heap; [reflexivity|]. unfold sh_close. sh_steps.
  cbn [y_con set_heap told say snd set_y_world]. reflexivity.
Qed.

(** *** Typed lines *)

Abbreviation shell_round := (shell_round i0 beyond resume tree_fuel).
Abbreviation shell_rounds := (shell_rounds i0 beyond resume tree_fuel).

(** A line made of a command's name and words runs the command's handler. *)
Lemma ends_round k name d h args st Q :
  command_help !! k = Some (name, d) -> handlers i0 beyond resume tree_fuel !! k = Some h ->
  is_word (str name) -> Forall is_word args -> (length args < 15)%nat ->
  ends (h (str name :: args)) (heard (join_blank (str name :: args) ++ [10]) st) Q ->
  ends (shell_round (join_blank (str name :: args) ++ [10]) []) st Q.
Proof.
  intros Hn Hh Hw Hargs Hlen HQ. assert (Hall : Forall is_word (str name :: args)) by by constructor.
  unfold ends. rewrite shell_round_words;
    [|by apply join_blank_nonzero|rewrite words_join by done; unfold MAX_ARGS; cbn [length]; lia].
  rewrite words_join by done.
  by rewrite (run_argv_nth _ _ _ _ k name d h args Hn Hh).
Qed.

Definition prompt_out : output :=
  o_color CONSOLE_COLOR_LIGHT_GREEN ++ o_puts "ignis" ++ o_color CONSOLE_COLOR_WHITE ++ o_puts "$ ".

Lemma ends_rounds line lines st Q :
  ends (shell_round line []) (told st prompt_out) (fun _ st' => ends (shell_rounds lines) st' Q) ->
  ends (shell_rounds (line :: lines)) st Q.
Proof.
  intros HQ. cbn [ShellRun.shell_rounds]. sh_step. unfold shell_print_prompt. sh_steps. by apply ends_bind.
Qed.

(** [path] names the regular file [node]. *)
Record text_file st (path : list Z) (node d : Z) : Prop := {
  tf_open : vfs_open (vfs_view st) path = Some node;
  tf_file : file_ok (vfs_view st) node d;
  tf_apart : data_apart (vfs_view st) d;
  tf_ops : n_ops (node_at (vfs_view st) node) <> 0;
}.

(** Text of seven-bit characters; storing it in bytes and reading it back as
    characters changes nothing. *)
Definition ascii_text (t : list Z) : Prop := Forall (fun c => 0 < c < 128) t.

Lemma ascii_bytes t : ascii_text t -> u8 <$> t = t.
Proof. induction 1 as [|c t Hc _ IH]; [done|]. rewrite fmap_cons, IH, u8_small by lia. done. Qed.
Lemma ascii_chars t : ascii_text t -> text_of (CPutc ∘ to_char <$> t) = t.
Proof.
  induction 1 as [|c t Hc _ IH]; [done|]. change (to_char c :: text_of (CPutc ∘ to_char <$> t) = c :: t).
  rewrite IH. unfold to_char. by rewrite (proj2 (Z.leb_gt _ _)) by lia.
Qed.

Lemma ascii_join ws : Forall ascii_text ws -> ascii_text (join_blank ws).
Proof.
  induction 1 as [|w ws Hw Hws IH]; [constructor|]. cbn [join_blank]. destruct ws as [|w' ws]; [done|].
  apply Forall_app. split; [done|]. constructor; [lia|exact IH].
Qed.

(** The file after a successful write of [text]. *)
Record written st (path text : list Z) (node : Z) (h : heap buddy) (v : vfs (heap buddy)) : Prop := {
  wt_before : vfs_open (vfs_view st) path = Some node;
  wt_run : vfs_write (vfs_view st) node text = (E_OK, Z.of_nat (length text), v);
  wt_open : vfs_open v path = Some node;
  wt_node : node <> 0 /\ is_dir (node_at v node) = false /\ n_size (node_at v node) = Z.of_nat (length text);
  wt_heap : v_heap v = h;
  wt_read : vfs_read v node (Z.of_nat (length text)) = (E_OK, Some text);
}.

Lemma text_file_written st path text node d p h :
  text_file st path node d ->
  kh_alloc (v_heap (release (vfs_view st) (r_data (ram_at (vfs_view st) d)))) (Z.of_nat (length text)) = (p, h) -> p <> 0 ->
  exists v, written st path text node h v.
Proof.
  intros [Hopen Hfile Hapart Hops] Ha Hp. assert (Hn0 : node <> 0) by apply (fo_node _ _ _ Hfile).
  destruct (write_read_same (vfs_view st) node d text p h Hfile Ha Hp) as (v & Hw & Hsize & Hheap & Hread).
  assert (Hshape : v ≡ vfs_view st).
  { pose proof (ramfs_write_shape (vfs_view st) node d text Hfile Hapart) as E. by rewrite Hw in E. }
  destruct (shape_node _ _ node Hshape) as (_ & Ht & _ & Eo). exists v. split.
  - done.
  - unfold vfs_write. by rewrite (proj2 (Z.eqb_neq _ 0) Hn0), (proj2 (Z.eqb_neq _ 0) Hops).
  - unfold vfs_open. by rewrite (vfs_resolve_path_proper _ _ Hshape path _ eq_refl).
  - split; [done|]. split; [|done]. unfold is_dir. rewrite Ht, (proj2 (proj2 (fo_node _ _ _ Hfile))).
    by rewrite bool_decide_eq_false_2.
  - done.
  - unfold vfs_read. rewrite Eo, (proj2 (Z.eqb_neq _ 0) Hn0), (proj2 (Z.eqb_neq _ 0) Hops). cbn [orb].
    rewrite Hread by lia. by rewrite Nat2Z.id, take_ge.
Qed.


(** The line [write path w1 ... wn]. *)
Lemma write_line st path ws node h v :
  written st path (join_blank ws) node h v -> is_word path -> ws <> [] -> Forall is_word ws -> Forall ascii_text ws ->
  (length ws < 14)%nat -> Z.of_nat (length (join_blank ws)) <= 255 ->
  ends (shell_round (join_blank (str "write" :: path :: ws) ++ [10]) []) st (fun _ st' =>
    st' = told (set_y_vfs v (set_heap (v_heap v) (heard (join_blank (str "write" :: path :: ws) ++ [10]) st)))
            (wrote_text (Z.of_nat (length (join_blank ws))) path)).
Proof.
  intros [Hopen Hrun _ [Hn0 _] _ _] Hpath Hne Hws Hasc Hcount Hlen.
  assert (Hjoin : join_args ws 0 = join_blank ws).
  { rewrite join_args_spec by lia. apply take_ge. lia. }
  eapply (ends_round 21 "write"); [reflexivity|reflexivity|by apply word_name|by constructor|cbn; lia|].
  eapply ends_mono; [apply (cmd_write_spec _ path ws _ node v); [done|exact Hopen|done|]|].
  - rewrite Hjoin, ascii_bytes by by apply ascii_join. exact Hrun.
  - intros [] st' ->. by rewrite Hjoin.
Qed.

(** The line [cat path] once the text is written. *)
Lemma cat_line st st0 path text node q h h2 v :
  w_running (y_world st) = true -> vfs_view st = v -> written st0 path text node h v ->
  Z.of_nat (length text) <= 255 -> kmalloc h (Z.of_nat (length text) + 1) = (q, h2) -> q <> 0 -> is_word path ->
  ends (shell_round (join_blank [str "cat"; path] ++ [10]) []) st (fun _ st' =>
    y_con st' = y_con st ++ (o_nl ++ (CPutc ∘ to_char <$> text) ++ o_puts "\n\n")).
Proof.
  intros Hr Hview [_ _ Hopen (Hn0 & Hdir & Hsize) Hheap Hread] Hlen Hk Hq Hpath.
  eapply (ends_round 20 "cat"); [reflexivity|reflexivity|by apply word_name|by apply Forall_singleton|cbn; lia|].
  set (st1 := heard _ st).
  assert (Hn : node_at (y_vfs st1) node = node_at v node) by (rewrite <- Hview; reflexivity).
  change (y_con st) with (y_con st1). apply (cmd_cat_spec _ path st1 node text q h2); rewrite ?Hn, ?Hsize.
  - exact Hr.
  - change (vfs_view st1) with (vfs_view st). by rewrite Hview.
  - done.
  - done.
  - rewrite u64_small by lia. change (y_heap st1) with (v_heap (vfs_view st)). by rewrite Hview, Hheap.
  - done.
  - change (vfs_view st1) with (vfs_view st). by rewrite Hview.
Qed.

(** What the two lines print. *)
Definition write_cat_text (n : Z) (path text : list Z) : list Z :=
  text_of (prompt_out ++ wrote_text n path ++ prompt_out) ++ [10] ++ text ++ [10; 10].

(** C9. The lines [write path w1 ... wn] and [cat path], typed at the prompt one
    after the other.  When the path names a file that exists, there are between
    one and thirteen words of plain (ASCII) characters, the words with single
    blanks between them have at most 255 characters, and the heap has room for
    that text and for the buffer of [cat], both commands end and the console
    receives exactly: the prompt, [Wrote n bytes to path], the prompt, and then
    the words separated by single blanks.  ([docs/COMMANDS.md] shows another
    message for [write], [File written: n bytes]; the statement is about what
    [cmd_write] prints.) *)
Theorem shell_write_cat st (path : list Z) (ws : list (list Z)) (node d p q : Z) (h h2 : heap buddy)
    (Hrun : w_running (y_world st) = true) (Hf : text_file st path node d)
    (Hpath : is_word path) (Hne : ws <> []) (Hws : Forall is_word ws) (Hasc : Forall ascii_text ws)
    (Hcount : (length ws < 14)%nat) (Hlen : Z.of_nat (length (join_blank ws)) <= 255)
    (Ha : kh_alloc (v_heap (release (vfs_view st) (r_data (ram_at (vfs_view st) d)))) (Z.of_nat (length (join_blank ws))) = (p, h))
    (Hp : p <> 0) (Hk : kmalloc h (Z.of_nat (length (join_blank ws)) + 1) = (q, h2)) (Hq : q <> 0) :
  exists st' o, shell_rounds [join_blank (str "write" :: path :: ws) ++ [10]; join_blank [str "cat"; path] ++ [10]] st = (Ret tt, st') /\
    y_con st' = y_con st ++ o /\
    text_of o = write_cat_text (Z.of_nat (length (join_blank ws))) path (join_blank ws).
Proof.
  destruct (text_file_written st path (join_blank ws) node d p h Hf Ha Hp) as [v Hv].
  set (line1 := join_blank (str "write" :: path :: ws) ++ [10]). set (text := join_blank ws) in *.
  assert (Hv' : written (told st prompt_out) path text node h v) by (destruct Hv; split; assumption).
  pose (st1 := told (set_y_vfs v (set_heap (v_heap v) (heard line1 (told st prompt_out)))) (wrote_text (Z.of_nat (length text)) path)).
  assert (Hrun1 : w_running (y_world st1) = true).
  { change (y_world st1) with (w_set_mem (kmem (v_heap v)) (y_world st)). by rewrite w_set_running. }
  assert (Hview : vfs_view (told st1 prompt_out) = v) by exact (vfs_view_set v st Hrun).
  edestruct (ends_run (shell_rounds [line1; join_blank [str "cat"; path] ++ [10]]) st (fun _ st' =>
    y_con st' = y_con (told st1 prompt_out) ++ (o_nl ++ (CPutc ∘ to_char <$> text) ++ o_puts "\n\n"))) as ([] & st' & E & Ho).
  { apply ends_rounds. eapply ends_mono; [by apply (write_line (told st prompt_out) path ws node h v)|].
    intros [] st'' ->. apply ends_rounds. fold text line1 st1.
    eapply ends_mono; [by apply (cat_line (told st1 prompt_out) st path text node q h h2 v)|].
    intros [] st'' E. apply ends_ret. exact E. }
  exists st'. eexists. split; [exact E|]. rewrite Ho.
  change (y_con (told st1 prompt_out)) with (((y_con st ++ prompt_out) ++ wrote_text (Z.of_nat (length text)) path) ++ prompt_out).
  rewrite <- !app_assoc. split; [reflexivity|].
  unfold write_cat_text. rewrite !text_of_app, <- !app_assoc, ascii_chars by by apply ascii_join. reflexivity.
Qed.
End files.

(** ** The demonstration system *)

Lemma demo_file : text_file demo_system (str "/a") node_a ram_a.
Proof.
  split; [vm_compute; reflexivity| |vm_compute; split; reflexivity|vm_compute; discriminate].
  split.
  - vm_compute. split; [discriminate|]. split; [by eexists|reflexivity].
  - vm_compute. split; [reflexivity|]. split; [discriminate|by eexists].
  - vm_compute. split; discriminate.
Qed.

Definition demo_words : list (list Z) := [str "hello"; str "world"].
Definition demo_len : Z := Z.of_nat (length (join_blank demo_words)).
Definition demo_write : Z * heap buddy :=
  kh_alloc (v_heap (release (vfs_view demo_system) (r_data (ram_at (vfs_view demo_system) ram_a)))) demo_len.
Definition demo_cat : Z * heap buddy := kmalloc (snd demo_write) (demo_len + 1).

Lemma demo_write_eq :
  kh_alloc (v_heap (release (vfs_view demo_system) (r_data (ram_at (vfs_view demo_system) ram_a))))
    (Z.of_nat (length (join_blank demo_words))) = (fst demo_write, snd demo_write).
Proof. unfold demo_write, demo_len. apply surjective_pairing. Qed.
Lemma demo_cat_eq :
  kmalloc (snd demo_write) (Z.of_nat (length (join_blank demo_words)) + 1) = (fst demo_cat, snd demo_cat).
Proof. unfold demo_cat, demo_len. apply surjective_pairing. Qed.

Lemma demo_allocs : fst demo_write <> 0 /\ fst demo_cat <> 0.
Proof. vm_compute. split; discriminate. Qed.

Lemma demo_words_ok : Forall is_word demo_words /\ Forall ascii_text demo_words.
Proof.
  split.
  - constructor; [by apply word_name|]. constructor; [by apply word_name|constructor].
  - constructor; [|constructor; [|constructor]]; by apply (bool_decide_unpack _).
Qed.

Lemma shell_write_cat_witness :
  exists st' o, shell_rounds 0 [] id 8 [join_blank (str "write" :: str "/a" :: demo_words) ++ [10];
                                       join_blank [str "cat"; str "/a"] ++ [10]] demo_system = (Ret tt, st') /\
    y_con st' = y_con demo_system ++ o /\
    text_of o = write_cat_text (Z.of_nat (length (join_blank demo_words))) (str "/a") (join_blank demo_words).
Proof.
  refine (shell_write_cat 0 [] id 8 demo_system (str "/a") demo_words node_a ram_a
    (fst demo_write) (fst demo_cat) (snd demo_write) (snd demo_cat) eq_refl demo_file (word_name "/a" eq_refl) _
    (proj1 demo_words_ok) (proj2 demo_words_ok) _ _ demo_write_eq (proj1 demo_allocs)
    demo_cat_eq (proj2 demo_allocs)).
  - discriminate.
  - cbn. lia.
  - by vm_compute.
Defined.
