(* ===== verification/ShellDisk.v ===== *)
(** * The block device commands, end to end

    [blktest] on any device that is a [block_store]; the ATA driver on a
    conforming drive is one. *)

From S2P Require Import Prelude MemLayout Errno Ports CString Pmm Buddy Slab SlabThms Kmalloc Task TaskThms Driver Block Ramfs Vfs.
From S2P Require Import Console Vga Legacy Reports Shell ShellSys ShellCmds ShellRun ShellThms Ata AtaThms BlockStore.

Section disk.
Context {W V : Type} `{World W} `{!WorldLaws W}.
Implicit Types st : system W V.

(** The pattern of [blktest]. *)
Definition pattern (i : Z) : Z := Z.land i 0xFF.

Lemma pattern_byte i : u8 (pattern i) = pattern i.
Proof. unfold pattern. change 0xFF with (Z.ones 8). rewrite Z.land_ones by lia. apply Z.mod_mod. lia. Qed.

Definition patterned (m : mem) (p : Z) : mem := for_range 0 512 (fun i m => wr m (p + i) (u8 (pattern i))) m.

Lemma patterned_at m p j : 0 <= j < 512 -> rd (patterned m p) (p + j) = pattern j.
Proof.
  intros Hj. unfold patterned. rewrite rd_for_range_wr. replace (p + j - p) with j by lia.
  rewrite (proj2 (Z.leb_le 0 j)), (proj2 (Z.ltb_lt j 512)) by lia. cbn [andb]. apply pattern_byte.
Qed.

Lemma patterned_buffer m p : buffer_ok (patterned m p) p.
Proof. intros j Hj. rewrite patterned_at by done. rewrite <- pattern_byte. apply u8_range. Qed.

(** What a passing run shows. *)
Definition blktest_output (id : Z) (name : list Z) : output :=
  o_puts "\n=== Block Device Test ===\n" ++
  o_puts "Testing device " ++ o_num id ++ o_puts " (" ++ o_str name ++ o_puts ")\n\n" ++
  o_puts "Writing test pattern...\n" ++
  o_color CONSOLE_COLOR_GREEN ++ o_puts "✓ Write successful\n" ++ o_color CONSOLE_COLOR_WHITE ++
  o_puts "Reading back data...\n" ++
  o_color CONSOLE_COLOR_GREEN ++ o_puts "✓ Read successful\n" ++ o_color CONSOLE_COLOR_WHITE ++
  o_puts "Verifying data...\n" ++
  o_color CONSOLE_COLOR_GREEN ++ o_puts "✓ Verification passed!\n\n" ++ o_color CONSOLE_COLOR_WHITE.

Lemma ends_fill p n f st Q :
  Q tt (set_y_world (w_set_mem (for_range 0 n (fun i m => wr m (p + i) (u8 (f i))) (w_mem (y_world st))) (y_world st)) st) ->
  ends (fill (V := V) p n f) st Q.
Proof. done. Qed.
Lemma ends_zero p n st Q :
  Q tt (set_y_world (w_set_mem (memset (w_mem (y_world st)) p 0 (Z.to_nat n)) (y_world st)) st) ->
  ends (zero_mem (V := V) p n) st Q.
Proof. done. Qed.

Lemma no_errors (f : Z -> Z) :
  (forall j, 0 <= j < 512 -> f j = pattern j) ->
  Z.of_nat (length (filter (fun i => f i <> pattern i) (seqZ 0 512))) = 0.
Proof.
  intros Hf. destruct (filter _ _) as [|x l] eqn:E; [done|].
  assert (Hx : x ∈ filter (fun i => f i <> pattern i) (seqZ 0 512)) by (rewrite E; left).
  apply list_elem_of_filter in Hx as [Hne Hx%elem_of_seqZ]. exfalso. apply Hne, Hf. lia.
Qed.

#[local] Opaque for_range memset.

(** C10. [blktest] on a working device.  Whatever the device is, if it keeps what is
    written to it and has more than 100 blocks, the command ends, reports
    success, leaves the test pattern in block 100 and every other block as it
    was. *)
Theorem blktest_passes st (w a : list Z) (count q : Z) (h : heap buddy) (I : W -> Prop) (sector : W -> Z -> Z -> Z)
    (Hstore : block_store (y_blk st) (parse_digits u8 a) count I sector) (Hcount : 100 < count)
    (HI : I (y_world st)) (Hk : kmalloc (y_heap st) 512 = (q, h)) (Hq : q <> 0) :
  let id := parse_digits u8 a in
  exists st', cmd_blktest [w; a] st = (Ret tt, st') /\
    y_con st' = y_con st ++ blktest_output id (label (dev_at (y_blk st) (block_get_device (y_blk st) id))) /\
    (forall j, 0 <= j < 512 -> sector (y_world st') 100 j = pattern j) /\
    (forall l j, l <> 100 -> sector (y_world st') l j = sector (y_world st) l j).
Proof.
  cbv zeta. set (id := parse_digits u8 a) in *. destruct (bs_present _ _ _ _ _ Hstore) as [Hd Hpres].
  edestruct (ends_run (cmd_blktest [w; a]) st (fun _ st' =>
    y_con st' = y_con st ++ blktest_output id (label (dev_at (y_blk st) (block_get_device (y_blk st) id))) /\
    (forall j, 0 <= j < 512 -> sector (y_world st') 100 j = pattern j) /\
    (forall l j, l <> 100 -> sector (y_world st') l j = sector (y_world st) l j))) as ([] & st' & E & HQ); [|eauto].
  unfold cmd_blktest. change (argc [w; a] <? 2) with false. cbv iota. change (arg [w; a] 1) with a. fold id.
  sh_steps. change (y_blk (told st (o_puts "\n=== Block Device Test ===\n"))) with (y_blk st).
  rewrite (proj2 (Z.eqb_neq _ 0) Hd), Hpres. cbn [orb negb]. sh_steps. eapply ends_heap; [exact Hk|].
  rewrite (proj2 (Z.eqb_neq _ 0) Hq). sh_steps. apply ends_fill. sh_steps.
  set (w0 := y_world _). set (w1 := w_set_mem _ w0).
  assert (HI1 : I w1 /\ sector w1 = sector (y_world st)).
  { destruct (bs_memory _ _ _ _ _ Hstore (y_world st) (kmem h) HI) as [HI0 Es0].
    destruct (bs_memory _ _ _ _ _ Hstore w0 (patterned (w_mem w0) q) HI0) as [HI1 Es1].
    split; [exact HI1|]. etrans; [exact Es1|exact Es0]. }
  assert (Hm1 : w_mem w1 = patterned (w_mem w0) q).
  { apply w_get_set. apply (bs_running _ _ _ _ _ Hstore). by apply (bs_memory _ _ _ _ _ Hstore). }
  destruct HI1 as [HI1 Es1].
  destruct (bs_write _ _ _ _ _ Hstore w1 100 q HI1 ltac:(lia)) as (w2 & Ew & HI2 & Hm2 & Hs2 & Ho2).
  { rewrite Hm1. apply patterned_buffer. }
  eapply ends_blk; [exact Ew|by apply (bs_running _ _ _ _ _ Hstore)|]. cbn [Z.eqb negb]. sh_steps.
  apply ends_zero. sh_steps. set (w3 := w_set_mem _ _).
  destruct (bs_memory _ _ _ _ _ Hstore w2 (memset (w_mem w2) q 0 (Z.to_nat 512)) HI2) as [HI3 Es3]. change (I w3) in HI3.
  change (sector w3 = sector w2) in Es3.
  destruct (bs_read _ _ _ _ _ Hstore w3 100 q HI3 ltac:(lia)) as (w4 & Er & HI4 & Hb4 & _ & Ho4).
  eapply ends_blk; [exact Er|by apply (bs_running _ _ _ _ _ Hstore)|]. cbn [Z.eqb negb]. sh_steps.
  assert (Hpat : forall j, 0 <= j < 512 -> sector w2 100 j = pattern j).
  { intros j Hj. rewrite Hs2, Hm1 by done. by apply patterned_at. }
  rewrite (no_errors (fun i => rd (w_mem w4) (q + i))); [|intros j Hj; rewrite Hb4, Es3 by done; by apply Hpat].
  cbn [Z.eqb]. sh_steps. eapply ends_heap; [reflexivity|].
  match goal with |- y_con ?s = _ /\ _ => set (stf := s) end.
  assert (Esf : sector (y_world stf) = sector w4) by (by apply (bs_memory _ _ _ _ _ Hstore)).
  rewrite Esf. split_and!.
  - unfold stf, blktest_output. cbn [y_con set_heap set_y_world told say snd]. by rewrite <- !app_assoc.
  - intros j Hj. rewrite Ho4, Es3. by apply Hpat.
  - intros l j Hl. rewrite Ho4, Es3, Ho2 by done. by rewrite Es1.
Qed.
End disk.

(** The demonstration drive of [AtaThms.v] behind the kernel's heap. *)
Definition disk_system : system (option (ata_world ata_view)) nat :=
  mkSystem [] [] (h_slab boot_heap) pmm_boot (mkLegacy None ∅) vfs_a boot3 (mkReg ∅ [] 0) sim_block
    (Some (mkAw sim_disk ∅)).

Definition disk_buffer : Z * heap buddy := kmalloc (y_heap disk_system) 512.
Lemma disk_buffer_ok : fst disk_buffer <> 0.
Proof. vm_compute. discriminate. Qed.
Lemma disk_buffer_eq : kmalloc (y_heap disk_system) 512 = (fst disk_buffer, snd disk_buffer).
Proof. unfold disk_buffer. apply surjective_pairing. Qed.

Lemma sim_store : block_store sim_block 0 2048 (ata_idle (ata_device_data 0) 2048) (ata_sector (ata_device_data 0)).
Proof.
  apply (ata_block_store (bs := ATA_PRIMARY_DATA) _ 3); [by left|done|exact sim_block_device|done|done|done].
Qed.

Lemma sim_idle : ata_idle (ata_device_data 0) 2048 (y_world disk_system).
Proof.
  exists sim_disk, ∅. split; [done|]. split; [exists O; split; [apply Nat.le_0_l|reflexivity]|].
  intros l _. split; [done|]. apply Forall_replicate. lia.
Qed.

Lemma blktest_passes_witness :
  exists st', cmd_blktest [str "blktest"; str "0"] disk_system = (Ret tt, st') /\
    y_con st' = blktest_output 0 (label (dev_at sim_block 4096)) /\
    ata_sector (ata_device_data 0) (y_world st') 100 255 = 255.
Proof.
  destruct (blktest_passes disk_system (str "blktest") (str "0") 2048 (fst disk_buffer) (snd disk_buffer)
    (ata_idle (ata_device_data 0) 2048) (ata_sector (ata_device_data 0)) sim_store ltac:(lia) sim_idle disk_buffer_eq disk_buffer_ok)
    as (st' & E & Ho & Hs & _).
  exists st'. split; [exact E|]. split; [exact Ho|]. exact (Hs 255 ltac:(lia)).
Defined.
