(* ===== verification/ShellHex.v ===== *)
(** * [hexdump] and [pagetest]

    The layout that the loops of [cmd_hexdump] produce, against a reference that
    cuts the contents into rows of sixteen bytes; and what [pagetest] leaves
    behind. *)

From S2P Require Import Prelude MemLayout Errno CString Bitmap Pmm Buddy Slab SlabThms Kmalloc Task TaskThms Driver Block Ramfs Vfs VfsShape.
From S2P Require Import Console Vga Legacy Reports Shell ShellSys ShellCmds ShellRun ShellThms.

(** ** The reference layout *)

Definition row_address (start : Z) : output :=
  o_for (slen (uitoa_chars start)) 4 (fun _ => o_putc 48) ++ o_str (uitoa_chars start) ++ o_puts ": ".
Definition o_times (n : nat) (o : output) : output := mjoin (replicate n o).

(** One row: address, bytes in hexadecimal, the same bytes as text; a short row is
    filled up. *)
Definition hex_row (start : Z) (bs : list Z) : output :=
  row_address start ++ mjoin (o_hex <$> bs) ++ o_times (16 - length bs) (o_puts "   ") ++
  o_puts "  |" ++ mjoin (o_ascii <$> bs) ++ o_times (16 - length bs) (o_putc 32) ++ o_puts "|\n".

(** [n] full rows of [f] from [start], then the [r] bytes that are left. *)
Fixpoint hex_rows (n : nat) (r start : Z) (f : Z -> Z) : output :=
  match n with
  | O => if r =? 0 then [] else hex_row start (f <$> seqZ start r)
  | S n' => hex_row start (f <$> seqZ start 16) ++ hex_rows n' r (start + 16) f
  end.

Lemma o_for_empty a b f : b <= a -> o_for a b f = [].
Proof. intros. unfold o_for. by rewrite seqZ_nil by lia. Qed.
Lemma o_for_app a b c f : a <= b <= c -> o_for a c f = o_for a b f ++ o_for b c f.
Proof.
  intros Hb. unfold o_for. replace (c - a) with ((b - a) + (c - b)) by lia. rewrite seqZ_app by lia.
  rewrite fmap_app, join_app. by replace (a + (b - a)) with b by lia.
Qed.
Lemma o_for_one a f : o_for a (a + 1) f = f a.
Proof.
  unfold o_for. replace (a + 1 - a) with 1 by lia. change (seqZ a 1) with [0 + a].
  rewrite list_fmap_singleton, Z.add_0_l. cbn [mjoin list_join]. by rewrite app_nil_r.
Qed.
Lemma o_for_fmap a n (f : Z -> Z) g : o_for a (a + n) (fun i => g (f i)) = mjoin (g <$> (f <$> seqZ a n)).
Proof. unfold o_for. replace (a + n - a) with n by lia. by rewrite <- list_fmap_compose. Qed.
Lemma o_for_const a b o : o_for a b (fun _ => o) = o_times (Z.to_nat (b - a)) o.
Proof.
  unfold o_for, o_times, seqZ. f_equal. rewrite <- list_fmap_compose.
  generalize (Z.to_nat (b - a)). intros n. apply list_eq. intros i. rewrite list_lookup_fmap.
  destruct (decide (i < n)%nat).
  - by rewrite lookup_seq_lt, lookup_replicate_2 by lia.
  - by rewrite lookup_seq_ge, (proj1 (lookup_replicate_None _ _ _)) by lia.
Qed.

(** ** The loops *)

Section dump.
Context (buf : Z -> Z).

Definition dump_step (i : Z) : output :=
  (if i mod 16 =? 0 then row_address i else []) ++
  o_hex (buf i) ++
  (if (i + 1) mod 16 =? 0 then
     o_puts "  |" ++ o_for (i - 15) (i + 1) (fun j => o_ascii (buf j)) ++ o_puts "|\n"
   else []).

Lemma hexdump_body_eq n :
  hexdump_body buf n = o_for 0 n dump_step ++
    (if negb (n mod 16 =? 0) then
       let remaining := n mod 16 in
       o_for remaining 16 (fun _ => o_puts "   ") ++ o_puts "  |" ++
       o_for (n - remaining) n (fun i => o_ascii (buf i)) ++
       o_for remaining 16 (fun _ => o_putc 32) ++ o_puts "|\n"
     else []).
Proof. reflexivity. Qed.

(** A row before its last byte. *)
Lemma dump_partial a k :
  a mod 16 = 0 -> 1 <= k <= 15 ->
  o_for a (a + k) dump_step = row_address a ++ mjoin (o_hex <$> (buf <$> seqZ a k)).
Proof.
  intros Ha Hk. assert (Ek : exists n, k = Z.of_nat n) by (exists (Z.to_nat k); lia). destruct Ek as [n ->]. revert Hk.
  induction n as [|n IH]; intros Hk; [lia|]. set (k := Z.of_nat (S n)) in *. destruct (decide (k = 1)) as [->|].
  - rewrite o_for_one. unfold dump_step. rewrite (proj2 (Z.eqb_eq (a mod 16) 0) Ha), (proj2 (Z.eqb_neq ((a + 1) mod 16) 0)) by dlia.
    change (seqZ a 1) with [0 + a]. cbn [fmap list_fmap mjoin list_join]. by rewrite Z.add_0_l, !app_nil_r.
  - rewrite (o_for_app a (a + (k - 1))) by lia. replace (Z.of_nat n) with (k - 1) in IH by lia. rewrite IH by lia.
    replace (a + k) with (a + (k - 1) + 1) by lia. rewrite o_for_one. unfold dump_step.
    rewrite (proj2 (Z.eqb_neq ((a + (k - 1)) mod 16) 0)), (proj2 (Z.eqb_neq ((a + (k - 1) + 1) mod 16) 0)) by dlia.
    rewrite <- !app_assoc. f_equal. replace k with (k - 1 + 1) at 3 by lia. rewrite seqZ_app by lia.
    rewrite !fmap_app, join_app. by f_equal.
Qed.

Lemma dump_full a : a mod 16 = 0 -> o_for a (a + 16) dump_step = hex_row a (buf <$> seqZ a 16).
Proof.
  intros Ha. rewrite (o_for_app a (a + 15)) by lia. rewrite dump_partial by lia.
  replace (a + 16) with (a + 15 + 1) by lia. rewrite o_for_one. unfold dump_step.
  rewrite (proj2 (Z.eqb_neq ((a + 15) mod 16) 0)), (proj2 (Z.eqb_eq ((a + 15 + 1) mod 16) 0)) by dlia.
  unfold hex_row. rewrite length_fmap, length_seqZ. cbn [o_times]. change (16 - Z.to_nat 16)%nat with O.
  assert (Es : seqZ a 16 = seqZ a 15 ++ [a + 15]).
  { change 16 with (15 + 1). rewrite seqZ_app by lia. f_equal. }
  replace (a + 15 - 15) with a by lia. replace (a + 15 + 1) with (a + 16) by lia. rewrite o_for_fmap.
  rewrite Es, !fmap_app, !join_app, <- !app_assoc. reflexivity.
Qed.

Lemma dump_rows n r a :
  a mod 16 = 0 -> 0 <= r < 16 ->
  o_for a (a + 16 * Z.of_nat n + r) dump_step ++
  (if r =? 0 then [] else
     o_for r 16 (fun _ => o_puts "   ") ++ o_puts "  |" ++
     o_for (a + 16 * Z.of_nat n) (a + 16 * Z.of_nat n + r) (fun i => o_ascii (buf i)) ++
     o_for r 16 (fun _ => o_putc 32) ++ o_puts "|\n") =
  hex_rows n r a buf.
Proof.
  intros Ha Hr. revert a Ha. induction n as [|n IH]; intros a Ha; cbn [hex_rows].
  - replace (a + 16 * Z.of_nat 0) with a by lia. destruct (Z.eqb_spec r 0) as [->|].
    + by rewrite o_for_empty by lia.
    + rewrite dump_partial by lia. unfold hex_row. rewrite length_fmap, length_seqZ, !o_for_const, o_for_fmap.
      replace (16 - Z.to_nat r)%nat with (Z.to_nat (16 - r)) by lia. by rewrite <- !app_assoc.
  - rewrite (o_for_app a (a + 16)) by lia. rewrite dump_full, <- app_assoc by done. f_equal.
    rewrite <- (IH (a + 16)) by dlia.
    replace (a + 16 * Z.of_nat (S n)) with (a + 16 + 16 * Z.of_nat n) by lia. reflexivity.
Qed.

(** The loops of [cmd_hexdump] draw the rows. *)
Lemma hexdump_body_rows n : 0 <= n -> hexdump_body buf n = hex_rows (Z.to_nat (n / 16)) (n mod 16) 0 buf.
Proof.
  intros Hn. rewrite hexdump_body_eq, <- dump_rows by (done || apply Z.mod_pos_bound; lia).
  rewrite Z2Nat.id by dlia. replace (0 + 16 * (n / 16) + n mod 16) with n by dlia.
  replace (0 + 16 * (n / 16)) with (n - n mod 16) by dlia. by destruct (n mod 16 =? 0).
Qed.
End dump.

Lemma hex_rows_ext n r start f g :
  0 <= r -> (forall i, start <= i < start + 16 * Z.of_nat n + r -> f i = g i) -> hex_rows n r start f = hex_rows n r start g.
Proof.
  assert (Hseq : forall a k, (forall i, a <= i < a + k -> f i = g i) -> f <$> seqZ a k = g <$> seqZ a k).
  { intros a k Hfg. apply list_fmap_ext. intros i x Hx%list_elem_of_lookup_2%elem_of_seqZ. apply Hfg. lia. }
  intros Hr. revert start. induction n as [|n IH]; intros start Hfg; cbn [hex_rows].
  - by rewrite (Hseq start r) by (intros; apply Hfg; lia).
  - rewrite (Hseq start 16) by (intros; apply Hfg; lia). rewrite IH; [done|]. intros i Hi. apply Hfg. lia.
Qed.

Section hexdump.
Context {W V : Type} `{World W} `{!WorldLaws W}.
Implicit Types st : system W V.

(** C37. [hexdump] of a file.  The command ends and shows the file's bytes in rows of
    sixteen: the address, the bytes in hexadecimal and as text, the last row
    filled up.  Of an empty file it shows nothing: the buffer for no bytes is
    refused, and the command reports that memory is exhausted. *)
Theorem hexdump_shows_rows st (w path bs : list Z) (node q : Z) (h : heap buddy)
    (Hrun : w_running (y_world st) = true) (Hopen : vfs_open (vfs_view st) path = Some node) (Hn : node <> 0)
    (Hdir : is_dir (node_at (y_vfs st) node) = false)
    (Hk : kmalloc (y_heap st) (n_size (node_at (y_vfs st) node)) = (q, h))
    (Hread : vfs_read (vfs_view st) node (n_size (node_at (y_vfs st) node)) = (E_OK, Some bs)) :
  let n := Z.of_nat (length bs) in
  exists st', cmd_hexdump [w; path] st = (Ret tt, st') /\
    (q <> 0 -> y_con st' = y_con st ++ (o_puts "\nHex dump of " ++ o_str path ++ o_puts ":\n\n" ++
       hex_rows (Z.to_nat (n / 16)) (n mod 16) 0 (nthz bs) ++ o_puts "\n")) /\
    (n_size (node_at (y_vfs st) node) = 0 -> y_con st' = y_con st ++ [CPerror (lit "Out of memory\n")]).
Proof.
  cbv zeta. edestruct (ends_run (cmd_hexdump [w; path]) st (fun _ st' =>
    (q <> 0 -> y_con st' = y_con st ++ (o_puts "\nHex dump of " ++ o_str path ++ o_puts ":\n\n" ++
       hex_rows (Z.to_nat (Z.of_nat (length bs) / 16)) (Z.of_nat (length bs) mod 16) 0 (nthz bs) ++ o_puts "\n")) /\
    (n_size (node_at (y_vfs st) node) = 0 -> y_con st' = y_con st ++ [CPerror (lit "Out of memory\n")])))
    as ([] & st' & E & HQ); [|eauto].
  unfold cmd_hexdump. change (argc [w; path] <? 2) with false. cbv iota. change (arg [w; path] 1) with path.
  unfold sh_open. sh_steps. rewrite Hopen. sh_steps. rewrite (proj2 (Z.eqb_neq _ 0) Hn).
  unfold file_node. sh_steps. rewrite Hdir. sh_steps. eapply ends_heap; [exact Hk|].
  destruct (Z.eqb_spec q 0) as [->|Hq].
  { sh_steps. unfold perror. sh_steps. unfold sh_close. sh_steps. by split. }
  assert (Hsz : n_size (node_at (y_vfs st) node) <> 0).
  { intros E0. rewrite E0 in Hk. injection Hk as Hq0 _. by apply Hq. }
  unfold vfs_read_to. sh_steps.
  change (vfs_read (vfs_view (set_heap h st)) node (n_size (node_at (y_vfs st) node)))
    with (vfs_read (vfs_view st) node (n_size (node_at (y_vfs st) node))).
  rewrite Hread. sh_steps. unfold ends at 1, store_bytes. sh_steps. cbn [is_ok negb]. sh_steps.
  eapply ends_heap; [reflexivity|]. unfold sh_close. sh_steps. split; [intros _|done].
  cbn [y_con y_world set_heap told say snd set_y_world].
  rewrite !w_get_set by (rewrite ?w_set_running; exact Hrun). set (m := wr_list _ q bs).
  rewrite hexdump_body_rows by lia. rewrite (hex_rows_ext _ _ 0 (fun i => rd m (q + i)) (nthz bs)).
  - reflexivity.
  - apply Z.mod_pos_bound. lia.
  - intros i Hi. rewrite Z2Nat.id in Hi by dlia. destruct (lookup_lt_is_Some_2 bs (Z.to_nat i)) as [b Hb]; [dlia|].
    replace i with (Z.of_nat (Z.to_nat i)) at 1 by lia. unfold nthz. rewrite Hb.
    apply (bytes_at_lookup m q bs); [apply wr_list_spec|done].
Qed.
End hexdump.

(** The system with the five bytes of [hello] in [/a]. *)
Definition hello_system : system mem nat :=
  mkSystem [] [] (h_slab (v_heap vfs_hello)) pmm_boot (mkLegacy None ∅) vfs_hello boot3 (mkReg ∅ [] 0) (mkBlk ∅ None)
    (kmem (v_heap vfs_hello)).
Definition hello_buffer : Z * heap buddy := kmalloc (y_heap hello_system) (n_size (node_at (y_vfs hello_system) node_a)).
Lemma hello_buffer_eq :
  kmalloc (y_heap hello_system) (n_size (node_at (y_vfs hello_system) node_a)) = (fst hello_buffer, snd hello_buffer).
Proof. unfold hello_buffer. apply surjective_pairing. Qed.
Lemma hello_facts :
  vfs_open (vfs_view hello_system) (str "/a") = Some node_a /\ node_a <> 0 /\
  is_dir (node_at (y_vfs hello_system) node_a) = false /\ fst hello_buffer <> 0 /\
  vfs_read (vfs_view hello_system) node_a (n_size (node_at (y_vfs hello_system) node_a)) = (E_OK, Some (str "hello")).
Proof. vm_compute. split_and!; try discriminate; reflexivity. Qed.

Lemma hexdump_shows_rows_witness :
  exists st', cmd_hexdump [str "hexdump"; str "/a"] hello_system = (Ret tt, st') /\
    text_of (y_con st') = lit "\nHex dump of /a:\n\n0000: 68 65 6C 6C 6F                                    |hello           |\n\n".
Proof.
  destruct hello_facts as (H1 & H2 & H3 & H4 & H5).
  pose proof (hexdump_shows_rows hello_system (str "hexdump") (str "/a") (str "hello") node_a (fst hello_buffer) (snd hello_buffer)
    eq_refl H1 H2 H3 hello_buffer_eq H5) as (st' & E & Ho & _).
  exists st'. split; [exact E|]. rewrite (Ho H4). vm_compute. reflexivity.
Defined.

(** ** [pagetest] *)

Lemma kalloc_page_used s p s' :
  pmm_inv s -> kalloc_pages s 1 = (p, s') -> p <> 0 -> pmm_inv s' /\ used_pages s' = used_pages s + 1.
Proof.
  intros Hinv Hk Hp. unfold kalloc_pages, pmm_alloc_pages in Hk. cbn [Z.eqb Pos.eqb] in Hk.
  unfold pmm_alloc_page in Hk. rewrite (inv_total s Hinv) in Hk.
  destruct (find_range 0 TOTAL_PAGES _) as [i|] eqn:Hf; [|injection Hk as <- <-; done].
  apply find_range_Some in Hf as (Hi & Hfree & _). apply negb_true_iff in Hfree.
  destruct (set_page_used_inv s i Hinv Hi Hfree) as [Hinv' Hu].
  destruct (page_to_addr i =? 0); injection Hk as <- <-; done.
Qed.

Section pagetest.
Context {W V : Type} `{World W}.
Implicit Types st : system W V.

Lemma ends_pmm {A} (f : pmm -> A * pmm) st a p Q :
  f (y_pmm st) = (a, p) -> Q a (set_y_pmm p st) -> ends (pmm_op f) st Q.
Proof. intros E HQ. unfold ends, pmm_op. by rewrite E. Qed.

(** Computations that end and leave the physical memory manager alone. *)
Definition keeps_pmm {A} (m : sh W V A) : Prop := forall st, ends m st (fun _ st' => y_pmm st' = y_pmm st).

Lemma pmm_keeps_bind {A B} (m : sh W V A) (k : A -> sh W V B) :
  keeps_pmm m -> (forall a, keeps_pmm (k a)) -> keeps_pmm (m ≫= k).
Proof.
  intros Hm Hk st. apply ends_bind. eapply ends_mono; [apply Hm|]. intros a st' <-. apply Hk.
Qed.
Lemma pmm_keeps_say o : keeps_pmm (say o).
Proof. done. Qed.
Lemma pmm_keeps_gets {A} (f : system W V -> A) : keeps_pmm (gets f).
Proof. done. Qed.
Lemma pmm_keeps_heap {A} (f : heap buddy -> A * heap buddy) : keeps_pmm (heap_op f).
Proof. intros st. unfold ends, heap_op. by destruct (f (y_heap st)). Qed.
Lemma pmm_keeps_store p v : keeps_pmm (store p v).
Proof. done. Qed.
Lemma pmm_keeps_puts_in c s : keeps_pmm (puts_in c s).
Proof. done. Qed.

(** [pagetest] takes pages from the physical memory manager and gives them to the
    buddy allocator, which does not own them.  After every successful run of
    the command three more pages are in use for good. *)
Theorem pagetest_leaks_pages st (argv : list (list Z)) (p1 p2 p3 : Z) (s1 s2 s3 : pmm) (Hinv : pmm_inv (y_pmm st))
    (H1 : kalloc_pages (y_pmm st) 1 = (p1, s1)) (H2 : kalloc_pages s1 1 = (p2, s2)) (H3 : kalloc_pages s2 1 = (p3, s3))
    (Hp1 : p1 <> 0) (Hp2 : p2 <> 0) (Hp3 : p3 <> 0) :
  exists st', cmd_pagetest argv st = (Ret tt, st') /\ y_pmm st' = s3 /\
    used_pages (y_pmm st') = used_pages (y_pmm st) + 3.
Proof.
  destruct (kalloc_page_used _ _ _ Hinv H1 Hp1) as [Hi1 Hu1].
  destruct (kalloc_page_used _ _ _ Hi1 H2 Hp2) as [Hi2 Hu2]. destruct (kalloc_page_used _ _ _ Hi2 H3 Hp3) as [_ Hu3].
  assert (Hends : ends (cmd_pagetest argv) st (fun _ st' => y_pmm st' = s3)).
  { unfold cmd_pagetest, page_line, report. sh_steps. eapply ends_pmm; [exact H1|]. sh_steps.
    eapply ends_pmm; [exact H2|]. sh_steps. eapply ends_pmm; [exact H3|].
    rewrite !(proj2 (Z.eqb_neq _ 0)) by done. cbn [andb negb].
    match goal with |- ends ?m ?s0 _ => assert (Hkeep : keeps_pmm m); [|exact (Hkeep s0)] end.
    repeat first [apply pmm_keeps_bind; [|intros ?] | apply pmm_keeps_say | apply pmm_keeps_gets | apply pmm_keeps_heap
                 | apply pmm_keeps_store | apply pmm_keeps_puts_in | case_match]. }
  destruct (ends_run _ _ _ Hends) as ([] & st' & E & Hst). exists st'. rewrite Hst. split_and!; [done|done|lia].
Qed.
End pagetest.

Definition page_a : Z * pmm := kalloc_pages pmm_boot 1.
Definition page_b : Z * pmm := kalloc_pages (snd page_a) 1.
Definition page_c : Z * pmm := kalloc_pages (snd page_b) 1.

Lemma pages_facts : fst page_a <> 0 /\ fst page_b <> 0 /\ fst page_c <> 0.
Proof. vm_compute. split_and!; discriminate. Qed.

Lemma page_a_eq : kalloc_pages (y_pmm demo_system) 1 = (fst page_a, snd page_a).
Proof. change (y_pmm demo_system) with pmm_boot. unfold page_a. apply surjective_pairing. Qed.
Lemma page_b_eq : kalloc_pages (snd page_a) 1 = (fst page_b, snd page_b).
Proof. unfold page_b. apply surjective_pairing. Qed.
Lemma page_c_eq : kalloc_pages (snd page_b) 1 = (fst page_c, snd page_c).
Proof. unfold page_c. apply surjective_pairing. Qed.

Lemma pagetest_leaks_pages_witness :
  exists st', cmd_pagetest [str "pagetest"] demo_system = (Ret tt, st') /\ y_pmm st' = snd page_c /\
    used_pages (y_pmm st') = used_pages (y_pmm demo_system) + 3.
Proof.
  destruct pages_facts as (Ha & Hb & Hc).
  exact (pagetest_leaks_pages demo_system [str "pagetest"] (fst page_a) (fst page_b) (fst page_c) (snd page_a) (snd page_b)
    (snd page_c) (proj1 pmm_boot_facts) page_a_eq page_b_eq page_c_eq
    Ha Hb Hc).
Defined.
