(* ===== verification/ShellEdit.v ===== *)
(** * The line editor of the shell: shell/shell.c ([shell_handle_char])

    The static buffer and its position refine a plain list of characters. *)

From S2P Require Import Prelude Errno CString Buddy Slab SlabThms Kmalloc Task Ramfs Vfs.
From S2P Require Import Console Vga Reports Shell ShellSys ShellCmds ShellRun ShellThms.

(** The line typed so far. *)
Definition content (e : line_editor) : list Z := take (Z.to_nat (cmd_pos e)) (cmd_buffer e).

Record editor_ok (e : line_editor) : Prop := {
  eo_size : length (cmd_buffer e) = 256%nat;
  eo_pos : 0 <= cmd_pos e <= 255;
  eo_text : Forall (fun c => c <> 0) (content e);
}.

Lemma length_content e : editor_ok e -> Z.of_nat (length (content e)) = cmd_pos e.
Proof. intros [Hs Hp _]. unfold content. rewrite length_take. lia. Qed.

Lemma content_append e c t :
  editor_ok e -> cmd_pos e < 255 -> content (mkEditor t (updz (cmd_buffer e) (cmd_pos e) c) (cmd_pos e + 1)) = content e ++ [c].
Proof.
  intros [Hs Hp _] Hlt. unfold content, updz. cbn [cmd_pos cmd_buffer].
  replace (Z.to_nat (cmd_pos e + 1)) with (S (Z.to_nat (cmd_pos e))) by lia.
  rewrite (take_S_r _ _ c) by (apply list_lookup_insert_eq; lia). by rewrite take_insert_ge by lia.
Qed.

Lemma content_drop e t :
  editor_ok e -> 0 < cmd_pos e ->
  content (mkEditor t (updz (cmd_buffer e) (cmd_pos e - 1) 0) (cmd_pos e - 1)) = take (length (content e) - 1) (content e).
Proof.
  intros Hok Hlt. pose proof (length_content e Hok). unfold content at 1, updz. cbn [cmd_pos cmd_buffer].
  rewrite take_insert_ge by lia. unfold content at 2. rewrite take_take. f_equal. lia.
Qed.

Lemma empty_editor_ok t : editor_ok (mkEditor t (replicate 256 0) 0).
Proof. split; [done|cbn; lia|constructor]. Qed.

Section editor.
Context {W V : Type} `{World W}.
Context (i0 : Z) (beyond : list Z) (resume : system W V -> system W V) (tree_fuel : nat).
Implicit Types st : system W V.

Abbreviation run_argv := (run_argv i0 beyond resume tree_fuel).

(** Editing: a character is appended while there is room; a backspace removes the
    last one unless it comes within [BACKSPACE_DELAY_TICKS] of the previous. *)
Definition edit (now : Z) (e : line_editor) (c : Z) : list Z :=
  let t := content e in
  if c =? 8 then
    if u64 (now - last_backspace_time e) <? BACKSPACE_DELAY_TICKS then t else take (length t - 1) t
  else if Z.of_nat (length t) <? 255 then t ++ [c] else t.

(** What Enter does with a line. *)
Definition enter (t : list Z) : sh W V unit :=
  match words t with [] => putc 10 | _ => run_argv (words t) end ;; shell_print_prompt.

Lemma execute_command_spec e st :
  editor_ok e -> Z.of_nat (length (words (content e))) < MAX_ARGS ->
  exists e', editor_ok e' /\ content e' = [] /\
    shell_execute_command i0 beyond resume tree_fuel e st = (enter (content e) ;; mret e') st.
Proof.
  intros Hok Hw. pose proof (length_content e Hok) as Hl. pose proof Hok as [Hs Hp Ht]. unfold shell_execute_command, enter.
  destruct (Z.eqb_spec (cmd_pos e) 0) as [E0|E0].
  - exists (mkEditor (last_backspace_time e) (updz (cmd_buffer e) (cmd_pos e) 0) (cmd_pos e)).
    assert (Hc : content e = []) by (unfold content; by rewrite E0). rewrite Hc. split_and!; [|by unfold content; cbn; rewrite E0|done].
    split; cbn; [by rewrite length_updz|lia|]. unfold content. cbn. rewrite E0. constructor.
  - exists (clear_line e). split; [apply empty_editor_ok|]. split; [done|].
    assert (Hb : updz (cmd_buffer e) (cmd_pos e) 0 = content e ++ 0 :: drop (S (Z.to_nat (cmd_pos e))) (cmd_buffer e)).
    { unfold updz. rewrite insert_take_drop by lia. done. }
    rewrite Hb. change MAX_ARGS with (Z.of_nat 16) in *. rewrite parse_args_ref by done.
    destruct (ref_args_words 15 (content e)) as [[_ Er]|(c & r & _ & Hc & Hwd & _)].
    + rewrite Er. unfold argc. destruct (words (content e)) as [|w ws]; [done|]. cbn [length].
      rewrite (proj2 (Z.eqb_neq _ 0)) by lia. rewrite !sh_bind_eq. destruct (run_argv (w :: ws) st) as [[[]|] st']; done.
    + exfalso. rewrite drop_ge, words_word in Hwd by (done || lia). discriminate.
Qed.

(** C36. One key.  The buffer stays within its 256 bytes; a key that is not Enter edits
    the line and touches nothing but the console; Enter runs the line's words
    (fewer than sixteen of them), prompts, and leaves an empty line. *)
Theorem shell_handle_char_refines e (c : Z) st (Hok : editor_ok e) (Hc : c <> 0)
    (Hw : Z.of_nat (length (words (content e))) < MAX_ARGS) :
  exists e', editor_ok e' /\
    (c <> 10 -> content e' = edit (pit_ticks (y_sched st)) e c /\
       exists o, shell_handle_char i0 beyond resume tree_fuel e c st = (Ret e', told st o)) /\
    (c = 10 -> content e' = [] /\
       shell_handle_char i0 beyond resume tree_fuel e c st = (enter (content e) ;; mret e') st).
Proof.
  assert (Hnil : st = told st []).
  { unfold told, say. cbn. rewrite app_nil_r. by destruct st. }
  pose proof (length_content e Hok) as Hl. unfold shell_handle_char.
  destruct (Z.eqb_spec c 10) as [->|Hn10].
  { destruct (execute_command_spec e st Hok Hw) as (e' & H1 & H2 & H3). by exists e'. }
  unfold edit. destruct (Z.eqb_spec c 8) as [->|Hn8].
  - unfold pit_get_ticks. rewrite sh_bind_eq. cbn [gets]. unfold gets.
    set (now := pit_ticks (y_sched st)). destruct (_ <? _) eqn:Esoon.
    { exists e. split; [done|]. split; [|done]. intros _. split; [done|]. exists []. by rewrite <- Hnil. }
    destruct (Z.ltb_spec 0 (cmd_pos e)) as [Hpos|Hpos].
    + exists (mkEditor now (updz (cmd_buffer e) (cmd_pos e - 1) 0) (cmd_pos e - 1)).
      pose proof (content_drop e now Hok Hpos) as Hcd. split; [|split; [|done]].
      * destruct Hok as [Hs Hp Ht]. split; cbn; [by rewrite length_updz|lia|]. rewrite Hcd. by apply Forall_take.
      * intros _. split; [done|]. by exists [CBackspace 1].
    + exists e. split; [done|]. split; [|done]. intros _. split.
      * assert (content e = []) as -> by (apply nil_length_inv; lia). done.
      * exists []. by rewrite <- Hnil.
  - change (CMD_BUFFER_SIZE - 1) with 255. rewrite Hl. destruct (Z.ltb_spec (cmd_pos e) 255) as [Hlt|Hge].
    + exists (mkEditor (last_backspace_time e) (updz (cmd_buffer e) (cmd_pos e) c) (cmd_pos e + 1)).
      pose proof (content_append e c (last_backspace_time e) Hok Hlt) as Hca. split; [|split; [|done]].
      * destruct Hok as [Hs Hp Ht]. split; cbn; [by rewrite length_updz|lia|]. rewrite Hca. apply Forall_app. split; [done|].
        by constructor.
      * intros _. split; [done|]. exists []. by rewrite <- Hnil.
    + exists e. split; [done|]. split; [|done]. intros _. split; [done|]. exists []. by rewrite <- Hnil.
Qed.
End editor.

Definition typed_ls : line_editor := mkEditor 0 (str "lx" ++ replicate 254 0) 2.
Lemma typed_ls_ok : editor_ok typed_ls.
Proof. split; [done|cbn; lia|]. by apply (bool_decide_unpack _). Qed.

(** A key at a moment well after the last backspace. *)
Lemma shell_handle_char_refines_witness :
  exists e', editor_ok e' /\ content e' = str "lxs" /\
    exists o, shell_handle_char 0 [] id 8 typed_ls 115 demo_system = (Ret e', told demo_system o).
Proof.
  destruct (shell_handle_char_refines 0 [] id 8 typed_ls 115 demo_system typed_ls_ok ltac:(lia) ltac:(by vm_compute))
    as (e' & H1 & H2 & _).
  destruct (H2 ltac:(lia)) as [H3 H4]. exists e'. split; [exact H1|]. split; [exact H3|exact H4].
Defined.
