(* ===== verification/Nvme.v ===== *)
(** * NVMe driver: drivers/disks/nvme.h, drivers/disks/nvme.c (definitions)

    The controller is reached in three ways: configuration ports (a [PortBus]),
    memory-mapped registers, and memory that it reads and writes by itself.
    [NvmeRegs] is the interface of whatever is there; [mm_dma] is what the
    devices do to memory between two looks of the program at it.  Memory is
    keyed by kernel virtual address.  A queue is selected by [is_admin], which
    every call of the source passes together with the matching queue.  A
    command built on the heap is written field by field into the memory that
    [kmalloc] gave for it, and read from there.  Console and debug output is left out. *)

From S2P Require Import Prelude MemLayout Errno CString Bitmap Pmm Buddy Slab SlabThms Kmalloc Task Ports Driver Block Vmm.

Definition PCI_CONFIG_ADDRESS : Z := 0xCF8.
Definition PCI_CONFIG_DATA : Z := 0xCFC.
Definition PCI_COMMAND : Z := 0x04.
Definition PCI_BAR0 : Z := 0x10.
Definition PCI_BAR1 : Z := 0x14.
Definition PCI_COMMAND_MEMORY : Z := 0x02.
Definition PCI_COMMAND_MASTER : Z := 0x04.

Definition NVME_REG_CAP : Z := 0x00.
Definition NVME_REG_CC : Z := 0x14.
Definition NVME_REG_CSTS : Z := 0x1C.
Definition NVME_REG_AQA : Z := 0x24.
Definition NVME_REG_ASQ : Z := 0x28.
Definition NVME_REG_ACQ : Z := 0x30.
Definition NVME_CC_ENABLE : Z := Z.shiftl 1 0.
Definition NVME_CC_CSS_NVM : Z := Z.shiftl 0 4.
Definition NVME_CC_AMS_RR : Z := Z.shiftl 0 11.
Definition NVME_CC_SHN_NONE : Z := Z.shiftl 0 14.
Definition NVME_CC_IOSQES : Z := Z.shiftl 6 16.
Definition NVME_CC_IOCQES : Z := Z.shiftl 4 20.
Definition NVME_CSTS_RDY : Z := Z.shiftl 1 0.
Definition NVME_CSTS_CFS : Z := Z.shiftl 1 1.
Definition NVME_ADMIN_QUEUE_SIZE : Z := 64.
Definition NVME_IO_QUEUE_SIZE : Z := 1024.
Definition NVME_MAX_NAMESPACES : Z := 16.
Definition NVME_ADMIN_CREATE_SQ : Z := 0x01.
Definition NVME_ADMIN_CREATE_CQ : Z := 0x05.
Definition NVME_ADMIN_IDENTIFY : Z := 0x06.
Definition NVME_CMD_READ : Z := 0x02.
Definition NVME_CMD_WRITE : Z := 0x01.
Definition NVME_IDENTIFY_NAMESPACE : Z := 0x00.
Definition NVME_IDENTIFY_CONTROLLER : Z := 0x01.
Definition NVME_SC_SUCCESS : Z := 0.

Record nvme_sq_entry_t := mkSqe {
  cdw0 : Z; nsid : Z; sq_reserved : Z; mptr : Z; prp1 : Z; prp2 : Z;
  cdw10 : Z; cdw11 : Z; cdw12 : Z; cdw13 : Z; cdw14 : Z; cdw15 : Z;
}.

Record nvme_queue_pair_t := mkQp {
  qp_sq : Z; qp_cq : Z; sq_phys : Z; cq_phys : Z; sq_tail : Z; cq_head : Z; sq_size : Z; cq_size : Z; cq_phase : Z;
}.

Record nvme_controller_t := mkCtrl {
  bar0 : Z; admin_queue : nvme_queue_pair_t; io_queue : nvme_queue_pair_t;
  num_namespaces : Z; max_transfer_size : Z; command_id : Z;
}.

Definition sizeof_sq_entry : Z := 64.
Definition sizeof_cq_entry : Z := 16.
Definition sizeof_identify_controller : Z := 1864.
Definition sizeof_identify_namespace : Z := 4096.

(** The memory image of a command: packed, little endian. *)
Fixpoint le_bytes (n : nat) (v : Z) : list Z :=
  match n with O => [] | S n' => v mod 256 :: le_bytes n' (v / 256) end.
Definition sqe_bytes (e : nvme_sq_entry_t) : list Z :=
  le_bytes 4 (cdw0 e) ++ le_bytes 4 (nsid e) ++ le_bytes 8 (sq_reserved e) ++ le_bytes 8 (mptr e) ++
  le_bytes 8 (prp1 e) ++ le_bytes 8 (prp2 e) ++ le_bytes 4 (cdw10 e) ++ le_bytes 4 (cdw11 e) ++
  le_bytes 4 (cdw12 e) ++ le_bytes 4 (cdw13 e) ++ le_bytes 4 (cdw14 e) ++ le_bytes 4 (cdw15 e).

Class NvmeRegs (D : Type) := {
  mm_read32 : Z -> D -> Z * D;
  mm_write32 : Z -> Z -> D -> D;
  mm_read64 : Z -> D -> Z * D;
  mm_write64 : Z -> Z -> D -> D;
  mm_dma : D -> mem -> D * mem;
}.

(** What the driver works on; [nw_irq] is the interrupt flag of the processor. *)
Record nvme_world (D : Type) := mkNw { nw_dev : D; nw_heap : heap buddy; nw_ctrl : nvme_controller_t; nw_irq : bool }.
Arguments mkNw {D}. Arguments nw_dev {D}. Arguments nw_heap {D}. Arguments nw_ctrl {D}. Arguments nw_irq {D}.

#[export] Instance nvme_world_bus D : HasBus (nvme_world D) D := {|
  get_bus := nw_dev; set_bus d w := mkNw d (nw_heap w) (nw_ctrl w) (nw_irq w) |}.

Definition get_qp (c : nvme_controller_t) (is_admin : bool) : nvme_queue_pair_t :=
  if is_admin then admin_queue c else io_queue c.
Definition set_qp (c : nvme_controller_t) (is_admin : bool) (qp : nvme_queue_pair_t) : nvme_controller_t :=
  if is_admin then mkCtrl (bar0 c) qp (io_queue c) (num_namespaces c) (max_transfer_size c) (command_id c)
  else mkCtrl (bar0 c) (admin_queue c) qp (num_namespaces c) (max_transfer_size c) (command_id c).

Section driver.
Context {D : Type} `{PortBus D} `{NvmeRegs D}.

Abbreviation world := (nvme_world D).
Abbreviation nv := (io world).

(** *** State access *)

Definition nv_get {A} (f : world -> A) : nv A := fun w => Some (f w, w).
Definition nv_heap {A} (f : heap buddy -> A * heap buddy) : nv A := fun w =>
  let '(a, h) := f (nw_heap w) in Some (a, mkNw (nw_dev w) h (nw_ctrl w) (nw_irq w)).
Definition nv_mem (f : mem -> mem) : nv unit := nv_heap (fun h => (tt, with_kmem h (f (kmem h)))).
Definition nv_ctrl (f : nvme_controller_t -> nvme_controller_t) : nv unit := fun w =>
  Some (tt, mkNw (nw_dev w) (nw_heap w) (f (nw_ctrl w)) (nw_irq w)).
(** [idt_disable_interrupts] and [idt_enable_interrupts]. *)
Definition nv_interrupts (on : bool) : nv unit := fun w => Some (tt, mkNw (nw_dev w) (nw_heap w) (nw_ctrl w) on).
(** The devices run. *)
Definition nv_dma : nv unit := fun w =>
  let '(d, m) := mm_dma (nw_dev w) (kmem (nw_heap w)) in Some (tt, mkNw d (with_kmem (nw_heap w) m) (nw_ctrl w) (nw_irq w)).

(** *** Registers *)

Definition reg_addr (w : world) (offset : Z) : Z := u64 (bar0 (nw_ctrl w) + offset).

Definition nvme_read32 (offset : Z) : nv Z := fun w =>
  let '(v, d) := mm_read32 (reg_addr w offset) (nw_dev w) in Some (u32 v, set_bus d w).
Definition nvme_write32 (offset value : Z) : nv unit := fun w =>
  Some (tt, set_bus (mm_write32 (reg_addr w offset) (u32 value) (nw_dev w)) w).
Definition nvme_read64 (offset : Z) : nv Z := fun w =>
  let '(v, d) := mm_read64 (reg_addr w offset) (nw_dev w) in Some (u64 v, set_bus d w).
Definition nvme_write64 (offset value : Z) : nv unit := fun w =>
  Some (tt, set_bus (mm_write64 (reg_addr w offset) (u64 value) (nw_dev w)) w).

(** *** Configuration space *)

Definition pci_get_address (bus slot func offset : Z) : Z :=
  u32 (Z.lor (Z.lor (Z.lor (Z.lor (Z.shiftl bus 16) (Z.shiftl slot 11)) (Z.shiftl func 8)) (Z.land offset 0xFC)) 0x80000000).

Definition pci_read_config (bus slot func offset : Z) : nv Z :=
  outl PCI_CONFIG_ADDRESS (pci_get_address bus slot func offset) ;;; inl PCI_CONFIG_DATA.
Definition pci_write_config (bus slot func offset value : Z) : nv unit :=
  outl PCI_CONFIG_ADDRESS (pci_get_address bus slot func offset) ;;; outl PCI_CONFIG_DATA value.

(** The test of one slot: does it hold an NVMe controller? *)
Definition nvme_probe (b s : Z) : nv bool :=
  nv_interrupts false ;;;
  let! vendor_device := pci_read_config b s 0 0x00 in
  nv_interrupts true ;;;
  let vendor := Z.land vendor_device 0xFFFF in
  if (vendor =? 0xFFFF) || (vendor =? 0) then io_ret false
  else
    nv_interrupts false ;;;
    let! class_reg := pci_read_config b s 0 0x08 in
    nv_interrupts true ;;;
    let class_code := Z.land (Z.shiftr class_reg 24) 0xFF in
    let subclass := Z.land (Z.shiftr class_reg 16) 0xFF in
    let prog_if := Z.land (Z.shiftr class_reg 8) 0xFF in
    io_ret ((class_code =? 1) && (subclass =? 8) && (prog_if =? 2)).

(** Both loops: the slot number is [32 * b + s]. *)
Fixpoint nvme_scan (n : nat) (i : Z) : nv (option (Z * Z * Z)) :=
  match n with
  | O => io_ret None
  | Datatypes.S n' =>
      let! found := nvme_probe (i / 32) (i mod 32) in
      if (found : bool) then io_ret (Some (i / 32, i mod 32, 0)) else nvme_scan n' (i + 1)
  end.

Definition nvme_find_controller : nv (option (Z * Z * Z)) :=
  let! _test := pci_read_config 0 0 0 0 in nvme_scan (Z.to_nat (256 * 32)) 0.

(** *** Queues *)

Definition pages_for (bytes : Z) : Z := (bytes + PAGE_SIZE - 1) / PAGE_SIZE.

Definition nvme_init_queue_pair (is_admin : bool) (sqs cqs : Z) : nv kerr_t :=
  let sq_bytes := sqs * sizeof_sq_entry in
  let cq_bytes := cqs * sizeof_cq_entry in
  let! sq := nv_heap (fun h => kmalloc_pages h (pages_for sq_bytes)) in
  let! old := nv_get (fun w => get_qp (nw_ctrl w) is_admin) in
  let qp := mkQp sq (qp_cq old) (sq_phys old) (cq_phys old) (sq_tail old) (cq_head old) (sq_size old) (cq_size old) (cq_phase old) in
  nv_ctrl (fun c => set_qp c is_admin qp) ;;;
  if sq =? 0 then io_ret E_NOMEM
  else
    nv_mem (fun m => memset m sq 0 (Z.to_nat sq_bytes)) ;;;
    let! cq := nv_heap (fun h => kmalloc_pages h (pages_for cq_bytes)) in
    let sqp := VIRT_TO_PHYS sq in
    if cq =? 0 then
      nv_ctrl (fun c => set_qp c is_admin
        (mkQp sq cq sqp (cq_phys old) (sq_tail old) (cq_head old) (sq_size old) (cq_size old) (cq_phase old))) ;;;
      nv_heap (fun h => (tt, kfree_pages h sq (pages_for sq_bytes))) ;;;
      io_ret E_NOMEM
    else
      nv_mem (fun m => memset m cq 0 (Z.to_nat cq_bytes)) ;;;
      let cqp := VIRT_TO_PHYS cq in
      nv_ctrl (fun c => set_qp c is_admin (mkQp sq cq sqp cqp 0 0 sqs cqs 1)) ;;;
      if negb (Z.land sqp (PAGE_SIZE - 1) =? 0) then io_ret E_INVALID
      else if negb (Z.land cqp (PAGE_SIZE - 1) =? 0) then io_ret E_INVALID
      else io_ret E_OK.

Definition set_tail (qp : nvme_queue_pair_t) (t : Z) : nvme_queue_pair_t :=
  mkQp (qp_sq qp) (qp_cq qp) (sq_phys qp) (cq_phys qp) t (cq_head qp) (sq_size qp) (cq_size qp) (cq_phase qp).
Definition set_head (qp : nvme_queue_pair_t) (hd phase : Z) : nvme_queue_pair_t :=
  mkQp (qp_sq qp) (qp_cq qp) (sq_phys qp) (cq_phys qp) (sq_tail qp) hd (sq_size qp) (cq_size qp) phase.

Definition sq_doorbell (is_admin : bool) : Z := if is_admin then 0x1000 else 0x1000 + 2 * 4.
Definition cq_doorbell (is_admin : bool) : Z := if is_admin then 0x1000 + 4 else 0x1000 + 2 * 4 + 4.

(** [cmd] is the image of the command. *)
Definition nvme_submit_command (is_admin : bool) (cmd : list Z) : nv unit :=
  let! qp := nv_get (fun w => get_qp (nw_ctrl w) is_admin) in
  nv_mem (fun m => wr_list m (qp_sq qp + sizeof_sq_entry * sq_tail qp) cmd) ;;;
  let tail := (sq_tail qp + 1) mod sq_size qp in
  nv_ctrl (fun c => set_qp c is_admin (set_tail qp tail)) ;;;
  nvme_write32 (sq_doorbell is_admin) tail.

(** [while (timeout--)]: one look at the completion queue per round. *)
Fixpoint wait_completion (timeout : nat) (is_admin : bool) (cid : Z) : nv kerr_t :=
  match timeout with
  | O => io_ret E_TIMEOUT
  | Datatypes.S timeout' =>
      nv_dma ;;;
      let! qp := nv_get (fun w => get_qp (nw_ctrl w) is_admin) in
      let cqe := qp_cq qp + sizeof_cq_entry * cq_head qp in
      let! status_word := nv_get (fun w => rd_le (kmem (nw_heap w)) (cqe + 14) 2) in
      let! cqe_cid := nv_get (fun w => rd_le (kmem (nw_heap w)) (cqe + 12) 2) in
      if (Z.land status_word 1 =? cq_phase qp) && (cqe_cid =? cid) then
        let status := Z.land (Z.shiftr status_word 1) 0x7FF in
        let head := (cq_head qp + 1) mod cq_size qp in
        let phase := if head =? 0 then (if cq_phase qp =? 0 then 1 else 0) else cq_phase qp in
        nv_ctrl (fun c => set_qp c is_admin (set_head qp head phase)) ;;;
        nvme_write32 (cq_doorbell is_admin) head ;;;
        io_ret (if status =? NVME_SC_SUCCESS then E_OK else E_HARDWARE)
      else wait_completion timeout' is_admin cid
  end.

Definition nvme_wait_completion (is_admin : bool) (cid : Z) : nv kerr_t :=
  wait_completion (Z.to_nat 5000000) is_admin cid.

(** [ctrl->command_id++], a [uint16_t]. *)
Definition next_cid : nv Z :=
  let! id := nv_get (fun w => command_id (nw_ctrl w)) in
  nv_ctrl (fun c => mkCtrl (bar0 c) (admin_queue c) (io_queue c) (num_namespaces c) (max_transfer_size c) (u16 (id + 1))) ;;;
  io_ret id.

(** [cmd->cdw0 = opcode; cmd->cdw0 |= id << 16;] and what is later taken out of it. *)
Definition make_cdw0 (opcode id : Z) : Z := u32 (Z.lor opcode (Z.shiftl id 16)).
Definition cdw0_cid (c : Z) : Z := Z.land (Z.shiftr c 16) 0xFFFF.

(** Submit the 64 bytes at [cmd] and wait for the completion of [c]. *)
Definition run_admin (cmd c : Z) : nv kerr_t :=
  let! m := nv_get (fun w => kmem (nw_heap w)) in
  nvme_submit_command true ((fun i => rd m (cmd + i)) <$> seqZ 0 sizeof_sq_entry) ;;;
  nvme_wait_completion true (cdw0_cid c).

(** [kmalloc(sizeof(nvme_sq_entry_t* ))]: room for a pointer. *)
Definition nvme_create_io_cq : nv kerr_t :=
  let! cmd := nv_heap (fun h => kmalloc h sizeof_ptr) in
  let! id := next_cid in
  let c := make_cdw0 NVME_ADMIN_CREATE_CQ id in
  let! qp := nv_get (fun w => io_queue (nw_ctrl w)) in
  nv_mem (fun m => wr_le m cmd c 4) ;;;
  nv_mem (fun m => wr_le m (cmd + 24) (cq_phys qp) 8) ;;;
  nv_mem (fun m => wr_le m (cmd + 40) (u32 (Z.lor (Z.shiftl (cq_size qp - 1) 16) 1)) 4) ;;;
  nv_mem (fun m => wr_le m (cmd + 44) 1 4) ;;;
  run_admin cmd c.

Definition nvme_create_io_sq : nv kerr_t :=
  let! cmd := nv_heap (fun h => kmalloc h sizeof_ptr) in
  let! id := next_cid in
  let c := make_cdw0 NVME_ADMIN_CREATE_SQ id in
  let! qp := nv_get (fun w => io_queue (nw_ctrl w)) in
  nv_mem (fun m => wr_le m cmd c 4) ;;;
  nv_mem (fun m => wr_le m (cmd + 24) (sq_phys qp) 8) ;;;
  nv_mem (fun m => wr_le m (cmd + 40) (u32 (Z.lor (Z.shiftl (sq_size qp - 1) 16) 1)) 4) ;;;
  nv_mem (fun m => wr_le m (cmd + 44) (Z.lor (Z.shiftl 1 16) 1) 4) ;;;
  run_admin cmd c.

(** The data copied to [*id], a function of the offset; [None] without success. *)
Definition nvme_identify_controller : nv (kerr_t * option (Z -> Z)) :=
  let! buffer := nv_heap (fun h => kmalloc h 4096) in
  if buffer =? 0 then io_ret (E_NOMEM, None)
  else
    nv_mem (fun m => memset m buffer 0 4096) ;;;
    let! cmd := nv_heap (fun h => kmalloc h sizeof_sq_entry) in
    if cmd =? 0 then io_ret (E_NOMEM, None)
    else
      nv_mem (fun m => memset m cmd 0 64) ;;;
      let! qp := nv_get (fun w => admin_queue (nw_ctrl w)) in
      if qp_sq qp =? 0 then nv_heap (fun h => (tt, kfree h cmd)) ;;; io_ret (E_HARDWARE, None)
      else
        let! id := next_cid in
        let c := make_cdw0 NVME_ADMIN_IDENTIFY id in
        nv_mem (fun m => wr_le m cmd c 4) ;;;
        nv_mem (fun m => wr_le m (cmd + 4) 0 4) ;;;
        nv_mem (fun m => wr_le m (cmd + 24) (VIRT_TO_PHYS buffer) 8) ;;;
        nv_mem (fun m => wr_le m (cmd + 40) NVME_IDENTIFY_CONTROLLER 4) ;;;
        let! err := run_admin cmd c in
        nv_heap (fun h => (tt, kfree h cmd)) ;;;
        let! m := nv_get (fun w => kmem (nw_heap w)) in
        nv_heap (fun h => (tt, kfree h buffer)) ;;;
        io_ret (err, if is_ok err then Some (fun i => rd m (buffer + i)) else None).

Definition nvme_identify_namespace (ns : Z) : nv (kerr_t * option (Z -> Z)) :=
  let! buffer := nv_heap (fun h => kmalloc h 4096) in
  if buffer =? 0 then io_ret (E_NOMEM, None)
  else
    nv_mem (fun m => memset m buffer 0 4096) ;;;
    let! cmd := nv_heap (fun h => kmalloc h sizeof_ptr) in
    let! id := next_cid in
    let c := make_cdw0 NVME_ADMIN_IDENTIFY id in
    nv_mem (fun m => wr_le m cmd c 4) ;;;
    nv_mem (fun m => wr_le m (cmd + 4) (u32 ns) 4) ;;;
    nv_mem (fun m => wr_le m (cmd + 24) (VIRT_TO_PHYS buffer) 8) ;;;
    nv_mem (fun m => wr_le m (cmd + 40) NVME_IDENTIFY_NAMESPACE 4) ;;;
    let! err := run_admin cmd c in
    let! m := nv_get (fun w => kmem (nw_heap w)) in
    nv_heap (fun h => (tt, kfree h buffer)) ;;;
    io_ret (err, if is_ok err then Some (fun i => rd m (buffer + i)) else None).

(** *** Block operations *)

(** [nvme_sq_entry_t cmd = {0}] with the fields of a transfer of one block; [dev]
    is the device's number in the block layer. *)
Definition io_command (opcode id dev lba buffer : Z) : nvme_sq_entry_t :=
  mkSqe (make_cdw0 opcode id) (u32 (dev + 1)) 0 0 buffer 0 (u32 lba) (u32 (Z.shiftr lba 32)) 0 0 0 0.

Definition nvme_transfer (opcode dev lba buffer : Z) : nv kerr_t :=
  let! id := next_cid in
  let cmd := io_command opcode id dev lba buffer in
  nvme_submit_command false (sqe_bytes cmd) ;;;
  nvme_wait_completion false (cdw0_cid (cdw0 cmd)).

Definition nvme_read_block_op (dev lba buffer : Z) : nv kerr_t := nvme_transfer NVME_CMD_READ dev lba buffer.
Definition nvme_write_block_op (dev lba buffer : Z) : nv kerr_t := nvme_transfer NVME_CMD_WRITE dev lba buffer.
Definition nvme_flush_op : nv kerr_t := io_ret E_OK.

(** An operation as the block layer calls it; a machine that is stuck is [None]. *)
Definition nv_as_op (m : nv kerr_t) (w : option world) : Z * option world :=
  match w with
  | None => (0, None)
  | Some w => match m w with Some (e, w) => (kerr_value e, Some w) | None => (0, None) end
  end.

(** The operations of the device with number [dev]. *)
Definition nvme_ops (dev : Z) : block_device_ops_t (option world) :=
  mkOps (Some (fun _ lba buffer => nv_as_op (nvme_read_block_op dev lba buffer)))
    (Some (fun _ lba buffer => nv_as_op (nvme_write_block_op dev lba buffer)))
    None None (Some (fun _ => nv_as_op nvme_flush_op)).
End driver.

(** ** Initialisation *)

Section init.
Context {D : Type} `{PortBus D} `{NvmeRegs D}.

(** The driver's world, the page tables with the frames they come from, and the
    block layer. *)
Record nvme_boot := mkNb {
  nb_world : nvme_world D; nb_vmm : vmm; nb_pmm : pmm; nb_blk : block_sys (option (nvme_world D)) }.

Definition on_world {A} (m : io (nvme_world D) A) : io nvme_boot A := fun b =>
  match m (nb_world b) with
  | Some (a, w) => Some (a, mkNb w (nb_vmm b) (nb_pmm b) (nb_blk b))
  | None => None
  end.

Definition PAGE_CACHE_DISABLE_FLAGS : Z := Z.lor (Z.lor PAGE_PRESENT PAGE_WRITE) PAGE_CACHE_DISABLE.

(** One page of the loop that maps the registers; [false] when it fails. *)
Definition map_bar_page (virt phys offset : Z) : io nvme_boot bool := fun b =>
  let virt_page := PAGE_ALIGN_DOWN (u64 (virt + offset)) in
  let phys_page := PAGE_ALIGN_DOWN (u64 (phys + offset)) in
  if vmm_is_mapped (nb_vmm b) virt_page then Some (true, b)
  else
    let '(err, v, p) := vmm_map_page (nb_vmm b) (nb_pmm b) virt_page phys_page PAGE_CACHE_DISABLE_FLAGS in
    Some (is_ok err, mkNb (nb_world b) v p (nb_blk b)).

(** [for (offset = 0; offset < bar_size; offset += PAGE_SIZE)], [n] pages left. *)
Fixpoint map_bar (n : nat) (virt phys offset : Z) : io nvme_boot bool :=
  match n with
  | O => io_ret true
  | Datatypes.S n' =>
      let! ok := map_bar_page virt phys offset in
      if (ok : bool) then map_bar n' virt phys (offset + PAGE_SIZE) else io_ret false
  end.

Fixpoint wait_disabled (timeout : nat) : io (nvme_world D) unit :=
  match timeout with
  | O => io_ret tt
  | Datatypes.S timeout' =>
      let! csts := nvme_read32 NVME_REG_CSTS in
      if Z.land csts NVME_CSTS_RDY =? 0 then io_ret tt else wait_disabled timeout'
  end.

(** [false] on a fatal error. *)
Fixpoint wait_ready (timeout : nat) : io (nvme_world D) bool :=
  match timeout with
  | O => io_ret true
  | Datatypes.S timeout' =>
      let! csts := nvme_read32 NVME_REG_CSTS in
      if negb (Z.land csts NVME_CSTS_CFS =? 0) then io_ret false
      else if negb (Z.land csts NVME_CSTS_RDY =? 0) then io_ret true
      else wait_ready timeout'
  end.

Definition field (f : Z -> Z) (offset : Z) (n : nat) : Z :=
  foldr (fun i v => f (offset + i) + 256 * v) 0 (seqZ 0 (Z.of_nat n)).

(** The block device of namespace [i + 1], given its identify data. *)
Definition nvme_block_device (dev i data : Z) (id : Z -> Z) : block_device_t (option (nvme_world D)) :=
  let lbads := field id (128 + 4 * Z.land (field id 26 1) 0xF + 2) 1 in
  mkDev 0 BLOCK_TYPE_NVME (field id 0 8) (u32 (Z.shiftl 1 lbads)) true (str "NVME" ++ uitoa_chars i) data
    (Some (nvme_ops dev)).

Definition register_namespace (dev i data : Z) (id : Z -> Z) : io nvme_boot unit := fun b =>
  if field id 0 8 =? 0 then Some (tt, b)
  else
    let number := block_get_device_count (nb_blk b) in
    let blk := mkBlk (<[dev := nvme_block_device number i data id]> (dev_mem (nb_blk b))) (g_block_manager (nb_blk b)) in
    Some (tt, mkNb (nb_world b) (nb_vmm b) (nb_pmm b) (snd (block_register_device blk dev))).

(** [for (i = 0; i < num_namespaces && i < NVME_MAX_NAMESPACES; i++)]; [dev] and [data]
    are the addresses of the device structures and of the controller's. *)
Fixpoint nvme_namespaces (n : nat) (i : Z) (dev : Z -> Z) (data : Z) : io nvme_boot unit :=
  match n with
  | O => io_ret tt
  | Datatypes.S n' =>
      let! r := on_world (nvme_identify_namespace (i + 1)) in
      match r with
      | (E_OK, Some id) => register_namespace (dev i) i data id
      | _ => io_ret tt
      end ;;;
      nvme_namespaces n' (i + 1) dev data
  end.

Definition set_bar0 (b : Z) (c : nvme_controller_t) : nvme_controller_t :=
  mkCtrl b (admin_queue c) (io_queue c) (num_namespaces c) (max_transfer_size c) (command_id c).
Definition set_namespaces (n : Z) (c : nvme_controller_t) : nvme_controller_t :=
  mkCtrl (bar0 c) (admin_queue c) (io_queue c) n (max_transfer_size c) (command_id c).
Definition reset_cid (c : nvme_controller_t) : nvme_controller_t :=
  mkCtrl (bar0 c) (admin_queue c) (io_queue c) (num_namespaces c) (max_transfer_size c) 0.

Definition NVME_CC_VALUE : Z :=
  Z.lor (Z.lor (Z.lor (Z.lor (Z.lor (Z.lor NVME_CC_ENABLE NVME_CC_CSS_NVM) (Z.shiftl 0 7)) NVME_CC_AMS_RR)
    NVME_CC_SHN_NONE) NVME_CC_IOSQES) NVME_CC_IOCQES.

(** Bus mastering, and the physical address of the registers. *)
Definition nvme_enable_pci (bus slot func : Z) : io (nvme_world D) Z :=
  let! cmd := pci_read_config bus slot func PCI_COMMAND in
  let command := Z.lor (u16 cmd) (Z.lor PCI_COMMAND_MEMORY PCI_COMMAND_MASTER) in
  pci_write_config bus slot func PCI_COMMAND command ;;;
  let! bar0_low := pci_read_config bus slot func PCI_BAR0 in
  let! bar0_high := pci_read_config bus slot func PCI_BAR1 in
  io_ret (Z.lor (Z.shiftl bar0_high 32) (Z.land bar0_low 0xFFFFFFF0)).

(** Disabling, the admin queues, enabling: [None] on success, the error otherwise. *)
Definition nvme_start_controller : io (nvme_world D) (option kerr_t) :=
  let! _cap := nvme_read32 NVME_REG_CAP in
  let! cc := nvme_read32 NVME_REG_CC in
  nvme_write32 NVME_REG_CC (Z.land cc (Z.lnot NVME_CC_ENABLE)) ;;;
  wait_disabled (Z.to_nat 1000000) ;;;
  let! csts := nvme_read32 NVME_REG_CSTS in
  if negb (Z.land csts NVME_CSTS_RDY =? 0) then io_ret (Some E_TIMEOUT)
  else
  let! err := nvme_init_queue_pair true NVME_ADMIN_QUEUE_SIZE NVME_ADMIN_QUEUE_SIZE in
  if negb (is_ok err) then io_ret (Some E_HARDWARE)
  else
  let! qp := nv_get (fun w => admin_queue (nw_ctrl w)) in
  nvme_write64 NVME_REG_ASQ (sq_phys qp) ;;;
  nvme_write64 NVME_REG_ACQ (cq_phys qp) ;;;
  nvme_write32 NVME_REG_AQA (Z.lor (Z.shiftl (NVME_ADMIN_QUEUE_SIZE - 1) 16) (NVME_ADMIN_QUEUE_SIZE - 1)) ;;;
  let! _cap64 := nvme_read64 NVME_REG_CAP in
  nvme_write32 NVME_REG_CC NVME_CC_VALUE ;;;
  let! ok := wait_ready (Z.to_nat 5000000) in
  if negb ok then io_ret (Some E_HARDWARE)
  else
  let! csts := nvme_read32 NVME_REG_CSTS in
  if Z.land csts NVME_CSTS_RDY =? 0 then let! _csts := nvme_read32 NVME_REG_CSTS in io_ret (Some E_HARDWARE)
  else io_ret None.

(** The I/O queues, on both sides. *)
Definition nvme_create_io_queues : io (nvme_world D) bool :=
  let! err := nvme_init_queue_pair false NVME_IO_QUEUE_SIZE NVME_IO_QUEUE_SIZE in
  if negb (is_ok err) then io_ret false
  else
  let! err := nvme_create_io_cq in
  if negb (is_ok err) then io_ret false
  else
  let! err := nvme_create_io_sq in
  io_ret (is_ok err).

Definition nvme_init (dev : Z -> Z) (data : Z) : io nvme_boot kerr_t :=
  let! found := on_world nvme_find_controller in
  match found with
  | None => io_ret E_NOTFOUND
  | Some (bus, slot, func) =>
      let! bar0_phys := on_world (nvme_enable_pci bus slot func) in
      let bar0_virt := PHYS_TO_VIRT bar0_phys in
      let! mapped := map_bar 16 bar0_virt bar0_phys 0 in
      if negb mapped then io_ret E_HARDWARE
      else
      on_world (nv_ctrl (set_bar0 bar0_virt)) ;;;
      let! failed := on_world nvme_start_controller in
      match failed with
      | Some e => io_ret e
      | None =>
          on_world (nv_ctrl reset_cid) ;;;
          let! r := on_world nvme_identify_controller in
          match r with
          | (E_OK, Some id) =>
              let nn := field id 516 4 in
              on_world (nv_ctrl (set_namespaces nn)) ;;;
              let! ok := on_world nvme_create_io_queues in
              if negb ok then io_ret E_HARDWARE
              else
                nvme_namespaces (Z.to_nat (Z.min nn NVME_MAX_NAMESPACES)) 0 dev data ;;;
                io_ret E_OK
          | _ => io_ret E_HARDWARE
          end
      end
  end.
End init.

(** ** Registration *)

(** The driver record, given [nvme_init] on the registry's world. *)
Definition nvme_driver {W} (init : Z -> W -> kerr_t * W) : driver_t W :=
  mkDriver (str "NVMe") DRIVER_TYPE_BLOCK 1 40 DRIVER_STATUS_UNINITIALIZED (Some init) None (str "Block Layer") 0.

(** The result of [driver_register] is dropped. *)
Definition nvme_register {W} (r : registry W) (driver : Z) : kerr_t * registry W := (E_OK, snd (driver_register r driver)).
