(* ===== verification/NvmeThms.v ===== *)
(** * NVMe queues (theorems)

    [NvmeQueue] is the protocol of a submission and completion queue pair, as the
    controller plays it: after a doorbell it takes the entry at its position,
    and within its latency posts a completion in the same position of the
    completion queue, with the phase bit of the current pass.  The driver's
    pointers and phase then agree with the controller for any number of
    commands, and the queue is a first-in first-out channel. *)

From S2P Require Import Prelude MemLayout Errno CString Bitmap Pmm Buddy Slab SlabThms Kmalloc Task TaskThms Ports Block Vmm Nvme.

(** The phase bit of the [i]-th completion: 1 in the first pass, then alternating. *)
Definition phase_of (size i : Z) : Z := 1 - (i / size) mod 2.

Section phase.
Context {size : Z}.

Lemma phase_of_cases i : phase_of size i = 0 \/ phase_of size i = 1.
Proof. unfold phase_of. pose proof (Z.mod_pos_bound (i / size) 2 ltac:(lia)). lia. Qed.

(** Going on by one: either within the pass, or into the next one. *)
Lemma next_slot i :
  1 <= size -> 0 <= i ->
  (i mod size + 1 < size /\ (i + 1) mod size = i mod size + 1 /\ phase_of size (i + 1) = phase_of size i) \/
  (i mod size + 1 = size /\ (i + 1) mod size = 0 /\ phase_of size (i + 1) = 1 - phase_of size i).
Proof.
  intros Hs Hi. pose proof (Z.mod_pos_bound i size ltac:(lia)) as Hb. pose proof (Z.div_mod i size ltac:(lia)) as Hd.
  destruct (decide (i mod size + 1 < size)) as [Hlt|Hge]; [left|right]; unfold phase_of.
  - assert (Hq : (i + 1) / size = i / size /\ (i + 1) mod size = i mod size + 1).
    { split; symmetry; [apply (Z.div_unique _ _ _ (i mod size + 1))|apply (Z.mod_unique _ _ (i / size))]; lia. }
    destruct Hq as [-> ->]. lia.
  - assert (Hq : (i + 1) / size = i / size + 1 /\ (i + 1) mod size = 0).
    { split; symmetry; [apply (Z.div_unique _ _ _ 0)|apply (Z.mod_unique _ _ (i / size + 1))]; lia. }
    destruct Hq as [-> ->]. split; [lia|]. split; [done|].
    rewrite Z.add_mod by lia. pose proof (Z.mod_pos_bound (i / size) 2 ltac:(lia)) as H2.
    assert (E : (i / size) mod 2 = 0 \/ (i / size) mod 2 = 1) by lia. destruct E as [-> | ->]; reflexivity.
Qed.

Lemma mod_slot i : 1 <= size -> 0 <= i mod size < size.
Proof. intros. apply Z.mod_pos_bound. lia. Qed.

(** The word of a completion entry, taken apart. *)
Lemma status_word_parts status i :
  0 <= status < 2048 ->
  Z.land (2 * status + phase_of size i) 1 = phase_of size i /\
  Z.land (Z.shiftr (2 * status + phase_of size i) 1) 0x7FF = status.
Proof.
  intros Hs. rewrite (Z.land_ones _ 1), (Z.land_ones _ 11), Z.shiftr_div_pow2 by lia.
  change (2 ^ 1) with 2. change (2 ^ 11) with 2048. destruct (phase_of_cases i) as [-> | ->]; split; dlia.
Qed.

End phase.

Lemma get_set_qp is_admin c qp : get_qp (set_qp c is_admin qp) is_admin = qp.
Proof. by destruct is_admin. Qed.
Lemma bar0_set_qp is_admin c qp : bar0 (set_qp c is_admin qp) = bar0 c.
Proof. by destruct is_admin. Qed.
Lemma cid_set_qp is_admin c qp : command_id (set_qp c is_admin qp) = command_id c.
Proof. by destruct is_admin. Qed.

Definition in_queues (sq cq size a : Z) : Prop := sq <= a < sq + 64 * size \/ cq <= a < cq + 16 * size.
Definition queues_same (sq cq size : Z) (m m' : mem) : Prop := forall a, in_queues sq cq size a -> rd m' a = rd m a.

(** The 64 bytes of an entry, and the command identifier in them. *)
Definition sq_slot (m : mem) (sq slot : Z) : list Z := (fun k => rd m (sq + 64 * slot + k)) <$> seqZ 0 64.
Definition bytes_cid (bs : list Z) : Z := nthz bs 2 + 256 * nthz bs 3.

(** [q_done] completions were posted; [q_busy] tells for how many more looks at
    memory the command that was rung for stays unanswered; [q_log] holds the commands
    taken, each with its status. *)
Class NvmeQueue (D : Type) `{NvmeRegs D} (base : Z) (is_admin : bool) (sq cq size : Z) := {
  q_done : D -> Z;
  q_busy : D -> option nat;
  q_log : D -> list (list Z * Z);
  q_latency : nat;
  q_ring d : q_busy d = None ->
    let d' := mm_write32 (u64 (base + sq_doorbell is_admin)) ((q_done d + 1) mod size) d in
    q_done d' = q_done d /\ q_log d' = q_log d /\ exists k, (k <= q_latency)%nat /\ q_busy d' = Some k;
  q_ack d v :
    let d' := mm_write32 (u64 (base + cq_doorbell is_admin)) v d in
    q_done d' = q_done d /\ q_log d' = q_log d /\ q_busy d' = q_busy d;
  q_wait d m k : q_busy d = Some (S k) ->
    let '(d', m') := mm_dma d m in
    q_done d' = q_done d /\ q_log d' = q_log d /\ q_busy d' = Some k /\ queues_same sq cq size m m';
  q_post d m : q_busy d = Some O ->
    let '(d', m') := mm_dma d m in
    let slot := q_done d mod size in
    let cqe := cq + 16 * slot in
    q_done d' = q_done d + 1 /\ q_busy d' = None /\
    exists status,
    0 <= status < 2048 /\
    q_log d' = q_log d ++ [(sq_slot m sq slot, status)] /\
    rd_le m' (cqe + 12) 2 = bytes_cid (sq_slot m sq slot) /\
    rd_le m' (cqe + 14) 2 = 2 * status + phase_of size (q_done d) /\
    (forall a, cq <= a < cq + 16 * size -> ~ cqe <= a < cqe + 16 -> rd m' a = rd m a);
}.

Section queue.
Context {D : Type} `{HP : PortBus D} `{HR : NvmeRegs D}.
Context {base sq cq size : Z} {is_admin : bool} {NQ : NvmeQueue D base is_admin sq cq size}.
Hypothesis Hsize : 1 <= size <= 65535.
Hypothesis Hapart : sq + 64 * size <= cq \/ cq + 16 * size <= sq.
Hypothesis Hlat : Z.of_nat q_latency < 5000000.

Implicit Types (w : nvme_world D) (i : Z).

Definition status_at (m : mem) (j : Z) : Z := rd_le m (cq + 16 * j + 14) 2.

(** After [i] completions, the entries of this pass carry its phase, the others
    the opposite one. *)
Definition phases (m : mem) (i : Z) : Prop := forall j, 0 <= j < size ->
  Z.land (status_at m j) 1 = if j <? i mod size then phase_of size i else 1 - phase_of size i.

(** Between commands, after [i] of them. *)
Record ring w i : Prop := {
  rg_base : bar0 (nw_ctrl w) = base;
  rg_queue : let qp := get_qp (nw_ctrl w) is_admin in
    qp_sq qp = sq /\ qp_cq qp = cq /\ sq_size qp = size /\ cq_size qp = size /\
    sq_tail qp = i mod size /\ cq_head qp = i mod size /\ cq_phase qp = phase_of size i;
  rg_dev : q_done (nw_dev w) = i /\ q_busy (nw_dev w) = None;
  rg_pos : 0 <= i;
  rg_phase : phases (kmem (nw_heap w)) i;
}.

(** *** Submission *)

(** A command is with the controller, which will not answer for [k] looks. *)
Record waiting w i (cmd : list Z) (k : nat) : Prop := {
  wt_base : bar0 (nw_ctrl w) = base;
  wt_queue : let qp := get_qp (nw_ctrl w) is_admin in
    qp_sq qp = sq /\ qp_cq qp = cq /\ sq_size qp = size /\ cq_size qp = size /\
    sq_tail qp = (i + 1) mod size /\ cq_head qp = i mod size /\ cq_phase qp = phase_of size i;
  wt_dev : q_done (nw_dev w) = i /\ q_busy (nw_dev w) = Some k;
  wt_pos : 0 <= i;
  wt_phase : phases (kmem (nw_heap w)) i;
  wt_cmd : sq_slot (kmem (nw_heap w)) sq (i mod size) = cmd;
}.

Lemma status_at_ext m m' j :
  (forall a, cq + 16 * j <= a < cq + 16 * j + 16 -> rd m' a = rd m a) -> status_at m' j = status_at m j.
Proof. intros He. apply rd_le_ext. intros q Hq. apply He. lia. Qed.

Lemma queues_same_phases m m' i :
  (forall a, cq <= a < cq + 16 * size -> rd m' a = rd m a) -> phases m i -> phases m' i.
Proof.
  intros He Hp j Hj. rewrite (status_at_ext m m' j); [by apply Hp|]. intros a Ha. apply He. lia.
Qed.

Lemma sq_slot_wr m slot cmd : length cmd = 64%nat -> sq_slot (wr_list m (sq + 64 * slot) cmd) sq slot = cmd.
Proof.
  intros Hl. pose proof (bytes_at_seqZ _ _ cmd (proj1 (wr_list_spec m (sq + 64 * slot) cmd))) as E.
  rewrite Hl in E. exact E.
Qed.

Lemma wp_submit w i cmd (Q : unit -> nvme_world D -> Prop) :
  ring w i -> length cmd = 64%nat ->
  (forall w' k, waiting w' i cmd k -> (k <= q_latency)%nat -> q_log (nw_dev w') = q_log (nw_dev w) ->
     command_id (nw_ctrl w') = command_id (nw_ctrl w) -> Q tt w') ->
  wp (nvme_submit_command is_admin cmd) w Q.
Proof.
  intros [Hb Hq [Hd Hn] Hp Hph] Hl HQ. destruct w as [d h c]. cbn [nw_ctrl nw_dev nw_heap] in *.
  destruct Hq as (E1 & E2 & E3 & E4 & E5 & E6 & E7). pose proof (mod_slot (size := size) i ltac:(lia)) as Hm. pose proof (mod_slot (size := size) (i + 1) ltac:(lia)) as Hm1.
  unfold wp, nvme_submit_command, io_bind, nv_get, nv_mem, nv_heap, nv_ctrl, nvme_write32, reg_addr.
  cbn [nw_ctrl nw_dev nw_heap set_bus nvme_world_bus]. rewrite bar0_set_qp, Hb, E1, E3, E5.
  assert (Et : (i mod size + 1) mod size = (i + 1) mod size) by (rewrite Z.add_mod_idemp_l; [done|lia]).
  rewrite Et, u32_small by lia.
  destruct (q_ring d Hn) as (R1 & R2 & k & Hk & R3). rewrite Hd in R1, R2, R3.
  apply (HQ _ k); [|exact Hk|exact R2|apply cid_set_qp].
  split; cbn [nw_ctrl nw_dev nw_heap kmem with_kmem].
  - by rewrite bar0_set_qp.
  - rewrite get_set_qp. cbn. done.
  - done.
  - done.
  - eapply queues_same_phases; [|exact Hph]. intros a Ha. apply wr_list_spec. rewrite Hl.
    change sizeof_sq_entry with 64. lia.
  - by apply sq_slot_wr.
Qed.

(** *** Completion *)

Lemma sq_slot_ext m m' slot :
  (forall a, sq + 64 * slot <= a < sq + 64 * slot + 64 -> rd m' a = rd m a) -> sq_slot m' sq slot = sq_slot m sq slot.
Proof. intros He. apply list_fmap_ext. intros k x Hx%list_elem_of_lookup_2%elem_of_seqZ. apply He. lia. Qed.

(** A look while the controller is still busy finds an entry of the last pass. *)
Lemma wait_stale w i cmd k :
  waiting w i cmd (S k) ->
  exists w', nv_dma w = Some (tt, w') /\ waiting w' i cmd k /\ q_log (nw_dev w') = q_log (nw_dev w) /\
    nw_ctrl w' = nw_ctrl w.
Proof.
  intros [Hb Hq [Hd Hn] Hp Hph Hc]. destruct w as [d h c]. cbn [nw_ctrl nw_dev nw_heap] in *. unfold nv_dma.
  cbn [nw_ctrl nw_dev nw_heap]. pose proof (q_wait d (kmem h) k Hn) as Hw.
  destruct (mm_dma d (kmem h)) as [d' m']. destruct Hw as (W1 & W2 & W3 & W4). pose proof (mod_slot (size := size) i ltac:(lia)).
  eexists. split; [done|]. split; [|done]. split; cbn [nw_ctrl nw_dev nw_heap kmem with_kmem]; try done.
  - by rewrite W1.
  - eapply queues_same_phases; [|exact Hph]. intros a Ha. apply W4. by right.
  - rewrite <- Hc. apply sq_slot_ext. intros a Ha. apply W4. left. lia.
Qed.

(** The phases once the entry of completion [i] is posted. *)
Lemma phases_post m m' i status :
  0 <= i -> phases m i -> status_at m' (i mod size) = 2 * status + phase_of size i ->
  (forall a, cq <= a < cq + 16 * size -> ~ cq + 16 * (i mod size) <= a < cq + 16 * (i mod size) + 16 -> rd m' a = rd m a) ->
  phases m' (i + 1).
Proof.
  intros Hi Hp Hs He j Hj.
  assert (Hland : Z.land (status_at m' j) 1 = if j <? i mod size + 1 then phase_of size i else 1 - phase_of size i).
  { destruct (decide (j = i mod size)) as [->|Hne].
    - rewrite Hs, (proj2 (Z.ltb_lt _ _)) by lia. rewrite (Z.land_ones _ 1) by lia.
      destruct (phase_of_cases (size := size) i) as [-> | ->]; change (2 ^ 1) with 2; dlia.
    - rewrite (status_at_ext m m' j) by (intros a Ha; apply He; lia). rewrite (Hp j Hj).
      destruct (Z.ltb_spec j (i mod size)), (Z.ltb_spec j (i mod size + 1)); done || lia. }
  rewrite Hland. destruct (next_slot (size := size) i ltac:(lia) Hi) as [(H1 & -> & ->)|(H1 & -> & ->)]; [done|].
  rewrite (proj2 (Z.ltb_lt _ _)), (proj2 (Z.ltb_ge _ _)) by lia. lia.
Qed.

Definition status_err (status : Z) : kerr_t := if status =? NVME_SC_SUCCESS then E_OK else E_HARDWARE.

(** The look that finds the answer. *)
Lemma wp_wait_answer fuel w i cmd (Q : kerr_t -> nvme_world D -> Prop) :
  waiting w i cmd O ->
  (forall w' status, ring w' (i + 1) -> q_log (nw_dev w') = q_log (nw_dev w) ++ [(cmd, status)] ->
     command_id (nw_ctrl w') = command_id (nw_ctrl w) -> Q (status_err status) w') ->
  wp (wait_completion (S fuel) is_admin (bytes_cid cmd)) w Q.
Proof.
  intros [Hb Hq [Hd Hn] Hp Hph Hc] HQ. destruct w as [d h c]. cbn [nw_ctrl nw_dev nw_heap] in *.
  destruct Hq as (E1 & E2 & E3 & E4 & E5 & E6 & E7). pose proof (mod_slot (size := size) i ltac:(lia)) as Hm. pose proof (mod_slot (size := size) (i + 1) ltac:(lia)) as Hm1.
  pose proof (q_post d (kmem h) Hn) as Hpost.
  unfold wp. cbn [wait_completion]. unfold io_bind at 1, nv_dma. cbn [nw_ctrl nw_dev nw_heap].
  destruct (mm_dma d (kmem h)) as [d' m']. cbv zeta in Hpost. rewrite Hd, Hc in Hpost.
  destruct Hpost as (P1 & P2 & status & P3 & P4 & P5 & P6 & P7).
  unfold io_bind, nv_get, nv_ctrl, nvme_write32, reg_addr, io_ret.
  cbn [nw_ctrl nw_dev nw_heap set_bus nvme_world_bus kmem with_kmem].
  change sizeof_cq_entry with 16. rewrite E2, E4, E6, E7, P5, P6.
  destruct (status_word_parts (size := size) status i P3) as [-> ->]. rewrite !Z.eqb_refl.
  cbn [andb nw_ctrl nw_dev nw_heap]. rewrite bar0_set_qp, Hb.
  assert (Et : (i mod size + 1) mod size = (i + 1) mod size) by (rewrite Z.add_mod_idemp_l; [done|lia]).
  rewrite Et, u32_small by lia.
  destruct (q_ack d' ((i + 1) mod size)) as (A1 & A2 & A3).
  apply (HQ _ status); cbn [nw_ctrl nw_dev nw_heap]; [|by rewrite A2|apply cid_set_qp].
  split; cbn [nw_ctrl nw_dev nw_heap kmem with_kmem]; [by rewrite bar0_set_qp| |by rewrite A1, A3|lia|].
  - rewrite get_set_qp. cbn. repeat split; try done.
    destruct (next_slot (size := size) i ltac:(lia) Hp) as [(H1 & -> & ->)|(H1 & -> & ->)].
    + by rewrite (proj2 (Z.eqb_neq _ _)) by lia.
    + destruct (phase_of_cases (size := size) i) as [-> | ->]; done.
  - by apply (phases_post (kmem h) m' i status).
Qed.

Lemma wp_wait_completion fuel k w i cmd (Q : kerr_t -> nvme_world D -> Prop) :
  waiting w i cmd k -> (k < fuel)%nat ->
  (forall w' status, ring w' (i + 1) -> q_log (nw_dev w') = q_log (nw_dev w) ++ [(cmd, status)] ->
     command_id (nw_ctrl w') = command_id (nw_ctrl w) -> Q (status_err status) w') ->
  wp (wait_completion fuel is_admin (bytes_cid cmd)) w Q.
Proof.
  revert fuel w. induction k as [|k IH]; intros fuel w Hw Hf HQ; (destruct fuel as [|fuel]; [lia|]).
  { by apply (wp_wait_answer fuel w i cmd). }
  destruct (wait_stale w i cmd k Hw) as (w' & Ew & Hw' & El & Ec). rewrite <- El, <- Ec in HQ.
  unfold wp. cbn [wait_completion]. unfold io_bind at 1. rewrite Ew. unfold io_bind, nv_get.
  destruct (wt_queue _ _ _ _ Hw') as (E1 & E2 & E3 & E4 & E5 & E6 & E7). rewrite E2, E6, E7.
  change sizeof_cq_entry with 16. fold (status_at (kmem (nw_heap w')) (i mod size)).
  rewrite (wt_phase _ _ _ _ Hw' (i mod size) (mod_slot (size := size) i ltac:(lia))), Z.ltb_irrefl.
  rewrite (proj2 (Z.eqb_neq _ _)) by (destruct (phase_of_cases (size := size) i); lia). cbn [andb].
  apply IH; [done|lia|done].
Qed.

(** One command, from the submission to its answer. *)
Lemma wp_command w i cmd (Q : kerr_t -> nvme_world D -> Prop) :
  ring w i -> length cmd = 64%nat ->
  (forall w' status, ring w' (i + 1) -> q_log (nw_dev w') = q_log (nw_dev w) ++ [(cmd, status)] ->
     command_id (nw_ctrl w') = command_id (nw_ctrl w) -> Q (status_err status) w') ->
  wp (nvme_submit_command is_admin cmd ;;; nvme_wait_completion is_admin (bytes_cid cmd)) w Q.
Proof.
  intros Hr Hl HQ. apply wp_bind. apply (wp_submit w i cmd); [done|done|]. intros w' k Hw Hk El Ec.
  apply (wp_wait_completion _ k w' i); [done| |by rewrite El, Ec].
  apply Nat2Z.inj_lt. rewrite Z2Nat.id by lia. lia.
Qed.
End queue.

(** ** Transfers *)

Lemma length_le_bytes n v : length (le_bytes n v) = n.
Proof. revert v. induction n; intros v; cbn; auto. Qed.
Lemma length_sqe_bytes e : length (sqe_bytes e) = 64%nat.
Proof. unfold sqe_bytes. by rewrite !length_app, !length_le_bytes. Qed.
Lemma cid_sqe_bytes e : bytes_cid (sqe_bytes e) = cdw0_cid (cdw0 e).
Proof.
  unfold cdw0_cid, bytes_cid, sqe_bytes, nthz. rewrite (Z.land_ones _ 16), Z.shiftr_div_pow2 by lia.
  change (2 ^ 16) with 65536. transitivity (cdw0 e / 256 / 256 mod 256 + 256 * (cdw0 e / 256 / 256 / 256 mod 256)); [reflexivity|].
  rewrite (Z.div_div _ 256 256) by lia. change (256 * 256) with 65536. generalize (cdw0 e / 65536). intros q. dlia.
Qed.

Section transfers.
Context {D : Type} `{HP : PortBus D} `{HR : NvmeRegs D}.
Context {base sq cq size : Z} {NQ : NvmeQueue D base false sq cq size}.
Hypothesis Hsize : 1 <= size <= 65535.
Hypothesis Hapart : sq + 64 * size <= cq \/ cq + 16 * size <= sq.
Hypothesis Hlat : Z.of_nat q_latency < 5000000.

(** A request of the block layer: a write or a read, the device's number, the
    block and the buffer. *)
Record request := mkReq { rq_write : bool; rq_dev : Z; rq_lba : Z; rq_buf : Z }.

Definition serve (r : request) : io (nvme_world D) kerr_t :=
  (if rq_write r then nvme_write_block_op else nvme_read_block_op) (rq_dev r) (rq_lba r) (rq_buf r).

(** The entry that stands for a request, numbered [id]. *)
Definition request_entry (id : Z) (r : request) : list Z :=
  sqe_bytes (io_command (if rq_write r then NVME_CMD_WRITE else NVME_CMD_READ) id (rq_dev r) (rq_lba r) (rq_buf r)).

Fixpoint serve_all (rs : list request) : io (nvme_world D) (list kerr_t) :=
  match rs with
  | [] => io_ret []
  | r :: rs => let! e := serve r in let! es := serve_all rs in io_ret (e :: es)
  end.

(** What the controller is to see. *)
Fixpoint entries (id : Z) (rs : list request) : list (list Z) :=
  match rs with
  | [] => []
  | r :: rs => request_entry id r :: entries (u16 (id + 1)) rs
  end.

Lemma wp_serve w i r (Q : kerr_t -> nvme_world D -> Prop) :
  ring (is_admin := false) w i ->
  (forall w' status, ring (is_admin := false) w' (i + 1) ->
     q_log (nw_dev w') = q_log (nw_dev w) ++ [(request_entry (command_id (nw_ctrl w)) r, status)] ->
     command_id (nw_ctrl w') = u16 (command_id (nw_ctrl w) + 1) -> Q (status_err status) w') ->
  wp (serve r) w Q.
Proof.
  intros Hr HQ. set (id := command_id (nw_ctrl w)).
  set (op := if rq_write r then NVME_CMD_WRITE else NVME_CMD_READ).
  assert (Es : serve r = nvme_transfer op (rq_dev r) (rq_lba r) (rq_buf r)) by (unfold serve, op; by destruct (rq_write r)).
  rewrite Es. unfold nvme_transfer. apply wp_bind. destruct w as [d h c].
  unfold wp at 1, next_cid, io_bind at 1 2, nv_get, nv_ctrl, io_ret. cbn [nw_ctrl nw_dev nw_heap].
  rewrite <- cid_sqe_bytes. eapply (wp_command Hsize Hapart Hlat _ i); [|apply length_sqe_bytes|exact HQ].
  destruct Hr as [Hb Hq Hd Hp Hph]. by split.
Qed.

(** C11. The queue is a first-in first-out channel.  From any state between two
    commands, a list of block reads and writes is served one by one: the controller
    takes exactly the entries of the requests, in the order of the requests, with
    consecutive command identifiers; every call returns what the controller answered to
    its own command; no call times out, and the state is between two commands
    again, however often the queue and the identifiers wrapped around. *)
Theorem nvme_queue_fifo w i rs :
  ring (is_admin := false) w i ->
  exists w' statuses,
    serve_all rs w = Some (status_err <$> statuses, w') /\
    length statuses = length rs /\
    q_log (nw_dev w') = q_log (nw_dev w) ++ zip (entries (command_id (nw_ctrl w)) rs) statuses /\
    ring (is_admin := false) w' (i + Z.of_nat (length rs)).
Proof.
  revert w i. induction rs as [|r rs IH]; intros w i Hr.
  { exists w, []. cbn. by rewrite app_nil_r, Z.add_0_r. }
  destruct (wp_run (serve r) w (fun e w1 => exists status, e = status_err status /\ ring (is_admin := false) w1 (i + 1) /\
     q_log (nw_dev w1) = q_log (nw_dev w) ++ [(request_entry (command_id (nw_ctrl w)) r, status)] /\
     command_id (nw_ctrl w1) = u16 (command_id (nw_ctrl w) + 1))) as (e & w1 & E & status & -> & H1 & H2 & H3).
  { apply (wp_serve w i r); [exact Hr|]. eauto 6. }
  destruct (IH w1 (i + 1) H1) as (w2 & sts & E2 & Hl & Hlog & Hr2).
  exists w2, (status :: sts). cbn [serve_all]. unfold io_bind. rewrite E, E2.
  split; [done|]. split; [cbn; lia|]. split.
  - rewrite Hlog, H2, H3, <- (assoc_L (++)). done.
  - replace (i + Z.of_nat (length (r :: rs))) with (i + 1 + Z.of_nat (length rs)) by (cbn [length]; lia). done.
Qed.
End transfers.

(** ** A controller

    It answers the third look after a doorbell, and refuses blocks from 256 on
    (status 0x80, the address is out of range).  Its registers are at 0xF0000000, its queues have
    four entries. *)

Module Sim.
Definition base : Z := 0xF0000000.
Definition sq : Z := 0x10000.
Definition cq : Z := 0x20000.
Definition size : Z := 4.

Record device := mkSim { completed : Z; answer_in : option nat; taken : list (list Z * Z) }.

Definition status_of (cmd : list Z) : Z :=
  if forallb (fun k => nthz cmd k =? 0) (seqZ 41 7) then 0 else 0x80.

Definition post (d : device) (m : mem) : mem :=
  let slot := completed d mod size in
  let cmd := sq_slot m sq slot in
  wr_le (wr_list m (cq + 16 * slot + 12) [nthz cmd 2; nthz cmd 3])
    (cq + 16 * slot + 14) (2 * status_of cmd + phase_of size (completed d)) 2.

#[global] Instance sim_bus : PortBus device := {|
  bus_in8 _ d := (0, d); bus_out8 _ _ d := d;
  bus_in16 _ d := (0, d); bus_out16 _ _ d := d;
  bus_in32 _ d := (0, d); bus_out32 _ _ d := d |}.

#[global] Instance sim_regs : NvmeRegs device := {|
  mm_read32 _ d := (0, d);
  mm_write32 a _ d := if a =? base + 0x1008 then mkSim (completed d) (Some 2%nat) (taken d) else d;
  mm_read64 _ d := (0, d);
  mm_write64 _ _ d := d;
  mm_dma d m :=
    match answer_in d with
    | None => (d, m)
    | Some (S k) => (mkSim (completed d) (Some k) (taken d), m)
    | Some O =>
        let cmd := sq_slot m sq (completed d mod size) in
        (mkSim (completed d + 1) None (taken d ++ [(cmd, status_of cmd)]), post d m)
    end |}.

Lemma status_of_range cmd : 0 <= status_of cmd < 2048.
Proof. unfold status_of. destruct (forallb _ _); lia. Qed.

#[global] Instance sim_queue : NvmeQueue device base false sq cq size.
Proof.
  refine (Build_NvmeQueue _ _ _ _ _ _ _ completed answer_in taken 2%nat _ _ _ _).
  - intros d _. split; [done|]. split; [done|]. exists 2%nat. split; [lia|reflexivity].
  - intros d v. split; [done|]. split; done.
  - intros d m k Hk. cbn. rewrite Hk. split; [done|]. split; [done|]. split; [done|]. intros a _. done.
  - intros d m Hk. cbn [mm_dma sim_regs]. rewrite Hk. cbv zeta. set (slot := completed d mod size).
    set (cmd := sq_slot m sq slot). split; [done|]. split; [done|]. exists (status_of cmd).
    pose proof (status_of_range cmd) as Hs. pose proof (phase_of_cases (size := size) (completed d)) as Hph.
    split; [done|]. split; [done|]. unfold post. fold slot. fold cmd. split.
    + rewrite rd_wr_le_ne by lia. cbn [wr_list rd_le]. rewrite rd_wr_ne, rd_wr_eq, rd_wr_eq by lia. unfold bytes_cid. lia.
    + split; [apply rd_wr_le; lia|]. intros a Ha Hn. rewrite wr_le_outside by lia.
      rewrite (proj2 (wr_list_spec _ _ _)) by (cbn [length]; lia). done.
Defined.

(** Six requests through the four entries; the fourth is out of range. *)
Definition requests : list request := [
  mkReq true 0 0 0x30000; mkReq true 0 1 0x31000; mkReq false 0 0 0x32000; mkReq false 0 256 0x33000;
  mkReq true 0 2 0x34000; mkReq false 0 1 0x35000].

Definition start : nvme_world device :=
  let qp := mkQp sq cq 0 0 0 0 size size 1 in
  mkNw (mkSim 0 None []) (mkHeap (h_slab kernel_heap) ∅) (mkCtrl base qp qp 1 0 65534) true.

Lemma start_ring : ring (base := base) (sq := sq) (cq := cq) (size := size) (is_admin := false) start 0.
Proof.
  split; [done|by vm_compute|done|done|]. intros j Hj.
  assert (E : j = 0 \/ j = 1 \/ j = 2 \/ j = 3) by (unfold size in Hj; lia).
  by destruct E as [-> | [-> | [-> | ->]]]; vm_compute.
Qed.
End Sim.

Lemma nvme_queue_fifo_witness :
  exists w' statuses,
    serve_all Sim.requests Sim.start = Some (status_err <$> statuses, w') /\ length statuses = 6%nat /\
    ring (base := Sim.base) (sq := Sim.sq) (cq := Sim.cq) (size := Sim.size) (is_admin := false) w' 6.
Proof.
  destruct (nvme_queue_fifo (base := Sim.base) (sq := Sim.sq) (cq := Sim.cq) (size := Sim.size)
    ltac:(unfold Sim.size; lia) ltac:(left; vm_compute; done) ltac:(vm_compute; done) Sim.start 0 Sim.requests
    Sim.start_ring) as (w' & sts & E & Hl & _ & Hr).
  exists w', sts. split; [exact E|]. split; [exact Hl|exact Hr].
Defined.

(** The run itself. *)
Example sim_run :
  (fst <$> serve_all Sim.requests Sim.start) = Some [E_OK; E_OK; E_OK; E_HARDWARE; E_OK; E_OK].
Proof. vm_compute. reflexivity. Qed.
