(* ===== verification/NvmePci.v ===== *)
(** * NVMe start-up (theorems)

    The search for the controller on the PCI bus, the creation of a queue pair, and
    the two fields of a transfer command that do not mean what they should. *)

From S2P Require Import Prelude MemLayout Errno CString Bitmap Pmm Buddy BuddyLists BuddyInv BuddyThms Slab SlabInv SlabThms Kmalloc Task TaskThms Ports Block Vmm Nvme NvmeThms.

(** ** The search *)

(** Configuration mechanism 1: the address selects the register that the data port shows. *)
Definition config_address (b s offset : Z) : Z := 0x80000000 + 65536 * b + 2048 * s + offset.

Class PciConfig (D : Type) `{PortBus D} := {
  pci_space : D -> Z -> Z -> Z -> Z;
  pci_space_range d b s offset : 0 <= pci_space d b s offset < 2 ^ 32;
  pci_config_law d b s offset : 0 <= b < 256 -> 0 <= s < 32 -> offset ∈ [0; 8] ->
    let '(v, d') := bus_in32 PCI_CONFIG_DATA (bus_out32 PCI_CONFIG_ADDRESS (config_address b s offset) d) in
    v = pci_space d b s offset /\ pci_space d' = pci_space d;
}.

(** Slot [i], counted over all buses, holds a mass storage controller (class 1) for
    non-volatile memory (8) that speaks NVMe (2). *)
Definition nvme_at (space : Z -> Z -> Z -> Z) (i : Z) : bool :=
  let vendor := space (i / 32) (i mod 32) 0 mod 65536 in
  negb (vendor =? 0xFFFF) && negb (vendor =? 0) && (space (i / 32) (i mod 32) 8 / 256 =? 0x010802).

Lemma pci_get_address_eq b s offset :
  0 <= b < 256 -> 0 <= s < 32 -> offset ∈ [0; 8] -> pci_get_address b s 0 offset = config_address b s offset.
Proof.
  intros Hb Hs Ho.
  assert (Hall : forallb (fun b => forallb (fun s => forallb (fun offset =>
    pci_get_address b s 0 offset =? config_address b s offset) [0; 8]) (seqZ 0 32)) (seqZ 0 256) = true).
  { vm_compute. reflexivity. }
  rewrite forallb_forall in Hall. specialize (Hall b ltac:(apply list_elem_of_In, elem_of_seqZ; lia)).
  rewrite forallb_forall in Hall. specialize (Hall s ltac:(apply list_elem_of_In, elem_of_seqZ; lia)).
  rewrite forallb_forall in Hall. specialize (Hall offset ltac:(by apply list_elem_of_In)).
  by apply Z.eqb_eq.
Qed.

(** The three bytes of the class register. *)
Lemma class_bytes x :
  0 <= x < 2 ^ 32 ->
  (Z.land (Z.shiftr x 24) 0xFF =? 1) && (Z.land (Z.shiftr x 16) 0xFF =? 8) && (Z.land (Z.shiftr x 8) 0xFF =? 2) =
  (x / 256 =? 0x010802).
Proof.
  intros Hx. change (2 ^ 32) with 4294967296 in Hx. rewrite !(Z.land_ones _ 8), !Z.shiftr_div_pow2 by lia.
  change (2 ^ 24) with (256 * (256 * 256)). change (2 ^ 16) with (256 * 256). change (2 ^ 8) with 256.
  rewrite <- !Z.div_div by lia.
  assert (Hq : 0 <= x / 256 < 16777216) by dlia. revert Hq. generalize (x / 256). intros q Hq. clear Hx.
  apply eq_true_iff_eq. rewrite !andb_true_iff, !Z.eqb_eq. split; [intros [[H1 H2] H3]|intros ->; done]. dlia.
Qed.

Section search.
Context {D : Type} `{HC : PciConfig D} `{HR : NvmeRegs D}.
Implicit Types (w : nvme_world D).

Lemma wp_pci_read b s offset w (Q : Z -> nvme_world D -> Prop) :
  0 <= b < 256 -> 0 <= s < 32 -> offset ∈ [0; 8] ->
  (forall w', pci_space (nw_dev w') = pci_space (nw_dev w) -> nw_heap w' = nw_heap w -> nw_ctrl w' = nw_ctrl w -> nw_irq w' = nw_irq w ->
     Q (pci_space (nw_dev w) b s offset) w') ->
  wp (pci_read_config b s 0 offset) w Q.
Proof.
  intros Hb Hs Ho HQ. unfold pci_read_config. rewrite pci_get_address_eq by done.
  unfold wp, io_bind, outl, inl, get_bus, set_bus. cbn [nvme_world_bus nw_dev].
  change (u16 PCI_CONFIG_ADDRESS) with PCI_CONFIG_ADDRESS. change (u16 PCI_CONFIG_DATA) with PCI_CONFIG_DATA.
  assert (Hk : offset = 0 \/ offset = 8) by set_solver.
  rewrite (u32_small (config_address _ _ _)) by (unfold config_address; lia).
  pose proof (pci_config_law (nw_dev w) b s offset Hb Hs Ho) as Hl. destruct (bus_in32 _ _) as [v d'].
  destruct Hl as [-> Hd]. pose proof (pci_space_range (nw_dev w) b s offset). rewrite u32_small by (change 4294967296 with (2 ^ 32); lia).
  by apply HQ.
Qed.

Lemma wp_probe i w (Q : bool -> nvme_world D -> Prop) :
  0 <= i < 8192 ->
  (forall w', pci_space (nw_dev w') = pci_space (nw_dev w) -> nw_heap w' = nw_heap w -> nw_ctrl w' = nw_ctrl w -> nw_irq w' = true ->
     Q (nvme_at (pci_space (nw_dev w)) i) w') ->
  wp (nvme_probe (i / 32) (i mod 32)) w Q.
Proof.
  intros Hi HQ. assert (Hb : 0 <= i / 32 < 256) by dlia. assert (Hs : 0 <= i mod 32 < 32) by dlia.
  unfold nvme_probe. apply wp_bind. unfold wp at 1, nv_interrupts.
  apply wp_bind. apply wp_pci_read; [done|done|set_solver|]. cbn [nw_dev nw_heap nw_ctrl nw_irq]. intros w1 E1 E2 E3 _.
  apply wp_bind. unfold wp at 1.
  set (x := pci_space (nw_dev w) (i / 32) (i mod 32) 0). rewrite (Z.land_ones _ 16) by lia. change (2 ^ 16) with 65536.
  unfold nvme_at in HQ. fold x in HQ. destruct (Z.eqb_spec (x mod 65536) 65535) as [Hf|Hf]; [by apply HQ|].
  destruct (Z.eqb_spec (x mod 65536) 0) as [H0|H0]; [by apply HQ|].
  cbn [orb negb andb] in *. apply wp_bind. unfold wp at 1. apply wp_bind. apply wp_pci_read; [done|done|set_solver|].
  cbn [nw_dev nw_heap nw_ctrl nw_irq]. intros w2 F1 F2 F3 _. apply wp_bind. unfold wp at 1. rewrite E1.
  apply wp_ret. rewrite class_bytes by apply pci_space_range. apply HQ; cbn [nw_dev nw_heap nw_ctrl nw_irq]; congruence.
Qed.

Lemma wp_scan n i w (Q : option (Z * Z * Z) -> nvme_world D -> Prop) :
  0 <= i -> i + Z.of_nat n <= 8192 ->
  (forall w', pci_space (nw_dev w') = pci_space (nw_dev w) -> nw_heap w' = nw_heap w -> nw_ctrl w' = nw_ctrl w ->
     nw_irq w' = match n with O => nw_irq w | S _ => true end ->
     Q ((fun i => (i / 32, i mod 32, 0)) <$> head (filter (fun i => nvme_at (pci_space (nw_dev w)) i = true) (seqZ i (Z.of_nat n)))) w') ->
  wp (nvme_scan n i) w Q.
Proof.
  revert i w. induction n as [|n IH]; intros i w Hi Hn HQ; [by apply HQ|].
  cbn [nvme_scan]. apply wp_bind. apply wp_probe; [lia|]. intros w1 E1 E2 E3 E4.
  rewrite (seqZ_cons i) in HQ by lia. rewrite filter_cons in HQ.
  replace (Z.pred (Z.of_nat (S n))) with (Z.of_nat n) in HQ by lia.
  destruct (nvme_at _ i); [by apply HQ|]. apply IH; [lia|lia|]. rewrite E1, E2, E3. intros w' F1 F2 F3 F4. apply HQ; try done. destruct n; congruence.
Qed.

(** C32. The search tries the 32 slots of the 256 buses in order and gives the first
    one with an NVMe controller, or nothing when there is none.  Heap and controller
    record stay the same, but interrupts are on afterwards, whether or not they
    were on before: each slot is read between [cli] and [sti]. *)
Theorem nvme_find_controller_first w :
  let space := pci_space (nw_dev w) in
  exists w',
    nvme_find_controller w =
      Some ((fun i => (i / 32, i mod 32, 0)) <$> head (filter (fun i => nvme_at space i = true) (seqZ 0 8192)), w') /\
    nw_heap w' = nw_heap w /\ nw_ctrl w' = nw_ctrl w /\ pci_space (nw_dev w') = space /\ nw_irq w' = true.
Proof.
  cbv zeta. destruct (wp_run nvme_find_controller w (fun r w' => r = (fun i => (i / 32, i mod 32, 0)) <$>
      head (filter (fun i => nvme_at (pci_space (nw_dev w)) i = true) (seqZ 0 8192)) /\
    nw_heap w' = nw_heap w /\ nw_ctrl w' = nw_ctrl w /\ pci_space (nw_dev w') = pci_space (nw_dev w) /\ nw_irq w' = true))
    as (r & w' & E & -> & HQ); [|by exists w'].
  unfold nvme_find_controller. apply wp_bind. apply wp_pci_read; [lia|lia|set_solver|]. intros w1 E1 E2 E3 _.
  apply wp_scan; [lia|lia|]. intros w2 F1 F2 F3 F4. rewrite E1 in *.
  split; [reflexivity|]. split_and!; try congruence. exact F4.
Qed.
End search.

(** ** Queue creation *)

Section creation.
Context {D : Type} `{HR : NvmeRegs D}.
Context {pa_inv : buddy -> list (Z * Z) -> Prop} `{HL : !PageAllocatorLaws buddy pa_inv}.
Implicit Types (w : nvme_world D).

Definition heap_pages (h : heap buddy) (live : list (Z * Z)) : Prop :=
  exists b, sy_pages (h_slab h) = Some b /\ pa_inv b live.

(** A fresh block of memory that is cleared. *)
Lemma alloc_cleared (h : heap buddy) live bytes :
  heap_pages h live -> 0 < bytes <= 65536 ->
  let '(ptr, h1) := kmalloc_pages h (pages_for bytes) in
  (ptr = 0 /\ h1 = h) \/
  exists phys order,
    ptr <> 0 /\ ptr = phys + VIRT_PHYS_MAP_BASE /\ VIRT_TO_PHYS ptr = phys /\ Z.land phys (PAGE_SIZE - 1) = 0 /\
    bytes <= BUDDY_SIZE_FOR_ORDER order /\
    Forall (fun '(q, o) => phys + BUDDY_SIZE_FOR_ORDER order <= q \/ q + BUDDY_SIZE_FOR_ORDER o <= phys) live /\
    kmem h1 = kmem h /\ heap_pages h1 ((phys, order) :: live) /\
    (forall h2, h_slab h2 = h_slab h1 -> heap_pages (kfree_pages h2 ptr (pages_for bytes)) live).
Proof.
  intros (b & Hb & Hinv) Hn. assert (Hp : 0 < pages_for bytes /\ bytes <= 4096 * pages_for bytes).
  { unfold pages_for, PAGE_SIZE. dlia. }
  pose proof (kmalloc_pages_block h b live _ Hb Hinv (proj1 Hp)) as H1. destruct (kmalloc_pages h _) as [ptr h1].
  destruct H1 as [H1|(H1 & H2 & H3 & phys & o & b1 & -> & H4 & H5 & H6 & H7 & H8 & H9 & H10 & H11 & H12)]; [by left|].
  right. exists phys, o. rewrite H10. pose proof (Z.pow_nonneg 2 o ltac:(lia)). change (2 ^ 42) with 4398046511104 in H8.
  assert (Hr : 0 <= phys < 2 ^ 47) by (change (2 ^ 47) with 140737488355328; lia).
  split; [done|]. split; [by apply PHYS_TO_VIRT_eq|]. split; [by apply VIRT_PHYS_inv|].
  split; [unfold PAGE_SIZE in *; rewrite (Z.land_ones _ 12) by lia; exact H7|]. split; [lia|]. split; [exact H9|].
  split; [done|]. split; [by exists b1|]. intros h2 Hh2. exists (pa_free b1 phys).
  split; [|exact (pa_free_law b1 [] phys o live H12)]. apply kfree_pages_block; [by rewrite Hh2|done|done].
Qed.

Lemma memset_zero m p n a : p <= a < p + Z.of_nat n -> rd (memset m p 0 n) a = 0.
Proof.
  intros Ha. replace a with (p + Z.of_nat (Z.to_nat (a - p))) by lia.
  apply (bytes_at_lookup _ _ (replicate n 0)); [apply (memset_spec n m p 0)|]. apply lookup_replicate_2. lia.
Qed.
Lemma memset_frame m p n a : ~ p <= a < p + Z.of_nat n -> rd (memset m p 0 n) a = rd m a.
Proof. apply (memset_spec n m p 0). Qed.

(** The entries of a cleared completion queue carry the phase of no pass yet. *)
Lemma phases_cleared cq size m :
  (forall a, cq <= a < cq + 16 * size -> rd m a = 0) -> phases (cq := cq) (size := size) m 0.
Proof.
  intros Hz j Hj. unfold status_at. rewrite (rd_le_ext ∅).
  - rewrite Z.mod_0_l, (proj2 (Z.ltb_ge _ _)) by lia. unfold phase_of. by rewrite Z.div_0_l by lia.
  - intros a Ha. rewrite Hz by lia. done.
Qed.

(** C31. Creating a queue pair fails without leaking memory, or gives both queues
    page-aligned physical memory of their own, disjoint from each other and from every
    block in use, with every byte zero, the sizes recorded, the pointers at the first entry and the
    phase at one; any controller that is idle at its first entry is then in step with the driver. *)
Theorem nvme_init_queue_pair_ready w is_admin n live
    (Hheap : heap_pages (nw_heap w) live) (Hn : 1 <= n <= 1024) :
  exists e w',
    nvme_init_queue_pair is_admin n n w = Some (e, w') /\ nw_dev w' = nw_dev w /\
    ((e = E_NOMEM /\ heap_pages (nw_heap w') live) \/
     (e = E_OK /\ exists os oc,
        let qp := get_qp (nw_ctrl w') is_admin in
        let sq := qp_sq qp in
        let cq := qp_cq qp in
        heap_pages (nw_heap w') ((cq_phys qp, oc) :: (sq_phys qp, os) :: live) /\
        64 * n <= BUDDY_SIZE_FOR_ORDER os /\ 16 * n <= BUDDY_SIZE_FOR_ORDER oc /\
        Z.land (sq_phys qp) (PAGE_SIZE - 1) = 0 /\ Z.land (cq_phys qp) (PAGE_SIZE - 1) = 0 /\
        (sq + 64 * n <= cq \/ cq + 16 * n <= sq) /\
        (forall p o, (p, o) ∈ live -> (sq_phys qp + BUDDY_SIZE_FOR_ORDER os <= p \/ p + BUDDY_SIZE_FOR_ORDER o <= sq_phys qp) /\
           (cq_phys qp + BUDDY_SIZE_FOR_ORDER oc <= p \/ p + BUDDY_SIZE_FOR_ORDER o <= cq_phys qp)) /\
        VIRT_TO_PHYS sq = sq_phys qp /\ VIRT_TO_PHYS cq = cq_phys qp /\
        (forall a, sq <= a < sq + 64 * n -> rd (kmem (nw_heap w')) a = 0) /\
        (forall a, cq <= a < cq + 16 * n -> rd (kmem (nw_heap w')) a = 0) /\
        sq_size qp = n /\ cq_size qp = n /\ sq_tail qp = 0 /\ cq_head qp = 0 /\ cq_phase qp = 1 /\
        forall NQ : NvmeQueue D (bar0 (nw_ctrl w)) is_admin sq cq n,
          q_done (nw_dev w) = 0 -> q_busy (nw_dev w) = None -> ring (is_admin := is_admin) w' 0)).
Proof.
  destruct w as [d h c irq]. cbn [nw_heap nw_dev nw_ctrl] in *.
  unfold nvme_init_queue_pair, nv_mem, io_bind, nv_heap, nv_get, nv_ctrl, io_ret.
  cbn [nw_heap nw_dev nw_ctrl]. change sizeof_sq_entry with 64. change sizeof_cq_entry with 16.
  pose proof (alloc_cleared h live (n * 64) Hheap ltac:(lia)) as HS.
  destruct (kmalloc_pages h (pages_for (n * 64))) as [sq h1].
  destruct HS as [[-> ->]|(ps & os & Hs0 & Es & Vs & As & Ls & Fs & Ms & Hs & Hfree)].
  { cbn. eexists _, _. split; [done|]. split; [done|]. by left. }
  rewrite (proj2 (Z.eqb_neq _ _) Hs0). cbv beta iota. cbn [nw_heap nw_dev nw_ctrl]. set (h2 := with_kmem h1 (memset (kmem h1) sq 0 (Z.to_nat (n * 64)))).
  pose proof (alloc_cleared h2 ((ps, os) :: live) (n * 16) Hs ltac:(lia)) as HC.
  assert (Hh2 : h_slab h2 = h_slab h1) by done. assert (Zs : kmem h2 = memset (kmem h1) sq 0 (Z.to_nat (n * 64))) by done. clearbody h2.
  destruct (kmalloc_pages h2 (pages_for (n * 16))) as [cq h3].
  destruct HC as [[-> ->]|(pc & oc & Hc0 & Ec & Vc & Ac & Lc & Fc & Mc & Hc & _)].
  { cbn [Z.eqb]. eexists _, _. split; [reflexivity|]. split; [done|]. left. split; [done|]. by apply Hfree. }
  rewrite (proj2 (Z.eqb_neq _ _) Hc0). cbv beta iota. cbn [nw_heap nw_dev nw_ctrl]. rewrite Vs, Vc, As, Ac.
  cbn [Z.eqb negb]. eexists _, _. split; [reflexivity|]. split; [done|]. right. split; [done|]. exists os, oc.
  cbv zeta. cbn [nw_heap nw_dev nw_ctrl]. rewrite !get_set_qp. cbn [qp_sq qp_cq sq_phys cq_phys].
  apply Forall_cons in Fc as [Hdis Fl]. rewrite Forall_forall in Fs, Fl.
  split; [exact Hc|]. split; [lia|]. split; [lia|]. split; [done|]. split; [done|]. split; [lia|].
  split; [intros p o Hin; exact (conj (Fs _ Hin) (Fl _ Hin))|]. split; [exact Vs|]. split; [exact Vc|]. cbn [kmem with_kmem].
  split; [intros a Ha; rewrite memset_frame, Mc, Zs by lia; apply memset_zero; lia|].
  split; [intros a Ha; apply memset_zero; lia|]. do 5 (split; [done|]).
  intros NQ Hd Hb. split; cbn [nw_heap nw_dev nw_ctrl].
  - by rewrite !bar0_set_qp.
  - rewrite !get_set_qp. cbn. unfold phase_of. by rewrite Z.mod_0_l, Z.div_0_l by lia.
  - done.
  - lia.
  - cbn [kmem with_kmem]. apply phases_cleared. intros a Ha. apply memset_zero. lia.
Qed.
End creation.

(** ** The fields of a transfer *)

(** A transfer from or to a buffer of the direct map carries the buffer's virtual
    address, not its physical one, and names the namespace that was found as number
    [i] only when the block layer had registered exactly [i] devices before. *)
Theorem nvme_transfer_fields op cid dev lba phys i :
  0 <= phys < 2 ^ 42 -> 0 <= dev < 2 ^ 32 - 1 ->
  let e := io_command op cid dev lba (PHYS_TO_VIRT phys) in
  VIRT_TO_PHYS (prp1 e) = phys /\ prp1 e <> phys /\ (nsid e = i + 1 <-> dev = i).
Proof.
  change (2 ^ 42) with 4398046511104. change (2 ^ 32) with 4294967296. intros Hp Hd. cbv zeta. cbn [io_command prp1 nsid].
  assert (Hr : 0 <= phys < 2 ^ 47) by (change (2 ^ 47) with 140737488355328; lia).
  split; [by apply VIRT_PHYS_inv|]. rewrite PHYS_TO_VIRT_eq by done. unfold VIRT_PHYS_MAP_BASE. rewrite u32_small by lia. lia.
Qed.

(** ** A bus with two devices: a host bridge, and an NVMe controller in slot 3 *)

Module SimPci.
Record device := mkPci { selected : Z }.

Definition space (b s offset : Z) : Z :=
  if (b =? 0) && (s =? 0) then (if offset =? 0 then 0x12378086 else 0x06000002)
  else if (b =? 0) && (s =? 3) then (if offset =? 0 then 0x00101B36 else 0x01080202)
  else 0xFFFFFFFF.

#[global] Instance pci_bus : PortBus device := {|
  bus_in8 _ d := (0, d); bus_out8 _ _ d := d;
  bus_in16 _ d := (0, d); bus_out16 _ _ d := d;
  bus_in32 _ d := (space (selected d / 65536 mod 256) (selected d / 2048 mod 32) (selected d mod 256), d);
  bus_out32 port v d := if port =? PCI_CONFIG_ADDRESS then mkPci v else d |}.

#[global] Instance pci_config : PciConfig device.
Proof.
  refine {| pci_space _ := space |}.
  - intros _ b s offset. unfold space. repeat case_match; lia.
  - intros d b s offset Hb Hs Ho. cbn. split; [|done].
    assert (Hk : offset = 0 \/ offset = 8) by set_solver. unfold config_address. f_equal; dlia.
Defined.

Definition start : nvme_world device :=
  let qp := mkQp 0 0 0 0 0 0 0 0 0 in mkNw (mkPci 0) kernel_heap (mkCtrl 0 qp qp 0 0 0) false.
End SimPci.

Lemma sim_found : head (filter (fun i => nvme_at SimPci.space i = true) (seqZ 0 8192)) = Some 3.
Proof. vm_compute. reflexivity. Qed.

Lemma nvme_find_controller_first_witness :
  exists w', nvme_find_controller SimPci.start = Some (Some (0, 3, 0), w') /\ nw_heap w' = kernel_heap /\ nw_irq w' = true.
Proof.
  destruct (nvme_find_controller_first SimPci.start) as (w' & E & Hh & _ & _ & Hi). exists w'. split; [|split; [exact Hh|exact Hi]].
  cbn [pci_space SimPci.pci_config] in E. rewrite sim_found in E. exact E.
Defined.

Lemma kernel_heap_pages : heap_pages (pa_inv := buddy_pa_inv) kernel_heap [].
Proof. exists kernel_buddy. exact kernel_pages. Qed.

Definition sim_blank : nvme_world Sim.device := mkNw (Sim.mkSim 0 None []) kernel_heap (nw_ctrl Sim.start) false.
Lemma sim_created_ok : (fst <$> nvme_init_queue_pair false 1024 1024 sim_blank) = Some E_OK.
Proof. vm_compute. reflexivity. Qed.

Lemma nvme_init_queue_pair_ready_witness :
  exists w' os oc, nvme_init_queue_pair false 1024 1024 sim_blank = Some (E_OK, w') /\
    heap_pages (pa_inv := buddy_pa_inv) (nw_heap w')
      [(cq_phys (io_queue (nw_ctrl w')), oc); (sq_phys (io_queue (nw_ctrl w')), os)].
Proof.
  destruct (nvme_init_queue_pair_ready sim_blank false 1024 [] kernel_heap_pages ltac:(lia)) as (e & w' & E & _ & H).
  pose proof sim_created_ok as Hok. rewrite E in Hok. injection Hok as ->.
  destruct H as [[H _]|(_ & os & oc & Hp & _)]; [discriminate H|]. exists w', os, oc. split; [exact E|exact Hp].
Defined.
