(* ===== verification/Panic.v ===== *)
(** * Kernel panic: error_handling/kernel_panic.h, error_handling/kernel_panic.c

    The panic functions write to the screen memory directly, in cells indexed from
    its start, and to the serial port.  They end in a loop of [hlt]: the state that the model
    returns is the one the machine stops in.  The text that a function prints is
    a list of [panic_vga_puts] calls, each with its foreground colour; the registers, which
    come from inline assembly, the timer ticks and the page manager are arguments. *)

From S2P Require Import Prelude MemLayout CString Bitmap Pmm Ports Serial Idt Console Vga Reports.

Record stack_frame_t := mkFrame { rbp : Z; rsp : Z; rip : Z; cr2 : Z; cr3 : Z }.

Definition PANIC_BG : Z := CONSOLE_COLOR_BLUE.
Definition PANIC_FG : Z := CONSOLE_COLOR_WHITE.
Definition PANIC_HEADER_FG : Z := CONSOLE_COLOR_LIGHT_CYAN.
Definition PANIC_ERROR_FG : Z := CONSOLE_COLOR_LIGHT_RED.

(** ** The screen *)

Record panic_screen := mkPanic { vga_mem : gmap Z Z; vga_row : Z; vga_col : Z }.

Definition panic_vga_putc (c fg bg : Z) (s : panic_screen) : panic_screen :=
  if c =? 10 then
    let row := vga_row s + 1 in
    mkPanic (vga_mem s) (if 25 <=? row then 24 else row) 0
  else
    let row := if 25 <=? vga_row s then 24 else vga_row s in
    let '(row, col) := if 80 <=? vga_col s then (row + 1, 0) else (row, vga_col s) in
    mkPanic (wr (vga_mem s) (row * 80 + col) (cell_of (mkColor fg bg) c)) row (col + 1).

Definition panic_vga_puts (text : list Z) (fg bg : Z) (s : panic_screen) : panic_screen :=
  foldl (fun s c => panic_vga_putc c fg bg s) s text.

Definition panic_vga_clear (fg bg : Z) (s : panic_screen) : panic_screen :=
  let blank := cell_of (mkColor fg bg) 32 in
  mkPanic (for_range 0 (80 * 25) (fun i m => wr m i blank) (vga_mem s)) 0 0.

(** A sequence of calls [panic_vga_puts(text, fg, PANIC_BG)]. *)
Abbreviation texts := (list (list Z * Z)).
Definition show (ts : texts) (s : panic_screen) : panic_screen :=
  foldl (fun s '(text, fg) => panic_vga_puts text fg PANIC_BG s) s ts.

Definition panic_print_header : texts := [
  (lit "\n", PANIC_FG);
  (lit "  ========================================\n", PANIC_HEADER_FG);
  (lit "  ||                                    ||\n", PANIC_HEADER_FG);
  (lit "  ||      KERNEL PANIC - IGNIS OS       ||\n", PANIC_HEADER_FG);
  (lit "  ||                                    ||\n", PANIC_HEADER_FG);
  (lit "  ========================================\n", PANIC_HEADER_FG);
  (lit "\n", PANIC_FG)].

Definition panic_print_system_state (ticks : Z) (p : pmm) : texts :=
  let seconds := ticks / 100 in
  let hours := seconds / 3600 in
  let minutes := (seconds mod 3600) / 60 in
  let secs := seconds mod 60 in
  [(lit "  System Uptime: ", PANIC_HEADER_FG);
   (uitoa_chars hours, PANIC_FG); (lit "h ", PANIC_FG);
   (uitoa_chars minutes, PANIC_FG); (lit "m ", PANIC_FG);
   (uitoa_chars secs, PANIC_FG); (lit "s\n", PANIC_FG);
   (lit "  Free Memory:   ", PANIC_HEADER_FG);
   (uitoa_chars (pmm_get_free_memory p / 1024), PANIC_FG); (lit " KB / ", PANIC_FG);
   (uitoa_chars (pmm_get_total_memory p / 1024), PANIC_FG); (lit " KB\n", PANIC_FG);
   (lit "\n", PANIC_FG)].

Definition panic_print_registers (frame : stack_frame_t) : texts := [
  (lit "  Register Dump:\n", PANIC_HEADER_FG);
  (lit "    RBP: 0x", PANIC_FG); (uitoa_chars (rbp frame), PANIC_FG);
  (lit "    RSP: 0x", PANIC_FG); (uitoa_chars (rsp frame), PANIC_FG); (lit "\n", PANIC_FG);
  (lit "    RIP: 0x", PANIC_FG); (uitoa_chars (rip frame), PANIC_FG); (lit "\n", PANIC_FG);
  (lit "    CR2: 0x", PANIC_FG); (uitoa_chars (cr2 frame), PANIC_FG);
  (lit "    CR3: 0x", PANIC_FG); (uitoa_chars (cr3 frame), PANIC_FG); (lit "\n\n", PANIC_FG)].

Definition panic_footer : texts := [
  (lit "  ========================================\n", PANIC_HEADER_FG);
  (lit "  System halted. Please reboot.\n", PANIC_HEADER_FG);
  (lit "  ========================================\n", PANIC_HEADER_FG)].

(** [None] stands for a null pointer. *)
Definition panic_location (file : option (list Z)) (line : Z) (function : option (list Z)) : texts :=
  match file, function with
  | None, None => []
  | _, _ =>
      [(lit "  Location:\n", PANIC_HEADER_FG)] ++
      (match file with
       | None => []
       | Some f =>
           [(lit "    File: ", PANIC_FG); (f, PANIC_FG); (lit "\n", PANIC_FG)] ++
           (if 0 <? line then [(lit "    Line: ", PANIC_FG); (uitoa_chars line, PANIC_FG); (lit "\n", PANIC_FG)] else [])
       end) ++
      (match function with
       | None => []
       | Some f => [(lit "    Function: ", PANIC_FG); (f, PANIC_FG); (lit "\n", PANIC_FG)]
       end) ++
      [(lit "\n", PANIC_FG)]
  end.

(** What the serial port gets. *)
Definition panic_log_to_serial (message : list Z) (file : option (list Z)) (line : Z) (function : option (list Z)) : list (list Z) :=
  [lit "\n\n"; lit "*** KERNEL PANIC ***\n"; lit "Message: "; message; lit "\n"] ++
  (match file with
   | None => []
   | Some f => [lit "File: "; f; lit "\n"; lit "Line: "; uitoa_chars (u64 line); lit "\n"]
   end) ++
  (match function with None => [] | Some f => [lit "Function: "; f; lit "\n"] end) ++
  [lit "\n"].

(** ** The panic functions *)

Definition recursive_text : list Z := lit "RECURSIVE PANIC DETECTED!\n".

Record panic_sys (D : Type) := mkPs { pn_cpu : cpu D; panic_in_progress : bool; pn_screen : panic_screen }.
Arguments mkPs {D}. Arguments pn_cpu {D}. Arguments panic_in_progress {D}. Arguments pn_screen {D}.

Section panic.
Context {D : Type} `{PortBus D}.
(** [fuel] bounds the waits for the serial transmitter. *)
Variable (fuel : nat).

Definition on_cpu {A} (m : io (cpu D) A) : io (panic_sys D) A := fun s =>
  match m (pn_cpu s) with Some (a, c) => Some (a, mkPs c (panic_in_progress s) (pn_screen s)) | None => None end.
Definition on_port {A} (m : io D A) : io (panic_sys D) A := on_cpu (fun c =>
  match m (c_bus c) with Some (a, d) => Some (a, set_bus d c) | None => None end).
Definition on_screen (f : panic_screen -> panic_screen) : io (panic_sys D) unit := fun s =>
  Some (tt, mkPs (pn_cpu s) (panic_in_progress s) (f (pn_screen s))).

Fixpoint log (ls : list (list Z)) : io (panic_sys D) unit :=
  match ls with
  | [] => io_ret tt
  | l :: ls => on_port (serial_puts fuel COM1 l) ;;; log ls
  end.

(** [body] runs when no panic is in progress. *)
Definition panic_once (body : io (panic_sys D) unit) : io (panic_sys D) unit :=
  on_cpu idt_disable_interrupts ;;;
  fun s =>
    if panic_in_progress s then log [recursive_text] s
    else body (mkPs (pn_cpu s) true (pn_screen s)).

Definition kernel_panic_with_context (message : list Z) (file : option (list Z)) (line : Z) (function : option (list Z))
    (ticks : Z) (p : pmm) (frame : stack_frame_t) : io (panic_sys D) unit :=
  panic_once (
    log (panic_log_to_serial message file line function) ;;;
    on_screen (panic_vga_clear PANIC_FG PANIC_BG) ;;;
    on_screen (show panic_print_header) ;;;
    on_screen (show [(lit "  ERROR: ", PANIC_ERROR_FG); (message, PANIC_ERROR_FG); (lit "\n\n", PANIC_FG)]) ;;;
    on_screen (show (panic_location file line function)) ;;;
    on_screen (show (panic_print_system_state ticks p)) ;;;
    on_screen (show (panic_print_registers frame)) ;;;
    on_screen (show panic_footer)).

Definition kernel_panic (message : list Z) := kernel_panic_with_context message None 0 None.

Definition kernel_panic_with_error (message : list Z) (error_code ticks : Z) (p : pmm) (frame : stack_frame_t) :
    io (panic_sys D) unit :=
  panic_once (
    on_screen (panic_vga_clear PANIC_FG PANIC_BG) ;;;
    on_screen (show panic_print_header) ;;;
    on_screen (show [(lit "  ERROR: ", PANIC_ERROR_FG); (message, PANIC_ERROR_FG); (lit "\n", PANIC_FG);
      (lit "  Error Code: ", PANIC_FG); (uitoa_chars (u64 error_code), PANIC_FG); (lit "\n\n", PANIC_FG)]) ;;;
    on_screen (show (panic_print_system_state ticks p)) ;;;
    on_screen (show (panic_print_registers frame)) ;;;
    on_screen (show panic_footer) ;;;
    log (panic_log_to_serial message None 0 None) ;;;
    log [lit "Error code: "; uitoa_chars (u64 error_code); lit "\n"]).
End panic.

(** ** What the screen shows *)

(** The characters of a sequence of texts with their colours, and the rows they
    form. *)
Definition glyphs (ts : texts) : list (Z * Z) := mjoin ((fun '(text, fg) => (fun c => (c, fg)) <$> text) <$> ts).

Fixpoint layout (rows : list (list (Z * Z))) (cur : list (Z * Z)) (gs : list (Z * Z)) : list (list (Z * Z)) :=
  match gs with
  | [] => rows ++ [cur]
  | (c, fg) :: gs => if c =? 10 then layout (rows ++ [cur]) [] gs else layout rows (cur ++ [(c, fg)]) gs
  end.
Definition panic_rows (ts : texts) : list (list (Z * Z)) := layout [] [] (glyphs ts).

(** The rows fit the screen of 25 rows and 80 columns; a newline may follow the
    last one. *)
Definition fits (rows : list (list (Z * Z))) : Prop :=
  (length rows <= 26)%nat /\ Forall (fun row => (length row <= 80)%nat) rows /\ default [] (rows !! 25%nat) = [].

(** The cell of row [r] and column [c] when the screen shows [rows]. *)
Definition shown (rows : list (list (Z * Z))) (r c : nat) : Z :=
  match rows !! r ≫= (.!! c) with
  | Some (ch, fg) => cell_of (mkColor fg PANIC_BG) ch
  | None => cell_of (mkColor PANIC_FG PANIC_BG) 32
  end.

(** The screen shows [rows] and [cur], with the cursor behind [cur]. *)
Definition screen_is (s : panic_screen) (rows : list (list (Z * Z))) (cur : list (Z * Z)) : Prop :=
  vga_row s = Z.of_nat (length rows) /\ vga_col s = Z.of_nat (length cur) /\
  forall r c : nat, (r < 25)%nat -> (c < 80)%nat ->
    rd (vga_mem s) (Z.of_nat r * 80 + Z.of_nat c) = shown (rows ++ [cur]) r c.

Definition put_glyph (s : panic_screen) (g : Z * Z) : panic_screen := panic_vga_putc (fst g) (snd g) PANIC_BG s.

Lemma show_glyphs ts s : show ts s = foldl put_glyph s (glyphs ts).
Proof.
  revert s. induction ts as [|[text fg] ts IH]; intros s; [done|].
  change (glyphs ((text, fg) :: ts)) with (((fun c => (c, fg)) <$> text) ++ glyphs ts).
  rewrite foldl_app. cbn [show foldl]. fold (show ts). rewrite <- IH. unfold show. f_equal.
  revert s. induction text as [|c text IHt]; intros s; [done|]. apply IHt.
Qed.

Lemma show_app ts us s : show us (show ts s) = show (ts ++ us) s.
Proof. unfold show. by rewrite foldl_app. Qed.

(** The rows of a layout extend the ones it starts from. *)
Lemma layout_extends rows cur gs :
  exists suffix rest, layout rows cur gs = rows ++ (cur ++ suffix) :: rest.
Proof.
  revert rows cur. induction gs as [|[c fg] gs IH]; intros rows cur; cbn [layout].
  - exists [], []. by rewrite app_nil_r.
  - case_match.
    + destruct (IH (rows ++ [cur]) []) as (x & y & ->). exists [], (([] ++ x) :: y).
      by rewrite <- (assoc_L (++)), app_nil_r.
    + destruct (IH rows (cur ++ [(c, fg)])) as (x & y & ->). exists ((c, fg) :: x), y. by rewrite <- (assoc_L (++)).
Qed.

Lemma layout_fits rows cur gs :
  fits (layout rows cur gs) ->
  ((length rows < 25)%nat /\ (length cur <= 80)%nat) \/ (length rows = 25%nat /\ cur = [] /\ gs = []).
Proof.
  intros Hf. assert (Hx : exists suffix rest, layout rows cur gs = rows ++ (cur ++ suffix) :: rest) by apply layout_extends.
  destruct Hx as (x & y & E). pose proof Hf as (Hl & Hf80 & H25). rewrite E in Hl, Hf80, H25.
  apply Forall_app in Hf80 as [_ Hf80]. apply Forall_cons in Hf80 as [Hc _]. rewrite length_app in *. cbn in Hl.
  destruct (decide (length rows < 25)%nat) as [Hlt|Hge]; [left; lia|right].
  assert (Hr : length rows = 25%nat) by lia. rewrite list_lookup_middle in H25 by done. cbn in H25.
  apply app_eq_nil in H25 as [-> ->]. split; [done|]. split; [done|]. destruct gs as [|[c fg] gs]; [done|exfalso].
  cbn [layout] in E, Hf. destruct (c =? 10).
  - destruct (layout_extends (rows ++ [[]]) [] gs) as (x' & y' & E'). rewrite E' in Hf. destruct Hf as [Hf _].
    rewrite !length_app in Hf. cbn in Hf. lia.
  - destruct (layout_extends rows ([] ++ [(c, fg)]) gs) as (x' & y' & E'). rewrite E' in Hf. destruct Hf as (_ & _ & Hf).
    rewrite list_lookup_middle in Hf by done. discriminate Hf.
Qed.

Lemma shown_newline rows cur r c : shown ((rows ++ [cur]) ++ [[]]) r c = shown (rows ++ [cur]) r c.
Proof.
  unfold shown. destruct (decide (r < length (rows ++ [cur]))%nat) as [Hlt|Hge]; [by rewrite lookup_app_l|].
  rewrite lookup_app_r, (lookup_ge_None_2 (rows ++ [cur]) r) by lia. by destruct (r - _)%nat.
Qed.

Lemma shown_put rows cur g r c :
  shown (rows ++ [cur ++ [g]]) r c =
  if decide (r = length rows /\ c = length cur) then cell_of (mkColor (snd g) PANIC_BG) (fst g)
  else shown (rows ++ [cur]) r c.
Proof.
  unfold shown. destruct (decide (r < length rows)%nat) as [Hlt|Hge].
  { rewrite !lookup_app_l by done. by rewrite decide_False by lia. }
  rewrite !lookup_app_r by lia. destruct (r - length rows)%nat as [|k] eqn:Ek; cbn.
  - destruct (decide (c = length cur)) as [->|Hc].
    + rewrite decide_True by lia. rewrite list_lookup_middle by done. by destruct g.
    + rewrite decide_False by lia. destruct (decide (c < length cur)%nat); [by rewrite lookup_app_l|].
      rewrite lookup_app_r, (lookup_ge_None_2 cur c) by lia.
      by destruct (c - length cur)%nat as [|j] eqn:Ej; [lia|].
  - by rewrite decide_False by lia.
Qed.

Lemma put_glyphs_shows gs s rows cur :
  screen_is s rows cur -> fits (layout rows cur gs) ->
  forall r c : nat, (r < 25)%nat -> (c < 80)%nat ->
    rd (vga_mem (foldl put_glyph s gs)) (Z.of_nat r * 80 + Z.of_nat c) = shown (layout rows cur gs) r c.
Proof.
  revert s rows cur. induction gs as [|[c fg] gs IH]; intros s rows cur Hs Hf; [apply Hs|].
  cbn [foldl layout] in *. unfold put_glyph at 2. cbn [fst snd].
  destruct Hs as (Hr & Hc & Hm). unfold panic_vga_putc. destruct (c =? 10) eqn:Ec.
  - destruct (layout_fits _ _ _ Hf) as [[H1 _]|(_ & _ & ->)].
    + apply IH; [|done]. rewrite length_app in H1. cbn in H1.
      split; cbn [vga_row vga_col vga_mem]; [|split; [done|]].
      * rewrite Hr, length_app. cbn. destruct (Z.leb_spec 25 (Z.of_nat (length rows) + 1)); lia.
      * intros r k Hr25 Hk. rewrite shown_newline. by apply Hm.
    + intros r k Hr25 Hk. cbn [foldl layout vga_mem]. rewrite shown_newline. by apply Hm.
  - destruct (layout_fits _ _ _ Hf) as [[H1 H2]|(_ & H & _)]; [|by destruct cur].
    rewrite length_app in H2. cbn in H2.
    rewrite Hr, Hc, (proj2 (Z.leb_gt 25 _)), (proj2 (Z.leb_gt 80 _)) by lia. apply IH; [|done].
    split; cbn [vga_row vga_col vga_mem]; [done|]. split; [rewrite length_app; cbn; lia|].
    intros r k Hr25 Hk. rewrite (shown_put rows cur (c, fg)). case_decide as Hd; cbn [fst snd].
    + destruct Hd as [-> ->]. apply rd_wr_eq.
    + rewrite rd_wr_ne by lia. by apply Hm.
Qed.

Lemma cleared_screen s : screen_is (panic_vga_clear PANIC_FG PANIC_BG s) [] [].
Proof.
  split; [done|]. split; [done|]. intros r c Hr Hc. unfold panic_vga_clear. cbn [vga_mem].
  pose proof (rd_for_range_wr 0 (80 * 25) 0 (fun _ => cell_of (mkColor PANIC_FG PANIC_BG) 32) (vga_mem s) (Z.of_nat r * 80 + Z.of_nat c)) as E.
  etransitivity; [exact E|]. rewrite (proj2 (Z.leb_le _ _)), (proj2 (Z.ltb_lt _ _)) by lia. cbn [andb].
  unfold shown. by destruct r as [|[|r]].
Qed.

(** ** Theorems *)

Lemma wp_run' {S} (m : io S unit) (s : S) (P : S -> Prop) :
  wp m s (fun _ s' => P s') -> exists s', m s = Some (tt, s') /\ P s'.
Proof. intros Hw. apply wp_run in Hw as ([] & s' & E & HP). by exists s'. Qed.

Section reports.
Context {D : Type} `{HB : PortBus D} {HU : Uart D COM1}.
Variable (fuel : nat).
Hypothesis Hfuel : (uart_slow < fuel)%nat.

Lemma crlf_app s1 s2 : crlf (s1 ++ s2) = crlf s1 ++ crlf s2.
Proof. induction s1 as [|c s1 IH]; [done|]. cbn [crlf app]. by rewrite IH, <- (assoc_L (++)). Qed.

Lemma wp_log ls (s : panic_sys D) (Q : unit -> panic_sys D -> Prop) :
  (forall c, uart_sent (c_bus c) = uart_sent (c_bus (pn_cpu s)) ++ crlf (mjoin ls) ->
     interrupts_on c = interrupts_on (pn_cpu s) -> Q tt (mkPs c (panic_in_progress s) (pn_screen s))) ->
  wp (log fuel ls) s Q.
Proof.
  revert s Q. induction ls as [|l ls IH]; intros s Q HQ.
  { apply wp_ret. destruct s as [c b sc]. apply HQ; [by rewrite app_nil_r|done]. }
  cbn [log]. apply wp_bind. unfold wp at 1, on_port, on_cpu.
  assert (Hp : 0 <= COM1 < 65528) by (unfold COM1; lia).
  pose proof (wp_serial_puts Hp fuel l (c_bus (pn_cpu s)) (fun _ d' => uart_sent d' = uart_sent (c_bus (pn_cpu s)) ++ crlf l)
    Hfuel (fun d' E => E)) as Hw.
  unfold wp in Hw. destruct (serial_puts fuel COM1 l (c_bus (pn_cpu s))) as [[[] d]|]; [|done].
  apply IH. cbn [pn_cpu panic_in_progress pn_screen c_bus set_bus cpu_bus interrupts_on]. intros c Hc Hi. apply HQ; [|done].
  change (mjoin (l :: ls)) with (l ++ mjoin ls). by rewrite Hc, Hw, <- (assoc_L (++)), crlf_app.
Qed.

Lemma wp_on_screen f (s : panic_sys D) (Q : unit -> panic_sys D -> Prop) :
  Q tt (mkPs (pn_cpu s) (panic_in_progress s) (f (pn_screen s))) -> wp (on_screen f) s Q.
Proof. done. Qed.

Definition cli (c : cpu D) : cpu D := mkCpu (c_bus c) (idt c) (idt_ptr c) (idt_loaded c) false.

#[local] Opaque log.
Lemma panic_once_eq body (s : panic_sys D) :
  panic_once fuel body s =
  let s1 := mkPs (cli (pn_cpu s)) true (pn_screen s) in
  if panic_in_progress s then log fuel [recursive_text] s1 else body s1.
Proof. destruct s as [c [] sc]; unfold panic_once, io_bind, on_cpu, idt_disable_interrupts; reflexivity. Qed.
#[local] Transparent log.

Lemma wp_panic_first body (s : panic_sys D) (Q : unit -> panic_sys D -> Prop) :
  panic_in_progress s = false -> wp body (mkPs (cli (pn_cpu s)) true (pn_screen s)) Q -> wp (panic_once fuel body) s Q.
Proof. intros Hf Hw. unfold wp in *. rewrite panic_once_eq, Hf. exact Hw. Qed.

(** The texts of a panic screen. *)
Definition context_texts (message : list Z) (file : option (list Z)) (line : Z) (function : option (list Z))
    (ticks : Z) (p : pmm) (frame : stack_frame_t) : texts :=
  panic_print_header ++ [(lit "  ERROR: ", PANIC_ERROR_FG); (message, PANIC_ERROR_FG); (lit "\n\n", PANIC_FG)] ++
  panic_location file line function ++ panic_print_system_state ticks p ++ panic_print_registers frame ++ panic_footer.

Lemma shows_texts ts s :
  fits (panic_rows ts) ->
  forall r c : nat, (r < 25)%nat -> (c < 80)%nat ->
    rd (vga_mem (show ts (panic_vga_clear PANIC_FG PANIC_BG s))) (Z.of_nat r * 80 + Z.of_nat c) = shown (panic_rows ts) r c.
Proof.
  intros Hf r c Hr Hc. rewrite show_glyphs.
  by apply (put_glyphs_shows (glyphs ts) _ [] []); [apply cleared_screen|..].
Qed.

(** C33. A panic is reported on both outputs.  The first panic switches the interrupts
    off, sends the whole report over the serial port, and leaves a screen of which
    every cell shows the header, the error message, the location, the system state, the
    registers and the footer, row by row on a blank background, whenever these
    rows fit the screen. *)
Theorem panic_reports message file line function ticks p frame (s : panic_sys D)
    (Hfirst : panic_in_progress s = false)
    (Hfits : fits (panic_rows (context_texts message file line function ticks p frame))) :
  exists s', kernel_panic_with_context fuel message file line function ticks p frame s = Some (tt, s') /\
    interrupts_on (pn_cpu s') = false /\ panic_in_progress s' = true /\
    uart_sent (c_bus (pn_cpu s')) =
      uart_sent (c_bus (pn_cpu s)) ++ crlf (mjoin (panic_log_to_serial message file line function)) /\
    forall r c : nat, (r < 25)%nat -> (c < 80)%nat ->
      rd (vga_mem (pn_screen s')) (Z.of_nat r * 80 + Z.of_nat c) =
      shown (panic_rows (context_texts message file line function ticks p frame)) r c.
Proof.
  apply wp_run'. apply wp_panic_first; [done|]. apply wp_bind, wp_log. intros c Hc Hi.
  do 6 (apply wp_bind, wp_on_screen). apply wp_on_screen. cbn [pn_cpu panic_in_progress pn_screen].
  split; [exact Hi|]. split; [done|]. split; [exact Hc|]. rewrite !show_app. by apply shows_texts.
Qed.

(** A panic inside a panic only adds one line to the serial output: the screen of
    the first panic stays as it is. *)
Theorem panic_recursion_stops message file line function ticks p frame error_code (s : panic_sys D)
    (Hagain : panic_in_progress s = true) :
  exists s', kernel_panic_with_context fuel message file line function ticks p frame s = Some (tt, s') /\
    kernel_panic_with_error fuel message error_code ticks p frame s = Some (tt, s') /\
    pn_screen s' = pn_screen s /\ interrupts_on (pn_cpu s') = false /\ panic_in_progress s' = true /\
    uart_sent (c_bus (pn_cpu s')) = uart_sent (c_bus (pn_cpu s)) ++ crlf recursive_text.
Proof.
  unfold kernel_panic_with_context, kernel_panic_with_error. rewrite !panic_once_eq, Hagain. cbv zeta.
  destruct (wp_run (log fuel [recursive_text]) (mkPs (cli (pn_cpu s)) true (pn_screen s)) (fun _ s' =>
    pn_screen s' = pn_screen s /\ interrupts_on (pn_cpu s') = false /\ panic_in_progress s' = true /\
    uart_sent (c_bus (pn_cpu s')) = uart_sent (c_bus (pn_cpu s)) ++ crlf recursive_text))
    as ([] & s' & E & H1); [|by exists s'].
  apply wp_log. intros c Hc Hi. split; [done|]. split; [exact Hi|]. by split.
Qed.

(** The texts of [kernel_panic_with_error]. *)
Definition error_texts (message : list Z) (error_code ticks : Z) (p : pmm) (frame : stack_frame_t) : texts :=
  panic_print_header ++ [(lit "  ERROR: ", PANIC_ERROR_FG); (message, PANIC_ERROR_FG); (lit "\n", PANIC_FG);
    (lit "  Error Code: ", PANIC_FG); (uitoa_chars (u64 error_code), PANIC_FG); (lit "\n\n", PANIC_FG)] ++
  panic_print_system_state ticks p ++ panic_print_registers frame ++ panic_footer.

(** The same for a panic with an error code, which reaches the serial port after the
    screen. *)
Theorem panic_error_reports message error_code ticks p frame (s : panic_sys D)
    (Hfirst : panic_in_progress s = false) (Hfits : fits (panic_rows (error_texts message error_code ticks p frame))) :
  exists s', kernel_panic_with_error fuel message error_code ticks p frame s = Some (tt, s') /\
    interrupts_on (pn_cpu s') = false /\ panic_in_progress s' = true /\
    uart_sent (c_bus (pn_cpu s')) = (uart_sent (c_bus (pn_cpu s)) ++ crlf (mjoin (panic_log_to_serial message None 0 None))) ++
      crlf (mjoin [lit "Error code: "; uitoa_chars (u64 error_code); lit "\n"]) /\
    forall r c : nat, (r < 25)%nat -> (c < 80)%nat ->
      rd (vga_mem (pn_screen s')) (Z.of_nat r * 80 + Z.of_nat c) =
      shown (panic_rows (error_texts message error_code ticks p frame)) r c.
Proof.
  apply wp_run'. apply wp_panic_first; [done|]. do 6 (apply wp_bind, wp_on_screen). apply wp_bind, wp_log. intros c Hc Hi.
  apply wp_log. intros c' Hc' Hi'. cbn [pn_cpu panic_in_progress pn_screen] in *.
  split; [by rewrite Hi'|]. split; [done|]. split; [rewrite Hc', Hc; reflexivity|].
  rewrite !show_app. by apply shows_texts.
Qed.
End reports.

(** ** Bounds *)

Definition cursor_ok (s : panic_screen) : Prop := 0 <= vga_row s <= 25 /\ 0 <= vga_col s <= 80.

Lemma putc_bounds c fg bg s :
  cursor_ok s -> cursor_ok (panic_vga_putc c fg bg s) /\
  forall a, ~ 0 <= a <= 2000 -> rd (vga_mem (panic_vga_putc c fg bg s)) a = rd (vga_mem s) a.
Proof.
  unfold cursor_ok, panic_vga_putc. intros [Hr Hc]. destruct (c =? 10).
  { cbn. split; [|done]. destruct (Z.leb_spec 25 (vga_row s + 1)); lia. }
  destruct (Z.leb_spec 25 (vga_row s)), (Z.leb_spec 80 (vga_col s)); cbn [vga_row vga_col vga_mem];
    (split; [lia|]); intros a Ha; apply rd_wr_ne; lia.
Qed.

(** The bound on what is written, for any text. *)
Lemma show_bounds ts s :
  let s' := show ts (panic_vga_clear PANIC_FG PANIC_BG s) in
  cursor_ok s' /\ forall a, ~ 0 <= a <= 2000 -> rd (vga_mem s') a = rd (vga_mem s) a.
Proof.
  cbv zeta. rewrite show_glyphs. set (s0 := panic_vga_clear _ _ s).
  assert (H0 : cursor_ok s0 /\ forall a, ~ 0 <= a <= 2000 -> rd (vga_mem s0) a = rd (vga_mem s) a).
  { split; [unfold cursor_ok; cbn; lia|]. intros a Ha. unfold s0, panic_vga_clear. cbn [vga_mem].
    etransitivity; [exact (rd_for_range_wr 0 (80 * 25) 0 (fun _ => cell_of (mkColor PANIC_FG PANIC_BG) 32) (vga_mem s) a)|].
    destruct (Z.leb_spec 0 (a - 0)), (Z.ltb_spec (a - 0) (80 * 25)); try done; lia. }
  clearbody s0. revert s0 H0. induction (glyphs ts) as [|g gs IH]; intros s0 [Hc Hm]; [done|].
  cbn [foldl]. apply IH. destruct (putc_bounds (fst g) (snd g) PANIC_BG s0 Hc) as [Hc' Hm'].
  split; [exact Hc'|]. intros a Ha. unfold put_glyph. by rewrite Hm', Hm.
Qed.

(** 24 line ends and a last row of 81 characters. *)
Definition overlong : texts := [(replicate 24 10 ++ replicate 81 65, PANIC_FG)].

(** C34. Whatever is printed, the panic screen writes no cell beyond the one behind the
    last, cell 2000 of 2000.  That one it does write: the column is wrapped after the row was
    clamped, so any character that follows a full last row is stored there, just past the
    screen, and there is a text that gets so far. *)
Theorem panic_screen_bounds :
  (forall ts s, let s' := show ts (panic_vga_clear PANIC_FG PANIC_BG s) in
     cursor_ok s' /\ forall a, ~ 0 <= a <= 2000 -> rd (vga_mem s') a = rd (vga_mem s) a) /\
  (forall s c fg bg, c <> 10 -> vga_row s = 24 -> vga_col s = 80 ->
     rd (vga_mem (panic_vga_putc c fg bg s)) 2000 = cell_of (mkColor fg bg) c) /\
  rd (vga_mem (show overlong (panic_vga_clear PANIC_FG PANIC_BG (mkPanic ∅ 0 0)))) 2000 = cell_of (mkColor PANIC_FG PANIC_BG) 65.
Proof.
  split; [exact show_bounds|]. split; [|vm_compute; reflexivity].
  intros s c fg bg Hc Hr Hcol. unfold panic_vga_putc. rewrite (proj2 (Z.eqb_neq c 10) Hc), Hr, Hcol. cbn. apply rd_wr_eq.
Qed.

(** ** The shell's [panic] command on a concrete machine *)

Definition demo_frame : stack_frame_t := mkFrame 18446603336288280568 18446603336288280496 18446744071562134528 0 4096.
Definition demo_panic (again : bool) : panic_sys demo_uart :=
  mkPs (mkCpu (mkUart [] false) ∅ (mkIdtPtr 0 0) None true) again (mkPanic ∅ 0 0).

Lemma demo_fast : (uart_slow (D := demo_uart) (port := COM1) < 2)%nat.
Proof. exact (le_n 2). Qed.

Lemma demo_panic_fits :
  fits (panic_rows (context_texts (lit "Testing panic handler") (Some (lit "shell/shell.c")) 1247 (Some (lit "cmd_panic"))
    360000 (mkPmm ∅ TOTAL_PAGES 1024) demo_frame)).
Proof.
  split; [apply Nat.leb_le; vm_compute; reflexivity|]. split; [|vm_compute; reflexivity].
  apply (bool_decide_unpack _). vm_compute. exact I.
Qed.

Lemma panic_reports_witness :
  exists s', kernel_panic_with_context 2 (lit "Testing panic handler") (Some (lit "shell/shell.c")) 1247 (Some (lit "cmd_panic"))
    360000 (mkPmm ∅ TOTAL_PAGES 1024) demo_frame (demo_panic false) = Some (tt, s') /\ interrupts_on (pn_cpu s') = false.
Proof.
  destruct (panic_reports (D := demo_uart) 2 demo_fast (lit "Testing panic handler") (Some (lit "shell/shell.c")) 1247 (Some (lit "cmd_panic"))
    360000 (mkPmm ∅ TOTAL_PAGES 1024) demo_frame (demo_panic false) eq_refl demo_panic_fits) as (s' & E & Hi & _).
  exists s'. split; [exact E|exact Hi].
Defined.

Lemma panic_recursion_stops_witness :
  exists s', kernel_panic_with_context 2 (lit "again") None 0 None 0 (mkPmm ∅ TOTAL_PAGES 1024) demo_frame (demo_panic true) = Some (tt, s') /\
    pn_screen s' = mkPanic ∅ 0 0.
Proof.
  destruct (panic_recursion_stops (D := demo_uart) 2 demo_fast (lit "again") None 0 None 0 (mkPmm ∅ TOTAL_PAGES 1024) demo_frame 0 (demo_panic true)
    eq_refl) as (s' & E & _ & Hs & _).
  exists s'. split; [exact E|exact Hs].
Defined.
