(* ===== verification/Traps.v ===== *)
(** * Handlers that stop the machine, and the timer's interface: page_fault_handler of mm/vmm.c,
    task_return_error and task_get_current of scheduler/task.c, drivers/pit.c

    The two handlers end in a loop of [hlt]; the state returned is the one the
    machine stops in.  Console output is the list of requests, debug output the list
    of strings. *)

From S2P Require Import Prelude CString Ports Idt Console Vga Reports Task TaskInv TaskThms.

(** ** Page faults *)

(** One bit of the error code. *)
Definition fault_bit (error_code i : Z) : bool := negb (Z.land error_code (2 ^ i) =? 0).

Definition fault_details (error_code : Z) : output :=
  [CPuts (if fault_bit error_code 0 then lit "  - Page protection violation\n" else lit "  - Page not present\n");
   CPuts (if fault_bit error_code 1 then lit "  - Write access\n" else lit "  - Read access\n");
   CPuts (if fault_bit error_code 2 then lit "  - User mode\n" else lit "  - Kernel mode\n")] ++
  (if fault_bit error_code 3 then [CPuts (lit "  - Reserved bit violation\n")] else []) ++
  (if fault_bit error_code 4 then [CPuts (lit "  - Instruction fetch\n")] else []).

Definition page_fault_report (fault_addr error_code : Z) : output :=
  let red := mkColor CONSOLE_COLOR_RED CONSOLE_COLOR_BLACK in
  let white := mkColor CONSOLE_COLOR_WHITE CONSOLE_COLOR_BLACK in
  [CPuts (lit "\n\n"); CSetColor red; CPuts (lit "*** PAGE FAULT ***\n"); CSetColor white;
   CPuts (lit "Faulting address: 0x"); CPuts (uitoa_chars fault_addr); CPuts (lit "\n");
   CPuts (lit "Error code: 0x"); CPuts (uitoa_chars error_code); CPuts (lit "\n\n");
   CPuts (lit "Details:\n")] ++
  fault_details error_code ++
  [CPuts (lit "\n"); CSetColor red; CPuts (lit "System halted.\n"); CSetColor white].

Record trap_state (D : Type) := mkTrap { tr_cpu : cpu D; tr_con : output }.
Arguments mkTrap {D}. Arguments tr_cpu {D}. Arguments tr_con {D}.

Definition page_fault_handler {D} `{PortBus D} (fault_addr error_code : Z) : io (trap_state D) unit := fun s =>
  match idt_disable_interrupts (tr_cpu s) with
  | Some (_, c) => Some (tt, mkTrap c (tr_con s ++ page_fault_report fault_addr error_code))
  | None => None
  end.

(** ** Tasks *)

Definition task_get_current {A} (s : sched A) : Z := current_task s.

(** The address every task's stack starts with: console and debug output. *)
Definition task_return_error {A} (s : sched A) : output * list (list Z) :=
  ([CPerror (lit "\nERROR: Task returned without calling task_exit()\nSee serial debug for details.\n")],
   [lit "\n[TASK] CRITICAL ERROR: Task "; t_name (task_at s (task_get_current s));
    lit " returned without calling task_exit()!\n"; lit "[TASK] System halting to prevent corruption.\n"]).

(** ** The timer *)

Section timer.
Context {A : Type} `{KHeap A} {W : Type}.

Record timer := mkTimer { tm_sched : sched A; tick_callback : option (W -> W) }.

Definition pit_set_callback (t : timer) (callback : option (W -> W)) : timer := mkTimer (tm_sched t) callback.
Definition pit_get_ticks (t : timer) : Z := pit_ticks (tm_sched t).

(** The handler up to the end of [scheduler_tick], and what it still runs when the task
    it interrupted is next on the processor. *)
Definition pit_interrupt (t : timer) : timer * option (W -> W) :=
  (mkTimer (pit_handler (tm_sched t)) (tick_callback t), tick_callback t).
End timer.
Arguments timer : clear implicits.

(** ** What the page-fault report tells *)

(** Reading the digits in base sixteen, as the prefix [0x] asks for. *)
Definition hex_value (acc : Z) (l : list Z) : Z := foldl (fun a c => a * 16 + (c - 48)) acc l.

Lemma hex_value_app acc l1 l2 : hex_value acc (l1 ++ l2) = hex_value (hex_value acc l1) l2.
Proof. apply foldl_app. Qed.

Lemma hex_of_decimal fuel v :
  0 <= v < 10 ^ Z.of_nat fuel -> v + 6 * (v / 10) <= hex_value 0 (reverse (uitoa_digits fuel v)).
Proof.
  revert v. induction fuel as [|fuel IH]; intros v Hv.
  { change (10 ^ Z.of_nat 0) with 1 in Hv. assert (v = 0) as -> by lia. done. }
  cbn [uitoa_digits]. destruct (Z.eqb_spec v 0) as [->|Hne]; [done|].
  rewrite Nat2Z.inj_succ, Z.pow_succ_r in Hv by lia. rewrite reverse_cons, hex_value_app.
  assert (Hq : v / 10 + 6 * (v / 10 / 10) <= hex_value 0 (reverse (uitoa_digits fuel (v / 10)))).
  { apply IH. split; [dlia|]. apply Z.div_lt_upper_bound; lia. }
  unfold hex_value at 1. cbn [foldl]. revert Hq. generalize (hex_value 0 (reverse (uitoa_digits fuel (v / 10)))). intros h Hq. dlia.
Qed.

Lemma hex_of_uitoa v : 10 <= v < 2 ^ 64 -> v < hex_value 0 (uitoa_chars v).
Proof.
  change (2 ^ 64) with 18446744073709551616. intros Hv. unfold uitoa_chars. rewrite (proj2 (Z.eqb_neq v 0)) by lia.
  pose proof (hex_of_decimal UITOA_FUEL v) as H. change (10 ^ Z.of_nat UITOA_FUEL) with 100000000000000000000 in H.
  specialize (H ltac:(lia)). assert (1 <= v / 10) by dlia. lia.
Qed.

Lemma fault_bit_testbit e i : 0 <= i -> fault_bit e i = Z.testbit e i.
Proof.
  intros Hi. unfold fault_bit. replace (Z.land e (2 ^ i)) with (if Z.testbit e i then 2 ^ i else 0).
  - destruct (Z.testbit e i); [|done]. rewrite (proj2 (Z.eqb_neq _ _)); [done|]. apply Z.pow_nonzero; lia.
  - apply Z.bits_inj'. intros n Hn. rewrite Z.land_spec, Z.pow2_bits_eqb by lia.
    destruct (Z.eqb_spec i n) as [<-|Hne]; [|rewrite andb_false_r].
    + destruct (Z.testbit e i) eqn:E; [|by rewrite Z.bits_0]. by rewrite Z.pow2_bits_true by lia.
    + destruct (Z.testbit e i); [|by rewrite Z.bits_0]. by rewrite Z.pow2_bits_false by lia.
Qed.

Lemma low_bits_eq e e' : (forall i, i ∈ [0; 1; 2; 3; 4] -> Z.testbit e i = Z.testbit e' i) <-> e mod 32 = e' mod 32.
Proof.
  change 32 with (2 ^ 5). rewrite <- !Z.land_ones by lia. split.
  - intros Hb. apply Z.bits_inj'. intros n Hn. rewrite !Z.land_spec, Z.testbit_ones_nonneg by lia.
    destruct (Z.ltb_spec n 5); [|by rewrite !andb_false_r]. rewrite Hb; [done|].
    assert (n = 0 \/ n = 1 \/ n = 2 \/ n = 3 \/ n = 4) as Hc by lia. rewrite !elem_of_cons. naive_solver.
  - intros E i Hi. assert (0 <= i < 5) by (rewrite !elem_of_cons, elem_of_nil in Hi; lia).
    assert (Hb : Z.testbit (Z.land e (Z.ones 5)) i = Z.testbit (Z.land e' (Z.ones 5)) i) by by rewrite E.
    rewrite !Z.land_spec, Z.testbit_ones_nonneg in Hb by lia. destruct (Z.ltb_spec i 5); [|lia]. by rewrite !andb_true_r in Hb.
Qed.

(** The detail lines for the five bits. *)
Definition details_of (b0 b1 b2 b3 b4 : bool) : output :=
  [CPuts (if b0 then lit "  - Page protection violation\n" else lit "  - Page not present\n");
   CPuts (if b1 then lit "  - Write access\n" else lit "  - Read access\n");
   CPuts (if b2 then lit "  - User mode\n" else lit "  - Kernel mode\n")] ++
  (if b3 then [CPuts (lit "  - Reserved bit violation\n")] else []) ++
  (if b4 then [CPuts (lit "  - Instruction fetch\n")] else []).
Lemma details_of_inj b0 b1 b2 b3 b4 c0 c1 c2 c3 c4 :
  details_of b0 b1 b2 b3 b4 = details_of c0 c1 c2 c3 c4 -> (b0, b1, b2, b3, b4) = (c0, c1, c2, c3, c4).
Proof. destruct b0, c0, b1, c1, b2, c2, b3, c3, b4, c4; intros E; vm_compute in E; first [reflexivity|discriminate E]. Qed.

Lemma fault_details_eq e e' : fault_details e = fault_details e' <-> e mod 32 = e' mod 32.
Proof.
  rewrite <- low_bits_eq. split.
  - intros E. apply details_of_inj in E. injection E as E0 E1 E2 E3 E4. rewrite !fault_bit_testbit in * by lia.
    intros i Hi. rewrite !elem_of_cons, elem_of_nil in Hi. naive_solver.
  - intros Hb. unfold fault_details. rewrite !(fault_bit_testbit e), !(fault_bit_testbit e') by lia.
    rewrite !Hb by (rewrite !elem_of_cons; naive_solver). reflexivity.
Qed.

(** The page-fault handler stops with interrupts off.  Its detail lines tell the five
    low bits of the error code apart and nothing else, and the digits it prints for the
    address are the decimal ones: read as the hexadecimal number that the [0x] in
    front of them announces, they name a higher address. *)
Theorem page_fault_reports {D} `{PortBus D} (s : trap_state D) (fault_addr error_code error_code' : Z)
    (Ha : 0 <= fault_addr < 2 ^ 64) :
  exists c before after,
    page_fault_handler fault_addr error_code s =
      Some (tt, mkTrap c (tr_con s ++ before ++ [CPuts (lit "Faulting address: 0x"); CPuts (uitoa_chars fault_addr)] ++ after)) /\
    interrupts_on c = false /\ c_bus c = c_bus (tr_cpu s) /\
    fault_details error_code ⊆ after /\
    (fault_details error_code = fault_details error_code' <-> error_code mod 32 = error_code' mod 32) /\
    dec_value 0 (uitoa_chars fault_addr) = fault_addr /\
    (10 <= fault_addr -> fault_addr < hex_value 0 (uitoa_chars fault_addr)).
Proof.
  unfold page_fault_handler. cbn [idt_disable_interrupts]. eexists _, (take 4 (page_fault_report fault_addr error_code)), _.
  split; [reflexivity|]. split; [done|]. split; [done|]. split; [|split; [apply fault_details_eq|split]].
  - intros x Hx. rewrite !elem_of_cons, !elem_of_app. auto 10.
  - by apply uitoa_chars_spec.
  - intros. apply hex_of_uitoa. lia.
Qed.

Lemma page_fault_reports_witness :
  exists c o, page_fault_handler (D := trace_bus) 4096 2 (mkTrap (mkCpu (mkTrace (fun _ _ => 0) []) ∅ (mkIdtPtr 0 0) None true) []) = Some (tt, mkTrap c o) /\
    interrupts_on c = false /\ hex_value 0 (uitoa_chars 4096) = 16534.
Proof.
  destruct (page_fault_reports (mkTrap (mkCpu (mkTrace (fun _ _ => 0) []) ∅ (mkIdtPtr 0 0) None true) []) 4096 2 0 ltac:(lia))
    as (c & b & a & E & Hi & _). eexists c, _. split; [exact E|]. split; [exact Hi|reflexivity].
Defined.

(** ** Uptime *)

Section uptime.
Context {A : Type} `{KHeap A}.
Implicit Types s : sched A.

Lemma ticks_add_task s x : pit_ticks (scheduler_add_task s x) = pit_ticks s.
Proof. unfold scheduler_add_task. destruct (x =? 0); [done|]. cbv zeta. by destruct (ready_queue_head _ =? 0). Qed.
Lemma ticks_wake fuel s T prev curr : pit_ticks (wake_loop fuel s T prev curr) = pit_ticks s.
Proof.
  revert s prev curr. induction fuel as [|fuel IH]; intros s prev curr; cbn [wake_loop]; [done|].
  destruct (curr =? 0); [done|]. destruct (wake_time _ <=? T); rewrite IH; [|done]. rewrite ticks_add_task. by destruct (prev =? 0).
Qed.
Lemma ticks_prepare s : pit_ticks (tick_prepare s) = pit_ticks s.
Proof.
  unfold tick_prepare. cbv zeta.
  assert (E : pit_ticks (scheduler_check_sleeping_tasks s) = pit_ticks s).
  { unfold scheduler_check_sleeping_tasks. destruct (_ =? 0); [done|]. apply ticks_wake. }
  destruct (100 <=? _).
  - destruct (0 <? _); cbn [upd_task with_tasks pit_ticks]; destruct (reap_spec (with_reap (with_reap (scheduler_check_sleeping_tasks s) (u64 (reap_counter (scheduler_check_sleeping_tasks s) + 1))) 0))
      as (_ & _ & _ & _ & _ & _ & ->); exact E.
  - destruct (0 <? _); exact E.
Qed.
Lemma ticks_switch s : pit_ticks (tick_switch s) = pit_ticks s.
Proof.
  unfold tick_switch. destruct (_ =? 0); [|done].
  destruct (scheduler_pick_next s) as [n s1] eqn:E.
  assert (E1 : pit_ticks s1 = pit_ticks s).
  { unfold scheduler_pick_next in E. destruct (ready_queue_head s =? 0); by injection E as <- <-. }
  destruct (_ && _); [|exact E1]. destruct (bool_decide _); cbn [with_current upd_task with_tasks pit_ticks]; [|exact E1].
  rewrite ticks_add_task. exact E1.
Qed.

Lemma ticks_handler s : pit_ticks (pit_handler s) = u64 (pit_ticks s + 1).
Proof.
  unfold pit_handler. rewrite tick_eq. destruct (_ =? 0); [done|]. by rewrite ticks_switch, ticks_prepare.
Qed.
Lemma ticks_interrupt {W} (t : timer A W) : pit_get_ticks (fst (pit_interrupt t)) = u64 (pit_get_ticks t + 1).
Proof. apply ticks_handler. Qed.

(** The uptime counts every timer interrupt, whatever the scheduler does. *)
Lemma pit_ticks_count {W} n (t : timer A W) :
  0 <= pit_get_ticks t < 2 ^ 64 ->
  pit_get_ticks (Nat.iter n (fun t => fst (pit_interrupt t)) t) = u64 (pit_get_ticks t + Z.of_nat n).
Proof.
  intros Ht. induction n as [|n IH].
  - cbn [Nat.iter nat_rect]. rewrite Z.add_0_r, u64_small by lia. done.
  - rewrite Nat.iter_succ, ticks_interrupt, IH. unfold u64. rewrite Zplus_mod_idemp_l. f_equal. lia.
Qed.
End uptime.
