(* ===== verification/Boot.v ===== *)
(** * Boot: kernel.c, the driver records, k_pkerr and TRY_INIT (definitions)

    [kstate] puts the components of the kernel side by side, with one heap and
    one memory.  The driver records hold functions on it, and [kernel] adds the
    registry of the records.  [kernel_main] follows the source call by call; it ends in the
    idle loop, and the state it returns is the one in which that loop starts.  It
    gives no result when a disk driver polls for ever or the allocator is set up
    through a null pointer.  Timer interrupts arrive between its calls, as many as its arguments
    say, once the processor takes them; keyboard interrupts, which only fill
    the terminal's buffer, are left out.  Console output is the list of requests since [console_init],
    debug output the list of strings; what [driver_init_all] and the drivers print is
    left out. *)

From S2P Require Import Prelude MemLayout Errno CString Bitmap Pmm Buddy Slab SlabThms Kmalloc Task Tty Driver Block Vmm Ramfs Vfs.
From S2P Require Import Ports Serial Idt Console Vga Legacy Reports Ata Nvme.

(** ** The driver records *)

Inductive kdriver := IDT | Keyboard | PIT | BlockLayer | ATA | NVMe.
#[export] Instance kdriver_eq_dec : EqDecision kdriver.
Proof. solve_decision. Defined.

(** The static records live at distinct addresses. *)
Definition drv_addr (d : kdriver) : Z :=
  match d with
  | IDT => 0x1000 | Keyboard => 0x1100 | PIT => 0x1200 | BlockLayer => 0x1300 | ATA => 0x1400 | NVMe => 0x1500
  end.

Section records.
Context {W : Type} (init_of : kdriver -> Z -> W -> kerr_t * W).

Definition idt_driver : driver_t W :=
  mkDriver (str "IDT") DRIVER_TYPE_FUNDAMENTAL 1 10 DRIVER_STATUS_UNINITIALIZED (Some (init_of IDT)) None [] 0.
Definition keyboard_driver : driver_t W :=
  mkDriver (str "Keyboard") DRIVER_TYPE_INPUT 1 20 DRIVER_STATUS_UNINITIALIZED (Some (init_of Keyboard)) None (str "IDT") 0.
Definition pit_driver : driver_t W :=
  mkDriver (str "PIT") DRIVER_TYPE_TIMER 1 20 DRIVER_STATUS_UNINITIALIZED (Some (init_of PIT)) None (str "IDT") 0.
Definition block_layer_driver : driver_t W :=
  mkDriver (str "Block Layer") DRIVER_TYPE_BLOCK 1 30 DRIVER_STATUS_UNINITIALIZED (Some (init_of BlockLayer)) None [] 0.
Definition ata_driver : driver_t W :=
  mkDriver (str "ATA") DRIVER_TYPE_BLOCK 1 40 DRIVER_STATUS_UNINITIALIZED (Some (init_of ATA)) None (str "Block Layer") 0.

Definition driver_of (d : kdriver) : driver_t W :=
  match d with
  | IDT => idt_driver
  | Keyboard => keyboard_driver
  | PIT => pit_driver
  | BlockLayer => block_layer_driver
  | ATA => ata_driver
  | NVMe => nvme_driver (init_of NVMe)
  end.

(** The registry before any registration. *)
Definition static_registry : registry W :=
  mkReg (list_to_map ((fun d => (drv_addr d, driver_of d)) <$> [IDT; Keyboard; PIT; BlockLayer; ATA; NVMe]))
    (replicate 32 0) 0.
End records.

Section registration.
Context {W : Type}.
Implicit Types r : registry W.

Definition idt_register r : kerr_t * registry W := driver_register r (drv_addr IDT).
Definition keyboard_register r : kerr_t * registry W := driver_register r (drv_addr Keyboard).
(** The frequency is ignored. *)
Definition pit_register r (frequency : Z) : kerr_t * registry W := driver_register r (drv_addr PIT).
Definition block_register r : kerr_t * registry W := driver_register r (drv_addr BlockLayer).
Definition ata_register r : kerr_t * registry W := driver_register r (drv_addr ATA).
End registration.

(** ** The state *)

Section boot.
Context {D : Type} `{PortBus D} `{NvmeRegs D}.

(** [ks_hung]: a driver polls for ever. *)
Record kstate := mkKs {
  ks_cpu : cpu D;
  ks_con : list con_req;
  ks_ser : list (list Z);
  ks_heap : heap buddy;
  ks_pmm : pmm;
  ks_vmm : vmm;
  ks_legacy : legacy;
  ks_vfs : vfs (heap buddy);
  ks_sched : sched (heap buddy);
  ks_tty : tty;
  ks_nvme : nvme_controller_t;
  ks_blk : block_sys (option (nvme_world D));
  ks_hung : bool;
}.

Definition set_cpu (c : cpu D) (s : kstate) : kstate :=
  mkKs c (ks_con s) (ks_ser s) (ks_heap s) (ks_pmm s) (ks_vmm s) (ks_legacy s) (ks_vfs s) (ks_sched s) (ks_tty s)
    (ks_nvme s) (ks_blk s) (ks_hung s).
Definition set_con (o : list con_req) (s : kstate) : kstate :=
  mkKs (ks_cpu s) o (ks_ser s) (ks_heap s) (ks_pmm s) (ks_vmm s) (ks_legacy s) (ks_vfs s) (ks_sched s) (ks_tty s)
    (ks_nvme s) (ks_blk s) (ks_hung s).
Definition set_ser (o : list (list Z)) (s : kstate) : kstate :=
  mkKs (ks_cpu s) (ks_con s) o (ks_heap s) (ks_pmm s) (ks_vmm s) (ks_legacy s) (ks_vfs s) (ks_sched s) (ks_tty s)
    (ks_nvme s) (ks_blk s) (ks_hung s).
Definition set_kheap (h : heap buddy) (s : kstate) : kstate :=
  mkKs (ks_cpu s) (ks_con s) (ks_ser s) h (ks_pmm s) (ks_vmm s) (ks_legacy s) (ks_vfs s) (ks_sched s) (ks_tty s)
    (ks_nvme s) (ks_blk s) (ks_hung s).
Definition set_pmm (p : pmm) (s : kstate) : kstate :=
  mkKs (ks_cpu s) (ks_con s) (ks_ser s) (ks_heap s) p (ks_vmm s) (ks_legacy s) (ks_vfs s) (ks_sched s) (ks_tty s)
    (ks_nvme s) (ks_blk s) (ks_hung s).
Definition set_vmm (v : vmm) (s : kstate) : kstate :=
  mkKs (ks_cpu s) (ks_con s) (ks_ser s) (ks_heap s) (ks_pmm s) v (ks_legacy s) (ks_vfs s) (ks_sched s) (ks_tty s)
    (ks_nvme s) (ks_blk s) (ks_hung s).
Definition set_legacy (l : legacy) (s : kstate) : kstate :=
  mkKs (ks_cpu s) (ks_con s) (ks_ser s) (ks_heap s) (ks_pmm s) (ks_vmm s) l (ks_vfs s) (ks_sched s) (ks_tty s)
    (ks_nvme s) (ks_blk s) (ks_hung s).
(** The file system and the scheduler bring the heap back. *)
Definition set_vfs (v : vfs (heap buddy)) (s : kstate) : kstate :=
  mkKs (ks_cpu s) (ks_con s) (ks_ser s) (v_heap v) (ks_pmm s) (ks_vmm s) (ks_legacy s) v (ks_sched s) (ks_tty s)
    (ks_nvme s) (ks_blk s) (ks_hung s).
Definition set_sched (x : sched (heap buddy)) (s : kstate) : kstate :=
  mkKs (ks_cpu s) (ks_con s) (ks_ser s) (k_heap x) (ks_pmm s) (ks_vmm s) (ks_legacy s) (ks_vfs s) x (ks_tty s)
    (ks_nvme s) (ks_blk s) (ks_hung s).
Definition set_tty (t : tty) (s : kstate) : kstate :=
  mkKs (ks_cpu s) (ks_con s) (ks_ser s) (ks_heap s) (ks_pmm s) (ks_vmm s) (ks_legacy s) (ks_vfs s) (ks_sched s) t
    (ks_nvme s) (ks_blk s) (ks_hung s).
Definition set_blk (b : block_sys (option (nvme_world D))) (s : kstate) : kstate :=
  mkKs (ks_cpu s) (ks_con s) (ks_ser s) (ks_heap s) (ks_pmm s) (ks_vmm s) (ks_legacy s) (ks_vfs s) (ks_sched s) (ks_tty s)
    (ks_nvme s) b (ks_hung s).
Definition hang (s : kstate) : kstate :=
  mkKs (ks_cpu s) (ks_con s) (ks_ser s) (ks_heap s) (ks_pmm s) (ks_vmm s) (ks_legacy s) (ks_vfs s) (ks_sched s) (ks_tty s)
    (ks_nvme s) (ks_blk s) true.
Definition vfs_of (s : kstate) : vfs (heap buddy) := with_vheap (ks_vfs s) (ks_heap s).
Definition sched_of (s : kstate) : sched (heap buddy) := with_heap (ks_sched s) (ks_heap s).

(** ** The drivers' init functions on the state *)

(** A computation on a part of the state. *)
Definition run_part {S} (view : kstate -> S) (put : S -> kstate -> kstate) (m : io S kerr_t) (s : kstate) : kerr_t * kstate :=
  match m (view s) with Some (e, x) => (e, put x s) | None => (E_TIMEOUT, hang s) end.

Definition keyboard_driver_init (s : kstate) : kerr_t * kstate := (E_OK, s).

(** [pit_ticks = 0] ends the timer's init function. *)
Definition pit_init (s : kstate) : kerr_t * kstate :=
  let '(e, s) := run_part ks_cpu set_cpu pit_driver_init s in
  (e, set_sched (with_ticks (sched_of s) 0) s).

Definition block_init (s : kstate) : kerr_t * kstate :=
  let '(e, b, h) := block_driver_init (ks_blk s) (ks_heap s) in (e, set_blk b (set_kheap h s)).

(** The world of the block operations is the larger one of the two disk drivers:
    an ATA operation works on its bus and memory. *)
Definition ata_lift (f : option (ata_world D) -> Z * option (ata_world D)) (w : option (nvme_world D)) :
    Z * option (nvme_world D) :=
  match w with
  | None => (fst (f None), None)
  | Some w =>
      let '(r, a) := f (Some (mkAw (nw_dev w) (kmem (nw_heap w)))) in
      (r, (fun a => mkNw (aw_bus a) (with_kmem (nw_heap w) (aw_ram a)) (nw_ctrl w) (nw_irq w)) <$> a)
  end.
Definition lift_ops (o : block_device_ops_t (option (ata_world D))) : block_device_ops_t (option (nvme_world D)) :=
  mkOps ((fun f p lba buffer => ata_lift (f p lba buffer)) <$> op_read_block o)
    ((fun f p lba buffer => ata_lift (f p lba buffer)) <$> op_write_block o)
    ((fun f p lba count buffer => ata_lift (f p lba count buffer)) <$> op_read_blocks o)
    ((fun f p lba count buffer => ata_lift (f p lba count buffer)) <$> op_write_blocks o)
    ((fun f p => ata_lift (f p)) <$> op_flush o).

(** The ATA driver sees the block devices without the operations of the others, which
    it does not call, and leaves its own four devices. *)
Definition set_ops {W W'} (o : option (block_device_ops_t W')) (d : block_device_t W) : block_device_t W' :=
  mkDev (dev_id d) (dev_type d) (block_count d) (block_size d) (present d) (label d) (dev_data d) o.
Definition ata_view (s : kstate) : ata_boot D :=
  mkBoot (c_bus (ks_cpu s)) (mkBlk (set_ops None <$> dev_mem (ks_blk s)) (g_block_manager (ks_blk s))).
Definition ata_devs (dev : Z -> Z) (new : gmap Z (block_device_t (option (ata_world D))))
    (old : gmap Z (block_device_t (option (nvme_world D)))) : gmap Z (block_device_t (option (nvme_world D))) :=
  foldl (fun m i =>
    match new !! dev i with
    | None => m
    | Some d =>
        let o := match ops d with Some o => Some (lift_ops o) | None => m !! dev i ≫= ops end in
        <[dev i := set_ops o d]> m
    end) old [0; 1; 2; 3].
Definition ata_put (dev : Z -> Z) (x : ata_boot D) (s : kstate) : kstate :=
  set_blk (mkBlk (ata_devs dev (dev_mem (ab_blk x)) (dev_mem (ks_blk s))) (g_block_manager (ab_blk x)))
    (set_cpu (set_bus (ab_bus x) (ks_cpu s)) s).

Definition nvme_view (s : kstate) : @nvme_boot D :=
  mkNb (mkNw (c_bus (ks_cpu s)) (ks_heap s) (ks_nvme s) (interrupts_on (ks_cpu s))) (ks_vmm s) (ks_pmm s) (ks_blk s).
Definition nvme_put (x : @nvme_boot D) (s : kstate) : kstate :=
  let w := nb_world x in
  let c := ks_cpu s in
  mkKs (mkCpu (nw_dev w) (idt c) (idt_ptr c) (idt_loaded c) (nw_irq w)) (ks_con s) (ks_ser s) (nw_heap w) (nb_pmm x) (nb_vmm x) (ks_legacy s)
    (ks_vfs s) (ks_sched s) (ks_tty s) (nw_ctrl w) (nb_blk x) (ks_hung s).

(** The addresses that the linker and the boot code fix, and the fuel of the
    polling loops of the ATA driver. *)
Record layout := mkLayout {
  l_idt : Z; l_irq0 : Z; l_irq1 : Z; l_irq_page_fault : Z;
  l_ata_dev : Z -> Z; l_ata_data : Z -> Z; l_nvme_dev : Z -> Z; l_nvme_ctrl : Z;
  l_return_error : Z; l_idle_entry : Z; l_shell_entry : Z;
  l_cr3 : Z; l_blocks : gmap Z buddy_block; l_fuel : nat;
}.
Variable (l : layout).

Definition kernel_init_of (d : kdriver) (_ : Z) (s : kstate) : kerr_t * kstate :=
  match d with
  | IDT => run_part ks_cpu set_cpu (idt_driver_init (l_idt l) (l_irq0 l) (l_irq1 l) (l_irq_page_fault l)) s
  | Keyboard => keyboard_driver_init s
  | PIT => pit_init s
  | BlockLayer => block_init s
  | ATA => run_part ata_view (ata_put (l_ata_dev l)) (ata_driver_init (l_fuel l) (l_ata_dev l) (l_ata_data l)) s
  | NVMe => run_part nvme_view nvme_put (nvme_init (l_nvme_dev l) (l_nvme_ctrl l)) s
  end.

(** ** The boot sequence *)

Record kernel := mkKernel { kn_reg : registry kstate; kn_st : kstate }.

Abbreviation boot := (io kernel).

Definition on_st {A} (f : kstate -> A * kstate) : boot A := fun k =>
  let '(a, s) := f (kn_st k) in Some (a, mkKernel (kn_reg k) s).
Definition on_reg (f : registry kstate -> kerr_t * registry kstate) : boot kerr_t := fun k =>
  let '(e, r) := f (kn_reg k) in Some (e, mkKernel r (kn_st k)).
Definition on_bus (m : io (cpu D) kerr_t) : boot kerr_t := fun k =>
  match m (ks_cpu (kn_st k)) with
  | Some (e, c) => Some (e, mkKernel (kn_reg k) (set_cpu c (kn_st k)))
  | None => None
  end.

Definition say (o : list con_req) : boot unit := on_st (fun s => (tt, set_con (ks_con s ++ o) s)).
Definition ser (t : list Z) : boot unit := on_st (fun s => (tt, set_ser (ks_ser s ++ [t]) s)).
Definition say_puts (t : string) : boot unit := say [CPuts (lit t)].
Definition ser_puts (t : string) : boot unit := ser (lit t).

Definition COLOR_SUCCESS : console_color_attr_t := mkColor CONSOLE_COLOR_GREEN CONSOLE_COLOR_BLACK.
Definition COLOR_FAILURE : console_color_attr_t := mkColor CONSOLE_COLOR_RED CONSOLE_COLOR_BLACK.

Definition k_pkerr (err : kerr_t) : boot unit :=
  say [CPutsColor (lit "[FAILED]: ") COLOR_FAILURE; CPuts (str (k_strerror (kerr_value err))); CPutc 10] ;;;
  ser_puts "[FAILED]: " ;;; ser (str (k_strerror (kerr_value err))) ;;; ser [10].

(** The value is the new [err_count]. *)
Definition TRY_INIT (name : string) (expr : boot kerr_t) (err_count : Z) : boot Z :=
  ser_puts "Initializing " ;;; ser_puts name ;;; ser_puts "..." ;;;
  say_puts "Initializing " ;;; say_puts name ;;; say_puts "...   " ;;;
  let! status := expr in
  if is_ok status then
    say [CPutsColor (lit "[SUCCESS]\n") COLOR_SUCCESS] ;;; ser_puts "[SUCCESS]\n" ;;; io_ret err_count
  else k_pkerr status ;;; io_ret (u8 (err_count + 1)).

(** A call on a part of the state. *)
Definition on_part {X A} (f : kstate -> A * X) (put : X -> kstate -> kstate) : boot A :=
  on_st (fun s => (fst (f s), put (snd (f s)) s)).

Definition memory_step : boot kerr_t := on_part (fun s => memory_init (ks_legacy s) PHYS_HEAP_START PHYS_HEAP_SIZE) set_legacy.
Definition pmm_step : boot kerr_t := on_part (fun _ => pmm_init) set_pmm.
Definition vmm_step : boot kerr_t := on_part (fun s => vmm_init (ks_vmm s) (l_cr3 l)) set_vmm.
Definition kalloc_step : boot Z := on_part (fun s => kalloc_pages (ks_pmm s) 1) set_pmm.

(** The allocator becomes the global one when its set-up succeeds. *)
Definition set_buddy (b : option Buddy.buddy) (s : kstate) : kstate :=
  match b with
  | Some b => set_kheap (with_h_slab (ks_heap s) (with_pages (h_slab (ks_heap s)) (Some b))) s
  | None => s
  end.
Definition buddy_step (buddy : Z) : boot kerr_t :=
  if buddy =? 0 then io_diverge else on_part (fun _ => buddy_init (l_blocks l) 0x04000000 0x04000000) set_buddy.
Definition slab_step : boot kerr_t :=
  on_part (fun s => slab_init (h_slab (ks_heap s))) (fun x s => set_kheap (with_h_slab (ks_heap s) x) s).
Definition vfs_step : boot kerr_t := on_part (fun s => vfs_init (vfs_of s)) set_vfs.
Definition tty_step : boot kerr_t := on_part (fun _ => tty_init) set_tty.
Definition task_step : boot kerr_t := on_part (fun s => task_init (sched_of s)) set_sched.
Definition scheduler_step : boot kerr_t :=
  on_part (fun s => scheduler_init (sched_of s) (l_return_error l) (l_idle_entry l)) set_sched.

(** [ramfs_create_fs] and [vfs_mount]; the value is the new [err_count]. *)
Definition mount_ramfs (err_count : Z) : boot Z :=
  ser_puts "Mounting RAM File System... " ;;; say_puts "Mounting RAM File System...   " ;;;
  let! r := on_part (fun s => ramfs_create_fs (vfs_of s)) set_vfs in
  let '(status, ramfs) := r in
  if is_ok status then
    let! status := on_part (fun s => vfs_mount (vfs_of s) ramfs (str "/")) set_vfs in
    if is_ok status then
      ser_puts "[SUCCESS]\n" ;;; say [CPutsColor (lit "[SUCCESS]\n") COLOR_SUCCESS] ;;; io_ret err_count
    else k_pkerr status ;;; io_ret (u8 (err_count + 1))
  else k_pkerr status ;;; io_ret (u8 (err_count + 1)).

Definition driver_init_step : boot unit := fun k =>
  let st := snd (driver_init_all (kn_reg k) (kn_st k)) in
  if ks_hung (i_world st) then None else Some (tt, mkKernel (i_reg st) (i_world st)).

(** [n] timer interrupts, which are taken when the processor's flag is set. *)
Definition timer_interrupts (n : nat) : boot unit := on_st (fun s =>
  (tt, if interrupts_on (ks_cpu s) then set_sched (Nat.iter n pit_handler (sched_of s)) s else s)).

Definition create_shell (err_count : Z) : boot Z :=
  let! task := on_part (fun s => task_create (sched_of s) (l_return_error l) (str "shell") (l_shell_entry l)) set_sched in
  if negb (task =? 0) then
    on_part (fun s => (tt, scheduler_add_task (sched_of s) task)) set_sched ;;;
    ser_puts "Shell task created and added to scheduler\n" ;;; say_puts "Shell task created\n" ;;; io_ret err_count
  else say [CPerror (lit "Failed to create shell task!\n")] ;;; io_ret (u8 (err_count + 1)).

(** The message after the first part of the initialisation. *)
Definition ready_message (err_count : Z) : boot unit :=
  if err_count =? 0 then say [CPutsColor (lit "\nReady! System is running.\n") COLOR_SUCCESS]
  else say [CSetColor COLOR_FAILURE; CPuts (lit "\nWARNING! "); CPuts (uitoa_chars err_count);
            CPuts (lit " Initialization(s) failed!\n\n");
            CSetColor (mkColor CONSOLE_COLOR_WHITE CONSOLE_COLOR_BLACK)].

(** From [serial_init] to the banner. *)
Definition boot_banner : boot unit :=
  let! serial_status := on_bus (serial_init COM1) in
  ser_puts "=== IGNIS OS Serial Debug Log ===\n" ;;;
  ser_puts "Serial port initialized successfully\n" ;;;
  ser_puts "Starting kernel initialization...\n\n" ;;;
  ser_puts "Kernel virtual base: " ;;; ser_puts "0x" ;;;
  ser (reverse (puthex_buffer VIRT_KERNEL_BASE 16)) ;;; ser_puts "\n" ;;;
  ser_puts "Starting kernel init\n" ;;;
  say [CPuts (lit "Welcome!\n"); CPutsColor (lit "IGNIS v0.0.01\n") (mkColor CONSOLE_COLOR_RED CONSOLE_COLOR_BLACK);
       CPutsColor (lit "---- Developed by Josh Kelley ----\n\n") (mkColor CONSOLE_COLOR_LIGHT_BLUE CONSOLE_COLOR_BLACK)] ;;;
  if is_ok serial_status then say_puts "Serial port: COM1 (see serial.log)\n" else io_ret tt.

(** The components and the registrations; the value is [err_count]. *)
Definition boot_components : boot Z :=
  let! n := TRY_INIT "IDT" (on_reg idt_register) 0 in
  let! n := TRY_INIT "Memory" memory_step n in
  let! n := TRY_INIT "PMM" pmm_step n in
  let! n := TRY_INIT "VMM" vmm_step n in
  let! buddy := kalloc_step in
  let! n := TRY_INIT "Buddy Alloc" (buddy_step buddy) n in
  let! n := TRY_INIT "Slab Alloc" slab_step n in
  let! n := TRY_INIT "VFS Layer" vfs_step n in
  let! n := mount_ramfs n in
  let! n := TRY_INIT "Keyboard" (on_reg keyboard_register) n in
  let! n := TRY_INIT "PIT" (on_reg (fun r => pit_register r 100)) n in
  let! n := TRY_INIT "Block Device Layer" (on_reg block_register) n in
  let! n := TRY_INIT "ATA" (on_reg ata_register) n in
  let! n := TRY_INIT "NVMe" (on_reg (fun r => nvme_register r (drv_addr NVMe))) n in
  TRY_INIT "TTY" tty_step n.

(** The flag is set from the bus scan of [driver_init_all] on.  [n1] to [n4] timer
    interrupts arrive before [task_init], before [scheduler_init], before the
    creation of the shell task and after it. *)
Definition kernel_main (n1 n2 n3 n4 : nat) : boot unit :=
  boot_banner ;;;
  let! n := boot_components in
  ready_message n ;;;
  driver_init_step ;;;
  timer_interrupts n1 ;;;
  let! n := TRY_INIT "Task System" task_step n in
  timer_interrupts n2 ;;;
  let! n := TRY_INIT "Scheduler" scheduler_step n in
  timer_interrupts n3 ;;;
  let! n := create_shell n in
  timer_interrupts n4 ;;;
  (fun k => say (driver_list (kn_reg k)) k) ;;;
  (let! _ := on_bus (idt_enable_interrupts ;;; io_ret E_OK) in io_ret tt) ;;;
  ser_puts "Kernel initialization complete, entering idle loop\n" ;;;
  say_puts "\nKernel running. Type 'help' for commands.\n\n".
End boot.
Arguments kstate : clear implicits. Arguments kernel : clear implicits.
