(* ===== verification/BootDrivers.v ===== *)
(** * The kernel's drivers (theorems)

    The general start procedure of the registry, applied to the records that
    kernel.c registers, is a walk through the six drivers in a fixed order. *)

From S2P Require Import Prelude MemLayout Errno CString Bitmap Pmm Buddy Slab SlabThms Kmalloc Task Tty Driver Block Vmm Ramfs Vfs.
From S2P Require Import Ports Serial Idt Console Vga Legacy Reports Ata Nvme Boot.

Definition all_drivers : list kdriver := [IDT; Keyboard; PIT; BlockLayer; ATA; NVMe].

Section start.
Context {W : Type} (init_of : kdriver -> Z -> W -> kerr_t * W).

(** The registry of kernel.c, the driver [d] in status [f d]. *)
Definition reg_with (f : kdriver -> driver_status_t) : registry W :=
  mkReg (list_to_map ((fun d => (drv_addr d, set_status (f d) (driver_of init_of d))) <$> all_drivers))
    ((drv_addr <$> all_drivers) ++ replicate 26 0) 6.

Definition set_fn (f : kdriver -> driver_status_t) (d : kdriver) (st : driver_status_t) (d' : kdriver) : driver_status_t :=
  if decide (d' = d) then st else f d'.

(** What a driver waits for. *)
Definition dependency (d : kdriver) : option kdriver :=
  match d with IDT | BlockLayer => None | Keyboard | PIT => Some IDT | ATA | NVMe => Some BlockLayer end.
Definition can_start (f : kdriver -> driver_status_t) (d : kdriver) : bool :=
  match dependency d with None => true | Some d' => is_up (f d') end.

Lemma drv_at_reg f d : drv_at (reg_with f) (drv_addr d) = set_status (f d) (driver_of init_of d).
Proof. destruct d; vm_compute; reflexivity. Qed.
Lemma upd_reg f d st : upd_status (reg_with f) (drv_addr d) st = reg_with (set_fn f d st).
Proof. destruct d; vm_compute; reflexivity. Qed.
Lemma dependencies_reg f d : driver_dependencies_met (reg_with f) (drv_addr d) = can_start f d.
Proof. destruct d; vm_compute; reflexivity. Qed.

(** *** The walk *)

Record progress := mkProgress { pr_status : kdriver -> driver_status_t; pr_world : W; pr_log : list kdriver }.

(** One driver: it runs when what it waits for is up. *)
Definition start_driver (p : progress) (d : kdriver) : progress :=
  if can_start (pr_status p) d then
    let '(err, w) := init_of d (drv_addr d) (pr_world p) in
    mkProgress (set_fn (pr_status p) d (if is_ok err then DRIVER_STATUS_INITIALIZED else DRIVER_STATUS_FAILED)) w
      (pr_log p ++ [d])
  else p.
Definition untouched (w : W) : progress := mkProgress (fun _ => DRIVER_STATUS_UNINITIALIZED) w [].
Definition start_drivers (w : W) : progress := foldl start_driver (untouched w) all_drivers.

(** The loop state that belongs to it. *)
Definition loop_state (p : progress) (made : bool) : init_st :=
  mkInit (reg_with (pr_status p)) (pr_world p) (Z.of_nat (length (pr_log p))) made (drv_addr <$> pr_log p).

Lemma init_one_fresh p made d :
  pr_status p d = DRIVER_STATUS_UNINITIALIZED -> (length (pr_log p) < 6)%nat ->
  init_one (drv_addr d) (loop_state p made) =
  loop_state (start_driver p d) (can_start (pr_status p) d || made).
Proof.
  intros Hs Hl. unfold init_one, loop_state. cbn [i_reg i_world i_count i_progress i_log].
  rewrite drv_at_reg, dependencies_reg. cbn [set_status d_status d_init].
  rewrite bool_decide_true by done. unfold start_driver. cbn [negb].
  destruct (can_start (pr_status p) d); cbn [negb orb]; [|done].
  assert (Hd : d_init (driver_of init_of d) = Some (init_of d)) by by destruct d. rewrite Hd.
  destruct (init_of d (drv_addr d) (pr_world p)) as [err w]. cbn [pr_status pr_world pr_log].
  rewrite upd_reg, length_app, fmap_app, u8_small by lia. f_equal. cbn. lia.
Qed.

(** A driver that was started, or that still waits, is passed over. *)
Lemma init_one_skip p made d :
  pr_status p d <> DRIVER_STATUS_UNINITIALIZED \/ can_start (pr_status p) d = false ->
  init_one (drv_addr d) (loop_state p made) = loop_state p made.
Proof.
  intros Hs. unfold init_one. cbn [loop_state i_reg]. rewrite drv_at_reg, dependencies_reg. cbn [set_status d_status].
  destruct (bool_decide _) eqn:E; cbn [negb]; [|done]. apply bool_decide_eq_true in E.
  destruct Hs as [Hs| ->]; done.
Qed.

Lemma start_driver_other p d d' : d' <> d -> pr_status (start_driver p d) d' = pr_status p d'.
Proof.
  intros Hne. unfold start_driver. destruct (can_start _ d); [|done].
  destruct (init_of d _ _) as [err w]. cbn [pr_status]. unfold set_fn. by rewrite decide_False.
Qed.
Lemma start_driver_log p d : (length (pr_log (start_driver p d)) <= S (length (pr_log p)))%nat.
Proof.
  unfold start_driver. destruct (can_start _ d); [|lia]. destruct (init_of d _ _) as [err w].
  cbn [pr_log]. rewrite length_app. cbn. lia.
Qed.

Lemma walk_fresh ds p made :
  NoDup ds -> Forall (fun d => pr_status p d = DRIVER_STATUS_UNINITIALIZED) ds ->
  (length (pr_log p) + length ds <= 6)%nat ->
  exists made', foldl (fun st a => init_one a st) (loop_state p made) (drv_addr <$> ds) =
    loop_state (foldl start_driver p ds) made' /\ (made = true -> made' = true).
Proof.
  revert p made. induction ds as [|d ds IH]; intros p made Hnd Hf Hl; [by exists made|].
  apply NoDup_cons in Hnd as [Hin Hnd]. apply Forall_cons in Hf as [Hd Hf]. cbn [length] in Hl.
  cbn [fmap list_fmap foldl]. rewrite init_one_fresh by (done || lia).
  destruct (IH (start_driver p d) (can_start (pr_status p) d || made) Hnd) as (made' & -> & Hm).
  - apply Forall_forall. intros d' Hd'. rewrite start_driver_other by (intros ->; done).
    rewrite Forall_forall in Hf. by apply Hf.
  - pose proof (start_driver_log p d). lia.
  - exists made'. split; [done|]. intros ->. apply Hm. by rewrite orb_true_r.
Qed.

Lemma walk_skip ds p made :
  Forall (fun d => pr_status p d <> DRIVER_STATUS_UNINITIALIZED \/ can_start (pr_status p) d = false) ds ->
  foldl (fun st a => init_one a st) (loop_state p made) (drv_addr <$> ds) = loop_state p made.
Proof.
  induction 1 as [|d ds Hd Hf IH]; [done|]. cbn [fmap list_fmap foldl]. by rewrite init_one_skip.
Qed.

Lemma walk_other ds p d : d ∉ ds -> pr_status (foldl start_driver p ds) d = pr_status p d.
Proof.
  revert p. induction ds as [|d' ds IH]; intros p Hd; [done|]. apply not_elem_of_cons in Hd as [Hne Hd].
  cbn [foldl]. rewrite IH by done. by apply start_driver_other.
Qed.

(** No driver comes before the one it waits for. *)
Fixpoint ordered (ds : list kdriver) : Prop :=
  match ds with
  | [] => True
  | d :: ds' => (d ∉ ds') /\ (forall d', dependency d = Some d' -> d' ∉ (d :: ds')) /\ ordered ds'
  end.

(** After a walk in order, whoever did not start waits for a driver that is not up. *)
Lemma walk_final ds p d :
  ordered ds -> d ∈ ds ->
  let q := foldl start_driver p ds in
  pr_status q d <> DRIVER_STATUS_UNINITIALIZED \/ can_start (pr_status q) d = false.
Proof.
  cbv zeta. revert p. induction ds as [|x ds IH]; intros p Ho Hd; [by apply elem_of_nil in Hd|].
  destruct Ho as (Hx & Hdep & Ho). apply elem_of_cons in Hd as [->|Hd]; [|by apply IH]. cbn [foldl].
  destruct (can_start (pr_status p) x) eqn:Ec; [left|right].
  - rewrite walk_other by done. unfold start_driver. rewrite Ec. destruct (init_of x _ _) as [e w]. cbn [pr_status].
    unfold set_fn. rewrite decide_True by done. by destruct (is_ok e).
  - unfold can_start in *. destruct (dependency x) as [y|] eqn:Ey; [|done].
    specialize (Hdep y eq_refl). apply not_elem_of_cons in Hdep as [Hne Hy].
    by rewrite walk_other, start_driver_other.
Qed.

Lemma all_drivers_ordered : ordered all_drivers.
Proof. unfold all_drivers. cbn. repeat split; try (intros d'; intros [= <-]); set_solver. Qed.

Lemma all_drivers_all d : d ∈ all_drivers.
Proof. destruct d; set_solver. Qed.


(** *** The registry's procedure *)

Definition kernel_registry : registry W :=
  foldl (fun r d => snd (driver_register r (drv_addr d))) (static_registry init_of) all_drivers.

Lemma kernel_registry_eq : kernel_registry = reg_with (fun _ => DRIVER_STATUS_UNINITIALIZED).
Proof. vm_compute. reflexivity. Qed.
Lemma kernel_queue f : build_queue (reg_with f) = ((drv_addr <$> all_drivers) ++ replicate 26 0, 6).
Proof. vm_compute. reflexivity. Qed.

#[local] Opaque init_one.
Lemma init_pass_walk p made :
  init_pass ((drv_addr <$> all_drivers) ++ replicate 26 0) 6 (loop_state p made) =
  foldl (fun st a => init_one a st) (loop_state p false) (drv_addr <$> all_drivers).
Proof.
  unfold init_pass. change (clear_progress (loop_state p made)) with (loop_state p false).
  generalize (loop_state p false). intros st. reflexivity.
Qed.
#[local] Transparent init_one.

Lemma walk_first d ds p :
  NoDup (d :: ds) -> Forall (fun d => pr_status p d = DRIVER_STATUS_UNINITIALIZED) (d :: ds) ->
  (length (pr_log p) + length (d :: ds) <= 6)%nat -> can_start (pr_status p) d = true ->
  foldl (fun st a => init_one a st) (loop_state p false) (drv_addr <$> d :: ds) = loop_state (foldl start_driver p (d :: ds)) true.
Proof.
  intros Hnd Hf Hl Hc. apply NoDup_cons in Hnd as [Hin Hnd]. apply Forall_cons in Hf as [Hd Hf]. cbn [length] in Hl.
  rewrite fmap_cons. cbn [foldl]. rewrite init_one_fresh, Hc by (done || lia). cbn [orb].
  destruct (walk_fresh ds (start_driver p d) true Hnd) as (m & -> & Hm).
  - apply Forall_forall. intros d' Hd'. rewrite start_driver_other by (intros ->; done).
    rewrite Forall_forall in Hf. by apply Hf.
  - pose proof (start_driver_log p d). lia.
  - by rewrite (Hm eq_refl).
Qed.

Lemma first_pass w made :
  init_pass ((drv_addr <$> all_drivers) ++ replicate 26 0) 6 (loop_state (untouched w) made) =
  loop_state (start_drivers w) true.
Proof.
  rewrite init_pass_walk. unfold start_drivers, all_drivers. apply walk_first.
  - apply (bool_decide_unpack _). by vm_compute.
  - by repeat constructor.
  - cbn. lia.
  - done.
Qed.

Lemma walk_values ds p d st :
  pr_status p d = DRIVER_STATUS_UNINITIALIZED -> pr_status (foldl start_driver p ds) d = st ->
  NoDup ds -> st = DRIVER_STATUS_UNINITIALIZED \/ st = DRIVER_STATUS_INITIALIZED \/ st = DRIVER_STATUS_FAILED.
Proof.
  revert p. induction ds as [|x ds IH]; intros p Hp Hst Hnd; [left; cbn in Hst; by rewrite <- Hst|].
  apply NoDup_cons in Hnd as [Hx Hnd]. cbn [foldl] in Hst. destruct (decide (d = x)) as [->|Hne].
  - rewrite walk_other in Hst by done. unfold start_driver in Hst. destruct (can_start _ x); [|left; cbn in Hst; by rewrite <- Hst].
    destruct (init_of x _ _) as [e w]. cbn [pr_status] in Hst. unfold set_fn in Hst. rewrite decide_True in Hst by done.
    right. destruct (is_ok e); auto.
  - apply (IH (start_driver p x)); [|done|done]. by rewrite start_driver_other.
Qed.

Lemma init_passes_start k q w :
  init_passes (S k) q 6 (loop_state (untouched w) false) =
  let st := init_pass q 6 (loop_state (untouched w) false) in if i_progress st then init_passes k q 6 st else st.
Proof. reflexivity. Qed.

Lemma init_passes_end k p :
  (forall d, d ∈ all_drivers -> pr_status p d <> DRIVER_STATUS_UNINITIALIZED \/ can_start (pr_status p) d = false) ->
  exists made, init_passes (S k) ((drv_addr <$> all_drivers) ++ replicate 26 0) 6 (loop_state p true) = loop_state p made.
Proof.
  intros Hp. cbn [init_passes]. destruct (_ <? _); [|by exists true].
  rewrite init_pass_walk, walk_skip by (by apply Forall_forall). cbn [i_progress loop_state]. by exists false.
Qed.

Lemma kernel_drivers_run w :
  exists made, driver_init_all kernel_registry w = (E_OK, loop_state (start_drivers w) made).
Proof.
  rewrite kernel_registry_eq. unfold driver_init_all. rewrite kernel_queue.
  change (Z.to_nat (u8 (driver_count (reg_with (fun _ => DRIVER_STATUS_UNINITIALIZED)) * 2))) with 12%nat.
  change (mkInit (reg_with (fun _ => DRIVER_STATUS_UNINITIALIZED)) w 0 false []) with (loop_state (untouched w) false).
  cbv beta iota. rewrite init_passes_start, first_pass. cbv zeta. cbn [i_progress loop_state].
  destruct (init_passes_end 10 (start_drivers w)) as [made E].
  - intros d _. exact (walk_final all_drivers (untouched w) d all_drivers_ordered (all_drivers_all d)).
  - exists made. by rewrite <- E.
Qed.

(** C7. The kernel's six drivers are started one by one, in the order interrupt
    table, keyboard, timer, block layer, ATA, NVMe, each with the state the
    one before left, and each only when the driver it depends on came up; the
    registry keeps what became of each of them, whatever their init functions do. *)
Theorem kernel_drivers_start w :
  exists made,
    driver_init_all kernel_registry w = (E_OK, loop_state (start_drivers w) made) /\
    forall d, pr_status (start_drivers w) d = DRIVER_STATUS_UNINITIALIZED ->
      exists d', dependency d = Some d' /\ pr_status (start_drivers w) d' = DRIVER_STATUS_FAILED.
Proof.
  pose proof (fun d => walk_final all_drivers (untouched w) d all_drivers_ordered (all_drivers_all d)) as Hfin.
  cbv zeta in Hfin. fold (start_drivers w) in Hfin.
  destruct (kernel_drivers_run w) as [made Hrun]. exists made. split; [exact Hrun|]. clear Hrun made. intros d Hd.
  destruct (Hfin d) as [H|H]; [destruct (H Hd)|]. unfold can_start in H. destruct (dependency d) as [d'|] eqn:Ed; [|done].
  exists d'. split; [done|].
  assert (Hd' : dependency d' = None) by (destruct d; cbn in Ed; by simplify_eq).
  destruct (walk_values all_drivers (untouched w) d' (pr_status (start_drivers w) d')) as [H'|[H'|H']];
    [reflexivity|reflexivity| | | |exact H'].
  - apply (bool_decide_unpack _). by vm_compute.
  - destruct (Hfin d') as [H2|H2]; [destruct (H2 H')|]. unfold can_start in H2. by rewrite Hd' in H2.
  - by rewrite H' in H.
Qed.
End start.
