(* ===== verification/BootThms.v ===== *)
(** * The boot sequence: memory and components (theorems)

    The first half of [kernel_main], from the state the loader leaves to the last
    component before the drivers start, and the memory that two allocators share. *)

From S2P Require Import Prelude MemLayout Errno CString Bitmap Pmm Buddy BuddyLists BuddyInv BuddyThms Slab SlabInv SlabThms Kmalloc.
From S2P Require Import Task TaskInv TaskThms Tty Driver Block Vmm Ramfs Vfs.
From S2P Require Import Ports Serial Idt Console Vga Legacy Reports Ata Nvme NvmeThms NvmePci Boot BootDrivers.

(** ** Memory that two allocators own *)

(** The page manager after [n] further pages were taken from it. *)
Definition taken (n : nat) : pmm := Nat.iter n (fun s => snd (pmm_alloc_page s)) pmm_boot.

Definition first_used (s : pmm) (k : Z) : Prop :=
  pmm_inv s /\ forall j, 0 <= j < TOTAL_PAGES -> page_used s j = (j <? k).

Lemma alloc_next s k :
  first_used s k -> 0 <= k < TOTAL_PAGES ->
  fst (pmm_alloc_page s) = PHYS_FREE_START + k * PAGE_SIZE /\ first_used (snd (pmm_alloc_page s)) (k + 1).
Proof.
  intros [Hinv Hu] Hk. pose proof (pmm_alloc_page_first_fit s Hinv) as Hf. destruct (pmm_alloc_page s) as [addr s'].
  destruct Hf as [Hinv' [(_ & _ & _ & Hall)|(i & Hi & -> & _ & _ & Hfree & Hlow & _ & Hs')]]; cbn [fst snd].
  - specialize (Hall k Hk). rewrite Hu, Z.ltb_irrefl in Hall by done. done.
  - assert (i = k) as ->.
    { rewrite Hu in Hfree by done. apply Z.ltb_ge in Hfree. destruct (decide (i = k)); [done|].
      specialize (Hlow k ltac:(lia)). by rewrite Hu, Z.ltb_irrefl in Hlow. }
    split; [done|]. split; [done|]. intros j Hj. rewrite Hs', Hu by lia.
    destruct (Z.eqb_spec k j), (Z.ltb_spec j k), (Z.ltb_spec j (k + 1)); try done; lia.
Qed.

Lemma taken_spec n : Z.of_nat n <= 30720 -> first_used (taken n) (1024 + Z.of_nat n).
Proof.
  induction n as [|n IH]; intros Hn.
  - destruct pmm_boot_facts as (Hinv & _ & Hu). split; [done|]. intros j Hj. rewrite Z.add_0_r. by apply Hu.
  - replace (1024 + Z.of_nat (S n)) with (1024 + Z.of_nat n + 1) by lia.
    apply (alloc_next (taken n)); [apply IH; lia|]. rewrite TOTAL_PAGES_val. lia.
Qed.

(** Every page of the kernel's buddy region is among those the page manager hands out,
    the first of which is already taken. *)
Lemma region_taken q :
  KERNEL_BUDDY_BASE <= q < KERNEL_BUDDY_BASE + KERNEL_BUDDY_SIZE -> q mod PAGE_SIZE = 0 ->
  exists m, fst (pmm_alloc_page (Nat.iter m (fun s => snd (pmm_alloc_page s)) (snd (pmm_alloc_page pmm_boot)))) = q.
Proof.
  intros Hq Hal. unfold KERNEL_BUDDY_BASE, KERNEL_BUDDY_SIZE, PAGE_SIZE in *. set (k := (q - PHYS_FREE_START) / 4096).
  assert (Hk : q = PHYS_FREE_START + k * 4096 /\ 15360 <= k < 31744) by (unfold k, PHYS_FREE_START; dlia).
  exists (Z.to_nat (k - 1025)).
  change (snd (pmm_alloc_page pmm_boot)) with ((fun s => snd (pmm_alloc_page s)) pmm_boot). rewrite <- Nat.iter_succ_r.
  replace (S (Z.to_nat (k - 1025))) with (Z.to_nat (k - 1024)) by lia. fold (taken (Z.to_nat (k - 1024))).
  destruct (alloc_next (taken (Z.to_nat (k - 1024))) k) as [-> _].
  - replace k with (1024 + Z.of_nat (Z.to_nat (k - 1024))) at 2 by lia. apply taken_spec. lia.
  - rewrite TOTAL_PAGES_val. lia.
  - symmetry. apply Hk.
Qed.

(** ** Output *)

Section output.
Context {D : Type} `{HP : PortBus D} `{HR : NvmeRegs D}.
Implicit Types (k : kernel D) (s : kstate D).

(** The state with other output. *)
Definition out (o : list con_req) (t : list (list Z)) k : kernel D := mkKernel (kn_reg k) (set_ser t (set_con o (kn_st k))).

Lemma wp_say o t x k (Q : unit -> kernel D -> Prop) : Q tt (out (o ++ x) t k) -> wp (say x) (out o t k) Q.
Proof. done. Qed.
Lemma wp_ser o t x k (Q : unit -> kernel D -> Prop) : Q tt (out o (t ++ [x]) k) -> wp (ser x) (out o t k) Q.
Proof. done. Qed.


(** An initialisation that succeeds. *)
Lemma wp_try_ok name m n o t k (Q : Z -> kernel D -> Prop) :
  (forall o t, wp m (out o t k) (fun e k' => e = E_OK /\ exists o' t' k2, k' = out o' t' k2 /\ forall o t, Q n (out o t k2))) ->
  wp (TRY_INIT name m n) (out o t k) Q.
Proof.
  intros Hm. unfold TRY_INIT. do 3 (apply wp_bind, wp_ser). do 3 (apply wp_bind, wp_say).
  apply wp_bind. eapply wp_mono; [apply Hm|]. intros e k' (-> & o' & t' & k2 & -> & HQ).
  cbn [is_ok]. apply wp_bind, wp_say. apply wp_bind, wp_ser. apply wp_ret. apply HQ.
Qed.


(** Port programs change the bus only. *)
Definition bus_only {A} (m : io (cpu D) A) : Prop := forall c, exists a d, m c = Some (a, set_bus d c).

Lemma bus_only_ret {A} (a : A) : bus_only (io_ret a).
Proof. intros [d i p l b]. by exists a, d. Qed.
Lemma bus_only_bind {A B} (m : io (cpu D) A) (f : A -> io (cpu D) B) :
  bus_only m -> (forall a, bus_only (f a)) -> bus_only (io_bind m f).
Proof.
  intros Hm Hf c. destruct (Hm c) as (a & d & E). destruct (Hf a (set_bus d c)) as (b & d' & E').
  exists b, d'. unfold io_bind. rewrite E, E'. by destruct c.
Qed.
Lemma bus_only_outb port v : bus_only (outb port v).
Proof. intros c. by eexists tt, _. Qed.
Lemma bus_only_inb port : bus_only (inb port).
Proof. intros c. unfold inb. destruct (bus_in8 _ _) as [v d]. by eexists _, d. Qed.

Lemma serial_init_bus : bus_only (serial_init COM1).
Proof.
  unfold serial_init. repeat (apply bus_only_bind; [apply bus_only_outb|intros _]).
  apply bus_only_bind; [apply bus_only_inb|]. intros v. destruct (negb _); [apply bus_only_ret|].
  apply bus_only_bind; [apply bus_only_outb|]. intros _. apply bus_only_ret.
Qed.
End output.

(** ** The components *)

(** The heap and the root file system after the first half of [kernel_main]. *)
Definition slab_zero : slab_sys buddy := mkSys None ∅ ∅ ∅ (replicate 32 0) 0 [] [].
Definition fs_zero : vfs (heap buddy) := mkVfs ∅ ∅ ∅ ∅ (replicate 8 (mkMount [] 0 false)) 0 (mkHeap slab_zero ∅).
Definition task_zero : sched (heap buddy) := mkSched ∅ [] 0 0 0 0 0 0 0 0 0 ∅ (mkHeap slab_zero ∅).
Definition vfs_ready : vfs (heap buddy) := snd (vfs_init (with_vheap fs_zero boot_heap)).
Definition ramfs_made : kerr_t * Z * vfs (heap buddy) := ramfs_create_fs vfs_ready.
Definition root_mounted : kerr_t * vfs (heap buddy) := vfs_mount (snd ramfs_made) (snd (fst ramfs_made)) (str "/").

Lemma ramfs_made_ok : fst (fst ramfs_made) = E_OK.
Proof. vm_compute. reflexivity. Qed.
Lemma root_mounted_ok : fst root_mounted = E_OK.
Proof. vm_compute. reflexivity. Qed.
Lemma kernel_buddy_init : buddy_init ∅ 0x04000000 0x04000000 = (E_OK, Some kernel_buddy).
Proof.
  unfold kernel_buddy. destruct (buddy_init_spec ∅ _ _ kernel_region_ok) as (a & _ & E & _).
  unfold KERNEL_BUDDY_BASE, KERNEL_BUDDY_SIZE in E. rewrite E. done.
Qed.
Lemma kernel_slab_ok : fst (slab_init kernel_sys) = E_OK.
Proof. vm_compute. reflexivity. Qed.

Section main.
Context {D : Type} `{HP : PortBus D} `{HR : NvmeRegs D}.
Context (l : layout) (v0 : vmm).
Hypothesis Hblocks : l_blocks l = ∅.

Definition ctrl_zero : nvme_controller_t :=
  let qp := mkQp 0 0 0 0 0 0 0 0 0 in mkCtrl 0 qp qp 0 0 0.

(** The parts that the first half changes. *)
Definition stage (c : cpu D) (r : registry (kstate D)) (h : heap buddy) (pm : pmm) (vm : vmm) (lg : legacy)
    (vf : vfs (heap buddy)) (ty : tty) : kernel D :=
  mkKernel r (mkKs c [] [] h pm vm lg vf task_zero ty ctrl_zero (mkBlk ∅ None) false).

(** Static variables are zero; the processor and the page tables are as the
    loader left them. *)
Definition loaded (c : cpu D) : kernel D :=
  stage c (static_registry (kernel_init_of l)) (mkHeap slab_zero ∅) (mkPmm ∅ 0 0) v0 (mkLegacy None ∅) fs_zero
    (mkTty (replicate 256 0) 0 0 0 0 false).

Definition legacy_up : legacy := snd (memory_init (mkLegacy None ∅) PHYS_HEAP_START PHYS_HEAP_SIZE).
Definition vmm_up : vmm := mkVmm (vmem v0) (l_cr3 l) (flushed v0).
Definition components_up (c : cpu D) : kernel D :=
  stage c (kernel_registry (kernel_init_of l)) (v_heap (snd root_mounted)) (snd (pmm_alloc_page pmm_boot)) vmm_up legacy_up
    (snd root_mounted) (snd tty_init).

Lemma wp_try_eq name m n o t k k2 e (Q : Z -> kernel D -> Prop) :
  (forall o t, m (out o t k) = Some (e, out o t k2)) -> e = E_OK -> (forall o t, Q n (out o t k2)) ->
  wp (TRY_INIT name m n) (out o t k) Q.
Proof.
  intros Hm -> HQ. apply wp_try_ok. intros o' t'. unfold wp. rewrite Hm. split; [done|]. by eexists _, _, _.
Qed.

Section steps.
Context (c : cpu D) (r : registry (kstate D)) (h : heap buddy) (pm : pmm) (vm : vmm)
  (lg : legacy) (vf : vfs (heap buddy)) (ty : tty) (o : list con_req) (t : list (list Z)).
Abbreviation here := (out o t (stage c r h pm vm lg vf ty)).

Lemma reg_step_eq f : on_reg f here = Some (fst (f r), out o t (stage c (snd (f r)) h pm vm lg vf ty)).
Proof. unfold on_reg. cbn [kn_reg out stage]. by destruct (f r). Qed.
Lemma memory_step_eq :
  memory_step here = Some (E_OK, out o t (stage c r h pm vm (snd (memory_init lg PHYS_HEAP_START PHYS_HEAP_SIZE)) vf ty)).
Proof. done. Qed.
Lemma part_eq {X A} (f : kstate D -> A * X) put k x :
  f (kn_st k) = x -> on_part f put k = Some (fst x, mkKernel (kn_reg k) (put (snd x) (kn_st k))).
Proof. by intros <-. Qed.
Lemma set_pmm_eq (x : kerr_t * pmm) : on_part (fun _ => x) set_pmm here = Some (fst x, out o t (stage c r h (snd x) vm lg vf ty)).
Proof. reflexivity. Qed.
Lemma pmm_step_eq : pmm_step here = Some (fst pmm_init, out o t (stage c r h pmm_boot vm lg vf ty)).
Proof. apply (set_pmm_eq pmm_init). Qed.
Lemma vmm_step_eq :
  vmm_step l here = Some (E_OK, out o t (stage c r h pm (mkVmm (vmem vm) (l_cr3 l) (flushed vm)) lg vf ty)).
Proof. done. Qed.
Lemma kalloc_step_eq :
  kalloc_step here = Some (fst (kalloc_pages pm 1), out o t (stage c r h (snd (kalloc_pages pm 1)) vm lg vf ty)).
Proof. unfold kalloc_step. rewrite (part_eq _ _ _ (kalloc_pages pm 1)) by reflexivity. generalize (kalloc_pages pm 1). reflexivity. Qed.
Lemma tty_step_eq : tty_step here = Some (E_OK, out o t (stage c r h pm vm lg vf (snd tty_init))).
Proof. reflexivity. Qed.
Lemma mount_step_eq fs v v' :
  ramfs_create_fs (with_vheap vf h) = (E_OK, fs, v) -> vfs_mount (with_vheap v (v_heap v)) fs (str "/") = (E_OK, v') ->
  forall n (Q : Z -> kernel D -> Prop), (forall o t, Q n (out o t (stage c r (v_heap v') pm vm lg v' ty))) -> wp (mount_ramfs n) here Q.
Proof.
  intros E1 E2 n Q HQ. unfold mount_ramfs. apply wp_bind, wp_ser, wp_bind, wp_say. apply wp_bind.
  unfold wp at 1. rewrite (part_eq _ _ _ (E_OK, fs, v)) by exact E1. cbn [fst snd is_ok]. apply wp_bind. unfold wp at 1.
  rewrite (part_eq _ _ _ (E_OK, v')) by exact E2. cbn [fst snd is_ok].
  eapply wp_bind, (wp_ser _ _ _ (stage c r (v_heap v') pm vm lg v' ty)). apply wp_bind, wp_say. apply wp_ret. apply HQ.
Qed.

(** The steps on the states they meet. *)
Lemma buddy_step_boot p : p <> 0 ->
  buddy_step l p (out o t (stage c r (mkHeap slab_zero ∅) pm vm lg vf ty)) =
  Some (E_OK, out o t (stage c r (mkHeap kernel_sys ∅) pm vm lg vf ty)).
Proof.
  intros Hp. assert (E : buddy_init (l_blocks l) 0x04000000 0x04000000 = (E_OK, Some kernel_buddy)) by (rewrite Hblocks; exact kernel_buddy_init).
  unfold buddy_step. rewrite (proj2 (Z.eqb_neq _ _) Hp), (part_eq _ _ _ (E_OK, Some kernel_buddy)) by exact E.
  unfold kernel_sys. generalize kernel_buddy. reflexivity.
Qed.
Lemma slab_part_eq (x : kerr_t * slab_sys buddy) s0 :
  on_part (fun _ => x) (fun x s => set_kheap (with_h_slab (ks_heap s) x) s) (out o t (stage c r (mkHeap s0 ∅) pm vm lg vf ty)) =
  Some (fst x, out o t (stage c r (mkHeap (snd x) ∅) pm vm lg vf ty)).
Proof. reflexivity. Qed.
Lemma slab_step_boot :
  slab_step (out o t (stage c r (mkHeap kernel_sys ∅) pm vm lg vf ty)) =
  Some (fst (slab_init kernel_sys), out o t (stage c r boot_heap pm vm lg vf ty)).
Proof. exact (slab_part_eq (slab_init kernel_sys) kernel_sys). Qed.
Lemma vfs_part_eq (x : kerr_t * vfs (heap buddy)) :
  on_part (fun _ => x) set_vfs here = Some (fst x, out o t (stage c r (v_heap (snd x)) pm vm lg (snd x) ty)).
Proof. reflexivity. Qed.
End steps.

Lemma vfs_step_boot c r pm vm lg ty o t :
  vfs_step (out o t (stage c r boot_heap pm vm lg fs_zero ty)) =
  Some (fst (vfs_init (with_vheap fs_zero boot_heap)), out o t (stage c r (v_heap vfs_ready) pm vm lg vfs_ready ty)).
Proof. exact (vfs_part_eq c r boot_heap pm vm lg fs_zero ty o t (vfs_init (with_vheap fs_zero boot_heap))). Qed.

Lemma root_mounted_eq :
  ramfs_create_fs (with_vheap vfs_ready (v_heap vfs_ready)) = (E_OK, snd (fst ramfs_made), snd ramfs_made) /\
  vfs_mount (with_vheap (snd ramfs_made) (v_heap (snd ramfs_made))) (snd (fst ramfs_made)) (str "/") = (E_OK, snd root_mounted).
Proof.
  split.
  - rewrite <- ramfs_made_ok. unfold ramfs_made.
    assert (E : with_vheap vfs_ready (v_heap vfs_ready) = vfs_ready) by (generalize vfs_ready; by intros []).
    rewrite E. clear E. destruct (ramfs_create_fs vfs_ready) as [[? ?] ?]. reflexivity.
  - rewrite <- root_mounted_ok. unfold root_mounted. destruct (snd ramfs_made) as [a b c d e f g]. apply surjective_pairing.
Qed.

Lemma boot_buddy_page : fst (kalloc_pages pmm_boot 1) <> 0 /\ snd (kalloc_pages pmm_boot 1) = snd (pmm_alloc_page pmm_boot).
Proof.
  destruct (alloc_next pmm_boot 1024) as [Ha _].
  { destruct pmm_boot_facts as (Hinv & _ & Hu). by split. }
  { rewrite TOTAL_PAGES_val. lia. }
  unfold kalloc_pages, pmm_alloc_pages. cbn [Z.eqb]. destruct (pmm_alloc_page pmm_boot) as [p m]. cbn [fst snd] in *. subst p.
  split; vm_compute; [discriminate|reflexivity].
Qed.

#[local] Strategy expand [components_up kernel_registry].
Lemma registrations (r : registry (kstate D)) :
  snd (nvme_register (snd (ata_register (snd (block_register (snd (pit_register (snd (keyboard_register
    (snd (idt_register r)))) 100)))))) (drv_addr NVMe)) =
  foldl (fun r d => snd (driver_register r (drv_addr d))) r all_drivers.
Proof. reflexivity. Qed.

Lemma boot_components_up o t c (Q : Z -> kernel D -> Prop) :
  (forall o t, Q 0 (out o t (components_up c))) -> wp (boot_components l) (out o t (loaded c)) Q.
Proof.
  intros HQ. unfold boot_components, loaded.
  eapply wp_bind, wp_try_eq; [intros; apply reg_step_eq|vm_compute; reflexivity|]. intros o1 t1.
  eapply wp_bind, wp_try_eq; [intros; apply memory_step_eq|reflexivity|]. intros o2 t2.
  eapply wp_bind, wp_try_eq; [intros; apply pmm_step_eq|reflexivity|]. intros o3 t3.
  eapply wp_bind, wp_try_eq; [intros; apply vmm_step_eq|reflexivity|]. intros o4 t4.
  apply wp_bind. unfold wp at 1. rewrite kalloc_step_eq.
  destruct boot_buddy_page as [Hp ->].
  eapply wp_bind, wp_try_eq; [intros; apply (buddy_step_boot _ _ _ _ _ _ _ _ _ _ Hp)|reflexivity|]. intros o5 t5.
  eapply wp_bind, wp_try_eq; [intros; apply slab_step_boot|exact kernel_slab_ok|]. intros o6 t6.
  eapply wp_bind, wp_try_eq; [intros; apply vfs_step_boot|reflexivity|]. intros o7 t7.
  destruct root_mounted_eq as [E1 E2].
  eapply wp_bind, mount_step_eq; [exact E1|exact E2|]. intros o8 t8.
  do 5 (eapply wp_bind, wp_try_eq; [intros; apply reg_step_eq|vm_compute; reflexivity|]; intros ? ?).
  eapply wp_try_eq; [intros; apply tty_step_eq|reflexivity|]. fold vmm_up legacy_up. rewrite registrations. exact HQ.
Qed.
End main.
