(* ===== verification/BootMain.v ===== *)
(** * The boot sequence up to the idle loop (theorems)

    The second half of [kernel_main]: the drivers, the scheduler and the shell task,
    on the heap that the first half leaves. *)

From S2P Require Import Prelude MemLayout Errno CString Bitmap Pmm Buddy BuddyLists BuddyInv BuddyThms Slab SlabInv SlabThms Kmalloc.
From S2P Require Import Task TaskInv TaskThms Tty Driver Block Vmm Ramfs Vfs.
From S2P Require Import Ports Serial Idt Console Vga Legacy Reports Ata Nvme NvmeThms NvmePci Boot BootDrivers BootThms.

(** ** The scheduler on the boot heap *)

(** The block manager's allocation. *)
Definition managed : Z * heap buddy := kh_alloc (v_heap (snd root_mounted)) 72.
Lemma managed_eq : kh_alloc (v_heap (snd root_mounted)) 72 = managed.
Proof. unfold managed. reflexivity. Qed.
Lemma managed_nonnull : fst managed <> 0.
Proof. vm_compute. discriminate. Qed.

(** Without a running task the timer interrupt only counts. *)
Lemma early_ticks {A} `{KHeap A} n (s : sched A) :
  current_task s = 0 -> exists T, Nat.iter n pit_handler s = with_ticks s T.
Proof.
  intros Hc. induction n as [|n [T IH]]; [exists (pit_ticks s); by destruct s|].
  exists (u64 (T + 1)). rewrite Nat.iter_succ, IH. unfold pit_handler, scheduler_tick. cbn [with_ticks current_task pit_ticks].
  by rewrite Hc.
Qed.

Lemma fewer_than_ten (P : nat -> Prop) :
  P 0%nat -> P 1%nat -> P 2%nat -> P 3%nat -> P 4%nat -> P 5%nat -> P 6%nat -> P 7%nat -> P 8%nat -> P 9%nat ->
  forall n, (n < 10)%nat -> P n.
Proof. intros. do 10 (destruct n as [|n]; [assumption|]). lia. Qed.

(** One ready task, no sleepers. *)
Lemma one_ready (s : sched (heap buddy)) (i slice p : Z) :
  ready_queue_head s = p -> ready_queue_tail s = p -> p <> 0 -> tasks s !! p = Some (task_at s p) ->
  t_next (task_at s p) = 0 -> t_state (task_at s p) = READY -> sleep_queue_head s = 0 ->
  current_task s = i -> i <> 0 -> i <> p -> idle_task s = i -> time_slice (task_at s i) = slice -> 0 <= slice ->
  t_state (task_at s i) = RUNNING -> is_Some (tasks s !! i) -> sched_ok s (mkA i slice [p] []).
Proof.
  intros Hh Ht Hp0 Hp Hnx Hps Hsl Hc Hi0 Hip Hid Hts Hs0 Hr Hi.
  split; [split; [split|..]|..]; cbn [a_cur a_slice a_rq a_sq tseg fmap list_fmap last default app].
  - split; [done|]. split; [done|]. by exists (task_at s p).
  - done.
  - done.
  - apply NoDup_singleton.
  - intros x Hx. apply list_elem_of_singleton in Hx as ->. exact Hps.
  - intros x Hx. by apply elem_of_nil in Hx.
  - intros x w Hx. by apply elem_of_nil in Hx.
  - done.
  - done.
  - intros Hx. by apply list_elem_of_singleton in Hx.
  - by left.
  - done.
  - intros Hx. by apply elem_of_nil in Hx.
Qed.

Lemma slice_left k (s : sched (heap buddy)) i slice p :
  sched_ok s (mkA i slice [p] []) -> Z.of_nat k < slice -> sched_ok (Nat.iter k pit_handler s) (mkA i (slice - Z.of_nat k) [p] []).
Proof.
  intros Hok. induction k as [|k IH]; intros Hk; [by rewrite Z.sub_0_r|]. specialize (IH ltac:(lia)).
  rewrite Nat.iter_succ. unfold pit_handler at 1. pose proof (tick_running _ _ (sched_ok_ticks _ _ (u64 (pit_ticks (Nat.iter k pit_handler s) + 1)) IH)) as H.
  rewrite (proj1 (a_tick_no_sleepers _ (mkA i (slice - Z.of_nat k) [p] []) eq_refl)), a_step_stay in H by lia.
  replace (slice - Z.of_nat (S k)) with (slice - Z.of_nat k - 1) by lia. exact H.
Qed.

(** [T1] and [T2] are the tick counts when the two initialisations start; [n] interrupts
    come between the second and the creation of the shell. *)
Section tasks.
Context (T1 T2 re ie se : Z).

Definition tasks_ready : sched (heap buddy) := snd (task_init (with_ticks (with_heap task_zero (snd managed)) T1)).
Definition sched_ready : sched (heap buddy) := snd (scheduler_init (with_ticks tasks_ready T2) re ie).
Definition ticked (n : nat) : sched (heap buddy) := Nat.iter n pit_handler sched_ready.
Definition shell_made (n : nat) : Z * sched (heap buddy) := task_create (ticked n) re (str "shell") se.
Definition shell_task (n : nat) : Z := fst (shell_made n).
Definition shell_ready (n : nat) : sched (heap buddy) := scheduler_add_task (snd (shell_made n)) (shell_task n).
(** The idle task runs, with the rest of its slice; the shell waits. *)
Definition shell_ready_abs (n : nat) : asched :=
  mkA (idle_task (shell_ready n)) (TIME_SLICE_TICKS - Z.of_nat n) [shell_task n] [].

Lemma tasks_ready_ok : fst (task_init (with_ticks (with_heap task_zero (snd managed)) T1)) = E_OK.
Proof. vm_compute. reflexivity. Qed.
Lemma tasks_ready_current : current_task tasks_ready = 0.
Proof. vm_compute. reflexivity. Qed.
Lemma sched_ready_ok : fst (scheduler_init (with_ticks tasks_ready T2) re ie) = E_OK.
Proof. vm_compute. reflexivity. Qed.
Lemma shell_made_eq n : task_create (ticked n) re (str "shell") se = (shell_task n, snd (shell_made n)).
Proof. exact (surjective_pairing _). Qed.
Lemma shell_ready_eq n : scheduler_add_task (snd (shell_made n)) (shell_task n) = shell_ready n.
Proof. unfold shell_ready. reflexivity. Qed.

Lemma shell_nonnull n : (n < 10)%nat -> shell_task n <> 0.
Proof. revert n. apply fewer_than_ten; vm_compute; discriminate. Qed.

(** [m] interrupts later. *)
Definition shell_waits (n m : nat) : sched (heap buddy) := Nat.iter m pit_handler (shell_ready n).

Lemma shell_named n m : (n < 10)%nat -> (m < 10)%nat ->
  t_name (task_at (shell_waits n m) (shell_task n)) = str "shell" /\ idle_task (shell_waits n m) = idle_task (shell_ready n).
Proof.
  intros Hn. revert m. revert n Hn. refine (fewer_than_ten _ _ _ _ _ _ _ _ _ _ _);
    apply fewer_than_ten; split; vm_compute; reflexivity.
Qed.
(** The task runs when the slice is over. *)
Lemma shell_runs n : (n < 10)%nat -> current_task (Nat.iter (10 - n) pit_handler (shell_ready n)) = shell_task n.
Proof. revert n. apply fewer_than_ten; vm_compute; reflexivity. Qed.
Lemma shell_runs_later n m : (n + m < 10)%nat -> current_task (Nat.iter (10 - (n + m)) pit_handler (shell_waits n m)) = shell_task n.
Proof.
  intros Hn. unfold shell_waits. rewrite <- Nat.iter_add. replace (10 - (n + m) + m)%nat with (10 - n)%nat by lia.
  apply shell_runs. lia.
Qed.

Lemma shell_ready_ok n : (n < 10)%nat -> sched_ok (shell_ready n) (shell_ready_abs n).
Proof.
  revert n. apply fewer_than_ten; (apply one_ready; [vm_compute; first [reflexivity|discriminate]..|vm_compute; by eexists]).
Qed.

(** The heap's pages still come from the region the allocator was given. *)
Lemma region_of n m : (n < 10)%nat -> (m < 10)%nat ->
  (fun a => (base_addr a, total_size a)) <$> sy_pages (h_slab (k_heap (shell_waits n m))) = Some (KERNEL_BUDDY_BASE, KERNEL_BUDDY_SIZE).
Proof.
  intros Hn. revert m. revert n Hn. refine (fewer_than_ten _ _ _ _ _ _ _ _ _ _ _); apply fewer_than_ten; vm_compute; reflexivity.
Qed.
Lemma final_region n m : (n < 10)%nat -> (m < 10)%nat ->
  exists a, sy_pages (h_slab (k_heap (shell_waits n m))) = Some a /\ base_addr a = KERNEL_BUDDY_BASE /\ total_size a = KERNEL_BUDDY_SIZE.
Proof.
  intros Hn Hm. pose proof (region_of n m Hn Hm) as E. destruct (sy_pages _) as [a|]; [|discriminate E].
  cbn in E. injection E as Eb Es. by exists a.
Qed.

Lemma shell_waits_ok n m : (n + m < 10)%nat ->
  sched_ok (shell_waits n m) (mkA (idle_task (shell_waits n m)) (TIME_SLICE_TICKS - Z.of_nat (n + m)) [shell_task n] []).
Proof.
  intros Hn. destruct (shell_named n m) as [_ ->]; [lia|lia|].
  replace (TIME_SLICE_TICKS - Z.of_nat (n + m)) with (TIME_SLICE_TICKS - Z.of_nat n - Z.of_nat m) by lia.
  apply slice_left; [apply shell_ready_ok; lia|]. unfold TIME_SLICE_TICKS. lia.
Qed.
End tasks.

(** ** The drivers *)

(** The table is loaded and the three vectors lead to their stubs. *)
Definition vectors_set (l : layout) {D} (c : cpu D) : Prop :=
  idt_loaded c = Some (mkIdtPtr 4095 (l_idt l)) /\
  forall v h, (v, h) ∈ [(32, l_irq0 l); (33, l_irq1 l); (14, l_irq_page_fault l)] ->
    gate_present (gate_at (idt c) v) = true /\ gate_offset (gate_at (idt c) v) = h.

Lemma start_last {W} (init_of : kdriver -> Z -> W -> kerr_t * W) (w : W) :
  start_drivers init_of w = start_driver init_of (foldl (start_driver init_of) (untouched w) [IDT; Keyboard; PIT; BlockLayer; ATA]) NVMe.
Proof. unfold start_drivers, all_drivers. cbn [foldl]. reflexivity. Qed.

Section late.
Context {D : Type} `{HC : PciConfig D} `{HR : NvmeRegs D}.
Context (l : layout).
Context (Hstubs : forall v, v ∈ [l_irq0 l; l_irq1 l; l_irq_page_fault l] -> 0 <= v < 2 ^ 64).


Lemma wp_idt_init (c : cpu D) (Q : kerr_t -> cpu D -> Prop) :
  (forall c', vectors_set l c' -> interrupts_on c' = interrupts_on c -> Q E_OK c') ->
  wp (idt_driver_init (l_idt l) (l_irq0 l) (l_irq1 l) (l_irq_page_fault l)) c Q.
Proof.
  intros HQ. unfold idt_driver_init. apply wp_bind. unfold wp at 1, set_idt_ptr.
  apply wp_bind, wp_idt_clear. intros t _. do 10 (apply wp_bind, wp_outb; cpu_simpl).
  do 3 (apply wp_bind, wp_upd_idt; cpu_simpl). apply wp_bind, wp_idt_load; cpu_simpl.
  do 2 (apply wp_bind, wp_outb; cpu_simpl). apply wp_ret. apply HQ; [|reflexivity]. split; [reflexivity|]. cbn [idt].
  intros v h Hv. rewrite !elem_of_cons, !pair_equal_spec in Hv.
  assert (0 <= l_irq0 l < 2 ^ 64 /\ 0 <= l_irq1 l < 2 ^ 64 /\ 0 <= l_irq_page_fault l < 2 ^ 64) as (H0 & H1 & H2)
    by (split_and!; apply Hstubs; set_solver).
  destruct Hv as [[-> ->]|[[-> ->]|[[-> ->]|Hv]]]; [| | |by apply elem_of_nil in Hv].
  - rewrite !(gate_at_set_gate_ne _ _ _ _ _ 32) by lia. pose proof (gate_set t 32 (l_irq0 l) ltac:(lia) H0). naive_solver.
  - rewrite !(gate_at_set_gate_ne _ _ _ _ _ 33) by lia.
    pose proof (gate_set (set_gate t 32 (l_irq0 l) 8 0x8E) 33 (l_irq1 l) ltac:(lia) H1). naive_solver.
  - match goal with |- context [set_gate ?t 14] => pose proof (gate_set t 14 (l_irq_page_fault l) ltac:(lia) H2) end.
    naive_solver.
Qed.

Lemma run_part_wp {S} (view : kstate D -> S) put m s (P : kerr_t -> S -> Prop) :
  wp m (view s) P -> exists e x, run_part view put m s = (e, put x s) /\ P e x.
Proof. unfold wp, run_part. destruct (m (view s)) as [[e x]|]; [|done]. eauto. Qed.

(** The state while the drivers start. *)
Context (o : list con_req) (t : list (list Z)) (pm : pmm) (vm : vmm) (lg : legacy) (vf : vfs (heap buddy)) (ty : tty).
Definition late (c : cpu D) (h : heap buddy) (sc : sched (heap buddy)) (b : block_sys (option (nvme_world D))) : kstate D :=
  mkKs c o t h pm vm lg vf sc ty ctrl_zero b false.

(** The ATA driver never polls for ever, and no PCI slot holds an NVMe controller. *)
Definition ata_answers : Prop := forall x : ata_boot D, is_Some (ata_driver_init (l_fuel l) (l_ata_dev l) (l_ata_data l) x).
Definition no_nvme : Prop := forall (d : D) i, 0 <= i < 8192 -> nvme_at (pci_space d) i = false.
Context (Hata : ata_answers) (Hnvme : no_nvme).

Lemma no_nvme_head d : head (filter (fun i => nvme_at (pci_space d) i = true) (seqZ 0 8192)) = None.
Proof.
  destruct (filter _ _) as [|i rest] eqn:E; [done|]. assert (Hi : i ∈ i :: rest) by apply list_elem_of_here. rewrite <- E in Hi.
  apply list_elem_of_filter in Hi as [Hi Hr]. apply elem_of_seqZ in Hr. by rewrite Hnvme in Hi by lia.
Qed.

Lemma wp_nvme_absent (x : @nvme_boot D) (Q : kerr_t -> nvme_boot -> Prop) :
  (forall d, Q E_NOTFOUND (mkNb (mkNw d (nw_heap (nb_world x)) (nw_ctrl (nb_world x)) true) (nb_vmm x) (nb_pmm x) (nb_blk x))) ->
  wp (nvme_init (l_nvme_dev l) (l_nvme_ctrl l)) x Q.
Proof.
  intros HQ. unfold nvme_init. apply wp_bind. destruct (wp_run nvme_find_controller (nb_world x)
    (fun r w => r = None /\ nw_heap w = nw_heap (nb_world x) /\ nw_ctrl w = nw_ctrl (nb_world x) /\ nw_irq w = true)) as (r & w & E & -> & Eh & Ec & Ei).
  - unfold nvme_find_controller. apply wp_bind. apply wp_pci_read; [lia|lia|set_solver|]. intros w1 _ F2 F3 _.
    apply wp_scan; [lia|lia|]. intros w2 _ G2 G3 G4. change (Z.of_nat (Z.to_nat (256 * 32))) with 8192.
    rewrite no_nvme_head. split; [done|]. split; [congruence|]. split; [congruence|exact G4].
  - unfold wp, on_world. rewrite E. cbn. destruct w as [d h c i]. cbn in Eh, Ec, Ei. subst h c i. apply HQ.
Qed.

Lemma start_step p d e w :
  can_start (pr_status p) d = true -> kernel_init_of l d (drv_addr d) (pr_world p) = (e, w) ->
  start_driver (kernel_init_of l) p d =
  mkProgress (set_fn (pr_status p) d (if is_ok e then DRIVER_STATUS_INITIALIZED else DRIVER_STATUS_FAILED)) w (pr_log p ++ [d]).
Proof. intros Hc E. unfold start_driver. by rewrite Hc, E. Qed.

(** Another bus state, interrupts on. *)
Definition switched_on (d : D) (c : cpu D) : cpu D := mkCpu d (idt c) (idt_ptr c) (idt_loaded c) true.

Section inits.
Context (c : cpu D) (h : heap buddy) (sc : sched (heap buddy)) (b : block_sys (option (nvme_world D))).

Lemma idt_init_late a : exists c', kernel_init_of l IDT a (late c h sc b) = (E_OK, late c' h sc b) /\
  vectors_set l c' /\ interrupts_on c' = interrupts_on c.
Proof.
  destruct (run_part_wp ks_cpu set_cpu _ (late c h sc b) (fun e c' => e = E_OK /\ vectors_set l c' /\ interrupts_on c' = interrupts_on c)
    (wp_idt_init c _ (fun c' H1 H2 => conj eq_refl (conj H1 H2)))) as (e & c' & E & -> & H1 & H2).
  exists c'. split; [exact E|done].
Qed.
Lemma pit_init_late a : exists d, kernel_init_of l PIT a (late c h sc b) = (E_OK, late (set_bus d c) h (with_ticks (with_heap sc h) 0) b).
Proof. by eexists. Qed.
Lemma block_init_late a : fst (kh_alloc h 72) <> 0 ->
  exists b', kernel_init_of l BlockLayer a (late c h sc b) = (E_OK, late c (snd (kh_alloc h 72)) sc b').
Proof.
  intros Hp. cbn [kernel_init_of]. unfold block_init, block_driver_init. cbn [ks_heap late]. destruct (kh_alloc h 72) as [p h'].
  cbn [fst snd] in *. rewrite (proj2 (Z.eqb_neq _ _) Hp). by eexists.
Qed.
Lemma ata_init_late a : exists e d b', kernel_init_of l ATA a (late c h sc b) = (e, late (set_bus d c) h sc b').
Proof.
  cbn [kernel_init_of]. unfold run_part. destruct (Hata (ata_view (late c h sc b))) as [[e x] ->]. by eexists _, _, _.
Qed.
Lemma nvme_init_late a :
  exists d, kernel_init_of l NVMe a (late c h sc b) = (E_NOTFOUND, late (switched_on d c) h sc b).
Proof.
  cbn [kernel_init_of].
  destruct (run_part_wp nvme_view nvme_put _ (late c h sc b) (fun e x => e = E_NOTFOUND /\
    exists d, x = mkNb (mkNw d h ctrl_zero true) vm pm b) (wp_nvme_absent _ _ (fun d => conj eq_refl (ex_intro _ d eq_refl))))
    as (e & x & E & -> & d & ->).
  exists d. exact E.
Qed.
End inits.

(** Every driver but the two for disks is up; the one for NVMe finds nothing. *)
Definition kernel_statuses (f : kdriver -> driver_status_t) : Prop :=
  f IDT = DRIVER_STATUS_INITIALIZED /\ f Keyboard = DRIVER_STATUS_INITIALIZED /\ f PIT = DRIVER_STATUS_INITIALIZED /\
  f BlockLayer = DRIVER_STATUS_INITIALIZED /\ f ATA <> DRIVER_STATUS_UNINITIALIZED /\ f NVMe = DRIVER_STATUS_FAILED.

Local Abbreviation before_nvme w := (foldl (start_driver (kernel_init_of l)) (untouched w) [IDT; Keyboard; PIT; BlockLayer; ATA]).

Lemma before_late c h sc b :
  fst (kh_alloc h 72) <> 0 ->
  exists f log c' b',
    before_nvme (late c h sc b) = mkProgress f (late c' (snd (kh_alloc h 72)) (with_ticks (with_heap sc h) 0) b') log /\
    kernel_statuses (set_fn f NVMe DRIVER_STATUS_FAILED) /\ f BlockLayer = DRIVER_STATUS_INITIALIZED /\
    vectors_set l c' /\ interrupts_on c' = interrupts_on c.
Proof.
  intros Hp. unfold untouched. cbn [foldl].
  destruct (idt_init_late c h sc b (drv_addr IDT)) as (c1 & E1 & Hv & Hi).
  erewrite (start_step _ IDT _ _); [|reflexivity|cbn [pr_world]; exact E1]. cbn [pr_status pr_log app is_ok].
  erewrite (start_step _ Keyboard E_OK (late c1 h sc b)); [|reflexivity|reflexivity]. cbn [pr_status pr_log app is_ok].
  destruct (pit_init_late c1 h sc b (drv_addr PIT)) as (d2 & E2).
  erewrite (start_step _ PIT _ _); [|reflexivity|cbn [pr_world]; exact E2]. cbn [pr_status pr_log app is_ok].
  destruct (block_init_late (set_bus d2 c1) h (with_ticks (with_heap sc h) 0) b (drv_addr BlockLayer) Hp) as (b3 & E3).
  erewrite (start_step _ BlockLayer _ _); [|reflexivity|cbn [pr_world]; exact E3]. cbn [pr_status pr_log app is_ok].
  destruct (ata_init_late (set_bus d2 c1) (snd (kh_alloc h 72)) (with_ticks (with_heap sc h) 0) b3 (drv_addr ATA)) as (e4 & d4 & b4 & E4).
  erewrite (start_step _ ATA _ _); [|reflexivity|cbn [pr_world]; exact E4]. cbn [pr_status pr_log app].
  eexists _, _, _, _. split; [reflexivity|]. split; [|split; [reflexivity|split; [exact Hv|exact Hi]]].
  unfold kernel_statuses. split_and!; try reflexivity. unfold set_fn. cbn. by destruct (is_ok e4).
Qed.

Lemma start_late c h sc b :
  fst (kh_alloc h 72) <> 0 ->
  exists f log c' b',
    start_drivers (kernel_init_of l) (late c h sc b) =
      mkProgress f (late c' (snd (kh_alloc h 72)) (with_ticks (with_heap sc h) 0) b') log /\
    kernel_statuses f /\ vectors_set l c' /\ interrupts_on c' = true.
Proof.
  intros Hp. destruct (before_late c h sc b Hp) as (f & log & c1 & b1 & E & Hf & Hb & Hv & _).
  rewrite start_last, E. destruct (nvme_init_late c1 (snd (kh_alloc h 72)) (with_ticks (with_heap sc h) 0) b1 (drv_addr NVMe)) as (d5 & E5).
  erewrite (start_step _ NVMe _ _); [|unfold can_start; cbn [dependency pr_status]; by rewrite Hb|cbn [pr_world]; exact E5].
  cbn [pr_status pr_log is_ok]. eexists _, _, _, _. split; [reflexivity|]. split; [exact Hf|]. split; [exact Hv|reflexivity].
Qed.
End late.

(** ** The second half *)

Section second_half.
Context {D : Type} `{HC : PciConfig D} `{HR : NvmeRegs D}.
Context (l : layout) (r : registry (kstate D)) (pm : pmm) (vm : vmm) (lg : legacy) (vf : vfs (heap buddy)) (ty : tty).

Definition running (c : cpu D) (h : heap buddy) (sc : sched (heap buddy)) (b : block_sys (option (nvme_world D))) : kernel D :=
  mkKernel r (late [] [] pm vm lg vf ty c h sc b).

Lemma sched_part_eq {A} (f : sched (heap buddy) -> A * sched (heap buddy)) c h sc b o t x :
  f (with_heap sc h) = x ->
  on_part (fun s => f (sched_of s)) set_sched (out o t (running c h sc b)) =
  Some (fst x, out o t (running c (k_heap (snd x)) (snd x) b)).
Proof. intros <-. reflexivity. Qed.
Lemma with_own_heap (x : sched (heap buddy)) : with_heap x (k_heap x) = x.
Proof. by destruct x. Qed.
Lemma sched_own_eq {A} (f : sched (heap buddy) -> A * sched (heap buddy)) c sc b o t :
  on_part (fun s => f (sched_of s)) set_sched (out o t (running c (k_heap sc) sc b)) =
  Some (fst (f sc), out o t (running c (k_heap (snd (f sc))) (snd (f sc)) b)).
Proof. apply sched_part_eq. by rewrite with_own_heap. Qed.

Lemma with_heap_ticks (s : sched (heap buddy)) g T : with_heap (with_ticks (with_heap s g) T) g = with_ticks (with_heap s g) T.
Proof. reflexivity. Qed.

(** The steps on the states they meet. *)
Lemma task_step_boot T1 c b o t :
  task_step (out o t (running c (snd managed) (with_ticks (with_heap task_zero (snd managed)) T1) b)) =
  Some (fst (task_init (with_ticks (with_heap task_zero (snd managed)) T1)), out o t (running c (k_heap (tasks_ready T1)) (tasks_ready T1) b)).
Proof.
  unfold task_step, tasks_ready.
  exact (sched_part_eq task_init c (snd managed) (with_ticks (with_heap task_zero (snd managed)) T1) b o t _
    (f_equal task_init (with_heap_ticks task_zero (snd managed) T1))).
Qed.
Lemma scheduler_step_boot T1 T2 c b o t :
  let s := with_ticks (tasks_ready T1) T2 in
  scheduler_step l (out o t (running c (k_heap s) s b)) =
  let sc := sched_ready T1 T2 (l_return_error l) (l_idle_entry l) in
  Some (fst (scheduler_init s (l_return_error l) (l_idle_entry l)), out o t (running c (k_heap sc) sc b)).
Proof. exact (sched_own_eq (fun s => scheduler_init s (l_return_error l) (l_idle_entry l)) c (with_ticks (tasks_ready T1) T2) b o t). Qed.

(** Interrupts are taken. *)
Lemma wp_window n c h sc b o t x (Q : unit -> kernel D -> Prop) :
  interrupts_on c = true -> Nat.iter n pit_handler (with_heap sc h) = x ->
  Q tt (out o t (running c (k_heap x) x b)) -> wp (timer_interrupts n) (out o t (running c h sc b)) Q.
Proof. intros Hi <- HQ. unfold wp, timer_interrupts, on_st. cbn [out running kn_st kn_reg late set_ser set_con ks_cpu]. rewrite Hi. exact HQ. Qed.
Lemma wp_window_own n c sc b o t x (Q : unit -> kernel D -> Prop) :
  interrupts_on c = true -> Nat.iter n pit_handler sc = x ->
  Q tt (out o t (running c (k_heap x) x b)) -> wp (timer_interrupts n) (out o t (running c (k_heap sc) sc b)) Q.
Proof. intros Hi E. apply wp_window; [done|]. by rewrite with_own_heap. Qed.
Lemma wp_window_first n c h b o t (Q : unit -> kernel D -> Prop) :
  interrupts_on c = true ->
  (forall T, Q tt (out o t (running c (snd managed) (with_ticks (with_heap task_zero (snd managed)) T) b))) ->
  wp (timer_interrupts n) (out o t (running c (snd managed) (with_ticks (with_heap task_zero h) 0) b)) Q.
Proof.
  intros Hi HQ. generalize (snd managed) HQ. clear HQ. intros g HQ.
  destruct (early_ticks n (with_heap (with_ticks (with_heap task_zero h) 0) g) eq_refl) as [T E].
  eapply wp_window; [done|exact E|]. exact (HQ T).
Qed.

(** An initialisation that succeeds only adds to the output. *)
Lemma wp_try_keep name m n o t k k2 e (Q : Z -> kernel D -> Prop) :
  (forall o t, m (out o t k) = Some (e, out o t k2)) -> e = E_OK -> (forall x y, Q n (out (o ++ x) (t ++ y) k2)) ->
  wp (TRY_INIT name m n) (out o t k) Q.
Proof.
  intros Hm -> HQ. unfold TRY_INIT. do 3 (apply wp_bind, wp_ser). do 3 (apply wp_bind, wp_say).
  apply wp_bind. unfold wp at 1. rewrite Hm. cbn [is_ok]. apply wp_bind, wp_say. apply wp_bind, wp_ser. apply wp_ret.
  rewrite <- !app_assoc. apply HQ.
Qed.

Lemma create_shell_eq c sc b o t p sc' sc2 n (Q : Z -> kernel D -> Prop) :
  task_create sc (l_return_error l) (str "shell") (l_shell_entry l) = (p, sc') -> p <> 0 -> scheduler_add_task sc' p = sc2 ->
  (forall x y, Q n (out (o ++ x) (t ++ y) (running c (k_heap sc2) sc2 b))) ->
  wp (create_shell l n) (out o t (running c (k_heap sc) sc b)) Q.
Proof.
  intros E Hp Hs HQ. unfold create_shell. apply wp_bind. unfold wp at 1.
  rewrite (sched_part_eq (fun s => task_create s _ _ _) c _ sc b o t (p, sc')) by (rewrite with_own_heap; exact E).
  cbn [fst snd]. rewrite (proj2 (Z.eqb_neq _ _) Hp). cbn [negb]. apply wp_bind. unfold wp at 1.
  rewrite (sched_part_eq (fun s => (tt, scheduler_add_task s p)) c _ sc' b o t (tt, sc2))
    by (rewrite with_own_heap, Hs; reflexivity).
  cbn [fst snd]. apply wp_bind, wp_ser. apply wp_bind, wp_say. apply wp_ret. apply HQ.
Qed.

Lemma wp_list c h sc b o t (Q : unit -> kernel D -> Prop) :
  Q tt (out (o ++ driver_list r) t (running c h sc b)) -> wp (fun k => say (driver_list (kn_reg k)) k) (out o t (running c h sc b)) Q.
Proof. done. Qed.
Lemma wp_enable c h sc b o t (Q : kerr_t -> kernel D -> Prop) :
  (forall c', idt_loaded c' = idt_loaded c -> idt c' = idt c -> interrupts_on c' = true -> Q E_OK (out o t (running c' h sc b))) ->
  wp (on_bus (idt_enable_interrupts ;;; io_ret E_OK)) (out o t (running c h sc b)) Q.
Proof. intros HQ. exact (HQ (mkCpu (c_bus c) (idt c) (idt_ptr c) (idt_loaded c) true) eq_refl eq_refl eq_refl). Qed.

(** After the shell task. *)
Definition final_part : io (kernel D) unit :=
  (fun k => say (driver_list (kn_reg k)) k) ;;;
  (let! _ := on_bus (idt_enable_interrupts ;;; io_ret E_OK) in io_ret tt) ;;;
  ser_puts "Kernel initialization complete, entering idle loop\n" ;;;
  say_puts "\nKernel running. Type 'help' for commands.\n\n".
Lemma wp_final_part c h sc b o t (Q : unit -> kernel D -> Prop) :
  (forall x y c', idt_loaded c' = idt_loaded c -> idt c' = idt c -> interrupts_on c' = true ->
     Q tt (out (o ++ x) (t ++ y) (running c' h sc b))) ->
  wp final_part (out o t (running c h sc b)) Q.
Proof.
  intros HQ. unfold final_part. apply wp_bind, wp_list. apply wp_bind. apply wp_bind, wp_enable. intros c' Hl Hd Hi.
  apply wp_ret. apply wp_bind, wp_ser, wp_say. rewrite <- app_assoc. by apply HQ.
Qed.
End second_half.

(** ** The whole sequence *)

Lemma elem_mid {A} (a : A) x y : a ∈ (x ++ [a]) ++ y.
Proof. set_solver. Qed.

Section whole.
Context {D : Type} `{HC : PciConfig D} `{HR : NvmeRegs D}.
Context (l : layout) (v0 : vmm).

Lemma driver_step_from (k : kernel D) e st :
  driver_init_all (kn_reg k) (kn_st k) = (e, st) -> ks_hung (i_world st) = false ->
  driver_init_step k = Some (tt, mkKernel (i_reg st) (i_world st)).
Proof. intros E Hh. unfold driver_init_step. rewrite E. cbn [snd]. by rewrite Hh. Qed.

Lemma driver_init_late c h x pm vm lg vf ty o t :
  (forall v, v ∈ [l_irq0 l; l_irq1 l; l_irq_page_fault l] -> 0 <= v < 2 ^ 64) -> ata_answers (D := D) l -> no_nvme (D := D) ->
  kh_alloc h 72 = x -> fst x <> 0 ->
  exists f c' b',
    driver_init_step (out o t (stage c (kernel_registry (kernel_init_of l)) h pm vm lg vf ty)) =
      Some (tt, out o t (running (reg_with (kernel_init_of l) f) pm vm lg vf ty c' (snd x) (with_ticks (with_heap task_zero h) 0) b')) /\
    kernel_statuses f /\ vectors_set l c' /\ interrupts_on c' = true.
Proof.
  intros Hs Ha Hn <- Hp.
  destruct (start_late l Hs o t pm vm lg vf ty Ha Hn c h task_zero (mkBlk ∅ None) Hp) as (f & log & c' & b' & E & Hf & Hv & Hi).
  exists f, c', b'. split; [|done].
  destruct (kernel_drivers_run (kernel_init_of l) (late o t pm vm lg vf ty c h task_zero (mkBlk ∅ None))) as [made Er].
  rewrite E in Er. exact (driver_step_from (out o t (stage c (kernel_registry (kernel_init_of l)) h pm vm lg vf ty)) _ _ Er eq_refl).
Qed.

Lemma wp_banner c (Q : unit -> kernel D -> Prop) :
  (forall o t d, Q tt (out o t (loaded l v0 (set_bus d c)))) -> wp boot_banner (loaded l v0 c) Q.
Proof.
  intros HQ. unfold boot_banner. apply wp_bind. unfold wp at 1, on_bus. destruct (serial_init_bus c) as (e & d & E).
  cbn [loaded stage kn_st kn_reg ks_cpu]. rewrite E.
  change (mkKernel _ _) with (out [] [] (loaded l v0 (set_bus d c))).
  do 8 (apply wp_bind, wp_ser). apply wp_bind, wp_say. destruct (is_ok e); [apply wp_say|apply wp_ret]; apply HQ.
Qed.

(** What the idle loop starts with, after [n3] and [n4] interrupts since the scheduler came up. *)
Record system_ready (n3 n4 : nat) (k : kernel D) : Prop := {
  ready_vectors : vectors_set l (ks_cpu (kn_st k));
  ready_interrupts : interrupts_on (ks_cpu (kn_st k)) = true;
  ready_drivers : kernel_statuses (fun d => d_status (drv_at (kn_reg k) (drv_addr d)));
  ready_sched : exists shell, shell <> 0 /\
    t_name (task_at (ks_sched (kn_st k)) shell) = str "shell" /\
    sched_ok (ks_sched (kn_st k)) (mkA (idle_task (ks_sched (kn_st k))) (TIME_SLICE_TICKS - Z.of_nat (n3 + n4)) [shell] []) /\
    current_task (Nat.iter (10 - (n3 + n4)) pit_handler (ks_sched (kn_st k))) = shell;
  ready_heap : k_heap (ks_sched (kn_st k)) = ks_heap (kn_st k);
  ready_root : exists root, root <> 0 /\ vfs_resolve_path (ks_vfs (kn_st k)) (str "/") = Some root /\
    n_type (node_at (ks_vfs (kn_st k)) root) = FILE_TYPE_DIRECTORY;
  ready_said : CPutsColor (lit "\nReady! System is running.\n") COLOR_SUCCESS ∈ ks_con (kn_st k);
}.

Lemma root_found : exists root, root <> 0 /\ vfs_resolve_path (snd root_mounted) (str "/") = Some root /\
  n_type (node_at (snd root_mounted) root) = FILE_TYPE_DIRECTORY.
Proof.
  exists (default 0 (vfs_resolve_path (snd root_mounted) (str "/"))).
  split; [vm_compute; discriminate|]. split; vm_compute; reflexivity.
Qed.

Lemma status_reg f d : d_status (drv_at (reg_with (kernel_init_of l) f) (drv_addr d)) = f d.
Proof. by rewrite drv_at_reg. Qed.

(** The scheduler at the end. *)
Abbreviation final_sched T1 T2 n3 n4 := (shell_waits T1 T2 (l_return_error l) (l_idle_entry l) (l_shell_entry l) n3 n4).

Lemma running_ready f c b o t pm vm lg ty T1 T2 n3 n4 :
  kernel_statuses f -> vectors_set l c -> interrupts_on c = true -> (n3 + n4 < 10)%nat ->
  CPutsColor (lit "\nReady! System is running.\n") COLOR_SUCCESS ∈ o ->
  let sc := final_sched T1 T2 n3 n4 in
  system_ready n3 n4 (out o t (running (reg_with (kernel_init_of l) f) pm vm lg (snd root_mounted) ty c (k_heap sc) sc b)).
Proof.
  intros Hf Hv Hi Hn Ho. split; cbn [out running kn_st kn_reg late set_ser set_con ks_cpu ks_con ks_ser ks_heap ks_vfs ks_sched].
  - exact Hv.
  - exact Hi.
  - unfold kernel_statuses in *. by rewrite !status_reg.
  - exists (shell_task T1 T2 (l_return_error l) (l_idle_entry l) (l_shell_entry l) n3).
    assert (H3 : (n3 < 10)%nat) by lia. assert (H4 : (n4 < 10)%nat) by lia.
    split; [exact (shell_nonnull _ _ _ _ _ n3 H3)|]. split; [exact (proj1 (shell_named _ _ _ _ _ n3 n4 H3 H4))|].
    split; [exact (shell_waits_ok _ _ _ _ _ n3 n4 Hn)|exact (shell_runs_later _ _ _ _ _ n3 n4 Hn)].
  - reflexivity.
  - exact root_found.
  - exact Ho.
Qed.

(** The parts before and after the drivers. *)
Definition first_part : io (kernel D) Z :=
  boot_banner ;;; let! n := boot_components l in ready_message n ;;; io_ret n.
Definition last_part (n1 n2 n3 n4 : nat) (n : Z) : io (kernel D) unit :=
  timer_interrupts n1 ;;;
  let! n := TRY_INIT "Task System" task_step n in
  timer_interrupts n2 ;;;
  let! n := TRY_INIT "Scheduler" (scheduler_step l) n in
  timer_interrupts n3 ;;;
  let! n := create_shell l n in
  timer_interrupts n4 ;;;
  final_part.

Lemma wp_last_part n1 n2 n3 n4 n f pm vm lg vf ty c h b o t (Q : unit -> kernel D -> Prop) :
  interrupts_on c = true -> (n3 < 10)%nat ->
  (forall T1 T2 x y c', idt_loaded c' = idt_loaded c -> idt c' = idt c -> interrupts_on c' = true ->
     let sc := final_sched T1 T2 n3 n4 in
     Q tt (out (o ++ x) (t ++ y) (running (reg_with (kernel_init_of l) f) pm vm lg vf ty c' (k_heap sc) sc b))) ->
  wp (last_part n1 n2 n3 n4 n)
    (out o t (running (reg_with (kernel_init_of l) f) pm vm lg vf ty c (snd managed) (with_ticks (with_heap task_zero h) 0) b)) Q.
Proof.
  intros Hi Hn3 HQ. unfold last_part. apply wp_bind, wp_window_first; [exact Hi|]. intros T1.
  eapply wp_bind, wp_try_keep; [intros; apply task_step_boot|exact (tasks_ready_ok T1)|]. intros x1 y1.
  destruct (early_ticks n2 (tasks_ready T1) (tasks_ready_current T1)) as [T2 E2].
  apply wp_bind. eapply wp_window_own; [exact Hi|exact E2|].
  eapply wp_bind, wp_try_keep; [intros; apply scheduler_step_boot|exact (sched_ready_ok T1 T2 (l_return_error l) (l_idle_entry l))|]. intros x2 y2.
  apply wp_bind. eapply wp_window_own; [exact Hi|exact (eq_refl (ticked T1 T2 (l_return_error l) (l_idle_entry l) n3))|].
  apply wp_bind. eapply create_shell_eq; [apply shell_made_eq|exact (shell_nonnull T1 T2 (l_return_error l) (l_idle_entry l) (l_shell_entry l) n3 Hn3)|apply shell_ready_eq|].
  intros x3 y3. apply wp_bind. eapply wp_window_own; [exact Hi|exact (eq_refl (final_sched T1 T2 n3 n4))|].
  apply wp_final_part. intros x4 y4 c' Hl Hd Hi'. rewrite <- !app_assoc. exact (HQ T1 T2 _ _ c' Hl Hd Hi').
Qed.

Lemma run_parts (m1 : io (kernel D) unit) (m2 : io (kernel D) Z) (m3 : Z -> io (kernel D) unit) (m4 : io (kernel D) unit)
    (m5 : Z -> io (kernel D) unit) s n k0 k1 r :
  (m1 ;;; let! n := m2 in m3 n ;;; io_ret n) s = Some (n, k0) -> m4 k0 = Some (tt, k1) -> m5 n k1 = r ->
  (m1 ;;; let! n := m2 in m3 n ;;; m4 ;;; m5 n) s = r.
Proof.
  unfold io_bind, io_ret. destruct (m1 s) as [[[] s1]|]; [|done]. destruct (m2 s1) as [[a s2]|]; [|done].
  destruct (m3 a s2) as [[[] s3]|]; [|done]. intros [= -> ->] E4 E5. by rewrite E4, E5.
Qed.
Lemma kernel_main_parts n1 n2 n3 n4 : kernel_main l n1 n2 n3 n4 (D := D) =
  (boot_banner ;;; let! n := boot_components l in ready_message n ;;; driver_init_step ;;; last_part n1 n2 n3 n4 n).
Proof. unfold last_part, final_part. reflexivity. Qed.

Lemma first_part_up c : l_blocks l = ∅ ->
  exists o t d, first_part (loaded l v0 c) =
    Some (0, out (o ++ [CPutsColor (lit "\nReady! System is running.\n") COLOR_SUCCESS]) t (components_up l v0 (set_bus d c))).
Proof.
  intros Hb. destruct (wp_run first_part (loaded l v0 c) (fun n k => exists o t d, n = 0 /\
    k = out (o ++ [CPutsColor (lit "\nReady! System is running.\n") COLOR_SUCCESS]) t (components_up l v0 (set_bus d c))))
    as (n & k & E & o & t & d & -> & ->); [|by exists o, t, d].
  unfold first_part. apply wp_bind, wp_banner. intros o1 t1 d1. apply wp_bind.
  apply boot_components_up; [exact Hb|]. intros o2 t2. apply wp_bind. unfold ready_message. cbn [Z.eqb].
  apply wp_say. apply wp_ret. by exists o2, t2, d1.
Qed.

(** The state in which the NVMe driver starts. *)
Definition before_nvme (w : kstate D) : kstate D :=
  pr_world (foldl (start_driver (kernel_init_of l)) (untouched w) [IDT; Keyboard; PIT; BlockLayer; ATA]).
#[local] Strategy expand [before_nvme].
Lemma stage_before c h x r pm vm lg vf ty o t :
  (forall v, v ∈ [l_irq0 l; l_irq1 l; l_irq_page_fault l] -> 0 <= v < 2 ^ 64) -> ata_answers (D := D) l ->
  kh_alloc h 72 = x -> fst x <> 0 ->
  let w := before_nvme (kn_st (out o t (stage c r h pm vm lg vf ty))) in
  vectors_set l (ks_cpu w) /\ interrupts_on (ks_cpu w) = interrupts_on c.
Proof.
  intros Hs Ha <- Hp. cbv zeta.
  destruct (before_late l Hs o t pm vm lg vf ty Ha c h task_zero (mkBlk ∅ None) Hp) as (f & log & c' & b' & E & _ & _ & Hv & Hi).
  change (kn_st (out o t (stage c r h pm vm lg vf ty))) with (late o t pm vm lg vf ty c h task_zero (mkBlk ∅ None)).
  unfold before_nvme. rewrite E. exact (conj Hv Hi).
Qed.

(** The machine. *)
Context (Hblocks : l_blocks l = ∅).
Context (Hstubs : forall v, v ∈ [l_irq0 l; l_irq1 l; l_irq_page_fault l] -> 0 <= v < 2 ^ 64).
Context (Hata : ata_answers (D := D) l) (Hnvme : no_nvme (D := D)).

(** The run, with its final state. *)
Lemma kernel_main_run (c : cpu D) (n1 n2 n3 n4 : nat) : (n3 + n4 < 10)%nat ->
  exists k0 k1 o t f c' b T1 T2,
    first_part (loaded l v0 c) = Some (0, k0) /\
    (vectors_set l (ks_cpu (before_nvme (kn_st k0))) /\ interrupts_on (ks_cpu (before_nvme (kn_st k0))) = interrupts_on c) /\
    driver_init_step k0 = Some (tt, k1) /\
    interrupts_on (ks_cpu (kn_st k1)) = true /\ current_task (ks_sched (kn_st k1)) = 0 /\
    let sc := final_sched T1 T2 n3 n4 in
    kernel_main l n1 n2 n3 n4 (loaded l v0 c) =
      Some (tt, out o t (running (reg_with (kernel_init_of l) f) (snd (pmm_alloc_page pmm_boot)) (vmm_up l v0) legacy_up
        (snd root_mounted) (snd tty_init) c' (k_heap sc) sc b)) /\
    kernel_statuses f /\ vectors_set l c' /\ interrupts_on c' = true /\
    CPutsColor (lit "\nReady! System is running.\n") COLOR_SUCCESS ∈ o.
Proof.
  intros Hn. destruct (first_part_up c Hblocks) as (o & t & d & E0). set (o1 := o ++ _) in E0.
  destruct (driver_init_late (set_bus d c) (v_heap (snd root_mounted)) managed (snd (pmm_alloc_page pmm_boot)) (vmm_up l v0) legacy_up (snd root_mounted)
    (snd tty_init) o1 t Hstubs Hata Hnvme managed_eq managed_nonnull) as (f & c2 & b2 & E1 & Hf & Hv & Hi).
  destruct (wp_run (last_part n1 n2 n3 n4 0) (out o1 t (running (reg_with (kernel_init_of l) f) (snd (pmm_alloc_page pmm_boot)) (vmm_up l v0) legacy_up
    (snd root_mounted) (snd tty_init) c2 (snd managed) (with_ticks (with_heap task_zero (v_heap (snd root_mounted))) 0) b2))
    (fun _ k => exists T1 T2 x y c', k = out (o1 ++ x) (t ++ y) (running (reg_with (kernel_init_of l) f) (snd (pmm_alloc_page pmm_boot)) (vmm_up l v0) legacy_up
        (snd root_mounted) (snd tty_init) c' (k_heap (final_sched T1 T2 n3 n4)) (final_sched T1 T2 n3 n4) b2) /\
      idt_loaded c' = idt_loaded c2 /\ idt c' = idt c2 /\ interrupts_on c' = true))
    as ([] & k & E2 & T1 & T2 & x & y & c3 & -> & Hl3 & Hd3 & Hi3).
  { apply wp_last_part; [exact Hi|lia|]. intros T1 T2 x y c3 Hl3 Hd3 Hi3. exists T1, T2, x, y, c3. split; [reflexivity|exact (conj Hl3 (conj Hd3 Hi3))]. }
  eexists _, _, (o1 ++ x), (t ++ y), f, c3, b2, T1, T2.
  split; [exact E0|]. split; [|split; [exact E1|split; [exact Hi|split; [reflexivity|split; [|split; [exact Hf|split; [|split; [exact Hi3|apply elem_mid]]]]]]]].
  - exact (stage_before (set_bus d c) (v_heap (snd root_mounted)) managed _ _ _ _ _ _ o1 t Hstubs Hata managed_eq managed_nonnull).
  - rewrite kernel_main_parts. exact (run_parts _ _ _ _ _ _ _ _ _ _ E0 E1 E2).
  - unfold vectors_set. rewrite Hl3, Hd3. exact Hv.
Qed.

(** C4. On a machine whose disk driver does not poll for ever and that has no
    NVMe controller, [kernel_main] runs from the loader's state to the idle loop, whatever
    the ports answer, when fewer timer interrupts than a time slice has ticks arrive once the
    scheduler is up.  Interrupts come on in the bus scan of the NVMe driver: the interrupt table is loaded
    with the timer, keyboard and page-fault stubs by then, but no task exists yet,
    and any number of timer interrupts before [scheduler_init] does no harm.  In the idle loop all
    drivers but the disks' are up, the RAM file system is the root, and the idle task
    runs with the shell next in line, so that the shell has the
    processor when the slice is over; no initialisation of the first half failed. *)
Theorem kernel_main_ready (c : cpu D) (n1 n2 n3 n4 : nat) (Hn : (n3 + n4 < 10)%nat) :
  exists k0 k1 k,
    first_part (loaded l v0 c) = Some (0, k0) /\
    (vectors_set l (ks_cpu (before_nvme (kn_st k0))) /\ interrupts_on (ks_cpu (before_nvme (kn_st k0))) = interrupts_on c) /\
    driver_init_step k0 = Some (tt, k1) /\
    interrupts_on (ks_cpu (kn_st k1)) = true /\ current_task (ks_sched (kn_st k1)) = 0 /\
    kernel_main l n1 n2 n3 n4 (loaded l v0 c) = Some (tt, k) /\ system_ready n3 n4 k.
Proof.
  destruct (kernel_main_run c n1 n2 n3 n4 Hn) as (k0 & k1 & o & t & f & c' & b & T1 & T2 & E0 & Hb & E1 & Hi & Hc & E & Hf & Hv & Hi' & Ho).
  eexists k0, k1, _. split; [exact E0|]. split; [exact Hb|]. split; [exact E1|]. split; [exact Hi|]. split; [exact Hc|].
  split; [exact E|]. by apply running_ready.
Qed.

(** C19. The region that [kernel_main] gives to the buddy allocator still belongs to the
    page manager: in the state in which the idle loop starts, every page of the region of the heap's
    buddy allocator is one that [pmm_alloc_page], which the page tables take their frames from,
    hands out after enough calls. *)
Theorem buddy_region_not_reserved (c : cpu D) (n1 n2 n3 n4 : nat) (Hn : (n3 + n4 < 10)%nat) :
  exists k a, kernel_main l n1 n2 n3 n4 (loaded l v0 c) = Some (tt, k) /\
    sy_pages (h_slab (ks_heap (kn_st k))) = Some a /\ 0 < total_size a /\
    forall q, base_addr a <= q < base_addr a + total_size a -> q mod PAGE_SIZE = 0 ->
      exists m, fst (pmm_alloc_page (Nat.iter m (fun s => snd (pmm_alloc_page s)) (ks_pmm (kn_st k)))) = q.
Proof.
  destruct (kernel_main_run c n1 n2 n3 n4 Hn) as (k0 & k1 & o & t & f & c' & b & T1 & T2 & _ & _ & _ & _ & _ & E & _).
  destruct (final_region T1 T2 (l_return_error l) (l_idle_entry l) (l_shell_entry l) n3 n4) as (a & Ea & Eb & Es); [lia|lia|].
  eexists _, a. split; [exact E|]. split; [exact Ea|]. rewrite Eb, Es. split; [reflexivity|]. exact region_taken.
Qed.
End whole.

(** ** A machine without devices *)

(** The ports read as zero and the PCI slots as empty. *)
Module SimBare.
#[global] Instance bare_bus : PortBus unit := {|
  bus_in8 _ d := (0, d); bus_out8 _ _ d := d;
  bus_in16 _ d := (0, d); bus_out16 _ _ d := d;
  bus_in32 _ d := (0xFFFFFFFF, d); bus_out32 _ _ d := d |}.
#[global] Instance bare_regs : NvmeRegs unit := {|
  mm_read32 _ d := (0, d); mm_write32 _ _ d := d; mm_read64 _ d := (0, d); mm_write64 _ _ d := d; mm_dma d m := (d, m) |}.
#[global] Instance bare_pci : PciConfig unit.
Proof. refine {| pci_space _ _ _ _ := 0xFFFFFFFF |}; [lia|done]. Defined.

Definition addresses : layout :=
  mkLayout 0x110000 0x101000 0x101100 0x101200 (fun i => 0x120000 + 64 * i) (fun i => 0x121000 + 16 * i)
    (fun i => 0x122000 + 64 * i) 0x123000 0x102000 0x102100 0x102200 0x1000 ∅ 0.
Definition cpu0 : cpu unit := mkCpu tt ∅ (mkIdtPtr 0 0) None false.

Lemma bare_identify fuel dd dev data n (x : ata_boot unit) : ata_identify fuel dd dev data n x = Some (E_NOTFOUND, x).
Proof. destruct x as [[] b]. lazy. reflexivity. Qed.
Lemma bare_ata : ata_answers (D := unit) addresses.
Proof.
  intros x. unfold ata_driver_init, io_bind. destruct (io_for 4 0 _ x) as [[[] y]|] eqn:E; [|discriminate E].
  cbn [identify_all]. unfold io_bind. rewrite !bare_identify. by eexists.
Qed.
Lemma bare_nvme : no_nvme (D := unit).
Proof. intros d i _. reflexivity. Qed.
Lemma bare_stubs v : v ∈ [l_irq0 addresses; l_irq1 addresses; l_irq_page_fault addresses] -> 0 <= v < 2 ^ 64.
Proof. cbn. rewrite !elem_of_cons, elem_of_nil. lia. Qed.
End SimBare.

(** Two interrupts on every way. *)
Lemma kernel_main_ready_witness :
  exists k, kernel_main SimBare.addresses 2 2 2 2 (loaded SimBare.addresses vm0 SimBare.cpu0) = Some (tt, k) /\
    interrupts_on (ks_cpu (kn_st k)) = true.
Proof.
  destruct (kernel_main_ready SimBare.addresses vm0 eq_refl SimBare.bare_stubs SimBare.bare_ata SimBare.bare_nvme SimBare.cpu0 2 2 2 2 ltac:(lia))
    as (k0 & k1 & k & _ & _ & _ & _ & _ & E & Hk).
  exists k. split; [exact E|exact (ready_interrupts _ _ _ _ Hk)].
Defined.

Lemma buddy_region_not_reserved_witness :
  exists k a, kernel_main SimBare.addresses 2 2 2 2 (loaded SimBare.addresses vm0 SimBare.cpu0) = Some (tt, k) /\
    sy_pages (h_slab (ks_heap (kn_st k))) = Some a /\ 0 < total_size a.
Proof.
  destruct (buddy_region_not_reserved SimBare.addresses vm0 eq_refl SimBare.bare_stubs SimBare.bare_ata SimBare.bare_nvme SimBare.cpu0 2 2 2 2 ltac:(lia))
    as (k & a & E & Ha & Hs & _).
  exists k, a. exact (conj E (conj Ha Hs)).
Defined.
